(* ===== verification/_CoqProject ===== *)
-Q . S2P
Prelude.v
Bytes.v
Bits.v
Sbp.v
Prng.v
PrngPeriod.v
ShmLayout.v
Os.v
Total.v
Shm.v
Mapping.v
Seqlock.v
Env.v
TimeManager.v
Controller.v
Typing.v
ControllerFacts.v
ControllerLoop.v
Termination.v
Shutdown.v
Shim.v
ShimFacts.v
Time.v
TimeFacts.v
TimeOrder.v
MemoryModel.v
Threads.v
Session.v
Random.v
RandomFacts.v
Sigsys.v
SigsysFacts.v
Startup.v
Process.v
ProcessFacts.v
CloneRecord.v
Trapping.v
Spawning.v
SpawningFacts.v
Stopping.v
ShimTyping.v
Interposed.v
Clients.v
UnitTests.v
Witnesses.v
