(* ===== verification/Prelude.v ===== *)
(** * linbox: a verified model of the deterministic-simulation sandbox

    linbox runs unmodified Linux programs in virtual time and with reproducible
    randomness.  A controller process (src/src/controller) owns a clock and a
    seed and publishes them in a shared memory region (src/src/common/shm.c);
    programs run with a preloaded shim, liblinbox.so (src/src/shim), that
    answers their time and random functions from the region, keeps their
    children in the sandbox, and traps the system calls that would go round it.
    Controller and shim talk over a Unix socket in the SBP protocol
    (src/src/common/sbp.c).

    ** The parts

    - [Bytes], [Bits]: byte buffers as lists of integers with checked access,
      the little-endian reference encoding, and bit operations on words.
    - [Sbp] (sbp.c, sbp.h): frames and messages.  [message_bytes] is the wire
      format, [decode_message] the reference decoder.
    - [Prng] (prng.c): splitmix64, xorshift64*, filling and bounded draws;
      [PrngPeriod]: the period of the generator, by linear algebra over GF(2),
      and with it the termination of the rejection loop.
    - [ShmLayout] (shm-layout.h): the region's types, sizes and offsets.
    - [Os]: the state monad [M S] in which all stateful code runs, and the class
      [OS] of environments.  A process is its own state [S], [errno], its view of
      shared memory, and the log of everything it asked of libc and the kernel.
    - [Shm] (shm.c): creation, attachment, and the sequence lock around the time.
      [Seqlock]: the writer's accesses as a step relation, readers running
      concurrently with it.
    - [Env]: the environment block, [getenv], [setenv] and [unsetenv].
    - [TimeManager] (time-manager.c): the controller's clock, refining the
      abstract clock [vclock].
    - [Controller] (main.c): sockets, messages, the process table, the event loop;
      theorems in [ControllerFacts] (messages, table), [ControllerLoop] (the sweep,
      ownership of descriptors, the idle loop), [Termination] (the fuel of its
      loops) and [Shutdown] (no undefined behaviour on a sane host).
    - [Total]: total correctness, Hoare triples for code that returns; [Mapping]:
      its rules for the shared region, behind the class [Holding].
    - [Typing]: a Hoare logic whose assertions are the C types of the region and of
      a program's state, and its rules for the region, the time manager and the
      controller.
    - [Shim] (linbox.c, linbox.h, resolve.h): the shim's state, its connection and
      its seeding; theorems in [ShimFacts].
    - [Time], [TimeFacts] (time.c): the clocks; [TimeOrder]: readers in several
      processes against one run of the writer.  [MemoryModel]: the lock behind the
      store buffer of x86-64, and under the memory orders the source asks for.
    - [Threads]: threads of one process drawing from its generator, an access of
      the generator's state per step.
    - [Session]: the shim's end of a connection run against the controller's, over
      a stream socket: two queues of bytes without message boundaries.
    - [Random], [RandomFacts] (random.c): the random functions and devices.
    - [Sigsys], [SigsysFacts] (seccomp.c, sigsys.c, syscall-raw.c, syscall-wrap.c,
      and the constructor of linbox.c): the filter as a BPF program with the
      semantics of classic BPF, the handler, and direct system calls.  [Startup]:
      a process from its constructor through any sequence of draws.
    - [Process], [ProcessFacts] (process.c): exec and spawn, fork and clone;
      [CloneRecord]: parent and child of [clone] on the record they share.
    - [Trapping]: what becomes of fork, exec and the fallback clock under the
      shim's own filter.
    - [ShimTyping], [Interposed]: the typing logic for the shim, and for any
      sequence of calls of interposed functions, the values of [api].
    - [Clients] (random.preload.c, seccomp-helper.c): two whole programs run under
      the shim.  [Spawning], [SpawningFacts] (process.preload.c,
      linbox.preload.c): two more, which start a controller and fork; [Stopping]:
      they come to their end and stop it.
    - [UnitTests]: the repository's unit tests run on the model.
    - [Witnesses]: every theorem with hypotheses applied at concrete inputs.

    ** How it corresponds to the code

    Definitions carry the names of the C functions.  An [n]-bit integer is a [Z]
    with its wrap-around written out; signed overflow, a null or unmapped access
    and death by a signal are [Undef].  A buffer or structure passed by pointer
    is an argument and a result; a null pointer is [None] or address 0.  Each
    access to the shared region is one [load] or [store], before which other
    processes may change the memory arbitrarily ([os_interfere]); what a call of
    libc or the kernel answers is [os_answer] of the log so far.  Theorems that
    quantify over [OS] hold for every such behaviour; those that need documented
    behaviour ([grants], [listening], [kill_says], [malloc_works], ...) name it,
    and those about code alone on the memory assume [QuietMemory].  Every call
    answers at once: a call that blocks for ever in a real process, such as the
    [read] of main.c:109 on a silent client or the one of linbox.c on a silent
    controller, is outside the model, and theorems that say that code ends take
    its calls to return.  The direct
    system call is the class [RawSyscall], which the shim's code is written
    against; the class [SeccompKernel] states what the kernel makes of it under
    the filters the log records, running the shim's own handler on a trapped
    call, and [kernel_syscall] is an instance.

    ** What the theorems show

    - Encoding and decoding are inverse and accept nothing else; a read that
      holds two frames is refused.
    - A reader of the lock never returns a torn time while fewer than [2^31]
      writes complete during the read, and that bound is exact; the writer's code
      is a run of the step relation.  The same holds behind a store buffer; the
      memory orders alone would allow a torn time.
    - Virtual time follows real-time order: of two reads in different processes
      the later one reports the later time.
    - Every value keeps its C type, in the controller and in the shim, whatever a
      well-typed environment does and whatever the program calls; the shim's
      generator is never in its absorbing state.
    - The controller refines the clock: ticks, settings and messages have exactly
      their effect; the idle loop loses no time; the process table stays sound;
      nothing leaks on any path; a signal ends it, and on a sane host nothing it
      computes overflows.  The specification of the clock computes in unbounded
      integers, apart from the code.
    - Shim and controller agree: what one writes the other understands, over a
      stream and for any sequence of requests; each has exactly its effect and
      exactly one answer, and every attached process reads the result.
    - The stream of a process, from its constructor on and for any sequence of
      draws, is determined by the published seed and its own identifier; all random functions draw from it in order; no two processes
      share one; bounded draws are unbiased and terminate.
      Threads of a process draw each word once only if their draws do not overlap.
    - All clocks agree, through libc or by direct system calls.
    - Two client programs run end to end: what one prints is a function of its
      generator alone, and the other, which makes its calls directly under the
      filter, sees one time and one stream by every route.  The two that start a
      controller reach their end and have stopped it and waited for it by then.
    - Children inherit the sandbox's environment, and a forked child of a process
      without the filter has a connection, a registration and a stream of its own; no path of the exec
      family or of re-initialisation leaks.
    - Several theorems state behaviour that is not what the code means to do: the
      cascade of hang-ups, the region left odd by a crash (readers hang, or read a
      torn time during the next write), the overflow of
      [clock], the first [rand], the recursion under the filter, and the real
      clock that the parent of process.preload.c reads.

    ** Fuel

    Three loops of the code are unbounded: the reader's retries, the rejection
    loop and the controller's event loop; and trapped system calls may nest.
    Each takes fuel, and running out is the result [OutOfFuel], never a value.
    [prng_uniform_correct] gives enough fuel for every draw, [signal_stops_main]
    for the event loop (where a signal comes); the reader needs one attempt when the writer rests, and
    none suffices when the counter is odd, which [crashed_writer_hangs_clients]
    states for all fuel; so do the theorems of [Trapping] for all depths.  The
    sweep over clients takes as fuel their number, which always suffices, and
    [read_all] of process.preload.c the length of its buffer
    ([read_all_completes]).

    ** Not modelled

    Accesses to the region are sequentially consistent, which for the lock
    [tso_reads_linearizable] justifies on x86-64; for the process table, of
    which a reader only looks for one identifier, it is assumed.  Pointers have no identity
    beyond their address being null, mapped or allocated.  The shim's own calls
    of [read] and [close] on its socket go to libc directly: its wrappers
    forward a descriptor that is not virtual unchanged ([read_descriptor],
    [close_descriptor]), so only the resolution of the symbol is left out.
    Messages on stderr are reduced to their constant text.  The arguments of
    [posix_spawn] that the shim passes through unread, and the races of threads
    but for those on the generator ([Threads]) and the start record of [clone]
    ([CloneRecord]), are left out.  A run goes on in one process after a fork;
    that two processes run at once shows in what the region holds before each
    access.  The build is no part of the program. *)

From stdpp Require Export base list gmap strings.
From Stdlib Require Export ZArith Lia.

#[export] Set Default Goal Selector "!".
#[global] Open Scope Z_scope.

(** ** Results of executing C code

    [Ok a] is a normal return; [OutOfFuel] says that a loop was cut off by the
    fuel bound of the model; [Undef] is undefined behaviour of C: an access out
    of bounds or through a null pointer, or a signed overflow; also death by a
    signal. *)
Inductive res (A : Type) : Type :=
  | Ok (a : A)
  | OutOfFuel
  | Undef.
Arguments Ok {A} a.
Arguments OutOfFuel {A}.
Arguments Undef {A}.

#[export] Instance res_ret : MRet res := @Ok.
#[export] Instance res_bind : MBind res := fun A B f m =>
  match m with Ok a => f a | OutOfFuel => OutOfFuel | Undef => Undef end.

Lemma res_bind_Ok {A B} (m : res A) (f : A -> res B) (b : B) :
  (x ← m; f x) = Ok b <-> exists a, m = Ok a /\ f a = Ok b.
Proof.
  split.
  - destruct m as [a| |]; simpl; [eauto|discriminate|discriminate].
  - intros (a & -> & H). exact H.
Qed.

Lemma bind_Ok_l {A B} (a : A) (f : A -> res B) : (x ← Ok a; f x) = f a.
Proof. reflexivity. Qed.

(** ** Machine integers

    A [w]-bit unsigned value is a [Z] in [[0, 2^w)]; conversions wrap.  Signed
    conversion is two's complement (what gcc and clang define); signed
    arithmetic that leaves the range is undefined. *)
Definition wrap (w z : Z) : Z := z mod 2 ^ w.
Definition sext (w z : Z) : Z := (z + 2 ^ (w - 1)) mod 2 ^ w - 2 ^ (w - 1).

Abbreviation u8 := (wrap 8).
Abbreviation u16 := (wrap 16).
Abbreviation u32 := (wrap 32).
Abbreviation u64 := (wrap 64).
Abbreviation i32 := (sext 32).
Abbreviation i64 := (sext 64).

Definition in_u (w z : Z) : Prop := 0 <= z < 2 ^ w.
Definition in_s (w z : Z) : Prop := - 2 ^ (w - 1) <= z < 2 ^ (w - 1).

#[export] Instance in_u_dec w z : Decision (in_u w z) := _.
#[export] Instance in_s_dec w z : Decision (in_s w z).
Proof. unfold in_s. apply _. Defined.

(** Signed arithmetic in [int64_t]: the exact result, or undefined. *)
Definition ckd64 (z : Z) : res Z :=
  if bool_decide (in_s 64 z) then Ok z else Undef.

Lemma wrap_range w z : 0 <= w -> in_u w (wrap w z).
Proof. intros Hw. apply Z.mod_pos_bound. lia. Qed.

Lemma wrap_small w z : in_u w z -> wrap w z = z.
Proof. intros H. apply Z.mod_small. exact H. Qed.

Lemma u32_mod2 z : u32 z mod 2 = z mod 2.
Proof. unfold wrap. rewrite (Z.div_mod z (2 ^ 32)) at 2 by lia. Z.div_mod_to_equations. lia. Qed.

Lemma sext_small w z : 0 < w -> in_s w z -> sext w z = z.
Proof.
  intros Hw H. unfold sext, in_s in *.
  assert (2 ^ w = 2 * 2 ^ (w - 1)) by (rewrite <- Z.pow_succ_r by lia; f_equal; lia).
  rewrite Z.mod_small; lia.
Qed.

Lemma sext_wrap w z : 0 < w -> in_s w z -> sext w (wrap w z) = z.
Proof.
  intros Hw H. rewrite <- (sext_small w z) at 2 by assumption.
  unfold sext, wrap. rewrite Zplus_mod_idemp_l. reflexivity.
Qed.

Lemma wrap_sext w z : 0 < w -> in_u w z -> wrap w (sext w z) = z.
Proof.
  intros Hw H. unfold sext, wrap.
  rewrite Zminus_mod_idemp_l. rewrite Z.mod_small by (unfold in_u in H; lia). lia.
Qed.

Lemma sext_range w z : 0 < w -> in_s w (sext w z).
Proof.
  intros Hw. unfold sext, in_s.
  assert (2 ^ w = 2 * 2 ^ (w - 1)) by (rewrite <- Z.pow_succ_r by lia; f_equal; lia).
  pose proof (Z.mod_pos_bound (z + 2 ^ (w - 1)) (2 ^ w)). lia.
Qed.

Lemma ckd64_Ok z : in_s 64 z -> ckd64 z = Ok z.
Proof. intros H. unfold ckd64. rewrite bool_decide_eq_true_2 by exact H. reflexivity. Qed.

Lemma ckd64_Undef z : ~ in_s 64 z -> ckd64 z = Undef.
Proof. intros H. unfold ckd64. rewrite bool_decide_eq_false_2 by exact H. reflexivity. Qed.

Lemma ckd64_inv z y : ckd64 z = Ok y -> y = z /\ in_s 64 z.
Proof.
  unfold ckd64. case_bool_decide; [|discriminate]. intros [= <-]. auto.
Qed.
