(* ===== verification/Bytes.v ===== *)
(** * Byte buffers and little-endian words

    A C pointer into a byte array is a buffer (a list of byte values) and an
    offset.  [rd] and [wr] are the accesses [p[i]] and [p[i] = v]; an access out
    of bounds is [Undef].  [le_bytes] and [le_val] are the reference
    definitions of little-endian encoding that the codec of the wire protocol
    is compared with. *)
From S2P Require Import Prelude.

(** ** Accesses *)
Definition is_byte (b : Z) : Prop := 0 <= b < 256.

Definition rd (buf : list Z) (i : nat) : res Z :=
  match buf !! i with Some b => Ok b | None => Undef end.

Definition wr (buf : list Z) (i : nat) (b : Z) : res (list Z) :=
  if bool_decide (i < length buf)%nat then Ok (<[i := u8 b]> buf) else Undef.

(** [memcpy (buf + off, src, n)] *)
Definition memcpy (buf : list Z) (off : nat) (src : list Z) (n : nat) : res (list Z) :=
  if bool_decide (n <= length src /\ off + n <= length buf)%nat
  then Ok (take off buf ++ take n src ++ drop (off + n) buf)
  else Undef.

(** ** Reference encoding *)
Fixpoint le_bytes (n : nat) (v : Z) : list Z :=
  match n with
  | O => []
  | S n' => v mod 256 :: le_bytes n' (v / 256)
  end.

Fixpoint le_val (l : list Z) : Z :=
  match l with
  | [] => 0
  | b :: l' => b + 256 * le_val l'
  end.

Lemma length_le_bytes n v : length (le_bytes n v) = n.
Proof. revert v. induction n; intros v; simpl; auto. Qed.

Lemma le_bytes_is_byte n v : Forall is_byte (le_bytes n v).
Proof.
  revert v. induction n as [|n IH]; intros v; simpl; constructor; [|apply IH].
  apply Z.mod_pos_bound. lia.
Qed.

Lemma pow256_S n : 256 ^ Z.of_nat (S n) = 256 * 256 ^ Z.of_nat n.
Proof. rewrite Nat2Z.inj_succ, Z.pow_succ_r by lia. reflexivity. Qed.

Lemma le_val_bytes n v : 0 <= v < 256 ^ Z.of_nat n -> le_val (le_bytes n v) = v.
Proof.
  revert v. induction n as [|n IH]; intros v Hv.
  - simpl in *. lia.
  - rewrite pow256_S in Hv. cbn [le_bytes le_val]. rewrite IH.
    + pose proof (Z.div_mod v 256). lia.
    + split; [apply Z.div_pos; lia|apply Z.div_lt_upper_bound; lia].
Qed.

Lemma le_val_bytes_mod n : forall v, le_val (le_bytes n v) = v mod 256 ^ Z.of_nat n.
Proof.
  induction n as [|n IH]; intros v; [symmetry; apply Z.mod_1_r|].
  cbn [le_bytes le_val]. rewrite IH, pow256_S.
  rewrite Z.rem_mul_r by lia. unfold wrap. lia.
Qed.

Lemma take_le_bytes k n : forall v, take k (le_bytes (k + n) v) = le_bytes k v.
Proof. induction k as [|k IH]; intros v; [reflexivity|]. cbn. rewrite IH. reflexivity. Qed.

Lemma le_bytes_val l : Forall is_byte l -> le_bytes (length l) (le_val l) = l.
Proof.
  unfold is_byte. induction 1 as [|b l Hb Hl IH]; [reflexivity|]. cbn [length le_bytes le_val].
  rewrite (Z.mul_comm 256), Z.mod_add, Z.mod_small, Z.div_add, Z.div_small by lia.
  rewrite Z.add_0_l, IH. reflexivity.
Qed.

Lemma le_val_range l : Forall is_byte l -> 0 <= le_val l < 256 ^ Z.of_nat (length l).
Proof.
  unfold is_byte. induction 1 as [|b l Hb Hl IH]; [simpl; lia|].
  cbn [length le_val]. rewrite pow256_S. lia.
Qed.

(** A disjoint [|] is an addition. *)
Lemma lor_shiftl_add a b n :
  0 <= n -> 0 <= a < 2 ^ n -> Z.lor a (Z.shiftl b n) = a + 2 ^ n * b.
Proof.
  intros Hn Ha. rewrite Z.shiftl_mul_pow2, (Z.mul_comm b) by lia.
  symmetry. rewrite <- Z.lxor_lor, <- Z.add_nocarry_lxor; [reflexivity| |];
  (apply Z.bits_inj'; intros i Hi; rewrite Z.land_spec, Z.bits_0;
   destruct (decide (i < n));
   [rewrite (Z.mul_comm (2 ^ n)), <- Z.shiftl_mul_pow2, Z.shiftl_spec_low by lia; apply andb_false_r
   |rewrite <- (Z.mod_small a (2 ^ n)) by lia; rewrite Z.mod_pow2_bits_high by lia; reflexivity]).
Qed.

Lemma land_255 v : Z.land v 255 = v mod 256.
Proof. apply (Z.land_ones v 8). lia. Qed.

Lemma shiftr_byte v k : 0 <= k -> Z.shiftr v k = v / 2 ^ k.
Proof. intros. apply Z.shiftr_div_pow2. assumption. Qed.

(** ** Segments of a buffer *)
Definition seg (buf : list Z) (off n : nat) : list Z := take n (drop off buf).

(** [splice buf off bs] writes the bytes [bs] at offset [off]. *)
Definition splice (buf : list Z) (off : nat) (bs : list Z) : list Z :=
  take off buf ++ bs ++ drop (off + length bs) buf.

Lemma length_seg buf off n : (off + n <= length buf)%nat -> length (seg buf off n) = n.
Proof. intros. unfold seg. rewrite length_take, length_drop. lia. Qed.

Lemma seg_is_byte buf off n : Forall is_byte buf -> Forall is_byte (seg buf off n).
Proof. intros. unfold seg. apply Forall_take, Forall_drop. assumption. Qed.

Lemma length_splice buf off bs :
  (off + length bs <= length buf)%nat -> length (splice buf off bs) = length buf.
Proof. intros. unfold splice. rewrite !length_app, length_take, length_drop. lia. Qed.

Lemma splice_nil buf off : (off <= length buf)%nat -> splice buf off [] = buf.
Proof. intros. unfold splice. simpl. rewrite Nat.add_0_r. apply take_drop. Qed.

(** Consecutive writes join. *)
Lemma splice_app buf off off2 b1 b2 :
  off2 = (off + length b1)%nat ->
  (off + length b1 + length b2 <= length buf)%nat ->
  splice (splice buf off b1) off2 b2 = splice buf off (b1 ++ b2).
Proof.
  intros -> H. unfold splice. rewrite (app_assoc (take off buf) b1).
  assert (Hl : length (take off buf ++ b1) = (off + length b1)%nat)
    by (rewrite length_app, length_take; lia).
  rewrite take_app_length' by lia. rewrite drop_app_ge by lia.
  rewrite Hl, drop_drop, <- !app_assoc, length_app.
  do 3 f_equal. f_equal. lia.
Qed.

Lemma splice_one buf off b :
  (off < length buf)%nat -> <[off := b]> buf = splice buf off [b].
Proof.
  intros H. unfold splice. rewrite insert_take_drop by assumption.
  rewrite Nat.add_1_r. reflexivity.
Qed.

Lemma seg_splice_same buf off bs :
  (off + length bs <= length buf)%nat -> seg (splice buf off bs) off (length bs) = bs.
Proof.
  intros H. unfold seg, splice. rewrite drop_app_length' by (rewrite length_take; lia).
  apply take_app_length.
Qed.

Lemma seg_app l off n m : seg l off (n + m) = seg l off n ++ seg l (off + n) m.
Proof. unfold seg. rewrite <- drop_drop, <- take_take_drop. reflexivity. Qed.

Lemma seg_all l n : n = length l -> seg l 0 n = l.
Proof. intros ->. unfold seg. rewrite drop_0. apply take_ge. lia. Qed.

Lemma splice_0_take buf bs :
  (length bs <= length buf)%nat -> take (length bs) (splice buf 0 bs) = bs.
Proof. intros H. unfold splice. simpl. apply take_app_length. Qed.

Lemma splice_all buf bs : length bs = length buf -> splice buf 0 bs = bs.
Proof. intros H. unfold splice. cbn [take app]. rewrite drop_ge by lia. apply app_nil_r. Qed.

Lemma splice_is_byte buf off bs :
  Forall is_byte buf -> Forall is_byte bs -> Forall is_byte (splice buf off bs).
Proof.
  intros. unfold splice.
  repeat apply Forall_app_2; auto using Forall_take, Forall_drop.
Qed.

(** ** The accesses in terms of segments *)
Lemma rd_seg buf i : (i < length buf)%nat -> exists b, rd buf i = Ok b /\ seg buf i 1 = [b].
Proof.
  intros H. destruct (lookup_lt_is_Some_2 buf i H) as [b Hb]. exists b. unfold rd, seg.
  rewrite Hb. split; [reflexivity|]. rewrite (drop_S _ _ _ Hb). reflexivity.
Qed.

Lemma wr_splice buf i b : (i < length buf)%nat -> wr buf i b = Ok (splice buf i [u8 b]).
Proof.
  intros H. unfold wr. rewrite bool_decide_eq_true_2, splice_one by assumption. reflexivity.
Qed.

Lemma memcpy_splice buf off src n :
  (n <= length src)%nat -> (off + n <= length buf)%nat ->
  memcpy buf off src n = Ok (splice buf off (take n src)).
Proof.
  intros H1 H2. unfold memcpy, splice. rewrite bool_decide_eq_true_2 by auto.
  rewrite length_take, Nat.min_l by lia. reflexivity.
Qed.

Create HintDb bytes.
#[export] Hint Resolve le_bytes_is_byte seg_is_byte splice_is_byte Forall_take Forall_drop : bytes.
