(* ===== verification/Bits.v ===== *)
(** * Bit operations on machine words

    Ranges and linearity (over exclusive or) of the shifts and masks, and the
    injectivity of the mixing steps that hash functions and shift-register
    generators are made of. *)
From S2P Require Import Prelude.

(** ** Ranges *)
Lemma in_u_bits w x : 0 <= w -> 0 <= x -> (forall i, w <= i -> Z.testbit x i = false) -> in_u w x.
Proof.
  intros Hw Hx H. split; [assumption|].
  destruct (decide (x < 2 ^ w)) as [|Hge]; [assumption|exfalso].
  assert (Hp : 0 < 2 ^ w) by (apply Z.pow_pos_nonneg; lia).
  assert (Hlog : w <= Z.log2 x) by (apply Z.log2_le_pow2; lia).
  pose proof (Z.bit_log2 x ltac:(lia)) as Hb. rewrite H in Hb by assumption. discriminate.
Qed.

Lemma in_u_high w x i : in_u w x -> 0 <= w -> w <= i -> Z.testbit x i = false.
Proof.
  intros Hx Hw Hi. rewrite <- (Z.mod_small x (2 ^ w)) by exact Hx.
  apply Z.mod_pow2_bits_high. lia.
Qed.

Lemma lxor_in_u w x y : 0 <= w -> in_u w x -> in_u w y -> in_u w (Z.lxor x y).
Proof.
  intros Hw Hx Hy. apply in_u_bits; [assumption|apply Z.lxor_nonneg; unfold in_u in *; lia|].
  intros i Hi. rewrite Z.lxor_spec, !(in_u_high w) by assumption. reflexivity.
Qed.

Lemma lor_in_u w x y : 0 <= w -> in_u w x -> in_u w y -> in_u w (Z.lor x y).
Proof.
  intros Hw Hx Hy. apply in_u_bits; [assumption|apply Z.lor_nonneg; unfold in_u in *; lia|].
  intros i Hi. rewrite Z.lor_spec, !(in_u_high w) by assumption. reflexivity.
Qed.

Lemma shiftr_in_u w x k : 0 <= w -> 0 <= k -> in_u w x -> in_u w (Z.shiftr x k).
Proof.
  intros Hw Hk Hx. apply in_u_bits; [assumption|apply Z.shiftr_nonneg; unfold in_u in *; lia|].
  intros i Hi. rewrite Z.shiftr_spec by lia. apply (in_u_high w); [assumption|lia..].
Qed.

Lemma u64_in_u x : in_u 64 (u64 x).
Proof. apply wrap_range. lia. Qed.

Create HintDb bits.
#[export] Hint Resolve lxor_in_u lor_in_u shiftr_in_u u64_in_u : bits.
#[export] Hint Extern 1 (_ <= _) => lia : bits.

(** ** Exclusive or *)
Lemma lxor_0_eq x y : Z.lxor x y = 0 -> x = y.
Proof. apply Z.lxor_eq_0_iff. Qed.

Lemma lxor_swap a b c d :
  Z.lxor (Z.lxor a b) (Z.lxor c d) = Z.lxor (Z.lxor a c) (Z.lxor b d).
Proof. rewrite !Z.lxor_assoc. f_equal. rewrite <- !Z.lxor_assoc. f_equal. apply Z.lxor_comm. Qed.

Lemma wrap_lxor w x y : 0 <= w -> wrap w (Z.lxor x y) = Z.lxor (wrap w x) (wrap w y).
Proof.
  intros Hw. unfold wrap. rewrite <- !Z.land_ones by assumption.
  apply Z.bits_inj'. intros i Hi. rewrite Z.lxor_spec, !Z.land_spec, Z.lxor_spec.
  destruct (Z.testbit x i), (Z.testbit y i), (Z.testbit (Z.ones w) i); reflexivity.
Qed.

(** ** Injective mixing steps *)
Lemma xor_shr_zero k d : 1 <= k -> 0 <= d -> Z.lxor d (Z.shiftr d k) = 0 -> d = 0.
Proof.
  intros Hk Hd H. apply lxor_0_eq in H.
  rewrite Z.shiftr_div_pow2 in H by lia.
  assert (H2 : 1 < 2 ^ k) by (apply Z.pow_gt_1; lia).
  destruct (Z.eq_dec d 0) as [|Hn]; [assumption|].
  assert (H0 : 0 < d) by (clear H; lia).
  pose proof (Z.div_lt d (2 ^ k) H0 H2) as Hlt. rewrite <- H in Hlt. lia.
Qed.

Lemma xor_shr_inj k x y : 1 <= k -> 0 <= x -> 0 <= y ->
  Z.lxor x (Z.shiftr x k) = Z.lxor y (Z.shiftr y k) -> x = y.
Proof.
  intros Hk Hx Hy H. apply lxor_0_eq. apply (xor_shr_zero k); [assumption|apply Z.lxor_nonneg; lia|].
  rewrite Z.shiftr_lxor, lxor_swap, H. apply Z.lxor_nilpotent.
Qed.

Lemma xor_shl_zero w k d : 1 <= k -> in_u w d -> 0 <= w -> Z.lxor d (wrap w (Z.shiftl d k)) = 0 -> d = 0.
Proof.
  intros Hk Hd Hw H. apply lxor_0_eq in H.
  assert (Hz : forall i : nat, Z.testbit d (Z.of_nat i) = false).
  { intros i. induction i as [i IH] using lt_wf_ind. rewrite H.
    unfold wrap. destruct (decide (Z.of_nat i < w)); [|apply Z.mod_pow2_bits_high; lia].
    rewrite Z.mod_pow2_bits_low by lia.
    destruct (decide (Z.of_nat i < k)); [apply Z.shiftl_spec_low; lia|].
    rewrite Z.shiftl_spec by lia.
    replace (Z.of_nat i - k) with (Z.of_nat (i - Z.to_nat k)) by lia. apply IH. lia. }
  apply Z.bits_inj'. intros i Hi. rewrite Z.bits_0, <- (Z2Nat.id i) by assumption. apply Hz.
Qed.

Lemma xor_shl_inj w k x y : 1 <= k -> 0 <= w -> in_u w x -> in_u w y ->
  Z.lxor x (wrap w (Z.shiftl x k)) = Z.lxor y (wrap w (Z.shiftl y k)) -> x = y.
Proof.
  intros Hk Hw Hx Hy H. apply lxor_0_eq.
  apply (xor_shl_zero w k); [assumption|apply lxor_in_u; assumption|assumption|].
  rewrite Z.shiftl_lxor, wrap_lxor, lxor_swap, H by assumption. apply Z.lxor_nilpotent.
Qed.

(** Multiplication by a constant with an inverse modulo [2^w]. *)
Lemma wrap_mul_inj w c c' x y : wrap w (c * c') = 1 -> in_u w x -> in_u w y ->
  wrap w (x * c) = wrap w (y * c) -> x = y.
Proof.
  intros Hc Hx Hy H.
  assert (Hr : forall z, in_u w z -> wrap w (wrap w (z * c) * c') = z).
  { intros z Hz. unfold wrap in *. rewrite Z.mul_mod_idemp_l, <- Z.mul_assoc, <- Z.mul_mod_idemp_r, Hc
      by (unfold in_u in Hz; lia). rewrite Z.mul_1_r. apply Z.mod_small. exact Hz. }
  rewrite <- (Hr x), <- (Hr y), H by assumption. reflexivity.
Qed.

Lemma wrap_add_inj w c x y : in_u w x -> in_u w y -> wrap w (x + c) = wrap w (y + c) -> x = y.
Proof.
  intros Hx Hy H. unfold wrap in H.
  assert (Hr : forall z, in_u w z -> ((z + c) mod 2 ^ w - c) mod 2 ^ w = z).
  { intros z Hz. rewrite Zminus_mod_idemp_l. replace (z + c - c) with z by lia.
    apply Z.mod_small. exact Hz. }
  rewrite <- (Hr x), <- (Hr y), H by assumption. reflexivity.
Qed.
