(* ===== verification/Sbp.v ===== *)
(** * SBP, the control protocol between shim and controller

    Models src/common/sbp.h and src/common/sbp.c.  Every function returns the C
    status and the new contents of what its out-parameters point to; a null
    pointer argument is [None].  A [uint8_t *] into a larger array is the array
    and an offset; reading or writing outside is [Undef]. *)
From S2P Require Import Prelude Bytes.

(** ** Constants and types of sbp.h *)
Definition SBP_VERSION : Z := 1.
Definition SBP_HEADER_SIZE : Z := 8.
Definition SBP_MAX_PAYLOAD : Z := 65535.
Definition SBP_MAX_FRAME_SIZE : Z := SBP_HEADER_SIZE + SBP_MAX_PAYLOAD.

Definition SBP_MSG_HELLO : Z := 1.
Definition SBP_MSG_ACK : Z := 2.
Definition SBP_MSG_SET_TIME : Z := 3.
Definition SBP_MSG_SET_SEED : Z := 4.
Definition SBP_MSG_REGISTER_PROCESS : Z := 5.

Definition SBP_OK : Z := 0.
Definition SBP_ERR_INVALID_ARG : Z := -1.
Definition SBP_ERR_BUFFER_TOO_SMALL : Z := -2.
Definition SBP_ERR_INVALID_TYPE : Z := -3.
Definition SBP_ERR_INVALID_LENGTH : Z := -4.
Definition SBP_ERR_UNSUPPORTED_VERSION : Z := -5.

Record sbp_header := SbpHeader {
  h_version : Z; h_type : Z; h_flags : Z; h_payload_len : Z }.

(** The payload union; [PZero] is the union filled with zero bytes, as
    [memset] and partial initialisers leave it. *)
Inductive sbp_payload :=
  | PZero
  | PSetTime (tv_sec tv_nsec : Z)
  | PSetSeed (seed : Z)
  | PRegisterProcess (pid slot : Z).

Record sbp_message := SbpMessage {
  m_type : Z; m_version : Z; m_flags : Z; m_payload : sbp_payload }.

#[export] Instance sbp_header_eq_dec : EqDecision sbp_header.
Proof. solve_decision. Defined.
#[export] Instance sbp_payload_eq_dec : EqDecision sbp_payload.
Proof. solve_decision. Defined.
#[export] Instance sbp_message_eq_dec : EqDecision sbp_message.
Proof. solve_decision. Defined.

(** Reading a member of the union.  Reading a member other than the one last
    stored would reinterpret its bytes; no caller does, and the model leaves it
    undefined. *)
Definition payload_set_time (p : sbp_payload) : res (Z * Z) :=
  match p with PZero => Ok (0, 0) | PSetTime s n => Ok (s, n) | _ => Undef end.
Definition payload_set_seed (p : sbp_payload) : res Z :=
  match p with PZero => Ok 0 | PSetSeed s => Ok s | _ => Undef end.
Definition payload_register_process (p : sbp_payload) : res (Z * Z) :=
  match p with PZero => Ok (0, 0) | PRegisterProcess pid slot => Ok (pid, slot) | _ => Undef end.

(** ** Little-endian accessors *)
Definition read_le16 (p : list Z) (off : nat) : res Z :=
  b0 ← rd p off;
  b1 ← rd p (off + 1);
  Ok (u16 (Z.lor b0 (Z.shiftl b1 8))).

Definition read_le32 (p : list Z) (off : nat) : res Z :=
  b0 ← rd p off;
  b1 ← rd p (off + 1);
  b2 ← rd p (off + 2);
  b3 ← rd p (off + 3);
  Ok (Z.lor (Z.lor (Z.lor b0 (u32 (Z.shiftl b1 8))) (u32 (Z.shiftl b2 16)))
            (u32 (Z.shiftl b3 24))).

(** The loop [for (i = 0; i < 8; i++)], with [k] iterations left. *)
Fixpoint read_le64_loop (k : nat) (p : list Z) (off i : nat) (v : Z) : res Z :=
  match k with
  | O => Ok v
  | S k' =>
      b ← rd p (off + i);
      read_le64_loop k' p off (i + 1) (Z.lor v (u64 (Z.shiftl b (8 * Z.of_nat i))))
  end.
Definition read_le64 (p : list Z) (off : nat) : res Z := read_le64_loop 8 p off 0 0.

Definition write_le16 (p : list Z) (off : nat) (v : Z) : res (list Z) :=
  p ← wr p off (Z.land v 255);
  wr p (off + 1) (Z.land (Z.shiftr v 8) 255).

Definition write_le32 (p : list Z) (off : nat) (v : Z) : res (list Z) :=
  p ← wr p off (Z.land v 255);
  p ← wr p (off + 1) (Z.land (Z.shiftr v 8) 255);
  p ← wr p (off + 2) (Z.land (Z.shiftr v 16) 255);
  wr p (off + 3) (Z.land (Z.shiftr v 24) 255).

Fixpoint write_le64_loop (k : nat) (p : list Z) (off i : nat) (v : Z) : res (list Z) :=
  match k with
  | O => Ok p
  | S k' =>
      p ← wr p (off + i) (Z.land (Z.shiftr v (8 * Z.of_nat i)) 255);
      write_le64_loop k' p off (i + 1) v
  end.
Definition write_le64 (p : list Z) (off : nat) (v : Z) : res (list Z) :=
  write_le64_loop 8 p off 0 v.

Ltac sbp_lia :=
  unfold SBP_VERSION, SBP_HEADER_SIZE, SBP_MAX_PAYLOAD, SBP_MSG_HELLO, SBP_MSG_ACK,
    SBP_MSG_SET_TIME, SBP_MSG_SET_SEED, SBP_MSG_REGISTER_PROCESS, SBP_OK, SBP_ERR_INVALID_ARG,
    SBP_ERR_BUFFER_TOO_SMALL, SBP_ERR_INVALID_TYPE, SBP_ERR_INVALID_LENGTH,
    SBP_ERR_UNSUPPORTED_VERSION, in_u, in_s in *; lia.

(** Decide the tests on message types and status codes that are settled. *)
Ltac sbp_decide :=
  repeat first [rewrite decide_True by sbp_lia | rewrite decide_False by sbp_lia].

#[global] Arguments read_le16 : simpl never.
#[global] Arguments read_le32 : simpl never.
#[global] Arguments read_le64 : simpl never.
#[global] Arguments write_le16 : simpl never.
#[global] Arguments write_le32 : simpl never.
#[global] Arguments write_le64 : simpl never.

(** ** Sizes and names *)
Definition sbp_payload_len_for_type (type : Z) : Z :=
  if decide (type = SBP_MSG_HELLO \/ type = SBP_MSG_ACK) then 0
  else if decide (type = SBP_MSG_SET_TIME) then 8 + 4
  else if decide (type = SBP_MSG_SET_SEED) then 8
  else if decide (type = SBP_MSG_REGISTER_PROCESS) then 4 + 4
  else 0.

Definition sbp_status_str (status : Z) : string :=
  if decide (status = SBP_OK) then "ok"
  else if decide (status = SBP_ERR_INVALID_ARG) then "invalid-arg"
  else if decide (status = SBP_ERR_BUFFER_TOO_SMALL) then "buffer-too-small"
  else if decide (status = SBP_ERR_INVALID_TYPE) then "invalid-type"
  else if decide (status = SBP_ERR_INVALID_LENGTH) then "invalid-length"
  else if decide (status = SBP_ERR_UNSUPPORTED_VERSION) then "unsupported-version"
  else "unknown".

(** ** Frames *)
Definition sbp_encode_frame (version type flags : Z) (payload : option (list Z))
    (payload_len : Z) (out : option (list Z)) (out_cap : Z) (out_len : option Z)
  : res (Z * option (list Z) * option Z) :=
  match out, out_len with
  | Some buf, Some _ =>
      if decide (payload_len > SBP_MAX_PAYLOAD)
      then Ok (SBP_ERR_INVALID_LENGTH, out, out_len)
      else
        let total := u32 (SBP_HEADER_SIZE + payload_len) in
        if decide (out_cap < total)
        then Ok (SBP_ERR_BUFFER_TOO_SMALL, out, out_len)
        else
          buf ← wr buf 0 version;
          buf ← wr buf 1 type;
          buf ← write_le16 buf 2 flags;
          buf ← write_le32 buf 4 payload_len;
          buf ← match payload with
                | Some src =>
                    if decide (payload_len > 0)
                    then memcpy buf (Z.to_nat SBP_HEADER_SIZE) src (Z.to_nat payload_len)
                    else Ok buf
                | None => Ok buf
                end;
          Ok (SBP_OK, Some buf, Some total)
  | _, _ => Ok (SBP_ERR_INVALID_ARG, out, out_len)
  end.

(** [out_header] is the object the pointer designates, [None] for a null
    pointer; [out_payload] likewise, holding the offset into [frame] that the
    stored pointer has ([None] inside for a null pointer). *)
Definition sbp_decode_frame (frame : option (list Z)) (frame_len : Z)
    (out_header : option sbp_header) (out_payload : option (option nat))
  : res (Z * option sbp_header * option (option nat)) :=
  match frame, out_header with
  | Some fr, Some _ =>
      if decide (frame_len < SBP_HEADER_SIZE)
      then Ok (SBP_ERR_INVALID_LENGTH, out_header, out_payload)
      else
        version ← rd fr 0;
        type ← rd fr 1;
        flags ← read_le16 fr 2;
        payload_len ← read_le32 fr 4;
        let h := SbpHeader version type flags payload_len in
        if decide (h_payload_len h > SBP_MAX_PAYLOAD)
        then Ok (SBP_ERR_INVALID_LENGTH, out_header, out_payload)
        else if decide (frame_len <> u32 (SBP_HEADER_SIZE + h_payload_len h))
        then Ok (SBP_ERR_INVALID_LENGTH, out_header, out_payload)
        else Ok (SBP_OK, Some h,
                 match out_payload with
                 | Some _ => Some (Some (Z.to_nat SBP_HEADER_SIZE))
                 | None => None
                 end)
  | _, _ => Ok (SBP_ERR_INVALID_ARG, out_header, out_payload)
  end.

(** ** Messages *)
Definition sbp_serialize_message (msg : option sbp_message) (out : option (list Z))
    (out_cap : Z) (out_len : option Z) : res (Z * option (list Z) * option Z) :=
  match msg with
  | None => Ok (SBP_ERR_INVALID_ARG, out, out_len)
  | Some msg =>
      let payload := replicate 16 0 in
      let payload_len := u32 (sbp_payload_len_for_type (m_type msg)) in
      let encode payload payload_len :=
        sbp_encode_frame (m_version msg) (u8 (m_type msg)) (m_flags msg)
          (if decide (payload_len = 0) then None else Some payload) payload_len
          out out_cap out_len in
      if decide (m_type msg = SBP_MSG_HELLO \/ m_type msg = SBP_MSG_ACK)
      then encode payload 0
      else if decide (m_type msg = SBP_MSG_SET_TIME)
      then '(tv_sec, tv_nsec) ← payload_set_time (m_payload msg);
           payload ← write_le64 payload 0 (u64 tv_sec);
           payload ← write_le32 payload 8 (u32 tv_nsec);
           encode payload payload_len
      else if decide (m_type msg = SBP_MSG_SET_SEED)
      then seed ← payload_set_seed (m_payload msg);
           payload ← write_le64 payload 0 seed;
           encode payload payload_len
      else if decide (m_type msg = SBP_MSG_REGISTER_PROCESS)
      then '(pid, slot) ← payload_register_process (m_payload msg);
           payload ← write_le32 payload 0 pid;
           payload ← write_le32 payload 4 slot;
           encode payload payload_len
      else Ok (SBP_ERR_INVALID_TYPE, out, out_len)
  end.

Definition sbp_deserialize_message (frame : option (list Z)) (frame_len : Z)
    (out_msg : option sbp_message) : res (Z * option sbp_message) :=
  match out_msg with
  | None => Ok (SBP_ERR_INVALID_ARG, None)
  | Some _ =>
      '(rc, h, payload) ←
        sbp_decode_frame frame frame_len (Some (SbpHeader 0 0 0 0)) (Some None);
      if decide (rc <> SBP_OK) then Ok (rc, out_msg)
      else match frame, h, payload with
      | Some fr, Some h, Some (Some p) =>
          if decide (h_version h <> SBP_VERSION)
          then Ok (SBP_ERR_UNSUPPORTED_VERSION, out_msg)
          else
            let m := SbpMessage (h_type h) (h_version h) (h_flags h) PZero in
            if decide (m_type m = SBP_MSG_HELLO \/ m_type m = SBP_MSG_ACK)
            then if decide (h_payload_len h <> 0)
                 then Ok (SBP_ERR_INVALID_LENGTH, Some m)
                 else Ok (SBP_OK, Some m)
            else if decide (m_type m = SBP_MSG_SET_TIME)
            then if decide (h_payload_len h <> sbp_payload_len_for_type SBP_MSG_SET_TIME)
                 then Ok (SBP_ERR_INVALID_LENGTH, Some m)
                 else
                   tv_sec ← read_le64 fr p;
                   tv_nsec ← read_le32 fr (p + 8);
                   Ok (SBP_OK, Some (SbpMessage (m_type m) (m_version m) (m_flags m)
                                       (PSetTime (i64 tv_sec) (i32 tv_nsec))))
            else if decide (m_type m = SBP_MSG_SET_SEED)
            then if decide (h_payload_len h <> sbp_payload_len_for_type SBP_MSG_SET_SEED)
                 then Ok (SBP_ERR_INVALID_LENGTH, Some m)
                 else
                   seed ← read_le64 fr p;
                   Ok (SBP_OK, Some (SbpMessage (m_type m) (m_version m) (m_flags m)
                                       (PSetSeed seed)))
            else if decide (m_type m = SBP_MSG_REGISTER_PROCESS)
            then if decide (h_payload_len h <> sbp_payload_len_for_type SBP_MSG_REGISTER_PROCESS)
                 then Ok (SBP_ERR_INVALID_LENGTH, Some m)
                 else
                   pid ← read_le32 fr p;
                   slot ← read_le32 fr (p + 4);
                   Ok (SBP_OK, Some (SbpMessage (m_type m) (m_version m) (m_flags m)
                                       (PRegisterProcess pid slot)))
            else Ok (SBP_ERR_INVALID_TYPE, Some m)
      | _, _, _ => Undef
      end
  end.


(** ** The accessors compute the reference encoding *)
Lemma rd_byte buf i : Forall is_byte buf -> (i < length buf)%nat ->
  exists b, rd buf i = Ok b /\ seg buf i 1 = [b] /\ is_byte b.
Proof.
  intros HF Hi. destruct (rd_seg buf i Hi) as (b & Hr & Hs). exists b.
  split; [assumption|]. split; [assumption|].
  pose proof (seg_is_byte buf i 1 HF) as Hb. rewrite Hs in Hb. exact (Forall_inv Hb).
Qed.

Ltac read_byte fr k :=
  let b := fresh "b" in let Hr := fresh "Hr" in let Hs := fresh "Hs" in let Hb := fresh "Hb" in
  destruct (rd_byte fr k) as (b & Hr & Hs & Hb); [assumption|lia|];
  rewrite Hr, bind_Ok_l.

Lemma seg_S buf off n b :
  seg buf off 1 = [b] -> seg buf off (S n) = b :: seg buf (off + 1) n.
Proof. intros H. change (S n) with (1 + n)%nat. rewrite seg_app, H. reflexivity. Qed.

Lemma seg_0 buf off : seg buf off 0 = [].
Proof. reflexivity. Qed.

Lemma shiftl_byte b k : 0 <= k -> Z.shiftl b k = b * 2 ^ k.
Proof. intros. apply Z.shiftl_mul_pow2. assumption. Qed.

Lemma read_le32_val fr off : Forall is_byte fr -> (off + 4 <= length fr)%nat ->
  read_le32 fr off = Ok (le_val (seg fr off 4)).
Proof.
  intros HF Hl. unfold read_le32.
  read_byte fr off. read_byte fr (off + 1)%nat. read_byte fr (off + 2)%nat. read_byte fr (off + 3)%nat.
  rewrite (seg_S _ _ _ _ Hs), (seg_S _ _ _ _ Hs0).
  replace (off + 1 + 1)%nat with (off + 2)%nat by lia. rewrite (seg_S _ _ _ _ Hs1).
  replace (off + 2 + 1)%nat with (off + 3)%nat by lia. rewrite (seg_S _ _ _ _ Hs2).
  rewrite seg_0. unfold is_byte in *. f_equal. cbn [le_val].
  rewrite !(wrap_small 32) by (unfold in_u; rewrite shiftl_byte; lia).
  rewrite (lor_shiftl_add b), (lor_shiftl_add _ b1), (lor_shiftl_add _ b2) by lia.
  lia.
Qed.
Lemma read_le16_val fr off : Forall is_byte fr -> (off + 2 <= length fr)%nat ->
  read_le16 fr off = Ok (le_val (seg fr off 2)).
Proof.
  intros HF Hl. unfold read_le16.
  read_byte fr off. read_byte fr (off + 1)%nat. 
  rewrite (seg_S _ _ _ _ Hs), (seg_S _ _ _ _ Hs0).
  rewrite seg_0. unfold is_byte in *. f_equal. cbn [le_val].
  rewrite lor_shiftl_add by lia. rewrite wrap_small; unfold in_u; lia.
Qed.
Lemma read_le64_loop_val k fr off i v : Forall is_byte fr -> (off + i + k <= length fr)%nat -> 
  (i + k <= 8)%nat -> 0 <= v < 256 ^ Z.of_nat i ->
  read_le64_loop k fr off i v = Ok (v + 256 ^ Z.of_nat i * le_val (seg fr (off + i) k)).
Proof.
  intros HF. revert i v. induction k as [|k IH]; intros i v Hl Hk Hv; cbn [read_le64_loop].
  - rewrite seg_0. cbn [le_val]. f_equal. ring.
  - read_byte fr (off + i)%nat. rewrite (seg_S _ _ _ _ Hs). unfold is_byte in Hb.
    assert (Hp : 2 ^ (8 * Z.of_nat i) = 256 ^ Z.of_nat i) by (rewrite Z.pow_mul_r by lia; reflexivity).
    assert (H256 : 256 ^ Z.of_nat (i + 1) = 256 * 256 ^ Z.of_nat i)
      by (rewrite Nat.add_1_r; apply pow256_S).
    assert (Hle : 256 ^ Z.of_nat (i + 1) <= 2 ^ 64)
      by (change (2 ^ 64) with (256 ^ 8); apply Z.pow_le_mono_r; lia).
    rewrite (wrap_small 64) by (unfold in_u; rewrite shiftl_byte, Hp by lia; nia).
    rewrite lor_shiftl_add, Hp by (rewrite ?Hp; lia).
    rewrite IH by (rewrite ?H256; nia || lia).
    cbn [le_val]. rewrite H256. replace (off + (i + 1))%nat with (off + i + 1)%nat by lia.
    f_equal. ring.
Qed.
Lemma read_le64_val fr off : Forall is_byte fr -> (off + 8 <= length fr)%nat ->
  read_le64 fr off = Ok (le_val (seg fr off 8)).
Proof.
  intros HF Hl. unfold read_le64. rewrite read_le64_loop_val by (auto; simpl; lia).
  rewrite Nat.add_0_r. f_equal. change (256 ^ Z.of_nat 0) with 1. lia.
Qed.

Lemma byte_of_shift v k : 0 <= k -> Z.land (Z.shiftr v k) 255 = (v / 2 ^ k) mod 256.
Proof. intros. rewrite land_255, shiftr_byte by assumption. reflexivity. Qed.

Lemma u8_mod v : u8 (v mod 256) = v mod 256.
Proof. unfold wrap. apply Z.mod_mod. lia. Qed.

Lemma write_le16_splice buf off v : (off + 2 <= length buf)%nat ->
  write_le16 buf off v = Ok (splice buf off (le_bytes 2 v)).
Proof.
  intros Hl. unfold write_le16. rewrite byte_of_shift, land_255 by lia.
  rewrite wr_splice by lia. rewrite bind_Ok_l, wr_splice by (rewrite length_splice; simpl; lia).
  rewrite splice_app by (simpl; lia). rewrite !u8_mod. reflexivity.
Qed.
Lemma write_le32_splice buf off v : (off + 4 <= length buf)%nat ->
  write_le32 buf off v = Ok (splice buf off (le_bytes 4 v)).
Proof.
  intros Hl. unfold write_le32. rewrite !byte_of_shift, land_255 by lia.
  rewrite wr_splice by lia. rewrite bind_Ok_l.
  do 2 (rewrite wr_splice by (rewrite length_splice; simpl; lia); rewrite bind_Ok_l, splice_app by (simpl; lia)).
  rewrite wr_splice by (rewrite length_splice; simpl; lia). rewrite splice_app by (simpl; lia).
  rewrite !u8_mod. cbn [app le_bytes]. rewrite !Z.div_div by lia. reflexivity.
Qed.
Lemma write_le64_loop_splice k buf off i v : (off + i + k <= length buf)%nat ->
  write_le64_loop k buf off i v = Ok (splice buf (off + i) (le_bytes k (v / 256 ^ Z.of_nat i))).
Proof.
  revert buf i. induction k as [|k IH]; intros buf i Hl; cbn [write_le64_loop le_bytes].
  - rewrite splice_nil by lia. reflexivity.
  - rewrite byte_of_shift by lia. rewrite wr_splice by lia. rewrite bind_Ok_l.
    rewrite IH by (rewrite length_splice; simpl; lia).
    rewrite splice_app by (rewrite ?length_le_bytes; simpl; lia). 
    rewrite Z.pow_mul_r, u8_mod by lia. change (2 ^ 8) with 256.
    rewrite Z.div_div, Nat.add_1_r, pow256_S, (Z.mul_comm 256) by lia. reflexivity.
Qed.
Lemma write_le64_splice buf off v : (off + 8 <= length buf)%nat ->
  write_le64 buf off v = Ok (splice buf off (le_bytes 8 v)).
Proof.
  intros. unfold write_le64. rewrite write_le64_loop_splice by lia.
  change (256 ^ Z.of_nat 0) with 1. rewrite Z.div_1_r, Nat.add_0_r. reflexivity.
Qed.

(** ** Reference encoding of frames and messages

    The wire format as one list: what a reader of the protocol would write
    down, with no buffer, capacity or offset. *)
Definition frame_bytes (version type flags : Z) (payload : list Z) : list Z :=
  [version; type] ++ le_bytes 2 flags ++ le_bytes 4 (Z.of_nat (length payload)) ++ payload.

Definition payload_bytes (p : sbp_payload) : list Z :=
  match p with
  | PZero => []
  | PSetTime s n => le_bytes 8 (u64 s) ++ le_bytes 4 (u32 n)
  | PSetSeed s => le_bytes 8 s
  | PRegisterProcess pid slot => le_bytes 4 pid ++ le_bytes 4 slot
  end.

Definition message_bytes (m : sbp_message) : list Z :=
  frame_bytes (m_version m) (m_type m) (m_flags m) (payload_bytes (m_payload m)).

(** The payload is the one its type calls for, its fields in range. *)
Definition payload_ok (type : Z) (p : sbp_payload) : Prop :=
  match p with
  | PZero => type = SBP_MSG_HELLO \/ type = SBP_MSG_ACK
  | PSetTime s n => type = SBP_MSG_SET_TIME /\ in_s 64 s /\ in_s 32 n
  | PSetSeed s => type = SBP_MSG_SET_SEED /\ in_u 64 s
  | PRegisterProcess pid slot => type = SBP_MSG_REGISTER_PROCESS /\ in_u 32 pid /\ in_u 32 slot
  end.

Definition message_ok (m : sbp_message) : Prop :=
  in_u 8 (m_version m) /\ in_u 16 (m_flags m) /\ payload_ok (m_type m) (m_payload m).

#[export] Instance payload_ok_dec type p : Decision (payload_ok type p).
Proof. destruct p; simpl; apply _. Defined.
#[export] Instance message_ok_dec m : Decision (message_ok m).
Proof. unfold message_ok. apply _. Defined.

Lemma length_frame_bytes v t f pl : length (frame_bytes v t f pl) = (8 + length pl)%nat.
Proof. reflexivity. Qed.

Lemma length_payload_bytes type p :
  payload_ok type p -> Z.of_nat (length (payload_bytes p)) = sbp_payload_len_for_type type.
Proof. destruct p; simpl; [intros [-> | ->]|intros [-> _]..]; reflexivity. Qed.

Lemma payload_bytes_le16 p : (length (payload_bytes p) <= 16)%nat.
Proof. destruct p; simpl; lia. Qed.

(** *** Encoding *)
Lemma encode_header buf v t f n : (8 <= length buf)%nat -> in_u 8 v -> in_u 8 t ->
  (buf ← wr buf 0 v; buf ← wr buf 1 t; buf ← write_le16 buf 2 f; write_le32 buf 4 n)
  = Ok (splice buf 0 ([v; t] ++ le_bytes 2 f ++ le_bytes 4 n)).
Proof.
  intros Hl Hv Ht. rewrite wr_splice by lia. rewrite bind_Ok_l.
  rewrite wr_splice by (rewrite length_splice; simpl; lia). rewrite bind_Ok_l, splice_app by (simpl; lia).
  rewrite write_le16_splice by (rewrite length_splice; simpl; lia).
  rewrite bind_Ok_l, splice_app by (simpl; lia).
  rewrite write_le32_splice by (rewrite length_splice; simpl; lia).
  rewrite splice_app by (simpl; lia). rewrite !(wrap_small 8) by assumption. reflexivity.
Qed.

Lemma res_bind_assoc {A B C} (m : res A) (f : A -> res B) (g : B -> res C) :
  (y ← (x ← m; f x); g y) = (x ← m; y ← f x; g y).
Proof. destruct m; reflexivity. Qed.

Lemma encode_frame_bytes v t f payload plen buf cap l0 :
  in_u 8 v -> in_u 8 t -> cap <= Z.of_nat (length buf) ->
  Z.of_nat plen <= SBP_MAX_PAYLOAD -> (plen <= length payload)%nat -> SBP_HEADER_SIZE + Z.of_nat plen <= cap ->
  sbp_encode_frame v t f (if decide (Z.of_nat plen = 0) then None else Some payload) (Z.of_nat plen) (Some buf) cap (Some l0)
  = Ok (SBP_OK, Some (splice buf 0 (frame_bytes v t f (take plen payload))), Some (SBP_HEADER_SIZE + Z.of_nat plen)).
Proof.
  unfold SBP_MAX_PAYLOAD, SBP_HEADER_SIZE. intros Hv Ht Hcap Hmax Hp Hfit.
  unfold sbp_encode_frame, SBP_MAX_PAYLOAD, SBP_HEADER_SIZE.
  rewrite decide_False by lia. rewrite (wrap_small 32) by (unfold in_u; lia).
  rewrite decide_False by lia. cbv zeta.
  pose proof (encode_header buf v t f (Z.of_nat plen) ltac:(lia) Hv Ht) as Hh.
  rewrite <- !res_bind_assoc. rewrite <- !res_bind_assoc in Hh. rewrite Hh, bind_Ok_l. clear Hh.
  assert (Ht8 : length (take plen payload) = plen) by (rewrite length_take; lia).
  destruct (decide (Z.of_nat plen = 0)) as [H0|H0].
  - assert (plen = 0%nat) as -> by lia. reflexivity.
  - rewrite decide_True by lia. rewrite Nat2Z.id. change (Z.to_nat 8) with 8%nat.
    rewrite memcpy_splice by (rewrite ?length_splice; simpl; lia). rewrite bind_Ok_l.
    rewrite splice_app by (simpl; lia). unfold frame_bytes. rewrite Ht8. reflexivity.
Qed.


(** The scratch payload of [sbp_serialize_message] after its writes. *)
Lemma scratch_take bs : (length bs <= 16)%nat ->
  take (length bs) (splice (replicate 16 0) 0 bs) = bs.
Proof. intros. apply splice_0_take. assumption. Qed.

Lemma scratch_len bs : (length bs <= 16)%nat -> length (splice (replicate 16 0) 0 bs) = 16%nat.
Proof. intros. rewrite length_splice; [reflexivity|assumption]. Qed.

(** Serializing is encoding the payload the message calls for. *)
Lemma serialize_encode m out cap olen : message_ok m ->
  sbp_serialize_message (Some m) out cap olen =
  let n := Z.of_nat (length (payload_bytes (m_payload m))) in
  sbp_encode_frame (m_version m) (m_type m) (m_flags m)
    (if decide (n = 0) then None
     else Some (splice (replicate 16 0) 0 (payload_bytes (m_payload m)))) n out cap olen.
Proof.
  destruct m as [ty v f p]. intros (Hv & Hf & Hp).
  unfold sbp_serialize_message. cbn [m_type m_version m_flags m_payload] in *.
  destruct p as [|s n|s|pid slot]; cbn [payload_ok] in Hp.
  - destruct Hp as [-> | ->]; reflexivity.
  - destruct Hp as (-> & _). sbp_decide. cbn [payload_set_time mbind res_bind].
    rewrite write_le64_splice by (simpl; lia).
    cbn [mbind res_bind]. rewrite write_le32_splice by (simpl; lia).
    cbn [mbind res_bind]. rewrite splice_app by (simpl; lia). reflexivity.
  - destruct Hp as (-> & _). sbp_decide. cbn [payload_set_seed mbind res_bind].
    rewrite write_le64_splice by (simpl; lia). reflexivity.
  - destruct Hp as (-> & _). sbp_decide. cbn [payload_register_process mbind res_bind].
    rewrite write_le32_splice by (simpl; lia).
    cbn [mbind res_bind]. rewrite write_le32_splice by (simpl; lia).
    cbn [mbind res_bind]. rewrite splice_app by (simpl; lia). reflexivity.
Qed.

Lemma message_type_u8 m : message_ok m -> in_u 8 (m_type m).
Proof.
  intros (_ & _ & Hp). unfold in_u. revert Hp.
  destruct (m_payload m); simpl; [intros [-> | ->]|intros [-> _]..]; unfold SBP_MSG_HELLO, SBP_MSG_ACK,
    SBP_MSG_SET_TIME, SBP_MSG_SET_SEED, SBP_MSG_REGISTER_PROCESS; lia.
Qed.

Lemma serialize_message_eq (m : sbp_message) (buf : list Z) (cap l0 : Z)
    (Hm : message_ok m) (Hcap : cap <= Z.of_nat (length buf)) :
  let bs := message_bytes m in
  sbp_serialize_message (Some m) (Some buf) cap (Some l0) =
  if decide (Z.of_nat (length bs) <= cap)
  then Ok (SBP_OK, Some (splice buf 0 bs), Some (Z.of_nat (length bs)))
  else Ok (SBP_ERR_BUFFER_TOO_SMALL, Some buf, Some l0).
Proof.
  cbv zeta. rewrite serialize_encode by assumption. cbv zeta.
  pose proof (payload_bytes_le16 (m_payload m)) as H16.
  unfold message_bytes. rewrite length_frame_bytes.
  set (bs := payload_bytes (m_payload m)) in *.
  destruct (decide (Z.of_nat (8 + length bs) <= cap)) as [Hfit|Hfit].
  - rewrite encode_frame_bytes; unfold SBP_MAX_PAYLOAD, SBP_HEADER_SIZE in *;
      try (rewrite scratch_len by assumption); try lia;
      [|destruct Hm; assumption|apply message_type_u8; assumption].
    rewrite scratch_take by assumption. do 4 f_equal. lia.
  - unfold sbp_encode_frame, SBP_MAX_PAYLOAD, SBP_HEADER_SIZE in *.
    rewrite decide_False by lia. rewrite (wrap_small 32) by (unfold in_u; lia).
    rewrite decide_True by lia. reflexivity.
Qed.

(** C16: serializing a well-formed message writes exactly its wire format at the
    start of the buffer, leaves the rest of the buffer alone and reports the
    length; when the stated capacity is too small it says so and writes nothing.
    It never accesses memory out of bounds. *)
Theorem serialize_message_bytes (m : sbp_message) (buf : list Z) (cap l0 : Z)
    (Hm : message_ok m) (Hcap : cap <= Z.of_nat (length buf)) :
  let bs := message_bytes m in
  sbp_serialize_message (Some m) (Some buf) cap (Some l0) =
  if decide (Z.of_nat (length bs) <= cap)
  then Ok (SBP_OK, Some (splice buf 0 bs), Some (Z.of_nat (length bs)))
  else Ok (SBP_ERR_BUFFER_TOO_SMALL, Some buf, Some l0).
Proof. exact (serialize_message_eq m buf cap l0 Hm Hcap). Qed.

(** *** Decoding *)
Lemma seg_take buf n off k : (off + k <= n)%nat -> seg (take n buf) off k = seg buf off k.
Proof.
  intros H. unfold seg. rewrite skipn_firstn_comm, take_take.
  f_equal. lia.
Qed.

(** The header of a frame of at least eight bytes. *)
Lemma decode_frame_header fr n : Forall is_byte fr -> 8 <= n <= Z.of_nat (length fr) ->
  exists v t, [v; t] = seg fr 0 2 /\ is_byte v /\ is_byte t /\
  let f := le_val (seg fr 2 2) in
  let plen := le_val (seg fr 4 4) in
  forall h0 p0,
  sbp_decode_frame (Some fr) n (Some h0) (Some p0) =
  if decide (plen <= SBP_MAX_PAYLOAD /\ n = 8 + plen)
  then Ok (SBP_OK, Some (SbpHeader v t f plen), Some (Some 8%nat))
  else Ok (SBP_ERR_INVALID_LENGTH, Some h0, Some p0).
Proof.
  intros HF Hn.
  destruct (rd_byte fr 0) as (v & Hv & Hsv & Hbv); [assumption|lia|].
  destruct (rd_byte fr 1) as (t & Ht & Hst & Hbt); [assumption|lia|].
  exists v, t. split; [rewrite (seg_S fr 0 1 v Hsv); simpl; rewrite Hst; reflexivity|]. split; [assumption|].
  split; [assumption|]. cbv zeta. intros h0 p0.
  unfold sbp_decode_frame, SBP_HEADER_SIZE. rewrite decide_False by lia.
  rewrite Hv, bind_Ok_l, Ht, bind_Ok_l, read_le16_val, bind_Ok_l, read_le32_val, bind_Ok_l by (auto; lia).
  cbn [h_payload_len]. pose proof (le_val_range (seg fr 4 4) (seg_is_byte _ _ _ HF)) as Hr.
  rewrite length_seg in Hr by lia. change (256 ^ Z.of_nat 4) with 4294967296 in Hr.
  unfold SBP_MAX_PAYLOAD.
  destruct (decide (le_val (seg fr 4 4) > 65535)); [rewrite decide_False by lia; reflexivity|].
  rewrite wrap_small by (unfold in_u; lia).
  destruct (decide (n <> _)); [rewrite decide_False by lia; reflexivity|].
  rewrite decide_True by lia. reflexivity.
Qed.

Lemma decode_frame_short fr n h0 p0 : n < 8 ->
  sbp_decode_frame (Some fr) n (Some h0) p0 = Ok (SBP_ERR_INVALID_LENGTH, Some h0, p0).
Proof. intros. unfold sbp_decode_frame, SBP_HEADER_SIZE. rewrite decide_True by lia. reflexivity. Qed.


(** ** Reference decoder, on the exact bytes received *)
Definition payload_of (t : Z) (pl : list Z) : Z * sbp_payload :=
  if decide (t < SBP_MSG_HELLO \/ SBP_MSG_REGISTER_PROCESS < t) then (SBP_ERR_INVALID_TYPE, PZero)
  else if decide (Z.of_nat (length pl) <> sbp_payload_len_for_type t)
  then (SBP_ERR_INVALID_LENGTH, PZero)
  else (SBP_OK,
        if decide (t = SBP_MSG_SET_TIME)
        then PSetTime (i64 (le_val (seg pl 0 8))) (i32 (le_val (seg pl 8 4)))
        else if decide (t = SBP_MSG_SET_SEED) then PSetSeed (le_val (seg pl 0 8))
        else if decide (t = SBP_MSG_REGISTER_PROCESS)
        then PRegisterProcess (le_val (seg pl 0 4)) (le_val (seg pl 4 4))
        else PZero).

Definition decode_message (l : list Z) : Z * option sbp_message :=
  match l with
  | v :: t :: _ =>
      let plen := le_val (seg l 4 4) in
      if decide ((length l < 8)%nat \/ plen > SBP_MAX_PAYLOAD \/ Z.of_nat (length l) <> 8 + plen)
      then (SBP_ERR_INVALID_LENGTH, None)
      else if decide (v <> SBP_VERSION) then (SBP_ERR_UNSUPPORTED_VERSION, None)
      else let '(rc, p) := payload_of t (drop 8 l) in
           (rc, Some (SbpMessage t v (le_val (seg l 2 2)) p))
  | _ => (SBP_ERR_INVALID_LENGTH, None)
  end.

Lemma seg_drop l a b n : seg (drop a l) b n = seg l (a + b) n.
Proof. unfold seg. rewrite drop_drop. reflexivity. Qed.

Lemma seg_seg l a n b k : (b + k <= n)%nat -> seg (seg l a n) b k = seg l (a + b) k.
Proof. intros H. unfold seg at 2. rewrite seg_take by assumption. apply seg_drop. Qed.

(** The body of [sbp_deserialize_message] after its version check. *)
Lemma deserialize_payload fr n h0 v t f plen m0 :
  Forall is_byte fr -> n = 8 + plen -> 0 <= plen <= SBP_MAX_PAYLOAD -> n <= Z.of_nat (length fr) ->
  sbp_decode_frame (Some fr) n (Some (SbpHeader 0 0 0 0)) (Some None)
    = Ok (SBP_OK, Some (SbpHeader v t f plen), h0) ->
  h0 = Some (Some 8%nat) -> v = SBP_VERSION ->
  sbp_deserialize_message (Some fr) n (Some m0) =
  let '(rc, p) := payload_of t (seg fr 8 (Z.to_nat plen)) in
  Ok (rc, Some (SbpMessage t v f p)).
Proof.
  intros HF Hn Hp Hl Hd -> ->. unfold sbp_deserialize_message. rewrite Hd. clear Hd.
  cbn [mbind res_bind]. rewrite decide_False by sbp_lia. cbn [h_version h_type h_flags h_payload_len m_type m_version m_flags].
  rewrite decide_False by sbp_lia.
  assert (Hs : length (seg fr 8 (Z.to_nat plen)) = Z.to_nat plen) by (apply length_seg; lia).
  unfold payload_of. rewrite Hs, Z2Nat.id by lia.
  destruct (decide (t = SBP_MSG_HELLO \/ t = SBP_MSG_ACK)) as [Ht|Ht].
  { rewrite (decide_False (P := _ \/ _)) by sbp_lia.
    replace (sbp_payload_len_for_type t) with 0 by (destruct Ht as [-> | ->]; reflexivity).
    destruct (decide (plen <> 0)); [reflexivity|]. rewrite !decide_False by (destruct Ht as [-> | ->]; sbp_lia).
    reflexivity. }
  destruct (decide (t = SBP_MSG_SET_TIME)) as [->|].
  { rewrite (decide_False (P := _ \/ _)) by sbp_lia. change (sbp_payload_len_for_type SBP_MSG_SET_TIME) with 12.
    destruct (decide (plen <> 12)); [reflexivity|].
    rewrite read_le64_val, bind_Ok_l, read_le32_val, bind_Ok_l by (auto; lia).
    assert (plen = 12) as -> by lia. change (Z.to_nat 12) with 12%nat.
    rewrite !seg_seg by lia. reflexivity. }
  destruct (decide (t = SBP_MSG_SET_SEED)) as [->|].
  { rewrite (decide_False (P := _ \/ _)) by sbp_lia. change (sbp_payload_len_for_type SBP_MSG_SET_SEED) with 8.
    destruct (decide (plen <> 8)); [reflexivity|].
    rewrite read_le64_val, bind_Ok_l by (auto; lia).
    assert (plen = 8) as -> by lia. change (Z.to_nat 8) with 8%nat.
    rewrite !seg_seg by lia. reflexivity. }
  destruct (decide (t = SBP_MSG_REGISTER_PROCESS)) as [->|].
  { rewrite (decide_False (P := _ \/ _)) by sbp_lia. change (sbp_payload_len_for_type SBP_MSG_REGISTER_PROCESS) with 8.
    destruct (decide (plen <> 8)); [reflexivity|].
    rewrite (read_le32_val fr 8), bind_Ok_l, read_le32_val, bind_Ok_l by (auto; lia).
    assert (plen = 8) as -> by lia. change (Z.to_nat 8) with 8%nat.
    rewrite !seg_seg by lia. reflexivity. }
  rewrite decide_True by sbp_lia. reflexivity.
Qed.

Lemma deserialize_message_eq (fr : list Z) (n : Z) (m0 : sbp_message)
    (Hfr : Forall is_byte fr) (Hn : 0 <= n <= Z.of_nat (length fr)) :
  sbp_deserialize_message (Some fr) n (Some m0) =
  let '(rc, om) := decode_message (take (Z.to_nat n) fr) in
  Ok (rc, Some (default m0 om)).
Proof.
  assert (Hl : length (take (Z.to_nat n) fr) = Z.to_nat n) by (rewrite length_take; lia).
  destruct (decide (n < 8)) as [H8|H8].
  { unfold sbp_deserialize_message. rewrite decode_frame_short by assumption.
    cbn [mbind res_bind]. rewrite decide_True by sbp_lia. unfold decode_message.
    destruct (take (Z.to_nat n) fr) as [|v [|t l]]; [reflexivity..|].
    rewrite decide_True by (left; lia). reflexivity. }
  destruct (decode_frame_header fr n Hfr) as (v & t & Hvt & Hv & Ht & Hd); [lia|].
  specialize (Hd (SbpHeader 0 0 0 0) None). cbv zeta in Hd.
  assert (Htk : take (Z.to_nat n) fr = v :: t :: drop 2 (take (Z.to_nat n) fr)).
  { rewrite <- (take_drop 2 (take (Z.to_nat n) fr)) at 1.
    rewrite take_take, Nat.min_l by lia. change (take 2 fr) with (seg fr 0 2). rewrite <- Hvt. reflexivity. }
  unfold decode_message. rewrite Htk. cbv zeta. rewrite <- Htk, Hl.
  rewrite !seg_take by lia.
  pose proof (le_val_range (seg fr 4 4) (seg_is_byte _ _ _ Hfr)) as Hr.
  set (plen := le_val (seg fr 4 4)) in *. set (f := le_val (seg fr 2 2)) in *.
  destruct (decide (plen <= SBP_MAX_PAYLOAD /\ n = 8 + plen)) as [[Hp Hnp]|Hbad].
  - rewrite decide_False by lia. destruct (decide (v <> SBP_VERSION)).
    + unfold sbp_deserialize_message. rewrite Hd. cbn [mbind res_bind].
      rewrite decide_False by sbp_lia. cbn [h_version]. rewrite decide_True by assumption. reflexivity.
    + erewrite deserialize_payload; [|eauto; lia..|lia].
      replace (drop 8 (take (Z.to_nat n) fr)) with (seg fr 8 (Z.to_nat plen)).
      * destruct (payload_of _ _). reflexivity.
      * unfold seg. rewrite skipn_firstn_comm. f_equal. lia.
  - rewrite decide_True by lia. unfold sbp_deserialize_message. rewrite Hd.
    cbn [mbind res_bind]. rewrite decide_True by sbp_lia. reflexivity.
Qed.

(** *** The reference decoder inverts the reference encoding *)
Lemma le_bytes_seg l off n : Forall is_byte l -> (off + n <= length l)%nat ->
  le_bytes n (le_val (seg l off n)) = seg l off n.
Proof.
  intros HF Hl. rewrite <- (length_seg l off n Hl) at 1. apply le_bytes_val, seg_is_byte, HF.
Qed.

Lemma le_val_seg_range l off n : Forall is_byte l -> (off + n <= length l)%nat ->
  0 <= le_val (seg l off n) < 256 ^ Z.of_nat n.
Proof.
  intros HF Hl. rewrite <- (length_seg l off n Hl) at 3. apply le_val_range, seg_is_byte, HF.
Qed.

Lemma le_val_bytes_in n v w : 2 ^ w = 256 ^ Z.of_nat n -> in_u w v -> le_val (le_bytes n v) = v.
Proof. intros He Hv. apply le_val_bytes. unfold in_u in Hv. lia. Qed.

Lemma payload_of_complete t p :
  payload_ok t p -> payload_of t (payload_bytes p) = (SBP_OK, p).
Proof.
  intros H. unfold payload_of. rewrite (length_payload_bytes t p H).
  rewrite (decide_False (P := _ \/ _))
    by (destruct p; simpl in H; [destruct H|destruct H as [H _]..]; sbp_lia).
  rewrite decide_False by lia. f_equal.
  destruct p as [|s n|s|pid slot]; simpl in H.
  - rewrite !decide_False by (destruct H; sbp_lia). reflexivity.
  - destruct H as (-> & Hs & Hn). change (seg (payload_bytes (PSetTime s n)) 0 8) with (le_bytes 8 (u64 s)).
    change (seg (payload_bytes (PSetTime s n)) 8 4) with (le_bytes 4 (u32 n)).
    rewrite (le_val_bytes_in 8 _ 64), (le_val_bytes_in 4 _ 32), !sext_wrap
      by (reflexivity || assumption || lia || (apply wrap_range; lia)). reflexivity.
  - destruct H as (-> & Hs). change (seg (payload_bytes (PSetSeed s)) 0 8) with (le_bytes 8 s).
    rewrite (le_val_bytes_in 8 _ 64) by (reflexivity || assumption). reflexivity.
  - destruct H as (-> & Hp & Hs). change (seg (payload_bytes (PRegisterProcess pid slot)) 0 4) with (le_bytes 4 pid).
    change (seg (payload_bytes (PRegisterProcess pid slot)) 4 4) with (le_bytes 4 slot).
    rewrite !(le_val_bytes_in 4 _ 32) by (reflexivity || assumption). reflexivity.
Qed.

Lemma payload_of_sound t pl p : Forall is_byte pl ->
  payload_of t pl = (SBP_OK, p) -> payload_ok t p /\ payload_bytes p = pl.
Proof.
  intros HF. unfold payload_of.
  destruct (decide (t < _ \/ _)) as [|Ht]; [intros [=]|].
  destruct (decide (Z.of_nat _ <> _)) as [|Hl]; [intros [=]|]. intros [= <-].
  destruct (decide (t = SBP_MSG_SET_TIME)) as [->|].
  { assert (length pl = 12%nat) by (change (sbp_payload_len_for_type SBP_MSG_SET_TIME) with 12 in Hl; lia).
    pose proof (le_val_seg_range pl 0 8 HF ltac:(lia)). pose proof (le_val_seg_range pl 8 4 HF ltac:(lia)).
    split; [repeat split; apply sext_range; lia|]. cbn [payload_bytes].
    rewrite !wrap_sext by (lia || assumption). rewrite !le_bytes_seg by (auto; lia).
    transitivity (seg pl 0 (8 + 4)); [symmetry; apply seg_app|apply seg_all; lia]. }
  destruct (decide (t = SBP_MSG_SET_SEED)) as [->|].
  { assert (length pl = 8%nat) by (change (sbp_payload_len_for_type SBP_MSG_SET_SEED) with 8 in Hl; lia).
    pose proof (le_val_seg_range pl 0 8 HF ltac:(lia)).
    split; [split; [reflexivity|assumption]|]. cbn [payload_bytes].
    rewrite le_bytes_seg by (auto; lia). apply seg_all. lia. }
  destruct (decide (t = SBP_MSG_REGISTER_PROCESS)) as [->|].
  { assert (length pl = 8%nat) by (change (sbp_payload_len_for_type SBP_MSG_REGISTER_PROCESS) with 8 in Hl; lia).
    pose proof (le_val_seg_range pl 0 4 HF ltac:(lia)). pose proof (le_val_seg_range pl 4 4 HF ltac:(lia)).
    split; [repeat split; assumption || lia|]. cbn [payload_bytes].
    rewrite !le_bytes_seg by (auto; lia). transitivity (seg pl 0 (4 + 4)); [symmetry; apply seg_app|apply seg_all; lia]. }
  assert (Ht2 : t = SBP_MSG_HELLO \/ t = SBP_MSG_ACK) by sbp_lia. split; [exact Ht2|].
  destruct pl; [reflexivity|]. exfalso. apply Hl. clear Hl. destruct Ht2 as [-> | ->]; vm_compute; discriminate.
Qed.

Lemma seg_frame_bytes v t f pl :
  seg (frame_bytes v t f pl) 2 2 = le_bytes 2 f /\
  seg (frame_bytes v t f pl) 4 4 = le_bytes 4 (Z.of_nat (length pl)) /\
  drop 8 (frame_bytes v t f pl) = pl.
Proof. repeat split; reflexivity. Qed.

Lemma decode_message_ok l m : Forall is_byte l ->
  decode_message l = (SBP_OK, Some m) <->
  message_ok m /\ m_version m = SBP_VERSION /\ l = message_bytes m.
Proof.
  intros HF. split.
  - unfold decode_message. destruct l as [|v [|t l2]] eqn:El; [discriminate..|]. rewrite <- El in *.
    cbv zeta. destruct (decide (_ \/ _)) as [|Hl]; [discriminate|].
    destruct (decide _) as [|Hv]; [discriminate|].
    destruct (payload_of t (drop 8 l)) as [rc p] eqn:Hp. intros [= -> <-].
    apply payload_of_sound in Hp as [Hok Hb]; [|apply Forall_drop, HF].
    pose proof (le_val_seg_range l 2 2 HF ltac:(lia)).
    assert (Hv1 : v = SBP_VERSION) by lia. split; [|split; [exact Hv1|]].
    + split; [cbn [m_version]; sbp_lia|]. split; [assumption|exact Hok].
    + unfold message_bytes, frame_bytes. cbn [m_version m_type m_flags m_payload]. rewrite Hb, length_drop.
      rewrite le_bytes_seg by (auto; lia).
      replace (Z.of_nat (length l - 8)) with (le_val (seg l 4 4)) by lia. rewrite le_bytes_seg by (auto; lia).
      replace [v; t] with (seg l 0 2) by (rewrite El; reflexivity).
      rewrite <- (take_drop 8 l) at 1. change (take 8 l) with (seg l 0 (2 + (2 + 4))).
      rewrite !seg_app, <- !app_assoc. reflexivity.
  - intros (Hm & Hv & ->). destruct Hm as (_ & Hf & Hp).
    pose proof (payload_bytes_le16 (m_payload m)) as H16.
    destruct (seg_frame_bytes (m_version m) (m_type m) (m_flags m) (payload_bytes (m_payload m))) as (H2 & H4 & H8).
    unfold decode_message. unfold message_bytes in *. rewrite H2, H4, H8, length_frame_bytes.
    rewrite le_val_bytes by (simpl; lia).
    cbn [frame_bytes app]. rewrite decide_False by sbp_lia. rewrite decide_False by (rewrite Hv; lia).
    rewrite payload_of_complete by assumption.
    rewrite (le_val_bytes_in 2 _ 16) by (reflexivity || assumption). destruct m; reflexivity.
Qed.

Lemma decode_message_refused l rc : decode_message l = (rc, None) -> rc <> SBP_OK.
Proof.
  unfold decode_message. destruct l as [|v [|t l]]; [intros [= <-]; discriminate..|].
  repeat case_decide; [intros [= <-]; discriminate..|]. destruct (payload_of _ _). discriminate.
Qed.

Lemma message_bytes_is_byte m : message_ok m -> Forall is_byte (message_bytes m).
Proof.
  intros H. pose proof (message_type_u8 m H) as Ht. destruct H as (Hv & Hf & Hp).
  assert (Hb : Forall is_byte (payload_bytes (m_payload m))).
  { destruct (m_payload m); cbn [payload_bytes]; auto using Forall_app_2 with bytes. }
  unfold message_bytes, frame_bytes, is_byte, in_u in *. cbn [app].
  constructor; [lia|]. constructor; [lia|].
  apply (Forall_app_2 _ (le_bytes 2 _)); [apply le_bytes_is_byte|].
  apply (Forall_app_2 _ (le_bytes 4 _)); [apply le_bytes_is_byte|assumption].
Qed.

Lemma decode_message_bytes m : message_ok m -> m_version m = SBP_VERSION ->
  decode_message (message_bytes m) = (SBP_OK, Some m).
Proof. intros Hm Hv. apply decode_message_ok; auto using message_bytes_is_byte. Qed.

(** C5: on any received bytes [sbp_deserialize_message] never accesses memory
    out of bounds and computes the reference decoder of the wire format: the
    status and message of every branch, the caller's message left alone where
    the frame or the version is refused. It accepts exactly the wire formats of
    well-formed version-1 messages, and the message it returns is the one
    encoded: nothing else is accepted, no two byte strings decode to the same
    message, and what one side serializes the other reads back unchanged. *)
Theorem deserialize_message_correct (fr : list Z) (n : Z) (m0 : sbp_message)
    (Hfr : Forall is_byte fr) (Hn : 0 <= n <= Z.of_nat (length fr)) :
  sbp_deserialize_message (Some fr) n (Some m0) =
    (let '(rc, om) := decode_message (take (Z.to_nat n) fr) in Ok (rc, Some (default m0 om))) /\
  forall m, sbp_deserialize_message (Some fr) n (Some m0) = Ok (SBP_OK, Some m) <->
    message_ok m /\ m_version m = SBP_VERSION /\ take (Z.to_nat n) fr = message_bytes m.
Proof.
  split; [exact (deserialize_message_eq fr n m0 Hfr Hn)|]. intros m.
  rewrite deserialize_message_eq by assumption.
  rewrite <- decode_message_ok by (apply Forall_take, Hfr).
  destruct (decode_message _) as [rc [m'|]] eqn:E; simpl; [split; intros [= -> ->]; reflexivity|].
  split; [|discriminate]. intros [= -> ->]. apply decode_message_refused in E. contradiction.
Qed.

(** A read that returns more than one frame is refused. The transport is a
    stream socket, so two messages sent back to back may arrive in one [read];
    both ends hand the bytes of one [read] to the decoder, which then reports
    [SBP_ERR_INVALID_LENGTH] whatever the messages were. *)
Theorem coalesced_frames_refused (m1 m2 m0 : sbp_message)
    (Hm1 : message_ok m1) (Hm2 : message_ok m2) :
  let l := message_bytes m1 ++ message_bytes m2 in
  sbp_deserialize_message (Some l) (Z.of_nat (length l)) (Some m0) =
  Ok (SBP_ERR_INVALID_LENGTH, Some m0).
Proof.
  cbv zeta.
  assert (HF : Forall is_byte (message_bytes m1 ++ message_bytes m2))
    by (apply Forall_app_2; apply message_bytes_is_byte; assumption).
  rewrite deserialize_message_eq by (assumption || lia).
  rewrite Nat2Z.id, firstn_all.
  pose proof (payload_bytes_le16 (m_payload m1)). pose proof (payload_bytes_le16 (m_payload m2)).
  unfold decode_message. unfold message_bytes at 1. cbn [frame_bytes app].
  change (seg _ 4 4) with (le_bytes 4 (Z.of_nat (length (payload_bytes (m_payload m1))))).
  rewrite le_val_bytes by (simpl; lia).
  rewrite decide_True; [reflexivity|]. right. right.
  unfold message_bytes. simpl. rewrite !length_app. simpl. lia.
Qed.
