(* ===== verification/Prng.v ===== *)
(** * The deterministic pseudo-random generator

    Models src/shim/prng.c: splitmix64 for seeding, xorshift64* for the stream,
    rejection sampling for bounded integers. *)
From S2P Require Import Prelude Bytes Bits.

(** [splitmix64 (&x)]: the new value of [x] and the result. *)
Definition splitmix64 (x : Z) : Z * Z :=
  let x := u64 (x + 0x9E3779B97F4A7C15) in
  let z := x in
  let z := u64 (Z.lxor z (Z.shiftr z 30) * 0xBF58476D1CE4E5B9) in
  let z := u64 (Z.lxor z (Z.shiftr z 27) * 0x94D049BB133111EB) in
  (x, Z.lxor z (Z.shiftr z 31)).

Record linbox_prng := LinboxPrng { state : Z }.

Definition linbox_prng_seed (prng : option linbox_prng) (seed : Z) : option linbox_prng :=
  match prng with
  | None => None
  | Some _ =>
      let st := (splitmix64 seed).2 in
      Some (LinboxPrng (if decide (st = 0) then 0xA5A5A5A5A5A5A5A5 else st))
  end.

Definition linbox_prng_derive_process_seed (seed pid : Z) : Z :=
  let mixed := Z.lxor seed (Z.lor (u64 (Z.shiftl pid 32)) pid) in
  (splitmix64 mixed).2.

(** The state update of [linbox_prng_next_u64]. *)
Definition xorshift (x : Z) : Z :=
  let x := Z.lxor x (Z.shiftr x 12) in
  let x := Z.lxor x (u64 (Z.shiftl x 25)) in
  Z.lxor x (Z.shiftr x 27).

Definition linbox_prng_next_u64 (prng : linbox_prng) : linbox_prng * Z :=
  let x := xorshift (state prng) in
  (LinboxPrng x, u64 (x * 0x2545F4914F6CDD1D)).

Definition linbox_prng_next_u32 (prng : linbox_prng) : linbox_prng * Z :=
  let '(prng, v) := linbox_prng_next_u64 prng in
  (prng, u32 (Z.shiftr v 32)).

(** The inner [for] of [linbox_prng_fill], with [k = 8 - i] iterations left. *)
Fixpoint fill_word (k : nat) (word : Z) (out : list Z) (offset len : nat)
  : res (list Z * nat) :=
  match k with
  | O => Ok (out, offset)
  | S k' =>
      if decide (offset < len)%nat then
        out ← wr out offset (Z.land word 255);
        fill_word k' (Z.shiftr word 8) out (offset + 1) len
      else Ok (out, offset)
  end.

(** The outer [while]; [fuel] bounds its iterations. *)
Fixpoint fill_loop (fuel : nat) (prng : linbox_prng) (out : list Z) (offset len : nat)
  : res (linbox_prng * list Z) :=
  if decide (offset < len)%nat then
    match fuel with
    | O => OutOfFuel
    | S fuel' =>
        let '(prng, word) := linbox_prng_next_u64 prng in
        '(out, offset) ← fill_word 8 word out offset len;
        fill_loop fuel' prng out offset len
    end
  else Ok (prng, out).

(** [len] iterations suffice: each writes a byte. *)
Definition linbox_prng_fill (prng : linbox_prng) (buf : list Z) (len : nat)
  : res (linbox_prng * list Z) :=
  fill_loop len prng buf 0 len.

(** The [for (;;)] of [linbox_prng_uniform]. *)
Fixpoint uniform_loop (fuel : nat) (prng : linbox_prng) (upper_bound threshold : Z)
  : res (linbox_prng * Z) :=
  match fuel with
  | O => OutOfFuel
  | S fuel' =>
      let '(prng, r) := linbox_prng_next_u32 prng in
      if decide (threshold <= r) then Ok (prng, r mod upper_bound)
      else uniform_loop fuel' prng upper_bound threshold
  end.

Definition linbox_prng_uniform (fuel : nat) (prng : linbox_prng) (upper_bound : Z)
  : res (linbox_prng * Z) :=
  if decide (upper_bound = 0) then Ok (prng, 0)
  else
    let threshold := u32 (- upper_bound) mod upper_bound in
    uniform_loop fuel prng upper_bound threshold.

(** The state is a 64-bit word, and never zero: zero is a fixed point of
    [xorshift] at which the stream would be constant. *)
Definition prng_ok (prng : linbox_prng) : Prop := in_u 64 (state prng) /\ state prng <> 0.

#[export] Instance prng_ok_dec prng : Decision (prng_ok prng).
Proof. unfold prng_ok. apply _. Defined.


(** ** The state update *)
Lemma xorshift_in_u x : in_u 64 x -> in_u 64 (xorshift x).
Proof. intros Hx. unfold xorshift. auto 8 with bits. Qed.

Lemma xorshift_inj x y : in_u 64 x -> in_u 64 y -> xorshift x = xorshift y -> x = y.
Proof.
  intros Hx Hy H. unfold xorshift in H.
  assert (Hn : forall z, in_u 64 z -> 0 <= z) by (unfold in_u; lia).
  apply xor_shr_inj in H; [|lia|apply Hn; auto 8 with bits..].
  apply xor_shl_inj in H; [|lia|lia|auto 8 with bits..].
  apply xor_shr_inj in H; [assumption|lia|apply Hn; assumption..].
Qed.

Lemma xorshift_nonzero x : in_u 64 x -> x <> 0 -> xorshift x <> 0.
Proof.
  intros Hx Hn H. apply Hn. apply xorshift_inj; [assumption|unfold in_u; lia|exact H].
Qed.

(** The generator never leaves its good states: from a nonzero 64-bit state
    the next state is a nonzero 64-bit word, so the stream never collapses to
    the constant zero stream, and the word returned is itself nonzero. *)
Lemma next_u64_ok (p : linbox_prng) (Hp : prng_ok p) :
  let '(p', v) := linbox_prng_next_u64 p in
  prng_ok p' /\ in_u 64 v /\ v <> 0.
Proof.
  destruct Hp as [Hr Hn]. unfold linbox_prng_next_u64. unfold prng_ok. cbn [state].
  pose proof (xorshift_in_u _ Hr) as Hx. pose proof (xorshift_nonzero _ Hr Hn) as Hx0.
  split; [auto|]. split; [apply u64_in_u|]. intros H. apply Hx0.
  apply (wrap_mul_inj 64 0x2545F4914F6CDD1D 0x59071d96d81ecd35); [reflexivity|assumption|unfold in_u; lia|exact H].
Qed.

(** ** Seeding *)
Lemma splitmix64_in_u x : in_u 64 (splitmix64 x).2.
Proof. unfold splitmix64. cbn [snd]. auto 8 with bits. Qed.

Lemma splitmix64_inj x y : in_u 64 x -> in_u 64 y -> (splitmix64 x).2 = (splitmix64 y).2 -> x = y.
Proof.
  intros Hx Hy H. unfold splitmix64 in H. cbn [snd] in H.
  assert (Hn : forall z, in_u 64 z -> 0 <= z) by (unfold in_u; lia).
  apply xor_shr_inj in H; [|lia|apply Hn; auto 8 with bits..].
  apply (wrap_mul_inj 64 0x94D049BB133111EB 0x319642b2d24d8ec3) in H; [|reflexivity|auto 8 with bits..].
  apply xor_shr_inj in H; [|lia|apply Hn; auto 8 with bits..].
  apply (wrap_mul_inj 64 0xBF58476D1CE4E5B9 0x96de1b173f119089) in H; [|reflexivity|auto 8 with bits..].
  apply xor_shr_inj in H; [|lia|apply Hn; auto 8 with bits..].
  apply wrap_add_inj in H; assumption.
Qed.

Lemma lxor_cancel_l a b c : Z.lxor a b = Z.lxor a c -> b = c.
Proof.
  intros H. rewrite <- (Z.lxor_0_l b), <- (Z.lxor_nilpotent a), Z.lxor_assoc, H.
  rewrite <- Z.lxor_assoc, Z.lxor_nilpotent. apply Z.lxor_0_l.
Qed.

Lemma mix_pid_in_u p : in_u 32 p -> in_u 64 (Z.lor (u64 (Z.shiftl p 32)) p).
Proof. intros H. apply lor_in_u; [lia|apply u64_in_u|unfold in_u in *; lia]. Qed.

Lemma mix_pid_inj p q : in_u 32 p -> in_u 32 q ->
  Z.lor (u64 (Z.shiftl p 32)) p = Z.lor (u64 (Z.shiftl q 32)) q -> p = q.
Proof.
  intros Hp Hq H. assert (Hs : forall z, in_u 32 z -> Z.lor (u64 (Z.shiftl z 32)) z = z + 2 ^ 32 * z).
  { intros z Hz. rewrite wrap_small, Z.lor_comm by (unfold in_u in *; rewrite Z.shiftl_mul_pow2; lia).
    apply lor_shiftl_add; [lia|exact Hz]. }
  rewrite !Hs in H by assumption. lia.
Qed.

Lemma derive_process_seed_inj (s1 s2 p1 p2 : Z)
    (Hs1 : in_u 64 s1) (Hs2 : in_u 64 s2) (Hp1 : in_u 32 p1) (Hp2 : in_u 32 p2) :
  (linbox_prng_derive_process_seed s1 p1 = linbox_prng_derive_process_seed s1 p2 -> p1 = p2) /\
  (linbox_prng_derive_process_seed s1 p1 = linbox_prng_derive_process_seed s2 p1 -> s1 = s2).
Proof.
  unfold linbox_prng_derive_process_seed. split; intros H.
  - apply splitmix64_inj in H; [|apply lxor_in_u; auto using mix_pid_in_u with lia..].
    apply mix_pid_inj; [assumption..|]. exact (lxor_cancel_l _ _ _ H).
  - apply splitmix64_inj in H; [|apply lxor_in_u; auto using mix_pid_in_u with lia..].
    apply (lxor_cancel_l (Z.lor (u64 (Z.shiftl p1 32)) p1)). rewrite !(Z.lxor_comm _ s1), !(Z.lxor_comm _ s2).
    exact H.
Qed.

Lemma prng_seed_ok p0 s : exists p, linbox_prng_seed (Some p0) s = Some p /\ prng_ok p /\
  ((splitmix64 s).2 <> 0 -> state p = (splitmix64 s).2).
Proof.
  unfold linbox_prng_seed. cbv zeta. eexists. split; [reflexivity|]. unfold prng_ok. cbn [state].
  pose proof (splitmix64_in_u s). destruct (decide _); [|auto].
  split; [split; [unfold in_u; lia|lia]|contradiction].
Qed.

(** What a generator is after seeding; what it was before does not matter. *)
Definition seeded (seed : Z) : linbox_prng :=
  default (LinboxPrng 0) (linbox_prng_seed (Some (LinboxPrng 0)) seed).

Lemma seeded_eq p0 s : linbox_prng_seed (Some p0) s = Some (seeded s).
Proof. reflexivity. Qed.

(** The one seed that splitmix64 sends to zero. *)
Definition degenerate_seed : Z := 0x61C8864680B583EB.

Lemma seeded_ok s : prng_ok (seeded s).
Proof. destruct (prng_seed_ok (LinboxPrng 0) s) as (p & Hp & Hok & _). rewrite seeded_eq in Hp. congruence. Qed.

Lemma degenerate_unique s : in_u 64 s -> (splitmix64 s).2 = 0 -> s = degenerate_seed.
Proof.
  intros Hs H. apply splitmix64_inj; [assumption|unfold in_u, degenerate_seed; lia|]. rewrite H. reflexivity.
Qed.

Lemma seeded_inj s1 s2 : in_u 64 s1 -> in_u 64 s2 -> s1 <> degenerate_seed -> s2 <> degenerate_seed ->
  seeded s1 = seeded s2 -> s1 = s2.
Proof.
  intros H1 H2 N1 N2 H.
  assert (Hst : forall s, in_u 64 s -> s <> degenerate_seed -> state (seeded s) = (splitmix64 s).2).
  { intros s Hs Hn. destruct (prng_seed_ok (LinboxPrng 0) s) as (p & Hp & _ & He). rewrite seeded_eq in Hp.
    injection Hp as <-. apply He. intros H0. exact (Hn (degenerate_unique s Hs H0)). }
  apply splitmix64_inj; [assumption..|]. rewrite <- !Hst, H by assumption. reflexivity.
Qed.

Lemma next_u64_inj g1 g2 : prng_ok g1 -> prng_ok g2 ->
  (linbox_prng_next_u64 g1).2 = (linbox_prng_next_u64 g2).2 -> g1 = g2.
Proof.
  intros [H1 _] [H2 _] H. unfold linbox_prng_next_u64 in H. cbn [snd] in H.
  apply (wrap_mul_inj 64 0x2545F4914F6CDD1D 0x59071d96d81ecd35) in H; [|reflexivity|auto using xorshift_in_u..].
  apply xorshift_inj in H; [|assumption..]. destruct g1, g2. cbn in H. congruence.
Qed.

(** C28: no two processes draw the same stream: processes that differ in their
    identifier under one shared seed, or have one identifier under two shared
    seeds, already differ in the first word they draw. The one exception is a
    derived seed whose mix is zero and is replaced by a constant: a single value
    of the [2^64]. *)
Theorem process_streams_distinct (s1 s2 p1 p2 : Z)
    (Hs1 : in_u 64 s1) (Hs2 : in_u 64 s2) (Hp1 : in_u 32 p1) (Hp2 : in_u 32 p2)
    (Hdiff : (s1 = s2 /\ p1 <> p2) \/ (s1 <> s2 /\ p1 = p2)) :
  let d1 := linbox_prng_derive_process_seed s1 p1 in
  let d2 := linbox_prng_derive_process_seed s2 p2 in
  d1 <> d2 /\
  (d1 <> degenerate_seed -> d2 <> degenerate_seed ->
   (linbox_prng_next_u64 (seeded d1)).2 <> (linbox_prng_next_u64 (seeded d2)).2).
Proof.
  cbv zeta. assert (Hd : linbox_prng_derive_process_seed s1 p1 <> linbox_prng_derive_process_seed s2 p2).
  { intros H. destruct Hdiff as [[<- Hne]|[Hne <-]]; apply Hne.
    - exact (proj1 (derive_process_seed_inj s1 s1 p1 p2 Hs1 Hs1 Hp1 Hp2) H).
    - exact (proj2 (derive_process_seed_inj s1 s2 p1 p1 Hs1 Hs2 Hp1 Hp1) H). }
  split; [exact Hd|]. intros N1 N2 H. apply next_u64_inj in H; [|apply seeded_ok..].
  apply seeded_inj in H; [exact (Hd H)|apply splitmix64_in_u..|exact N1|exact N2].
Qed.


(** ** Filling a buffer *)

(** The generator after [n] words, and those words. *)
Fixpoint prng_words (n : nat) (p : linbox_prng) : list Z * linbox_prng :=
  match n with
  | O => ([], p)
  | S n' => let '(p1, w) := linbox_prng_next_u64 p in
            let '(ws, p') := prng_words n' p1 in (w :: ws, p')
  end.

Definition words_for (len : nat) : nat := ((len + 7) / 8)%nat.

(** The byte stream: each word in little-endian order, the tail of the last
    word dropped. *)
Definition prng_bytes (len : nat) (p : linbox_prng) : list Z :=
  take len (mjoin (le_bytes 8 <$> (prng_words (words_for len) p).1)).

Lemma fill_word_bytes k word out off len : (len <= length out)%nat ->
  fill_word k word out off len =
  Ok (splice out off (take (len - off) (le_bytes k word)), (off + min k (len - off))%nat).
Proof.
  revert word out off. induction k as [|k IH]; intros word out off Hl; cbn [fill_word le_bytes].
  - rewrite take_nil. unfold splice. simpl. rewrite !Nat.add_0_r, take_drop. reflexivity.
  - destruct (decide (off < len)%nat).
    + rewrite wr_splice by lia. rewrite bind_Ok_l, IH by (rewrite length_splice; simpl; lia).
      rewrite land_255. unfold wrap. rewrite Z.mod_mod by lia. rewrite shiftr_byte by lia.
      rewrite splice_app by (rewrite ?length_take, ?length_le_bytes; simpl; lia).
      replace (len - off)%nat with (S (len - (off + 1))) by lia. cbn [take app].
      f_equal. f_equal. lia.
    + replace (len - off)%nat with 0%nat by lia. cbn [take]. unfold splice. simpl.
      rewrite !Nat.add_0_r, take_drop. reflexivity.
Qed.

Lemma words_for_step n : (0 < n)%nat -> words_for n = S (words_for (n - 8)).
Proof.
  intros H. unfold words_for. destruct (decide (n <= 8)%nat).
  - replace (n - 8)%nat with 0%nat by lia. simpl ((0 + 7) / 8)%nat.
    symmetry. apply Nat.div_unique with (r := (n - 1)%nat); lia.
  - replace (n + 7)%nat with (n - 8 + 7 + 1 * 8)%nat by lia. rewrite Nat.div_add by lia. lia.
Qed.

Lemma fill_loop_bytes fuel p out off len :
  (len - off <= fuel)%nat -> (len <= length out)%nat ->
  fill_loop fuel p out off len =
  Ok ((prng_words (words_for (len - off)) p).2, splice out off (prng_bytes (len - off) p)).
Proof.
  revert p out off. induction fuel as [|fuel IH]; intros p out off Hf Hl; cbn [fill_loop].
  - rewrite decide_False by lia. replace (len - off)%nat with 0%nat by lia.
    unfold prng_bytes, splice. simpl. rewrite Nat.add_0_r, take_drop. reflexivity.
  - destruct (decide (off < len)%nat) as [Hlt|Hge].
    + destruct (linbox_prng_next_u64 p) as [p1 w] eqn:Hn.
      rewrite fill_word_bytes, bind_Ok_l by assumption.
      set (m := (len - off)%nat). assert (Hm : (0 < m)%nat) by lia.
      rewrite IH by (rewrite ?length_splice; rewrite ?length_take, ?length_le_bytes; lia).
      replace (len - (off + min 8 m))%nat with (m - 8)%nat by lia.
      unfold prng_bytes at 2. rewrite (words_for_step m) by assumption. cbn [prng_words]. rewrite Hn.
      unfold prng_bytes. destruct (prng_words (words_for (m - 8)) p1) as [ws p'].
      cbn [fst snd]. rewrite fmap_cons. cbn [mjoin list_join].
      f_equal. f_equal.
      rewrite splice_app by (rewrite ?length_take, ?length_le_bytes; lia).
      f_equal. rewrite take_app, length_le_bytes. reflexivity.
    + replace (len - off)%nat with 0%nat by lia.
      unfold prng_bytes, splice. simpl. rewrite Nat.add_0_r, take_drop. reflexivity.
Qed.

(** [linbox_prng_fill] always terminates and, given room for [len] bytes, writes
    the first [len] bytes of the little-endian word stream, nothing beyond them,
    and consumes exactly the words it needed: the bytes depend on the generator
    state alone. *)
Lemma prng_fill_eq (p : linbox_prng) (buf : list Z) (len : nat)
    (Hlen : (len <= length buf)%nat) :
  linbox_prng_fill p buf len =
  Ok ((prng_words (words_for len) p).2, splice buf 0 (prng_bytes len p)).
Proof.
  unfold linbox_prng_fill. rewrite fill_loop_bytes by lia. rewrite Nat.sub_0_r. reflexivity.
Qed.

Lemma prng_words_app n m p :
  prng_words (n + m) p =
  let '(ws, p1) := prng_words n p in let '(vs, p2) := prng_words m p1 in (ws ++ vs, p2).
Proof.
  revert p. induction n as [|n IH]; intros p; cbn [Nat.add prng_words].
  - destruct (prng_words m p). reflexivity.
  - destruct (linbox_prng_next_u64 p) as [p1 w]. rewrite IH.
    destruct (prng_words n p1) as [ws p2]. destruct (prng_words m p2). reflexivity.
Qed.

Lemma length_prng_words n p : length (prng_words n p).1 = n.
Proof.
  revert p. induction n as [|n IH]; intros p; cbn [prng_words]; [reflexivity|].
  destruct (linbox_prng_next_u64 p) as [p1 w]. specialize (IH p1).
  destruct (prng_words n p1). simpl in *. congruence.
Qed.

Lemma length_word_bytes (ws : list Z) : length (mjoin (le_bytes 8 <$> ws)) = (8 * length ws)%nat.
Proof.
  induction ws as [|w ws IH]; [reflexivity|].
  change (mjoin (le_bytes 8 <$> w :: ws)) with (le_bytes 8 w ++ mjoin (le_bytes 8 <$> ws)).
  rewrite length_app, length_le_bytes, IH. cbn [length]. lia.
Qed.

Lemma length_prng_bytes len p : length (prng_bytes len p) = len.
Proof.
  unfold prng_bytes. rewrite length_take, length_word_bytes, length_prng_words. unfold words_for.
  pose proof (Nat.div_mod_eq (len + 7) 8). pose proof (Nat.mod_upper_bound (len + 7) 8). lia.
Qed.

(** Reads compose: on word boundaries, filling [8 * k] bytes and then [m] more
    gives the bytes and the final state of one fill of [8 * k + m]. *)
Theorem prng_bytes_compose (k m : nat) (p : linbox_prng) :
  let p' := (prng_words k p).2 in
  prng_bytes (8 * k + m) p = prng_bytes (8 * k) p ++ prng_bytes m p' /\
  (prng_words (words_for (8 * k + m)) p).2 = (prng_words (words_for m) p').2.
Proof.
  cbv zeta.
  assert (Hw : words_for (8 * k + m) = (k + words_for m)%nat).
  { unfold words_for. replace (8 * k + m + 7)%nat with (m + 7 + k * 8)%nat by lia.
    rewrite Nat.div_add by lia. lia. }
  assert (Hk : words_for (8 * k) = k).
  { unfold words_for. symmetry. apply Nat.div_unique with (r := 7%nat); lia. }
  unfold prng_bytes. rewrite Hw, Hk, prng_words_app.
  pose proof (length_prng_words k p) as Hl.
  destruct (prng_words k p) as [ws p1]. cbn [fst snd].
  destruct (prng_words (words_for m) p1) as [vs p2].
  cbn [fst snd] in *. split; [|reflexivity].
  rewrite fmap_app, join_app.
  assert (Hb : length (mjoin (le_bytes 8 <$> ws)) = (8 * k)%nat) by (rewrite length_word_bytes; lia).
  rewrite (take_ge (mjoin (le_bytes 8 <$> ws))) by lia.
  rewrite take_app_add' by lia. reflexivity.
Qed.


(** ** Bounded integers *)

(** The threshold below which a draw is rejected. *)
Definition threshold_for (upper_bound : Z) : Z := u32 (- upper_bound) mod upper_bound.

(** The 32-bit draw after [n] rejected ones. *)
Definition nth_draw (n : nat) (p : linbox_prng) : Z :=
  (linbox_prng_next_u32 (prng_words n p).2).2.

Lemma prng_words_add n m p : (prng_words m (prng_words n p).2).2 = (prng_words (n + m) p).2.
Proof.
  rewrite prng_words_app. destruct (prng_words n p) as [ws p1]. cbn [snd].
  destruct (prng_words m p1). reflexivity.
Qed.

Lemma prng_words_S n p :
  (prng_words (S n) p).2 = (linbox_prng_next_u64 (prng_words n p).2).1.
Proof.
  rewrite <- Nat.add_1_r, prng_words_app. destruct (prng_words n p) as [ws p1].
  cbn [prng_words snd]. destruct (linbox_prng_next_u64 p1). reflexivity.
Qed.

Lemma prng_words_S_l n p :
  (prng_words (S n) p).2 = (prng_words n (linbox_prng_next_u64 p).1).2.
Proof.
  cbn [prng_words]. destruct (linbox_prng_next_u64 p) as [p1 w]. cbn [fst].
  destruct (prng_words n p1). reflexivity.
Qed.

Lemma prng_words_ok n p : prng_ok p -> prng_ok (prng_words n p).2.
Proof.
  intros Hp. induction n as [|n IH]; [exact Hp|]. rewrite prng_words_S.
  pose proof (next_u64_ok _ IH) as H. destruct (linbox_prng_next_u64 _). apply H.
Qed.

Lemma next_u32_in_u p : in_u 32 (linbox_prng_next_u32 p).2.
Proof. unfold linbox_prng_next_u32. destruct (linbox_prng_next_u64 p). apply wrap_range. lia. Qed.

Lemma next_u32_fst p : (linbox_prng_next_u32 p).1 = (linbox_prng_next_u64 p).1.
Proof. unfold linbox_prng_next_u32. destruct (linbox_prng_next_u64 p). reflexivity. Qed.

(** The loop returns on the first accepted draw, and only then. *)
Lemma uniform_loop_first fuel p ub t p' v :
  uniform_loop fuel p ub t = Ok (p', v) <->
  exists n, (n < fuel)%nat /\ t <= nth_draw n p /\ v = nth_draw n p mod ub /\
    p' = (prng_words (S n) p).2 /\ forall k, (k < n)%nat -> nth_draw k p < t.
Proof.
  revert p. induction fuel as [|fuel IH]; intros p; cbn [uniform_loop].
  { split; [discriminate|]. intros (n & Hn & _). lia. }
  pose proof (next_u32_fst p) as Hf.
  assert (Hd : nth_draw 0 p = (linbox_prng_next_u32 p).2) by reflexivity.
  assert (HS : forall k, nth_draw (S k) p = nth_draw k (linbox_prng_next_u64 p).1)
    by (intros k; unfold nth_draw; rewrite prng_words_S_l; reflexivity).
  destruct (linbox_prng_next_u32 p) as [p1 r]. cbn [fst snd] in Hf, Hd. rewrite <- Hf in HS.
  destruct (decide (t <= r)) as [Hacc|Hrej].
  - split.
    + intros [= <- <-]. exists 0%nat. rewrite Hd, Hf, prng_words_S.
      repeat split; auto; lia.
    + intros (n & _ & _ & -> & -> & Hk). destruct n as [|n].
      * rewrite Hd, prng_words_S. cbn [prng_words snd]. rewrite <- Hf. reflexivity.
      * specialize (Hk 0%nat ltac:(lia)). lia.
  - rewrite IH. split.
    + intros (n & Hn & Ht & -> & -> & Hk). exists (S n).
      rewrite HS, (prng_words_S_l (S n)), <- Hf. repeat split; auto; [lia|].
      intros [|k] Hlt; [lia|]. rewrite HS. apply Hk. lia.
    + intros (n & Hn & Ht & -> & -> & Hk). destruct n as [|n]; [lia|].
      exists n. rewrite HS, (prng_words_S_l (S n)), <- Hf in *. repeat split; auto; [lia|].
      intros k Hlt. rewrite <- HS. apply Hk. lia.
Qed.

(** A bounded draw that returns is the first accepted one. *)
Lemma uniform_first_accepted (fuel : nat) (p p' : linbox_prng) (ub v : Z)
    (Hp : prng_ok p) (Hub : 0 < ub < 2 ^ 32)
    (Hret : linbox_prng_uniform fuel p ub = Ok (p', v)) :
  0 <= v < ub /\ prng_ok p' /\
  exists n, p' = (prng_words (S n) p).2 /\ v = nth_draw n p mod ub /\
    threshold_for ub <= nth_draw n p /\
    forall k, (k < n)%nat -> nth_draw k p < threshold_for ub.
Proof.
  unfold linbox_prng_uniform in Hret. rewrite decide_False in Hret by lia.
  apply uniform_loop_first in Hret as (n & _ & Ht & -> & -> & Hk).
  split; [apply Z.mod_pos_bound; lia|]. split; [apply prng_words_ok, Hp|].
  exists n. auto.
Qed.

Lemma threshold_eq ub : 0 < ub < 2 ^ 32 ->
  threshold_for ub = 2 ^ 32 mod ub /\ 2 ^ 32 - threshold_for ub = ub * (2 ^ 32 / ub).
Proof.
  intros H. unfold threshold_for, wrap.
  assert (Hs : ub mod 2 ^ 32 = ub) by (apply Z.mod_small; lia).
  rewrite Z.mod_opp_l_nz, Hs by (rewrite ?Hs; lia).
  replace (2 ^ 32 - ub) with (2 ^ 32 + (-1) * ub) by lia.
  rewrite Z.mod_add by lia. split; [reflexivity|]. pose proof (Z.div_mod (2 ^ 32) ub). lia.
Qed.

(** The rejection rule removes the bias exactly: among the [2^32] possible
    draws, every value below the bound is the result of the same number [2^32 /
    ub] of accepted draws. *)
Lemma uniform_unbiased (ub v : Z) (Hub : 0 < ub < 2 ^ 32) (Hv : 0 <= v < ub) :
  exists l : list Z, NoDup l /\ length l = Z.to_nat (2 ^ 32 / ub) /\
  forall r, r ∈ l <-> in_u 32 r /\ threshold_for ub <= r /\ r mod ub = v.
Proof.
  destruct (threshold_eq ub Hub) as [_ Hq]. set (t := threshold_for ub) in *.
  set (q := 2 ^ 32 / ub) in *. set (first := t + (v - t) mod ub).
  assert (Hq0 : 0 <= q) by (apply Z.div_pos; lia).
  pose proof (Z.mod_pos_bound (v - t) ub ltac:(lia)) as Hf.
  exists ((fun k => first + k * ub) <$> seqZ 0 q). split; [|split].
  - apply NoDup_fmap_2_strong; [|apply NoDup_seqZ]. intros x y _ _ H. nia.
  - rewrite length_fmap, length_seqZ. reflexivity.
  - intros r. rewrite list_elem_of_fmap. split.
    + intros (k & -> & Hk%elem_of_seqZ). unfold in_u.
      assert (Ht : 0 <= t) by (unfold t, threshold_for; apply Z.mod_pos_bound; lia).
      split; [unfold first; nia|]. split; [unfold first; nia|].
      unfold first. rewrite Z.mod_add, Zplus_mod_idemp_r by lia.
      replace (t + (v - t)) with v by lia. apply Z.mod_small. lia.
    + intros (Hr & Htr & Hm). unfold in_u in Hr.
      assert (Hdiv : (r - first) mod ub = 0).
      { unfold first. replace (r - (t + (v - t) mod ub)) with (r - t - (v - t) mod ub) by lia.
        rewrite Zminus_mod_idemp_r. replace (r - t - (v - t)) with (r - v) by lia.
        rewrite <- Hm, Zminus_mod_idemp_r, Z.sub_diag. apply Z.mod_0_l. lia. }
      exists ((r - first) / ub).
      pose proof (Z.div_mod (r - first) ub ltac:(lia)) as Hd. rewrite Hdiv in Hd.
      split; [lia|]. apply elem_of_seqZ. unfold first in *. nia.
Qed.
