(* ===== verification/PrngPeriod.v ===== *)
(** * The period of the generator

    The state update of src/shim/prng.c is linear over GF(2).  Its minimal
    polynomial has degree 64 and is primitive, so from any nonzero state the
    generator runs through all [2^64 - 1] nonzero states before it repeats.
    Consequently the rejection loop of [linbox_prng_uniform], which has no bound
    in the source, always terminates.

    The polynomial arithmetic is done on coefficient lists, lowest degree
    first, and evaluated by the kernel; [ev a v] is the polynomial [a] in the
    state update, applied to [v]. *)
From S2P Require Import Prelude Bytes Bits Prng.
From Stdlib Require Import Znumtheory.

(** ** Iterating a map: the exponents that fix a point *)
Section FixingExponents.
Context {A : Type} (T : A -> A) (v : A).

Definition fixes (n : nat) : Prop := Nat.iter n T v = v.

Lemma iter_add a b (x : A) : Nat.iter (a + b) T x = Nat.iter a T (Nat.iter b T x).
Proof. apply Nat.iter_add. Qed.

Lemma fixes_sub a b : (a <= b)%nat -> fixes a -> fixes b -> fixes (b - a).
Proof.
  unfold fixes. intros Hab Ha Hb. replace b with (b - a + a)%nat in Hb by lia.
  rewrite iter_add, Ha in Hb. exact Hb.
Qed.

Lemma fixes_mul a k : fixes a -> fixes (k * a).
Proof.
  unfold fixes. intros Ha. induction k as [|k IH]; [reflexivity|].
  simpl Nat.mul. rewrite iter_add, IH. exact Ha.
Qed.

Lemma fixes_gcd a b : fixes a -> fixes b -> fixes (Nat.gcd a b).
Proof.
  remember (a + b)%nat as s eqn:Hs. revert a b Hs.
  induction s as [s IH] using lt_wf_ind. intros a b -> Ha Hb.
  destruct a as [|a]; [exact Hb|]. destruct b as [|b]; [rewrite Nat.gcd_0_r; exact Ha|].
  destruct (decide (S a <= S b)%nat).
  - rewrite <- Nat.gcd_sub_diag_r by lia.
    apply (IH (S a + (S b - S a))%nat); [lia|reflexivity|exact Ha|apply fixes_sub; assumption].
  - rewrite Nat.gcd_comm, <- Nat.gcd_sub_diag_r, Nat.gcd_comm by lia.
    apply (IH (S a - S b + S b)%nat); [lia|reflexivity|apply fixes_sub; [lia|assumption..]|exact Hb].
Qed.
End FixingExponents.

(** ** A divisor of a product of primes *)
Lemma prime_factor (qs : list Z) (m : Z) :
  Forall prime qs -> 1 < m -> (m | foldr Z.mul 1 qs) -> exists q, q ∈ qs /\ (q | m).
Proof.
  intros Hqs Hm. induction Hqs as [|q qs Hq Hqs IH]; simpl; intros Hd.
  - apply Z.divide_1_r_nonneg in Hd; lia.
  - destruct (Zdivide_dec q m) as [Hqm|Hqm]; [exists q; split; [left|]; assumption|].
    destruct IH as (q' & Hin & Hq').
    + apply Gauss with q; [assumption|].
      apply rel_prime_sym, prime_rel_prime; assumption.
    + exists q'. split; [right; assumption|assumption].
Qed.

(** [g] divides a proper quotient of [N] by a prime, unless it is [N]. *)
Lemma proper_divisor (qs : list Z) (N g : Z) :
  Forall prime qs -> N = foldr Z.mul 1 qs -> 0 < g -> 0 < N -> (g | N) -> g <> N ->
  exists q, q ∈ qs /\ (g | N / q) /\ (q | N).
Proof.
  intros Hqs HN Hg HN0 [m Hm] Hne.
  assert (Hm0 : 0 < m) by nia.
  assert (Hm1 : m <> 1) by (intros ->; lia).
  destruct (prime_factor qs m Hqs) as (q & Hin & [c Hc]); [lia|exists g; rewrite <- HN, Hm; ring|].
  exists q. split; [assumption|].
  assert (Hq : 0 < q).
  { rewrite Forall_forall in Hqs. pose proof (prime_ge_2 q (Hqs q Hin)). lia. }
  assert (HNq : N = c * g * q) by (rewrite Hm, Hc; ring).
  split; [|exists (c * g); exact HNq]. rewrite HNq, Z.div_mul by lia. exists c. reflexivity.
Qed.

(** Trial division. *)
Definition trial (q : Z) (b : nat) : bool :=
  forallb (fun d => negb (q mod (Z.of_nat d + 2) =? 0)) (seq 0 b).

Lemma trial_prime q b : 1 < q -> trial q b = true -> q < (Z.of_nat b + 2) * (Z.of_nat b + 2) -> prime q.
Proof.
  intros Hq Ht Hb.
  assert (Hno : forall d, 2 <= d < Z.of_nat b + 2 -> ~ (d | q)).
  { intros d Hd Hdq. unfold trial in Ht. rewrite forallb_forall in Ht.
    specialize (Ht (Z.to_nat (d - 2))). rewrite in_seq in Ht. specialize (Ht ltac:(lia)).
    replace (Z.of_nat (Z.to_nat (d - 2)) + 2) with d in Ht by lia.
    apply Z.mod_divide in Hdq; [|lia]. rewrite Hdq in Ht. discriminate. }
  apply prime_intro; [assumption|]. intros n Hn. apply Zgcd_1_rel_prime.
  pose proof (Z.gcd_nonneg n q) as H0.
  destruct (Z.eq_dec (Z.gcd n q) 0) as [E|]; [apply Z.gcd_eq_0_l in E; lia|].
  destruct (Z.eq_dec (Z.gcd n q) 1) as [|Hne]; [assumption|exfalso].
  destruct (Z.gcd_divide_l n q) as [a Ha]. destruct (Z.gcd_divide_r n q) as [c Hc].
  set (g := Z.gcd n q) in *. clearbody g. destruct (decide (g < Z.of_nat b + 2)).
  - apply (Hno g); [lia|exists c; exact Hc].
  - assert (Hgn : g <= n) by (apply Z.divide_pos_le; [lia|exists a; exact Ha]).
    apply (Hno c); [|exists g; rewrite Hc; ring].
    split; [|apply Z.nle_gt; intros Hcb]; nia.
Qed.

(** ** Polynomials over GF(2) in a linear map

    [vadd] is the addition of vectors (exclusive or of words); the section is
    generic in the linear map [T]. *)
Section Polynomials.
Context (T : Z -> Z).
Hypothesis T_lxor : forall x y, T (Z.lxor x y) = Z.lxor (T x) (T y).
Hypothesis T_zero : T 0 = 0.

Fixpoint ev (a : list bool) (v : Z) : Z :=
  match a with
  | [] => 0
  | b :: a' => Z.lxor (if b then v else 0) (ev a' (T v))
  end.

Fixpoint padd (a b : list bool) : list bool :=
  match a, b with
  | [], _ => b
  | _, [] => a
  | x :: a', y :: b' => xorb x y :: padd a' b'
  end.

Lemma ev_lxor a x y : ev a (Z.lxor x y) = Z.lxor (ev a x) (ev a y).
Proof.
  revert x y. induction a as [|b a IH]; intros x y; simpl; [reflexivity|].
  rewrite T_lxor, IH. rewrite lxor_swap. destruct b; reflexivity.
Qed.

Lemma ev_zero a : ev a 0 = 0.
Proof. induction a as [|b a IH]; simpl; [reflexivity|]. rewrite T_zero, IH. destruct b; reflexivity. Qed.

Lemma ev_T a v : ev a (T v) = T (ev a v).
Proof.
  revert v. induction a as [|b a IH]; intros v; simpl; [symmetry; apply T_zero|].
  rewrite T_lxor, IH. destruct b; [|rewrite T_zero]; reflexivity.
Qed.

Lemma ev_padd a b v : ev (padd a b) v = Z.lxor (ev a v) (ev b v).
Proof.
  revert b v. induction a as [|x a IH]; intros [|y b] v; simpl;
    rewrite ?Z.lxor_0_l, ?Z.lxor_0_r; try reflexivity.
  rewrite IH, lxor_swap. f_equal. destruct x, y; simpl;
    rewrite ?Z.lxor_0_l, ?Z.lxor_0_r, ?Z.lxor_nilpotent; reflexivity.
Qed.

(** The modulus is [x^w + low]; residues are lists of [w] coefficients. *)
Context (w : nat) (low : list bool).

Definition modulus_kills (v : Z) : Prop := Nat.iter w T v = ev low v.

(** Multiplication by [x]. *)
Definition xtime (a : list bool) : list bool :=
  let s := false :: take (w - 1) a in
  if nth (w - 1) a false then padd s low else s.

Fixpoint pmul (a b : list bool) : list bool :=
  match b with
  | [] => replicate w false
  | y :: b' => let r := xtime (pmul a b') in if y then padd a r else r
  end.

Fixpoint ppow (n : positive) : list bool :=
  match n with
  | xH => false :: true :: replicate (w - 2) false
  | xO n' => let r := ppow n' in pmul r r
  | xI n' => let r := ppow n' in xtime (pmul r r)
  end.

(** *** Evaluation respects the arithmetic *)
Hypothesis Hw : (0 < w)%nat.
Hypothesis Hlow : length low = w.
Context (D : Z -> Prop).
Hypothesis D_T : forall v, D v -> D (T v).
Hypothesis Hmod : forall v, D v -> modulus_kills v.

Lemma length_padd a b : length a = length b -> length (padd a b) = length a.
Proof.
  revert b. induction a as [|x a IH]; intros [|y b]; simpl; intros H; try discriminate; auto.
Qed.

Lemma ev_app a b v : ev (a ++ b) v = Z.lxor (ev a v) (ev b (Nat.iter (length a) T v)).
Proof.
  revert v. induction a as [|x a IH]; intros v; simpl; [rewrite Z.lxor_0_l; reflexivity|].
  rewrite IH, Z.lxor_assoc, <- Nat.iter_swap. reflexivity.
Qed.

Lemma length_xtime a : length a = w -> length (xtime a) = w.
Proof.
  intros Ha. unfold xtime.
  assert (Hs : length (false :: take (w - 1) a) = w) by (simpl; rewrite length_take; lia).
  destruct (nth _ _ _); [rewrite length_padd|]; congruence.
Qed.

Lemma ev_xtime a v : D v -> length a = w -> ev (xtime a) v = T (ev a v).
Proof.
  intros Hv Ha. unfold xtime.
  assert (Hsplit : a = take (w - 1) a ++ [nth (w - 1) a false]).
  { rewrite <- (take_drop (w - 1) a) at 1. f_equal.
    rewrite <- (Nat.add_0_r (w - 1)) at 2. rewrite <- nth_skipn.
    destruct (drop (w - 1) a) as [|x [|y l]] eqn:E;
      apply (f_equal length) in E as El; rewrite length_drop in El; simpl in El; try lia.
    reflexivity. }
  assert (Hl : length (take (w - 1) a) = (w - 1)%nat) by (rewrite length_take; lia).
  assert (Hev : ev a v = Z.lxor (ev (take (w - 1) a) v)
            (if nth (w - 1) a false then Nat.iter (w - 1) T v else 0)).
  { rewrite Hsplit at 1. rewrite ev_app, Hl. cbn [ev]. rewrite Z.lxor_0_r. reflexivity. }
  rewrite Hev, T_lxor. destruct (nth (w - 1) a false).
  - rewrite ev_padd. cbn [ev]. rewrite Z.lxor_0_l, ev_T. f_equal.
    rewrite <- Hmod by assumption.
    change (T (Nat.iter (w - 1) T v)) with (Nat.iter (S (w - 1)) T v). f_equal. lia.
  - cbn [ev]. rewrite Z.lxor_0_l, T_zero, Z.lxor_0_r. apply ev_T.
Qed.

Lemma length_pmul a b : length a = w -> length (pmul a b) = w.
Proof.
  intros Ha. induction b as [|y b IH]; simpl; [apply length_replicate|].
  pose proof (length_xtime _ IH). destruct y; [rewrite length_padd|]; congruence.
Qed.

Lemma ev_replicate n v : ev (replicate n false) v = 0.
Proof. revert v. induction n as [|n IH]; intros v; simpl; [reflexivity|apply IH]. Qed.

Lemma ev_pmul a b v : D v -> length a = w -> ev (pmul a b) v = ev a (ev b v).
Proof.
  intros Hv Ha. revert v Hv. induction b as [|y b IH]; intros v Hv; cbn [pmul ev].
  - rewrite ev_replicate, ev_zero. reflexivity.
  - rewrite ev_lxor, ev_T, ev_T, <- IH by assumption. cbv zeta.
    destruct y; rewrite ?ev_padd, ev_xtime by auto using length_pmul; [reflexivity|].
    rewrite ev_zero, Z.lxor_0_l. reflexivity.
Qed.

Hypothesis Hw2 : (2 <= w)%nat.

Lemma length_ppow n : length (ppow n) = w.
Proof.
  induction n as [n IH|n IH|]; cbn [ppow]; cbv zeta.
  - apply length_xtime, length_pmul, IH.
  - apply length_pmul, IH.
  - simpl. rewrite length_replicate. lia.
Qed.

Lemma D_iter n v : D v -> D (Nat.iter n T v).
Proof. intros Hv. induction n as [|n IH]; [exact Hv|]. apply D_T, IH. Qed.

(** [ppow n] is the [n]-th power of [x]: evaluated, [n] iterations. *)
Lemma ev_ppow n v : D v -> ev (ppow n) v = Nat.iter (Pos.to_nat n) T v.
Proof.
  revert v. induction n as [n IH|n IH|]; intros v Hv; cbn [ppow]; cbv zeta.
  - rewrite ev_xtime by auto using length_pmul, length_ppow.
    rewrite ev_pmul, (IH v), IH, <- Nat.iter_add by auto using length_ppow, D_iter.
    rewrite Pos2Nat.inj_xI. replace (S (2 * Pos.to_nat n)) with (S (Pos.to_nat n + Pos.to_nat n)) by lia.
    reflexivity.
  - rewrite ev_pmul, (IH v), IH, <- Nat.iter_add by auto using length_ppow, D_iter.
    rewrite Pos2Nat.inj_xO. f_equal. lia.
  - cbn [ev]. rewrite ev_replicate, Z.lxor_0_r, Z.lxor_0_l. reflexivity.
Qed.
End Polynomials.


(** ** The state update is linear *)
Lemma shr_step_lxor k x y :
  Z.lxor (Z.lxor x y) (Z.shiftr (Z.lxor x y) k)
  = Z.lxor (Z.lxor x (Z.shiftr x k)) (Z.lxor y (Z.shiftr y k)).
Proof. rewrite Z.shiftr_lxor. apply lxor_swap. Qed.

Lemma shl_step_lxor k x y :
  Z.lxor (Z.lxor x y) (u64 (Z.shiftl (Z.lxor x y) k))
  = Z.lxor (Z.lxor x (u64 (Z.shiftl x k))) (Z.lxor y (u64 (Z.shiftl y k))).
Proof. rewrite Z.shiftl_lxor, wrap_lxor by lia. apply lxor_swap. Qed.

Lemma xorshift_lxor x y : xorshift (Z.lxor x y) = Z.lxor (xorshift x) (xorshift y).
Proof. unfold xorshift. cbv zeta. rewrite (shr_step_lxor 12).
  rewrite (shl_step_lxor 25 (Z.lxor x (Z.shiftr x 12)) (Z.lxor y (Z.shiftr y 12))).
  apply (shr_step_lxor 27). Qed.

Lemma xorshift_zero : xorshift 0 = 0.
Proof. reflexivity. Qed.

Lemma iter_lxor T n x y : (forall a b, T (Z.lxor a b) = Z.lxor (T a) (T b)) ->
  Nat.iter n T (Z.lxor x y) = Z.lxor (Nat.iter n T x) (Nat.iter n T y).
Proof. intros HT. induction n as [|n IH]; [reflexivity|]. simpl. rewrite IH. apply HT. Qed.

Lemma iter_zero (T : Z -> Z) n : T 0 = 0 -> Nat.iter n T 0 = 0.
Proof. intros HT. induction n as [|n IH]; [reflexivity|]. simpl. rewrite IH. exact HT. Qed.

(** Linear maps that agree on the unit vectors agree. *)
Lemma linear_ext (f g : Z -> Z) (n : nat) :
  (forall x y, f (Z.lxor x y) = Z.lxor (f x) (f y)) ->
  (forall x y, g (Z.lxor x y) = Z.lxor (g x) (g y)) ->
  f 0 = g 0 -> (forall i, (i < n)%nat -> f (2 ^ Z.of_nat i) = g (2 ^ Z.of_nat i)) ->
  forall v, in_u (Z.of_nat n) v -> f v = g v.
Proof.
  intros Hf Hg H0. induction n as [|n IH]; intros Hb v Hv; unfold in_u in *.
  { assert (v = 0) as -> by (simpl in Hv; lia). exact H0. }
  rewrite Nat2Z.inj_succ, Z.pow_succ_r in Hv by lia.
  destruct (decide (v < 2 ^ Z.of_nat n)); [apply IH; [auto|lia]|].
  assert (Hlt : 0 <= v - 2 ^ Z.of_nat n < 2 ^ Z.of_nat n) by lia.
  assert (Hx : v = Z.lxor (v - 2 ^ Z.of_nat n) (2 ^ Z.of_nat n)).
  { rewrite <- Z.add_nocarry_lxor; [lia|]. apply Z.bits_inj'. intros i Hi.
    rewrite Z.land_spec, Z.bits_0, Z.pow2_bits_eqb by lia.
    destruct (Z.eqb_spec (Z.of_nat n) i) as [<-|]; [|apply andb_false_r].
    rewrite (in_u_high (Z.of_nat n)) by (lia || exact Hlt). reflexivity. }
  rewrite Hx, Hf, Hg, Hb by lia. f_equal. apply IH; [auto|exact Hlt].
Qed.

(** ** The minimal polynomial and the certificates

    [x^64 + low64] is the minimal polynomial of the state update.  For each
    prime factor [q] of [2^64 - 1], [inv] is the inverse of [x^((2^64-1)/q) + 1]
    modulo it, so that power of the update has no nonzero fixed point. *)
Fixpoint bits (n : nat) (z : Z) : list bool :=
  match n with O => [] | S n' => Z.odd z :: bits n' (Z.div2 z) end.

Definition low64 : list bool := Eval vm_compute in bits 64 0x18b73aa7cc9b71.
Definition one64 : list bool := Eval vm_compute in bits 64 1.

Definition prng_period : Z := 2 ^ 64 - 1.

Definition period_certificates : list (Z * positive * Z) :=
  [(3, 0x5555555555555555%positive, 0x60e71579575698b8);
   (5, 0x3333333333333333%positive, 0x2dfd563d8df4dacb);
   (17, 0xf0f0f0f0f0f0f0f%positive, 0xe1abb9b6d5614b7);
   (257, 0xff00ff00ff00ff%positive, 0x1934106f6e3c47a3);
   (641, 0x663d80ff99c27f%positive, 0x52d7e7e1fc2212ef);
   (65537, 0xffff0000ffff%positive, 0x6e23c80b59c2baa2);
   (6700417, 0x280fffffd7f%positive, 0x77bd2fdf157c6fc9)].

Definition certificate_ok (c : Z * positive * Z) : bool :=
  let '(q, e, inv) := c in
  bool_decide (Z.pos e = prng_period / q) &&
  bool_decide (pmul 64 low64 (bits 64 inv) (padd (ppow 64 low64 e) one64) = one64).

Lemma certificates_ok : forallb certificate_ok period_certificates = true.
Proof. vm_compute. reflexivity. Qed.

Lemma period_power : ppow 64 low64 0xffffffffffffffff = one64.
Proof. vm_compute. reflexivity. Qed.

Lemma unit_vectors_killed :
  forallb (fun i => Nat.iter 64 xorshift (2 ^ Z.of_nat i) =? ev xorshift low64 (2 ^ Z.of_nat i)) (seq 0 64) = true.
Proof. vm_compute. reflexivity. Qed.


(** ** The period *)
Lemma xorshift_D v : in_u 64 v -> in_u 64 (xorshift v).
Proof. apply xorshift_in_u. Qed.

Lemma modulus_kills_xorshift v : in_u 64 v -> modulus_kills xorshift 64 low64 v.
Proof.
  intros Hv. unfold modulus_kills. revert v Hv. apply (linear_ext (Nat.iter 64 xorshift) _ 64).
  - intros x y. apply iter_lxor, xorshift_lxor.
  - apply ev_lxor, xorshift_lxor.
  - rewrite iter_zero, ev_zero by apply xorshift_zero. reflexivity.
  - intros i Hi. pose proof unit_vectors_killed as H. rewrite forallb_forall in H.
    apply Z.eqb_eq, H. apply in_seq. lia.
Qed.

Lemma ev_ppow64 n v : in_u 64 v ->
  ev xorshift (ppow 64 low64 n) v = Nat.iter (Pos.to_nat n) xorshift v.
Proof.
  apply (ev_ppow xorshift xorshift_lxor xorshift_zero 64 low64 ltac:(lia) eq_refl (in_u 64)
           xorshift_D modulus_kills_xorshift ltac:(lia)).
Qed.

Lemma ev_one64 v : ev xorshift one64 v = v.
Proof. unfold one64. cbn [ev]. rewrite ?Z.lxor_0_r. reflexivity. Qed.

Lemma fixes_period v : in_u 64 v -> fixes xorshift v (Pos.to_nat 0xffffffffffffffff).
Proof. intros Hv. unfold fixes. rewrite <- ev_ppow64, period_power by assumption. apply ev_one64. Qed.

Lemma length_bits n z : length (bits n z) = n.
Proof. revert z. induction n; intros z; simpl; auto. Qed.

(** A certified quotient of the period fixes only zero. *)
Lemma certificate_no_fixpoint q e inv v :
  certificate_ok (q, e, inv) = true -> in_u 64 v ->
  fixes xorshift v (Pos.to_nat e) -> v = 0.
Proof.
  intros Hc Hv Hf. unfold certificate_ok in Hc. apply andb_prop in Hc as [_ Hc].
  apply bool_decide_eq_true_1 in Hc.
  rewrite <- (ev_one64 v), <- Hc.
  rewrite (ev_pmul xorshift xorshift_lxor xorshift_zero 64 low64 ltac:(lia) eq_refl (in_u 64)
           modulus_kills_xorshift) by (assumption || apply length_bits).
  rewrite ev_padd, ev_ppow64 by assumption. unfold fixes in Hf. rewrite Hf, ev_one64, Z.lxor_nilpotent.
  apply ev_zero, xorshift_zero.
Qed.

Definition period_primes : list Z := map (fun c => c.1.1) period_certificates.

Lemma period_primes_prime : Forall prime period_primes.
Proof.
  assert (H : Forall (fun q => 1 < q /\ trial q 2588 = true /\ q < (Z.of_nat 2588 + 2) * (Z.of_nat 2588 + 2))
                (filter (fun q => 2590 < q) period_primes)).
  { vm_compute filter. repeat (constructor; [vm_compute; auto|]). constructor. }
  assert (Hs : Forall (fun q => 1 < q /\ trial q (Z.to_nat (q - 2)) = true) (filter (fun q => q <= 2590) period_primes)).
  { vm_compute filter. repeat (constructor; [vm_compute; auto|]). constructor. }
  rewrite Forall_forall in *. intros q Hq. destruct (decide (q <= 2590)).
  - destruct (Hs q) as (H1 & H2); [apply list_elem_of_filter; auto|].
    apply (trial_prime q (Z.to_nat (q - 2))); [assumption..|]. nia.
  - destruct (H q) as (H1 & H2 & H3); [apply list_elem_of_filter; split; [lia|assumption]|].
    apply (trial_prime q 2588); assumption.
Qed.

Lemma period_product : prng_period = foldr Z.mul 1 period_primes.
Proof. reflexivity. Qed.

Definition period_nat : nat := Pos.to_nat 0xffffffffffffffff.

Lemma period_nat_Z : Z.of_nat period_nat = prng_period.
Proof. unfold period_nat. rewrite positive_nat_Z. reflexivity. Qed.

Lemma fixes_period_nat v : in_u 64 v -> fixes xorshift v period_nat.
Proof. exact (fixes_period v). Qed.

#[global] Opaque period_nat.

Lemma fixes_divides v n : in_u 64 v -> v <> 0 -> fixes xorshift v n -> (prng_period | Z.of_nat n).
Proof.
  intros Hv Hn0 Hf. pose proof period_nat_Z as HN.
  assert (Hfg : fixes xorshift v (Nat.gcd n period_nat))
    by (apply fixes_gcd; [assumption|apply fixes_period_nat, Hv]).
  destruct (Nat.gcd_divide_l n period_nat) as [a Ha].
  destruct (Nat.gcd_divide_r n period_nat) as [c Hc].
  set (g := Nat.gcd n period_nat) in *. clearbody g.
  assert (Hg : (0 < g)%nat) by (unfold prng_period in HN; nia).
  destruct (Z.eq_dec (Z.of_nat g) prng_period) as [He|Hne].
  { exists (Z.of_nat a). rewrite <- He. lia. }
  exfalso. destruct (proper_divisor period_primes prng_period (Z.of_nat g)) as (q & Hin & [k Hk] & _);
    [apply period_primes_prime|apply period_product|lia|reflexivity|exists (Z.of_nat c); lia|assumption|].
  apply list_elem_of_In, in_map_iff in Hin as ([[q' e] inv] & [= ->] & Hin).
  pose proof certificates_ok as Hcert. rewrite forallb_forall in Hcert. specialize (Hcert _ Hin).
  pose proof Hcert as Hq. unfold certificate_ok in Hq. apply andb_prop in Hq as [Hq _].
  apply bool_decide_eq_true_1 in Hq.
  apply Hn0, (certificate_no_fixpoint q e inv); [assumption..|].
  assert (Hk0 : 0 <= k) by nia.
  replace (Pos.to_nat e) with (Z.to_nat k * g)%nat; [apply fixes_mul, Hfg|].
  apply Nat2Z.inj. rewrite Nat2Z.inj_mul, Z2Nat.id, positive_nat_Z by assumption. lia.
Qed.

Lemma prng_words_iter n p : state (prng_words n p).2 = Nat.iter n xorshift (state p).
Proof. induction n as [|n IH]; [reflexivity|]. rewrite prng_words_S. simpl. rewrite <- IH. reflexivity. Qed.

Lemma prng_returns_iff (p : linbox_prng) (n : nat) (Hp : prng_ok p) :
  (prng_words n p).2 = p <-> (prng_period | Z.of_nat n).
Proof.
  destruct Hp as [Hr Hn0]. transitivity (fixes xorshift (state p) n).
  { unfold fixes. rewrite <- prng_words_iter. split; [intros ->; reflexivity|].
    destruct ((prng_words n p).2), p. simpl. congruence. }
  split; [apply fixes_divides; assumption|]. intros [k Hk].
  assert (Hk0 : 0 <= k) by (unfold prng_period in Hk; lia).
  replace n with (Z.to_nat k * period_nat)%nat; [apply fixes_mul, fixes_period_nat, Hr|].
  apply Nat2Z.inj. rewrite Nat2Z.inj_mul, period_nat_Z, Z2Nat.id by assumption. lia.
Qed.

(** C27: the generator has full period: from a good state it returns to that
    state after [n] words exactly when [2^64 - 1] divides [n]. *)
Theorem prng_full_period (p : linbox_prng) (n : nat) (Hp : prng_ok p) :
  (prng_words n p).2 = p <-> (prng_period | Z.of_nat n).
Proof. exact (prng_returns_iff p n Hp). Qed.

(** Draws of whole words [n] words apart differ, unless the period divides [n]. *)
Lemma draws_distinct k n g : prng_ok g ->
  prng_bytes (8 * S k) g = prng_bytes (8 * S k) (prng_words n g).2 -> (prng_period | Z.of_nat n).
Proof.
  intros Hg H. apply (proj1 (prng_returns_iff g n Hg)). symmetry.
  assert (Hw : forall h, le_val (take 8 (prng_bytes (8 * S k) h)) = (linbox_prng_next_u64 h).2).
  { intros h. unfold prng_bytes. rewrite (words_for_step (8 * S k)) by lia. cbn [prng_words].
    pose proof (u64_in_u (xorshift (state h) * 0x2545F4914F6CDD1D)) as Hu. fold (linbox_prng_next_u64 h).
    destruct (linbox_prng_next_u64 h) as [h1 w] eqn:E. injection E as _ Ew. rewrite Ew in Hu.
    destruct (prng_words _ h1). cbn [fst snd fmap list_fmap mjoin list_join].
    rewrite take_take, Nat.min_l, take_app_le by (rewrite ?length_le_bytes; lia).
    rewrite (take_ge (le_bytes 8 w)) by (rewrite length_le_bytes; lia). rewrite le_val_bytes_mod. apply Z.mod_small, Hu. }
  apply next_u64_inj; [exact Hg|apply prng_words_ok, Hg|]. rewrite <- !Hw, H. reflexivity.
Qed.

(** ** Every nonzero state is reached *)
Lemma iter_inj n x y : in_u 64 x -> in_u 64 y -> Nat.iter n xorshift x = Nat.iter n xorshift y -> x = y.
Proof.
  induction n as [|n IH]; intros Hx Hy H; [exact H|]. apply IH; [assumption..|].
  simpl in H. apply xorshift_inj in H; [assumption|apply (D_iter xorshift (in_u 64) xorshift_D); assumption..].
Qed.

Lemma iter_ok n v : in_u 64 v -> v <> 0 -> in_u 64 (Nat.iter n xorshift v) /\ Nat.iter n xorshift v <> 0.
Proof.
  intros Hv Hn. induction n as [|n [IH1 IH2]]; [auto|]. simpl.
  split; [apply xorshift_in_u|apply xorshift_nonzero]; assumption.
Qed.

Lemma orbit_NoDup v : in_u 64 v -> v <> 0 ->
  NoDup ((fun k => Nat.iter k xorshift v) <$> seq 0 period_nat).
Proof.
  intros Hv Hn0. apply NoDup_fmap_2_strong; [|apply NoDup_seq].
  assert (Hlt : forall i j, (i < j < period_nat)%nat ->
            Nat.iter i xorshift v <> Nat.iter j xorshift v).
  { intros i j Hij H. replace j with (i + (j - i))%nat in H by lia. rewrite Nat.iter_add in H.
    apply iter_inj in H; [|assumption|apply (iter_ok (j - i)); assumption].
    symmetry in H. apply fixes_divides in H; [|assumption..].
    destruct H as [k Hk]. pose proof period_nat_Z. assert (k = 0 \/ k < 0 \/ 1 <= k) as [-> |[|]] by lia.
    - lia.
    - unfold prng_period in Hk. lia.
    - nia. }
  intros i j Hi%elem_of_seq Hj%elem_of_seq H.
  destruct (Nat.lt_trichotomy i j) as [Hl|[|Hl]]; [|assumption|]; exfalso.
  - apply (Hlt i j); [lia|assumption].
  - apply (Hlt j i); [lia|congruence].
Qed.

Lemma orbit_covers v u : in_u 64 v -> v <> 0 -> in_u 64 u -> u <> 0 ->
  exists k, (k < period_nat)%nat /\ Nat.iter k xorshift v = u.
Proof.
  intros Hv Hv0 Hu Hu0. set (orbit := (fun k => Nat.iter k xorshift v) <$> seq 0 period_nat).
  assert (Hin : u ∈ orbit).
  { apply list_elem_of_In. apply (NoDup_length_incl (l' := seqZ 1 prng_period)).
    - apply NoDup_ListNoDup, orbit_NoDup; assumption.
    - unfold orbit. rewrite length_fmap, length_seqZ, length_seq.
      rewrite <- period_nat_Z. lia.
    - intros y Hy%list_elem_of_In. apply list_elem_of_In. apply list_elem_of_fmap in Hy as (k & -> & _).
      destruct (iter_ok k v Hv Hv0) as [[H1 H2] H3]. apply elem_of_seqZ. unfold prng_period. lia.
    - apply list_elem_of_In, elem_of_seqZ. unfold prng_period. unfold in_u in Hu. lia. }
  apply list_elem_of_fmap in Hin as (k & -> & Hk%elem_of_seq). exists k. split; [lia|reflexivity].
Qed.

Lemma uniform_loop_terminates n p ub t : t <= nth_draw n p ->
  exists r, uniform_loop (S n) p ub t = Ok r.
Proof.
  revert p. induction n as [|n IH]; intros p Hn; cbn [uniform_loop];
    pose proof (next_u32_fst p) as Hf; assert (Hd : nth_draw 0 p = (linbox_prng_next_u32 p).2) by reflexivity;
    destruct (linbox_prng_next_u32 p) as [p1 r]; cbn [fst snd] in Hf, Hd.
  - rewrite decide_True by lia. eauto.
  - destruct (decide (t <= r)); [eauto|]. apply IH. rewrite Hf.
    unfold nth_draw in *. rewrite <- prng_words_S_l. exact Hn.
Qed.

Lemma uniform_loop_mono fuel fuel' p ub t r : (fuel <= fuel')%nat ->
  uniform_loop fuel p ub t = Ok r -> uniform_loop fuel' p ub t = Ok r.
Proof.
  destruct r as [p' v]. rewrite !uniform_loop_first. intros Hle (n & Hn & H). exists n. split; [lia|exact H].
Qed.

Lemma uniform_terminates (p : linbox_prng) (ub : Z) (Hp : prng_ok p) (Hub : in_u 32 ub) :
  exists r, forall fuel, prng_period <= Z.of_nat fuel -> linbox_prng_uniform fuel p ub = Ok r.
Proof.
  unfold linbox_prng_uniform. destruct (decide (ub = 0)) as [|Hne]; [eauto|].
  unfold in_u in Hub. destruct Hp as [Hs Hs0].
  (* the state after which the draw is the largest 32-bit word *)
  set (target := u64 ((2 ^ 64 - 1) * 0x59071d96d81ecd35)).
  destruct (orbit_covers (xorshift (state p)) target) as (k & Hk & Ht);
    [apply xorshift_in_u; assumption|apply xorshift_nonzero; assumption|apply u64_in_u|discriminate|].
  assert (Hdraw : nth_draw k p = 2 ^ 32 - 1).
  { unfold nth_draw, linbox_prng_next_u32, linbox_prng_next_u64. cbn [snd].
    rewrite prng_words_iter.
    change (xorshift (Nat.iter k xorshift (state p))) with (Nat.iter (S k) xorshift (state p)).
    rewrite Nat.iter_succ_r, Ht. reflexivity. }
  destruct (uniform_loop_terminates k p ub (u32 (- ub) mod ub)) as [r Hr].
  { rewrite Hdraw. pose proof (Z.mod_pos_bound (u32 (- ub)) ub). lia. }
  exists r. intros fuel Hfuel. apply (uniform_loop_mono (S k)); [|exact Hr].
  rewrite <- period_nat_Z in Hfuel. lia.
Qed.

(** C26: [linbox_prng_uniform] is totally correct: from every good state and for
    every bound its unbounded rejection loop ends ([2^64 - 1] iterations always
    suffice, since the generator passes through every nonzero state), and the
    result is below the bound: the first draw of the stream at or above the
    threshold, reduced modulo the bound, with the generator left just after it;
    and no value is favoured: each is the result of the same number [2^32 / ub]
    of the draws the threshold accepts. For bound 0 it is 0 and nothing is
    drawn. *)
Theorem prng_uniform_correct (p : linbox_prng) (ub : Z) (Hp : prng_ok p) (Hub : in_u 32 ub) :
  exists p' v,
    (forall fuel, prng_period <= Z.of_nat fuel -> linbox_prng_uniform fuel p ub = Ok (p', v)) /\
    (ub = 0 -> p' = p /\ v = 0) /\
    (ub <> 0 -> 0 <= v < ub /\ prng_ok p' /\
       exists n, p' = (prng_words (S n) p).2 /\ v = nth_draw n p mod ub /\
         threshold_for ub <= nth_draw n p /\ forall k, (k < n)%nat -> nth_draw k p < threshold_for ub) /\
    (forall u, 0 <= u < ub -> exists l : list Z, NoDup l /\ length l = Z.to_nat (2 ^ 32 / ub) /\
       forall r, r ∈ l <-> in_u 32 r /\ threshold_for ub <= r /\ r mod ub = u).
Proof.
  destruct (uniform_terminates p ub Hp Hub) as [[p' v] Hr]. exists p', v. split; [exact Hr|].
  specialize (Hr (Z.to_nat prng_period) ltac:(rewrite Z2Nat.id by discriminate; reflexivity)).
  unfold in_u in Hub. split; [|split; [|intros u Hu; apply uniform_unbiased; lia]]; intros H0.
  - unfold linbox_prng_uniform in Hr. rewrite decide_True in Hr by exact H0. injection Hr as <- <-. auto.
  - apply (uniform_first_accepted _ p p' ub v Hp) in Hr; [exact Hr|lia].
Qed.
