(* ===== verification/ShmLayout.v ===== *)
(** * The shared memory region: its types

    Models src/common/shm-layout.h.  A region is one record; a pointer to it is
    the address at which it is mapped, and [NULL] is address 0. *)
From S2P Require Import Prelude.

Definition LINBOX_SHM_MAGIC : Z := 0x4C494E42.
Definition LINBOX_SHM_VERSION : Z := 1.
Definition LINBOX_PROCESS_SLOT_COUNT : Z := 64.
Definition LINBOX_POLICY_AREA_SIZE : Z := 4096.
Definition LINBOX_LAYOUT_RESERVED_SIZE : Z := 1024.
Definition LINBOX_FLAG_PAUSED : Z := Z.shiftl 1 0.
Definition LINBOX_FLAG_STEPPING : Z := Z.shiftl 1 1.

(** [struct timespec] *)
Record timespec := Timespec { tv_sec : Z; tv_nsec : Z }.

Record linbox_process_slot := ProcessSlot {
  pid : Z; slot_flags : Z; slot_heartbeat_ns : Z; slot_reserved : list Z }.

Record linbox_shm_header := ShmHeader {
  magic : Z; version : Z; header_size : Z; global_seq : Z; heartbeat_ns : Z;
  network_policy_offset : Z; filesystem_policy_offset : Z; dns_policy_offset : Z;
  policy_area_size : Z; header_reserved : list Z }.

Record linbox_shm_layout := ShmLayout {
  header : linbox_shm_header;
  time_seq : Z;
  virtual_time : timespec;
  prng_seed : Z;
  flags : Z;
  process_slots : list linbox_process_slot;
  policy_area : list Z;
  layout_reserved : list Z }.

Record linbox_shm_handle := ShmHandle { fd : Z; size : Z; layout : Z }.

Definition NULL : Z := 0.

#[export] Instance timespec_eq_dec : EqDecision timespec.
Proof. solve_decision. Defined.
#[export] Instance process_slot_eq_dec : EqDecision linbox_process_slot.
Proof. solve_decision. Defined.
#[export] Instance shm_header_eq_dec : EqDecision linbox_shm_header.
Proof. solve_decision. Defined.
#[export] Instance shm_layout_eq_dec : EqDecision linbox_shm_layout.
Proof. solve_decision. Defined.
#[export] Instance shm_handle_eq_dec : EqDecision linbox_shm_handle.
Proof. solve_decision. Defined.

(** ** Field updates *)
Definition set_magic (x : Z) (r : linbox_shm_header) : linbox_shm_header :=
  ShmHeader x (version r) (header_size r) (global_seq r) (heartbeat_ns r) (network_policy_offset r) (filesystem_policy_offset r) (dns_policy_offset r) (policy_area_size r) (header_reserved r).
Definition set_version (x : Z) (r : linbox_shm_header) : linbox_shm_header :=
  ShmHeader (magic r) x (header_size r) (global_seq r) (heartbeat_ns r) (network_policy_offset r) (filesystem_policy_offset r) (dns_policy_offset r) (policy_area_size r) (header_reserved r).
Definition set_header_size (x : Z) (r : linbox_shm_header) : linbox_shm_header :=
  ShmHeader (magic r) (version r) x (global_seq r) (heartbeat_ns r) (network_policy_offset r) (filesystem_policy_offset r) (dns_policy_offset r) (policy_area_size r) (header_reserved r).
Definition set_global_seq (x : Z) (r : linbox_shm_header) : linbox_shm_header :=
  ShmHeader (magic r) (version r) (header_size r) x (heartbeat_ns r) (network_policy_offset r) (filesystem_policy_offset r) (dns_policy_offset r) (policy_area_size r) (header_reserved r).
Definition set_network_policy_offset (x : Z) (r : linbox_shm_header) : linbox_shm_header :=
  ShmHeader (magic r) (version r) (header_size r) (global_seq r) (heartbeat_ns r) x (filesystem_policy_offset r) (dns_policy_offset r) (policy_area_size r) (header_reserved r).
Definition set_filesystem_policy_offset (x : Z) (r : linbox_shm_header) : linbox_shm_header :=
  ShmHeader (magic r) (version r) (header_size r) (global_seq r) (heartbeat_ns r) (network_policy_offset r) x (dns_policy_offset r) (policy_area_size r) (header_reserved r).
Definition set_dns_policy_offset (x : Z) (r : linbox_shm_header) : linbox_shm_header :=
  ShmHeader (magic r) (version r) (header_size r) (global_seq r) (heartbeat_ns r) (network_policy_offset r) (filesystem_policy_offset r) x (policy_area_size r) (header_reserved r).
Definition set_policy_area_size (x : Z) (r : linbox_shm_header) : linbox_shm_header :=
  ShmHeader (magic r) (version r) (header_size r) (global_seq r) (heartbeat_ns r) (network_policy_offset r) (filesystem_policy_offset r) (dns_policy_offset r) x (header_reserved r).
Definition set_header (x : linbox_shm_header) (r : linbox_shm_layout) : linbox_shm_layout :=
  ShmLayout x (time_seq r) (virtual_time r) (prng_seed r) (flags r) (process_slots r) (policy_area r) (layout_reserved r).
Definition set_time_seq (x : Z) (r : linbox_shm_layout) : linbox_shm_layout :=
  ShmLayout (header r) x (virtual_time r) (prng_seed r) (flags r) (process_slots r) (policy_area r) (layout_reserved r).
Definition set_virtual_time (x : timespec) (r : linbox_shm_layout) : linbox_shm_layout :=
  ShmLayout (header r) (time_seq r) x (prng_seed r) (flags r) (process_slots r) (policy_area r) (layout_reserved r).
Definition set_prng_seed (x : Z) (r : linbox_shm_layout) : linbox_shm_layout :=
  ShmLayout (header r) (time_seq r) (virtual_time r) x (flags r) (process_slots r) (policy_area r) (layout_reserved r).
Definition set_flags (x : Z) (r : linbox_shm_layout) : linbox_shm_layout :=
  ShmLayout (header r) (time_seq r) (virtual_time r) (prng_seed r) x (process_slots r) (policy_area r) (layout_reserved r).
Definition set_process_slots (x : list linbox_process_slot) (r : linbox_shm_layout) : linbox_shm_layout :=
  ShmLayout (header r) (time_seq r) (virtual_time r) (prng_seed r) (flags r) x (policy_area r) (layout_reserved r).
Definition set_heartbeat_ns (x : Z) (r : linbox_shm_layout) : linbox_shm_layout :=
  let h := header r in
  set_header (ShmHeader (magic h) (version h) (header_size h) (global_seq h) x
    (network_policy_offset h) (filesystem_policy_offset h) (dns_policy_offset h)
    (policy_area_size h) (header_reserved h)) r.
Definition set_virtual_sec (s : Z) (l : linbox_shm_layout) : linbox_shm_layout :=
  set_virtual_time (Timespec s (tv_nsec (virtual_time l))) l.
Definition set_virtual_nsec (n : Z) (l : linbox_shm_layout) : linbox_shm_layout :=
  set_virtual_time (Timespec (tv_sec (virtual_time l)) n) l.

(** ** Sizes and offsets

    The x86-64 ABI: each field at the next multiple of its alignment, the size
    rounded up to the largest alignment. *)
Definition align_up (n a : Z) : Z := (n + a - 1) / a * a.

Fixpoint field_offsets (off : Z) (fs : list (Z * Z)) : list Z * Z :=
  match fs with
  | [] => ([], off)
  | (sz, al) :: fs' =>
      let o := align_up off al in
      let '(os, fin) := field_offsets (o + sz) fs' in (o :: os, fin)
  end.

Definition struct_size (fs : list (Z * Z)) : Z :=
  align_up (field_offsets 0 fs).2 (foldr (fun f m => Z.max f.2 m) 1 fs).

Definition slot_fields : list (Z * Z) := [(4, 4); (4, 4); (8, 8); (16, 1)].
Definition header_fields : list (Z * Z) :=
  [(4, 4); (2, 2); (2, 2); (4, 4); (8, 8); (4, 4); (4, 4); (4, 4); (4, 4); (32, 1)].
Definition layout_fields : list (Z * Z) :=
  [(struct_size header_fields, 8); (4, 4); (16, 8); (8, 8); (4, 4);
   (struct_size slot_fields * LINBOX_PROCESS_SLOT_COUNT, 8);
   (LINBOX_POLICY_AREA_SIZE, 1); (LINBOX_LAYOUT_RESERVED_SIZE, 1)].

Definition sizeof_header : Z := struct_size header_fields.
Definition sizeof_layout : Z := struct_size layout_fields.
Definition offsetof_policy_area : Z := nth 6 (field_offsets 0 layout_fields).1 0.

Definition zero_slot : linbox_process_slot := ProcessSlot 0 0 0 (replicate 16 0).

(** What [memset (layout, 0, sizeof *layout)] leaves. *)
Definition zero_layout : linbox_shm_layout :=
  ShmLayout (ShmHeader 0 0 0 0 0 0 0 0 0 (replicate 32 0)) 0 (Timespec 0 0) 0 0
    (replicate (Z.to_nat LINBOX_PROCESS_SLOT_COUNT) zero_slot)
    (replicate (Z.to_nat LINBOX_POLICY_AREA_SIZE) 0)
    (replicate (Z.to_nat LINBOX_LAYOUT_RESERVED_SIZE) 0).
