(* ===== verification/Os.v ===== *)
(** * Running C code against an operating system

    The program calls libc and the kernel, reads memory that other processes
    write, and keeps global state.  All of that is a state monad [M S]: [S] is
    the program's own state, and a [proc] adds [errno], the shared memory and
    the log of everything the code asked of its environment.

    The environment is the class [OS]: a function from the log so far to the
    answer of the next call, and the changes other processes make to shared
    memory before each access.  Nothing is assumed of it here, so a theorem
    that quantifies over [OS] holds for every behaviour of libc, the kernel and
    the other processes; a theorem that needs documented behaviour names it as
    a hypothesis on the answers. *)
From S2P Require Import Prelude ShmLayout.

(** ** What the code asks of its environment *)
Inductive ext : Type :=
  | XClockGettime (clk : Z)
  | XShmOpen (path : string) (oflags mode : Z)
  | XFtruncate (fd len : Z)
  | XMmap (fd len : Z)
  | XMunmap (addr len : Z)
  | XClose (fd : Z)
  | XShmUnlink (path : string)
  | XMem (addr : Z)
  | XSchedYield
  | XSocket
  | XConnect (fd : Z) (path : string)
  | XBind (fd : Z) (path : string)
  | XListen (fd backlog : Z)
  | XAccept (fd : Z)
  | XPoll (fds : list Z) (timeout : Z)
  | XRead (fd count : Z)
  | XWrite (fd : Z) (bytes : list Z)
  | XUnlink (path : string)
  | XKill (pid sig : Z)
  | XStop
  | XGetpid
  | XSysconf (name : Z)
  | XDlsym (symbol : string)
  | XRawSyscall (nr : Z) (args : list Z)
  | XReal (fn : string) (args : list Z) (path : option string)
  | XRealExec (fn path : string) (argv : list string) (envp : option (list string))
  | XSigaction (sig : Z)
  | XPrctl (args : list Z)
  | XMalloc (size : Z)
  | XFree (ptr : Z)
  | XStderr (msg : string).

(** The result, the [errno] a failing call sets, and the words or bytes it
    stores through its pointer arguments. *)
Record answer := Answer { ret : Z; err : Z; data : list Z }.

Abbreviation event := (ext * answer)%type.
Abbreviation memory := (gmap Z linbox_shm_layout).

#[export] Instance ext_eq_dec : EqDecision ext.
Proof. solve_decision. Defined.
#[export] Instance answer_eq_dec : EqDecision answer.
Proof. solve_decision. Defined.

Class OS := {
  os_answer : list event -> ext -> answer;
  os_interfere : list event -> memory -> memory
}.

(** ** The monad *)
Record proc (S : Type) := Proc {
  p_st : S; p_errno : Z; p_mem : memory; p_log : list event }.
Arguments Proc {S}.
Arguments p_st {S}.
Arguments p_errno {S}.
Arguments p_mem {S}.
Arguments p_log {S}.

Definition M (S A : Type) : Type := proc S -> res (A * proc S).

#[export] Instance M_ret S : MRet (M S) := fun A a p => Ok (a, p).
#[export] Instance M_bind S : MBind (M S) := fun A B f m p =>
  match m p with
  | Ok (a, p') => f a p'
  | OutOfFuel => OutOfFuel
  | Undef => Undef
  end.

Section Operations.
Context {S : Type} {os : OS}.

Definition get_st : M S S := fun p => Ok (p_st p, p).
Definition modify_st (f : S -> S) : M S unit := fun p =>
  Ok (tt, Proc (f (p_st p)) (p_errno p) (p_mem p) (p_log p)).
Definition get_errno : M S Z := fun p => Ok (p_errno p, p).
Definition set_errno (e : Z) : M S unit := fun p =>
  Ok (tt, Proc (p_st p) e (p_mem p) (p_log p)).
Definition undef {A} : M S A := fun _ => Undef.
Definition out_of_fuel {A} : M S A := fun _ => OutOfFuel.
Definition lift {A} (r : res A) : M S A := fun p =>
  match r with Ok a => Ok (a, p) | OutOfFuel => OutOfFuel | Undef => Undef end.

Definition get_log : M S (list event) := fun p => Ok (p_log p, p).

(** A call, with everything it returns; a negative result sets [errno]. *)
Definition callA (x : ext) : M S answer := fun p =>
  let a := os_answer (p_log p) x in
  Ok (a, Proc (p_st p) (if decide (ret a < 0) then err a else p_errno p)
           (p_mem p) (p_log p ++ [(x, a)])).
Definition call (x : ext) : M S Z := a ← callA x; mret (ret a).

(** A system call made directly reports errors in its result and leaves
    [errno] alone. *)
Definition call_kernel (x : ext) : M S answer := fun p =>
  let a := os_answer (p_log p) x in
  Ok (a, Proc (p_st p) (p_errno p) (p_mem p) (p_log p ++ [(x, a)])).

(** One access to the shared region at address [r]: other processes may have
    run before it; an unmapped address faults. *)
Definition mem_event (r : Z) : event := (XMem r, Answer 0 0 []).
Definition load (r : Z) : M S linbox_shm_layout := fun p =>
  let m := os_interfere (p_log p) (p_mem p) in
  match m !! r with
  | Some l => Ok (l, Proc (p_st p) (p_errno p) m (p_log p ++ [mem_event r]))
  | None => Undef
  end.
Definition store (r : Z) (f : linbox_shm_layout -> linbox_shm_layout) : M S unit := fun p =>
  let m := os_interfere (p_log p) (p_mem p) in
  match m !! r with
  | Some l => Ok (tt, Proc (p_st p) (p_errno p) (<[r := f l]> m) (p_log p ++ [mem_event r]))
  | None => Undef
  end.
End Operations.

Lemma M_bind_eq {S A B} (m : M S A) (f : A -> M S B) p :
  (x ← m; f x) p =
  match m p with Ok (a, p') => f a p' | OutOfFuel => OutOfFuel | Undef => Undef end.
Proof. reflexivity. Qed.

Lemma M_bind_Ok {S A B} (m : M S A) (f : A -> M S B) p b q :
  (x ← m; f x) p = Ok (b, q) <-> exists a p', m p = Ok (a, p') /\ f a p' = Ok (b, q).
Proof.
  rewrite M_bind_eq. split.
  - destruct (m p) as [[a p']| |]; [eauto|discriminate..].
  - intros (a & p' & -> & H). exact H.
Qed.

Lemma M_ret_Ok {S A} (a b : A) (p q : proc S) : mret (M := M S) a p = Ok (b, q) -> b = a /\ q = p.
Proof. intros [= <- <-]. auto. Qed.

(** Constants of libc and Linux on x86-64 the code names. *)
Definition EINTR : Z := 4.
Definition EPERM : Z := 1.
Definition EIO : Z := 5.
Definition EAGAIN : Z := 11.
Definition ENOMEM : Z := 12.
Definition EEXIST : Z := 17.
Definition EINVAL : Z := 22.
Definition EMFILE : Z := 24.
Definition ENOSYS : Z := 38.
Definition EPROTO : Z := 71.
Definition O_RDWR : Z := 2.
Definition O_CREAT : Z := 64.
Definition O_EXCL : Z := 128.
Definition MAP_FAILED : Z := -1.
Definition CLOCK_REALTIME : Z := 0.
Definition CLOCK_MONOTONIC : Z := 1.

(** ** Running straight-line code

    Where no other process touches the memory, [load] and [store] are plain
    accesses; [run_M] executes them symbolically. *)
Class QuietMemory {os : OS} : Prop :=
  quiet_memory : forall log m, os_interfere log m = m.

Section Equations.
Context {S : Type} {os : OS}.

Lemma call_eq x (p : proc S) :
  call x p = let a := os_answer (p_log p) x in
    Ok (ret a, Proc (p_st p) (if decide (ret a < 0) then err a else p_errno p)
                 (p_mem p) (p_log p ++ [(x, a)])).
Proof. reflexivity. Qed.

Lemma load_eq `{!QuietMemory} r (p : proc S) l :
  p_mem p !! r = Some l ->
  load r p = Ok (l, Proc (p_st p) (p_errno p) (p_mem p) (p_log p ++ [mem_event r])).
Proof. intros Hl. unfold load. rewrite quiet_memory, Hl. reflexivity. Qed.

Lemma store_eq `{!QuietMemory} r f (p : proc S) l :
  p_mem p !! r = Some l ->
  store r f p =
  Ok (tt, Proc (p_st p) (p_errno p) (<[r := f l]> (p_mem p)) (p_log p ++ [mem_event r])).
Proof. intros Hl. unfold store. rewrite quiet_memory, Hl. reflexivity. Qed.

(** One more store to a cell already written. *)
Lemma store_again `{!QuietMemory} r f (st : S) e (m : memory) log l :
  store r f (Proc st e (<[r := l]> m) log) =
  Ok (tt, Proc st e (<[r := f l]> m) (log ++ [mem_event r])).
Proof.
  rewrite (store_eq r f _ l) by apply lookup_insert_eq. cbn. rewrite insert_insert_eq. reflexivity.
Qed.

Lemma load_again `{!QuietMemory} r (st : S) e (m : memory) log l :
  load r (Proc st e (<[r := l]> m) log) =
  Ok (l, Proc st e (<[r := l]> m) (log ++ [mem_event r])).
Proof. rewrite (load_eq r _ l) by apply lookup_insert_eq. reflexivity. Qed.
End Equations.

Ltac run_M :=
  repeat first
    [ rewrite M_bind_eq
    | rewrite store_again
    | rewrite load_again
    | progress cbn [p_st p_errno p_mem p_log] ].

(** Taking apart a run that returned. *)
Ltac inv_ret :=
  match goal with
  | H : mret _ _ = Ok _ |- _ =>
      unfold mret, M_ret in H; injection H; clear H; intros; subst
  end.

Ltac inv_M :=
  repeat match goal with
  | H : mbind _ _ _ = Ok _ |- _ =>
      let a := fresh "a" in let p := fresh "p" in let Hm := fresh "Hm" in
      let Hk := fresh "Hk" in
      apply M_bind_Ok in H as (a & p & Hm & Hk)
  | H : undef _ = Ok _ |- _ => discriminate H
  | H : out_of_fuel _ = Ok _ |- _ => discriminate H
  | _ => inv_ret
  end.

(** Case analysis on the next test of a run. *)
Ltac case_in H :=
  match type of H with
  | context [@decide ?P ?i] => destruct (@decide P i); try contradiction; try (exfalso; lia)
  end.

(** Case analysis on the tests left in the goal. *)
Ltac case_goal :=
  match goal with
  | |- context [@decide ?P ?i] => destruct (@decide P i); try contradiction; try (exfalso; lia)
  end.

(** ** Descriptors and mappings

    What a log leaves open: descriptors obtained and not closed, regions mapped
    and not unmapped. *)
Fixpoint delete_one (x : Z) (l : list Z) : list Z :=
  match l with [] => [] | y :: l' => if decide (x = y) then l' else y :: delete_one x l' end.

Definition fd_step (live : list Z) (e : event) : list Z :=
  match e with
  | (XShmOpen _ _ _, a) | (XSocket, a) | (XAccept _, a) =>
      if decide (ret a < 0) then live else ret a :: live
  | (XClose fd, _) => delete_one fd live
  | _ => live
  end.
Definition live_fds (log : list event) : list Z := foldl fd_step [] log.

Definition map_step (live : list Z) (e : event) : list Z :=
  match e with
  | (XMmap _ _, a) => if decide (ret a = MAP_FAILED) then live else ret a :: live
  | (XMunmap addr _, _) => delete_one addr live
  | _ => live
  end.
Definition live_maps (log : list event) : list Z := foldl map_step [] log.

(** The resources live before and after a run: descriptors and mappings. *)
Definition resources {S} (p q : proc S) (s s' : list Z * list Z) : Prop :=
  exists new, p_log q = p_log p ++ new /\
    foldl fd_step s.1 new = s'.1 /\ foldl map_step s.2 new = s'.2.

(** Code that leaves the resources as they are. *)
Definition neutral_code {S A} (m : M S A) : Prop :=
  forall p a q, m p = Ok (a, q) -> forall s, resources p q s s.

Section Resources.
Context {S : Type} {os : OS}.

Lemma resources_refl (p : proc S) s : resources p p s s.
Proof. exists []. rewrite app_nil_r. auto. Qed.

Lemma resources_trans (p q r : proc S) s t u :
  resources p q s t -> resources q r t u -> resources p r s u.
Proof.
  intros (n1 & E1 & F1 & M1) (n2 & E2 & F2 & M2). exists (n1 ++ n2).
  rewrite E2, E1, <- app_assoc, !foldl_app, F1, M1. auto.
Qed.

Lemma resources_event (p q : proc S) e s :
  p_log q = p_log p ++ [e] -> resources p q s (fd_step s.1 e, map_step s.2 e).
Proof. intros H. exists [e]. auto. Qed.

Lemma callA_resources x (p q : proc S) a s :
  callA x p = Ok (a, q) -> resources p q s (fd_step s.1 (x, a), map_step s.2 (x, a)).
Proof. intros H. injection H as <- <-. apply resources_event. reflexivity. Qed.

Lemma call_inv x (p q : proc S) r :
  call x p = Ok (r, q) -> exists a, callA x p = Ok (a, q) /\ r = ret a.
Proof. intros H. injection H as <- <-. eexists. split; reflexivity. Qed.

Lemma neutral_ret {A} (a : A) : neutral_code (S := S) (mret a).
Proof. intros p b q [= <- <-] s. apply resources_refl. Qed.

Lemma neutral_bind {A B} (m : M S A) (f : A -> M S B) :
  neutral_code m -> (forall a, neutral_code (f a)) -> neutral_code (a ← m; f a).
Proof.
  intros Hm Hf p b q H s. apply M_bind_Ok in H as (a & p' & H1 & H2).
  eapply resources_trans; [apply (Hm _ _ _ H1)|apply (Hf _ _ _ _ H2)].
Qed.

Lemma neutral_load r : neutral_code (S := S) (load r).
Proof.
  intros p a q H s. unfold load in H. destruct (_ !! r); [|discriminate]. injection H as <- <-.
  destruct s. apply (resources_event _ _ (mem_event r) (_, _)). reflexivity.
Qed.

Lemma neutral_store r f : neutral_code (S := S) (store r f).
Proof.
  intros p a q H s. unfold store in H. destruct (_ !! r); [|discriminate]. injection H as <- <-.
  destruct s. apply (resources_event _ _ (mem_event r) (_, _)). reflexivity.
Qed.

Lemma neutral_callA x :
  (forall a live, fd_step live (x, a) = live /\ map_step live (x, a) = live) ->
  neutral_code (S := S) (callA x).
Proof.
  intros Hx p a q H [fs ms]. apply (callA_resources _ _ _ _ (fs, ms)) in H. cbn [fst snd] in H.
  rewrite (proj1 (Hx a fs)), (proj2 (Hx a ms)) in H. exact H.
Qed.

Lemma neutral_call x :
  (forall a live, fd_step live (x, a) = live /\ map_step live (x, a) = live) ->
  neutral_code (S := S) (call x).
Proof. intros Hx. apply neutral_bind; [apply neutral_callA, Hx|intros; apply neutral_ret]. Qed.

Lemma neutral_get_st : neutral_code (S := S) get_st.
Proof. intros p a q [= <- <-] s. apply resources_refl. Qed.

Lemma neutral_get_errno : neutral_code (S := S) get_errno.
Proof. intros p a q [= <- <-] s. apply resources_refl. Qed.

Lemma neutral_quiet {A} (m : M S A) :
  (forall p a q, m p = Ok (a, q) -> p_log q = p_log p) -> neutral_code m.
Proof.
  intros Hm p a q H s. exists []. rewrite app_nil_r. split; [apply (Hm _ _ _ H)|]. destruct s. auto.
Qed.

Lemma neutral_modify_st f : neutral_code (S := S) (modify_st f).
Proof. apply neutral_quiet. intros p a q [= <- <-]. reflexivity. Qed.

Lemma neutral_set_errno e : neutral_code (S := S) (set_errno e).
Proof. apply neutral_quiet. intros p a q [= <- <-]. reflexivity. Qed.

Lemma neutral_undef {A} : neutral_code (S := S) (undef (A := A)).
Proof. intros p a q [=]. Qed.

Lemma neutral_out_of_fuel {A} : neutral_code (S := S) (out_of_fuel (A := A)).
Proof. intros p a q [=]. Qed.

Lemma neutral_lift {A} (r : res A) : neutral_code (S := S) (lift r).
Proof. apply neutral_quiet. intros p a q. unfold lift. destruct r; [|discriminate..]. intros [= <- <-]. reflexivity. Qed.
End Resources.

Create HintDb neutral.
#[export] Hint Resolve neutral_ret neutral_load neutral_store neutral_get_st neutral_get_errno
  neutral_modify_st neutral_set_errno neutral_undef neutral_out_of_fuel neutral_lift : neutral.

(** Code whose every call leaves the resources alone. *)
Ltac neutral_code_tac :=
  repeat first
    [ progress (intros; cbv zeta)
    | solve [auto with neutral nocore]
    | apply neutral_call; intros ? ?; split; reflexivity
    | apply neutral_callA; intros ? ?; split; reflexivity
    | apply neutral_bind
    | match goal with |- neutral_code (match ?x with _ => _ end) => destruct x end ].

Lemma delete_one_here x l : delete_one x (x :: l) = l.
Proof. simpl. rewrite decide_True by reflexivity. reflexivity. Qed.

(** Chain the effects of the calls of a run that returned. *)
Ltac resource_step H s :=
  let Hr := fresh "Hres" in
  apply call_inv in H as (? & H & ->);
  pose proof (callA_resources _ _ _ _ s H) as Hr; clear H;
  cbn [fd_step map_step fst snd] in Hr.

(** *** Code that leaves the program's own state alone *)
Definition keeps_st {S A} (m : M S A) : Prop :=
  forall p a q, m p = Ok (a, q) -> p_st q = p_st p.

Section KeepsState.
Context {S : Type} {os : OS}.

Lemma keeps_ret {A} (a : A) : keeps_st (S := S) (mret a).
Proof. intros p b q [= _ <-]. reflexivity. Qed.

Lemma keeps_bind {A B} (m : M S A) (f : A -> M S B) :
  keeps_st m -> (forall a, keeps_st (f a)) -> keeps_st (a ← m; f a).
Proof.
  intros Hm Hf p b q H. apply M_bind_Ok in H as (a & p' & H1 & H2).
  rewrite (Hf _ _ _ _ H2). exact (Hm _ _ _ H1).
Qed.

Lemma keeps_callA x : keeps_st (S := S) (callA x).
Proof. intros p a q [= _ <-]. reflexivity. Qed.
Lemma keeps_call x : keeps_st (S := S) (call x).
Proof. intros p a q [= _ <-]. reflexivity. Qed.
Lemma keeps_get_errno : keeps_st (S := S) get_errno.
Proof. intros p a q [= _ <-]. reflexivity. Qed.
Lemma keeps_set_errno e : keeps_st (S := S) (set_errno e).
Proof. intros p a q [= _ <-]. reflexivity. Qed.
Lemma keeps_undef {A} : keeps_st (S := S) (undef (A := A)).
Proof. intros p a q [=]. Qed.
Lemma keeps_load r : keeps_st (S := S) (load r).
Proof. intros p a q H. unfold load in H. destruct (_ !! r); [|discriminate]. injection H as _ <-. reflexivity. Qed.
Lemma keeps_store r f : keeps_st (S := S) (store r f).
Proof. intros p a q H. unfold store in H. destruct (_ !! r); [|discriminate]. injection H as _ <-. reflexivity. Qed.
Lemma keeps_lift {A} (r : res A) : keeps_st (S := S) (lift r).
Proof. intros p a q H. unfold lift in H. destruct r; [|discriminate..]. injection H as _ <-. reflexivity. Qed.
End KeepsState.

Create HintDb keeps.
#[export] Hint Resolve keeps_ret keeps_callA keeps_call keeps_get_errno keeps_set_errno keeps_undef
  keeps_load keeps_store keeps_lift : keeps.

Ltac keeps_st_tac :=
  repeat first
    [ progress (intros; cbv zeta)
    | solve [auto with keeps nocore]
    | apply keeps_bind
    | match goal with |- keeps_st (match ?x with _ => _ end) => destruct x end ].

(** *** Ownership up to order *)
#[export] Instance delete_one_Permutation x : Proper ((≡ₚ) ==> (≡ₚ)) (delete_one x).
Proof.
  intros l1 l2 H. induction H as [|y l1 l2 H IH|y z l|l1 l2 l3 _ IH1 _ IH2]; cbn.
  - reflexivity.
  - destruct (decide (x = y)); [exact H|]. rewrite IH. reflexivity.
  - repeat destruct (decide _); subst; try congruence; try reflexivity. apply perm_swap.
  - rewrite IH1. exact IH2.
Qed.

#[export] Instance fd_step_Permutation : Proper ((≡ₚ) ==> (=) ==> (≡ₚ)) fd_step.
Proof.
  intros l1 l2 H [x a] _ <-. destruct x; cbn; try destruct (decide _); rewrite ?H; reflexivity.
Qed.

#[export] Instance map_step_Permutation : Proper ((≡ₚ) ==> (=) ==> (≡ₚ)) map_step.
Proof.
  intros l1 l2 H [x a] _ <-. destruct x; cbn; try destruct (decide _); rewrite ?H; reflexivity.
Qed.

Lemma foldl_Permutation (f : list Z -> event -> list Z) `{!Proper ((≡ₚ) ==> (=) ==> (≡ₚ)) f} new :
  forall l1 l2, l1 ≡ₚ l2 -> foldl f l1 new ≡ₚ foldl f l2 new.
Proof. induction new as [|e new IH]; intros l1 l2 Hl; cbn; [exact Hl|]. apply IH. rewrite Hl. reflexivity. Qed.

(** What a log leaves open, in any order. *)
Definition owns (log : list event) (fds maps : list Z) : Prop :=
  live_fds log ≡ₚ fds /\ live_maps log ≡ₚ maps.

#[export] Instance owns_Permutation log : Proper ((≡ₚ) ==> (≡ₚ) ==> iff) (owns log).
Proof. intros f1 f2 Hf m1 m2 Hm. unfold owns. rewrite Hf, Hm. reflexivity. Qed.

Lemma owns_resources {S} (p q : proc S) fds maps fds' maps' :
  owns (p_log p) fds maps -> resources p q (fds, maps) (fds', maps') -> owns (p_log q) fds' maps'.
Proof.
  intros [Hf Hm] (new & -> & E1 & E2). cbn in E1, E2. subst fds' maps'. unfold owns, live_fds, live_maps. rewrite !foldl_app.
  split; apply foldl_Permutation; try apply _; assumption.
Qed.

Lemma owns_neutral {S A} (m : M S A) (p q : proc S) a fds maps :
  neutral_code m -> m p = Ok (a, q) -> owns (p_log p) fds maps -> owns (p_log q) fds maps.
Proof. intros Hm H Ho. eapply owns_resources; [exact Ho|apply (Hm _ _ _ H)]. Qed.

Lemma owns_call {S} {os : OS} x (p q : proc S) r fds maps :
  call x p = Ok (r, q) -> owns (p_log p) fds maps ->
  exists a, r = ret a /\ owns (p_log q) (fd_step fds (x, a)) (map_step maps (x, a)).
Proof.
  intros H Ho. apply call_inv in H as (a & H & ->). exists a. split; [reflexivity|].
  exact (owns_resources _ _ _ _ _ _ Ho (callA_resources _ _ _ _ (fds, maps) H)).
Qed.

(** Logs only grow. *)
Lemma neutral_log_grows {S A} (m : M S A) (p q : proc S) a :
  neutral_code m -> m p = Ok (a, q) -> (length (p_log p) <= length (p_log q))%nat.
Proof.
  intros Hm H. destruct (Hm _ _ _ H ([], [])) as (new & -> & _). rewrite length_app. lia.
Qed.

(** ** The calls a piece of code makes

    [emits P m]: whenever [m] returns it has only added to the log, and every
    call and access it made satisfies [P]. *)
Definition emits {S A} (P : ext -> Prop) (m : M S A) : Prop :=
  forall p a q, m p = Ok (a, q) ->
    exists new, p_log q = p_log p ++ new /\ Forall (fun e => P e.1) new.

Section Emits.
Context {S : Type} {os : OS} {P : ext -> Prop}.

Lemma emits_quiet {A} (m : M S A) :
  (forall p a q, m p = Ok (a, q) -> p_log q = p_log p) -> emits P m.
Proof. intros Hm p a q H. exists []. rewrite app_nil_r. split; [exact (Hm _ _ _ H)|constructor]. Qed.

Lemma emits_one {A} (m : M S A) (x : ext) : P x ->
  (forall p a q, m p = Ok (a, q) -> exists b, p_log q = p_log p ++ [(x, b)]) -> emits P m.
Proof.
  intros Hx Hm p a q H. destruct (Hm _ _ _ H) as [b Hb]. exists [(x, b)].
  split; [exact Hb|]. constructor; [exact Hx|constructor].
Qed.

Lemma emits_bind {A B} (m : M S A) (f : A -> M S B) :
  emits P m -> (forall a, emits P (f a)) -> emits P (a ← m; f a).
Proof.
  intros Hm Hf p b q H. apply M_bind_Ok in H as (a & p' & H1 & H2).
  destruct (Hm _ _ _ H1) as (n1 & E1 & F1). destruct (Hf _ _ _ _ H2) as (n2 & E2 & F2).
  exists (n1 ++ n2). split; [rewrite E2, E1, app_assoc; reflexivity|]. apply Forall_app. auto.
Qed.

Lemma emits_ret {A} (a : A) : emits P (mret (M := M S) a).
Proof. apply emits_quiet. intros p b q [= <- <-]. reflexivity. Qed.
Lemma emits_get_st : emits P (get_st (S := S)).
Proof. apply emits_quiet. intros p b q [= <- <-]. reflexivity. Qed.
Lemma emits_get_errno : emits P (get_errno (S := S)).
Proof. apply emits_quiet. intros p b q [= <- <-]. reflexivity. Qed.
Lemma emits_modify_st f : emits P (modify_st (S := S) f).
Proof. apply emits_quiet. intros p b q [= <- <-]. reflexivity. Qed.
Lemma emits_set_errno e : emits P (set_errno (S := S) e).
Proof. apply emits_quiet. intros p b q [= <- <-]. reflexivity. Qed.
Lemma emits_undef {A} : emits P (undef (S := S) (A := A)).
Proof. intros p b q [=]. Qed.
Lemma emits_out_of_fuel {A} : emits P (out_of_fuel (S := S) (A := A)).
Proof. intros p b q [=]. Qed.
Lemma emits_lift {A} (r : res A) : emits P (lift (S := S) r).
Proof. apply emits_quiet. intros p b q. unfold lift. destruct r; [|discriminate..]. intros [= <- <-]. reflexivity. Qed.

Lemma emits_callA x : P x -> emits P (callA (S := S) x).
Proof. intros Hx. apply (emits_one _ x Hx). intros p a q [= <- <-]. eexists. reflexivity. Qed.
Lemma emits_call_kernel x : P x -> emits P (call_kernel (S := S) x).
Proof. intros Hx. apply (emits_one _ x Hx). intros p a q [= <- <-]. eexists. reflexivity. Qed.
Lemma emits_call x : P x -> emits P (call (S := S) x).
Proof. intros Hx. apply emits_bind; [apply emits_callA, Hx|intros; apply emits_ret]. Qed.

Lemma emits_load r : P (XMem r) -> emits P (load (S := S) r).
Proof.
  intros Hr. apply (emits_one _ (XMem r) Hr). intros p a q H. unfold load in H.
  destruct (_ !! r); [|discriminate]. injection H as <- <-. eexists. reflexivity.
Qed.
Lemma emits_store r f : P (XMem r) -> emits P (store (S := S) r f).
Proof.
  intros Hr. apply (emits_one _ (XMem r) Hr). intros p a q H. unfold store in H.
  destruct (_ !! r); [|discriminate]. injection H as <- <-. eexists. reflexivity.
Qed.

Lemma emits_weaken {A} (Q : ext -> Prop) (m : M S A) : (forall x, P x -> Q x) -> emits P m -> emits Q m.
Proof.
  intros HPQ Hm p a q H. destruct (Hm _ _ _ H) as (new & E & F). exists new. split; [exact E|].
  eapply Forall_impl; [exact F|]. intros e He. apply HPQ, He.
Qed.
End Emits.

Create HintDb emits.
#[export] Hint Resolve emits_ret emits_get_st emits_get_errno emits_modify_st emits_set_errno
  emits_undef emits_out_of_fuel emits_lift : emits.

(** Walk through a piece of code; [side] proves [P] of each call. *)
Ltac emits_with side :=
  repeat first
    [ progress (intros; cbv zeta)
    | solve [auto with emits nocore]
    | apply emits_load; side
    | apply emits_store; side
    | apply emits_call; side
    | apply emits_callA; side
    | apply emits_call_kernel; side
    | apply emits_bind
    | match goal with |- emits _ (match ?x with _ => _ end) => destruct x end ].

(** Accesses to the shared region and readings of the clock. *)
Definition region_access (x : ext) : Prop :=
  match x with XMem _ | XClockGettime _ => True | _ => False end.
