(* ===== verification/Total.v ===== *)
(** * Total correctness

    Hoare triples for the monad of Os.v in the sense of total correctness:
    [total P m Q] says that from every process that satisfies [P] the code [m]
    returns, without undefined behaviour and within its fuel, in a process and
    with a result that satisfy [Q].  Every external call of the model answers at
    once, so a call that may block for ever in a real process is assumed to
    return. *)
From S2P Require Import Prelude ShmLayout Os.

Definition total {S A} (P : proc S -> Prop) (m : M S A) (Q : A -> proc S -> Prop) : Prop :=
  forall p, P p -> exists a q, m p = Ok (a, q) /\ Q a q.

(** Code that returns and keeps [I]. *)
Definition ends {S A} (I : proc S -> Prop) (m : M S A) : Prop := total I m (fun _ => I).

(** An assertion that does not depend on the error number and the log, and one
    that no access of another process to the memory falsifies either. *)
Class Stable {S} (I : proc S -> Prop) : Prop :=
  stable : forall p e log, I p -> I (Proc (p_st p) e (p_mem p) log).
Class Undisturbed {S} {os : OS} (I : proc S -> Prop) : Prop :=
  undisturbed : forall p log, I p -> I (Proc (p_st p) (p_errno p) (os_interfere log (p_mem p)) (p_log p)).

Section Rules.
Context {S : Type} {os : OS}.

Lemma total_ret {A} (P : proc S -> Prop) (a : A) (Q : A -> proc S -> Prop) :
  (forall p, P p -> Q a p) -> total P (mret a) Q.
Proof. intros H p Hp. exists a, p. split; [reflexivity|exact (H p Hp)]. Qed.

Lemma total_bind {A B} (P : proc S -> Prop) (R : A -> proc S -> Prop) (Q : B -> proc S -> Prop)
    (m : M S A) (f : A -> M S B) :
  total P m R -> (forall a, total (R a) (f a) Q) -> total P (a ← m; f a) Q.
Proof.
  intros Hm Hf p Hp. destruct (Hm p Hp) as (a & p' & E & Hr). destruct (Hf a p' Hr) as (b & q & E' & Hq).
  exists b, q. rewrite M_bind_eq, E. auto.
Qed.

Lemma total_conseq {A} (P P' : proc S -> Prop) (Q Q' : A -> proc S -> Prop) (m : M S A) :
  (forall p, P p -> P' p) -> (forall a q, Q' a q -> Q a q) -> total P' m Q' -> total P m Q.
Proof. intros HP HQ H p Hp. destruct (H p (HP p Hp)) as (a & q & E & Hq). eauto. Qed.

Lemma total_post {A} (P : proc S -> Prop) (Q Q' : A -> proc S -> Prop) (m : M S A) :
  total P m Q' -> (forall a q, Q' a q -> Q a q) -> total P m Q.
Proof. intros H HQ. exact (total_conseq P P Q Q' m (fun _ Hp => Hp) HQ H). Qed.

(** A pure fact of the precondition. *)
Lemma total_pure {A} (F : Prop) (P : proc S -> Prop) (m : M S A) (Q : A -> proc S -> Prop) :
  (F -> total P m Q) -> total (fun p => F /\ P p) m Q.
Proof. intros H p [HF Hp]. exact (H HF p Hp). Qed.

Lemma total_bind_ends {A B} (I : proc S -> Prop) (Q : B -> proc S -> Prop) (m : M S A) (f : A -> M S B) :
  ends I m -> (forall a, total I (f a) Q) -> total I (a ← m; f a) Q.
Proof. apply total_bind. Qed.

(** What a call answered. *)
Definition answers_to (x : ext) (a : answer) : Prop := exists log, a = os_answer log x.

Lemma total_callA (I : proc S -> Prop) `{!Stable I} x :
  total I (callA x) (fun a q => answers_to x a /\ I q).
Proof. intros p Hp. eexists _, _. split; [reflexivity|]. split; [eexists; reflexivity|apply stable, Hp]. Qed.

Lemma total_call (I : proc S -> Prop) `{!Stable I} x :
  total I (call x) (fun r q => (exists a, answers_to x a /\ r = ret a) /\ I q).
Proof.
  intros p Hp. eexists _, _. split; [reflexivity|].
  split; [eexists; split; [eexists; reflexivity|reflexivity]|apply stable, Hp].
Qed.

Lemma total_load (I : proc S -> Prop) `{!Stable I, !Undisturbed I} r (R : linbox_shm_layout -> Prop) :
  (forall p, I p -> exists l, p_mem p !! r = Some l /\ R l) ->
  total I (load r) (fun l q => R l /\ I q).
Proof.
  intros Hr p Hp. pose proof (undisturbed p (p_log p) Hp) as Hp'. destruct (Hr _ Hp') as (l & Hl & HR).
  cbn [p_mem] in Hl. unfold load. rewrite Hl. eexists _, _. split; [reflexivity|].
  split; [exact HR|exact (stable _ _ _ Hp')].
Qed.

Lemma total_store (I : proc S -> Prop) `{!Stable I, !Undisturbed I} r f :
  (forall p, I p -> exists l, p_mem p !! r = Some l /\
     I (Proc (p_st p) (p_errno p) (<[r := f l]> (p_mem p)) (p_log p))) ->
  ends I (store r f).
Proof.
  intros Hr p Hp. pose proof (undisturbed p (p_log p) Hp) as Hp'. destruct (Hr _ Hp') as (l & Hl & HI).
  cbn [p_mem] in Hl. unfold store. rewrite Hl. eexists _, _. split; [reflexivity|exact (stable _ _ _ HI)].
Qed.

Lemma total_get_st (I : proc S -> Prop) : total I get_st (fun s q => I q /\ s = p_st q).
Proof. intros p Hp. exists (p_st p), p. auto. Qed.

Lemma total_modify_st (P : proc S -> Prop) (Q : unit -> proc S -> Prop) f :
  (forall p, P p -> Q tt (Proc (f (p_st p)) (p_errno p) (p_mem p) (p_log p))) -> total P (modify_st f) Q.
Proof. intros H p Hp. eexists _, _. split; [reflexivity|exact (H p Hp)]. Qed.

Lemma total_lift {A} (P : proc S -> Prop) (r : res A) (a : A) (Q : A -> proc S -> Prop) :
  r = Ok a -> (forall p, P p -> Q a p) -> total P (lift r) Q.
Proof. intros -> H p Hp. exists a, p. split; [reflexivity|exact (H p Hp)]. Qed.

Lemma ends_ret {A} (I : proc S -> Prop) (a : A) : ends I (mret a).
Proof. apply total_ret. auto. Qed.
Lemma ends_bind {A B} (I : proc S -> Prop) (m : M S A) (f : A -> M S B) :
  ends I m -> (forall a, ends I (f a)) -> ends I (a ← m; f a).
Proof. intros Hm Hf. exact (total_bind _ _ _ _ _ Hm Hf). Qed.
Lemma ends_callA (I : proc S -> Prop) `{!Stable I} x : ends I (callA x).
Proof. apply (total_post _ _ _ _ (total_callA I x)). tauto. Qed.
Lemma ends_call (I : proc S -> Prop) `{!Stable I} x : ends I (call x).
Proof. apply (total_post _ _ _ _ (total_call I x)). tauto. Qed.
Lemma ends_get_st (I : proc S -> Prop) : ends I get_st.
Proof. apply (total_post _ _ _ _ (total_get_st I)). tauto. Qed.
Lemma ends_get_errno (I : proc S -> Prop) : ends I get_errno.
Proof. intros p Hp. exists (p_errno p), p. auto. Qed.
Lemma ends_set_errno (I : proc S -> Prop) `{!Stable I} e : ends I (set_errno e).
Proof. intros p Hp. eexists _, _. split; [reflexivity|apply stable, Hp]. Qed.

(** Results agree with what the triple says: the code is deterministic. *)
Lemma total_result {A} (P : proc S -> Prop) (m : M S A) (Q : A -> proc S -> Prop) p a q :
  total P m Q -> P p -> m p = Ok (a, q) -> Q a q.
Proof. intros H Hp E. destruct (H p Hp) as (a' & q' & E' & Hq). congruence. Qed.
End Rules.

Create HintDb ends.
#[export] Hint Resolve ends_ret ends_callA ends_call ends_get_st ends_get_errno ends_set_errno : ends.

(** Walk through code all of whose parts keep the assertion. *)
Ltac ends_tac :=
  repeat first
    [ progress (intros; cbv zeta)
    | solve [eauto with ends nocore typeclass_instances]
    | apply ends_bind
    | match goal with |- ends _ (match ?x with _ => _ end) => destruct x end ].
