(* ===== verification/Shm.v ===== *)
(** * The shared memory region: creation, attachment and the time cell

    Models src/common/shm.c.  Each assignment to a field of the region is one
    [store] and each read one [load], so other processes may run between any
    two of them; a [struct timespec] is copied field by field. *)
From S2P Require Import Prelude ShmLayout Os.

Section Shm.
Context {S : Type} {os : OS}.

(** [now_ns] *)
Definition now_ns : M S Z :=
  a ← callA (XClockGettime CLOCK_MONOTONIC);
  if decide (ret a <> 0) then mret 0
  else mret (u64 (u64 (u64 (nth 0 (data a) 0) * 1000000000) + u64 (nth 1 (data a) 0))).

Definition linbox_shm_init_layout (layout : Z) : M S unit :=
  if decide (layout = NULL) then mret tt
  else
    let h f := store layout (fun l => set_header (f (header l)) l) in
    store layout (fun _ => zero_layout) ;;
    h (set_magic LINBOX_SHM_MAGIC) ;;
    h (set_version LINBOX_SHM_VERSION) ;;
    h (set_header_size (u16 sizeof_header)) ;;
    h (set_global_seq 0) ;;
    ns ← now_ns ;
    store layout (set_heartbeat_ns ns) ;;
    let base := offsetof_policy_area in
    h (set_network_policy_offset (u32 base)) ;;
    h (set_filesystem_policy_offset (u32 (base + LINBOX_POLICY_AREA_SIZE / 4))) ;;
    h (set_dns_policy_offset (u32 (base + LINBOX_POLICY_AREA_SIZE / 2))) ;;
    h (set_policy_area_size LINBOX_POLICY_AREA_SIZE) ;;
    store layout (set_time_seq 0) ;;
    store layout (set_virtual_sec 0) ;;
    store layout (set_virtual_nsec 0) ;;
    store layout (set_prng_seed 0) ;;
    store layout (set_flags 0).

Definition linbox_shm_open_map (path : option string) (oflags mode : Z) (needs_init : bool)
    (out : option linbox_shm_handle) : M S (Z * option linbox_shm_handle) :=
  match path, out with
  | Some path, Some _ =>
      fd ← call (XShmOpen path oflags mode) ;
      if decide (fd < 0) then mret (-1, out)
      else
        let map_size := sizeof_layout in
        trunc ← (if needs_init then call (XFtruncate fd map_size) else mret 0) ;
        if decide (trunc <> 0) then _ ← call (XClose fd) ; mret (-1, out)
        else
          mem ← call (XMmap fd map_size) ;
          if decide (mem = MAP_FAILED) then _ ← call (XClose fd) ; mret (-1, out)
          else
            (if needs_init then linbox_shm_init_layout mem else mret tt) ;;
            mret (0, Some (ShmHandle fd map_size mem))
  | _, _ => mret (-1, out)
  end.

Definition linbox_shm_create (path : option string) (out : option linbox_shm_handle)
  : M S (Z * option linbox_shm_handle) :=
  linbox_shm_open_map path (Z.lor (Z.lor O_CREAT O_EXCL) O_RDWR) 0x180 true out.

Definition linbox_shm_detach (handle : option linbox_shm_handle)
  : M S (option linbox_shm_handle) :=
  match handle with
  | None => mret None
  | Some h =>
      (if decide (layout h <> NULL /\ layout h <> MAP_FAILED)
       then _ ← call (XMunmap (layout h) (size h)) ; mret tt else mret tt) ;;
      (if decide (fd h >= 0) then _ ← call (XClose (fd h)) ; mret tt else mret tt) ;;
      mret (Some (ShmHandle (-1) 0 NULL))
  end.

Definition linbox_shm_attach (path : option string) (out : option linbox_shm_handle)
  : M S (Z * option linbox_shm_handle) :=
  '(rc, out) ← linbox_shm_open_map path O_RDWR 0x180 false out ;
  if decide (rc <> 0) then mret (-1, out)
  else
    match out with
    | None => undef
    | Some h =>
        l ← load (layout h) ;
        if decide (magic (header l) <> LINBOX_SHM_MAGIC) then
          out ← linbox_shm_detach (Some h) ;
          set_errno EPROTO ;;
          mret (-1, out)
        else mret (0, Some h)
    end.

Definition linbox_shm_destroy (path : option string) (handle : option linbox_shm_handle)
  : M S (Z * option linbox_shm_handle) :=
  handle ← (match handle with Some h => linbox_shm_detach (Some h) | None => mret None end) ;
  match path with
  | None => set_errno EINVAL ;; mret (-1, handle)
  | Some path => rc ← call (XShmUnlink path) ; mret (rc, handle)
  end.

Definition linbox_shm_write_time (layout : Z) (ts : option timespec) : M S unit :=
  match ts with
  | None => mret tt
  | Some ts =>
      if decide (layout = NULL) then mret tt
      else
        l ← load layout ;
        let seq := time_seq l in
        store layout (set_time_seq (u32 (seq + 1))) ;;
        store layout (set_virtual_sec (tv_sec ts)) ;;
        store layout (set_virtual_nsec (tv_nsec ts)) ;;
        store layout (set_time_seq (u32 (seq + 2))) ;;
        ns ← now_ns ;
        store layout (set_heartbeat_ns ns)
  end.

(** The [for (;;)] of [linbox_shm_read_time]. *)
Fixpoint read_time_loop (fuel : nat) (layout : Z) : M S timespec :=
  match fuel with
  | O => out_of_fuel
  | Datatypes.S fuel' =>
      l1 ← load layout ;
      let seq1 := time_seq l1 in
      if decide (Z.land seq1 1 <> 0) then
        _ ← call XSchedYield ; read_time_loop fuel' layout
      else
        ls ← load layout ;
        ln ← load layout ;
        let snapshot := Timespec (tv_sec (virtual_time ls)) (tv_nsec (virtual_time ln)) in
        l2 ← load layout ;
        let seq2 := time_seq l2 in
        if decide (seq1 = seq2 /\ Z.land seq2 1 = 0) then mret snapshot
        else read_time_loop fuel' layout
  end.

Definition linbox_shm_read_time (fuel : nat) (layout : Z) (out : option timespec)
  : M S (Z * option timespec) :=
  match out with
  | None => set_errno EINVAL ;; mret (-1, None)
  | Some _ =>
      if decide (layout = NULL) then set_errno EINVAL ;; mret (-1, out)
      else ts ← read_time_loop fuel layout ; mret (0, Some ts)
  end.
End Shm.


Section ShmFacts.
Context {S : Type} {os : OS}.

Lemma neutral_now_ns : neutral_code (S := S) now_ns.
Proof. unfold now_ns. neutral_code_tac. Qed.
Hint Resolve neutral_now_ns : neutral.

Lemma neutral_init_layout r : neutral_code (S := S) (linbox_shm_init_layout r).
Proof. unfold linbox_shm_init_layout. neutral_code_tac. Qed.

Lemma neutral_write_time r ts : neutral_code (S := S) (linbox_shm_write_time r ts).
Proof. unfold linbox_shm_write_time. neutral_code_tac. Qed.

Lemma neutral_read_time_loop fuel r : neutral_code (S := S) (read_time_loop fuel r).
Proof. induction fuel as [|fuel IH]; cbn [read_time_loop]; neutral_code_tac. Qed.
Hint Resolve neutral_read_time_loop : neutral.

Lemma neutral_read_time fuel r out : neutral_code (S := S) (linbox_shm_read_time fuel r out).
Proof. unfold linbox_shm_read_time. neutral_code_tac. Qed.

(** A handle as a successful open leaves it. *)
Definition opened (h : linbox_shm_handle) : Prop :=
  0 <= fd h /\ layout h <> MAP_FAILED /\
  exists log, layout h = ret (os_answer log (XMmap (fd h) (size h))).

Lemma open_map_resources path oflags mode init out out' rc (p q : proc S) fds maps :
  linbox_shm_open_map path oflags mode init out p = Ok ((rc, out'), q) ->
  (rc = -1 /\ out' = out /\ resources p q (fds, maps) (fds, maps)) \/
  (rc = 0 /\ exists h, out' = Some h /\ opened h /\
     resources p q (fds, maps) (fd h :: fds, layout h :: maps)).
Proof.
  intros Hrun. unfold linbox_shm_open_map in Hrun.
  destruct path as [path|]; [|inv_M; auto using resources_refl].
  destruct out as [h0|]; [|inv_M; auto using resources_refl].
  apply M_bind_Ok in Hrun as (fd1 & p1 & H1 & Hrun). resource_step H1 (fds, maps).
  case_in Hrun; [inv_M; try case_in Hres; auto|]. try case_in Hres.
  apply M_bind_Ok in Hrun as (tr & p2 & H2 & Hrun).
  assert (Hres2 : resources p1 p2 (ret x :: fds, maps) (ret x :: fds, maps)).
  { destruct init; [|inv_M; apply resources_refl]. resource_step H2 (ret x :: fds, maps). assumption. }
  pose proof (resources_trans _ _ _ _ _ _ Hres Hres2) as Hres3.
  case_in Hrun.
  { apply M_bind_Ok in Hrun as (rc1 & p3 & H3 & Hrun). resource_step H3 (ret x :: fds, maps).
    rewrite delete_one_here in Hres0. inv_M. eauto using resources_trans. }
  apply M_bind_Ok in Hrun as (mm & p3 & H3 & Hrun).
  assert (Hmm : exists log, mm = ret (os_answer log (XMmap (ret x) sizeof_layout)))
    by (injection H3 as <- _; eauto).
  resource_step H3 (ret x :: fds, maps).
  case_in Hrun.
  { try case_in Hres0. apply M_bind_Ok in Hrun as (rc1 & p4 & H4 & Hrun). resource_step H4 (ret x :: fds, maps).
    rewrite delete_one_here in Hres1. inv_M. left. eauto 6 using resources_trans. }
  try case_in Hres0. apply M_bind_Ok in Hrun as (u & p4 & H4 & Hrun). inv_M.
  right. split; [reflexivity|]. eexists. split; [reflexivity|]. cbn [fd layout size].
  split; [split; [cbn; lia|]; split; assumption|]. 
  eapply resources_trans; [exact Hres3|]. eapply resources_trans; [exact Hres0|].
  destruct init; [|inv_M; apply resources_refl]. apply (neutral_init_layout _ _ _ _ H4).
Qed.

Lemma detach_resources h out' (p q : proc S) fds maps :
  0 <= fd h -> layout h <> MAP_FAILED -> layout h <> NULL ->
  linbox_shm_detach (Some h) p = Ok (out', q) ->
  out' = Some (ShmHandle (-1) 0 NULL) /\
  resources p q (fd h :: fds, layout h :: maps) (fds, maps).
Proof.
  intros Hfd Hmf Hnull H. unfold linbox_shm_detach in H.
  apply M_bind_Ok in H as (u & p1 & H1 & H). apply M_bind_Ok in H as (u2 & p2 & H2 & H).
  rewrite decide_True in H1 by auto. rewrite decide_True in H2 by lia.
  apply M_bind_Ok in H1 as (r1 & p1' & H1 & H1'). apply M_bind_Ok in H2 as (r2 & p2' & H2 & H2'). inv_M.
  resource_step H1 (fd h :: fds, layout h :: maps). resource_step H2 (fd h :: fds, maps).
  rewrite delete_one_here in *. eauto using resources_trans.
Qed.

Lemma opened_addr h : (forall log fd len, ret (os_answer log (XMmap fd len)) <> NULL) ->
  opened h -> 0 <= fd h /\ layout h <> MAP_FAILED /\ layout h <> NULL.
Proof. intros Hmmap (Hf & Hm & log & Hl). split; [exact Hf|]. split; [exact Hm|]. rewrite Hl. apply Hmmap. Qed.

Lemma keeps_init_layout r : keeps_st (S := S) (linbox_shm_init_layout r).
Proof. unfold linbox_shm_init_layout, now_ns. keeps_st_tac. Qed.
Hint Resolve keeps_init_layout : keeps.
Lemma keeps_open_map path fl mode b out : keeps_st (S := S) (linbox_shm_open_map path fl mode b out).
Proof. unfold linbox_shm_open_map. keeps_st_tac. Qed.
Lemma keeps_detach h : keeps_st (S := S) (linbox_shm_detach h).
Proof. unfold linbox_shm_detach. keeps_st_tac. Qed.
Hint Resolve keeps_open_map keeps_detach : keeps.
Lemma keeps_attach path out : keeps_st (S := S) (linbox_shm_attach path out).
Proof. unfold linbox_shm_attach. keeps_st_tac. Qed.

(** [linbox_shm_create] never leaks: whatever the kernel answers, when it fails
    every descriptor it opened is closed and every mapping undone and the
    caller's handle is untouched; when it succeeds exactly the descriptor and
    the mapping it returns stay open, and detaching the handle closes both. *)
Theorem shm_create_no_leak (path : option string) (out out' : option linbox_shm_handle)
    (rc : Z) (p q : proc S) (fds maps : list Z)
    (Hmmap : forall log fd len, ret (os_answer log (XMmap fd len)) <> NULL)
    (Hrun : linbox_shm_create path out p = Ok ((rc, out'), q)) :
  (rc = -1 /\ out' = out /\ resources p q (fds, maps) (fds, maps)) \/
  (rc = 0 /\ exists h, out' = Some h /\
     resources p q (fds, maps) (fd h :: fds, layout h :: maps) /\
     forall h' q', linbox_shm_detach (Some h) q = Ok (h', q') ->
       h' = Some (ShmHandle (-1) 0 NULL) /\ resources p q' (fds, maps) (fds, maps)).
Proof.
  unfold linbox_shm_create in Hrun.
  destruct (open_map_resources _ _ _ _ _ _ _ _ _ fds maps Hrun)
    as [?|(-> & h & -> & (Hfd & Hmf & log & Hl) & Hr)]; [auto|].
  right. split; [reflexivity|]. exists h. split; [reflexivity|]. split; [exact Hr|].
  intros h' q' Hd. apply (detach_resources _ _ _ _ fds maps) in Hd as [-> Hd];
    [eauto using resources_trans|assumption..|rewrite Hl; apply Hmmap].
Qed.

Lemma attach_resources (path : option string) (out out' : option linbox_shm_handle)
    (rc : Z) (p q : proc S) (fds maps : list Z)
    (Hmmap : forall log fd len, ret (os_answer log (XMmap fd len)) <> NULL)
    (Hrun : linbox_shm_attach path out p = Ok ((rc, out'), q)) :
  (rc = -1 /\ resources p q (fds, maps) (fds, maps) /\
     (out' = out \/ (out' = Some (ShmHandle (-1) 0 NULL) /\ p_errno q = EPROTO))) \/
  (rc = 0 /\ exists h l, out' = Some h /\ opened h /\
     resources p q (fds, maps) (fd h :: fds, layout h :: maps) /\
     p_mem q !! layout h = Some l /\ magic (header l) = LINBOX_SHM_MAGIC).
Proof.
  unfold linbox_shm_attach in Hrun. apply M_bind_Ok in Hrun as ([rc1 o1] & p1 & H1 & Hrun).
  destruct (open_map_resources _ _ _ _ _ _ _ _ _ fds maps H1)
    as [(-> & -> & Hr)|(-> & h & -> & (Hfd & Hmf & log & Hl) & Hr)].
  { rewrite decide_True in Hrun by lia. inv_M. auto. }
  rewrite decide_False in Hrun by lia. apply M_bind_Ok in Hrun as (l & p2 & H2 & Hrun).
  pose proof (neutral_load _ _ _ _ H2 (fd h :: fds, layout h :: maps)) as Hr2.
  case_in Hrun.
  - apply M_bind_Ok in Hrun as (o2 & p3 & H3 & Hrun).
    apply (detach_resources _ _ _ _ fds maps) in H3 as [-> H3]; [|assumption..|rewrite Hl; apply Hmmap].
    apply M_bind_Ok in Hrun as (u & p4 & H4 & Hrun). injection H4 as _ <-. inv_M.
    left. split; [reflexivity|]. split; [|right; auto].
    eapply resources_trans; [|eapply resources_trans; [exact Hr2|]]; [exact Hr|].
    destruct H3 as (new & ? & ? & ?). exists new. auto.
  - inv_M. right. split; [reflexivity|]. exists h, l. split; [reflexivity|]. split; [unfold opened; eauto|].
    split; [eauto using resources_trans|]. unfold load in H2.
    destruct (os_interfere _ _ !! layout h) as [l'|] eqn:E; [|discriminate]. injection H2 as <- <-.
    split; [exact E|]. destruct (decide (magic (header l') = LINBOX_SHM_MAGIC)); [assumption|contradiction].
Qed.
(** [linbox_shm_attach] never leaks either, and on success the region holds the
    magic number; a region without it is unmapped, its descriptor closed, the
    handle reset and [errno] set to [EPROTO]. *)
Theorem shm_attach_no_leak (path : option string) (out out' : option linbox_shm_handle)
    (rc : Z) (p q : proc S) (fds maps : list Z)
    (Hmmap : forall log fd len, ret (os_answer log (XMmap fd len)) <> NULL)
    (Hrun : linbox_shm_attach path out p = Ok ((rc, out'), q)) :
  (rc = -1 /\ resources p q (fds, maps) (fds, maps) /\
     (out' = out \/ (out' = Some (ShmHandle (-1) 0 NULL) /\ p_errno q = EPROTO))) \/
  (rc = 0 /\ exists h l, out' = Some h /\
     resources p q (fds, maps) (fd h :: fds, layout h :: maps) /\
     p_mem q !! layout h = Some l /\ magic (header l) = LINBOX_SHM_MAGIC).
Proof.
  destruct (attach_resources path out out' rc p q fds maps Hmmap Hrun) as [?|(? & h & l & ? & _ & ?)]; [auto|].
  right. eauto 6.
Qed.
End ShmFacts.
#[export] Hint Resolve keeps_detach keeps_attach : keeps.
#[export] Hint Resolve neutral_now_ns neutral_init_layout neutral_write_time neutral_read_time : neutral.


(** ** What the operations compute, where no other process interferes *)
Section ShmContents.
Context {S : Type} {os : OS} {Hquiet : QuietMemory}.

(** The value [now_ns] returns, as a function of the log. *)
Definition now_value (log : list event) : Z :=
  let a := os_answer log (XClockGettime CLOCK_MONOTONIC) in
  if decide (ret a <> 0) then 0
  else u64 (u64 (u64 (nth 0 (data a) 0) * 1000000000) + u64 (nth 1 (data a) 0)).

Lemma now_ns_eq (p : proc S) : exists e log,
  now_ns p = Ok (now_value (p_log p), Proc (p_st p) e (p_mem p) log).
Proof.
  unfold now_ns, now_value. rewrite M_bind_eq. unfold callA. cbv zeta.
  destruct (decide (ret _ <> 0)); eexists _, _; reflexivity.
Qed.

(** A freshly initialised region. *)
Definition initial_layout (ns : Z) : linbox_shm_layout :=
  ShmLayout
    (ShmHeader LINBOX_SHM_MAGIC LINBOX_SHM_VERSION 72 0 ns 2160 3184 4208 4096
       (header_reserved (header zero_layout)))
    0 (Timespec 0 0) 0 0 (process_slots zero_layout) (policy_area zero_layout)
    (layout_reserved zero_layout).

Ltac run_now :=
  match goal with
  | |- context [now_ns ?p] =>
      let e := fresh "e" in let lg := fresh "lg" in let Hn := fresh "Hn" in
      destruct (now_ns_eq p) as (e & lg & Hn); rewrite Hn; clear Hn; cbn [p_st p_errno p_mem p_log]
  end.

Lemma init_layout_eq (r : Z) (p : proc S) (old : linbox_shm_layout) :
  r <> NULL -> p_mem p !! r = Some old ->
  exists ns e log, linbox_shm_init_layout r p =
    Ok (tt, Proc (p_st p) e (<[r := initial_layout ns]> (p_mem p)) log).
Proof.
  intros Hr Hmap. unfold linbox_shm_init_layout. rewrite decide_False by assumption. cbv zeta.
  rewrite M_bind_eq, (store_eq r _ p old) by assumption.
  unfold initial_layout. generalize zero_layout. intros l0.
  run_M. run_now. run_M.
  eexists _, _, _. do 3 f_equal.
Qed.

(** Initialising a region gives it the magic number, version and header size, an
    even sequence counter, the zero time, an empty process table, and three
    policy sections that lie inside the policy area one after the other;
    whatever the region held before is gone. *)
Theorem init_layout_contents (r : Z) (p : proc S) (old : linbox_shm_layout)
    (Hr : r <> NULL) (Hmap : p_mem p !! r = Some old) :
  exists ns q, linbox_shm_init_layout r p = Ok (tt, q) /\
  p_st q = p_st p /\ p_mem q = <[r := initial_layout ns]> (p_mem p) /\
  let h := header (initial_layout ns) in
  offsetof_policy_area = network_policy_offset h /\
  network_policy_offset h < filesystem_policy_offset h < dns_policy_offset h /\
  dns_policy_offset h < offsetof_policy_area + policy_area_size h <= sizeof_layout.
Proof.
  destruct (init_layout_eq r p old Hr Hmap) as (ns & e & log & H).
  eexists ns, _. split; [exact H|]. do 2 (split; [reflexivity|]).
  unfold initial_layout. generalize zero_layout. intros l0.
  replace offsetof_policy_area with 2160 by (vm_compute; reflexivity).
  replace sizeof_layout with 7280 by (vm_compute; reflexivity). cbn. lia.
Qed.

(** The region after a write of [ts]. *)
Definition written (ts : timespec) (ns : Z) (l : linbox_shm_layout) : linbox_shm_layout :=
  set_heartbeat_ns ns
    (set_time_seq (u32 (time_seq l + 2)) (set_virtual_time (Timespec (tv_sec ts) (tv_nsec ts)) l)).

Lemma write_time_eq (r : Z) (ts : timespec) (p : proc S) (l : linbox_shm_layout) :
  r <> NULL -> p_mem p !! r = Some l ->
  exists ns e log, linbox_shm_write_time r (Some ts) p =
    Ok (tt, Proc (p_st p) e (<[r := written ts ns l]> (p_mem p)) log).
Proof.
  intros Hr Hmap. unfold linbox_shm_write_time. rewrite decide_False by assumption.
  rewrite M_bind_eq, (load_eq r p l) by assumption. cbv zeta.
  rewrite M_bind_eq, (store_eq r _ _ l) by assumption. run_M. run_now. run_M.
  eexists _, _, _. reflexivity.
Qed.

Lemma write_time_emits (r : Z) (ts : option timespec) :
  emits region_access (linbox_shm_write_time (S := S) r ts).
Proof. unfold linbox_shm_write_time, now_ns. emits_with ltac:(exact I). Qed.

Lemma land_1_even s : Z.land s 1 = s mod 2.
Proof. apply (Z.land_ones s 1). lia. Qed.

Lemma read_time_even (fuel : nat) (r : Z) (p : proc S) (l : linbox_shm_layout) :
  p_mem p !! r = Some l -> time_seq l mod 2 = 0 ->
  exists log, read_time_loop (Datatypes.S fuel) r p =
    Ok (virtual_time l, Proc (p_st p) (p_errno p) (p_mem p) log).
Proof.
  intros Hmap Hev. cbn [read_time_loop]. rewrite M_bind_eq, (load_eq r p l) by assumption.
  cbv zeta. rewrite land_1_even, decide_False by lia.
  do 3 (rewrite M_bind_eq, (load_eq r _ l) by assumption).
  rewrite land_1_even, decide_True by auto. destruct (virtual_time l). eexists. reflexivity.
Qed.

Lemma read_time_odd (fuel : nat) (r : Z) (p : proc S) (l : linbox_shm_layout) :
  p_mem p !! r = Some l -> time_seq l mod 2 = 1 -> read_time_loop fuel r p = OutOfFuel.
Proof.
  intros Hmap Hodd. revert p Hmap. induction fuel as [|fuel IH]; intros p Hmap; [reflexivity|].
  cbn [read_time_loop]. rewrite M_bind_eq, (load_eq r p l) by assumption.
  cbv zeta. rewrite land_1_even, decide_True by lia. rewrite M_bind_eq, call_eq.
  apply IH. exact Hmap.
Qed.

(** What is written is read back: after [linbox_shm_write_time] on a region with
    an even sequence counter, [linbox_shm_read_time] returns on its first
    attempt with exactly the time written, and the counter is even again. *)
Theorem write_then_read (r : Z) (ts t0 : timespec) (p : proc S) (l : linbox_shm_layout)
    (fuel : nat) (Hr : r <> NULL) (Hmap : p_mem p !! r = Some l)
    (Hseq : in_u 32 (time_seq l)) (Hev : time_seq l mod 2 = 0) :
  exists q q', linbox_shm_write_time r (Some ts) p = Ok (tt, q) /\
    linbox_shm_read_time (Datatypes.S fuel) r (Some t0) q = Ok ((0, Some ts), q') /\
    exists l', p_mem q !! r = Some l' /\ time_seq l' mod 2 = 0 /\
      process_slots l' = process_slots l /\ prng_seed l' = prng_seed l.
Proof.
  destruct (write_time_eq r ts p l Hr Hmap) as (ns & e & log & Hw).
  assert (Hev' : u32 (time_seq l + 2) mod 2 = 0).
  { rewrite u32_mod2, <- Zplus_mod_idemp_l, Hev. reflexivity. }
  eexists _. destruct (read_time_even fuel r (Proc (p_st p) e (<[r := written ts ns l]> (p_mem p)) log)
    (written ts ns l)) as (log' & Hrd); [apply lookup_insert_eq|exact Hev'|].
  eexists _. split; [exact Hw|]. split.
  - unfold linbox_shm_read_time. rewrite decide_False by assumption. rewrite M_bind_eq, Hrd.
    cbn. destruct ts. reflexivity.
  - eexists. split; [apply lookup_insert_eq|]. auto.
Qed.

(** What a process that runs while nobody writes makes of a region with the
    contents [l], wherever it is mapped: a reader never returns, however long it
    tries; or it returns [ts] at its first attempt. *)
Definition never_readable (l : linbox_shm_layout) : Prop :=
  forall (reader : proc S) (r : Z) (t0 : timespec) (fuel : nat), r <> NULL ->
    p_mem reader !! r = Some l -> linbox_shm_read_time fuel r (Some t0) reader = OutOfFuel.

Definition reads_at_once (l : linbox_shm_layout) (ts : timespec) : Prop :=
  forall (reader : proc S) (r : Z) (t0 : timespec) (fuel : nat), r <> NULL ->
    p_mem reader !! r = Some l ->
    exists q, linbox_shm_read_time (Datatypes.S fuel) r (Some t0) reader = Ok ((0, Some ts), q).

Lemma odd_never_readable (l : linbox_shm_layout) : time_seq l mod 2 = 1 -> never_readable l.
Proof.
  intros Hodd p r t0 fuel Hr Hl. unfold linbox_shm_read_time. rewrite decide_False by assumption.
  rewrite M_bind_eq, (read_time_odd fuel r p l Hl Hodd). reflexivity.
Qed.

Lemma even_reads_at_once (l : linbox_shm_layout) : time_seq l mod 2 = 0 -> reads_at_once l (virtual_time l).
Proof.
  intros Hev p r t0 fuel Hr Hl. unfold linbox_shm_read_time. rewrite decide_False by assumption.
  rewrite M_bind_eq. destruct (read_time_even fuel r p l Hl Hev) as (log & ->). eexists. reflexivity.
Qed.

Lemma u32_flip_odd s : s mod 2 = 1 -> u32 (s + 1) mod 2 = 0.
Proof. intros H. rewrite u32_mod2, <- Zplus_mod_idemp_l, H. reflexivity. Qed.

(** [linbox_shm_write_time] stopped between the store of the seconds and that of
    the nanoseconds. *)
Definition between_words (ts : timespec) (l : linbox_shm_layout) : linbox_shm_layout :=
  set_virtual_sec (tv_sec ts) (set_time_seq (u32 (time_seq l + 1)) l).

Lemma write_time_between (r : Z) (ts : timespec) (p : proc S) (l : linbox_shm_layout) :
  r <> NULL -> p_mem p !! r = Some l ->
  exists q, p_mem q !! r = Some (between_words ts l) /\
    linbox_shm_write_time r (Some ts) p =
    (store r (set_virtual_nsec (tv_nsec ts)) ;; store r (set_time_seq (u32 (time_seq l + 2))) ;;
     ns ← now_ns ; store r (set_heartbeat_ns ns)) q.
Proof.
  intros Hr Hl. unfold linbox_shm_write_time. rewrite decide_False by assumption.
  rewrite M_bind_eq, (load_eq r p l Hl). cbv zeta. rewrite M_bind_eq, (store_eq r _ _ l) by exact Hl.
  rewrite M_bind_eq, store_again. eexists. split; [|reflexivity]. apply lookup_insert_eq.
Qed.

(** A region whose sequence counter is odd stays broken. A controller that
    attaches to a region left odd by a crash and writes through it leaves the
    counter odd: until the next write no reader returns, however long it tries.
    And the write turns the protection round: it makes the counter even exactly
    while it stores the time, so that a reader which runs between the two stores
    returns at its first attempt, with the new seconds and the old nanoseconds. *)
Theorem odd_region_unprotected (r : Z) (ts : timespec) (p : proc S) (l : linbox_shm_layout)
    (Hr : r <> NULL) (Hmap : p_mem p !! r = Some l) (Hodd : time_seq l mod 2 = 1) :
  (exists q, p_mem q !! r = Some (between_words ts l) /\
    linbox_shm_write_time r (Some ts) p =
      (store r (set_virtual_nsec (tv_nsec ts)) ;; store r (set_time_seq (u32 (time_seq l + 2))) ;;
       ns ← now_ns ; store r (set_heartbeat_ns ns)) q) /\
  reads_at_once (between_words ts l) (Timespec (tv_sec ts) (tv_nsec (virtual_time l))) /\
  exists q l', linbox_shm_write_time r (Some ts) p = Ok (tt, q) /\
    p_mem q !! r = Some l' /\ time_seq l' mod 2 = 1 /\ never_readable l'.
Proof.
  split; [exact (write_time_between r ts p l Hr Hmap)|].
  split; [exact (even_reads_at_once (between_words ts l) (u32_flip_odd _ Hodd))|].
  destruct (write_time_eq r ts p l Hr Hmap) as (ns & e & log & Hw).
  assert (Hodd' : time_seq (written ts ns l) mod 2 = 1).
  { change (u32 (time_seq l + 2) mod 2 = 1). rewrite u32_mod2, <- Zplus_mod_idemp_l, Hodd. reflexivity. }
  eexists _, (written ts ns l). split; [exact Hw|]. split; [apply lookup_insert_eq|].
  split; [exact Hodd'|exact (odd_never_readable _ Hodd')].
Qed.
End ShmContents.
