(* ===== verification/Mapping.v ===== *)
(** * Mapped regions

    Total correctness of the operations on the shared region: where every region
    the kernel has mapped stays mapped, with a full process table, they return. *)
From S2P Require Import Prelude ShmLayout Os Total Shm.

(** Whatever address [mmap] returns has a region behind it. *)
Definition full_table (l : linbox_shm_layout) : Prop :=
  length (process_slots l) = Z.to_nat LINBOX_PROCESS_SLOT_COUNT.
Definition mapped {os : OS} (m : memory) : Prop :=
  forall log fd len, let r := ret (os_answer log (XMmap fd len)) in r <> MAP_FAILED ->
    exists l, m !! r = Some l /\ full_table l.

(** An address [mmap] has returned. *)
Definition in_mapping {os : OS} (r : Z) : Prop :=
  r <> MAP_FAILED /\ exists log fd len, r = ret (os_answer log (XMmap fd len)).

Lemma mapping_region {os : OS} r (m : memory) : in_mapping r -> mapped m ->
  exists l, m !! r = Some l /\ full_table l.
Proof. intros [Hf (log & fd & len & ->)] Hm. exact (Hm log fd len Hf). Qed.

Lemma mapped_insert {os : OS} r l (m : memory) : mapped m -> full_table l -> mapped (<[r := l]> m).
Proof.
  intros Hm Hl log fd len x Hx. destruct (decide (x = r)) as [->|Hne].
  - exists l. split; [apply lookup_insert_eq|exact Hl].
  - destruct (Hm log fd len Hx) as (l' & Hl' & Hf). exists l'. split; [|exact Hf].
    rewrite lookup_insert_ne by (intros E; apply Hne; symmetry; exact E). exact Hl'.
Qed.

(** An assertion that implies that regions are mapped and says nothing else about
    the memory. *)
Class Holding {S} {os : OS} (I : proc S -> Prop) : Prop := {
  holding_stable :: Stable I;
  holding_undisturbed :: Undisturbed I;
  holding_mapped : forall p, I p -> mapped (p_mem p);
  holding_memory : forall p m, I p -> mapped m -> I (Proc (p_st p) (p_errno p) m (p_log p)) }.

(** A store that keeps the table full. *)
Definition sized (f : linbox_shm_layout -> linbox_shm_layout) : Prop := forall l, full_table l -> full_table (f l).

Section Regions.
Context {S : Type} {os : OS} (I : proc S -> Prop) {HI : Holding I}.

Lemma region_load r : in_mapping r -> total I (load r) (fun l q => full_table l /\ I q).
Proof. intros Hr. apply total_load; [exact _..|]. intros p Hp. apply mapping_region; [exact Hr|apply holding_mapped, Hp]. Qed.

Lemma region_store r f : in_mapping r -> sized f -> ends I (store r f).
Proof.
  intros Hr Hf. apply total_store; [exact _..|]. intros p Hp. pose proof (holding_mapped p Hp) as Hm.
  destruct (mapping_region r _ Hr Hm) as (l & Hl & Hs). exists l. split; [exact Hl|].
  apply holding_memory; [exact Hp|]. apply mapped_insert; [exact Hm|apply Hf, Hs].
Qed.

Lemma ends_now_ns : ends I now_ns.
Proof. unfold now_ns. ends_tac. Qed.

Lemma region_write_time r ts : r = NULL \/ in_mapping r -> ends I (linbox_shm_write_time r ts).
Proof.
  intros Hr. unfold linbox_shm_write_time. destruct ts as [ts|]; [|apply ends_ret].
  destruct (decide (r = NULL)); [apply ends_ret|]. destruct Hr as [|Hr]; [contradiction|].
  eapply total_bind; [apply region_load, Hr|]. intros l. apply total_pure. intros Hl. cbv zeta.
  do 4 (apply ends_bind; [apply region_store; [exact Hr|intros l' H; exact H]|]; intros _).
  apply ends_bind; [apply ends_now_ns|]. intros ns. apply region_store; [exact Hr|intros l' H; exact H].
Qed.

Lemma region_init_layout r : in_mapping r -> ends I (linbox_shm_init_layout r).
Proof.
  intros Hr. unfold linbox_shm_init_layout. destruct (decide _); [apply ends_ret|]. cbv zeta.
  apply ends_bind; [apply region_store; [exact Hr|intros l H; reflexivity]|]. intros _.
  repeat first [ apply ends_bind; [apply ends_now_ns|]; intros ?
    | apply ends_bind; [apply region_store; [exact Hr|intros ? H; exact H]|]; intros ? ].
  apply region_store; [exact Hr|intros ? H; exact H].
Qed.

(** Detaching gives a handle back if it was given one. *)
Lemma region_detach o : total I (linbox_shm_detach o) (fun o' q => (is_Some o -> is_Some o') /\ I q).
Proof.
  unfold linbox_shm_detach. destruct o; [|apply total_ret; auto].
  do 2 (apply total_bind_ends; [ends_tac|]; intros _). apply total_ret. intros p Hp. split; [eauto|exact Hp].
Qed.
Lemma ends_detach o : ends I (linbox_shm_detach o).
Proof. apply (total_post _ _ _ _ (region_detach o)). tauto. Qed.

(** Opening: the caller gets its handle back, and on success it names a mapped
    region. *)
Definition opened (h : option linbox_shm_handle) (r : Z * option linbox_shm_handle) : Prop :=
  (is_Some h -> is_Some r.2) /\ (r.1 = 0 -> exists h', r.2 = Some h' /\ in_mapping (layout h')).

Lemma opened_fails h o : (is_Some h -> is_Some o) ->
  total I (mret (M := M S) (-1, o)) (fun r q => opened h r /\ I q).
Proof. intros Ho. apply total_ret. intros p Hp. split; [split; [exact Ho|discriminate]|exact Hp]. Qed.

Lemma region_open_map path oflags mode init h :
  total I (linbox_shm_open_map path oflags mode init h) (fun r q => opened h r /\ I q).
Proof.
  unfold linbox_shm_open_map. destruct path as [path|]; [|apply opened_fails; auto].
  destruct h as [h|]; [|apply opened_fails; auto].
  apply total_bind_ends; [ends_tac|]. intros fdn. destruct (decide _); [apply opened_fails; auto|]. cbv zeta.
  apply total_bind_ends; [ends_tac|]. intros trunc.
  destruct (decide _); [apply total_bind_ends; [ends_tac|]; intros; apply opened_fails; auto|].
  eapply total_bind; [apply total_call; exact _|]. intros r. cbv beta. apply total_pure. intros (a & [log ->] & ->).
  destruct (decide _) as [|Hmf]; [apply total_bind_ends; [ends_tac|]; intros; apply opened_fails; auto|].
  assert (Hr : in_mapping (ret (os_answer log (XMmap fdn sizeof_layout)))) by (split; [exact Hmf|eauto]).
  apply total_bind_ends; [destruct init; [apply region_init_layout, Hr|apply ends_ret]|]. intros _.
  apply total_ret. intros p Hp. split; [|exact Hp]. split; [eauto|]. intros _. eexists. split; [reflexivity|exact Hr].
Qed.

Lemma region_create path h : total I (linbox_shm_create path h) (fun r q => opened h r /\ I q).
Proof. apply region_open_map. Qed.

Lemma region_attach path h : total I (linbox_shm_attach path h) (fun r q => opened h r /\ I q).
Proof.
  unfold linbox_shm_attach. eapply total_bind; [apply region_open_map|]. intros [rc o]. cbv beta.
  apply total_pure. intros [Hs Ho]. cbn [fst snd] in Hs, Ho.
  destruct (decide (rc <> 0)) as [Hrc|Hrc]; [apply opened_fails, Hs|].
  destruct (Ho ltac:(lia)) as (h' & -> & Hmap).
  eapply total_bind; [apply region_load, Hmap|]. intros l. cbv beta. apply total_pure. intros _. destruct (decide _).
  - eapply total_bind; [apply region_detach|]. intros o. apply total_pure. intros Hd.
    apply total_bind_ends; [ends_tac|]. intros _. apply opened_fails. eauto.
  - apply total_ret. intros p Hp. split; [|exact Hp]. split; [eauto|]. intros _. exists h'. auto.
Qed.

Lemma region_destroy path h : ends I (linbox_shm_destroy path h).
Proof.
  unfold linbox_shm_destroy. apply ends_bind; [destruct h; [apply ends_detach|apply ends_ret]|]. intros h'. ends_tac.
Qed.
End Regions.
#[export] Hint Resolve ends_now_ns ends_detach : ends.
