(* ===== verification/Seqlock.v ===== *)
(** * The sequence lock under concurrency

    Models the interleaving of [linbox_shm_write_time] and
    [linbox_shm_read_time] of src/common/shm.c over the time cell of the shared
    region: the 32-bit sequence counter and the two words of the time.  The one
    writer, the controller, is a step relation with one step per access to the
    cell; a reader is the code of Shm.v itself, running in an operating system
    whose memory follows a run of the writer, at any speed.

    The interleaving is sequentially consistent; MemoryModel.v shows that a store
    buffer changes nothing. *)
From S2P Require Import Prelude ShmLayout Os Shm.

(** ** The writer *)

(** Where the writer is inside [linbox_shm_write_time]. *)
Inductive wpc :=
  | WIdle
  | WLoaded (seq : Z) (ts : timespec)
  | WOdd (seq : Z) (ts : timespec)
  | WSec (seq : Z) (ts : timespec)
  | WNsec (seq : Z) (ts : timespec).

(** The cell, the program counter, and two ghosts: the number of completed
    writes and the last time completely written. *)
Record wstate := WState {
  w_seq : Z; w_sec : Z; w_nsec : Z; w_pc : wpc; w_n : Z; w_cur : timespec }.

Inductive wstep : wstate -> wstate -> Prop :=
  | w_load s sec nsec n cur ts :
      wstep (WState s sec nsec WIdle n cur) (WState s sec nsec (WLoaded s ts) n cur)
  | w_odd s sec nsec n cur s0 ts :
      wstep (WState s sec nsec (WLoaded s0 ts) n cur)
            (WState (u32 (s0 + 1)) sec nsec (WOdd s0 ts) n cur)
  | w_write_sec s sec nsec n cur s0 ts :
      wstep (WState s sec nsec (WOdd s0 ts) n cur)
            (WState s (tv_sec ts) nsec (WSec s0 ts) n cur)
  | w_write_nsec s sec nsec n cur s0 ts :
      wstep (WState s sec nsec (WSec s0 ts) n cur)
            (WState s sec (tv_nsec ts) (WNsec s0 ts) n cur)
  | w_even s sec nsec n cur s0 ts :
      wstep (WState s sec nsec (WNsec s0 ts) n cur)
            (WState (u32 (s0 + 2)) sec nsec WIdle (n + 1) ts).

Abbreviation wsteps := (rtc wstep).

Definition w_init (s0 : Z) (ts : timespec) : wstate :=
  WState s0 (tv_sec ts) (tv_nsec ts) WIdle 0 ts.

(** Twice the number of completed writes, one more while the counter is odd. *)
Definition phase (w : wstate) : Z :=
  match w_pc w with WIdle | WLoaded _ _ => 2 * w_n w | _ => 2 * w_n w + 1 end.

(** The invariant, by rule induction: the counter shows the phase, wrapped to 32
    bits, and outside a write the cell holds the last completed time. *)
Definition winv (s0 : Z) (w : wstate) : Prop :=
  0 <= w_n w /\ w_seq w = u32 (s0 + phase w) /\
  (phase w = 2 * w_n w -> Timespec (w_sec w) (w_nsec w) = w_cur w) /\
  match w_pc w with
  | WIdle => True
  | WLoaded s _ | WOdd s _ => s = u32 (s0 + 2 * w_n w)
  | WSec s ts => s = u32 (s0 + 2 * w_n w) /\ w_sec w = tv_sec ts
  | WNsec s ts => s = u32 (s0 + 2 * w_n w) /\ w_sec w = tv_sec ts /\ w_nsec w = tv_nsec ts
  end.

Lemma u32_add_idemp a b : u32 (u32 a + b) = u32 (a + b).
Proof. unfold wrap. apply Zplus_mod_idemp_l. Qed.

Lemma winv_init s0 ts : in_u 32 s0 -> winv s0 (w_init s0 ts).
Proof.
  intros H. unfold winv, w_init, phase. cbn. rewrite Z.add_0_r, wrap_small by assumption.
  destruct ts. auto with lia.
Qed.

Lemma winv_step s0 w w' : winv s0 w -> wstep w w' -> winv s0 w'.
Proof.
  intros (Hn & Hs & Hc & Hp) Hst. unfold winv, phase in *.
  destruct Hst as [? ? ? ? ? ts|? ? ? ? ? ? ts|? ? ? ? ? ? ts|? ? ? ? ? ? ts|? ? ? ? ? ? ts]; cbn in *.
  - auto.
  - subst. rewrite u32_add_idemp. repeat split; [assumption|f_equal; lia|lia].
  - repeat split; [assumption|assumption|lia|assumption].
  - destruct Hp. repeat split; [assumption|assumption|lia|assumption|assumption].
  - destruct Hp as (-> & -> & ->). rewrite u32_add_idemp. destruct ts.
    repeat split; [lia|f_equal; lia].
Qed.

Lemma winv_steps s0 w w' : winv s0 w -> wsteps w w' -> winv s0 w'.
Proof. intros H Hs. induction Hs; eauto using winv_step. Qed.

Lemma phase_step w w' : wstep w w' -> phase w <= phase w'.
Proof. intros []; unfold phase; cbn; lia. Qed.

Lemma phase_steps w w' : wsteps w w' -> phase w <= phase w'.
Proof. intros H. induction H as [|w1 w2 w3 H1 _ IH]; [lia|]. apply phase_step in H1. lia. Qed.

(** While the phase stands still at an even value, so does the time. *)
Lemma cur_steps w w' : wsteps w w' -> phase w = phase w' -> w_cur w = w_cur w' /\ w_n w = w_n w'.
Proof.
  intros H. induction H as [|w1 w2 w3 H1 H2 IH]; intros He; [auto|].
  pose proof (phase_step _ _ H1). pose proof (phase_steps _ _ H2).
  destruct IH as [IH1 IH2]; [lia|]. rewrite <- IH1, <- IH2.
  destruct H1; cbn; unfold phase in *; cbn in *; split; try reflexivity; lia.
Qed.


(** ** The writer's code takes these steps *)
Definition cell_is (l : linbox_shm_layout) (w : wstate) : Prop :=
  time_seq l = w_seq w /\ virtual_time l = Timespec (w_sec w) (w_nsec w).

Section WriterCode.
Context {S : Type} {os : OS} {Hquiet : QuietMemory}.

Lemma store_inv r f (p : proc S) l : p_mem p !! r = Some l ->
  exists p', store r f p = Ok (tt, p') /\ p_mem p' !! r = Some (f l).
Proof.
  intros H. rewrite (store_eq r f p l H). eexists. split; [reflexivity|]. apply lookup_insert_eq.
Qed.

(** C29: the code of [linbox_shm_write_time], alone on the memory, is a run of
    the writer: its accesses to the time cell, in program order, are the five
    steps of one write of [ts], each step changing the cell as the step relation
    says; all it does afterwards is to stamp the heartbeat. *)
Theorem write_time_refines_writer (r : Z) (ts cur : timespec) (n : Z) (p : proc S)
    (l : linbox_shm_layout) (Hr : r <> NULL) (Hl : p_mem p !! r = Some l) :
  let w0 := WState (time_seq l) (tv_sec (virtual_time l)) (tv_nsec (virtual_time l)) WIdle n cur in
  exists w1 w2 w3 w4 w5 l2 l3 l4 l5 p1 p2 p3 p4 p5,
    wstep w0 w1 /\ wstep w1 w2 /\ wstep w2 w3 /\ wstep w3 w4 /\ wstep w4 w5 /\
    w_pc w5 = WIdle /\ w_cur w5 = ts /\ w_n w5 = n + 1 /\
    cell_is l w0 /\ cell_is l w1 /\ cell_is l2 w2 /\ cell_is l3 w3 /\ cell_is l4 w4 /\ cell_is l5 w5 /\
    load r p = Ok (l, p1) /\
    store r (set_time_seq (w_seq w2)) p1 = Ok (tt, p2) /\ p_mem p2 !! r = Some l2 /\
    store r (set_virtual_sec (w_sec w3)) p2 = Ok (tt, p3) /\ p_mem p3 !! r = Some l3 /\
    store r (set_virtual_nsec (w_nsec w4)) p3 = Ok (tt, p4) /\ p_mem p4 !! r = Some l4 /\
    store r (set_time_seq (w_seq w5)) p4 = Ok (tt, p5) /\ p_mem p5 !! r = Some l5 /\
    linbox_shm_write_time r (Some ts) p = (ns ← now_ns; store r (set_heartbeat_ns ns)) p5.
Proof.
  cbv zeta. set (s := time_seq l).
  pose proof (load_eq r p l Hl) as H1. set (p1 := Proc _ _ _ _) in H1.
  assert (Hl1 : p_mem p1 !! r = Some l) by exact Hl.
  destruct (store_inv r (set_time_seq (u32 (s + 1))) p1 l Hl1) as (p2 & H2 & Hl2).
  destruct (store_inv r (set_virtual_sec (tv_sec ts)) p2 _ Hl2) as (p3 & H3 & Hl3).
  destruct (store_inv r (set_virtual_nsec (tv_nsec ts)) p3 _ Hl3) as (p4 & H4 & Hl4).
  destruct (store_inv r (set_time_seq (u32 (s + 2))) p4 _ Hl4) as (p5 & H5 & Hl5).
  eexists _, _, _, _, _.
  exists (set_time_seq (u32 (s + 1)) l).
  exists (set_virtual_sec (tv_sec ts) (set_time_seq (u32 (s + 1)) l)).
  exists (set_virtual_nsec (tv_nsec ts) (set_virtual_sec (tv_sec ts) (set_time_seq (u32 (s + 1)) l))).
  exists (set_time_seq (u32 (s + 2)) (set_virtual_nsec (tv_nsec ts)
            (set_virtual_sec (tv_sec ts) (set_time_seq (u32 (s + 1)) l)))).
  exists p1, p2, p3, p4, p5.
  split; [apply (w_load _ _ _ _ _ ts)|]. split; [apply w_odd|]. split; [apply w_write_sec|].
  split; [apply w_write_nsec|]. split; [apply w_even|].
  cbn [w_pc w_cur w_n w_seq w_sec w_nsec].
  repeat (split; [reflexivity|]).
  split; [split; [reflexivity|destruct (virtual_time l); reflexivity]|].
  split; [split; [reflexivity|destruct (virtual_time l); reflexivity]|].
  split; [split; [reflexivity|cbn; destruct (virtual_time l); reflexivity]|].
  split; [split; [|cbn]; reflexivity|]. split; [split; [|cbn]; reflexivity|].
  split; [split; [|cbn]; reflexivity|].
  split; [exact H1|]. split; [exact H2|]. split; [exact Hl2|]. split; [exact H3|]. split; [exact Hl3|].
  split; [exact H4|]. split; [exact Hl4|]. split; [exact H5|]. split; [exact Hl5|].
  unfold linbox_shm_write_time. rewrite decide_False by assumption.
  rewrite M_bind_eq, H1, M_bind_eq. cbv zeta. fold s. rewrite H2, M_bind_eq, H3, M_bind_eq, H4, M_bind_eq, H5.
  reflexivity.
Qed.
End WriterCode.

(** ** Readers *)

(** The memory of the reader's system follows the run [W] of the writer: before
    each access of the reader the writer is somewhere along its run, and it
    never goes back. *)
Record follows (os : OS) (r s0 : Z) (W : nat -> wstate) (clock : list event -> nat) : Prop := {
  follows_seq : in_u 32 s0 /\ s0 mod 2 = 0;
  follows_init : exists ts, W 0%nat = w_init s0 ts;
  follows_run : forall k, wsteps (W k) (W (Datatypes.S k));
  follows_mono : forall log e, (clock log <= clock (log ++ [e]))%nat;
  follows_mem : forall log m, exists l,
    os_interfere log m !! r = Some l /\ cell_is l (W (clock log))
}.

Section Reader.
Context {S : Type} {os : OS} {r s0 : Z} {W : nat -> wstate} {clock : list event -> nat}.
Hypothesis HW : follows os r s0 W clock.

Lemma W_inv k : winv s0 (W k).
Proof.
  induction k as [|k IH].
  - destruct (follows_init _ _ _ _ _ HW) as [ts ->]. apply winv_init, (follows_seq _ _ _ _ _ HW).
  - exact (winv_steps _ _ _ IH (follows_run _ _ _ _ _ HW k)).
Qed.

Lemma W_steps i j : (i <= j)%nat -> wsteps (W i) (W j).
Proof.
  induction 1 as [|j _ IH]; [reflexivity|]. transitivity (W j); [exact IH|].
  apply (follows_run _ _ _ _ _ HW).
Qed.

Lemma W_n_mono i j : (i <= j)%nat -> w_n (W i) <= w_n (W j).
Proof.
  intros H. pose proof (W_steps i j H) as Hs. induction Hs as [|w1 w2 w3 H1 _ IH]; [lia|].
  destruct H1; cbn in *; lia.
Qed.

Lemma load_follows (p p' : proc S) l : load r p = Ok (l, p') ->
  cell_is l (W (clock (p_log p))) /\ (clock (p_log p) <= clock (p_log p'))%nat.
Proof.
  unfold load. destruct (follows_mem _ _ _ _ _ HW (p_log p) (p_mem p)) as (l' & -> & Hc).
  intros [= <- <-]. split; [exact Hc|]. apply (follows_mono _ _ _ _ _ HW).
Qed.

Lemma call_follows x (p p' : proc S) a : call x p = Ok (a, p') ->
  (clock (p_log p) <= clock (p_log p'))%nat.
Proof. intros [= _ <-]. apply (follows_mono _ _ _ _ _ HW). Qed.

(** An even counter is seen between writes. *)
Lemma even_phase k : w_seq (W k) mod 2 = 0 -> phase (W k) = 2 * w_n (W k).
Proof.
  destruct (W_inv k) as (_ & -> & _). destruct (follows_seq _ _ _ _ _ HW) as [_ He].
  rewrite u32_mod2, <- Zplus_mod_idemp_l, He, Z.add_0_l.
  unfold phase. destruct (w_pc (W k)); try reflexivity; intros H; exfalso; revert H;
    rewrite Z.add_comm, Z.mul_comm, Z.mod_add by lia; discriminate.
Qed.

(** Equal even counters with fewer than [2^31] writes in between: no write. *)
Lemma same_counter i j : (i <= j)%nat ->
  w_seq (W i) = w_seq (W j) -> w_seq (W i) mod 2 = 0 ->
  w_n (W j) - w_n (W i) < 2 ^ 31 -> phase (W i) = phase (W j).
Proof.
  intros Hij Hs He Hn. pose proof (even_phase i He) as Hi. rewrite Hs in He.
  pose proof (even_phase j He) as Hj. pose proof (phase_steps _ _ (W_steps i j Hij)) as Hle.
  destruct (W_inv i) as (_ & Hsi & _). destruct (W_inv j) as (_ & Hsj & _).
  rewrite Hsi, Hsj, Hi, Hj in Hs. unfold wrap in Hs.
  assert (Hd : (2 * w_n (W j) - 2 * w_n (W i)) mod 2 ^ 32 = 0).
  { replace (2 * w_n (W j) - 2 * w_n (W i)) with ((s0 + 2 * w_n (W j)) - (s0 + 2 * w_n (W i))) by lia.
    rewrite Zminus_mod, Hs, Z.sub_diag. reflexivity. }
  rewrite Z.mod_small in Hd by lia. lia.
Qed.

Lemma stable_cell i k : (i <= k)%nat -> phase (W i) = phase (W k) -> phase (W i) = 2 * w_n (W i) ->
  Timespec (w_sec (W k)) (w_nsec (W k)) = w_cur (W i).
Proof.
  intros Hik Hp He. destruct (cur_steps _ _ (W_steps i k Hik) Hp) as [Hc Hn].
  destruct (W_inv k) as (_ & _ & Hcell & _). rewrite Hc. apply Hcell. lia.
Qed.

Lemma read_loop_linearizable fuel (p q : proc S) ts :
  read_time_loop fuel r p = Ok (ts, q) ->
  exists i j, (clock (p_log p) <= i <= j)%nat /\ (j <= clock (p_log q))%nat /\
    (w_n (W j) - w_n (W i) < 2 ^ 31 -> ts = w_cur (W i)).
Proof.
  revert p. induction fuel as [|fuel IH]; intros p H; [discriminate|]. cbn [read_time_loop] in H.
  apply M_bind_Ok in H as (l1 & p1 & H1 & H). apply load_follows in H1 as [[Hs1 _] Hm1]. cbv zeta in H.
  rewrite land_1_even in H. destruct (decide (time_seq l1 mod 2 <> 0)) as [|Hev].
  { apply M_bind_Ok in H as (u & p2 & H2 & H). apply call_follows in H2.
    destruct (IH _ H) as (i & j & Hi & Hj & Hv). exists i, j. split; [lia|]. auto. }
  apply M_bind_Ok in H as (ls & p2 & H2 & H). apply load_follows in H2 as [[_ Hs2] Hm2].
  apply M_bind_Ok in H as (ln & p3 & H3 & H). apply load_follows in H3 as [[_ Hs3] Hm3].
  apply M_bind_Ok in H as (l2 & p4 & H4 & H). apply load_follows in H4 as [[Hs4 _] Hm4].
  destruct (decide (time_seq l1 = time_seq l2 /\ _)) as [[Heq _]|].
  - inv_M. exists (clock (p_log p)), (clock (p_log p3)). split; [lia|]. split; [lia|]. intros Hn.
    rewrite Hs1, Hs4 in Heq. rewrite Hs1 in Hev.
    assert (He : w_seq (W (clock (p_log p))) mod 2 = 0) by lia.
    assert (Hph := same_counter (clock (p_log p)) (clock (p_log p3)) ltac:(lia) Heq He Hn).
    pose proof (even_phase _ He) as Hp0.
    pose proof (phase_steps _ _ (W_steps (clock (p_log p)) (clock (p_log p1)) ltac:(lia))).
    pose proof (phase_steps _ _ (W_steps (clock (p_log p1)) (clock (p_log p2)) ltac:(lia))).
    pose proof (phase_steps _ _ (W_steps (clock (p_log p2)) (clock (p_log p3)) ltac:(lia))).
    pose proof (stable_cell (clock (p_log p)) (clock (p_log p1)) ltac:(lia) ltac:(lia) Hp0) as Hc1.
    pose proof (stable_cell (clock (p_log p)) (clock (p_log p2)) ltac:(lia) ltac:(lia) Hp0) as Hc2.
    rewrite Hs2, Hs3. cbn [tv_sec tv_nsec]. rewrite <- Hc1 in *. injection Hc2 as _ ->. reflexivity.
  - destruct (IH _ H) as (i & j & Hi & Hj & Hv). exists i, j. split; [lia|]. auto.
Qed.
End Reader.


(** C1: no torn reads: however the controller's writes interleave with a read, a
    read that returns reports success and a time that was the complete current
    time at some moment between its call and its return, provided fewer than
    [2^31] writes complete during the read. *)
Theorem read_time_no_torn_value {S : Type} (os : OS) (r s0 : Z) (W : nat -> wstate)
    (clock : list event -> nat) (fuel : nat) (p q : proc S) (t0 : timespec) (rc : Z)
    (out : option timespec)
    (HW : follows os r s0 W clock) (Hr : r <> NULL)
    (Hfew : w_n (W (clock (p_log q))) - w_n (W (clock (p_log p))) < 2 ^ 31)
    (Hret : linbox_shm_read_time fuel r (Some t0) p = Ok ((rc, out), q)) :
  rc = 0 /\ exists k, (clock (p_log p) <= k <= clock (p_log q))%nat /\ out = Some (w_cur (W k)).
Proof.
  unfold linbox_shm_read_time in Hret. rewrite decide_False in Hret by assumption.
  apply M_bind_Ok in Hret as (ts & p1 & H1 & Hret). inv_M. split; [reflexivity|].
  destruct (read_loop_linearizable HW _ _ _ _ H1) as (i & j & Hi & Hj & Hv).
  exists i. split; [lia|]. f_equal. apply Hv.
  pose proof (W_n_mono HW (clock (p_log p)) i ltac:(lia)).
  pose proof (W_n_mono HW j (clock (p_log q)) ltac:(lia)). lia.
Qed.

(** Readers make progress: a read that starts while the writer is between
    writes, and during which the writer does not move, returns at its first
    attempt. *)
Theorem read_time_progress {S : Type} (os : OS) (r s0 : Z) (W : nat -> wstate)
    (clock : list event -> nat) (fuel : nat) (p : proc S) (t0 : timespec) (w : wstate)
    (HW : follows os r s0 W clock) (Hr : r <> NULL)
    (Hstill : forall k, (clock (p_log p) <= k)%nat -> W k = w) (Hidle : w_pc w = WIdle) :
  exists q, linbox_shm_read_time (Datatypes.S fuel) r (Some t0) p = Ok ((0, Some (w_cur w)), q).
Proof.
  assert (Hload : forall p' : proc S, (clock (p_log p) <= clock (p_log p'))%nat ->
    exists l p'', load r p' = Ok (l, p'') /\ cell_is l w /\ (clock (p_log p) <= clock (p_log p''))%nat).
  { intros p' Hle. unfold load. destruct (follows_mem _ _ _ _ _ HW (p_log p') (p_mem p')) as (l & -> & Hc).
    rewrite (Hstill _ Hle) in Hc. eexists _, _. split; [reflexivity|]. split; [exact Hc|].
    cbn. pose proof (follows_mono _ _ _ _ _ HW (p_log p') (mem_event r)). lia. }
  pose proof (W_inv HW (clock (p_log p))) as Hinv. rewrite (Hstill _ (le_n _)) in Hinv.
  destruct Hinv as (_ & Hs & Hcell & _). unfold phase in Hs, Hcell. rewrite Hidle in Hs, Hcell.
  specialize (Hcell eq_refl).
  assert (Hev : w_seq w mod 2 = 0).
  { rewrite Hs, u32_mod2, Z.mul_comm, Z.mod_add by lia. apply (follows_seq _ _ _ _ _ HW). }
  destruct (Hload p (le_n _)) as (l1 & p1 & E1 & [C1 _] & M1).
  destruct (Hload p1 M1) as (l2 & p2 & E2 & [_ C2] & M2).
  destruct (Hload p2 M2) as (l3 & p3 & E3 & [_ C3] & M3).
  destruct (Hload p3 M3) as (l4 & p4 & E4 & [C4 _] & M4).
  exists p4. unfold linbox_shm_read_time. rewrite decide_False by assumption. rewrite M_bind_eq.
  cbn [read_time_loop]. rewrite M_bind_eq, E1. cbv zeta. rewrite land_1_even, C1, decide_False by lia.
  rewrite M_bind_eq, E2, M_bind_eq, E3, M_bind_eq, E4, land_1_even, C4, decide_True by auto.
  cbn. rewrite C2, C3. cbn. rewrite Hcell. reflexivity.
Qed.

(** ** The bound is tight *)

(** The run of a controller that writes [(k, k)] as its [k]-th time. *)
Definition diagonal_run (k : nat) : wstate :=
  let z := Z.of_nat k in WState (u32 (2 * z)) z z WIdle z (Timespec z z).

(** The reader is suspended between its loads of the two words, for as long as
    [2^31] writes take. *)
Definition suspended_clock (log : list event) : nat :=
  if decide (length log < 2)%nat then 0%nat else Z.to_nat (2 ^ 31).

Definition cell_of (w : wstate) : linbox_shm_layout :=
  set_time_seq (w_seq w) (set_virtual_time (Timespec (w_sec w) (w_nsec w)) zero_layout).

(** An operating system that shows the time cell of a writer's run. *)
Definition following_os (r : Z) (W : nat -> wstate) (clock : list event -> nat) : OS := {|
  os_answer := fun _ _ => Answer 0 0 [];
  os_interfere := fun log m => <[r := cell_of (W (clock log))]> m |}.

Lemma diagonal_step k : wsteps (diagonal_run k) (diagonal_run (Datatypes.S k)).
Proof.
  unfold diagonal_run. cbv zeta. set (z := Z.of_nat k). set (ts := Timespec (z + 1) (z + 1)).
  replace (Z.of_nat (Datatypes.S k)) with (z + 1) by lia.
  apply (rtc_l _ _ _ _ (w_load _ _ _ _ _ ts)). apply (rtc_l _ _ _ _ (w_odd _ _ _ _ _ _ ts)).
  apply (rtc_l _ _ _ _ (w_write_sec _ _ _ _ _ _ ts)). apply (rtc_l _ _ _ _ (w_write_nsec _ _ _ _ _ _ ts)).
  apply rtc_once. cbn [tv_sec tv_nsec].
  replace (u32 (2 * (z + 1))) with (u32 (u32 (2 * z) + 2)) by (rewrite u32_add_idemp; f_equal; lia).
  apply (w_even _ _ _ _ _ _ ts).
Qed.

Lemma following_follows r s0 W clock :
  in_u 32 s0 -> s0 mod 2 = 0 -> (exists ts, W 0%nat = w_init s0 ts) ->
  (forall k, wsteps (W k) (W (Datatypes.S k))) ->
  (forall log e, (clock log <= clock (log ++ [e]))%nat) ->
  follows (following_os r W clock) r s0 W clock.
Proof.
  intros Hs He Hi Hr Hm. split; [auto|assumption..|].
  intros log m. exists (cell_of (W (clock log))). split; [apply lookup_insert_eq|]. split; reflexivity.
Qed.

Lemma suspended_mono log e : (suspended_clock log <= suspended_clock (log ++ [e]))%nat.
Proof.
  unfold suspended_clock. rewrite length_app. cbn [length]. set (b := Z.to_nat _). clearbody b.
  repeat destruct (decide _); lia.
Qed.

Lemma load_following {S} r W clock (p : proc S) :
  load (os := following_os r W clock) r p =
  Ok (cell_of (W (clock (p_log p))),
      Proc (p_st p) (p_errno p) (<[r := cell_of (W (clock (p_log p)))]> (p_mem p))
        (p_log p ++ [mem_event r])).
Proof. unfold load. cbn [os_interfere following_os]. rewrite lookup_insert_eq. reflexivity. Qed.

(** The bound on concurrent writes is exact: with [2^31] writes between two of
    its loads the counter comes back to its old value, and the reader returns a
    time that was never written. *)
Theorem torn_read_after_wrap {S : Type} (st : S) :
  exists os W clock ts q, follows os 4096 0 W clock /\
    linbox_shm_read_time 1 4096 (Some (Timespec 0 0)) (Proc st 0 ∅ []) = Ok ((0, Some ts), q) /\
    forall k, w_cur (W k) <> ts.
Proof.
  exists (following_os 4096 diagonal_run suspended_clock), diagonal_run, suspended_clock.
  exists (Timespec 0 (2 ^ 31)).
  assert (H0 : forall log, (length log < 2)%nat -> diagonal_run (suspended_clock log) =
                WState 0 0 0 WIdle 0 (Timespec 0 0))
    by (intros log Hl; unfold suspended_clock; rewrite decide_True by lia; reflexivity).
  assert (H2 : forall log, (2 <= length log)%nat -> diagonal_run (suspended_clock log) =
                WState 0 (2 ^ 31) (2 ^ 31) WIdle (2 ^ 31) (Timespec (2 ^ 31) (2 ^ 31))).
  { intros log Hl. unfold suspended_clock. rewrite decide_False by lia. unfold diagonal_run.
    rewrite Z2Nat.id by lia. reflexivity. }
  eexists. split; [|split].
  - apply following_follows; [unfold in_u; lia|reflexivity|exists (Timespec 0 0); reflexivity|
      apply diagonal_step|apply suspended_mono].
  - unfold linbox_shm_read_time. rewrite decide_False by discriminate. cbn [read_time_loop].
    rewrite !M_bind_eq, load_following, H0 by (cbn; lia). cbv zeta.
    rewrite decide_False by (intros H; apply H; reflexivity).
    rewrite M_bind_eq, load_following, H0 by (cbn; lia).
    rewrite M_bind_eq, load_following, H2 by (cbn; lia).
    rewrite M_bind_eq, load_following, H2 by (cbn; lia).
    rewrite decide_True by (split; reflexivity). reflexivity.
  - intros k [= Ha Hb]. lia.
Qed.
