(* ===== verification/Env.v ===== *)
(** * The environment block

    [environ] and the [envp] arrays of the exec family are lists of strings;
    [getenv] is libc's: the value of the first entry [name=value]. *)
From S2P Require Import Prelude.

Fixpoint getenv (envp : list string) (name : string) : option string :=
  match envp with
  | [] => None
  | e :: envp' =>
      if String.prefix (name +:+ "=") e
      then Some (String.substring (String.length name + 1) (String.length e) e)
      else getenv envp' name
  end.

(** [setenv] with its overwrite flag, and [unsetenv], as libc changes [environ]. *)
Fixpoint setenv (envp : list string) (name value : string) : list string :=
  match envp with
  | [] => [name +:+ "=" +:+ value]
  | e :: envp' =>
      if String.prefix (name +:+ "=") e then (name +:+ "=" +:+ value) :: envp'
      else e :: setenv envp' name value
  end.
Definition unsetenv (envp : list string) (name : string) : list string :=
  List.filter (fun e => negb (String.prefix (name +:+ "=") e)) envp.

(** [value && value[0] != '\0' ? value : dflt] *)
Definition or_default (value : option string) (dflt : string) : string :=
  match value with
  | None => dflt
  | Some s => if decide (s = EmptyString) then dflt else s
  end.

(** What [strncpy (addr.sun_path, path, sizeof addr.sun_path - 1)] leaves in a
    zeroed [struct sockaddr_un]. *)
Definition sun_path (path : string) : string := String.substring 0 107 path.

Definition LINBOX_DEFAULT_SOCK : string := "/tmp/linbox.sock".
Definition LINBOX_DEFAULT_SHM : string := "/linbox-shm".
