(* ===== verification/TimeManager.v ===== *)
(** * The time manager: the controller's side of the virtual clock

    Models src/controller/time-manager.h and src/controller/time-manager.c.
    [int64_t] arithmetic is checked: a sum that leaves the range is undefined
    behaviour. *)
From S2P Require Import Prelude ShmLayout Os Shm.

Definition LINBOX_FAKE_EPOCH_SEC : Z := 1735689600.

Record linbox_time_manager := TimeManager {
  tm_shm : linbox_shm_handle; tm_current : timespec; tm_seed : Z }.

#[export] Instance time_manager_eq_dec : EqDecision linbox_time_manager.
Proof. solve_decision. Defined.

(** Division and remainder truncate toward zero, and a negative remainder is
    moved into the range. *)
Definition ns_add (in_ : timespec) (delta_ns : Z) : res timespec :=
  a ← ckd64 (tv_sec in_ * 1000000000) ;
  b ← ckd64 (a + tv_nsec in_) ;
  ns ← ckd64 (b + delta_ns) ;
  let sec := Z.quot ns 1000000000 in
  let nsec := Z.rem ns 1000000000 in
  if decide (nsec < 0)
  then mret (Timespec (sec - 1) (nsec + 1000000000))
  else mret (Timespec sec nsec).

Section TimeManager.
Context {S : Type} {os : OS}.

Definition linbox_time_manager_open (tm : option linbox_time_manager)
    (shm_path : option string) : M S (Z * option linbox_time_manager) :=
  match tm, shm_path with
  | Some _, Some _ =>
      let zeroed h := Some (TimeManager h (Timespec 0 0) 0) in
      '(rc, shm) ← linbox_shm_create shm_path (Some (ShmHandle (-1) 0 NULL)) ;
      '(rc, shm) ← (if decide (rc <> 0) then
                      e ← get_errno ;
                      if decide (e <> EEXIST) then mret (-1, shm)
                      else
                        '(rc, shm) ← linbox_shm_attach shm_path shm ;
                        if decide (rc <> 0) then mret (-1, shm) else mret (0, shm)
                    else mret (0, shm)) ;
      match shm with
      | None => undef
      | Some shm =>
          if decide (rc <> 0) then mret (-1, zeroed shm)
          else
            let current := Timespec LINBOX_FAKE_EPOCH_SEC 0 in
            linbox_shm_write_time (layout shm) (Some current) ;;
            store (layout shm) (set_prng_seed 0) ;;
            mret (0, Some (TimeManager shm current 0))
      end
  | _, _ => set_errno EINVAL ;; mret (-1, tm)
  end.

Definition linbox_time_manager_close (tm : option linbox_time_manager)
    (shm_path : option string) : M S (option linbox_time_manager) :=
  match tm with
  | None => mret tm
  | Some m =>
      if decide (fd (tm_shm m) >= 0) then
        '(_, shm) ← linbox_shm_destroy shm_path (Some (tm_shm m)) ;
        mret (Some (TimeManager (default (tm_shm m) shm) (tm_current m) (tm_seed m)))
      else mret tm
  end.

Definition linbox_time_manager_tick (tm : option linbox_time_manager) (delta_ns : Z)
  : M S (option linbox_time_manager) :=
  match tm with
  | None => mret tm
  | Some m =>
      if decide (layout (tm_shm m) = NULL) then mret tm
      else
        current ← lift (ns_add (tm_current m) delta_ns) ;
        linbox_shm_write_time (layout (tm_shm m)) (Some current) ;;
        mret (Some (TimeManager (tm_shm m) current (tm_seed m)))
  end.

Definition linbox_time_manager_set_time (tm : option linbox_time_manager)
    (ts : option timespec) : M S (option linbox_time_manager) :=
  match tm, ts with
  | Some m, Some ts =>
      if decide (layout (tm_shm m) = NULL) then mret tm
      else
        linbox_shm_write_time (layout (tm_shm m)) (Some ts) ;;
        mret (Some (TimeManager (tm_shm m) ts (tm_seed m)))
  | _, _ => mret tm
  end.

Definition linbox_time_manager_set_seed (tm : option linbox_time_manager) (seed : Z)
  : M S (option linbox_time_manager) :=
  match tm with
  | None => mret tm
  | Some m =>
      if decide (layout (tm_shm m) = NULL) then mret tm
      else
        store (layout (tm_shm m)) (set_prng_seed seed) ;;
        mret (Some (TimeManager (tm_shm m) (tm_current m) seed))
  end.

Lemma neutral_tick tm d : neutral_code (linbox_time_manager_tick tm d).
Proof. unfold linbox_time_manager_tick. neutral_code_tac. Qed.
Lemma neutral_set_time tm ts : neutral_code (linbox_time_manager_set_time tm ts).
Proof. unfold linbox_time_manager_set_time. neutral_code_tac. Qed.
Lemma neutral_set_seed tm s : neutral_code (linbox_time_manager_set_seed tm s).
Proof. unfold linbox_time_manager_set_seed. neutral_code_tac. Qed.
End TimeManager.
#[export] Hint Resolve neutral_tick neutral_set_time neutral_set_seed : neutral.

(** ** Adding nanoseconds *)

(** A [struct timespec] as a number of nanoseconds, and the one normalised
    [struct timespec] of a number of nanoseconds. *)
Definition total_ns (ts : timespec) : Z := tv_sec ts * 1000000000 + tv_nsec ts.
Definition of_ns (ns : Z) : timespec := Timespec (ns / 1000000000) (ns mod 1000000000).

Lemma of_ns_total ns : total_ns (of_ns ns) = ns.
Proof. unfold total_ns, of_ns. cbn. rewrite Z.mul_comm. symmetry. apply Z.div_mod. discriminate. Qed.

Lemma quot_rem_norm ns :
  (if decide (Z.rem ns 1000000000 < 0)
   then Timespec (Z.quot ns 1000000000 - 1) (Z.rem ns 1000000000 + 1000000000)
   else Timespec (Z.quot ns 1000000000) (Z.rem ns 1000000000)) = of_ns ns.
Proof.
  unfold of_ns. pose proof (Z.quot_rem' ns 1000000000) as Hqr.
  pose proof (Z.rem_bound_abs ns 1000000000 ltac:(lia)) as Hb.
  set (q := Z.quot _ _) in *. set (r := Z.rem _ _) in *. clearbody q r. subst ns.
  case_decide; f_equal; Z.div_mod_to_equations; lia.
Qed.

Lemma ns_add_Ok_iff in_ d out :
  ns_add in_ d = Ok out <->
  in_s 64 (tv_sec in_ * 1000000000) /\ in_s 64 (total_ns in_) /\
  in_s 64 (total_ns in_ + d) /\ out = of_ns (total_ns in_ + d).
Proof.
  unfold ns_add, total_ns. split.
  - intros H. apply res_bind_Ok in H as (a & [-> Ha]%ckd64_inv & H).
    apply res_bind_Ok in H as (b & [-> Hb]%ckd64_inv & H).
    apply res_bind_Ok in H as (n & [-> Hn]%ckd64_inv & H). cbv zeta in H.
    rewrite <- quot_rem_norm. destruct (decide _); injection H as <-; auto.
  - intros (Ha & Hb & Hn & ->). rewrite <- quot_rem_norm.
    rewrite (ckd64_Ok _ Ha), bind_Ok_l, (ckd64_Ok _ Hb), bind_Ok_l, (ckd64_Ok _ Hn), bind_Ok_l.
    cbv zeta. destruct (decide _); reflexivity.
Qed.

(** [ns_add] is exact: it returns precisely when no intermediate sum leaves
    [int64_t], and then the result is normalised ([0 <= tv_nsec < 10^9]) and its
    nanoseconds are those of the argument plus the delta, for either sign. *)
Theorem ns_add_exact (in_ : timespec) (d : Z) (out : timespec) :
  ns_add in_ d = Ok out <->
  (in_s 64 (tv_sec in_ * 1000000000) /\ in_s 64 (total_ns in_) /\ in_s 64 (total_ns in_ + d)) /\
  total_ns out = total_ns in_ + d /\ 0 <= tv_nsec out < 1000000000.
Proof.
  rewrite ns_add_Ok_iff. split.
  - intros (? & ? & ? & ->). rewrite of_ns_total. cbn.
    pose proof (Z.mod_pos_bound (total_ns in_ + d) 1000000000). auto with lia.
  - intros ((? & ? & ?) & Ht & Hn). repeat (split; [assumption|]). rewrite <- Ht.
    destruct out as [s n]. unfold of_ns, total_ns in *. cbn in *.
    f_equal; Z.div_mod_to_equations; lia.
Qed.


(** ** What the time manager promises

    The abstract clock is a time and a seed; the manager publishes it in the
    shared region, where every process reads it. The specification computes in
    unbounded integers: a tick moves the clock's nanoseconds by the delta and
    normalises the sum by Euclidean division; it is undefined when the
    seconds in nanoseconds, the clock's nanoseconds or their sum with the delta
    do not fit [int64_t]. *)
Record vclock := VClock { v_now : timespec; v_seed : Z }.

Inductive tm_op := Tick (delta_ns : Z) | SetTime (ts : timespec) | SetSeed (seed : Z).

Definition spec_op (v : vclock) (o : tm_op) : option vclock :=
  match o with
  | Tick d =>
      let ns := total_ns (v_now v) in
      if decide (in_s 64 (tv_sec (v_now v) * 1000000000) /\ in_s 64 ns /\ in_s 64 (ns + d))
      then Some (VClock (of_ns (ns + d)) (v_seed v)) else None
  | SetTime ts => Some (VClock ts (v_seed v))
  | SetSeed s => Some (VClock (v_now v) s)
  end.

Fixpoint spec_ops (v : vclock) (ops : list tm_op) : option vclock :=
  match ops with
  | [] => Some v
  | o :: ops' => match spec_op v o with Some v' => spec_ops v' ops' | None => None end
  end.

Lemma ns_add_fuel in_ d : ns_add in_ d <> OutOfFuel.
Proof. unfold ns_add, ckd64. repeat (case_bool_decide || case_decide || cbn); discriminate. Qed.

Lemma spec_tick v d now :
  ns_add (v_now v) d = Ok now -> spec_op v (Tick d) = Some (VClock now (v_seed v)).
Proof. intros (? & ? & ? & ->)%ns_add_Ok_iff. cbn. rewrite decide_True by auto. reflexivity. Qed.

Lemma spec_tick_None v d : ns_add (v_now v) d = Undef -> spec_op v (Tick d) = None.
Proof.
  intros H. cbn. apply decide_False. intros (? & ? & ?).
  enough (ns_add (v_now v) d = Ok (of_ns (total_ns (v_now v) + d))) by congruence.
  apply ns_add_Ok_iff. auto.
Qed.

Definition represents (m : linbox_time_manager) (l : linbox_shm_layout) (v : vclock) : Prop :=
  layout (tm_shm m) <> NULL /\ tm_current m = v_now v /\ tm_seed m = v_seed v /\
  virtual_time l = v_now v /\ prng_seed l = v_seed v /\
  in_u 32 (time_seq l) /\ time_seq l mod 2 = 0.

(** The part of a region the clock does not own. *)
Definition same_rest (l l' : linbox_shm_layout) : Prop :=
  process_slots l' = process_slots l /\ flags l' = flags l /\ policy_area l' = policy_area l /\
  layout_reserved l' = layout_reserved l /\ set_heartbeat_ns 0 (set_header (header l') zero_layout) =
  set_heartbeat_ns 0 (set_header (header l) zero_layout).

Lemma same_rest_refl l : same_rest l l.
Proof. unfold same_rest. auto. Qed.

Lemma same_rest_trans l1 l2 l3 : same_rest l1 l2 -> same_rest l2 l3 -> same_rest l1 l3.
Proof. intros (A & B & C & D & E) (A' & B' & C' & D' & E'). repeat split; congruence. Qed.

Lemma written_rest ts ns l : same_rest l (written ts ns l).
Proof. unfold same_rest. auto. Qed.

Section Refinement.
Context {S : Type} {os : OS}.

Definition run_op (m : option linbox_time_manager) (o : tm_op) : M S (option linbox_time_manager) :=
  match o with
  | Tick d => linbox_time_manager_tick m d
  | SetTime ts => linbox_time_manager_set_time m (Some ts)
  | SetSeed s => linbox_time_manager_set_seed m s
  end.

Fixpoint run_ops (m : option linbox_time_manager) (ops : list tm_op)
  : M S (option linbox_time_manager) :=
  match ops with [] => mret m | o :: ops' => m' ← run_op m o ; run_ops m' ops' end.

Context {Hquiet : QuietMemory}.

Lemma written_represents m l v ts ns :
  represents m l v ->
  represents (TimeManager (tm_shm m) ts (tm_seed m)) (written ts ns l) (VClock ts (v_seed v)).
Proof.
  intros (Hr & _ & Hs & _ & Hls & Hu & He). unfold represents. cbn.
  repeat (split; [assumption || reflexivity|]). split; [destruct ts; reflexivity|].
  split; [assumption|]. split; [apply wrap_range; lia|].
  rewrite u32_mod2, <- Zplus_mod_idemp_l, He. reflexivity.
Qed.

Lemma run_op_refines (m : linbox_time_manager) (o : tm_op) (p : proc S) (l : linbox_shm_layout) v :
  p_mem p !! layout (tm_shm m) = Some l -> represents m l v ->
  match spec_op v o with
  | Some v' => exists m' l' e log,
      run_op (Some m) o p =
        Ok (Some m', Proc (p_st p) e (<[layout (tm_shm m) := l']> (p_mem p)) log) /\
      tm_shm m' = tm_shm m /\ represents m' l' v' /\ same_rest l l'
  | None => run_op (Some m) o p = Undef
  end.
Proof.
  intros Hl Hv. pose proof Hv as (Hr & Hc & Hs & Hlt & Hls & Hu & He).
  destruct o as [d|ts|s]; cbn [run_op].
  - unfold linbox_time_manager_tick. rewrite decide_False by assumption. rewrite M_bind_eq.
    unfold lift. rewrite Hc.
    destruct (ns_add (v_now v) d) as [now| |] eqn:En; cbn [mbind res_bind].
    + rewrite (spec_tick v d now En). destruct (write_time_eq _ now p l Hr Hl) as (ns & e & log & Hw).
      rewrite M_bind_eq, Hw. eexists _, _, e, log. split; [reflexivity|].
      split; [reflexivity|]. split; [apply (written_represents _ _ _ _ _ Hv)|apply written_rest].
    + destruct (ns_add_fuel _ _ En).
    + rewrite (spec_tick_None v d En). reflexivity.
  - unfold linbox_time_manager_set_time. rewrite decide_False by assumption.
    destruct (write_time_eq _ ts p l Hr Hl) as (ns & e & log & Hw).
    rewrite M_bind_eq, Hw. eexists _, _, e, log. split; [reflexivity|].
    split; [reflexivity|]. split; [apply (written_represents _ _ _ _ _ Hv)|apply written_rest].
  - unfold linbox_time_manager_set_seed. rewrite decide_False by assumption.
    rewrite M_bind_eq, (store_eq _ _ _ _ Hl). eexists _, _, _, _. split; [reflexivity|].
    split; [reflexivity|]. split; [|repeat split; reflexivity].
    unfold represents. cbn. auto 10.
Qed.

Lemma run_ops_refines ops : forall (m : linbox_time_manager) (p : proc S) l v,
  p_mem p !! layout (tm_shm m) = Some l -> represents m l v ->
  match spec_ops v ops with
  | Some v' => exists m' l' q, run_ops (Some m) ops p = Ok (Some m', q) /\ tm_shm m' = tm_shm m /\
      p_st q = p_st p /\ p_mem q !! layout (tm_shm m) = Some l' /\ represents m' l' v' /\ same_rest l l'
  | None => run_ops (Some m) ops p = Undef
  end.
Proof.
  induction ops as [|o ops IH]; intros m p l v Hl Hv; cbn [run_ops spec_ops].
  - exists m, l, p. split; [reflexivity|].
    repeat (split; [reflexivity || assumption|]). apply same_rest_refl.
  - pose proof (run_op_refines m o p l v Hl Hv) as Ho. rewrite M_bind_eq.
    destruct (spec_op v o) as [v1|]; [|rewrite Ho; reflexivity].
    destruct Ho as (m1 & l1 & e & log & Hrun & Hshm & Hv1 & Hrest). rewrite Hrun.
    specialize (IH m1 (Proc (p_st p) e (<[layout (tm_shm m) := l1]> (p_mem p)) log) l1 v1).
    rewrite Hshm in IH. specialize (IH (lookup_insert_eq _ _ _) Hv1). destruct (spec_ops v1 ops) as [v'|].
    + destruct IH as (m' & l' & q & Hq & Hshm' & Hst & Hl' & Hv' & Hrest').
      exists m', l', q. repeat (split; [assumption|]). eauto using same_rest_trans.
    + exact IH.
Qed.

(** C4: the time manager implements the clock: from a manager that publishes a
    clock, any sequence of ticks, time settings and seed settings leaves a
    manager that publishes the clock the specification computes in unbounded
    integers (a tick of either sign moves the clock's nanoseconds by exactly the
    delta, and the result is normalised); a process that then reads the region
    gets exactly that time, at its first attempt; the process table, flags,
    policies and the rest of the header are untouched. The code has undefined
    behaviour exactly when the specification says that a tick leaves [int64_t].
    *)
Theorem time_manager_refines_clock (m : linbox_time_manager) (ops : list tm_op) (p : proc S)
    (l : linbox_shm_layout) (v : vclock) (t0 : timespec) (fuel : nat)
    (Hl : p_mem p !! layout (tm_shm m) = Some l) (Hv : represents m l v) :
  match spec_ops v ops with
  | Some v' => exists m' l' q, run_ops (Some m) ops p = Ok (Some m', q) /\ tm_shm m' = tm_shm m /\
      p_mem q !! layout (tm_shm m') = Some l' /\ represents m' l' v' /\ same_rest l l' /\
      exists q', linbox_shm_read_time (Datatypes.S fuel) (layout (tm_shm m')) (Some t0) q =
        Ok ((0, Some (v_now v')), q')
  | None => run_ops (Some m) ops p = Undef
  end.
Proof.
  pose proof (run_ops_refines ops m p l v Hl Hv) as H. destruct (spec_ops v ops) as [v'|]; [|exact H].
  destruct H as (m' & l' & q & Hq & Hshm & _ & Hl' & Hv' & Hrest).
  exists m', l', q. rewrite Hshm. repeat (split; [assumption || reflexivity|]).
  destruct Hv' as (Hr & _ & _ & Hvt & _ & _ & Hev). rewrite Hshm in Hr.
  unfold linbox_shm_read_time. rewrite decide_False by assumption. rewrite M_bind_eq.
  destruct (read_time_even fuel _ q l' Hl' Hev) as (log & ->). rewrite Hvt. eexists. reflexivity.
Qed.
End Refinement.


(** ** Opening *)
Section Open.
Context {S : Type} {os : OS} {Hquiet : QuietMemory}.

(** The kernel maps the region [path] at [r] with descriptor [fdn]. *)
Record grants (path : string) (oflags fdn r : Z) : Prop := {
  grants_open : forall log, ret (os_answer log (XShmOpen path oflags 0x180)) = fdn;
  grants_trunc : forall log, ret (os_answer log (XFtruncate fdn sizeof_layout)) = 0;
  grants_mmap : forall log, ret (os_answer log (XMmap fdn sizeof_layout)) = r;
  grants_fd : 0 <= fdn;
  grants_addr : r <> NULL /\ r <> MAP_FAILED }.

Definition create_flags : Z := Z.lor (Z.lor O_CREAT O_EXCL) O_RDWR.

Lemma create_eq path fdn r h0 (p : proc S) old :
  grants path create_flags fdn r -> p_mem p !! r = Some old ->
  exists ns e log, linbox_shm_create (Some path) (Some h0) p =
    Ok ((0, Some (ShmHandle fdn sizeof_layout r)),
        Proc (p_st p) e (<[r := initial_layout ns]> (p_mem p)) log).
Proof.
  intros [Ho Ht Hm Hf [Hr Hmf]] Hmem.
  unfold linbox_shm_create, linbox_shm_open_map. fold create_flags.
  rewrite M_bind_eq, call_eq; cbv zeta; rewrite Ho. rewrite !decide_False by lia.
  rewrite M_bind_eq, call_eq; cbv zeta; rewrite Ht. rewrite !decide_False by lia.
  rewrite M_bind_eq, call_eq; cbv zeta; rewrite Hm. rewrite (decide_False (P := r = MAP_FAILED)) by assumption.
  rewrite M_bind_eq.
  match goal with |- context [linbox_shm_init_layout r ?q] =>
    destruct (init_layout_eq r q old Hr Hmem) as (ns & e & log & ->) end.
  eexists _, _, _. reflexivity.
Qed.

Lemma attach_eq path fdn r h0 (p : proc S) l :
  grants path O_RDWR fdn r -> p_mem p !! r = Some l -> magic (header l) = LINBOX_SHM_MAGIC ->
  exists e log, linbox_shm_attach (Some path) (Some h0) p =
    Ok ((0, Some (ShmHandle fdn sizeof_layout r)), Proc (p_st p) e (p_mem p) log).
Proof.
  intros [Ho Ht Hm Hf [Hr Hmf]] Hmem Hmagic.
  unfold linbox_shm_attach, linbox_shm_open_map. rewrite !M_bind_eq.
  rewrite call_eq; cbv zeta; rewrite Ho. rewrite !decide_False by lia.
  rewrite M_bind_eq. unfold mret at 1, M_ret at 1. rewrite (decide_False (P := 0 <> 0)) by lia.
  rewrite M_bind_eq, call_eq; cbv zeta; rewrite Hm. rewrite (decide_False (P := r = MAP_FAILED)) by assumption.
  rewrite M_bind_eq. unfold mret, M_ret. rewrite (decide_False (P := 0 <> 0)) by lia.
  rewrite M_bind_eq. cbn [layout]. rewrite (load_eq r _ l) by exact Hmem.
  rewrite decide_False by (intros H; apply H, Hmagic). eexists _, _. reflexivity.
Qed.

Definition epoch : vclock := VClock (Timespec LINBOX_FAKE_EPOCH_SEC 0) 0.

(** The last two statements of a successful open, on the region [l]. *)
Lemma open_publish r (p : proc S) l :
  r <> NULL -> p_mem p !! r = Some l ->
  exists ns e log, forall A (k : M S A),
    (linbox_shm_write_time r (Some (v_now epoch)) ;; store r (set_prng_seed 0) ;; k) p =
    k (Proc (p_st p) e (<[r := set_prng_seed 0 (written (v_now epoch) ns l)]> (p_mem p)) log).
Proof.
  intros Hr Hl. destruct (write_time_eq r (v_now epoch) p l Hr Hl) as (ns & e & log & Hw).
  eexists _, _, _. intros A k. rewrite M_bind_eq, Hw, M_bind_eq, store_again. reflexivity.
Qed.

Lemma create_exists path h0 (p : proc S) :
  (forall log, let a := os_answer log (XShmOpen path create_flags 0x180) in
     ret a < 0 /\ err a = EEXIST) ->
  exists log, linbox_shm_create (Some path) (Some h0) p =
    Ok ((-1, Some h0), Proc (p_st p) EEXIST (p_mem p) log).
Proof.
  intros He. destruct (He (p_log p)) as [Hneg Herr]. unfold linbox_shm_create, linbox_shm_open_map.
  fold create_flags. rewrite M_bind_eq, call_eq. cbv zeta. rewrite decide_True by assumption.
  rewrite decide_True, Herr by assumption. eexists. reflexivity.
Qed.

(** Opening the time manager on a fresh name publishes the clock at
    2025-01-01 with seed 0, in a region with an empty process table. *)
Lemma open_fresh_publishes_epoch (path : string) (tm : linbox_time_manager) (fdn r : Z)
    (p : proc S) (old : linbox_shm_layout)
    (Hk : grants path create_flags fdn r) (Hmem : p_mem p !! r = Some old) :
  exists m l q, linbox_time_manager_open (Some tm) (Some path) p = Ok ((0, Some m), q) /\
    tm_shm m = ShmHandle fdn sizeof_layout r /\ p_st q = p_st p /\
    p_mem q !! r = Some l /\ represents m l epoch /\
    process_slots l = process_slots zero_layout /\ magic (header l) = LINBOX_SHM_MAGIC.
Proof.
  destruct (create_eq path fdn r (ShmHandle (-1) 0 NULL) p old Hk Hmem) as (ns & e & log & Hc).
  unfold linbox_time_manager_open. rewrite M_bind_eq, Hc.
  rewrite M_bind_eq, decide_False by lia. unfold mret at 1, M_ret at 1. rewrite decide_False by lia.
  cbn [layout]. destruct Hk as [_ _ _ _ [Hr _]].
  match goal with |- context [linbox_shm_write_time r (Some ?ts)] => change ts with (v_now epoch) end.
  match goal with |- context [mbind _ _ ?q] =>
    destruct (open_publish r q (initial_layout ns) Hr ltac:(apply lookup_insert_eq)) as (ns' & e' & log' & Hp)
  end.
  rewrite Hp. eexists _, _, _. split; [reflexivity|]. split; [reflexivity|].
  split; [reflexivity|]. split; [apply lookup_insert_eq|]. unfold initial_layout. generalize zero_layout.
  intros l0. split; [|split; reflexivity]. unfold represents. cbn.
  repeat (split; [assumption || reflexivity|]). split; [split; [discriminate|reflexivity]|reflexivity].
Qed.

(** Opening it on a name that already exists attaches to the old region and
    reports success. If the old sequence counter is even the clock is published
    there as in a fresh region; if a crash left it odd, it stays odd. *)
Lemma open_existing_keeps_counter (path : string) (tm : linbox_time_manager) (fdn r : Z)
    (p : proc S) (l : linbox_shm_layout)
    (Hex : forall log, let a := os_answer log (XShmOpen path create_flags 0x180) in
             ret a < 0 /\ err a = EEXIST)
    (Hk : grants path O_RDWR fdn r) (Hmem : p_mem p !! r = Some l)
    (Hmagic : magic (header l) = LINBOX_SHM_MAGIC) :
  exists m l' q, linbox_time_manager_open (Some tm) (Some path) p = Ok ((0, Some m), q) /\
    p_mem q !! r = Some l' /\ same_rest l l' /\ tm_current m = v_now epoch /\
    (time_seq l mod 2 = 0 -> represents m l' epoch) /\
    time_seq l' mod 2 = time_seq l mod 2 /\ virtual_time l' = v_now epoch.
Proof.
  destruct (create_exists path (ShmHandle (-1) 0 NULL) p Hex) as (log & Hc).
  pose proof (attach_eq path fdn r (ShmHandle (-1) 0 NULL) (Proc (p_st p) EEXIST (p_mem p) log)
    l Hk Hmem Hmagic) as (e & log' & Ha).
  unfold linbox_time_manager_open. rewrite M_bind_eq, Hc. rewrite !M_bind_eq, decide_True by lia.
  rewrite M_bind_eq. cbn [get_errno p_errno]. rewrite decide_False by (intros H; apply H; reflexivity).
  rewrite M_bind_eq, Ha. rewrite decide_False by lia. unfold mret at 1, M_ret at 1.
  rewrite decide_False by lia. cbn [layout]. destruct Hk as [_ _ _ _ [Hr _]].
  match goal with |- context [linbox_shm_write_time r (Some ?ts)] => change ts with (v_now epoch) end.
  match goal with |- context [mbind _ _ ?q] =>
    destruct (open_publish r q l Hr Hmem) as (ns' & e' & log2 & Hp)
  end.
  rewrite Hp. eexists _, _, _. split; [reflexivity|]. split; [apply lookup_insert_eq|].
  split; [repeat split; reflexivity|]. split; [reflexivity|].
  assert (Hpar : u32 (time_seq l + 2) mod 2 = time_seq l mod 2)
    by (rewrite u32_mod2; apply (Z.mod_add (time_seq l) 1 2); lia).
  split; [|split; [exact Hpar|reflexivity]]. intros Hs.
  unfold represents. cbn. repeat (split; [assumption || reflexivity|]).
  split; [apply wrap_range; lia|]. rewrite Hpar. exact Hs.
Qed.

End Open.
