(* ===== verification/Controller.v ===== *)
(** * The controller process

    Models src/controller/main.c.  The globals are the signal flag [g_stop];
    the locals of [main] are the arguments of its loop.  A signal may arrive
    before any test of the flag: the environment's answer to [XStop] says
    whether one has.  A [struct pollfd] array lives for one iteration, so the
    [revents] of an entry [poll] was not given are indeterminate: whatever the
    environment's list holds there. *)
From S2P Require Import Prelude Bytes Sbp ShmLayout Os Shm Env TimeManager.

Record controller := ControllerState { g_stop : Z }.

Definition POLLIN : Z := 1.
Definition POLLERR : Z := 8.
Definition POLLHUP : Z := 16.
Definition SIGINT : Z := 2.
Definition SIGTERM : Z := 15.

Section Controller.
Context {os : OS}.
Abbreviation MC := (M controller).

Definition on_signal (sig : Z) : MC unit := modify_st (fun _ => ControllerState 1).

(** Reading the volatile [g_stop]. *)
Definition read_g_stop : MC Z :=
  arrived ← call XStop ;
  (if decide (arrived <> 0) then on_signal arrived else mret tt) ;;
  st ← get_st ; mret (g_stop st).

Definition setup_server_socket (sock_path : string) : MC Z :=
  fd ← call XSocket ;
  if decide (fd < 0) then mret (-1)
  else
    let addr := sun_path sock_path in
    _ ← call (XUnlink sock_path) ;
    rc ← call (XBind fd addr) ;
    if decide (rc <> 0) then _ ← call (XClose fd) ; mret (-1)
    else
      rc ← call (XListen fd 64) ;
      if decide (rc <> 0) then _ ← call (XClose fd) ; mret (-1)
      else mret fd.

(** A frame buffer; its bytes are indeterminate until written, and are never
    used before. *)
Definition frame_buffer : list Z := replicate (Z.to_nat SBP_MAX_FRAME_SIZE) 0.

Definition send_ack (fd flags : Z) : MC Z :=
  let ack := SbpMessage SBP_MSG_ACK SBP_VERSION flags PZero in
  '(rc, frame, out_len) ← lift (sbp_serialize_message (Some ack) (Some frame_buffer)
                                  SBP_MAX_FRAME_SIZE (Some 0)) ;
  if decide (rc <> SBP_OK) then mret (-1)
  else
    match frame, out_len with
    | Some frame, Some out_len =>
        n ← call (XWrite fd (take (Z.to_nat out_len) frame)) ;
        mret (if decide (n = out_len) then 0 else -1)
    | _, _ => undef
    end.

(** ** The process table *)
Definition load_slot (layout : Z) (i : nat) : MC linbox_process_slot :=
  l ← load layout ;
  match process_slots l !! i with Some s => mret s | None => undef end.

Definition store_slot (layout : Z) (i : nat) (f : linbox_process_slot -> linbox_process_slot)
  : MC unit :=
  store layout (fun l => set_process_slots (alter f i (process_slots l)) l).

Definition slot_set_pid (x : Z) (s : linbox_process_slot) : linbox_process_slot :=
  ProcessSlot x (slot_flags s) (slot_heartbeat_ns s) (slot_reserved s).
Definition slot_set_flags (x : Z) (s : linbox_process_slot) : linbox_process_slot :=
  ProcessSlot (pid s) x (slot_heartbeat_ns s) (slot_reserved s).
Definition slot_set_heartbeat (x : Z) (s : linbox_process_slot) : linbox_process_slot :=
  ProcessSlot (pid s) (slot_flags s) x (slot_reserved s).

(** The [for] of [register_process], with [k] slots left from [i] on; [true]
    says that it returned from the function. *)
Fixpoint register_loop (k : nat) (layout : Z) (i : nat) (the_pid : Z) (empty : option nat)
  : MC (bool * option nat) :=
  match k with
  | O => mret (false, empty)
  | S k' =>
      s ← load_slot layout i ;
      if decide (pid s = the_pid) then
        l ← load layout ;
        store_slot layout i (slot_set_heartbeat (heartbeat_ns (header l))) ;;
        mret (true, empty)
      else
        match empty with
        | Some _ => register_loop k' layout (i + 1) the_pid empty
        | None =>
            s ← load_slot layout i ;
            register_loop k' layout (i + 1) the_pid (if decide (pid s = 0) then Some i else None)
        end
  end.

Definition register_process (tm : option linbox_time_manager) (the_pid : Z) : MC unit :=
  match tm with
  | None => mret tt
  | Some m =>
      let layout := layout (tm_shm m) in
      if decide (layout = NULL \/ the_pid = 0) then mret tt
      else
        '(returned, empty) ← register_loop (Z.to_nat LINBOX_PROCESS_SLOT_COUNT) layout 0 the_pid None ;
        match returned, empty with
        | false, Some i =>
            store_slot layout i (slot_set_pid the_pid) ;;
            store_slot layout i (slot_set_flags 0) ;;
            l ← load layout ;
            store_slot layout i (slot_set_heartbeat (heartbeat_ns (header l)))
        | _, _ => mret tt
        end
  end.

Fixpoint reap_loop (k : nat) (layout : Z) (i : nat) : MC unit :=
  match k with
  | O => mret tt
  | S k' =>
      s ← load_slot layout i ;
      if decide (pid s = 0) then reap_loop k' layout (i + 1)
      else
        s ← load_slot layout i ;
        rc ← call (XKill (i32 (pid s)) 0) ;
        e ← get_errno ;
        if decide (rc = 0 \/ e = EPERM) then reap_loop k' layout (i + 1)
        else
          store_slot layout i (fun _ => zero_slot) ;;
          reap_loop k' layout (i + 1)
  end.

Definition reap_dead_processes (tm : option linbox_time_manager) : MC unit :=
  match tm with
  | None => mret tt
  | Some m =>
      if decide (layout (tm_shm m) = NULL) then mret tt
      else reap_loop (Z.to_nat LINBOX_PROCESS_SLOT_COUNT) (layout (tm_shm m)) 0
  end.

(** ** Messages *)

(** [read] into a frame buffer stores its bytes at the front. The environment
    answers at once; on a socket on which nothing arrives the real call blocks,
    until the client writes or hangs up or a signal interrupts it. *)
Definition read_frame (fd : Z) : MC (Z * list Z) :=
  a ← callA (XRead fd SBP_MAX_FRAME_SIZE) ;
  mret (ret a, data a ++ drop (length (data a)) frame_buffer).

Definition handle_client_message (fd : Z) (tm : option linbox_time_manager)
  : MC (Z * option linbox_time_manager) :=
  '(n, frame) ← read_frame fd ;
  if decide (n <= 0) then mret (-1, tm)
  else
    '(rc, msg) ← lift (sbp_deserialize_message (Some frame) n (Some (SbpMessage 0 0 0 PZero))) ;
    if decide (rc <> SBP_OK) then mret (-1, tm)
    else
      match msg with
      | None => undef
      | Some msg =>
          if decide (m_type msg = SBP_MSG_HELLO) then
            rc ← send_ack fd (m_flags msg) ; mret (rc, tm)
          else if decide (m_type msg = SBP_MSG_SET_TIME) then
            '(sec, nsec) ← lift (payload_set_time (m_payload msg)) ;
            tm ← linbox_time_manager_set_time tm (Some (Timespec sec nsec)) ;
            rc ← send_ack fd (m_flags msg) ; mret (rc, tm)
          else if decide (m_type msg = SBP_MSG_SET_SEED) then
            seed ← lift (payload_set_seed (m_payload msg)) ;
            tm ← linbox_time_manager_set_seed tm seed ;
            rc ← send_ack fd (m_flags msg) ; mret (rc, tm)
          else if decide (m_type msg = SBP_MSG_REGISTER_PROCESS) then
            '(the_pid, _) ← lift (payload_register_process (m_payload msg)) ;
            register_process tm the_pid ;;
            rc ← send_ack fd (m_flags msg) ; mret (rc, tm)
          else mret (-1, tm)
      end.

(** ** The event loop *)

(** The locals of [main] the loop carries. *)
Record loop_state := LoopState {
  client_fds : list Z; client_count : nat; last_tick : timespec;
  loop_tm : option linbox_time_manager }.

(** [client_fds[i] = client_fds[client_count - 1]; client_count--] *)
Definition remove_client (i : nat) (fds : list Z) (count : nat) : list Z * nat :=
  (<[i := nth (count - 1) fds 0]> fds, (count - 1)%nat).

Fixpoint client_loop (fuel : nat) (revents : list Z) (i : nat) (fds : list Z) (count : nat)
    (tm : option linbox_time_manager) : MC (list Z * nat * option linbox_time_manager) :=
  if decide (i < count)%nat then
    match fuel with
    | O => out_of_fuel
    | S fuel' =>
        let rev := nth (i + 1) revents 0 in
        let close_client tm :=
          _ ← call (XClose (nth i fds 0)) ;
          let '(fds, count) := remove_client i fds count in
          client_loop fuel' revents i fds count tm in
        if decide (Z.land rev (Z.lor POLLERR POLLHUP) <> 0) then close_client tm
        else if decide (Z.land rev POLLIN <> 0) then
          '(rc, tm) ← handle_client_message (nth i fds 0) tm ;
          if decide (rc <> 0) then close_client tm
          else client_loop fuel' revents (i + 1) fds count tm
        else client_loop fuel' revents (i + 1) fds count tm
    end
  else mret (fds, count, tm).

(** [clock_gettime (CLOCK_MONOTONIC, &ts)] *)
Definition monotonic_now : MC timespec :=
  a ← callA (XClockGettime CLOCK_MONOTONIC) ;
  mret (Timespec (nth 0 (data a) 0) (nth 1 (data a) 0)).

Definition elapsed_ns (now last : timespec) : res Z :=
  s ← ckd64 (tv_sec now - tv_sec last) ;
  s ← ckd64 (s * 1000000000) ;
  n ← ckd64 (tv_nsec now - tv_nsec last) ;
  ckd64 (s + n).

(** One iteration; [None] is the [break]. *)
Definition main_iteration (listen_fd : Z) (st : loop_state) : MC (option loop_state) :=
  let nfds_clients := take (client_count st) (client_fds st) in
  a ← callA (XPoll (listen_fd :: nfds_clients) 10) ;
  if decide (ret a < 0) then
    e ← get_errno ;
    mret (if decide (e = EINTR) then Some st else None)
  else
    let revents := data a in
    '(fds, count) ←
      (if decide (Z.land (nth 0 revents 0) POLLIN <> 0) then
         fd ← call (XAccept listen_fd) ;
         if decide (0 <= fd /\ (client_count st < Z.to_nat LINBOX_PROCESS_SLOT_COUNT)%nat)
         then mret (<[client_count st := fd]> (client_fds st), (client_count st + 1)%nat)
         else if decide (0 <= fd)
         then _ ← call (XClose fd) ; mret (client_fds st, client_count st)
         else mret (client_fds st, client_count st)
       else mret (client_fds st, client_count st)) ;
    '(fds, count, tm) ← client_loop count revents 0 fds count (loop_tm st) ;
    now ← monotonic_now ;
    delta_ns ← lift (elapsed_ns now (last_tick st)) ;
    if decide (delta_ns > 0) then
      tm ← linbox_time_manager_tick tm delta_ns ;
      reap_dead_processes tm ;;
      mret (Some (LoopState fds count now tm))
    else mret (Some (LoopState fds count (last_tick st) tm)).

Fixpoint main_loop (fuel : nat) (listen_fd : Z) (st : loop_state) : MC loop_state :=
  stop ← read_g_stop ;
  if decide (stop <> 0) then mret st
  else
    match fuel with
    | O => out_of_fuel
    | S fuel' =>
        next ← main_iteration listen_fd st ;
        match next with
        | None => mret st
        | Some st => main_loop fuel' listen_fd st
        end
    end.

Fixpoint close_all (fds : list Z) : MC unit :=
  match fds with [] => mret tt | fd :: fds' => _ ← call (XClose fd) ; close_all fds' end.

Definition main (environ : list string) (fuel : nat) : MC Z :=
  let sock_path := or_default (getenv environ "LINBOX_SOCK") LINBOX_DEFAULT_SOCK in
  let shm_path := or_default (getenv environ "LINBOX_SHM") LINBOX_DEFAULT_SHM in
  _ ← call (XSigaction SIGINT) ;
  _ ← call (XSigaction SIGTERM) ;
  '(rc, tm) ← linbox_time_manager_open
                (Some (TimeManager (ShmHandle (-1) 0 NULL) (Timespec 0 0) 0)) (Some shm_path) ;
  if decide (rc <> 0) then
    _ ← call (XStderr "linbox-controller: shm init failed") ; mret 1
  else
    listen_fd ← setup_server_socket sock_path ;
    if decide (listen_fd < 0) then
      _ ← call (XStderr "linbox-controller: socket setup failed") ;
      _ ← linbox_time_manager_close tm (Some shm_path) ;
      mret 1
    else
      _ ← call (XStderr ("linbox-controller: listening on " +:+ sock_path +:+ ", shm=" +:+ shm_path)) ;
      last_tick ← monotonic_now ;
      st ← main_loop fuel listen_fd
             (LoopState (replicate (Z.to_nat LINBOX_PROCESS_SLOT_COUNT) 0) 0 last_tick tm) ;
      close_all (take (client_count st) (client_fds st)) ;;
      _ ← call (XClose listen_fd) ;
      _ ← call (XUnlink sock_path) ;
      _ ← linbox_time_manager_close (loop_tm st) (Some shm_path) ;
      mret 0.

Lemma neutral_read_g_stop : neutral_code read_g_stop.
Proof. unfold read_g_stop, on_signal. neutral_code_tac. Qed.
Lemma neutral_send_ack fd flags : neutral_code (send_ack fd flags).
Proof. unfold send_ack. neutral_code_tac. Qed.
Lemma neutral_load_slot r i : neutral_code (load_slot r i).
Proof. unfold load_slot. neutral_code_tac. Qed.
Lemma neutral_store_slot r i f : neutral_code (store_slot r i f).
Proof. unfold store_slot. neutral_code_tac. Qed.
Hint Resolve neutral_read_g_stop neutral_send_ack neutral_load_slot neutral_store_slot : neutral.
Lemma neutral_register_loop k r x : forall i e, neutral_code (register_loop k r i x e).
Proof. induction k as [|k IH]; intros i e; cbn [register_loop]; neutral_code_tac. Qed.
Lemma neutral_reap_loop k r : forall i, neutral_code (reap_loop k r i).
Proof. induction k as [|k IH]; intros i; cbn [reap_loop]; neutral_code_tac. Qed.
Hint Resolve neutral_register_loop neutral_reap_loop : neutral.
Lemma neutral_register tm x : neutral_code (register_process tm x).
Proof. unfold register_process. neutral_code_tac. Qed.
Lemma neutral_reap tm : neutral_code (reap_dead_processes tm).
Proof. unfold reap_dead_processes. neutral_code_tac. Qed.
Lemma neutral_read_frame fd : neutral_code (read_frame fd).
Proof. unfold read_frame. neutral_code_tac. Qed.
Hint Resolve neutral_register neutral_reap neutral_read_frame : neutral.
Lemma neutral_handle fd tm : neutral_code (handle_client_message fd tm).
Proof. unfold handle_client_message. neutral_code_tac. Qed.
Lemma neutral_monotonic_now : neutral_code monotonic_now.
Proof. unfold monotonic_now. neutral_code_tac. Qed.
End Controller.
#[export] Hint Resolve neutral_read_g_stop neutral_send_ack neutral_register neutral_reap neutral_handle
  neutral_monotonic_now : neutral.
