(* ===== verification/Typing.v ===== *)
(** * Every value keeps its C type

    The model holds the integers of the program as [Z]s.  This file states what
    the C types allow, field by field, and a Hoare logic for it: [typed I T m]
    says that [m] keeps the shared memory well typed and the program's own state
    in [I], and that its result, if it returns, satisfies [T].  The environment is
    only assumed to be well typed itself.  The theorems are about the controller;
    those about the shim are in ShimTyping.v. *)
From S2P Require Import Prelude Bytes Sbp ShmLayout Os Shm Env TimeManager Controller.

(** ** The types of shm-layout.h *)
Definition timespec_typed (ts : timespec) : Prop := in_s 64 (tv_sec ts) /\ in_s 64 (tv_nsec ts).

Record slot_typed (s : linbox_process_slot) : Prop := {
  slot_pid_typed : in_u 32 (pid s);
  slot_flags_typed : in_u 32 (slot_flags s);
  slot_heartbeat_typed : in_u 64 (slot_heartbeat_ns s);
  slot_reserved_typed : length (slot_reserved s) = 16%nat /\ Forall is_byte (slot_reserved s) }.

Record header_typed (h : linbox_shm_header) : Prop := {
  magic_typed : in_u 32 (magic h);
  version_typed : in_u 16 (version h);
  header_size_typed : in_u 16 (header_size h);
  global_seq_typed : in_u 32 (global_seq h);
  heartbeat_typed : in_u 64 (heartbeat_ns h);
  network_typed : in_u 32 (network_policy_offset h);
  filesystem_typed : in_u 32 (filesystem_policy_offset h);
  dns_typed : in_u 32 (dns_policy_offset h);
  area_size_typed : in_u 32 (policy_area_size h);
  header_reserved_typed : length (header_reserved h) = 32%nat /\ Forall is_byte (header_reserved h) }.

Record layout_typed (l : linbox_shm_layout) : Prop := {
  header_ok : header_typed (header l);
  time_seq_typed : in_u 32 (time_seq l);
  virtual_time_typed : timespec_typed (virtual_time l);
  prng_seed_typed : in_u 64 (prng_seed l);
  flags_typed : in_u 32 (flags l);
  slots_typed : length (process_slots l) = Z.to_nat LINBOX_PROCESS_SLOT_COUNT /\ Forall slot_typed (process_slots l);
  policy_typed : length (policy_area l) = Z.to_nat LINBOX_POLICY_AREA_SIZE /\ Forall is_byte (policy_area l);
  reserved_typed : length (layout_reserved l) = Z.to_nat LINBOX_LAYOUT_RESERVED_SIZE /\ Forall is_byte (layout_reserved l) }.

Definition memory_typed (m : memory) : Prop := map_Forall (fun _ => layout_typed) m.

(** What the types of libc and the kernel say of an answer. *)
Definition answer_typed (x : ext) (a : answer) : Prop :=
  in_s 64 (ret a) /\
  match x with
  | XRead _ n => ret a <= Z.max 0 n /\ Z.of_nat (length (data a)) = Z.max 0 (ret a) /\ Forall is_byte (data a)
  | XClockGettime _ | XRawSyscall _ _ | XReal _ _ _ => Forall (in_s 64) (data a)
  | XShmOpen _ _ _ | XSocket | XAccept _ => in_s 32 (ret a)
  | _ => True
  end.

Class TypedOS {os : OS} : Prop := {
  typed_interfere : forall log m, memory_typed m -> memory_typed (os_interfere log m);
  typed_answer : forall log x, answer_typed x (os_answer log x) }.

(** ** The logic *)
Definition typed {S A} (I : S -> Prop) (T : A -> Prop) (m : M S A) : Prop :=
  forall p a q, m p = Ok (a, q) -> memory_typed (p_mem p) -> I (p_st p) ->
  memory_typed (p_mem q) /\ I (p_st q) /\ T a.

(** A result of the call [x]. *)
Definition returned (x : ext) (r : Z) : Prop := exists a, r = ret a /\ answer_typed x a.

Definition anything {A} (_ : A) : Prop := True.
#[export] Hint Extern 0 (anything _) => exact Logic.I : core.

Section Rules.
Context {S : Type} {os : OS} {Hos : TypedOS} {I : S -> Prop}.

Lemma typed_ret {A} (T : A -> Prop) a : T a -> typed I T (mret a).
Proof. intros Ha p b q [= <- <-] Hm HI. auto. Qed.

Lemma typed_bind {A B} (T : A -> Prop) (U : B -> Prop) (m : M S A) (f : A -> M S B) :
  typed I T m -> (forall a, T a -> typed I U (f a)) -> typed I U (a ← m; f a).
Proof.
  intros Hm Hf p b q H Hp HI. apply M_bind_Ok in H as (a & p' & H1 & H2).
  destruct (Hm _ _ _ H1 Hp HI) as (Hp' & HI' & Ha). exact (Hf a Ha _ _ _ H2 Hp' HI').
Qed.

Lemma typed_weaken {A} (T U : A -> Prop) (m : M S A) : typed I T m -> (forall a, T a -> U a) -> typed I U m.
Proof. intros Hm HT p a q H Hp HI. destruct (Hm _ _ _ H Hp HI) as (H1 & H2 & H3). auto. Qed.

Lemma typed_get_st : typed I I get_st.
Proof. intros p a q [= <- <-] Hm HI. auto. Qed.

Lemma typed_modify_st f : (forall s, I s -> I (f s)) -> typed I anything (modify_st f).
Proof. intros Hf p a q [= <- <-] Hm HI. cbn. auto. Qed.

Lemma typed_get_errno : typed I anything get_errno.
Proof. intros p a q [= <- <-] Hm HI. auto. Qed.

Lemma typed_set_errno e : typed I anything (set_errno e).
Proof. intros p a q [= <- <-] Hm HI. cbn. auto. Qed.

Lemma typed_undef {A} (T : A -> Prop) : typed I T undef.
Proof. intros p a q [=]. Qed.

Lemma typed_out_of_fuel {A} (T : A -> Prop) : typed I T out_of_fuel.
Proof. intros p a q [=]. Qed.

Lemma typed_lift {A} (T : A -> Prop) (r : res A) : (forall a, r = Ok a -> T a) -> typed I T (lift r).
Proof.
  intros Hr p a q H Hm HI. unfold lift in H. destruct r; [|discriminate..].
  injection H as <- <-. auto.
Qed.

Lemma typed_callA x : typed I (answer_typed x) (callA x).
Proof. intros p a q [= <- <-] Hm HI. cbn. auto using typed_answer. Qed.

Lemma typed_call x : typed I (returned x) (call x).
Proof. eapply typed_bind; [apply typed_callA|]. intros a Ha. apply typed_ret. exists a. auto. Qed.

Lemma typed_load r : typed I layout_typed (load r).
Proof.
  intros p a q H Hm HI. unfold load in H. pose proof (typed_interfere (p_log p) _ Hm) as Hm'.
  destruct (_ !! r) as [l|] eqn:E; [|discriminate]. injection H as <- <-. cbn. split; [exact Hm'|].
  split; [exact HI|exact (Hm' _ _ E)].
Qed.

Lemma typed_store r f : (forall l, layout_typed l -> layout_typed (f l)) -> typed I anything (store r f).
Proof.
  intros Hf p a q H Hm HI. unfold store in H. pose proof (typed_interfere (p_log p) _ Hm) as Hm'.
  destruct (_ !! r) as [l|] eqn:E; [|discriminate]. injection H as <- <-. cbn. split; [|split; [exact HI|exact Logic.I]].
  apply map_Forall_insert_2; [apply Hf, (Hm' _ _ E)|exact Hm'].
Qed.

(** A result that nothing depends on. *)
Lemma typed_any {A} (T : A -> Prop) (m : M S A) : typed I T m -> typed I anything m.
Proof. intros H. exact (typed_weaken T anything m H (fun _ _ => Logic.I)). Qed.

Lemma typed_if {A} (T : A -> Prop) (P : Prop) (d : Decision P) (m1 m2 : M S A) :
  (P -> typed I T m1) -> (~ P -> typed I T m2) -> typed I T (if decide P then m1 else m2).
Proof. destruct (decide P); auto. Qed.
End Rules.

Create HintDb typed.
#[export] Hint Resolve typed_get_st typed_get_errno typed_set_errno typed_undef typed_out_of_fuel
  typed_callA typed_call typed_load : typed.
#[export] Hint Extern 0 (anything _) => exact Logic.I : typed.

(** One step through the code: the rule for what comes first. *)
Ltac typed_step :=
  first
  [ progress (intros; cbv zeta)
  | solve [auto with typed nocore]
  | apply typed_undef
  | apply typed_out_of_fuel
  | match goal with
    | |- typed _ _ (if decide _ then _ else _) => apply typed_if
    | |- typed _ _ (mret _) => apply typed_ret
    | |- typed _ _ (mbind _ _) => eapply typed_bind; [solve [eauto with typed nocore]|]
    | |- typed _ _ (match ?x with _ => _ end) => destruct x eqn:?
    end ].
Ltac typed_code := repeat typed_step.

(** A constant of the program fits its type. *)
Ltac width := apply (bool_decide_unpack _); exact Logic.I.

(** ** The shared region *)
Lemma zero_slot_typed : slot_typed zero_slot.
Proof. split; try (unfold in_u; cbn; lia). split; [reflexivity|]. apply Forall_replicate. unfold is_byte. lia. Qed.

Lemma zero_layout_typed : layout_typed zero_layout.
Proof.
  assert (Hb : forall n, Forall is_byte (replicate n 0)) by (intros n; apply Forall_replicate; unfold is_byte; lia).
  split; cbn [zero_layout header time_seq virtual_time prng_seed flags process_slots policy_area layout_reserved].
  - split; cbn; try (unfold in_u; lia). split; [reflexivity|apply (Hb 32%nat)].
  - unfold in_u. lia.
  - split; unfold in_s; cbn; lia.
  - unfold in_u. lia.
  - unfold in_u. lia.
  - split; [apply length_replicate|apply Forall_replicate, zero_slot_typed].
  - split; [apply length_replicate|apply Hb].
  - split; [apply length_replicate|apply Hb].
Qed.

Lemma set_header_typed h l : header_typed h -> layout_typed l -> layout_typed (set_header h l).
Proof. intros Hh []. split; assumption. Qed.
Lemma set_heartbeat_typed x l : in_u 64 x -> layout_typed l -> layout_typed (set_heartbeat_ns x l).
Proof. intros Hx []. apply set_header_typed; [|split; assumption]. destruct header_ok0. split; assumption. Qed.
Lemma set_time_seq_typed x l : in_u 32 x -> layout_typed l -> layout_typed (set_time_seq x l).
Proof. intros Hx []. split; assumption. Qed.
Lemma set_virtual_time_typed x l : timespec_typed x -> layout_typed l -> layout_typed (set_virtual_time x l).
Proof. intros Hx []. split; assumption. Qed.
Lemma set_virtual_sec_typed x l : in_s 64 x -> layout_typed l -> layout_typed (set_virtual_sec x l).
Proof. intros Hx Hl. apply set_virtual_time_typed; [|exact Hl]. split; [exact Hx|apply Hl]. Qed.
Lemma set_virtual_nsec_typed x l : in_s 64 x -> layout_typed l -> layout_typed (set_virtual_nsec x l).
Proof. intros Hx Hl. apply set_virtual_time_typed; [|exact Hl]. split; [apply Hl|exact Hx]. Qed.
Lemma set_prng_seed_typed x l : in_u 64 x -> layout_typed l -> layout_typed (set_prng_seed x l).
Proof. intros Hx []. split; assumption. Qed.
Lemma set_flags_typed x l : in_u 32 x -> layout_typed l -> layout_typed (set_flags x l).
Proof. intros Hx []. split; assumption. Qed.
Lemma alter_slot_typed f i l : (forall s, slot_typed s -> slot_typed (f s)) ->
  layout_typed l -> layout_typed (set_process_slots (alter f i (process_slots l)) l).
Proof.
  intros Hf []. split; try assumption. cbn. destruct slots_typed0 as [Hlen HF].
  split; [rewrite length_alter; exact Hlen|]. apply Forall_alter; [exact HF|]. intros s _ Hs. apply Hf, Hs.
Qed.
#[export] Hint Resolve set_heartbeat_typed set_time_seq_typed set_virtual_sec_typed set_virtual_nsec_typed
  set_prng_seed_typed set_flags_typed alter_slot_typed zero_layout_typed zero_slot_typed : typed.

Section Region.
Context {S : Type} {os : OS} {Hos : TypedOS} {I : S -> Prop}.
Abbreviation tys := (typed I).

Lemma typed_now_ns : tys (in_u 64) now_ns.
Proof. unfold now_ns. typed_code; [unfold in_u; lia|apply wrap_range; lia]. Qed.
Hint Resolve typed_now_ns : typed.

(** A field update of the header. *)
Lemma typed_store_header r f : (forall h, header_typed h -> header_typed (f h)) ->
  tys anything (store r (fun l => set_header (f (header l)) l)).
Proof. intros Hf. apply typed_store. intros l Hl. apply set_header_typed; [apply Hf, Hl|exact Hl]. Qed.

Lemma typed_init_layout r : tys anything (linbox_shm_init_layout r).
Proof.
  unfold linbox_shm_init_layout. apply typed_if; intros _; [apply typed_ret; auto|]. cbv zeta.
  repeat (eapply typed_bind;
    [first [solve [auto with typed nocore]
           |apply typed_store_header; intros h []; split; solve [assumption|width]
           |apply typed_store; intros l Hl; cbv beta;
            first [exact zero_layout_typed|apply set_heartbeat_typed; assumption
                  |first [apply set_time_seq_typed|apply set_virtual_sec_typed|apply set_virtual_nsec_typed
                         |apply set_prng_seed_typed]; [width|exact Hl]]]
    |intros ? ?]).
  apply typed_store. intros l Hl. apply set_flags_typed; [width|exact Hl].
Qed.
Hint Resolve typed_init_layout : typed.

(** A handle as its type and the code that fills it allow: a descriptor is an
    [int]. *)
Definition handle_typed (h : linbox_shm_handle) : Prop := in_s 32 (fd h).
Definition handle_option_typed (o : option linbox_shm_handle) : Prop :=
  match o with Some h => handle_typed h | None => True end.

Lemma typed_open_map path oflags mode init out : handle_option_typed out ->
  tys (fun r => handle_option_typed r.2) (linbox_shm_open_map path oflags mode init out).
Proof.
  intros Hout. unfold linbox_shm_open_map. typed_code; try exact Hout.
  - match goal with H : returned _ _ |- _ => destruct H as (b & -> & _ & Hb) end.
    eapply typed_bind; [destruct init; [apply typed_any with (1 := typed_call _)|apply typed_ret; exact Logic.I]|].
    typed_code; try exact Hout.
    eapply typed_bind; [destruct init; [apply typed_init_layout|apply typed_ret; exact Logic.I]|].
    typed_code.
Qed.

Lemma typed_detach out : tys handle_option_typed (linbox_shm_detach out).
Proof.
  unfold linbox_shm_detach. destruct out as [h|]; [|apply typed_ret; exact Logic.I].
  eapply typed_bind; [apply (typed_if anything); typed_code; auto|]. intros _ _.
  eapply typed_bind; [apply (typed_if anything); typed_code; auto|]. typed_code. cbn. unfold handle_typed. width.
Qed.
Hint Resolve typed_open_map typed_detach : typed.

Lemma typed_create path out : handle_option_typed out ->
  tys (fun r => handle_option_typed r.2) (linbox_shm_create path out).
Proof. intros H. apply typed_open_map, H. Qed.

Lemma typed_attach path out : handle_option_typed out ->
  tys (fun r => handle_option_typed r.2) (linbox_shm_attach path out).
Proof.
  intros H. unfold linbox_shm_attach. eapply typed_bind; [apply typed_open_map, H|]. intros [rc o] Ho. cbn in Ho.
  typed_code; try exact Ho.
Qed.
Hint Resolve typed_create typed_attach : typed.

Lemma typed_destroy path out : tys anything (linbox_shm_destroy path out).
Proof.
  unfold linbox_shm_destroy. eapply typed_bind; [destruct out; [apply typed_detach|apply typed_ret; exact Logic.I]|].
  typed_code; auto.
Qed.

Lemma typed_write_time r ts : (forall t, ts = Some t -> timespec_typed t) -> tys anything (linbox_shm_write_time r ts).
Proof.
  intros Hts. unfold linbox_shm_write_time. destruct ts as [ts|]; [|apply typed_ret; auto].
  destruct (Hts ts eq_refl) as [Hs Hn]. apply typed_if; intros _; [apply typed_ret; auto|].
  eapply typed_bind; [apply typed_load|]. intros l Hl. cbv zeta.
  repeat (eapply typed_bind;
    [first [apply typed_now_ns
           |apply typed_store; intros l' Hl';
            first [apply set_time_seq_typed; [apply wrap_range; lia|exact Hl']
                  |apply set_virtual_sec_typed; assumption|apply set_virtual_nsec_typed; assumption]]
    |intros ? ?]).
  apply typed_store. intros l' Hl'. apply set_heartbeat_typed; assumption.
Qed.
Hint Resolve typed_destroy typed_write_time : typed.

(** ** The time manager *)
Definition manager_typed (m : linbox_time_manager) : Prop :=
  handle_typed (tm_shm m) /\ timespec_typed (tm_current m) /\ in_u 64 (tm_seed m).
Definition manager_option_typed (o : option linbox_time_manager) : Prop :=
  match o with Some m => manager_typed m | None => True end.

Lemma ns_add_typed ts d out : ns_add ts d = Ok out -> timespec_typed out.
Proof.
  intros H. apply ns_add_Ok_iff in H as (_ & _ & Hr & ->). unfold timespec_typed, of_ns, in_s in *.
  cbn [tv_sec tv_nsec]. pose proof (Z.mod_pos_bound (total_ns ts + d) 1000000000 ltac:(lia)).
  pose proof (Z.div_mod (total_ns ts + d) 1000000000 ltac:(lia)).
  set (x := _ / _) in *. set (y := _ mod _) in *. clearbody x y. lia.
Qed.

Lemma typed_tick tm d : manager_option_typed tm -> tys manager_option_typed (linbox_time_manager_tick tm d).
Proof.
  intros Hm. unfold linbox_time_manager_tick. destruct tm as [m|]; [|apply typed_ret; exact Hm].
  apply typed_if; intros _; [apply typed_ret; exact Hm|].
  eapply typed_bind; [apply typed_lift with (T := timespec_typed); intros a; apply ns_add_typed|]. intros ts Hts.
  eapply typed_bind; [apply typed_write_time; intros t [= <-]; exact Hts|]. intros _ _.
  apply typed_ret. destruct Hm as (Hh & _ & Hs). exact (conj Hh (conj Hts Hs)).
Qed.

Lemma typed_set_time tm ts : manager_option_typed tm -> timespec_typed ts ->
  tys manager_option_typed (linbox_time_manager_set_time tm (Some ts)).
Proof.
  intros Hm Hts. unfold linbox_time_manager_set_time. destruct tm as [m|]; [|apply typed_ret; exact Hm].
  apply typed_if; intros _; [apply typed_ret; exact Hm|].
  eapply typed_bind; [apply typed_write_time; intros t [= <-]; exact Hts|]. intros _ _.
  apply typed_ret. destruct Hm as (Hh & _ & Hs). exact (conj Hh (conj Hts Hs)).
Qed.

Lemma typed_set_seed tm s : manager_option_typed tm -> in_u 64 s ->
  tys manager_option_typed (linbox_time_manager_set_seed tm s).
Proof.
  intros Hm Hs. unfold linbox_time_manager_set_seed. destruct tm as [m|]; [|apply typed_ret; exact Hm].
  apply typed_if; intros _; [apply typed_ret; exact Hm|].
  eapply typed_bind; [apply typed_store; intros l Hl; apply set_prng_seed_typed; assumption|]. intros _ _.
  apply typed_ret. destruct Hm as (Hh & Ht & _). exact (conj Hh (conj Ht Hs)).
Qed.

Lemma typed_close tm path : tys anything (linbox_time_manager_close tm path).
Proof. unfold linbox_time_manager_close. typed_code; auto. Qed.

Lemma typed_open tm path : manager_option_typed tm ->
  tys (fun r => manager_option_typed r.2) (linbox_time_manager_open tm path).
Proof.
  intros Hm. unfold linbox_time_manager_open. destruct tm as [m|]; [|typed_code; exact Hm].
  destruct path as [path|]; [|typed_code; exact Hm]. cbv zeta.
  eapply typed_bind; [apply typed_create; cbn; unfold handle_typed; cbn; width|]. intros [rc h] Hh. cbn [snd] in Hh.
  eapply typed_bind.
  { apply typed_if with (T := fun r => handle_option_typed r.2); typed_code; exact Hh. }
  intros [rc2 h2] Hh2. destruct h2 as [h2|]; [|apply typed_undef]. cbn in Hh2.
  assert (Hz : timespec_typed (Timespec 0 0)) by (split; width).
  assert (He : timespec_typed (Timespec LINBOX_FAKE_EPOCH_SEC 0)) by (split; width).
  assert (H0 : in_u 64 0) by width.
  apply typed_if; intros _; [apply typed_ret; exact (conj Hh2 (conj Hz H0))|].
  eapply typed_bind; [apply typed_write_time; intros t [= <-]; exact He|]. intros _ _.
  eapply typed_bind; [apply typed_store; intros l Hl; apply set_prng_seed_typed; assumption|]. intros _ _.
  apply typed_ret. exact (conj Hh2 (conj He H0)).
Qed.
End Region.
#[export] Hint Resolve typed_now_ns typed_init_layout typed_open_map typed_detach typed_create typed_attach
  typed_destroy typed_write_time typed_tick typed_set_time typed_set_seed typed_close typed_open : typed.


(** ** Messages

    The bytes [read] stored in a frame buffer. *)
Lemma frame_after_read fd n b (frame : list Z) : answer_typed (XRead fd n) b ->
  0 <= n <= Z.of_nat (length frame) -> Forall is_byte frame ->
  Forall is_byte (data b ++ drop (length (data b)) frame) /\
  ret b <= Z.of_nat (length (data b ++ drop (length (data b)) frame)).
Proof.
  intros (_ & Hn & Hl & HF) Hlen Hfr. split; [apply Forall_app_2; [exact HF|apply Forall_drop, Hfr]|].
  rewrite length_app, length_drop. lia.
Qed.

(** What [sbp_deserialize_message] accepts has fields of their types. *)
Lemma deserialize_typed frame n m0 rc o : Forall is_byte frame -> 0 <= n <= Z.of_nat (length frame) ->
  sbp_deserialize_message (Some frame) n (Some m0) = Ok (rc, o) ->
  exists m, o = Some m /\ (rc = SBP_OK -> message_ok m).
Proof.
  intros HF Hn H. rewrite deserialize_message_eq in H by assumption.
  destruct (decode_message _) as [rc' om] eqn:E. injection H as <- <-. eexists. split; [reflexivity|]. intros ->.
  assert (HF' : Forall is_byte (take (Z.to_nat n) frame)) by (apply Forall_take, HF).
  destruct om as [m|]; [apply (decode_message_ok _ m HF'), E|].
  apply decode_message_refused in E. congruence.
Qed.

Lemma payload_set_time_typed t p x : payload_ok t p -> payload_set_time p = Ok x -> in_s 64 x.1 /\ in_s 32 x.2.
Proof. destruct p; cbn; try discriminate; intros H [= <-]; cbn; [split; width|apply H]. Qed.
Lemma payload_set_seed_typed t p x : payload_ok t p -> payload_set_seed p = Ok x -> in_u 64 x.
Proof. destruct p; cbn; try discriminate; intros H [= <-]; cbn; [width|apply H]. Qed.
Lemma payload_register_typed t p x : payload_ok t p -> payload_register_process p = Ok x -> in_u 32 x.1.
Proof. destruct p; cbn; try discriminate; intros H [= <-]; cbn; [width|apply H]. Qed.

(** ** The controller *)
Section Controller.
Context {os : OS} {Hos : TypedOS}.

(** [g_stop] is an [int]. *)
Definition controller_typed (s : controller) : Prop := in_s 32 (g_stop s).
Abbreviation tyc := (typed controller_typed).

Lemma typed_read_g_stop : tyc (in_s 32) read_g_stop.
Proof.
  unfold read_g_stop, on_signal. eapply typed_bind; [apply typed_call|]. intros n _.
  eapply typed_bind with (T := anything).
  { apply typed_if; intros _; [|apply typed_ret; auto]. apply typed_modify_st. intros _ _. unfold controller_typed. cbn. width. }
  intros _ _. eapply typed_bind; [apply typed_get_st|]. intros st Hst. apply typed_ret, Hst.
Qed.

Lemma typed_setup_server_socket path : tyc (in_s 32) (setup_server_socket path).
Proof.
  unfold setup_server_socket. eapply typed_bind; [apply typed_call|]. intros fd (b & -> & _ & Hb).
  typed_code; try exact Hb; width.
Qed.

Lemma typed_send_ack fd flags : tyc (in_s 32) (send_ack fd flags).
Proof.
  unfold send_ack. cbv zeta. eapply typed_bind; [apply typed_lift with (T := anything); intros ? _; exact Logic.I|].
  intros [[rc frame] n] _. typed_code; [width|case_decide; width].
Qed.

Lemma typed_load_slot r i : tyc slot_typed (load_slot r i).
Proof.
  unfold load_slot. eapply typed_bind; [apply typed_load|]. intros l Hl. typed_code.
  match goal with H : _ !! i = Some _ |- _ => exact (Forall_lookup_1 _ _ _ _ (proj2 (slots_typed _ Hl)) H) end.
Qed.

Lemma typed_store_slot r i f : (forall s, slot_typed s -> slot_typed (f s)) -> tyc anything (store_slot r i f).
Proof. intros Hf. apply typed_store. intros l Hl. apply alter_slot_typed; assumption. Qed.

Lemma slot_set_pid_typed x s : in_u 32 x -> slot_typed s -> slot_typed (slot_set_pid x s).
Proof. intros Hx []. split; assumption. Qed.
Lemma slot_set_flags_typed x s : in_u 32 x -> slot_typed s -> slot_typed (slot_set_flags x s).
Proof. intros Hx []. split; assumption. Qed.
Lemma slot_set_heartbeat_typed x s : in_u 64 x -> slot_typed s -> slot_typed (slot_set_heartbeat x s).
Proof. intros Hx []. split; assumption. Qed.
Lemma layout_heartbeat_typed l : layout_typed l -> in_u 64 (heartbeat_ns (header l)).
Proof. intros Hl. apply Hl. Qed.
Hint Resolve typed_read_g_stop typed_send_ack typed_load_slot : typed.

(** The two slot updates of [register_process]. *)
Lemma typed_store_heartbeat r i : tyc anything
  (l ← load r ; store_slot r i (slot_set_heartbeat (heartbeat_ns (header l)))).
Proof.
  eapply typed_bind; [apply typed_load|]. intros l Hl.
  apply typed_store_slot; intros s Hs. apply slot_set_heartbeat_typed; [apply layout_heartbeat_typed, Hl|exact Hs].
Qed.

Lemma typed_register_loop k r x : forall i e, tyc anything (register_loop k r i x e).
Proof.
  induction k as [|k IH]; intros i e; cbn [register_loop]; [apply typed_ret; auto|].
  eapply typed_bind; [apply typed_load_slot|]. intros s Hs. apply typed_if; intros _.
  - eapply typed_bind; [apply typed_load|]. intros l Hl. eapply typed_bind with (T := anything).
    { apply typed_store_slot. intros s' Hs'. apply slot_set_heartbeat_typed; [apply layout_heartbeat_typed, Hl|exact Hs']. }
    intros _ _. apply typed_ret. auto.
  - destruct e; [apply IH|]. eapply typed_bind; [apply typed_load_slot|]. intros s' _. apply IH.
Qed.

Lemma typed_register_process tm x : in_u 32 x -> tyc anything (register_process tm x).
Proof.
  intros Hx. unfold register_process. destruct tm as [m|]; [|apply typed_ret; auto]. cbv zeta.
  apply typed_if; intros _; [apply typed_ret; auto|].
  eapply typed_bind; [apply typed_register_loop|]. intros [[] [i|]] _; try (apply typed_ret; exact Logic.I).
  eapply typed_bind; [apply typed_store_slot; intros s Hs; apply slot_set_pid_typed; assumption|]. intros _ _.
  eapply typed_bind; [apply typed_store_slot; intros s Hs; apply slot_set_flags_typed; [width|exact Hs]|]. intros _ _.
  apply typed_store_heartbeat.
Qed.

Lemma typed_reap_loop k r : forall i, tyc anything (reap_loop k r i).
Proof.
  induction k as [|k IH]; intros i; cbn [reap_loop]; [apply typed_ret; auto|].
  eapply typed_bind; [apply typed_load_slot|]. intros s _. apply typed_if; intros _; [apply IH|].
  eapply typed_bind; [apply typed_load_slot|]. intros s' _.
  eapply typed_bind; [apply typed_call|]. intros rc _.
  eapply typed_bind; [apply typed_get_errno|]. intros e _. apply typed_if; intros _; [apply IH|].
  eapply typed_bind; [apply typed_store_slot; intros ? _; apply zero_slot_typed|]. intros _ _. apply IH.
Qed.

Lemma typed_reap tm : tyc anything (reap_dead_processes tm).
Proof.
  unfold reap_dead_processes. destruct tm as [m|]; [|apply typed_ret; auto].
  apply typed_if; intros _; [apply typed_ret; auto|apply typed_reap_loop].
Qed.

Lemma typed_read_frame fd : tyc (fun r => Forall is_byte r.2 /\ r.1 <= Z.of_nat (length r.2)) (read_frame fd).
Proof.
  unfold read_frame. eapply typed_bind; [apply typed_callA|]. intros b Hb. apply typed_ret.
  destruct (frame_after_read _ _ _ frame_buffer Hb) as [H1 H2]; [|apply Forall_replicate; unfold is_byte; lia|auto].
  unfold frame_buffer. rewrite length_replicate. split; [discriminate|]. vm_compute. discriminate.
Qed.

(** A request's effect, then the ACK. *)
Lemma typed_then_ack fd flags (m : M controller (option linbox_time_manager)) :
  tyc manager_option_typed m ->
  tyc (fun r => manager_option_typed r.2) (tm ← m ; rc ← send_ack fd flags ; mret (rc, tm)).
Proof.
  intros Hm. eapply typed_bind; [exact Hm|]. intros tm Htm.
  eapply typed_bind; [apply typed_send_ack|]. intros rc _. apply typed_ret. exact Htm.
Qed.

Lemma typed_handle fd tm : manager_option_typed tm ->
  tyc (fun r => manager_option_typed r.2) (handle_client_message fd tm).
Proof.
  intros Htm. unfold handle_client_message. eapply typed_bind; [apply typed_read_frame|].
  intros [n frame] [HF Hn]. cbn [fst snd] in *. apply typed_if; intros Hpos; [apply typed_ret, Htm|].
  eapply typed_bind.
  { apply typed_lift with (T := fun r => exists m, r.2 = Some m /\ (r.1 = SBP_OK -> message_ok m)).
    intros [rc o]. apply deserialize_typed; [exact HF|lia]. }
  intros [rc o] (msg & Ho & Hok). cbn [fst snd] in Ho, Hok. subst o.
  apply typed_if; intros Hrc; [apply typed_ret, Htm|].
  assert (Hp : payload_ok (m_type msg) (m_payload msg)) by (apply Hok; destruct (decide (rc = SBP_OK)); tauto).
  apply typed_if; intros _; [eapply typed_bind; [apply typed_send_ack|]; intros ? _; apply typed_ret, Htm|].
  apply typed_if; intros _.
  { eapply typed_bind; [apply typed_lift; intros x; apply (payload_set_time_typed _ _ x Hp)|].
    intros [sec nsec] [Hs Hns]. cbn [fst snd] in Hs, Hns. apply typed_then_ack, typed_set_time; [exact Htm|].
    split; [exact Hs|]. cbn. unfold in_s in *. lia. }
  apply typed_if; intros _.
  { eapply typed_bind; [apply typed_lift; intros x; apply (payload_set_seed_typed _ _ x Hp)|]. intros seed Hs.
    apply typed_then_ack, typed_set_seed; assumption. }
  apply typed_if; intros _; [|apply typed_ret, Htm].
  eapply typed_bind; [apply typed_lift; intros x; apply (payload_register_typed _ _ x Hp)|]. intros [pid s] Hpid.
  eapply typed_bind; [apply typed_register_process, Hpid|]. intros _ _.
  eapply typed_bind; [apply typed_send_ack|]. intros rc' _. apply typed_ret. exact Htm.
Qed.

(** The client table: [int]s, in an array of fixed length. *)
Definition clients_typed (fds : list Z) : Prop :=
  length fds = Z.to_nat LINBOX_PROCESS_SLOT_COUNT /\ Forall (in_s 32) fds.

Record loop_typed (st : loop_state) : Prop := {
  loop_fds_typed : clients_typed (client_fds st);
  loop_count_typed : (client_count st <= Z.to_nat LINBOX_PROCESS_SLOT_COUNT)%nat;
  loop_tick_typed : timespec_typed (last_tick st);
  loop_tm_typed : manager_option_typed (loop_tm st) }.

Lemma insert_typed i fd fds : in_s 32 fd -> clients_typed fds -> clients_typed (<[i := fd]> fds).
Proof. intros Hfd [Hl HF]. split; [rewrite length_insert; exact Hl|apply Forall_insert; assumption]. Qed.

Lemma nth_typed i fds : clients_typed fds -> in_s 32 (nth i fds 0).
Proof.
  intros [_ HF]. destruct (decide (i < length fds)%nat) as [Hi|Hi].
  - apply Forall_nth with (i := i) (d := 0) in HF; assumption.
  - rewrite nth_overflow by lia. width.
Qed.

Definition clients_result (r : list Z * nat * option linbox_time_manager) : Prop :=
  clients_typed r.1.1 /\ (r.1.2 <= Z.to_nat LINBOX_PROCESS_SLOT_COUNT)%nat /\ manager_option_typed r.2.

Lemma typed_client_loop fuel revents : forall i fds count tm, clients_typed fds ->
  (count <= Z.to_nat LINBOX_PROCESS_SLOT_COUNT)%nat -> manager_option_typed tm ->
  tyc clients_result (client_loop fuel revents i fds count tm).
Proof.
  induction fuel as [|fuel IH]; intros i fds count tm Hf Hc Htm; cbn [client_loop].
  { apply typed_if; intros _; [apply typed_out_of_fuel|]. apply typed_ret. exact (conj Hf (conj Hc Htm)). }
  apply typed_if; intros Hi; [|apply typed_ret; exact (conj Hf (conj Hc Htm))]. cbv zeta.
  assert (Hclose : forall tm, manager_option_typed tm -> tyc clients_result
    (_ ← call (XClose (nth i fds 0)) ;
     let '(fds, count) := remove_client i fds count in client_loop fuel revents i fds count tm)).
  { intros tm' Htm'. eapply typed_bind; [apply typed_call|]. intros _ _. cbn [remove_client].
    apply IH; [apply insert_typed; [apply nth_typed|]; exact Hf|lia|exact Htm']. }
  apply typed_if; intros _; [apply Hclose, Htm|].
  apply typed_if; intros _; [|apply IH; assumption].
  eapply typed_bind; [apply typed_handle, Htm|]. intros [rc tm'] Htm'.
  apply typed_if; intros _; [apply Hclose, Htm'|apply IH; assumption].
Qed.

Lemma words_typed (a : answer) : Forall (in_s 64) (data a) ->
  timespec_typed (Timespec (nth 0 (data a) 0) (nth 1 (data a) 0)).
Proof.
  assert (H0 : in_s 64 0) by width. intros H. destruct (data a) as [|x [|y l]]; cbn.
  - split; exact H0.
  - split; [exact (Forall_inv H)|exact H0].
  - split; [exact (Forall_inv H)|exact (Forall_inv (Forall_inv_tail H))].
Qed.

Lemma typed_monotonic_now : tyc timespec_typed monotonic_now.
Proof.
  unfold monotonic_now. eapply typed_bind; [apply typed_callA|]. intros a [_ Ha]. apply typed_ret, words_typed, Ha.
Qed.

(** The listening descriptor's turn. *)
Lemma typed_accept listen_fd (st : loop_state) : loop_typed st ->
  tyc (fun r => clients_typed r.1 /\ (r.2 <= Z.to_nat LINBOX_PROCESS_SLOT_COUNT)%nat)
    (fd ← call (XAccept listen_fd) ;
     if decide (0 <= fd /\ (client_count st < Z.to_nat LINBOX_PROCESS_SLOT_COUNT)%nat)
     then mret (<[client_count st := fd]> (client_fds st), (client_count st + 1)%nat)
     else if decide (0 <= fd)
     then _ ← call (XClose fd) ; mret (client_fds st, client_count st)
     else mret (client_fds st, client_count st)).
Proof.
  intros [Hf Hc _ _]. eapply typed_bind; [apply typed_call|]. intros fd (b & -> & _ & Hb). typed_code.
  all: cbn [fst snd]; split; first [assumption|apply insert_typed; assumption|lia].
Qed.

Definition next_typed (o : option loop_state) : Prop :=
  match o with Some st => loop_typed st | None => True end.

Lemma typed_main_iteration listen_fd st : loop_typed st -> tyc next_typed (main_iteration listen_fd st).
Proof.
  intros Hst. pose proof Hst as [Hf Hc Ht Htm]. unfold main_iteration. cbv zeta.
  eapply typed_bind; [apply typed_callA|]. intros a _. apply typed_if; intros _.
  { eapply typed_bind; [apply typed_get_errno|]. intros e _. apply typed_ret. case_decide; [exact Hst|exact Logic.I]. }
  eapply typed_bind; [apply typed_if; intros _; [apply typed_accept, Hst|apply typed_ret; exact (conj Hf Hc)]|].
  intros [fds count] [Hf' Hc']. cbn [fst snd] in Hf', Hc'.
  eapply typed_bind; [apply typed_client_loop; assumption|]. intros [[fds' count'] tm] (Hf2 & Hc2 & Htm2).
  cbn [fst snd] in Hf2, Hc2, Htm2.
  eapply typed_bind; [apply typed_monotonic_now|]. intros now Hnow.
  eapply typed_bind; [apply typed_lift with (T := anything); intros; exact Logic.I|]. intros d _.
  apply typed_if; intros _; [|apply typed_ret; split; assumption].
  eapply typed_bind; [apply typed_tick, Htm2|]. intros tm' Htm'.
  eapply typed_bind; [apply typed_reap|]. intros _ _. apply typed_ret. split; assumption.
Qed.

Lemma typed_main_loop fuel listen_fd : forall st, loop_typed st -> tyc loop_typed (main_loop fuel listen_fd st).
Proof.
  induction fuel as [|fuel IH]; intros st Hst; cbn [main_loop].
  all: eapply typed_bind; [apply typed_read_g_stop|]; intros stop _.
  all: apply typed_if; intros _; [apply typed_ret, Hst|].
  - apply typed_out_of_fuel.
  - eapply typed_bind; [apply typed_main_iteration, Hst|]. intros [st'|] Hst'; [apply IH, Hst'|apply typed_ret, Hst].
Qed.

Lemma typed_close_all fds : tyc anything (close_all fds).
Proof.
  induction fds as [|fd fds IH]; cbn [close_all]; [apply typed_ret; exact Logic.I|].
  eapply typed_bind; [apply typed_call|]. intros _ _. apply IH.
Qed.

(** The loop state [main] starts from. *)
Lemma initial_loop_typed now tm : timespec_typed now -> manager_option_typed tm ->
  loop_typed (LoopState (replicate (Z.to_nat LINBOX_PROCESS_SLOT_COUNT) 0) 0 now tm).
Proof.
  intros Hnow Htm. split; [|apply Nat.le_0_l|exact Hnow|exact Htm].
  split; [apply length_replicate|]. apply Forall_replicate. width.
Qed.

Lemma typed_main environ fuel : tyc (fun rc => rc = 0 \/ rc = 1) (main environ fuel).
Proof.
  unfold main. cbv zeta. do 2 (eapply typed_bind; [apply typed_call|]; intros _ _).
  eapply typed_bind; [apply typed_open; cbn; split; [unfold handle_typed; cbn|split; [split|]]; width|].
  intros [rc tm] Htm. cbn [snd] in Htm. apply typed_if; intros _.
  { eapply typed_bind; [apply typed_call|]. intros _ _. apply typed_ret. auto. }
  eapply typed_bind; [apply typed_setup_server_socket|]. intros listen_fd _. apply typed_if; intros _.
  { eapply typed_bind; [apply typed_call|]. intros _ _.
    eapply typed_bind; [apply typed_close|]. intros _ _. apply typed_ret. auto. }
  eapply typed_bind; [apply typed_call|]. intros _ _.
  eapply typed_bind; [apply typed_monotonic_now|]. intros now Hnow.
  eapply typed_bind; [apply typed_main_loop, initial_loop_typed; assumption|]. intros st _.
  eapply typed_bind; [apply typed_close_all|]. intros _ _.
  do 2 (eapply typed_bind; [apply typed_call|]; intros _ _).
  eapply typed_bind; [apply typed_close|]. intros _ _. apply typed_ret. auto.
Qed.

(** C12: every value of the controller keeps its C type. In any environment that
    answers and writes the shared memory with values of the declared types, an
    iteration of the event loop leaves every field of the shared layout within
    its width (the 32-bit sequence and slot identifiers, the 64-bit seed,
    heartbeat and timespec fields, the arrays at their declared lengths), the
    client table at its 64 entries of type [int] with a count that stays within
    it, and the manager's clock and seed within 64 bits; and so does the whole
    of [main], which returns 0 or 1. *)
Theorem controller_types (environ : list string) (fuel : nat) (listen_fd : Z) (st : loop_state)
    (p : proc controller) (Hmem : memory_typed (p_mem p)) (Hstop : in_s 32 (g_stop (p_st p)))
    (Hst : loop_typed st) :
  (forall next q, main_iteration listen_fd st p = Ok (next, q) ->
     memory_typed (p_mem q) /\ in_s 32 (g_stop (p_st q)) /\ next_typed next) /\
  (forall rc q, main environ fuel p = Ok (rc, q) ->
     memory_typed (p_mem q) /\ in_s 32 (g_stop (p_st q)) /\ (rc = 0 \/ rc = 1)).
Proof.
  split; [intros next q H|intros rc q H].
  - exact (typed_main_iteration listen_fd st Hst _ _ _ H Hmem Hstop).
  - exact (typed_main environ fuel _ _ _ H Hmem Hstop).
Qed.
End Controller.
