(* ===== verification/ControllerFacts.v ===== *)
(** * What the controller does

    The process table, the messages and the event loop of Controller.v, where
    only the controller writes the shared region. *)
From S2P Require Import Prelude Bytes Sbp ShmLayout Os Shm Env TimeManager Controller.

(** ** The process table as a list

    Registering refreshes the slot of the process if it has one, else takes the
    first free slot, else does nothing; reaping clears the slots of the
    processes that are gone. *)
Definition register_slots (the_pid hb : Z) (slots : list linbox_process_slot)
  : list linbox_process_slot :=
  if decide (the_pid = 0) then slots
  else
    match list_find (fun s => pid s = the_pid) slots with
    | Some (i, _) => alter (slot_set_heartbeat hb) i slots
    | None =>
        match list_find (fun s => pid s = 0) slots with
        | Some (i, s) => <[i := ProcessSlot the_pid 0 hb (slot_reserved s)]> slots
        | None => slots
        end
    end.

Definition reap_slot (alive : Z -> bool) (s : linbox_process_slot) : linbox_process_slot :=
  if decide (pid s = 0) then s else if alive (pid s) then s else zero_slot.
Definition reap_slots (alive : Z -> bool) (slots : list linbox_process_slot)
  : list linbox_process_slot := reap_slot alive <$> slots.

(** A table of 64 slots in which no process appears twice. *)
Definition table_ok (slots : list linbox_process_slot) : Prop :=
  length slots = Z.to_nat LINBOX_PROCESS_SLOT_COUNT /\
  forall i j s t, slots !! i = Some s -> slots !! j = Some t ->
    pid s = pid t -> pid s <> 0 -> i = j.

Definition registered (the_pid : Z) (slots : list linbox_process_slot) : Prop :=
  exists s, s ∈ slots /\ pid s = the_pid.

Lemma register_slots_length the_pid hb slots :
  length (register_slots the_pid hb slots) = length slots.
Proof.
  unfold register_slots. case_decide; [reflexivity|].
  destruct (list_find _ slots) as [[i s]|]; [apply length_alter|].
  destruct (list_find _ slots) as [[i s]|]; [apply length_insert|reflexivity].
Qed.

Lemma list_find_None_not {A} (P : A -> Prop) `{!forall x, Decision (P x)} l i x :
  list_find P l = None -> l !! i = Some x -> ~ P x.
Proof.
  intros Hn Hl. apply list_find_None in Hn. rewrite Forall_forall in Hn.
  apply Hn. eapply list_elem_of_lookup_2, Hl.
Qed.

(** Which processes the table holds afterwards. *)
Lemma register_slots_pids the_pid hb slots i s :
  register_slots the_pid hb slots !! i = Some s ->
  (exists t, slots !! i = Some t /\ pid s = pid t) \/
  (pid s = the_pid /\ the_pid <> 0 /\ (forall j t, slots !! j = Some t -> pid t <> the_pid) /\
   exists t, list_find (fun s => pid s = 0) slots = Some (i, t)).
Proof.
  unfold register_slots. destruct (decide (the_pid = 0)) as [|H0]; [eauto|].
  destruct (list_find (fun s => pid s = the_pid) slots) as [[k sk]|] eqn:Ef.
  - rewrite list_lookup_alter. case_decide as Hik; [subst i|eauto]. intros H.
    apply fmap_Some in H as (t & Ht & ->). left. exists t. auto.
  - destruct (list_find (fun s => pid s = 0) slots) as [[k sk]|] eqn:Ee; [|eauto].
    rewrite list_lookup_insert. case_decide as Hik; [|eauto].
    intros [= <-]. destruct Hik as [<- _]. right. split; [reflexivity|]. split; [exact H0|]. split; [|eauto].
    intros j t Hj. exact (list_find_None_not _ _ _ _ Ef Hj).
Qed.

Lemma register_slots_ok the_pid hb slots : table_ok slots -> table_ok (register_slots the_pid hb slots).
Proof.
  intros [Hlen Hnd]. split; [rewrite register_slots_length; exact Hlen|].
  intros i j s t Hi Hj He H0.
  apply register_slots_pids in Hi as [(s0 & Hi & Hs)|(Hs & _ & Hno & s0 & Hf)];
    apply register_slots_pids in Hj as [(t0 & Hj & Ht)|(Ht & _ & Hno' & t0 & Hf')].
  - apply (Hnd i j s0 t0 Hi Hj); congruence.
  - exfalso. apply (Hno' i s0 Hi). congruence.
  - exfalso. apply (Hno j t0 Hj). congruence.
  - congruence.
Qed.

Lemma reap_slot_live alive s : pid (reap_slot alive s) <> 0 -> reap_slot alive s = s.
Proof.
  unfold reap_slot. destruct (decide (pid s = 0)); [auto|]. destruct (alive (pid s)); [auto|].
  intros H. exfalso. apply H. reflexivity.
Qed.

Lemma reap_slots_ok alive slots : table_ok slots -> table_ok (reap_slots alive slots).
Proof.
  intros [Hlen Hnd]. split; [unfold reap_slots; rewrite length_fmap; exact Hlen|].
  unfold reap_slots. intros i j s t Hi Hj He H0.
  apply list_lookup_fmap_Some in Hi as (s0 & -> & Hi). apply list_lookup_fmap_Some in Hj as (t0 & -> & Hj).
  assert (H1 : pid (reap_slot alive t0) <> 0) by congruence.
  pose proof (reap_slot_live alive s0 H0) as E0. pose proof (reap_slot_live alive t0 H1) as E1.
  rewrite E0 in He, H0. rewrite E1 in He. exact (Hnd i j s0 t0 Hi Hj He H0).
Qed.


(** ** The loops compute these functions *)
Section Table.
Context {os : OS} {Hquiet : QuietMemory}.

Lemma load_slot_eq r i (p : proc controller) l s :
  p_mem p !! r = Some l -> process_slots l !! i = Some s ->
  load_slot r i p = Ok (s, Proc (p_st p) (p_errno p) (p_mem p) (p_log p ++ [mem_event r])).
Proof. intros Hl Hs. unfold load_slot. rewrite M_bind_eq, (load_eq r p l Hl), Hs. reflexivity. Qed.

Lemma store_slot_eq r i f (p : proc controller) l :
  p_mem p !! r = Some l ->
  store_slot r i f p =
  Ok (tt, Proc (p_st p) (p_errno p)
            (<[r := set_process_slots (alter f i (process_slots l)) l]> (p_mem p))
            (p_log p ++ [mem_event r])).
Proof.
  intros Hl. exact (store_eq r (fun l => set_process_slots (alter f i (process_slots l)) l) p l Hl).
Qed.

(** The index of the first slot from [i] on that satisfies [P]. *)
Definition find_from (P : linbox_process_slot -> Prop) `{!forall s, Decision (P s)} (i : nat)
    (slots : list linbox_process_slot) : option nat :=
  (fun js => (i + js.1)%nat) <$> list_find P (drop i slots).

Lemma find_from_here P `{!forall s, Decision (P s)} i slots s :
  slots !! i = Some s -> P s -> find_from P i slots = Some i.
Proof.
  intros Hs HP. unfold find_from. erewrite drop_S by exact Hs. cbn.
  rewrite decide_True by exact HP. cbn. f_equal. lia.
Qed.

Lemma find_from_next P `{!forall s, Decision (P s)} i slots s :
  slots !! i = Some s -> ~ P s -> find_from P i slots = find_from P (i + 1) slots.
Proof.
  intros Hs HP. unfold find_from. erewrite drop_S by exact Hs. cbn.
  rewrite decide_False by exact HP. replace (i + 1)%nat with (S i) by lia.
  destruct (list_find P (drop (S i) slots)) as [[j t]|]; cbn; [f_equal; lia|reflexivity].
Qed.

Lemma find_from_end P `{!forall s, Decision (P s)} i slots :
  (length slots <= i)%nat -> find_from P i slots = None.
Proof. intros Hge. unfold find_from. rewrite drop_ge by exact Hge. reflexivity. Qed.

Lemma register_loop_eq r the_pid l k : forall i empty (p : proc controller),
  p_mem p !! r = Some l -> length (process_slots l) = (i + k)%nat ->
  exists log empty',
  register_loop k r i the_pid empty p =
  match find_from (fun s => pid s = the_pid) i (process_slots l) with
  | Some j =>
      Ok ((true, empty'), Proc (p_st p) (p_errno p)
        (<[r := set_process_slots
                  (alter (slot_set_heartbeat (heartbeat_ns (header l))) j (process_slots l)) l]> (p_mem p)) log)
  | None =>
      Ok ((false, match empty with
                  | Some e => Some e
                  | None => find_from (fun s => pid s = 0) i (process_slots l) end),
          Proc (p_st p) (p_errno p) (p_mem p) log)
  end.
Proof.
  induction k as [|k IH]; intros i empty p Hl Hlen; cbn [register_loop].
  { rewrite !find_from_end by lia. destruct p. eexists _, None. destruct empty; reflexivity. }
  destruct (lookup_lt_is_Some_2 (process_slots l) i) as [s Hs]; [lia|].
  rewrite M_bind_eq, (load_slot_eq r i p l s Hl Hs). destruct (decide (pid s = the_pid)) as [Hp|Hp].
  { rewrite (find_from_here _ i _ s Hs Hp). rewrite M_bind_eq, (load_eq r _ l) by exact Hl.
    rewrite M_bind_eq, (store_slot_eq r i _ _ l) by exact Hl. eexists _, _. reflexivity. }
  rewrite (find_from_next (fun s => pid s = the_pid) i _ s Hs Hp).
  destruct empty as [e|].
  - destruct (IH (i + 1)%nat (Some e) (Proc (p_st p) (p_errno p) (p_mem p) (p_log p ++ [mem_event r])))
      as (log & e' & ->); [exact Hl|lia|]. eexists _, _. reflexivity.
  - rewrite M_bind_eq, (load_slot_eq r i _ l s) by assumption. cbn [p_st p_errno p_mem p_log].
    match goal with |- context [register_loop k r _ _ ?e ?q] =>
      destruct (IH (i + 1)%nat e q) as (log & e' & ->); [exact Hl|lia|] end.
    eexists _, _. destruct (find_from (fun s => pid s = the_pid) _ _); [reflexivity|].
    destruct (decide (pid s = 0)) as [H0|H0].
    + rewrite (find_from_here (fun s => pid s = 0) i _ s Hs H0). reflexivity.
    + rewrite (find_from_next (fun s => pid s = 0) i _ s Hs H0). reflexivity.
Qed.

Lemma find_from_0 P `{!forall s, Decision (P s)} slots :
  find_from P 0 slots = fst <$> list_find P slots.
Proof. unfold find_from. rewrite drop_0. destruct (list_find P slots) as [[]|]; reflexivity. Qed.

Lemma set_process_slots_id l : set_process_slots (process_slots l) l = l.
Proof. destruct l. reflexivity. Qed.

Lemma register_process_eq m the_pid (p : proc controller) l :
  layout (tm_shm m) <> NULL -> p_mem p !! layout (tm_shm m) = Some l ->
  length (process_slots l) = Z.to_nat LINBOX_PROCESS_SLOT_COUNT ->
  exists log, register_process (Some m) the_pid p =
    Ok (tt, Proc (p_st p) (p_errno p)
      (<[layout (tm_shm m) := set_process_slots
           (register_slots the_pid (heartbeat_ns (header l)) (process_slots l)) l]> (p_mem p)) log).
Proof.
  intros Hr Hl Hlen. unfold register_process, register_slots.
  destruct (decide (the_pid = 0)) as [H0|H0].
  { rewrite decide_True by auto. rewrite set_process_slots_id, insert_id by exact Hl.
    destruct p. eexists. reflexivity. }
  rewrite decide_False by (intros [?|?]; contradiction). rewrite M_bind_eq.
  destruct (register_loop_eq (layout (tm_shm m)) the_pid l _ 0%nat None p Hl Hlen) as (log & e' & ->).
  rewrite !find_from_0.
  destruct (list_find (fun s => pid s = the_pid) (process_slots l)) as [[j s]|]; cbn [fmap option_fmap option_map fst].
  { eexists. reflexivity. }
  destruct (list_find (fun s => pid s = 0) (process_slots l)) as [[j s]|] eqn:E; cbn [fmap option_fmap option_map fst].
  - rewrite M_bind_eq, (store_slot_eq _ _ _ _ l) by exact Hl. cbn [p_st p_errno p_mem p_log].
    rewrite M_bind_eq. erewrite store_slot_eq by apply lookup_insert_eq. cbn [p_st p_errno p_mem p_log].
    rewrite M_bind_eq, insert_insert_eq, load_again.
    erewrite store_slot_eq by apply lookup_insert_eq. cbn [p_st p_errno p_mem p_log].
    rewrite insert_insert_eq. eexists.
    match goal with |- Ok (_, Proc _ _ (<[_ := ?A]> _) _) = Ok (_, Proc _ _ (<[_ := ?B]> _) _) =>
      assert (HAB : A = B); [|rewrite HAB; reflexivity] end.
    apply list_find_Some in E as (Hj & _ & _). pose proof (lookup_lt_Some _ _ _ Hj).
    unfold set_process_slots. cbn. f_equal. apply list_eq. intros i.
    rewrite !list_lookup_alter, list_lookup_insert.
    destruct (decide (j = i)) as [<-|Hji].
    + rewrite !decide_True by auto. rewrite Hj. reflexivity.
    + rewrite decide_False by tauto. reflexivity.
  - rewrite set_process_slots_id, insert_id by exact Hl. eexists. reflexivity.
Qed.
End Table.


(** ** Who is in the table *)
Lemma registered_lookup x slots : registered x slots <-> exists i s, slots !! i = Some s /\ pid s = x.
Proof.
  unfold registered. split.
  - intros (s & Hs & Hp). apply list_elem_of_lookup_1 in Hs as [i Hi]. eauto.
  - intros (i & s & Hi & Hp). exists s. split; [eapply list_elem_of_lookup_2, Hi|exact Hp].
Qed.

Lemma register_slots_keeps the_pid hb slots i s :
  slots !! i = Some s -> pid s <> 0 ->
  exists t, register_slots the_pid hb slots !! i = Some t /\ pid t = pid s.
Proof.
  intros Hi H0. unfold register_slots. destruct (decide (the_pid = 0)); [eauto|].
  destruct (list_find _ slots) as [[k sk]|] eqn:Ef.
  - rewrite list_lookup_alter. destruct (decide (k = i)) as [->|]; [|eauto].
    rewrite Hi. eexists. split; reflexivity.
  - destruct (list_find (fun s => pid s = 0) slots) as [[k sk]|] eqn:Ee; [|eauto].
    rewrite list_lookup_insert. destruct (decide (k = i /\ _)) as [[-> _]|]; [|eauto].
    apply list_find_Some in Ee as (Hk & Hz & _). congruence.
Qed.

Lemma registered_others the_pid hb slots x : x <> the_pid -> x <> 0 ->
  registered x (register_slots the_pid hb slots) <-> registered x slots.
Proof.
  intros Hx H0. rewrite !registered_lookup. split.
  - intros (i & s & Hi & Hp). apply register_slots_pids in Hi as [(t & Hi & Ht)|(Hs & _)]; [|congruence].
    exists i, t. split; [exact Hi|congruence].
  - intros (i & s & Hi & Hp). destruct (register_slots_keeps the_pid hb slots i s Hi) as (t & Ht & Hpt);
      [congruence|]. exists i, t. split; [exact Ht|congruence].
Qed.

Lemma registered_after the_pid hb slots : the_pid <> 0 ->
  registered the_pid (register_slots the_pid hb slots) <->
  registered the_pid slots \/ registered 0 slots.
Proof.
  intros H0. rewrite !registered_lookup. split.
  - intros (i & s & Hi & Hp). apply register_slots_pids in Hi as [(t & Hi & Ht)|(_ & _ & _ & t & Hf)].
    + left. exists i, t. split; [exact Hi|congruence].
    + right. apply list_find_Some in Hf as (Hi & Hz & _). eauto.
  - intros [(i & s & Hi & Hp)|(i & s & Hi & Hp)].
    + destruct (register_slots_keeps the_pid hb slots i s Hi) as (t & Ht & Hpt); [congruence|].
      exists i, t. split; [exact Ht|congruence].
    + unfold register_slots. rewrite decide_False by exact H0.
      destruct (list_find (fun s => pid s = the_pid) slots) as [[k sk]|] eqn:Ef.
      * apply list_find_Some in Ef as (Hk & Hpk & _). exists k. rewrite list_lookup_alter, decide_True, Hk by reflexivity.
        eexists. split; [reflexivity|exact Hpk].
      * destruct (list_find (fun s => pid s = 0) slots) as [[k sk]|] eqn:Ee.
        -- apply list_find_Some in Ee as (Hk & _ & _). exists k. rewrite list_lookup_insert, decide_True
             by (split; [reflexivity|eapply lookup_lt_Some, Hk]). eexists. split; reflexivity.
        -- exfalso. exact (list_find_None_not _ _ _ _ Ee Hi Hp).
Qed.

Lemma registered_reaped alive slots x : x <> 0 ->
  registered x (reap_slots alive slots) <-> registered x slots /\ alive x = true.
Proof.
  intros Hx. rewrite !registered_lookup. unfold reap_slots, reap_slot. split.
  - intros (i & s & Hi & Hp). apply list_lookup_fmap_Some in Hi as (t & -> & Hi).
    destruct (decide (pid t = 0)); [congruence|]. destruct (alive (pid t)) eqn:Ea; [|cbn in Hp; congruence].
    split; [eauto|congruence].
  - intros ((i & s & Hi & Hp) & Ha). exists i, s. split; [|exact Hp]. apply list_lookup_fmap_Some.
    exists s. split; [|exact Hi]. rewrite decide_False by congruence. rewrite Hp, Ha. reflexivity.
Qed.

(** ** Reaping *)

(** What [kill (pid, 0)] answers: the process exists, perhaps out of reach, or
    it does not. *)
Definition kill_says {os : OS} (alive : Z -> bool) : Prop :=
  forall log n, let a := os_answer log (XKill n 0) in
  if alive n then ret a = 0 \/ (ret a = -1 /\ err a = EPERM) else ret a = -1 /\ err a <> EPERM.

Section Reap.
Context {os : OS} {Hquiet : QuietMemory}.

(** What the reaper makes of [kill]. *)
Lemma kill_verdict alive log n (e : Z) : kill_says alive ->
  let a := os_answer log (XKill n 0) in
  (ret a = 0 \/ (if decide (ret a < 0) then err a else e) = EPERM) <-> alive n = true.
Proof.
  intros Hkill. cbv zeta. specialize (Hkill log n). cbv zeta in Hkill. destruct (alive n).
  - split; [reflexivity|]. intros _. destruct Hkill as [H|[H He]]; [auto|right]. rewrite decide_True by lia. exact He.
  - destruct Hkill as [H He]. rewrite decide_True by lia. split; [intros [?|?]; [lia|contradiction]|discriminate].
Qed.

Lemma reap_loop_eq r alive k : kill_says alive -> forall done rest (p : proc controller) l,
  p_mem p !! r = Some l -> process_slots l = done ++ rest -> length rest = k ->
  exists e log,
  reap_loop k r (length done) p =
  Ok (tt, Proc (p_st p) e
    (<[r := set_process_slots (done ++ reap_slots (fun x => alive (i32 x)) rest) l]> (p_mem p)) log).
Proof.
  intros Hkill. induction k as [|k IH]; intros done rest p l Hl Hs Hk; cbn [reap_loop].
  { apply nil_length_inv in Hk as ->. cbn. rewrite <- Hs, set_process_slots_id, insert_id by exact Hl.
    destruct p. eexists _, _. reflexivity. }
  destruct rest as [|s rest]; [discriminate|]. injection Hk as Hk.
  assert (Hi : process_slots l !! length done = Some s)
    by (rewrite Hs, lookup_app_r, Nat.sub_diag by lia; reflexivity).
  assert (Hkeep : forall t (q : proc controller) l', p_mem q !! r = Some l' ->
    process_slots l' = (done ++ [t]) ++ rest -> 
    set_process_slots [] l' = set_process_slots [] l ->
    reap_slot (fun x => alive (i32 x)) s = t ->
    exists e log, reap_loop k r (length done + 1) q = Ok (tt, Proc (p_st q) e
      (<[r := set_process_slots (done ++ reap_slots (fun x => alive (i32 x)) (s :: rest)) l]> (p_mem q)) log)).
  { intros t q l' Hl' Hs' Hrest Ht. replace (length done + 1)%nat with (length (done ++ [t]))
      by (rewrite length_app; reflexivity).
    destruct (IH (done ++ [t]) rest q l' Hl' Hs' Hk) as (e & log & ->). eexists e, log.
    replace (done ++ reap_slots _ (s :: rest)) with ((done ++ [t]) ++ reap_slots (fun x => alive (i32 x)) rest)
      by (rewrite <- app_assoc; unfold reap_slots; cbn; rewrite Ht; reflexivity).
    unfold set_process_slots in *. injection Hrest as -> -> -> -> -> -> ->. reflexivity. }
  rewrite M_bind_eq, (load_slot_eq r _ p l s Hl Hi).
  assert (Hs' : process_slots l = (done ++ [s]) ++ rest) by (rewrite <- app_assoc; exact Hs).
  destruct (decide (pid s = 0)) as [H0|H0].
  { refine (Hkeep s (Proc (p_st p) _ (p_mem p) _) l Hl Hs' eq_refl _). unfold reap_slot. apply decide_True, H0. }
  rewrite M_bind_eq, (load_slot_eq r _ _ l s) by assumption. cbn [p_st p_errno p_mem p_log].
  rewrite M_bind_eq, call_eq. cbv zeta. cbn [p_st p_errno p_mem p_log].
  rewrite M_bind_eq. cbn [get_errno p_errno].
  match goal with |- context [decide (ret (os_answer ?lg _) = 0 \/ ?er)] =>
    pose proof (kill_verdict alive lg (i32 (pid s)) (p_errno p) Hkill) as Ha end. cbv zeta in Ha.
  destruct (alive (i32 (pid s))) eqn:Ealive.
  - rewrite (decide_True _ _ (proj2 Ha eq_refl)).
    refine (Hkeep s (Proc (p_st p) _ (p_mem p) _) l Hl Hs' eq_refl _). unfold reap_slot.
    rewrite decide_False by assumption. rewrite Ealive. reflexivity.
  - rewrite (decide_False _ _ (fun H => diff_false_true (proj1 Ha H))).
    rewrite M_bind_eq, (store_slot_eq r _ _ _ l) by exact Hl. cbn [p_st p_errno p_mem p_log].
    match goal with |- context [reap_loop k r _ ?q] =>
      destruct (Hkeep zero_slot q _ ltac:(apply lookup_insert_eq)) as (e & log & ->) end.
    + cbn. rewrite Hs, <- app_assoc. rewrite <- (Nat.add_0_r (length done)), alter_app_r. reflexivity.
    + reflexivity.
    + unfold reap_slot. rewrite decide_False by assumption. rewrite Ealive. reflexivity.
    + cbn [p_st p_errno p_mem p_log]. rewrite insert_insert_eq. eexists _, _. reflexivity.
Qed.

Lemma reap_dead_processes_eq m alive (p : proc controller) l :
  kill_says alive -> layout (tm_shm m) <> NULL -> p_mem p !! layout (tm_shm m) = Some l ->
  length (process_slots l) = Z.to_nat LINBOX_PROCESS_SLOT_COUNT ->
  exists e log, reap_dead_processes (Some m) p =
    Ok (tt, Proc (p_st p) e
      (<[layout (tm_shm m) := set_process_slots
           (reap_slots (fun x => alive (i32 x)) (process_slots l)) l]> (p_mem p)) log).
Proof.
  intros Hkill Hr Hl Hlen. unfold reap_dead_processes. rewrite decide_False by assumption.
  exact (reap_loop_eq _ alive _ Hkill [] (process_slots l) p l Hl eq_refl Hlen).
Qed.

(** C17: registering a process: afterwards the shared table differs only as the
    table function says (refresh its slot, else take the first free one, else
    nothing), no process appears twice if none did before, and the process is in
    the table exactly if it was there or there was room. *)
Theorem register_process_spec (m : linbox_time_manager) (the_pid : Z) (p : proc controller)
    (l : linbox_shm_layout) (Hr : layout (tm_shm m) <> NULL)
    (Hl : p_mem p !! layout (tm_shm m) = Some l) (Hok : table_ok (process_slots l))
    (Hpid : the_pid <> 0) :
  exists q, register_process (Some m) the_pid p = Ok (tt, q) /\
  let slots' := register_slots the_pid (heartbeat_ns (header l)) (process_slots l) in
  p_mem q = <[layout (tm_shm m) := set_process_slots slots' l]> (p_mem p) /\ table_ok slots' /\
  (registered the_pid slots' <-> registered the_pid (process_slots l) \/ registered 0 (process_slots l)) /\
  forall x, x <> the_pid -> x <> 0 -> (registered x slots' <-> registered x (process_slots l)).
Proof.
  destruct (register_process_eq m the_pid p l Hr Hl (proj1 Hok)) as (log & Hrun).
  eexists. split; [exact Hrun|]. cbv zeta. split; [reflexivity|].
  split; [apply register_slots_ok, Hok|]. split; [apply registered_after, Hpid|apply registered_others].
Qed.

(** C18: reaping: the process table loses exactly the processes [kill (pid, 0)]
    reports gone; a process the controller may not signal ([EPERM]) stays, the
    other slots keep their place, and no process appears twice. *)
Theorem reap_dead_processes_spec (m : linbox_time_manager) (alive : Z -> bool)
    (p : proc controller) (l : linbox_shm_layout) (Hkill : kill_says alive)
    (Hr : layout (tm_shm m) <> NULL) (Hl : p_mem p !! layout (tm_shm m) = Some l)
    (Hok : table_ok (process_slots l)) :
  exists q, reap_dead_processes (Some m) p = Ok (tt, q) /\
  let slots' := reap_slots (fun x => alive (i32 x)) (process_slots l) in
  p_mem q = <[layout (tm_shm m) := set_process_slots slots' l]> (p_mem p) /\ table_ok slots' /\
  forall x, x <> 0 -> (registered x slots' <-> registered x (process_slots l) /\ alive (i32 x) = true).
Proof.
  destruct (reap_dead_processes_eq m alive p l Hkill Hr Hl (proj1 Hok)) as (e & log & Hrun).
  eexists. split; [exact Hrun|]. cbv zeta. split; [reflexivity|].
  split; [apply reap_slots_ok, Hok|]. intros x. apply (registered_reaped (fun x => alive (i32 x))).
Qed.
End Reap.


(** ** Messages *)

(** The message a received block of bytes carries, if the controller acts on it. *)
Definition accepted (bytes : list Z) : option sbp_message :=
  match decode_message bytes with
  | (rc, Some m) => if decide (rc = SBP_OK /\ m_type m <> SBP_MSG_ACK) then Some m else None
  | _ => None
  end.

(** Its effect on the shared region, where [ns] is the clock reading with which a
    write of the time stamps the heartbeat, and on the manager. *)
Definition message_region (msg : sbp_message) (ns : Z) (l : linbox_shm_layout) : linbox_shm_layout :=
  match m_payload msg with
  | PZero => l
  | PSetTime s n => written (Timespec s n) ns l
  | PSetSeed seed => set_prng_seed seed l
  | PRegisterProcess the_pid _ =>
      set_process_slots (register_slots the_pid (heartbeat_ns (header l)) (process_slots l)) l
  end.
Definition message_manager (msg : sbp_message) (m : linbox_time_manager) : linbox_time_manager :=
  match m_payload msg with
  | PSetTime s n => TimeManager (tm_shm m) (Timespec s n) (tm_seed m)
  | PSetSeed seed => TimeManager (tm_shm m) (tm_current m) seed
  | _ => m
  end.

(** Its effect on the clock and the process table. *)
Definition message_clock (msg : sbp_message) (v : vclock) : vclock :=
  match m_payload msg with
  | PSetTime s n => VClock (Timespec s n) (v_seed v)
  | PSetSeed s => VClock (v_now v) s
  | _ => v
  end.
Definition message_slots (msg : sbp_message) (hb : Z) (slots : list linbox_process_slot)
  : list linbox_process_slot :=
  match m_payload msg with PRegisterProcess the_pid _ => register_slots the_pid hb slots | _ => slots end.

Definition ack_bytes (flags : Z) : list Z :=
  message_bytes (SbpMessage SBP_MSG_ACK SBP_VERSION flags PZero).

Section Messages.
Context {os : OS} {Hquiet : QuietMemory}.

Lemma frame_buffer_length : Z.of_nat (length frame_buffer) = SBP_MAX_FRAME_SIZE.
Proof. unfold frame_buffer. rewrite length_replicate. apply Z2Nat.id. discriminate. Qed.

Lemma send_ack_eq fd flags (p : proc controller) : in_u 16 flags ->
  send_ack fd flags p =
  (n ← call (XWrite fd (ack_bytes flags)) ; mret (if decide (n = 8) then 0 else -1)) p.
Proof.
  intros Hf. unfold send_ack. pose proof frame_buffer_length as Hlen. revert Hlen.
  generalize frame_buffer as fb. intros fb Hlen. cbv zeta. rewrite M_bind_eq.
  pose proof (serialize_message_eq (SbpMessage SBP_MSG_ACK SBP_VERSION flags PZero) fb
    SBP_MAX_FRAME_SIZE 0) as Hs.
  rewrite Hs; clear Hs.
  - cbv zeta. fold (ack_bytes flags). change (Z.of_nat (length (ack_bytes flags))) with 8.
    rewrite decide_True by discriminate.
    assert (Ht : take (Z.to_nat 8) (splice fb 0 (ack_bytes flags)) = ack_bytes flags) by reflexivity.
    unfold lift. rewrite decide_False by (intros H; apply H; reflexivity). rewrite Ht. reflexivity.
  - split; [split; [discriminate|reflexivity]|]. split; [exact Hf|]. right. reflexivity.
  - rewrite Hlen. reflexivity.
Qed.

(** The kernel delivers [bytes] to a [read] of [fd]. *)
Definition delivers (log : list event) (fd : Z) (bytes : list Z) : Prop :=
  os_answer log (XRead fd SBP_MAX_FRAME_SIZE) =
    Answer (Z.of_nat (length bytes)) 0 bytes /\ Forall is_byte bytes /\
  Z.of_nat (length bytes) <= SBP_MAX_FRAME_SIZE.

Lemma read_frame_eq fd bytes (p : proc controller) :
  delivers (p_log p) fd bytes ->
  exists fr, read_frame fd p =
    Ok ((Z.of_nat (length bytes), fr), Proc (p_st p) (p_errno p) (p_mem p)
      (p_log p ++ [(XRead fd SBP_MAX_FRAME_SIZE, Answer (Z.of_nat (length bytes)) 0 bytes)])) /\
    forall m0, sbp_deserialize_message (Some fr) (Z.of_nat (length bytes)) (Some m0) =
      let '(rc, om) := decode_message bytes in Ok (rc, Some (default m0 om)).
Proof.
  intros (Ha & HF & Hle). unfold read_frame. rewrite M_bind_eq. unfold callA. rewrite Ha. cbv zeta.
  cbn [ret data err]. rewrite decide_False by lia.
  pose proof frame_buffer_length as Hlen. assert (HFb : Forall is_byte frame_buffer).
  { unfold frame_buffer. apply Forall_replicate. split; [discriminate|reflexivity]. }
  revert Hlen HFb. generalize frame_buffer as fb. intros fb Hlen HFb.
  eexists. split; [reflexivity|]. intros m0.
  rewrite deserialize_message_eq.
  - rewrite Nat2Z.id, take_app_length. reflexivity.
  - apply Forall_app_2; [exact HF|apply Forall_drop, HFb].
  - rewrite length_app. lia.
Qed.

Lemma ack_reply fd flags tm (p : proc controller) : in_u 16 flags ->
  (rc ← send_ack fd flags ; mret (rc, tm : option linbox_time_manager)) p =
  let a := os_answer (p_log p) (XWrite fd (ack_bytes flags)) in
  Ok ((if decide (ret a = 8) then 0 else -1, tm),
      Proc (p_st p) (if decide (ret a < 0) then err a else p_errno p) (p_mem p)
        (p_log p ++ [(XWrite fd (ack_bytes flags), a)])).
Proof. intros Hf. rewrite M_bind_eq, send_ack_eq by exact Hf. reflexivity. Qed.

Lemma accepted_decoded bytes msg : Forall is_byte bytes -> accepted bytes = Some msg ->
  decode_message bytes = (SBP_OK, Some msg) /\ message_ok msg /\ m_type msg <> SBP_MSG_ACK.
Proof.
  unfold accepted. intros HF. destruct (decode_message bytes) as [rc [m|]] eqn:E; [|discriminate].
  destruct (decide _) as [[-> Ht]|]; [|discriminate]. intros [= ->]. split; [reflexivity|].
  split; [|exact Ht]. apply (decode_message_ok bytes msg HF), E.
Qed.

Lemma message_region_represents msg ns m l v : represents m l v ->
  represents (message_manager msg m) (message_region msg ns l) (message_clock msg v).
Proof.
  intros Hv. unfold message_manager, message_region, message_clock. destruct (m_payload msg).
  - exact Hv.
  - apply (written_represents _ _ _ _ _ Hv).
  - destruct Hv as (Hr & Hc & _ & Ht & _ & Hu & He). unfold represents. cbn. auto 10.
  - exact Hv.
Qed.

Lemma message_region_slots msg ns l :
  process_slots (message_region msg ns l) = message_slots msg (heartbeat_ns (header l)) (process_slots l).
Proof. unfold message_region, message_slots. destruct (m_payload msg); reflexivity. Qed.

Lemma register_process_emits tm the_pid : emits region_access (register_process tm the_pid).
Proof.
  assert (Hls : forall r i, emits region_access (load_slot r i)).
  { intros r i. unfold load_slot. emits_with ltac:(exact I). }
  assert (Hst : forall r i f, emits region_access (store_slot r i f)).
  { intros r i f. unfold store_slot. emits_with ltac:(exact I). }
  assert (Hlp : forall k r i e, emits region_access (register_loop k r i the_pid e)).
  { induction k as [|k IH]; intros r i e; cbn [register_loop]; [apply emits_ret|].
    emits_with ltac:(exact I); apply Hls || apply Hst || apply IH. }
  unfold register_process. emits_with ltac:(exact I); apply Hlp || apply Hst.
Qed.

(** The part of [handle_client_message] between the read and the answer, for each
    kind of request. *)
Lemma set_time_eq m ts (p : proc controller) l :
  layout (tm_shm m) <> NULL -> p_mem p !! layout (tm_shm m) = Some l ->
  exists ns e mid, linbox_time_manager_set_time (Some m) (Some ts) p =
    Ok (Some (TimeManager (tm_shm m) ts (tm_seed m)),
        Proc (p_st p) e (<[layout (tm_shm m) := written ts ns l]> (p_mem p)) (p_log p ++ mid)) /\
    Forall (fun e => region_access e.1) mid.
Proof.
  intros Hr Hl. unfold linbox_time_manager_set_time. rewrite decide_False by assumption. rewrite M_bind_eq.
  destruct (write_time_eq _ ts p l Hr Hl) as (ns & e & log & Hw).
  destruct (write_time_emits _ _ _ _ _ Hw) as (mid & Hm & HF). cbn [p_log] in Hm. subst log.
  rewrite Hw. exists ns, e, mid. split; [reflexivity|exact HF].
Qed.

Lemma set_seed_eq m seed (p : proc controller) l :
  layout (tm_shm m) <> NULL -> p_mem p !! layout (tm_shm m) = Some l ->
  exists mid, linbox_time_manager_set_seed (Some m) seed p =
    Ok (Some (TimeManager (tm_shm m) (tm_current m) seed),
        Proc (p_st p) (p_errno p) (<[layout (tm_shm m) := set_prng_seed seed l]> (p_mem p)) (p_log p ++ mid)) /\
    Forall (fun e => region_access e.1) mid.
Proof.
  intros Hr Hl. unfold linbox_time_manager_set_seed. rewrite decide_False by assumption.
  rewrite M_bind_eq, (store_eq _ _ _ _ Hl). eexists. split; [reflexivity|]. constructor; [exact I|constructor].
Qed.

Lemma register_exact m the_pid (p : proc controller) l :
  layout (tm_shm m) <> NULL -> p_mem p !! layout (tm_shm m) = Some l ->
  length (process_slots l) = Z.to_nat LINBOX_PROCESS_SLOT_COUNT ->
  exists mid, register_process (Some m) the_pid p =
    Ok (tt, Proc (p_st p) (p_errno p)
      (<[layout (tm_shm m) := set_process_slots
           (register_slots the_pid (heartbeat_ns (header l)) (process_slots l)) l]> (p_mem p)) (p_log p ++ mid)) /\
    Forall (fun e => region_access e.1) mid.
Proof.
  intros Hr Hl Hlen. destruct (register_process_eq m the_pid p l Hr Hl Hlen) as (log & H).
  destruct (register_process_emits _ _ _ _ _ H) as (mid & Hm & HF). cbn [p_log] in Hm. subst log.
  exists mid. auto.
Qed.

(** What one call of the handler does with a well-formed request: the events it
    adds, the contents of the region and the manager it returns. *)
Definition served (fd : Z) (bytes : list Z) (msg : sbp_message) (m : linbox_time_manager)
    (l : linbox_shm_layout) (p : proc controller) (rc : Z) (tm : option linbox_time_manager)
    (q : proc controller) : Prop :=
  exists ns mid,
    let before := p_log p ++ (XRead fd SBP_MAX_FRAME_SIZE, Answer (Z.of_nat (length bytes)) 0 bytes) :: mid in
    let reply := XWrite fd (ack_bytes (m_flags msg)) in
    p_log q = before ++ [(reply, os_answer before reply)] /\
    Forall (fun e => region_access e.1) mid /\
    rc = (if decide (ret (os_answer before reply) = 8) then 0 else -1) /\
    tm = Some (message_manager msg m) /\ p_st q = p_st p /\
    p_mem q = <[layout (tm_shm m) := message_region msg ns l]> (p_mem p) /\
    (m_payload msg = PZero -> mid = [] /\ p_mem q = p_mem p).

(** The process after the read. *)
Definition after_read (fd : Z) (bytes : list Z) (p : proc controller) : proc controller :=
  Proc (p_st p) (p_errno p) (p_mem p)
    (p_log p ++ [(XRead fd SBP_MAX_FRAME_SIZE, Answer (Z.of_nat (length bytes)) 0 bytes)]).

(** The answer, after an effect that has been carried out as it should. *)
Lemma finish_request fd bytes msg m l (p : proc controller)
    (effect : M controller (option linbox_time_manager)) ns e mid :
  in_u 16 (m_flags msg) -> p_mem p !! layout (tm_shm m) = Some l ->
  effect (after_read fd bytes p) =
    Ok (Some (message_manager msg m),
        Proc (p_st p) e (<[layout (tm_shm m) := message_region msg ns l]> (p_mem p))
          (p_log (after_read fd bytes p) ++ mid)) ->
  Forall (fun e => region_access e.1) mid -> (m_payload msg = PZero -> mid = []) ->
  exists rc tm q, (tm ← effect ; rc ← send_ack fd (m_flags msg) ; mret (rc, tm)) (after_read fd bytes p) =
      Ok ((rc, tm), q) /\ served fd bytes msg m l p rc tm q.
Proof.
  intros Hf Hl He HF Hz. assert (E : p_log (after_read fd bytes p) ++ mid =
    p_log p ++ (XRead fd SBP_MAX_FRAME_SIZE, Answer (Z.of_nat (length bytes)) 0 bytes) :: mid)
    by (unfold after_read; cbn [p_log]; rewrite <- app_assoc; reflexivity).
  rewrite E in He. rewrite M_bind_eq, He, ack_reply by exact Hf. cbv zeta.
  eexists _, _, _. split; [reflexivity|]. exists ns, mid. cbn [p_log p_st p_mem]. cbv zeta. repeat (split; [reflexivity || assumption|]).
  intros Hpz. split; [exact (Hz Hpz)|]. unfold message_region. rewrite Hpz. apply insert_id, Hl.
Qed.

Lemma handle_request (m : linbox_time_manager) (fd : Z) (bytes : list Z)
    (msg : sbp_message) (p : proc controller) (l : linbox_shm_layout)
    (Hr : layout (tm_shm m) <> NULL) (Hl : p_mem p !! layout (tm_shm m) = Some l)
    (Hlen : length (process_slots l) = Z.to_nat LINBOX_PROCESS_SLOT_COUNT)
    (Hread : delivers (p_log p) fd bytes) (Hacc : accepted bytes = Some msg) :
  exists rc tm q, handle_client_message fd (Some m) p = Ok ((rc, tm), q) /\
    served fd bytes msg m l p rc tm q.
Proof.
  destruct (read_frame_eq fd bytes p Hread) as (fr & Hrd & Hdec).
  destruct (accepted_decoded bytes msg) as (Hd & (_ & Hf & Hp) & Hack); [apply Hread|exact Hacc|].
  assert (Hpos : 0 < Z.of_nat (length bytes)) by (destruct bytes; [discriminate|cbn; lia]).
  unfold handle_client_message. rewrite M_bind_eq, Hrd. rewrite decide_False by lia.
  rewrite M_bind_eq, Hdec, Hd. unfold lift at 1. cbn [default from_option id].
  rewrite decide_False by (intros H; apply H; reflexivity). fold (after_read fd bytes p).
  set (p1 := after_read fd bytes p). assert (Hl1 : p_mem p1 !! layout (tm_shm m) = Some l) by exact Hl.
  pose proof (fun effect ns e mid => finish_request fd bytes msg m l p effect ns e mid Hf Hl) as Hfin.
  fold p1 in Hfin. destruct msg as [t ver f pl]; cbn in Hp, Hf, Hack.
  unfold message_manager, message_region in Hfin. cbn [m_payload m_type m_flags] in *.
  destruct pl as [|s n|seed|the_pid slot].
  - destruct Hp as [->| ->]; [|contradiction]. rewrite decide_True by reflexivity.
    refine (Hfin (mret (M := M controller) (Some m)) 0 (p_errno p) [] _ (Forall_nil_2 _) (fun _ => eq_refl)).
    rewrite insert_id by exact Hl. rewrite app_nil_r. reflexivity.
  - destruct Hp as (-> & _ & _). rewrite decide_False by discriminate. rewrite decide_True by reflexivity.
    destruct (set_time_eq m (Timespec s n) p1 l Hr Hl1) as (ns & e & mid & Hs & HF).
    refine (Hfin _ ns e mid Hs HF _). discriminate.
  - destruct Hp as (-> & _). rewrite !decide_False by discriminate. rewrite decide_True by reflexivity.
    destruct (set_seed_eq m seed p1 l Hr Hl1) as (mid & Hs & HF).
    refine (Hfin _ 0 _ mid Hs HF _). discriminate.
  - destruct Hp as (-> & _ & _). rewrite !decide_False by discriminate. rewrite decide_True by reflexivity.
    destruct (register_exact m the_pid p1 l Hr Hl1 Hlen) as (mid & Hs & HF).
    destruct (Hfin (register_process (Some m) the_pid ;; mret (M := M controller) (Some m)) 0 (p_errno p) mid)
      as (rc & tm & q & Hq & Hserved); [rewrite M_bind_eq, Hs; reflexivity|exact HF|discriminate|].
    rewrite !(M_bind_eq (_ ≫= _)), (M_bind_eq (register_process _ _)), Hs in Hq.
    exists rc, tm, q. split; [|exact Hserved]. rewrite M_bind_eq. unfold lift at 1.
    cbn [payload_register_process m_payload]. rewrite M_bind_eq, Hs. exact Hq.
Qed.

(** Anything else is refused: end of file, a malformed frame, several
    frames in one read, an unknown type or version, an ACK; the handler fails,
    the shared region and the manager are untouched and nothing is sent. *)
Theorem handle_client_message_refuses (m : linbox_time_manager) (fd : Z) (bytes : list Z)
    (p : proc controller) (Hread : delivers (p_log p) fd bytes) (Hacc : accepted bytes = None) :
  handle_client_message fd (Some m) p =
  Ok ((-1, Some m), Proc (p_st p) (p_errno p) (p_mem p)
    (p_log p ++ [(XRead fd SBP_MAX_FRAME_SIZE, Answer (Z.of_nat (length bytes)) 0 bytes)])).
Proof.
  destruct (read_frame_eq fd bytes p Hread) as (fr & Hrd & Hdec).
  unfold handle_client_message. rewrite M_bind_eq, Hrd.
  destruct (decide (Z.of_nat (length bytes) <= 0)) as [|Hpos]; [reflexivity|].
  rewrite M_bind_eq, Hdec. unfold accepted in Hacc.
  destruct (decode_message bytes) as [rc om] eqn:Hd. unfold lift at 1.
  destruct (decide (rc <> SBP_OK)) as [|Hok]; [reflexivity|].
  assert (rc = SBP_OK) as -> by (destruct (decide (rc = SBP_OK)); [assumption|contradiction]).
  destruct om as [msg|]; [|apply decode_message_refused in Hd; contradiction].
  destruct (decide (SBP_OK = SBP_OK /\ _)) as [|Hn]; [discriminate|].
  assert (Ht : m_type msg = SBP_MSG_ACK)
    by (destruct (decide (m_type msg = SBP_MSG_ACK)); [assumption|exfalso; apply Hn; auto]).
  cbn [default from_option id]. rewrite Ht. reflexivity.
Qed.

(** C6: a well-formed request has exactly its effect. The handler reads once,
    touches nothing but the shared region and the clock, and then writes one ACK
    frame with the request's flags to the client and nothing else; it succeeds
    exactly if the whole frame was written. The region and the manager are, word
    for word, the old ones with the time and its heartbeat (SET_TIME), the seed
    (SET_SEED) or the entry in the process table (REGISTER_PROCESS) replaced; a
    HELLO leaves the memory as it was and does not access it. A manager that
    published the clock publishes the clock the request asks for. Anything else
    is refused: end of file, a malformed frame, several frames in one read, an
    unknown type or version, an ACK; the handler then fails, leaves the shared
    region and the manager as they were and sends nothing. *)
Theorem handle_client_message_spec (m : linbox_time_manager) (fd : Z) (bytes : list Z)
    (p : proc controller) (l : linbox_shm_layout)
    (Hr : layout (tm_shm m) <> NULL) (Hl : p_mem p !! layout (tm_shm m) = Some l)
    (Hlen : length (process_slots l) = Z.to_nat LINBOX_PROCESS_SLOT_COUNT)
    (Hread : delivers (p_log p) fd bytes) :
  match accepted bytes with
  | Some msg =>
      (exists rc tm q, handle_client_message fd (Some m) p = Ok ((rc, tm), q) /\
         served fd bytes msg m l p rc tm q) /\
      forall ns v, represents m l v ->
        represents (message_manager msg m) (message_region msg ns l) (message_clock msg v)
  | None =>
      handle_client_message fd (Some m) p =
      Ok ((-1, Some m), Proc (p_st p) (p_errno p) (p_mem p)
        (p_log p ++ [(XRead fd SBP_MAX_FRAME_SIZE, Answer (Z.of_nat (length bytes)) 0 bytes)]))
  end.
Proof.
  destruct (accepted bytes) as [msg|] eqn:Hacc.
  - split; [exact (handle_request m fd bytes msg p l Hr Hl Hlen Hread Hacc)|].
    intros ns v. apply message_region_represents.
  - exact (handle_client_message_refuses m fd bytes p Hread Hacc).
Qed.
End Messages.
