(* ===== verification/ControllerLoop.v ===== *)
(** * The controller's event loop

    The client sweep, the tick, and what a run of [main] leaves behind. *)
From S2P Require Import Prelude Bytes Sbp ShmLayout Os Shm Env TimeManager Controller ControllerFacts.

(** ** The sweep over the clients *)

Definition hangs_up (rev : Z) : Prop := Z.land rev (Z.lor POLLERR POLLHUP) <> 0.
Definition silent (rev : Z) : Prop := ~ hangs_up rev /\ Z.land rev POLLIN = 0.

#[export] Instance hangs_up_dec rev : Decision (hangs_up rev) := _.
#[export] Instance silent_dec rev : Decision (silent rev) := _.

Section Sweep.
Context {os : OS}.

Lemma client_loop_done fuel revents i fds count tm (p : proc controller) :
  (count <= i)%nat -> client_loop fuel revents i fds count tm p = Ok ((fds, count, tm), p).
Proof. intros H. destruct fuel; cbn [client_loop]; rewrite decide_False by lia; reflexivity. Qed.

Lemma client_loop_silent fuel revents i fds count tm (p : proc controller) :
  (i < count)%nat -> silent (nth (i + 1) revents 0) ->
  client_loop (S fuel) revents i fds count tm p = client_loop fuel revents (i + 1) fds count tm p.
Proof.
  intros Hi [Hh Hin]. cbn [client_loop]. rewrite decide_True by exact Hi. cbv zeta.
  rewrite decide_False by exact Hh. rewrite decide_False by lia. reflexivity.
Qed.

Lemma client_loop_hangup fuel revents i fds count tm (p : proc controller) :
  (i < count)%nat -> hangs_up (nth (i + 1) revents 0) ->
  exists e a, client_loop (S fuel) revents i fds count tm p =
    client_loop fuel revents i (<[i := nth (count - 1) fds 0]> fds) (count - 1) tm
      (Proc (p_st p) e (p_mem p) (p_log p ++ [(XClose (nth i fds 0), a)])).
Proof.
  intros Hi Hh. cbn [client_loop]. rewrite decide_True by exact Hi. cbv zeta.
  rewrite decide_True by exact Hh. rewrite M_bind_eq, call_eq. cbv zeta. eexists _, _. reflexivity.
Qed.

(** The descriptors closed by a stretch of the log. *)
Definition closes (new : list event) : list Z :=
  omap (fun e => match e.1 with XClose fd => Some fd | _ => None end) new.

(** From a client that hung up on, every client is removed. *)
Lemma cascade revents i tm count : forall fuel fds (p : proc controller),
  hangs_up (nth (i + 1) revents 0) -> (i <= count <= length fds)%nat -> (count - i <= fuel)%nat ->
  exists fds' e new, client_loop fuel revents i fds count tm p =
      Ok ((fds', i, tm), Proc (p_st p) e (p_mem p) (p_log p ++ new)) /\
    take i fds' = take i fds /\ length fds' = length fds /\
    closes new ≡ₚ take (count - i) (drop i fds).
Proof.
  induction count as [|c IH]; intros fuel fds p Hh Hic Hf.
  - assert (i = 0%nat) as -> by lia. rewrite client_loop_done by lia.
    exists fds, (p_errno p), []. rewrite app_nil_r. destruct p. auto.
  - destruct (decide (i = S c)) as [->|Hne].
    { rewrite client_loop_done by lia. exists fds, (p_errno p), []. rewrite app_nil_r, Nat.sub_diag.
      destruct p. auto. }
    destruct fuel as [|fuel]; [lia|].
    destruct (client_loop_hangup fuel revents i fds (S c) tm p) as (e & a & ->); [lia|exact Hh|].
    replace (S c - 1)%nat with c by lia. set (p1 := Proc _ _ _ _).
    destruct (IH fuel (<[i := nth c fds 0]> fds) p1 Hh) as (fds' & e' & new & Hrun & Ht & Hl & Hc);
      [rewrite length_insert; lia|lia|].
    exists fds', e', ((XClose (nth i fds 0), a) :: new). rewrite Hrun. unfold p1. cbn [p_st p_mem p_log].
    rewrite <- app_assoc. split; [reflexivity|]. split; [rewrite Ht, take_insert_ge by lia; reflexivity|].
    split; [rewrite Hl; apply length_insert|]. cbn. rewrite Hc.
    destruct (lookup_lt_is_Some_2 fds i) as [x Hx]; [lia|]. destruct (lookup_lt_is_Some_2 fds c) as [y Hy]; [lia|].
    rewrite !(nth_lookup_Some _ _ 0 _ Hx), (nth_lookup_Some _ _ 0 _ Hy).
    replace (S c - i)%nat with (S (c - i)) by lia. erewrite (drop_S fds) by exact Hx. cbn [take].
    apply Permutation_skip. rewrite drop_insert_ge by lia. rewrite Nat.sub_diag.
    erewrite drop_S by exact Hx. cbn.
    destruct (decide (i = c)) as [->|Hic']; [rewrite Nat.sub_diag; reflexivity|].
    replace (c - i)%nat with (S (c - S i)) by lia. cbn [take].
    rewrite (take_S_r _ (c - S i) y) by (rewrite lookup_drop; rewrite <- Hy; f_equal; lia).
    apply Permutation_cons_append.
Qed.

Lemma client_loop_skip revents tm count : forall k i fuel fds (p : proc controller),
  (forall j, (i <= j < i + k)%nat -> silent (nth (j + 1) revents 0)) -> (i + k <= count)%nat ->
  (k <= fuel)%nat ->
  client_loop fuel revents i fds count tm p = client_loop (fuel - k) revents (i + k) fds count tm p.
Proof.
  induction k as [|k IH]; intros i fuel fds p Hs Hk Hf.
  - rewrite Nat.add_0_r, Nat.sub_0_r. reflexivity.
  - destruct fuel as [|fuel]; [lia|]. rewrite client_loop_silent; [|lia|apply Hs; lia].
    rewrite IH; [f_equal; lia|intros j Hj; apply Hs; lia|lia|lia].
Qed.

(** C35: one hang-up drops every later client: when client [i] hangs up while
    the clients before it are silent, the sweep closes it and every client after
    it, whatever [poll] said of those; only the clients before it stay
    connected. *)
Theorem hangup_cascade (revents : list Z) (i count : nat) (fds : list Z)
    (tm : option linbox_time_manager) (p : proc controller)
    (Hsilent : forall j, (j < i)%nat -> silent (nth (j + 1) revents 0))
    (Hhup : hangs_up (nth (i + 1) revents 0)) (Hi : (i < count <= length fds)%nat) :
  exists fds' q new, client_loop count revents 0 fds count tm p = Ok ((fds', i, tm), q) /\
    take i fds' = take i fds /\ p_mem q = p_mem p /\ p_log q = p_log p ++ new /\
    closes new ≡ₚ take (count - i) (drop i fds).
Proof.
  rewrite (client_loop_skip revents tm count i 0); [|intros j Hj; apply Hsilent; lia|lia..].
  destruct (cascade revents i tm count (count - i) fds p Hhup) as (fds' & e & new & Hrun & Ht & _ & Hc); [lia..|].
  eexists fds', _, new. split; [exact Hrun|]. auto.
Qed.

(** Silent clients are left alone. *)
Theorem silent_clients_kept (revents : list Z) (count : nat) (fds : list Z)
    (tm : option linbox_time_manager) (p : proc controller)
    (Hsilent : forall j, (j < count)%nat -> silent (nth (j + 1) revents 0)) :
  client_loop count revents 0 fds count tm p = Ok ((fds, count, tm), p).
Proof.
  rewrite (client_loop_skip revents tm count count 0); [|intros j Hj; apply Hsilent; lia|lia..].
  apply client_loop_done. lia.
Qed.
End Sweep.


(** ** What a run of [main] leaves open *)
Section Ownership.
Context {os : OS}.

Lemma setup_owns path fds maps (p q : proc controller) r :
  setup_server_socket path p = Ok (r, q) -> owns (p_log p) fds maps ->
  (r < 0 -> owns (p_log q) fds maps) /\ (0 <= r -> owns (p_log q) (r :: fds) maps).
Proof.
  intros H Ho. unfold setup_server_socket in H.
  apply M_bind_Ok in H as (s & p1 & H1 & H). destruct (owns_call _ _ _ _ _ _ H1 Ho) as (a & -> & Ho'); clear Ho; rename Ho' into Ho. clear H1.
  cbn in Ho. destruct (decide (ret a < 0)) as [Hs|Hs]; [inv_M; split; [auto|lia]|].
  apply M_bind_Ok in H as (u & p2 & H2 & H). destruct (owns_call _ _ _ _ _ _ H2 Ho) as (a2 & -> & Ho'); clear Ho; rename Ho' into Ho. clear H2.
  apply M_bind_Ok in H as (b & p3 & H3 & H). destruct (owns_call _ _ _ _ _ _ H3 Ho) as (a3 & -> & Ho'); clear Ho; rename Ho' into Ho. clear H3.
  assert (Hclose : forall p', owns (p_log p') (ret a :: fds) maps ->
    (_ ← call (XClose (ret a)) ; mret (-1)) p' = Ok (r, q) -> r = -1 /\ owns (p_log q) fds maps).
  { intros p' Ho' H'. apply M_bind_Ok in H' as (c & p4 & H4 & H').
    pose proof (owns_call _ _ _ _ _ _ H4 Ho') as (a4 & _ & Ho4). inv_M. cbn in Ho4.
    rewrite decide_True in Ho4 by reflexivity. auto. }
  destruct (decide (ret a3 <> 0)); [destruct (Hclose _ Ho H); split; [auto|lia]|].
  apply M_bind_Ok in H as (c & p4 & H4 & H). destruct (owns_call _ _ _ _ _ _ H4 Ho) as (a4 & -> & Ho'); clear Ho; rename Ho' into Ho. clear H4.
  destruct (decide (ret a4 <> 0)); [destruct (Hclose _ Ho H); split; [auto|lia]|].
  inv_M. split; [lia|intros _; exact Ho].
Qed.

(** A manager whose region is open and mapped. *)
Definition tm_opened (m : linbox_time_manager) : Prop :=
  0 <= fd (tm_shm m) /\ layout (tm_shm m) <> MAP_FAILED /\ layout (tm_shm m) <> NULL.

Context (Hmmap : forall log fd len, ret (os_answer log (XMmap fd len)) <> NULL).

Lemma open_owns tm path fds maps (p q : proc controller) rc tm' :
  linbox_time_manager_open (Some tm) (Some path) p = Ok ((rc, tm'), q) -> owns (p_log p) fds maps ->
  (rc <> 0 /\ owns (p_log q) fds maps) \/
  (rc = 0 /\ exists m, tm' = Some m /\ tm_opened m /\
     owns (p_log q) (fd (tm_shm m) :: fds) (layout (tm_shm m) :: maps)).
Proof.
  intros H Ho. unfold linbox_time_manager_open in H.
  apply M_bind_Ok in H as ([rc1 o1] & p1 & H1 & H). unfold linbox_shm_create in H1.
  apply (open_map_resources _ _ _ _ _ _ _ _ _ fds maps) in H1.
  apply M_bind_Ok in H as ([rc2 o2] & p2 & H2 & H).
  assert (Hcase : (rc2 = -1 /\ owns (p_log p2) fds maps) \/ (rc2 = 0 /\ exists h, o2 = Some h /\ opened h /\
    owns (p_log p2) (fd h :: fds) (layout h :: maps))).
  { destruct H1 as [(-> & -> & Hr)|(-> & h & -> & Hh & Hr)].
    - rewrite decide_True in H2 by lia. apply M_bind_Ok in H2 as (e & p3 & H3 & H2). injection H3 as <- <-.
      apply (owns_resources _ _ _ _ _ _ Ho) in Hr.
      destruct (decide (_ <> EEXIST)); [inv_M; auto|].
      apply M_bind_Ok in H2 as ([rc3 o3] & p4 & H4 & H2).
      apply (attach_resources _ _ _ _ _ _ fds maps) in H4; [|exact Hmmap].
      destruct H4 as [(-> & Hr4 & _)|(-> & h & l & -> & Hh & Hr4 & _)].
      + rewrite decide_True in H2 by lia. inv_M. left. eauto using owns_resources.
      + rewrite decide_False in H2 by lia. inv_M. right. eauto 6 using owns_resources.
    - rewrite decide_False in H2 by lia. inv_M. right. eauto 6 using owns_resources. }
  destruct Hcase as [[-> Ho2]|(-> & h & -> & Hh & Ho2)].
  - left. destruct o2 as [h|]; [|inv_M]. rewrite decide_True in H by lia. inv_M. auto with lia.
  - rewrite decide_False in H by lia. apply M_bind_Ok in H as (u & p3 & H3 & H).
    apply (owns_neutral _ _ _ _ _ _ (neutral_write_time _ _) H3) in Ho2.
    apply M_bind_Ok in H as (u2 & p4 & H4 & H).
    apply (owns_neutral _ _ _ _ _ _ (neutral_store _ _) H4) in Ho2. inv_M.
    right. split; [reflexivity|]. eexists. split; [reflexivity|]. split; [exact (opened_addr _ Hmmap Hh)|exact Ho2].
Qed.

Lemma close_owns m path fds maps (p q : proc controller) tm' :
  linbox_time_manager_close (Some m) (Some path) p = Ok (tm', q) -> tm_opened m ->
  owns (p_log p) (fd (tm_shm m) :: fds) (layout (tm_shm m) :: maps) -> owns (p_log q) fds maps.
Proof.
  intros H (Hf & Hmf & Hn) Ho. unfold linbox_time_manager_close in H. rewrite decide_True in H by lia.
  apply M_bind_Ok in H as ([rc shm] & p1 & H1 & H). inv_M. unfold linbox_shm_destroy in H1.
  apply M_bind_Ok in H1 as (o & p2 & H2 & H1). apply (detach_resources _ _ _ _ fds maps) in H2; [|assumption..].
  destruct H2 as [-> H2]. apply (owns_resources _ _ _ _ _ _ Ho) in H2.
  apply M_bind_Ok in H1 as (u & p3 & H3 & H1). inv_M.
  apply (owns_call _ _ _ _ _ _ H3) in H2 as (a & _ & H2). exact H2.
Qed.

(** The handle is never changed while the manager is in use. *)
Lemma set_time_shm tm ts (p q : proc controller) tm' :
  linbox_time_manager_set_time tm ts p = Ok (tm', q) -> tm_shm <$> tm' = tm_shm <$> tm.
Proof.
  unfold linbox_time_manager_set_time. destruct tm as [m|], ts as [ts|]; try (intros H; inv_M; reflexivity).
  destruct (decide _); intros H; inv_M; reflexivity.
Qed.

Lemma set_seed_shm tm s (p q : proc controller) tm' :
  linbox_time_manager_set_seed tm s p = Ok (tm', q) -> tm_shm <$> tm' = tm_shm <$> tm.
Proof.
  unfold linbox_time_manager_set_seed. destruct tm as [m|]; try (intros H; inv_M; reflexivity).
  destruct (decide _); intros H; inv_M; reflexivity.
Qed.

Lemma tick_shm tm d (p q : proc controller) tm' :
  linbox_time_manager_tick tm d p = Ok (tm', q) -> tm_shm <$> tm' = tm_shm <$> tm.
Proof.
  unfold linbox_time_manager_tick. destruct tm as [m|]; try (intros H; inv_M; reflexivity).
  destruct (decide _); intros H; inv_M; reflexivity.
Qed.

Lemma handle_shm fd tm (p q : proc controller) rc tm' :
  handle_client_message fd tm p = Ok ((rc, tm'), q) -> tm_shm <$> tm' = tm_shm <$> tm.
Proof.
  unfold handle_client_message. intros H. apply M_bind_Ok in H as ([n fr] & p1 & _ & H).
  destruct (decide (n <= 0)); [inv_M; reflexivity|].
  apply M_bind_Ok in H as ([rc1 msg] & p2 & _ & H). destruct (decide (rc1 <> SBP_OK)); [inv_M; reflexivity|].
  destruct msg as [msg|]; [|inv_M].
  destruct (decide _); [inv_M; reflexivity|]. destruct (decide _).
  { apply M_bind_Ok in H as ([s ns] & p3 & _ & H). apply M_bind_Ok in H as (t & p4 & H4 & H).
    apply set_time_shm in H4. inv_M. exact H4. }
  destruct (decide _).
  { apply M_bind_Ok in H as (s & p3 & _ & H). apply M_bind_Ok in H as (t & p4 & H4 & H).
    apply set_seed_shm in H4. inv_M. exact H4. }
  destruct (decide _); [|inv_M; reflexivity].
  apply M_bind_Ok in H as ([x y] & p3 & _ & H). inv_M. reflexivity.
Qed.

Lemma remove_client_Permutation fds count i :
  (i < count <= length fds)%nat ->
  take count fds ≡ₚ nth i fds 0 :: take (count - 1) (<[i := nth (count - 1) fds 0]> fds).
Proof.
  intros H. destruct count as [|c]; [lia|]. replace (S c - 1)%nat with c by lia.
  destruct (lookup_lt_is_Some_2 fds i) as [x Hx]; [lia|]. destruct (lookup_lt_is_Some_2 fds c) as [y Hy]; [lia|].
  rewrite (nth_lookup_Some _ _ 0 _ Hx), (nth_lookup_Some _ _ 0 _ Hy), (take_S_r _ _ _ Hy).
  destruct (decide (i = c)) as [->|Hic].
  - rewrite take_insert_ge by lia. replace y with x by congruence. symmetry. apply Permutation_cons_append.
  - rewrite take_insert_lt by lia. rewrite (insert_take_drop (take c fds)) by (rewrite length_take; lia).
    rewrite <- (take_drop_middle (take c fds) i x) at 1 by (rewrite lookup_take_lt by lia; exact Hx).
    rewrite <- app_assoc. cbn.
    rewrite <- Permutation_middle. apply Permutation_skip. apply Permutation_app_head.
    symmetry. apply Permutation_cons_append.
Qed.

Lemma owns_close fd0 fds maps (p q : proc controller) r :
  call (XClose fd0) p = Ok (r, q) -> owns (p_log p) (fd0 :: fds) maps -> owns (p_log q) fds maps.
Proof.
  intros H Ho. destruct (owns_call _ _ _ _ _ _ H Ho) as (a & _ & Ho'). cbn in Ho'.
  rewrite decide_True in Ho' by reflexivity. exact Ho'.
Qed.

(** The sweep: the client array always holds exactly the open client descriptors. *)
Lemma client_loop_owns revents others maps : forall fuel i fds count tm (p q : proc controller) fds' count' tm',
  client_loop fuel revents i fds count tm p = Ok ((fds', count', tm'), q) ->
  (count <= length fds)%nat -> owns (p_log p) (take count fds ++ others) maps ->
  (count' <= count)%nat /\ length fds' = length fds /\ tm_shm <$> tm' = tm_shm <$> tm /\
  owns (p_log q) (take count' fds' ++ others) maps.
Proof.
  induction fuel as [|fuel IH]; intros i fds count tm p q fds' count' tm' H Hlen Ho;
    cbn [client_loop] in H; (destruct (decide (i < count)%nat) as [Hi|Hi]; [|inv_M; auto]); [inv_M|].
  cbv zeta in H.
  assert (Hclose : forall tm1 p1, owns (p_log p1) (take count fds ++ others) maps -> tm_shm <$> tm1 = tm_shm <$> tm ->
    (_ ← call (XClose (nth i fds 0)) ;
     let '(fds, count) := remove_client i fds count in client_loop fuel revents i fds count tm1) p1 =
    Ok ((fds', count', tm'), q) ->
    (count' <= count)%nat /\ length fds' = length fds /\ tm_shm <$> tm' = tm_shm <$> tm /\
    owns (p_log q) (take count' fds' ++ others) maps).
  { intros tm1 p1 Ho1 Htm H1. apply M_bind_Ok in H1 as (c & p2 & H2 & H1).
    rewrite (remove_client_Permutation fds count i) in Ho1 by lia. apply (owns_close _ _ _ _ _ _ H2) in Ho1.
    cbn [remove_client] in H1. apply IH in H1; [|rewrite length_insert; lia|exact Ho1].
    rewrite length_insert in H1. destruct H1 as (? & ? & ? & ?). split; [lia|]. split; [assumption|]. split; [congruence|assumption]. }
  destruct (decide (Z.land _ _ <> 0)); [exact (Hclose tm p Ho eq_refl H)|].
  destruct (decide (Z.land _ POLLIN <> 0)); [|exact (IH _ _ _ _ _ _ _ _ _ H Hlen Ho)].
  apply M_bind_Ok in H as ([rc tm1] & p1 & H1 & H). pose proof (handle_shm _ _ _ _ _ _ H1) as Htm.
  apply (owns_neutral _ _ _ _ _ _ (neutral_handle _ _) H1) in Ho.
  destruct (decide (rc <> 0)); [exact (Hclose tm1 p1 Ho Htm H)|].
  destruct (IH _ _ _ _ _ _ _ _ _ H Hlen Ho) as (? & ? & ? & ?). split; [lia|]. split; [assumption|]. split; [congruence|assumption].
Qed.

(** What the locals of the loop own. *)
Definition loop_owns (st : loop_state) (m : linbox_time_manager) (listen_fd : Z) (log : list event) : Prop :=
  length (client_fds st) = Z.to_nat LINBOX_PROCESS_SLOT_COUNT /\
  (client_count st <= Z.to_nat LINBOX_PROCESS_SLOT_COUNT)%nat /\
  tm_shm <$> loop_tm st = Some (tm_shm m) /\
  owns log (take (client_count st) (client_fds st) ++ [listen_fd; fd (tm_shm m)]) [layout (tm_shm m)].

Lemma iteration_owns listen_fd st m (p q : proc controller) r :
  main_iteration listen_fd st p = Ok (r, q) -> loop_owns st m listen_fd (p_log p) ->
  loop_owns (default st r) m listen_fd (p_log q).
Proof.
  intros H (Hl & Hc & Htm & Ho). unfold main_iteration in H.
  apply M_bind_Ok in H as (a & p1 & H1 & H).
  pose proof (owns_resources _ _ _ _ _ _ Ho (callA_resources _ _ _ _ (_, _) H1)) as Ho1. clear H1 Ho.
  rename Ho1 into Ho. cbn [fd_step map_step fst snd] in Ho.
  destruct (decide (ret a < 0)).
  { apply M_bind_Ok in H as (e & p2 & H2 & H). injection H2 as <- <-. inv_M.
    destruct (decide _); cbn; repeat split; assumption || apply Ho. }
  cbv zeta in H. apply M_bind_Ok in H as ([fds count] & p2 & H2 & H).
  assert (Hacc : length fds = length (client_fds st) /\ (count <= Z.to_nat LINBOX_PROCESS_SLOT_COUNT)%nat /\
    owns (p_log p2) (take count fds ++ [listen_fd; fd (tm_shm m)]) [layout (tm_shm m)]).
  { destruct (decide _); [|inv_M; auto]. apply M_bind_Ok in H2 as (c & p3 & H3 & H2).
    destruct (owns_call _ _ _ _ _ _ H3 Ho) as (a3 & -> & Ho3). clear H3. cbn in Ho3.
    destruct (decide (ret a3 < 0)) as [Hn|Hn].
    { rewrite !decide_False in H2 by lia. inv_M. auto. }
    destruct (decide (0 <= ret a3 /\ _)) as [[_ Hlt]|Hge].
    - inv_M. rewrite length_insert. split; [reflexivity|]. split; [lia|].
      rewrite Nat.add_1_r. erewrite take_S_r by (apply list_lookup_insert_eq; lia).
      rewrite take_insert_ge by lia. rewrite <- app_assoc. cbn.
      rewrite <- Permutation_middle. exact Ho3.
    - rewrite decide_True in H2 by lia. apply M_bind_Ok in H2 as (c2 & p4 & H4 & H2).
      apply (owns_close _ _ _ _ _ _ H4) in Ho3. inv_M. auto. }
  destruct Hacc as (Hl2 & Hc2 & Ho2). apply M_bind_Ok in H as ([[fds3 count3] tm3] & p3 & H3 & H).
  apply client_loop_owns with (others := [listen_fd; fd (tm_shm m)]) (maps := [layout (tm_shm m)]) in H3;
    [|lia|exact Ho2]. destruct H3 as (Hc3 & Hl3 & Htm3 & Ho3).
  apply M_bind_Ok in H as (now & p4 & H4 & H). apply (owns_neutral _ _ _ _ _ _ neutral_monotonic_now H4) in Ho3.
  apply M_bind_Ok in H as (d & p5 & H5 & H). apply (owns_neutral _ _ _ _ _ _ (neutral_lift _) H5) in Ho3.
  destruct (decide (d > 0)).
  - apply M_bind_Ok in H as (tm6 & p6 & H6 & H). pose proof (tick_shm _ _ _ _ _ H6) as Htm6.
    apply (owns_neutral _ _ _ _ _ _ (neutral_tick _ _) H6) in Ho3.
    apply M_bind_Ok in H as (u & p7 & H7 & H). apply (owns_neutral _ _ _ _ _ _ (neutral_reap _) H7) in Ho3.
    inv_M. cbn. split; [cbn; lia|]. split; [cbn; lia|]. split; [cbn; congruence|exact Ho3].
  - inv_M. cbn. split; [cbn; lia|]. split; [cbn; lia|]. split; [cbn; congruence|exact Ho3].
Qed.

Lemma main_loop_owns listen_fd m : forall fuel st (p q : proc controller) st',
  main_loop fuel listen_fd st p = Ok (st', q) -> loop_owns st m listen_fd (p_log p) ->
  loop_owns st' m listen_fd (p_log q).
Proof.
  induction fuel as [|fuel IH]; intros st p q st' H (Hl & Hc & Htm & Ho); cbn [main_loop] in H;
    apply M_bind_Ok in H as (s & p1 & H1 & H);
    apply (owns_neutral _ _ _ _ _ _ neutral_read_g_stop H1) in Ho;
    (destruct (decide (s <> 0)); [inv_M; repeat split; assumption || apply Ho|]); [inv_M|].
  apply M_bind_Ok in H as (next & p2 & H2 & H).
  apply (iteration_owns _ _ m) in H2; [|repeat split; assumption || apply Ho].
  destruct next as [st2|]; [exact (IH _ _ _ _ H H2)|inv_M; exact H2].
Qed.

Lemma close_all_owns fds : forall others maps (p q : proc controller) u,
  close_all fds p = Ok (u, q) -> owns (p_log p) (fds ++ others) maps -> owns (p_log q) others maps.
Proof.
  induction fds as [|f fds IH]; intros others maps p q u H Ho; cbn [close_all] in H; [inv_M; exact Ho|].
  apply M_bind_Ok in H as (c & p1 & H1 & H). apply (owns_close _ _ _ _ _ _ H1) in Ho.
  exact (IH _ _ _ _ _ H Ho).
Qed.

(** C7: the controller leaks nothing: whatever the kernel and its clients do,
    when [main] returns, normally or on an error path, every descriptor it
    opened (the region, the listening socket, every accepted client, including
    those refused for lack of room and those dropped by the sweep) has been
    closed and the region is unmapped. *)
Theorem main_no_leak (environ : list string) (fuel : nat) (p q : proc controller) (rc : Z)
    (Hrun : main environ fuel p = Ok (rc, q)) (Hstart : live_fds (p_log p) = [] /\ live_maps (p_log p) = []) :
  live_fds (p_log q) = [] /\ live_maps (p_log q) = [].
Proof.
  assert (Ho : owns (p_log p) [] []) by (destruct Hstart as [H1 H2]; unfold owns; rewrite H1, H2; auto).
  enough (owns (p_log q) [] []) as [H1 H2] by (split; apply Permutation_nil_r; assumption).
  unfold main in Hrun. cbv zeta in Hrun.
  apply M_bind_Ok in Hrun as (u1 & p1 & H1 & Hrun). destruct (owns_call _ _ _ _ _ _ H1 Ho) as (a1 & _ & Ho1).
  apply M_bind_Ok in Hrun as (u2 & p2 & H2 & Hrun). destruct (owns_call _ _ _ _ _ _ H2 Ho1) as (a2 & _ & Ho2).
  cbn in Ho2. apply M_bind_Ok in Hrun as ([rc3 tm] & p3 & H3 & Hrun).
  destruct (open_owns _ _ _ _ _ _ _ _ H3 Ho2) as [[Hrc Ho3]|(-> & m & -> & Hm & Ho3)].
  { rewrite decide_True in Hrun by exact Hrc. apply M_bind_Ok in Hrun as (u4 & p4 & H4 & Hrun).
    destruct (owns_call _ _ _ _ _ _ H4 Ho3) as (a4 & _ & Ho4). inv_M. exact Ho4. }
  rewrite decide_False in Hrun by lia. apply M_bind_Ok in Hrun as (lfd & p4 & H4 & Hrun).
  destruct (setup_owns _ _ _ _ _ _ H4 Ho3) as [Hneg Hpos].
  destruct (decide (lfd < 0)) as [Hl|Hl].
  { apply M_bind_Ok in Hrun as (u5 & p5 & H5 & Hrun). destruct (owns_call _ _ _ _ _ _ H5 (Hneg Hl)) as (a5 & _ & Ho5).
    apply M_bind_Ok in Hrun as (tm6 & p6 & H6 & Hrun). apply (close_owns _ _ [] [] _ _ _ H6 Hm) in Ho5. inv_M. exact Ho5. }
  specialize (Hpos ltac:(lia)). apply M_bind_Ok in Hrun as (u5 & p5 & H5 & Hrun).
  destruct (owns_call _ _ _ _ _ _ H5 Hpos) as (a5 & _ & Ho5). cbn in Ho5.
  apply M_bind_Ok in Hrun as (lt & p6 & H6 & Hrun). apply (owns_neutral _ _ _ _ _ _ neutral_monotonic_now H6) in Ho5.
  apply M_bind_Ok in Hrun as (st & p7 & H7 & Hrun).
  apply (main_loop_owns _ m) in H7; [|split; [reflexivity|split; [apply Nat.le_0_l|split; [reflexivity|exact Ho5]]]].
  destruct H7 as (_ & _ & Htm & Ho7). apply M_bind_Ok in Hrun as (u8 & p8 & H8 & Hrun).
  apply (close_all_owns _ _ _ _ _ _ H8) in Ho7.
  apply M_bind_Ok in Hrun as (u9 & p9 & H9 & Hrun). apply (owns_close _ _ _ _ _ _ H9) in Ho7.
  apply M_bind_Ok in Hrun as (u10 & p10 & H10 & Hrun). destruct (owns_call _ _ _ _ _ _ H10 Ho7) as (a10 & _ & Ho10).
  apply M_bind_Ok in Hrun as (tm11 & p11 & H11 & Hrun).
  destruct (loop_tm st) as [m'|]; [|discriminate]. injection Htm as Hm'. inv_M.
  apply (close_owns _ _ [] [] _ _ _ H11); [unfold tm_opened; rewrite Hm'; exact Hm|rewrite Hm'; exact Ho10].
Qed.
End Ownership.


(** ** Virtual time follows the monotonic clock *)

(** A quiet world: no signal, no client activity; the monotonic clock reads
    [mono k] nanoseconds once [k] events have happened, and never goes back;
    [kill] answers by [alive]. *)
Record idle_world {os : OS} (mono : nat -> Z) (alive : Z -> bool) : Prop := {
  idle_stop : forall log, ret (os_answer log XStop) = 0;
  idle_poll : forall log fds, ret (os_answer log (XPoll fds 10)) = 0 /\
    Forall (eq 0) (data (os_answer log (XPoll fds 10)));
  idle_clock : forall log, data (os_answer log (XClockGettime CLOCK_MONOTONIC)) =
    [tv_sec (of_ns (mono (length log))); tv_nsec (of_ns (mono (length log)))];
  idle_mono : forall i j, (i <= j)%nat -> mono i <= mono j;
  idle_kill : kill_says alive }.

Lemma elapsed_exact a b : 0 <= a <= b -> b < 2 ^ 62 -> elapsed_ns (of_ns b) (of_ns a) = Ok (b - a).
Proof.
  intros Hab Hb. unfold elapsed_ns, of_ns. cbn [tv_sec tv_nsec].
  pose proof (Z.div_mod a 1000000000 ltac:(lia)). pose proof (Z.div_mod b 1000000000 ltac:(lia)).
  pose proof (Z.mod_pos_bound a 1000000000 ltac:(lia)). pose proof (Z.mod_pos_bound b 1000000000 ltac:(lia)).
  set (qa := a / _) in *. set (qb := b / _) in *. set (ra := a mod _) in *. set (rb := b mod _) in *.
  clearbody qa qb ra rb.
  repeat (rewrite ckd64_Ok by (unfold in_s; lia); rewrite ?bind_Ok_l). f_equal. lia.
Qed.

Lemma ns_add_of_ns a d : 0 <= a -> 0 <= a + d < 2 ^ 63 -> a < 2 ^ 63 ->
  ns_add (of_ns a) d = Ok (of_ns (a + d)).
Proof.
  intros Ha Hd Hb. apply ns_add_Ok_iff. rewrite of_ns_total. cbn [of_ns tv_sec].
  pose proof (Z.div_mod a 1000000000 ltac:(lia)). pose proof (Z.mod_pos_bound a 1000000000 ltac:(lia)).
  unfold in_s. set (x := a / _) in *. set (y := a mod _) in *. clearbody x y.
  split; [lia|]. split; [lia|]. split; [lia|reflexivity].
Qed.

(** The loop state publishes virtual time [base + t] while its last tick was at
    monotonic time [t]. *)
Definition tracks (base t : Z) (r : Z) (st : loop_state) (q : proc controller) : Prop :=
  last_tick st = of_ns t /\ g_stop (p_st q) = 0 /\
  exists m l v, loop_tm st = Some m /\ layout (tm_shm m) = r /\ p_mem q !! r = Some l /\
    represents m l v /\ v_now v = of_ns (base + t) /\ table_ok (process_slots l).

Section Idle.
Context {os : OS} {Hquiet : QuietMemory} {mono : nat -> Z} {alive : Z -> bool}.
Context (Hidle : idle_world mono alive).

Lemma nth_zero (revents : list Z) i : Forall (eq 0) revents -> nth i revents 0 = 0.
Proof.
  intros H. destruct (nth_lookup_or_length revents i 0) as [Hn|Hn]; [|apply nth_overflow, Hn].
  rewrite Forall_forall in H. symmetry. apply H. eapply list_elem_of_lookup_2, Hn.
Qed.

(** A tick and the reaping after it: the published time moves, the table stays
    sound. *)
Lemma tick_and_reap d m l v (p : proc controller) now :
  p_mem p !! layout (tm_shm m) = Some l -> represents m l v -> table_ok (process_slots l) ->
  ns_add (v_now v) d = Ok now ->
  exists m' q1 q2 l', linbox_time_manager_tick (Some m) d p = Ok (Some m', q1) /\
    reap_dead_processes (Some m') q1 = Ok (tt, q2) /\ p_st q2 = p_st p /\
    (length (p_log p) <= length (p_log q2))%nat /\ tm_shm m' = tm_shm m /\
    p_mem q2 !! layout (tm_shm m) = Some l' /\
    represents m' l' (VClock now (v_seed v)) /\ table_ok (process_slots l').
Proof.
  intros Hl Hv [Hlen Hnd] Hadd. pose proof (run_op_refines m (Tick d) p l v Hl Hv) as Ho.
  cbn [run_op] in Ho. rewrite (spec_tick v d now Hadd) in Ho.
  destruct Ho as (m' & l' & e & log & Hrun & Hshm & Hv' & Hrest).
  pose proof (neutral_log_grows _ _ _ _ (neutral_tick _ _) Hrun) as Hg. cbn [p_log] in Hg.
  assert (Hok' : table_ok (process_slots l')) by (rewrite (proj1 Hrest); split; assumption).
  lazymatch type of Hrun with _ = Ok (pair _ ?q) =>
    destruct (reap_dead_processes_eq m' alive q l' (idle_kill _ _ Hidle)) as (e2 & log2 & Hreap) end;
    [rewrite Hshm; apply Hv|rewrite Hshm; apply lookup_insert_eq|apply Hok'|].
  pose proof (neutral_log_grows _ _ _ _ (neutral_reap _) Hreap) as Hg2. cbn [p_log] in Hg2.
  eexists m', _, _, _. split; [exact Hrun|]. split; [exact Hreap|]. split; [reflexivity|]. cbn [p_log p_mem].
  split; [lia|]. split; [exact Hshm|]. rewrite Hshm. split; [apply lookup_insert_eq|].
  split; [exact Hv'|apply reap_slots_ok, Hok'].
Qed.

(** One idle iteration. *)
Lemma idle_iteration listen_fd base t r st (p : proc controller) :
  tracks base t r st p -> 0 <= t <= mono (length (p_log p)) -> 0 <= base ->
  (forall n, base + mono n < 2 ^ 62) ->
  exists st' q t', main_iteration listen_fd st p = Ok (Some st', q) /\ tracks base t' r st' q /\
    client_fds st' = client_fds st /\ client_count st' = client_count st /\
    (length (p_log p) < length (p_log q))%nat /\ t' = mono (length (p_log p) + 1).
Proof.
  intros (Hlast & Hstop & m & l & v & Htm & Hr & Hl & Hv & Hnow & Hok) Ht Hbase Hbound.
  unfold main_iteration. rewrite M_bind_eq. unfold callA at 1. cbv zeta.
  destruct (idle_poll _ _ Hidle (p_log p) (listen_fd :: take (client_count st) (client_fds st))) as [Hret Hdata].
  set (a := os_answer (p_log p) (XPoll _ 10)) in *. rewrite Hret. rewrite !decide_False by lia.
  set (p1 := Proc (p_st p) (p_errno p) (p_mem p)
    (p_log p ++ [(XPoll (listen_fd :: take (client_count st) (client_fds st)) 10, a)])).
  rewrite (nth_zero _ 0 Hdata). rewrite M_bind_eq, decide_False by (intros H; apply H; reflexivity).
  unfold mret at 1, M_ret at 1. rewrite M_bind_eq.
  rewrite (client_loop_skip (data a) (loop_tm st) (client_count st) (client_count st) 0 (client_count st)
    (client_fds st) p1); [|intros j _; rewrite (nth_zero _ _ Hdata); split; [intros H; apply H; reflexivity|reflexivity]|lia..].
  rewrite client_loop_done by lia.
  rewrite M_bind_eq. unfold monotonic_now. rewrite M_bind_eq. unfold callA at 1. cbv zeta.
  rewrite (idle_clock _ _ Hidle (p_log p1)). cbn [nth].
  assert (Hlen1 : length (p_log p1) = (length (p_log p) + 1)%nat) by (cbn; rewrite length_app; reflexivity).
  rewrite Hlen1. set (t' := mono (length (p_log p) + 1)) in *.
  unfold mret at 1, M_ret at 1. rewrite M_bind_eq.
  replace (Timespec (tv_sec (of_ns t')) (tv_nsec (of_ns t'))) with (of_ns t') by reflexivity.
  assert (Htt : t <= t') by (pose proof (idle_mono _ _ Hidle (length (p_log p)) (length (p_log p) + 1) ltac:(lia)); lia).
  pose proof (Hbound (length (p_log p) + 1)%nat) as Hb'. fold t' in Hb'.
  unfold lift at 1. rewrite Hlast, elapsed_exact by lia.
  set (p2 := Proc _ _ _ _). assert (Hl2 : p_mem p2 !! layout (tm_shm m) = Some l) by (rewrite Hr; exact Hl).
  assert (Hp2 : (length (p_log p) < length (p_log p2))%nat).
  { unfold p2. cbn [p_log]. rewrite length_app, Hlen1. cbn. lia. }
  destruct (decide (t' - t > 0)) as [Hd|Hd].
  - rewrite Htm, M_bind_eq.
    destruct (tick_and_reap (t' - t) m l v p2 (of_ns (base + t + (t' - t))) Hl2 Hv Hok) as (m' & q1 & q2 & l' & Htick & Hreap & Hst2 & Hg & Hm' & Hl' & Hv').
    { rewrite Hnow. apply ns_add_of_ns; lia. }
    rewrite Htick, M_bind_eq, Hreap. eexists _, q2, t'. split; [reflexivity|]. cbn [client_fds client_count].
    split; [|split; [reflexivity|split; [reflexivity|split; [lia|reflexivity]]]].
    split; [reflexivity|]. split; [rewrite Hst2; exact Hstop|]. eexists m', l', _. split; [reflexivity|].
    split; [congruence|]. split; [rewrite <- Hr; exact Hl'|]. split; [apply Hv'|]. split; [|apply Hv'].
    cbn [v_now]. f_equal. lia.
  - assert (t' = t) as Heq by lia. eexists _, p2, t'. split; [reflexivity|]. cbn [client_fds client_count].
    split; [|split; [reflexivity|split; [reflexivity|split; [exact Hp2|reflexivity]]]].
    rewrite Heq. unfold tracks. cbn [last_tick loop_tm]. split; [reflexivity|]. split; [exact Hstop|].
    exists m, l, v. rewrite Hr in Hl2. auto 10.
Qed.

(** C10: virtual time runs at the rate of the monotonic clock: with no message
    to handle, after any number [n > 0] of iterations the loop is where it was
    with its clients as before, the published time is [base] plus a monotonic
    clock reading taken in the last iteration (so no time is lost or counted
    twice, whatever the iterations lasted), and the process table is still
    sound. *)
Theorem idle_loop_tracks_clock (listen_fd base t r : Z) (n : nat) (st : loop_state)
    (p : proc controller)
    (Hst : tracks base t r st p) (Ht : 0 <= t <= mono (length (p_log p))) (Hbase : 0 <= base)
    (Hbound : forall n, base + mono n < 2 ^ 62) (Hn : (0 < n)%nat) :
  exists st' q k, (forall fuel, main_loop (n + fuel) listen_fd st p = main_loop fuel listen_fd st' q) /\
    tracks base (mono k) r st' q /\ (length (p_log p) + n <= k)%nat /\ (k <= length (p_log q))%nat /\
    client_fds st' = client_fds st /\ client_count st' = client_count st.
Proof.
  revert st p t Hst Ht Hn. induction n as [|n IH]; intros st p t Hst Ht Hn; [lia|].
  assert (Hstep : exists p1, p_st p1 = p_st p /\ p_mem p1 = p_mem p /\
    length (p_log p1) = (length (p_log p) + 1)%nat /\ read_g_stop p = Ok (0, p1)).
  { eexists (Proc (p_st p) (p_errno p) (p_mem p) (p_log p ++ [(XStop, os_answer (p_log p) XStop)])).
    split; [reflexivity|]. split; [reflexivity|]. split; [cbn; rewrite length_app; reflexivity|].
    unfold read_g_stop. rewrite M_bind_eq, call_eq. cbv zeta. rewrite (idle_stop _ _ Hidle).
    rewrite !decide_False by lia. destruct Hst as (_ & Hg & _). rewrite <- Hg. reflexivity. }
  destruct Hstep as (p1 & Hs1 & Hm1 & Hl1 & Hrd).
  assert (Hst1 : tracks base t r st p1) by (unfold tracks in *; rewrite Hs1, Hm1; exact Hst).
  pose proof (idle_mono _ _ Hidle (length (p_log p)) (length (p_log p1)) ltac:(lia)) as Hmm.
  destruct (idle_iteration listen_fd base t r st p1 Hst1) as (st1 & q1 & t1 & Hit & Htr & Hf & Hc & Hlog & Ht1);
    [lia|exact Hbase|exact Hbound|].
  assert (Hunfold : forall fuel, main_loop (S n + fuel) listen_fd st p = main_loop (n + fuel) listen_fd st1 q1).
  { intros fuel. cbn [Nat.add main_loop]. rewrite M_bind_eq, Hrd. rewrite decide_False by lia.
    rewrite M_bind_eq, Hit. reflexivity. }
  destruct n as [|n].
  - exists st1, q1, (length (p_log p1) + 1)%nat. split; [exact Hunfold|]. rewrite <- Ht1.
    split; [exact Htr|]. split; [lia|]. split; [lia|]. auto.
  - pose proof (idle_mono _ _ Hidle (length (p_log p1) + 1) (length (p_log q1)) ltac:(lia)) as Hmq.
    pose proof (idle_mono _ _ Hidle (length (p_log p1)) (length (p_log p1) + 1) ltac:(lia)) as Hmq'.
    destruct (IH st1 q1 t1 Htr) as (st' & q & k & Hrun & Htr' & Hk1 & Hk2 & Hf' & Hc'); [lia|lia|].
    exists st', q, k. split; [intros fuel; rewrite Hunfold; apply Hrun|]. split; [exact Htr'|].
    split; [lia|]. split; [exact Hk2|]. split; congruence.
Qed.
End Idle.
