(* ===== verification/Termination.v ===== *)
(** * Termination

    Straight-line code needs no fuel; nor does any loop of the controller but the
    one of [main], and that one stops when a signal arrives.  Here a run that ends
    in undefined behaviour counts as over; Shutdown.v excludes it. *)
From S2P Require Import Prelude Bytes Sbp ShmLayout Os Shm Env TimeManager Controller ControllerLoop.

(** ** Results that do not run out of fuel: a value or undefined behaviour *)
Definition completes {A} (r : res A) : Prop := r <> OutOfFuel.

(** Code that always ends, normally or in undefined behaviour; its calls only
    add to the log. *)
Definition returns {S A} (m : M S A) : Prop := forall p,
  match m p with
  | Ok (_, q) => (length (p_log p) <= length (p_log q))%nat
  | OutOfFuel => False
  | Undef => True
  end.

Lemma completes_Ok {A} (a : A) : completes (Ok a).
Proof. discriminate. Qed.
Lemma completes_Undef {A} : completes (@Undef A).
Proof. discriminate. Qed.
Lemma completes_bind {A B} (r : res A) (f : A -> res B) :
  completes r -> (forall a, completes (f a)) -> completes (x ← r; f x).
Proof. intros Hr Hf. destruct r; [apply Hf|contradiction|discriminate]. Qed.
Lemma completes_rd buf i : completes (rd buf i).
Proof. unfold rd. destruct (buf !! i); discriminate. Qed.
Lemma completes_wr buf i b : completes (wr buf i b).
Proof. unfold wr. case_match; discriminate. Qed.
Lemma completes_memcpy buf off src n : completes (memcpy buf off src n).
Proof. unfold memcpy. case_match; discriminate. Qed.
Lemma completes_ckd64 z : completes (ckd64 z).
Proof. unfold ckd64. case_match; discriminate. Qed.

Create HintDb completes.
#[export] Hint Resolve completes_Ok completes_Undef completes_rd completes_wr completes_memcpy
  completes_ckd64 : completes.

Ltac completes_tac :=
  repeat first
    [ progress (intros; cbv zeta)
    | solve [auto with completes nocore]
    | apply completes_bind
    | match goal with |- completes (match ?x with _ => _ end) => destruct x end ].

Lemma completes_read_le64_loop k : forall p off i v, completes (read_le64_loop k p off i v).
Proof. induction k as [|k IH]; intros; cbn [read_le64_loop]; completes_tac. Qed.
Lemma completes_write_le64_loop k : forall p off i v, completes (write_le64_loop k p off i v).
Proof. induction k as [|k IH]; intros; cbn [write_le64_loop]; completes_tac. Qed.
Lemma completes_read_le16 p off : completes (read_le16 p off).
Proof. unfold read_le16. completes_tac. Qed.
Lemma completes_read_le32 p off : completes (read_le32 p off).
Proof. unfold read_le32. completes_tac. Qed.
Lemma completes_read_le64 p off : completes (read_le64 p off).
Proof. apply completes_read_le64_loop. Qed.
Lemma completes_write_le16 p off v : completes (write_le16 p off v).
Proof. unfold write_le16. completes_tac. Qed.
Lemma completes_write_le32 p off v : completes (write_le32 p off v).
Proof. unfold write_le32. completes_tac. Qed.
Lemma completes_write_le64 p off v : completes (write_le64 p off v).
Proof. apply completes_write_le64_loop. Qed.
#[export] Hint Resolve completes_read_le16 completes_read_le32 completes_read_le64
  completes_write_le16 completes_write_le32 completes_write_le64 : completes.

Lemma completes_encode v t f pl n out cap l : completes (sbp_encode_frame v t f pl n out cap l).
Proof. unfold sbp_encode_frame. completes_tac. Qed.
Lemma completes_decode fr n h pl : completes (sbp_decode_frame fr n h pl).
Proof. unfold sbp_decode_frame. completes_tac. Qed.
Lemma completes_payloads pl :
  completes (payload_set_time pl) /\ completes (payload_set_seed pl) /\ completes (payload_register_process pl).
Proof. destruct pl; repeat split; discriminate. Qed.
#[export] Hint Resolve completes_encode completes_decode : completes.
Lemma completes_set_time pl : completes (payload_set_time pl).
Proof. apply completes_payloads. Qed.
Lemma completes_set_seed pl : completes (payload_set_seed pl).
Proof. apply completes_payloads. Qed.
Lemma completes_register pl : completes (payload_register_process pl).
Proof. apply completes_payloads. Qed.
#[export] Hint Resolve completes_set_time completes_set_seed completes_register : completes.

Lemma completes_serialize msg out cap l : completes (sbp_serialize_message msg out cap l).
Proof. unfold sbp_serialize_message. completes_tac. Qed.
Lemma completes_deserialize fr n m : completes (sbp_deserialize_message fr n m).
Proof. unfold sbp_deserialize_message. completes_tac. Qed.
Lemma completes_ns_add t d : completes (ns_add t d).
Proof. unfold ns_add. completes_tac. Qed.
Lemma completes_elapsed a b : completes (elapsed_ns a b).
Proof. unfold elapsed_ns. completes_tac. Qed.
#[export] Hint Resolve completes_serialize completes_deserialize completes_ns_add completes_elapsed : completes.

(** ** Code that returns *)
Section Returns.
Context {S : Type} {os : OS}.
Lemma returns_ret {A} (a : A) : returns (S := S) (mret a).
Proof. intros p. apply Nat.le_refl. Qed.
Lemma returns_bind {A B} (m : M S A) (f : A -> M S B) :
  returns m -> (forall a, returns (f a)) -> returns (a ← m; f a).
Proof.
  intros Hm Hf p. rewrite M_bind_eq. specialize (Hm p). destruct (m p) as [[a p']| |]; [|exact Hm..].
  specialize (Hf a p'). destruct (f a p') as [[b q]| |]; [lia|exact Hf..].
Qed.
Lemma returns_callA x : returns (S := S) (callA x).
Proof. intros p. unfold callA. cbn [p_log]. rewrite length_app. lia. Qed.
Lemma returns_call x : returns (S := S) (call x).
Proof. apply returns_bind; [apply returns_callA|intros; apply returns_ret]. Qed.
Lemma returns_load r : returns (S := S) (load r).
Proof. intros p. unfold load. destruct (_ !! r); [cbn [p_log]; rewrite length_app; lia|exact I]. Qed.
Lemma returns_store r f : returns (S := S) (store r f).
Proof. intros p. unfold store. destruct (_ !! r); [cbn [p_log]; rewrite length_app; lia|exact I]. Qed.
Lemma returns_undef {A} : returns (S := S) (undef (A := A)).
Proof. intros p. exact I. Qed.
Lemma returns_lift {A} (r : res A) : completes r -> returns (S := S) (lift r).
Proof. intros H p. unfold lift. destruct r; [apply Nat.le_refl|apply H; reflexivity|exact I]. Qed.
Lemma returns_get_st : returns (S := S) get_st.
Proof. intros p. apply Nat.le_refl. Qed.
Lemma returns_get_errno : returns (S := S) get_errno.
Proof. intros p. apply Nat.le_refl. Qed.
Lemma returns_modify_st f : returns (S := S) (modify_st f).
Proof. intros p. apply Nat.le_refl. Qed.
Lemma returns_set_errno e : returns (S := S) (set_errno e).
Proof. intros p. apply Nat.le_refl. Qed.
End Returns.

Create HintDb returns.
#[export] Hint Resolve returns_ret returns_callA returns_call returns_load returns_store returns_undef
  returns_get_st returns_get_errno returns_modify_st returns_set_errno : returns.

Ltac returns_tac :=
  repeat first
    [ progress (intros; cbv zeta)
    | solve [auto with returns nocore]
    | apply returns_lift; solve [completes_tac]
    | apply returns_bind
    | match goal with |- returns (match ?x with _ => _ end) => destruct x end ].

Section Library.
Context {S : Type} {os : OS}.
Lemma returns_now_ns : returns (S := S) now_ns.
Proof. unfold now_ns. returns_tac. Qed.
Hint Resolve returns_now_ns : returns.
Lemma returns_init_layout r : returns (S := S) (linbox_shm_init_layout r).
Proof. unfold linbox_shm_init_layout. returns_tac. Qed.
Hint Resolve returns_init_layout : returns.
Lemma returns_open_map path fl mode init out : returns (S := S) (linbox_shm_open_map path fl mode init out).
Proof. unfold linbox_shm_open_map. returns_tac. Qed.
Lemma returns_detach h : returns (S := S) (linbox_shm_detach h).
Proof. unfold linbox_shm_detach. returns_tac. Qed.
Hint Resolve returns_open_map returns_detach : returns.
Lemma returns_attach path out : returns (S := S) (linbox_shm_attach path out).
Proof. unfold linbox_shm_attach. returns_tac. Qed.
Lemma returns_create path out : returns (S := S) (linbox_shm_create path out).
Proof. unfold linbox_shm_create. returns_tac. Qed.
Lemma returns_destroy path h : returns (S := S) (linbox_shm_destroy path h).
Proof. unfold linbox_shm_destroy. returns_tac. Qed.
Lemma returns_write_time r ts : returns (S := S) (linbox_shm_write_time r ts).
Proof. unfold linbox_shm_write_time. returns_tac. Qed.
Hint Resolve returns_attach returns_create returns_destroy returns_write_time : returns.
Lemma returns_open tm path : returns (S := S) (linbox_time_manager_open tm path).
Proof. unfold linbox_time_manager_open. returns_tac. Qed.
Lemma returns_close tm path : returns (S := S) (linbox_time_manager_close tm path).
Proof. unfold linbox_time_manager_close. returns_tac. Qed.
Lemma returns_tick tm d : returns (S := S) (linbox_time_manager_tick tm d).
Proof. unfold linbox_time_manager_tick. returns_tac. Qed.
Lemma returns_tm_set_time tm ts : returns (S := S) (linbox_time_manager_set_time tm ts).
Proof. unfold linbox_time_manager_set_time. returns_tac. Qed.
Lemma returns_tm_set_seed tm s : returns (S := S) (linbox_time_manager_set_seed tm s).
Proof. unfold linbox_time_manager_set_seed. returns_tac. Qed.
End Library.
#[export] Hint Resolve returns_open returns_close returns_tick returns_tm_set_time returns_tm_set_seed : returns.

(** ** The controller *)
Section Controller.
Context {os : OS}.
Lemma returns_read_g_stop : returns read_g_stop.
Proof. unfold read_g_stop, on_signal. returns_tac. Qed.
Lemma returns_setup path : returns (setup_server_socket path).
Proof. unfold setup_server_socket. returns_tac. Qed.
Lemma returns_send_ack fd flags : returns (send_ack fd flags).
Proof. unfold send_ack. returns_tac. Qed.
Lemma returns_load_slot r i : returns (load_slot r i).
Proof. unfold load_slot. returns_tac. Qed.
Lemma returns_store_slot r i f : returns (store_slot r i f).
Proof. unfold store_slot. returns_tac. Qed.
Hint Resolve returns_send_ack returns_load_slot returns_store_slot : returns.
Lemma returns_register_loop k r x : forall i e, returns (register_loop k r i x e).
Proof. induction k as [|k IH]; intros i e; cbn [register_loop]; returns_tac. Qed.
Lemma returns_reap_loop k r : forall i, returns (reap_loop k r i).
Proof. induction k as [|k IH]; intros i; cbn [reap_loop]; returns_tac. Qed.
Hint Resolve returns_register_loop returns_reap_loop : returns.
Lemma returns_register tm x : returns (register_process tm x).
Proof. unfold register_process. returns_tac. Qed.
Lemma returns_reap tm : returns (reap_dead_processes tm).
Proof. unfold reap_dead_processes. returns_tac. Qed.
Lemma returns_read_frame fd : returns (read_frame fd).
Proof. unfold read_frame. returns_tac. Qed.
Hint Resolve returns_register returns_reap returns_read_frame : returns.
Lemma returns_handle fd tm : returns (handle_client_message fd tm).
Proof. unfold handle_client_message. returns_tac. Qed.
Lemma returns_monotonic_now : returns monotonic_now.
Proof. unfold monotonic_now. returns_tac. Qed.
Lemma returns_close_all fds : returns (close_all fds).
Proof. induction fds as [|fd fds IH]; cbn [close_all]; returns_tac. Qed.
Hint Resolve returns_handle returns_monotonic_now returns_close_all : returns.

(** Each pass of the sweep either moves on or drops a client. *)
Lemma returns_client_loop revents fuel : forall i fds count tm, (count <= i + fuel)%nat ->
  returns (client_loop fuel revents i fds count tm).
Proof.
  induction fuel as [|fuel IH]; intros i fds count tm Hf; cbn [client_loop].
  - rewrite decide_False by lia. returns_tac.
  - destruct (decide (i < count)%nat) as [Hi|]; [|returns_tac]. unfold remove_client. cbv zeta.
    returns_tac; apply IH; lia.
Qed.

Lemma returns_iteration listen_fd st : returns (main_iteration listen_fd st).
Proof.
  unfold main_iteration. apply returns_bind; [returns_tac|]. intros a.
  destruct (decide _); [returns_tac|]. apply returns_bind; [returns_tac|]. intros [fds count].
  apply returns_bind; [apply returns_client_loop; lia|]. returns_tac.
Qed.

(** After [k] events a signal has arrived. *)
Definition signalled_after (k : nat) : Prop :=
  forall log, (k <= length log)%nat -> ret (os_answer log XStop) <> 0.

Lemma read_g_stop_eq p : exists q, read_g_stop p = Ok (g_stop (p_st q), q) /\
  p_log q = p_log p ++ [(XStop, os_answer (p_log p) XStop)] /\
  (ret (os_answer (p_log p) XStop) <> 0 -> g_stop (p_st q) = 1).
Proof.
  unfold read_g_stop, on_signal. rewrite M_bind_eq, call_eq. cbv beta iota zeta.
  destruct (decide (ret _ <> 0)).
  - eexists. split; [reflexivity|]. auto.
  - eexists. split; [reflexivity|]. split; [reflexivity|contradiction].
Qed.

Lemma main_loop_stops k listen_fd fuel : signalled_after k -> forall st p,
  (k <= length (p_log p) + fuel)%nat -> completes (main_loop fuel listen_fd st p).
Proof.
  intros Hk. induction fuel as [|fuel IH]; intros st p Hf; cbn [main_loop]; rewrite M_bind_eq;
    destruct (read_g_stop_eq p) as (q & -> & Hlog & Hstop).
  - rewrite Hstop by (apply Hk; lia). rewrite decide_True by discriminate. discriminate.
  - destruct (decide _); [discriminate|]. rewrite M_bind_eq. pose proof (returns_iteration listen_fd st q) as Hi.
    destruct (main_iteration listen_fd st q) as [[next q']| |]; [|contradiction|discriminate].
    destruct next as [st'|]; [|discriminate]. apply IH. rewrite Hlog, length_app in Hi. cbn in Hi. lia.
Qed.

Lemma completes_M_bind {S A B} (m : M S A) (f : A -> M S B) p :
  returns m -> (forall a q, (length (p_log p) <= length (p_log q))%nat -> completes (f a q)) ->
  completes ((a ← m; f a) p).
Proof.
  intros Hm Hf. rewrite M_bind_eq. specialize (Hm p). destruct (m p) as [[a q]| |]; [apply Hf, Hm|contradiction|discriminate].
Qed.

Lemma returns_completes {S A} (m : M S A) p : returns m -> completes (m p).
Proof. intros Hm H. specialize (Hm p). rewrite H in Hm. exact Hm. Qed.

(** [main] is over within the iterations it takes for a signal to arrive. *)
Lemma main_completes environ k fuel p : signalled_after k -> (k <= fuel)%nat -> completes (main environ fuel p).
Proof.
  intros Hk Hf. unfold main. cbv zeta.
  apply completes_M_bind; [returns_tac|]. intros _ p1 _. apply completes_M_bind; [returns_tac|]. intros _ p2 _.
  apply completes_M_bind; [returns_tac|]. intros [rc tm] p3 _.
  destruct (decide _); [apply returns_completes; returns_tac|].
  apply completes_M_bind; [apply returns_setup|]. intros listen_fd p4 _.
  destruct (decide _); [apply returns_completes; returns_tac|].
  apply completes_M_bind; [returns_tac|]. intros _ p5 _. apply completes_M_bind; [returns_tac|]. intros last p6 _.
  rewrite M_bind_eq. pose proof (main_loop_stops k listen_fd fuel Hk) as Hloop.
  specialize (Hloop (LoopState (replicate (Z.to_nat LINBOX_PROCESS_SLOT_COUNT) 0) 0 last tm) p6).
  destruct (main_loop _ _ _ p6) as [[st q]| |]; [|exfalso; apply Hloop; [lia|reflexivity]|discriminate].
  apply returns_completes. returns_tac.
Qed.
End Controller.
