(* ===== verification/Shutdown.v ===== *)
(** * Shutting the controller down

    Total correctness of main.c: on a machine whose clocks and clients are sane
    every iteration of the event loop returns, without undefined behaviour, and
    once a signal has arrived so does [main]. *)
From S2P Require Import Prelude Bytes Sbp ShmLayout Os Total Shm Mapping Env TimeManager Controller ControllerFacts Termination.

(** The bound of the times: 2^32 seconds, in nanoseconds. *)
Definition time_bound : Z := 2 ^ 32 * 1000000000.
Definition sane_time (ts : timespec) : Prop :=
  -(2 ^ 32) <= tv_sec ts < 2 ^ 32 /\ 0 <= tv_nsec ts < 1000000000.

(** The machine: nobody unmaps the region; the monotonic clock counts seconds
    from the machine's start; a [read] fails or delivers as many bytes as it
    says; and no client asks for a time 2^32 seconds away from the epoch. *)
Record sane_host {os : OS} : Prop := {
  sh_mem : forall log m, mapped m -> mapped (os_interfere log m);
  sh_clock : forall log, let d := data (os_answer log (XClockGettime CLOCK_MONOTONIC)) in
    0 <= nth 0 d 0 < 2 ^ 32 /\ 0 <= nth 1 d 0 < 1000000000;
  sh_read : forall log fd, let a := os_answer log (XRead fd SBP_MAX_FRAME_SIZE) in
    ret a <= 0 \/ delivers log fd (data a);
  sh_times : forall log fd bytes msg s n, delivers log fd bytes -> accepted bytes = Some msg ->
    m_payload msg = PSetTime s n -> sane_time (Timespec s n) }.

(** The payloads that do not go with the message's type. *)
Ltac wrong_payload Hp :=
  try solve [destruct Hp as [Hp|Hp]; discriminate Hp|destruct Hp as [Hp _]; discriminate Hp].

Section Shutdown.
Context {os : OS} (Hhost : sane_host).

Definition running (p : proc controller) : Prop := mapped (p_mem p).

#[local] Instance running_stable : Stable running.
Proof. intros p e log H. exact H. Qed.
#[local] Instance running_undisturbed : Undisturbed running.
Proof. intros p log H. exact (sh_mem Hhost log _ H). Qed.
#[local] Instance running_holding : Holding running.
Proof. split; [exact _..|intros p H; exact H|intros p m _ Hm; exact Hm]. Qed.

(** The manager has its region, and its clock is at most [time_bound] ahead of
    the time the controller has been running. *)
Definition clock_ok (last : timespec) (m : linbox_time_manager) : Prop :=
  in_mapping (layout (tm_shm m)) /\ 0 <= tv_nsec (tm_current m) < 1000000000 /\
  - time_bound <= total_ns (tm_current m) <= time_bound + total_ns last.
Definition tm_ok (last : timespec) (tm : option linbox_time_manager) : Prop :=
  exists m, tm = Some m /\ clock_ok last m.
Definition monotonic (ts : timespec) : Prop := 0 <= tv_sec ts < 2 ^ 32 /\ 0 <= tv_nsec ts < 1000000000.
Definition loop_ok (st : loop_state) : Prop := monotonic (last_tick st) /\ tm_ok (last_tick st) (loop_tm st).

(** ** Arithmetic *)
Lemma monotonic_bound ts : monotonic ts -> 0 <= total_ns ts < time_bound.
Proof. unfold monotonic, total_ns, time_bound. lia. Qed.

Lemma elapsed_total now last : monotonic now -> monotonic last ->
  elapsed_ns now last = Ok (total_ns now - total_ns last).
Proof.
  intros Hn Hl. unfold monotonic in *. unfold elapsed_ns, total_ns.
  assert (Hs : in_s 64 (tv_sec now - tv_sec last)) by (unfold in_s; lia).
  assert (Hm : in_s 64 ((tv_sec now - tv_sec last) * 1000000000)) by (unfold in_s; lia).
  assert (Hd : in_s 64 (tv_nsec now - tv_nsec last)) by (unfold in_s; lia).
  rewrite (ckd64_Ok _ Hs), bind_Ok_l, (ckd64_Ok _ Hm), bind_Ok_l, (ckd64_Ok _ Hd), bind_Ok_l.
  rewrite ckd64_Ok by (unfold in_s; lia). f_equal. lia.
Qed.

Lemma tick_ok now last m : monotonic now -> monotonic last -> clock_ok last m ->
  0 < total_ns now - total_ns last ->
  exists current, ns_add (tm_current m) (total_ns now - total_ns last) = Ok current /\
    clock_ok now (TimeManager (tm_shm m) current (tm_seed m)).
Proof.
  intros Hn Hl (Hmap & Hnsec & Hb) Hd. pose proof (monotonic_bound _ Hn) as Bn. pose proof (monotonic_bound _ Hl) as Bl.
  exists (of_ns (total_ns (tm_current m) + (total_ns now - total_ns last))). split.
  - apply ns_add_Ok_iff. revert Hb Bn Bl. unfold total_ns at 1 2, time_bound, in_s. intros. unfold total_ns in *.
    repeat split; lia.
  - split; [exact Hmap|]. cbn [tm_current]. split; [apply Z.mod_pos_bound; reflexivity|]. rewrite of_ns_total. lia.
Qed.

Lemma set_time_ok last m ts : monotonic last -> clock_ok last m -> sane_time ts ->
  clock_ok last (TimeManager (tm_shm m) ts (tm_seed m)).
Proof.
  intros Hl (Hmap & _) Ht. pose proof (monotonic_bound _ Hl) as Hb. split; [exact Hmap|].
  revert Ht Hb. unfold sane_time, total_ns, time_bound. cbn [tm_current]. lia.
Qed.

(** ** The process table *)
Lemma ends_load_slot r i : in_mapping r -> (i < Z.to_nat LINBOX_PROCESS_SLOT_COUNT)%nat -> ends running (load_slot r i).
Proof.
  intros Hr Hi. unfold load_slot. eapply total_bind; [apply region_load; [exact _|exact Hr]|].
  intros l. cbv beta. apply total_pure. unfold full_table. intros Hl.
  destruct (lookup_lt_is_Some_2 (process_slots l) i) as [s ->]; [lia|apply ends_ret].
Qed.

Lemma ends_store_slot r i f : in_mapping r -> ends running (store_slot r i f).
Proof.
  intros Hr. apply region_store; [exact _|exact Hr|]. intros l Hl. unfold full_table in *.
  cbn [set_process_slots process_slots]. rewrite length_alter. exact Hl.
Qed.

Lemma ends_region_load r : in_mapping r -> ends running (load r).
Proof. intros Hr. apply (total_post _ _ _ _ (region_load _ r Hr)). tauto. Qed.
Hint Resolve ends_load_slot ends_store_slot ends_region_load : ends.

Lemma ends_register_loop r x : in_mapping r -> forall k i e, (i + k = Z.to_nat LINBOX_PROCESS_SLOT_COUNT)%nat ->
  ends running (register_loop k r i x e).
Proof.
  intros Hr. induction k as [|k IH]; intros i e Hi; cbn [register_loop]; [apply ends_ret|].
  assert (Hs : ends running (load_slot r i)) by (apply ends_load_slot; [exact Hr|lia]). ends_tac; apply IH; lia.
Qed.

Lemma ends_reap_loop r : in_mapping r -> forall k i, (i + k = Z.to_nat LINBOX_PROCESS_SLOT_COUNT)%nat ->
  ends running (reap_loop k r i).
Proof.
  intros Hr. induction k as [|k IH]; intros i Hi; cbn [reap_loop]; [apply ends_ret|].
  assert (Hs : ends running (load_slot r i)) by (apply ends_load_slot; [exact Hr|lia]). ends_tac; apply IH; lia.
Qed.

Lemma ends_register last tm x : tm_ok last tm -> ends running (register_process tm x).
Proof.
  intros (m & -> & Hr & _). pose proof (ends_register_loop _ x Hr _ 0 None (Nat.add_0_l _)) as Hl.
  unfold register_process. ends_tac.
Qed.

Lemma ends_reap last tm : tm_ok last tm -> ends running (reap_dead_processes tm).
Proof.
  intros (m & -> & Hr & _). pose proof (ends_reap_loop _ Hr _ 0%nat (Nat.add_0_l _)) as Hl.
  unfold reap_dead_processes. ends_tac.
Qed.

(** ** Messages *)
Lemma ends_send_ack fd flags : in_u 16 flags -> ends running (send_ack fd flags).
Proof.
  intros Hf p Hp. rewrite send_ack_eq by exact Hf. revert p Hp.
  change (ends running (n ← call (XWrite fd (ack_bytes flags)) ; mret (if decide (n = 8) then 0 else -1))). ends_tac.
Qed.

(** What a read leaves in the frame, if it delivers anything. *)
Definition frame_of (fd : Z) (r : Z * list Z) : Prop :=
  r.1 <= 0 \/ exists log bytes, delivers log fd bytes /\ forall m0,
    sbp_deserialize_message (Some r.2) r.1 (Some m0) =
    let '(rc, om) := decode_message bytes in Ok (rc, Some (default m0 om)).

Lemma total_read_frame fd : total running (read_frame fd) (fun r q => frame_of fd r /\ running q).
Proof.
  intros p Hp. destruct (sh_read Hhost (p_log p) fd) as [Hn|Hd].
  - unfold read_frame. eexists _, _. split; [reflexivity|]. split; [left; exact Hn|exact Hp].
  - destruct (read_frame_eq fd _ p Hd) as (fr & E & Hdec). eexists _, _. split; [exact E|].
    split; [right; eauto|exact Hp].
Qed.

(** Code that returns, with a manager whose clock is still in bounds. *)
Definition keeps_clock (last : timespec) {A} (m : M controller A) (tm_of : A -> option linbox_time_manager) : Prop :=
  total running m (fun r q => tm_ok last (tm_of r) /\ running q).

Lemma keeps_clock_ret last {A} (a : A) tm_of : tm_ok last (tm_of a) -> keeps_clock last (mret a) tm_of.
Proof. intros H. apply total_ret. auto. Qed.

(** A step that is known to be defined. *)
Lemma keeps_clock_lift last {A B} (r : res A) (a : A) (f : A -> M controller B) tm_of :
  r = Ok a -> keeps_clock last (f a) tm_of -> keeps_clock last (x ← lift r ; f x) tm_of.
Proof. intros -> H p Hp. exact (H p Hp). Qed.

(** The acknowledgement is the last thing the handler does. *)
Lemma keeps_clock_ack last fd flags tm : in_u 16 flags -> tm_ok last tm ->
  keeps_clock last (rc ← send_ack fd flags ; mret (rc, tm)) snd.
Proof.
  intros Hf Ht. apply total_bind_ends; [apply ends_send_ack, Hf|]. intros rc. apply keeps_clock_ret. exact Ht.
Qed.

Lemma total_set_time last tm ts : monotonic last -> tm_ok last tm -> sane_time ts ->
  keeps_clock last (linbox_time_manager_set_time tm (Some ts)) (fun tm => tm).
Proof.
  intros Hl (m & -> & Hm) Ht. unfold linbox_time_manager_set_time. destruct (decide _); [apply keeps_clock_ret; exists m; auto|].
  apply total_bind_ends; [apply region_write_time; [exact _|right; apply Hm]|]. intros _.
  apply keeps_clock_ret. eexists. split; [reflexivity|]. exact (set_time_ok last m ts Hl Hm Ht).
Qed.

Lemma total_set_seed last tm seed : tm_ok last tm -> keeps_clock last (linbox_time_manager_set_seed tm seed) (fun tm => tm).
Proof.
  intros (m & -> & Hm). unfold linbox_time_manager_set_seed. destruct (decide _); [apply keeps_clock_ret; exists m; auto|].
  apply total_bind_ends; [apply region_store; [exact _|apply Hm|intros l Hl; exact Hl]|]. intros _.
  apply keeps_clock_ret. eexists. split; [reflexivity|exact Hm].
Qed.

Lemma total_handle last fd tm : monotonic last -> tm_ok last tm -> keeps_clock last (handle_client_message fd tm) snd.
Proof.
  intros Hlast Htm. unfold handle_client_message, keeps_clock. eapply total_bind; [apply total_read_frame|].
  intros [n frame]. cbv beta. apply total_pure. unfold frame_of. cbn [fst snd]. intros Hfr.
  destruct (decide (n <= 0)) as [|Hn]; [apply keeps_clock_ret, Htm|].
  destruct Hfr as [|(log & bytes & Hd & Hdec)]; [contradiction|]. rewrite Hdec.
  destruct (decode_message bytes) as [rc om] eqn:E. eapply keeps_clock_lift; [reflexivity|]. cbv beta iota.
  destruct (decide (rc <> SBP_OK)) as [|Hrc]; [apply keeps_clock_ret, Htm|].
  assert (rc = SBP_OK) as -> by (destruct (decide (rc = SBP_OK)); [assumption|contradiction]).
  destruct om as [msg|]; [|apply decode_message_refused in E; contradiction]. cbn [default from_option id].
  pose proof Hd as (_ & HF & _). apply (decode_message_ok _ _ HF) in E as E'. destruct E' as ((_ & Hf & Hp) & _).
  assert (Hacc : m_type msg <> SBP_MSG_ACK -> accepted bytes = Some msg).
  { intros Ht. unfold accepted. rewrite E. apply decide_True. auto. }
  destruct msg as [t v f pl]; cbn in Hp, Hf, Hacc. cbn [m_payload m_type m_flags].
  destruct (decide (t = SBP_MSG_HELLO)); [apply keeps_clock_ack; assumption|].
  destruct (decide (t = SBP_MSG_SET_TIME)) as [->|].
  { destruct pl as [|s k|seed|x slot]; wrong_payload Hp.
    eapply keeps_clock_lift; [reflexivity|]. cbv beta iota. pose proof (sh_times Hhost _ _ _ _ s k Hd (Hacc ltac:(discriminate)) eq_refl) as Hs.
    eapply total_bind; [exact (total_set_time last tm (Timespec s k) Hlast Htm Hs)|].
    intros tm'. cbv beta. apply total_pure. intros Htm'. apply keeps_clock_ack; assumption. }
  destruct (decide (t = SBP_MSG_SET_SEED)) as [->|].
  { destruct pl as [|s k|seed|x slot]; wrong_payload Hp.
    eapply keeps_clock_lift; [reflexivity|]. cbv beta iota. eapply total_bind; [exact (total_set_seed last tm seed Htm)|].
    intros tm'. cbv beta. apply total_pure. intros Htm'. apply keeps_clock_ack; assumption. }
  destruct (decide (t = SBP_MSG_REGISTER_PROCESS)) as [->|]; [|apply keeps_clock_ret, Htm].
  destruct pl as [|s k|seed|x slot]; wrong_payload Hp.
  eapply keeps_clock_lift; [reflexivity|]. cbv beta iota.
  apply total_bind_ends; [exact (ends_register last tm x Htm)|]. intros _. apply keeps_clock_ack; assumption.
Qed.

(** ** The event loop *)
Lemma total_monotonic_now : total running monotonic_now (fun ts q => monotonic ts /\ running q).
Proof.
  unfold monotonic_now. eapply total_bind; [apply total_callA; exact _|]. intros a. cbv beta.
  apply total_pure. intros [log ->]. apply total_ret. intros p Hp. split; [exact (sh_clock Hhost log)|exact Hp].
Qed.

Lemma total_client_loop last revents : monotonic last -> forall fuel i fds count tm, (count <= i + fuel)%nat ->
  tm_ok last tm -> keeps_clock last (client_loop fuel revents i fds count tm) snd.
Proof.
  intros Hlast. induction fuel as [|fuel IH]; intros i fds count tm Hf Htm; cbn [client_loop].
  - rewrite decide_False by lia. apply keeps_clock_ret, Htm.
  - destruct (decide (i < count)%nat) as [Hi|]; [|apply keeps_clock_ret, Htm]. cbv zeta. unfold remove_client.
    assert (Hclose : forall tm, tm_ok last tm -> keeps_clock last (_ ← call (XClose (nth i fds 0)) ;
      client_loop fuel revents i (<[i := nth (count - 1) fds 0]> fds) (count - 1) tm) snd).
    { intros tm' Htm'. apply total_bind_ends; [ends_tac|]. intros _. apply IH; [lia|exact Htm']. }
    destruct (decide _); [apply Hclose, Htm|]. destruct (decide _); [|apply IH; [lia|exact Htm]].
    eapply total_bind; [apply (total_handle last); assumption|]. intros [rc tm']. cbv beta. apply total_pure.
    intros Htm'. destruct (decide _); [apply Hclose, Htm'|apply IH; [lia|exact Htm']].
Qed.

Lemma total_tick now last tm : monotonic now -> monotonic last -> tm_ok last tm -> 0 < total_ns now - total_ns last ->
  keeps_clock now (linbox_time_manager_tick tm (total_ns now - total_ns last)) (fun tm => tm).
Proof.
  intros Hn Hl (m & -> & Hm) Hd. destruct (tick_ok now last m Hn Hl Hm Hd) as (cur & E & Hok).
  unfold linbox_time_manager_tick. destruct (decide _).
  - apply keeps_clock_ret. exists m. split; [reflexivity|]. destruct Hm as (Hr & Hn' & Hb). split; [exact Hr|]. split; [exact Hn'|lia].
  - eapply keeps_clock_lift; [exact E|]. cbv beta.
    apply total_bind_ends; [apply region_write_time; [exact _|right; apply Hm]|]. intros _. apply keeps_clock_ret.
    eexists. split; [reflexivity|exact Hok].
Qed.

Lemma total_iteration listen_fd st : loop_ok st ->
  total running (main_iteration listen_fd st) (fun r q => from_option loop_ok True r /\ running q).
Proof.
  intros [Hlast Htm]. unfold main_iteration. apply total_bind_ends; [ends_tac|]. intros a.
  destruct (decide _).
  { apply total_bind_ends; [ends_tac|]. intros e. apply total_ret. intros p Hp. split; [|exact Hp].
    destruct (decide _); [split; assumption|exact I]. }
  cbv zeta. apply total_bind_ends; [ends_tac|]. intros [fds count].
  eapply total_bind; [apply (total_client_loop (last_tick st)); [exact Hlast|lia|exact Htm]|].
  intros [[fds' count'] tm]. cbv beta. apply total_pure. intros Htm'. cbn [snd] in Htm'.
  eapply total_bind; [apply total_monotonic_now|]. intros now. cbv beta. apply total_pure. intros Hnow.
  rewrite elapsed_total by assumption. intros p Hp. unfold lift at 1. rewrite M_bind_eq. revert p Hp.
  destruct (decide _) as [Hd|].
  - eapply total_bind; [apply (total_tick now); [assumption..|lia]|]. intros tm1. cbv beta. apply total_pure.
    intros Htm1. apply total_bind_ends; [exact (ends_reap now tm1 Htm1)|]. intros _. apply total_ret.
    intros p Hp. split; [split; assumption|exact Hp].
  - apply total_ret. intros p Hp. split; [split; assumption|exact Hp].
Qed.

Lemma total_main_loop k listen_fd fuel : signalled_after k -> forall st, loop_ok st ->
  total (fun p => (k <= length (p_log p) + fuel)%nat /\ running p) (main_loop fuel listen_fd st)
    (fun st q => loop_ok st /\ running q).
Proof.
  intros Hk. induction fuel as [|fuel IH]; intros st Hst p [Hf Hp]; cbn [main_loop]; rewrite M_bind_eq;
    destruct (read_g_stop_eq p) as (q & E & Hlog & Hstop); rewrite E;
    (assert (Hq : running q) by
      (apply (total_result running read_g_stop (fun _ => running) p _ q) with (2 := Hp) (3 := E);
       unfold read_g_stop, on_signal; ends_tac; apply total_modify_st; auto)).
  - rewrite Hstop by (apply Hk; lia). rewrite decide_True by discriminate. eexists _, _. split; [reflexivity|auto].
  - destruct (decide _); [eexists _, _; split; [reflexivity|auto]|].
    destruct (total_iteration listen_fd st Hst q Hq) as (next & q' & E' & Hnext & Hq').
    pose proof (returns_iteration listen_fd st q) as Hlen. rewrite M_bind_eq, E'. rewrite E' in Hlen.
    destruct next as [st'|]; [|eexists _, _; split; [reflexivity|auto]].
    apply IH; [exact Hnext|]. split; [|exact Hq']. rewrite Hlog, length_app in Hlen. cbn in Hlen. lia.
Qed.

(** ** Start and end *)
Lemma total_open path : total running
  (linbox_time_manager_open (Some (TimeManager (ShmHandle (-1) 0 NULL) (Timespec 0 0) 0)) (Some path))
  (fun r q => (forall last, monotonic last -> r.1 = 0 -> tm_ok last r.2) /\ running q).
Proof.
  unfold linbox_time_manager_open. cbv zeta.
  apply (total_bind _ (fun r q => opened (Some (ShmHandle (-1) 0 NULL)) r /\ running q)); [apply region_create, _|].
  intros [rc shm]. apply total_pure. intros Ho.
  apply (total_bind _ (fun r q => opened (Some (ShmHandle (-1) 0 NULL)) r /\ running q)).
  - pose proof (fun o H => opened_fails running (Some (ShmHandle (-1) 0 NULL)) o (fun _ => H)) as Hfail.
    destruct (proj1 Ho (mk_is_Some _ _ eq_refl)) as [h Eh]. cbn [snd] in Eh. subst shm.
    destruct (decide (rc <> 0)) as [|Hrc].
    + apply total_bind_ends; [ends_tac|]. intros e. destruct (decide _); [apply Hfail; eauto|].
      eapply total_bind; [apply region_attach, _|]. intros [rc' shm']. apply total_pure. intros [Hs Ho'].
      destruct (decide _) as [|Hrc']; [apply Hfail; eauto|]. apply total_ret. intros p Hp.
      split; [|exact Hp]. split; [eauto|]. intros _. apply Ho'. cbn. lia.
    + apply total_ret. intros p Hp. split; [|exact Hp]. split; [eauto|]. intros _. apply (proj2 Ho). cbn. lia.
  - intros [rc' shm']. apply total_pure. intros [Hs Ho'].
    destruct (Hs (mk_is_Some _ _ eq_refl)) as [h Eh]. cbn [fst snd] in Eh, Ho'. subst shm'.
    destruct (decide (rc' <> 0)) as [|Hrc]; [apply total_ret; intros p Hp; split; [discriminate|exact Hp]|].
    destruct (Ho' ltac:(lia)) as (h' & [= <-] & Hmap).
    apply total_bind_ends; [apply region_write_time; [exact _|right; exact Hmap]|]. intros _.
    apply total_bind_ends; [apply region_store; [exact _|exact Hmap|intros l Hl; exact Hl]|]. intros _.
    apply total_ret. intros p Hp. split; [|exact Hp]. intros last Hl%monotonic_bound _. eexists.
    split; [reflexivity|]. split; [exact Hmap|]. revert Hl. unfold total_ns, time_bound, LINBOX_FAKE_EPOCH_SEC. cbn. lia.
Qed.

Lemma ends_close tm path : ends running (linbox_time_manager_close tm path).
Proof.
  unfold linbox_time_manager_close. destruct tm as [m|]; [|apply ends_ret]. destruct (decide _); [|apply ends_ret].
  apply ends_bind; [apply region_destroy, _|]. intros [rc shm]. apply ends_ret.
Qed.

Lemma ends_close_all fds : ends running (close_all fds).
Proof. induction fds as [|fd fds IH]; cbn [close_all]; ends_tac. Qed.
Hint Resolve ends_close ends_close_all : ends.

Lemma total_main environ k fuel : signalled_after k -> (k <= fuel)%nat ->
  total running (main environ fuel) (fun status _ => status = 0 \/ status = 1).
Proof.
  intros Hk Hf. unfold main. cbv zeta.
  assert (Hret : forall z : Z, z = 0 \/ z = 1 -> total running (mret z) (fun status _ => status = 0 \/ status = 1))
    by (intros z Hz; apply total_ret; auto).
  do 2 (apply total_bind_ends; [ends_tac|]; intros _).
  eapply total_bind; [apply total_open|]. intros [rc tm]. cbv beta. apply total_pure. intros Htm. cbn [fst snd] in Htm.
  destruct (decide (rc <> 0)) as [|Hrc]; [apply total_bind_ends; [ends_tac|]; intros; apply Hret; auto|].
  apply total_bind_ends; [unfold setup_server_socket; ends_tac|]. intros listen_fd.
  destruct (decide (listen_fd < 0)); [do 2 (apply total_bind_ends; [ends_tac|]; intros); apply Hret; auto|].
  apply total_bind_ends; [ends_tac|]. intros _. eapply total_bind; [apply total_monotonic_now|]. intros last. cbv beta.
  apply total_pure. intros Hlast. assert (Hok : tm_ok last tm) by (apply Htm; [exact Hlast|lia]).
  apply (total_bind _ (fun st q => loop_ok st /\ running q)).
  - apply (total_conseq _ (fun p => (k <= length (p_log p) + fuel)%nat /\ running p) _ (fun st q => loop_ok st /\ running q)).
    + intros p Hp. split; [lia|exact Hp].
    + auto.
    + apply (total_main_loop k); [exact Hk|]. split; [exact Hlast|exact Hok].
  - intros st. cbv beta. apply total_pure. intros _.
    do 4 (apply total_bind_ends; [ends_tac|]; intros). apply Hret. auto.
Qed.
End Shutdown.

