(* ===== verification/Shim.v ===== *)
(** * The shim: its state, seeding, and the connection to the controller

    Models src/shim/linbox.h, src/shim/linbox.c and src/shim/resolve.h: the part
    of liblinbox.so every interposed function relies on.  The constructor
    [linbox_ctor] is in Sigsys.v, after the functions it calls.

    A raw [syscall] instruction may be trapped by the filter the shim itself
    installed, and then runs the shim's own SIGSYS handler; so the raw system
    call is a parameter here, a [RawSyscall]; Sigsys.v says what the kernel makes
    of it.

    Stores through a pointer argument are returned beside the result; a pointer
    is an address, of which only being [NULL] matters.  [read] and [close] of
    the controller's socket go through the shim's own wrappers of Random.v,
    which forward a descriptor that is not virtual to libc. *)
From S2P Require Import Prelude Bytes Sbp Prng ShmLayout Os Shm Env TimeManager.

Definition SYS_clock_gettime : Z := 228.
Definition LINBOX_VIRTUAL_FD_BASE : Z := 1000000.
Definition LINBOX_VIRTUAL_FD_COUNT : nat := 16.

Record linbox_state := LinboxState {
  initialized : bool;
  resolving : bool;
  controller_connected : bool;
  warned_fallback : bool;
  sigsys_installed : bool;
  seccomp_installed : bool;
  controller_fd : Z;
  fake_base : timespec;
  real_start_mono : timespec;
  resolution : timespec;
  shared_seed : Z;
  effective_seed : Z;
  prng : linbox_prng;
  shm : linbox_shm_handle }.

Record linbox_virtual_fd := VirtualFd { vfd_fd : Z; vfd_used : Z }.

(** The shim's state and the other globals of the process: the resolved libc
    functions by symbol (absent or 0 is [NULL]), the virtual descriptors, whether
    [rand] was seeded, and [environ]. *)
Record shim := Shim {
  lb : linbox_state;
  g_real : gmap string Z;
  g_virtual_fds : list linbox_virtual_fd;
  g_rand_seeded : Z;
  g_environ : list string }.

(** The value of [g_linbox_state] at load time. *)
Definition g_linbox_state : linbox_state :=
  LinboxState false false false false false false (-1)
    (Timespec LINBOX_FAKE_EPOCH_SEC 0) (Timespec 0 0) (Timespec 0 1000) 0 0
    (LinboxPrng 0) (ShmHandle (-1) 0 NULL).

Definition loaded_shim (environ : list string) : shim :=
  Shim g_linbox_state ∅ (replicate LINBOX_VIRTUAL_FD_COUNT (VirtualFd 0 0)) 0 environ.

Definition set_initialized (x : bool) (r : linbox_state) : linbox_state :=
  LinboxState x (resolving r) (controller_connected r) (warned_fallback r)
    (sigsys_installed r) (seccomp_installed r) (controller_fd r) (fake_base r)
    (real_start_mono r) (resolution r) (shared_seed r) (effective_seed r) (prng r) (shm r).
Definition set_resolving (x : bool) (r : linbox_state) : linbox_state :=
  LinboxState (initialized r) x (controller_connected r) (warned_fallback r)
    (sigsys_installed r) (seccomp_installed r) (controller_fd r) (fake_base r)
    (real_start_mono r) (resolution r) (shared_seed r) (effective_seed r) (prng r) (shm r).
Definition set_controller_connected (x : bool) (r : linbox_state) : linbox_state :=
  LinboxState (initialized r) (resolving r) x (warned_fallback r) (sigsys_installed r)
    (seccomp_installed r) (controller_fd r) (fake_base r) (real_start_mono r) (resolution
    r) (shared_seed r) (effective_seed r) (prng r) (shm r).
Definition set_sigsys_installed (x : bool) (r : linbox_state) : linbox_state :=
  LinboxState (initialized r) (resolving r) (controller_connected r) (warned_fallback r) x
    (seccomp_installed r) (controller_fd r) (fake_base r) (real_start_mono r) (resolution
    r) (shared_seed r) (effective_seed r) (prng r) (shm r).
Definition set_seccomp_installed (x : bool) (r : linbox_state) : linbox_state :=
  LinboxState (initialized r) (resolving r) (controller_connected r) (warned_fallback r)
    (sigsys_installed r) x (controller_fd r) (fake_base r) (real_start_mono r) (resolution
    r) (shared_seed r) (effective_seed r) (prng r) (shm r).
Definition set_controller_fd (x : Z) (r : linbox_state) : linbox_state :=
  LinboxState (initialized r) (resolving r) (controller_connected r) (warned_fallback r)
    (sigsys_installed r) (seccomp_installed r) x (fake_base r) (real_start_mono r)
    (resolution r) (shared_seed r) (effective_seed r) (prng r) (shm r).
Definition set_real_start_mono (x : timespec) (r : linbox_state) : linbox_state :=
  LinboxState (initialized r) (resolving r) (controller_connected r) (warned_fallback r)
    (sigsys_installed r) (seccomp_installed r) (controller_fd r) (fake_base r) x
    (resolution r) (shared_seed r) (effective_seed r) (prng r) (shm r).
Definition set_shared_seed (x : Z) (r : linbox_state) : linbox_state :=
  LinboxState (initialized r) (resolving r) (controller_connected r) (warned_fallback r)
    (sigsys_installed r) (seccomp_installed r) (controller_fd r) (fake_base r)
    (real_start_mono r) (resolution r) x (effective_seed r) (prng r) (shm r).
Definition set_effective_seed (x : Z) (r : linbox_state) : linbox_state :=
  LinboxState (initialized r) (resolving r) (controller_connected r) (warned_fallback r)
    (sigsys_installed r) (seccomp_installed r) (controller_fd r) (fake_base r)
    (real_start_mono r) (resolution r) (shared_seed r) x (prng r) (shm r).
Definition set_prng (x : linbox_prng) (r : linbox_state) : linbox_state :=
  LinboxState (initialized r) (resolving r) (controller_connected r) (warned_fallback r)
    (sigsys_installed r) (seccomp_installed r) (controller_fd r) (fake_base r)
    (real_start_mono r) (resolution r) (shared_seed r) (effective_seed r) x (shm r).
Definition set_shm (x : linbox_shm_handle) (r : linbox_state) : linbox_state :=
  LinboxState (initialized r) (resolving r) (controller_connected r) (warned_fallback r)
    (sigsys_installed r) (seccomp_installed r) (controller_fd r) (fake_base r)
    (real_start_mono r) (resolution r) (shared_seed r) (effective_seed r) (prng r) x.

Definition on_lb (f : linbox_state -> linbox_state) (s : shim) : shim :=
  Shim (f (lb s)) (g_real s) (g_virtual_fds s) (g_rand_seeded s) (g_environ s).
Definition set_real (symbol : string) (ptr : Z) (s : shim) : shim :=
  Shim (lb s) (<[symbol := ptr]> (g_real s)) (g_virtual_fds s) (g_rand_seeded s) (g_environ s).
Definition set_virtual_fds (fds : list linbox_virtual_fd) (s : shim) : shim :=
  Shim (lb s) (g_real s) fds (g_rand_seeded s) (g_environ s).
Definition set_rand_seeded (x : Z) (s : shim) : shim :=
  Shim (lb s) (g_real s) (g_virtual_fds s) x (g_environ s).
Definition set_environ (envp : list string) (s : shim) : shim :=
  Shim (lb s) (g_real s) (g_virtual_fds s) (g_rand_seeded s) envp.

Definition real_ptr (s : shim) (symbol : string) : Z := default NULL (g_real s !! symbol).

Abbreviation MS := (M shim).

(** The address of some object of the program: all that matters of it is that it
    is not [NULL]. *)
Definition OBJECT : Z := 1.

(** The [syscall] instruction: what it leaves in [rax] and stores. *)
Class RawSyscall := raw_syscall : Z -> list Z -> MS answer.

Section Raw.
Context {raw : RawSyscall}.

Definition linbox_raw_syscall0 (nr : Z) : MS answer := raw_syscall nr [].
Definition linbox_raw_syscall1 (nr a1 : Z) : MS answer := raw_syscall nr [a1].
Definition linbox_raw_syscall2 (nr a1 a2 : Z) : MS answer := raw_syscall nr [a1; a2].
Definition linbox_raw_syscall3 (nr a1 a2 a3 : Z) : MS answer := raw_syscall nr [a1; a2; a3].
Definition linbox_raw_syscall4 (nr a1 a2 a3 a4 : Z) : MS answer := raw_syscall nr [a1; a2; a3; a4].
Definition linbox_raw_syscall5 (nr a1 a2 a3 a4 a5 : Z) : MS answer :=
  raw_syscall nr [a1; a2; a3; a4; a5].
Definition linbox_raw_syscall6 (nr a1 a2 a3 a4 a5 a6 : Z) : MS answer :=
  raw_syscall nr [a1; a2; a3; a4; a5; a6].
End Raw.

Section State.
Context {os : OS}.

Definition linbox_state_get : MS linbox_state := s ← get_st ; mret (lb s).
Definition update (f : linbox_state -> linbox_state) : MS unit := modify_st (on_lb f).

(** [LINBOX_RESOLVE_NEXT]: [false] says that the macro made the caller return
    -1. *)
Definition LINBOX_RESOLVE_NEXT (symbol : string) : MS bool :=
  s ← get_st ;
  if decide (real_ptr s symbol <> NULL) then mret true
  else if resolving (lb s) then set_errno EAGAIN ;; mret false
  else
    update (set_resolving true) ;;
    ptr ← call (XDlsym symbol) ;
    modify_st (set_real symbol ptr) ;;
    update (set_resolving false) ;;
    mret true.

(** A call through a resolved pointer; [NULL] faults. *)
Definition call_real (symbol : string) (x : ext) : MS answer :=
  s ← get_st ;
  if decide (real_ptr s symbol = NULL) then undef else callA x.

(** The convention of raw system calls: -4095 to -1 is an error number. *)
Definition linbox_syscall_result (rc : Z) : MS Z :=
  if decide (rc < 0 /\ rc >= -4095) then set_errno (i32 (- rc)) ;; mret (-1)
  else mret (i32 rc).

Definition linbox_effective_seed_for_pid (seed : Z) : MS Z :=
  the_pid ← call XGetpid ;
  mret (linbox_prng_derive_process_seed seed (u32 the_pid)).

Definition shim_frame : list Z := replicate (Z.to_nat SBP_MAX_FRAME_SIZE) 0.

(** Send one message and wait for its ACK: the exchange that
    [linbox_connect_controller] and [linbox_send_register_process] share. *)
Definition exchange (fd : Z) (msg : sbp_message) : MS bool :=
  '(rc, frame, out_len) ← lift (sbp_serialize_message (Some msg) (Some shim_frame)
                                  SBP_MAX_FRAME_SIZE (Some 0)) ;
  if decide (rc <> SBP_OK) then mret false
  else
    match frame, out_len with
    | Some frame, Some out_len =>
        n ← call (XWrite fd (take (Z.to_nat out_len) frame)) ;
        if decide (n <> out_len) then mret false
        else
          a ← callA (XRead fd SBP_MAX_FRAME_SIZE) ;
          let frame := data a ++ drop (length (data a)) frame in
          if decide (ret a <= 0) then mret false
          else
            '(rc, ack) ← lift (sbp_deserialize_message (Some frame) (ret a)
                                 (Some (SbpMessage 0 0 0 PZero))) ;
            if decide (rc <> SBP_OK) then mret false
            else
              match ack with
              | None => undef
              | Some ack => mret (bool_decide (m_type ack = SBP_MSG_ACK))
              end
    | _, _ => undef
    end.

Definition linbox_connect_controller (sock_path : string) : MS Z :=
  fd ← call XSocket ;
  if decide (fd < 0) then mret (-1)
  else
    let addr := sun_path sock_path in
    rc ← call (XConnect fd addr) ;
    if decide (rc <> 0) then _ ← call (XClose fd) ; mret (-1)
    else
      acked ← exchange fd (SbpMessage SBP_MSG_HELLO SBP_VERSION 0 PZero) ;
      if (acked : bool) then mret fd
      else _ ← call (XClose fd) ; mret (-1).
End State.

Section Init.
Context {os : OS} {raw : RawSyscall}.

Definition linbox_init_state : MS unit :=
  st ← linbox_state_get ;
  if initialized st then mret tt
  else
    a ← linbox_raw_syscall2 SYS_clock_gettime CLOCK_MONOTONIC OBJECT ;
    (if decide (ret a = 0)
     then update (set_real_start_mono (Timespec (nth 0 (data a) 0) (nth 1 (data a) 0)))
     else mret tt) ;;
    s ← get_st ;
    let sock_path := or_default (getenv (g_environ s) "LINBOX_SOCK") LINBOX_DEFAULT_SOCK in
    let shm_path := or_default (getenv (g_environ s) "LINBOX_SHM") LINBOX_DEFAULT_SHM in
    fd ← linbox_connect_controller sock_path ;
    update (set_controller_fd fd) ;;
    attached ← (if decide (fd >= 0) then
                  st ← linbox_state_get ;
                  '(rc, h) ← linbox_shm_attach (Some shm_path) (Some (shm st)) ;
                  update (set_shm (default (shm st) h)) ;;
                  mret (bool_decide (rc = 0))
                else mret false) ;
    (if (attached : bool) then update (set_controller_connected true)
     else
       (if decide (fd >= 0)
        then _ ← call (XClose fd) ; update (set_controller_fd (-1))
        else mret tt) ;;
       update (set_controller_connected false)) ;;
    st ← linbox_state_get ;
    shared ← (if decide (controller_connected st = true /\ layout (shm st) <> NULL)
              then l ← load (layout (shm st)) ; mret (prng_seed l)
              else mret 0) ;
    update (set_shared_seed shared) ;;
    seed ← linbox_effective_seed_for_pid shared ;
    update (set_effective_seed seed) ;;
    update (fun r => set_prng (default (prng r) (linbox_prng_seed (Some (prng r)) seed)) r) ;;
    update (set_initialized true).

Definition linbox_reinit_state : MS unit :=
  st ← linbox_state_get ;
  (if decide (controller_fd st >= 0)
   then _ ← call (XClose (controller_fd st)) ; update (set_controller_fd (-1))
   else mret tt) ;;
  update (set_controller_connected false) ;;
  update (set_initialized false) ;;
  update (set_prng (LinboxPrng 0)) ;;
  update (set_effective_seed 0) ;;
  (if decide (fd (shm st) >= 0)
   then h ← linbox_shm_detach (Some (shm st)) ; update (set_shm (default (shm st) h))
   else mret tt) ;;
  update (set_shm (ShmHandle (-1) 0 NULL)) ;;
  linbox_init_state.

Definition linbox_prng_seed_value : MS Z :=
  linbox_init_state ;;
  st ← linbox_state_get ;
  (if decide (controller_connected st = true /\ layout (shm st) <> NULL) then
     l ← load (layout (shm st)) ;
     let shared := prng_seed l in
     if decide (shared <> shared_seed st) then
       update (set_shared_seed shared) ;;
       seed ← linbox_effective_seed_for_pid shared ;
       update (set_effective_seed seed)
     else mret tt
   else mret tt) ;;
  st ← linbox_state_get ;
  mret (effective_seed st).

Definition linbox_random_reseed (seed : Z) : MS unit :=
  update (set_effective_seed seed) ;;
  update (fun r => set_prng (default (prng r) (linbox_prng_seed (Some (prng r)) seed)) r).

(** The prologue of [linbox_random_fill] and [linbox_random_uniform]. *)
Definition reseed_if_needed : MS unit :=
  linbox_init_state ;;
  seed ← linbox_prng_seed_value ;
  st ← linbox_state_get ;
  if decide (state (prng st) = 0 \/ effective_seed st <> seed)
  then linbox_random_reseed seed else mret tt.

(** The bytes stored at [buf] are returned. *)
Definition linbox_random_fill (buf : Z) (len : Z) : MS (Z * list Z) :=
  reseed_if_needed ;;
  if decide (buf = NULL /\ 0 < len) then undef
  else
    st ← linbox_state_get ;
    '(g, bytes) ← lift (linbox_prng_fill (prng st) (replicate (Z.to_nat len) 0) (Z.to_nat len)) ;
    update (set_prng g) ;;
    mret (i64 len, bytes).

(** The buffer is the local [out]. *)
Definition linbox_random_u32 : MS Z :=
  '(_, bytes) ← linbox_random_fill OBJECT 4 ; mret (le_val bytes).

Definition linbox_random_uniform (fuel : nat) (upper_bound : Z) : MS Z :=
  reseed_if_needed ;;
  st ← linbox_state_get ;
  '(g, v) ← lift (linbox_prng_uniform fuel (prng st) upper_bound) ;
  update (set_prng g) ;;
  mret v.

Definition linbox_seccomp_enabled : MS bool :=
  s ← get_st ;
  match getenv (g_environ s) "LINBOX_DISABLE_SECCOMP" with
  | Some disable => mret (bool_decide (disable = "0"))
  | None => mret true
  end.
End Init.
