(* ===== verification/ShimFacts.v ===== *)
(** * What the shim's seeding does

    The random stream of a process, what determines it, and what the connection
    to the controller leaves open. *)
From S2P Require Import Prelude Bytes Bits Sbp Prng ShmLayout Os Shm Env TimeManager Shim.

(** ** The stream of a running process *)

(** States that differ in nothing but the two seeds. *)
Definition same_but_seeds (s s' : shim) : Prop :=
  set_shared_seed 0 (set_effective_seed 0 (lb s')) = set_shared_seed 0 (set_effective_seed 0 (lb s)) /\
  g_real s' = g_real s /\ g_virtual_fds s' = g_virtual_fds s /\ g_rand_seeded s' = g_rand_seeded s /\
  g_environ s' = g_environ s.

Lemma same_but_seeds_refl s : same_but_seeds s s.
Proof. unfold same_but_seeds. auto. Qed.

Lemma same_but_seeds_fields s s' : same_but_seeds s s' ->
  prng (lb s') = prng (lb s) /\ initialized (lb s') = initialized (lb s) /\
  controller_connected (lb s') = controller_connected (lb s) /\
  resolving (lb s') = resolving (lb s) /\ shm (lb s') = shm (lb s).
Proof. intros (H & _). destruct (lb s), (lb s'). unfold set_shared_seed, set_effective_seed in H. cbn in *. injection H. intros. subst. auto. Qed.

(** The region a connected shim reads is mapped. *)
Definition attached (s : shim) (m : memory) : Prop :=
  controller_connected (lb s) = true -> layout (shm (lb s)) <> NULL ->
  exists l, m !! layout (shm (lb s)) = Some l.

Section Stream.
Context {os : OS} {Hquiet : QuietMemory} {raw : RawSyscall}.

Lemma init_state_done (p : proc shim) : initialized (lb (p_st p)) = true -> linbox_init_state p = Ok (tt, p).
Proof.
  intros H. unfold linbox_init_state. rewrite M_bind_eq. unfold linbox_state_get. rewrite M_bind_eq.
  cbn [get_st]. unfold mret, M_ret. rewrite H. reflexivity.
Qed.

Lemma state_get_eq (p : proc shim) : linbox_state_get p = Ok (lb (p_st p), p).
Proof. reflexivity. Qed.

Lemma update_eq f (p : proc shim) :
  update f p = Ok (tt, Proc (on_lb f (p_st p)) (p_errno p) (p_mem p) (p_log p)).
Proof. reflexivity. Qed.

(** On an explicit process, so that the result holds one copy of it. *)
Lemma update_Proc f s e m lg : update f (Proc s e m lg) = Ok (tt, Proc (on_lb f s) e m lg).
Proof. reflexivity. Qed.

Lemma effective_seed_for_pid_eq seed (p : proc shim) :
  linbox_effective_seed_for_pid seed p =
  let a := os_answer (p_log p) XGetpid in
  Ok (linbox_prng_derive_process_seed seed (u32 (ret a)),
      Proc (p_st p) (if decide (ret a < 0) then err a else p_errno p) (p_mem p) (p_log p ++ [(XGetpid, a)])).
Proof. reflexivity. Qed.

Lemma seed_value_eq (p : proc shim) :
  initialized (lb (p_st p)) = true -> attached (p_st p) (p_mem p) ->
  exists s' e log, linbox_prng_seed_value p =
    Ok (effective_seed (lb s'), Proc s' e (p_mem p) log) /\ same_but_seeds (p_st p) s'.
Proof.
  intros Hi Ha. unfold linbox_prng_seed_value. rewrite M_bind_eq, init_state_done by exact Hi.
  rewrite M_bind_eq, state_get_eq, M_bind_eq.
  destruct (decide (_ /\ _)) as [[Hc Hn]|_].
  - destruct (Ha Hc Hn) as [l Hl]. rewrite M_bind_eq, (load_eq _ _ l Hl). cbv zeta.
    destruct (decide (prng_seed l <> shared_seed _)).
    + rewrite M_bind_eq, update_eq, M_bind_eq, effective_seed_for_pid_eq. cbv beta iota zeta. rewrite update_eq.
      rewrite M_bind_eq, state_get_eq. eexists _, _, _. split; [reflexivity|].
      repeat split; reflexivity.
    + unfold mret at 1, M_ret at 1. rewrite M_bind_eq, state_get_eq. eexists _, _, _. split; [reflexivity|].
      apply same_but_seeds_refl.
  - destruct p. unfold mret at 1, M_ret at 1. rewrite M_bind_eq, state_get_eq. eexists _, _, _.
    split; [reflexivity|]. apply same_but_seeds_refl.
Qed.

(** Once seeded, the generator is never reseeded: the comparison in the prologue
    comes after [linbox_prng_seed_value] has stored the new seed. *)
Lemma reseed_if_needed_eq (p : proc shim) :
  initialized (lb (p_st p)) = true -> attached (p_st p) (p_mem p) -> state (prng (lb (p_st p))) <> 0 ->
  exists s' e log, reseed_if_needed p = Ok (tt, Proc s' e (p_mem p) log) /\ same_but_seeds (p_st p) s'.
Proof.
  intros Hi Ha Hs. unfold reseed_if_needed. rewrite M_bind_eq, init_state_done by exact Hi.
  destruct (seed_value_eq p Hi Ha) as (s' & e & log & Hv & Hsame). rewrite M_bind_eq, Hv.
  rewrite M_bind_eq, state_get_eq. cbn [p_st].
  destruct (same_but_seeds_fields _ _ Hsame) as (Hp & _). rewrite Hp.
  rewrite decide_False by (intros [?|H]; [contradiction|apply H; reflexivity]).
  eexists _, _, _. split; [reflexivity|exact Hsame].
Qed.

(** What running random code may leave behind: everything but the two seeds and
    the generator as it was. *)
Definition keeps_all_but_prng (p q : proc shim) (g : linbox_prng) : Prop :=
  prng (lb (p_st q)) = g /\ p_mem q = p_mem p /\
  initialized (lb (p_st q)) = initialized (lb (p_st p)) /\
  controller_connected (lb (p_st q)) = controller_connected (lb (p_st p)) /\
  shm (lb (p_st q)) = shm (lb (p_st p)) /\ resolving (lb (p_st q)) = resolving (lb (p_st p)) /\
  g_real (p_st q) = g_real (p_st p) /\
  g_virtual_fds (p_st q) = g_virtual_fds (p_st p) /\ g_rand_seeded (p_st q) = g_rand_seeded (p_st p).

Lemma fill_stream_eq (buf len : Z) (p : proc shim)
    (Hi : initialized (lb (p_st p)) = true) (Ha : attached (p_st p) (p_mem p))
    (Hs : state (prng (lb (p_st p))) <> 0) (Hbuf : buf <> NULL) (Hlen : 0 <= len < 2 ^ 63) :
  exists q, linbox_random_fill buf len p =
    Ok ((len, prng_bytes (Z.to_nat len) (prng (lb (p_st p)))), q) /\
    keeps_all_but_prng p q (prng_words (words_for (Z.to_nat len)) (prng (lb (p_st p)))).2.
Proof.
  unfold linbox_random_fill. destruct (reseed_if_needed_eq p Hi Ha Hs) as (s' & e & log & Hr & Hsame).
  rewrite M_bind_eq, Hr. rewrite decide_False by (intros [? _]; contradiction).
  rewrite M_bind_eq, state_get_eq. cbn [p_st].
  destruct (same_but_seeds_fields _ _ Hsame) as (Hp & Hi' & Hc' & Hres & Hshm).
  destruct Hsame as (_ & Hreal & Hv & Hrs & _). rewrite Hp, M_bind_eq. unfold lift at 1.
  rewrite prng_fill_eq by (rewrite length_replicate; lia).
  rewrite M_bind_eq, update_eq. rewrite sext_small by (unfold in_s; lia).
  rewrite splice_all by (rewrite length_replicate, length_prng_bytes; lia). eexists. split; [reflexivity|]. unfold keeps_all_but_prng.
  cbn [p_st p_mem on_lb lb set_prng prng initialized controller_connected resolving shm g_real g_virtual_fds g_rand_seeded].
  auto 12.
Qed.

(** The random stream of a running process is the stream of its generator:
    [linbox_random_fill] stores exactly the next [len] bytes and reports [len];
    what the controller has published as the seed since the process started
    makes no difference to them. *)
Theorem random_fill_stream (buf len : Z) (p : proc shim)
    (Hi : initialized (lb (p_st p)) = true) (Ha : attached (p_st p) (p_mem p))
    (Hs : state (prng (lb (p_st p))) <> 0) (Hbuf : buf <> NULL) (Hlen : 0 <= len < 2 ^ 63) :
  exists q, linbox_random_fill buf len p =
    Ok ((len, prng_bytes (Z.to_nat len) (prng (lb (p_st p)))), q) /\
    prng (lb (p_st q)) = (prng_words (words_for (Z.to_nat len)) (prng (lb (p_st p)))).2 /\
    initialized (lb (p_st q)) = true /\ p_mem q = p_mem p.
Proof.
  destruct (fill_stream_eq buf len p Hi Ha Hs Hbuf Hlen) as (q & Hf & Hk).
  destruct Hk as (Hg & Hm & Hi' & _). exists q. rewrite Hi', Hi. auto.
Qed.
End Stream.


(** ** Connecting *)
Lemma shim_frame_facts : Z.of_nat (length shim_frame) = SBP_MAX_FRAME_SIZE /\ Forall is_byte shim_frame.
Proof.
  unfold shim_frame. split; [rewrite length_replicate; apply Z2Nat.id; discriminate|].
  apply Forall_replicate. split; [discriminate|reflexivity].
Qed.

Definition ack_message (flags : Z) : sbp_message := SbpMessage SBP_MSG_ACK SBP_VERSION flags PZero.

Lemma ack_message_ok flags : in_u 16 flags -> message_ok (ack_message flags).
Proof. intros H. split; [split; [discriminate|reflexivity]|]. split; [exact H|]. right. reflexivity. Qed.

(** A peer that takes the message and acknowledges it. *)
Record acknowledges {os : OS} (fd : Z) (msg : sbp_message) (flags : Z) : Prop := {
  ack_write : forall log, ret (os_answer log (XWrite fd (message_bytes msg))) =
                Z.of_nat (length (message_bytes msg));
  ack_read : forall log, os_answer log (XRead fd SBP_MAX_FRAME_SIZE) =
                Answer 8 0 (message_bytes (ack_message flags));
  ack_flags : in_u 16 flags }.

Section Exchange.
Context {os : OS}.

Lemma neutral_exchange fd msg : neutral_code (exchange fd msg).
Proof. unfold exchange. neutral_code_tac. Qed.

Lemma exchange_keeps fd msg (p q : proc shim) r :
  exchange fd msg p = Ok (r, q) -> p_st q = p_st p /\ p_mem q = p_mem p.
Proof.
  unfold exchange. intros H. apply M_bind_Ok in H as ([[rc fr] ol] & p1 & H1 & H).
  assert (p1 = p) as -> by (unfold lift in H1; destruct (sbp_serialize_message _ _ _ _); [|discriminate..]; injection H1 as _ <-; reflexivity).
  destruct (decide (rc <> SBP_OK)); [inv_M; auto|]. destruct fr as [fr|]; [|inv_M]. destruct ol as [ol|]; [|inv_M].
  apply M_bind_Ok in H as (nw & p2 & H2 & H). injection H2 as _ <-.
  destruct (decide (nw <> ol)); [inv_M; auto|].
  apply M_bind_Ok in H as (a & p3 & H3 & H). injection H3 as <- <-. cbv zeta in H.
  destruct (decide (_ <= 0)); [inv_M; auto|]. apply M_bind_Ok in H as ([rc2 ack] & p4 & H4 & H).
  unfold lift in H4. destruct (sbp_deserialize_message _ _ _) as [[rc3 ack3]| |]; [|discriminate..].
  injection H4 as <- <- <-. destruct (decide (rc3 <> SBP_OK)); [inv_M; auto|].
  destruct ack3; inv_M. auto.
Qed.

(** Sending a message and getting its acknowledgement. *)
Lemma exchange_step fd msg flags (p : proc shim) : message_ok msg -> in_u 16 flags ->
  let w := XWrite fd (message_bytes msg) in let aw := os_answer (p_log p) w in
  ret aw = Z.of_nat (length (message_bytes msg)) ->
  os_answer (p_log p ++ [(w, aw)]) (XRead fd SBP_MAX_FRAME_SIZE) =
    Answer 8 0 (message_bytes (ack_message flags)) ->
  exists e, exchange fd msg p = Ok (true, Proc (p_st p) e (p_mem p)
    ((p_log p ++ [(w, aw)]) ++ [(XRead fd SBP_MAX_FRAME_SIZE, Answer 8 0 (message_bytes (ack_message flags)))])).
Proof.
  intros Hm Hf w aw Hw Hr. unfold exchange. destruct shim_frame_facts as [Hlen HF]. revert Hlen HF.
  generalize shim_frame as fb. intros fb Hlen HF. rewrite M_bind_eq.
  pose proof (serialize_message_eq msg fb SBP_MAX_FRAME_SIZE 0 Hm ltac:(lia)) as Hs. cbv zeta in Hs.
  assert (Hb : Z.of_nat (length (message_bytes msg)) <= SBP_MAX_FRAME_SIZE).
  { unfold message_bytes. rewrite length_frame_bytes. pose proof (payload_bytes_le16 (m_payload msg)).
    unfold SBP_MAX_FRAME_SIZE, SBP_HEADER_SIZE, SBP_MAX_PAYLOAD. lia. }
  rewrite decide_True in Hs by exact Hb. rewrite Hs; clear Hs. unfold lift at 1.
  rewrite decide_False by (intros H; apply H; reflexivity).
  change (splice fb 0 (message_bytes msg)) with (message_bytes msg ++ drop (length (message_bytes msg)) fb).
  set (fr := message_bytes msg ++ drop (length (message_bytes msg)) fb).
  assert (Ht : take (Z.to_nat (Z.of_nat (length (message_bytes msg)))) fr = message_bytes msg).
  { rewrite Nat2Z.id. apply take_app_length. }
  assert (HFr : Forall is_byte fr).
  { apply Forall_app_2; [apply message_bytes_is_byte, Hm|apply Forall_drop, HF]. }
  rewrite Ht. clearbody fr. rewrite M_bind_eq, call_eq. cbv zeta. fold w aw. rewrite Hw.
  rewrite decide_False by (intros H; apply H; reflexivity).
  rewrite M_bind_eq. unfold callA at 1. cbn [p_log]. rewrite Hr. cbv zeta. cbn [ret data err]. rewrite !decide_False by lia.
  change (length (message_bytes (ack_message flags))) with 8%nat.
  rewrite M_bind_eq, deserialize_message_eq.
  - change (take (Z.to_nat 8) (message_bytes (ack_message flags) ++ drop 8 fr)) with (message_bytes (ack_message flags)).
    rewrite (decode_message_bytes _ (ack_message_ok flags Hf) eq_refl).
    unfold lift. rewrite decide_False by (intros H; apply H; reflexivity). eexists. reflexivity.
  - apply Forall_app_2; [apply message_bytes_is_byte, ack_message_ok, Hf|apply Forall_drop, HFr].
  - rewrite length_app. change (length (message_bytes (ack_message flags))) with 8%nat. lia.
Qed.

Lemma exchange_acked fd msg flags (p : proc shim) :
  message_ok msg -> acknowledges fd msg flags ->
  exists e log, exchange fd msg p = Ok (true, Proc (p_st p) e (p_mem p) log) /\
    exists a, (XWrite fd (message_bytes msg), a) ∈ log.
Proof.
  intros Hm [Hw Hr Hf]. destruct (exchange_step fd msg flags p Hm Hf (Hw _) (Hr _)) as (e & H).
  eexists _, _. split; [exact H|]. eexists. rewrite !elem_of_app. left. right. left.
Qed.

Definition hello : sbp_message := SbpMessage SBP_MSG_HELLO SBP_VERSION 0 PZero.

Lemma hello_ok : message_ok hello.
Proof.
  split; [split; [discriminate|reflexivity]|]. split; [split; [discriminate|reflexivity]|].
  left. reflexivity.
Qed.

(** A controller listening at [sock_path]. *)
Record listening (sock_path : string) (fd flags : Z) : Prop := {
  listen_socket : forall log, ret (os_answer log XSocket) = fd;
  listen_fd : 0 <= fd;
  listen_connect : forall log, ret (os_answer log (XConnect fd (sun_path sock_path))) = 0;
  listen_ack : acknowledges fd hello flags }.

Lemma connect_eq path fd flags (p : proc shim) : listening path fd flags ->
  exists e log, linbox_connect_controller path p = Ok (fd, Proc (p_st p) e (p_mem p) log).
Proof.
  intros [Hs Hfd Hc Ha]. unfold linbox_connect_controller. rewrite M_bind_eq, call_eq. cbv zeta.
  rewrite Hs, !decide_False by lia. rewrite M_bind_eq, call_eq. cbv zeta. rewrite Hc, !decide_False by lia.
  rewrite M_bind_eq. fold hello.
  match goal with |- context [exchange fd hello ?q] =>
    destruct (exchange_acked fd hello flags q hello_ok Ha) as (e & log & -> & _) end.
  eexists _, _. reflexivity.
Qed.

(** A failed connection leaves nothing open and changes nothing. *)
Lemma connect_owns path fds maps (p q : proc shim) r :
  linbox_connect_controller path p = Ok (r, q) -> owns (p_log p) fds maps ->
  p_st q = p_st p /\ p_mem q = p_mem p /\
  ((r < 0 /\ owns (p_log q) fds maps) \/ (0 <= r /\ owns (p_log q) (r :: fds) maps)).
Proof.
  unfold linbox_connect_controller. intros H Ho.
  apply M_bind_Ok in H as (s & p1 & H1 & H). destruct (owns_call _ _ _ _ _ _ H1 Ho) as (a1 & -> & Ho1).
  assert (E1 : p_st p1 = p_st p /\ p_mem p1 = p_mem p) by (injection H1 as _ <-; auto). clear H1.
  cbn in Ho1. destruct (decide (ret a1 < 0)) as [Hs|Hs]; [inv_M; intuition lia|].
  apply M_bind_Ok in H as (c & p2 & H2 & H). destruct (owns_call _ _ _ _ _ _ H2 Ho1) as (a2 & -> & Ho2).
  assert (E2 : p_st p2 = p_st p1 /\ p_mem p2 = p_mem p1) by (injection H2 as _ <-; auto). clear H2.
  assert (Hclose : forall p', owns (p_log p') (ret a1 :: fds) maps -> p_st p' = p_st p /\ p_mem p' = p_mem p ->
    (_ ← call (XClose (ret a1)) ; mret (-1)) p' = Ok (r, q) ->
    p_st q = p_st p /\ p_mem q = p_mem p /\ (r < 0 /\ owns (p_log q) fds maps)).
  { intros p' Ho' [Es Em] H'. apply M_bind_Ok in H' as (c' & p4 & H4 & H').
    pose proof (owns_call _ _ _ _ _ _ H4 Ho') as (a4 & _ & Ho4).
    assert (E4 : p_st p4 = p_st p' /\ p_mem p4 = p_mem p') by (injection H4 as _ <-; auto).
    inv_M. cbn in Ho4. rewrite decide_True in Ho4 by reflexivity. intuition (lia || congruence). }
  destruct E1 as [Es1 Em1], E2 as [Es2 Em2].
  destruct (decide (ret a2 <> 0)); [destruct (Hclose _ Ho2 ltac:(split; congruence) H) as (? & ? & ?); auto|].
  apply M_bind_Ok in H as (ok & p3 & H3 & H).
  pose proof (owns_neutral _ _ _ _ _ _ (neutral_exchange _ _) H3 Ho2) as Ho3.
  destruct (exchange_keeps _ _ _ _ _ H3) as [Es3 Em3].
  destruct ok; [|destruct (Hclose _ Ho3 ltac:(split; congruence) H) as (? & ? & ?); auto].
  inv_M. split; [congruence|]. split; [congruence|]. right. split; [lia|exact Ho3].
Qed.
End Exchange.


(** ** Initialisation *)
Section Init.
Context {os : OS} {raw : RawSyscall}.

(** The direct clock reading with which initialisation begins reaches the kernel
    from [p]: it is not trapped. *)
Definition clock_untrapped (p : proc shim) : Prop :=
  raw_syscall SYS_clock_gettime [CLOCK_MONOTONIC; OBJECT] p =
  call_kernel (XRawSyscall SYS_clock_gettime [CLOCK_MONOTONIC; OBJECT]) p.

Definition sock_of (environ : list string) : string :=
  or_default (getenv environ "LINBOX_SOCK") LINBOX_DEFAULT_SOCK.
Definition shm_of (environ : list string) : string :=
  or_default (getenv environ "LINBOX_SHM") LINBOX_DEFAULT_SHM.

(** The kernel maps the controller's region [l] at [r]. *)
Record region_at (path : string) (sfd r : Z) (m : memory) (l : linbox_shm_layout) : Prop := {
  region_open : forall log, ret (os_answer log (XShmOpen path O_RDWR 0x180)) = sfd;
  region_mmap : forall log, ret (os_answer log (XMmap sfd sizeof_layout)) = r;
  region_fd : 0 <= sfd;
  region_addr : r <> NULL /\ r <> MAP_FAILED;
  region_mem : m !! r = Some l;
  region_magic : magic (header l) = LINBOX_SHM_MAGIC }.

Lemma shim_attach_eq `{!QuietMemory} path sfd r h0 (p : proc shim) l :
  region_at path sfd r (p_mem p) l ->
  exists e log, linbox_shm_attach (Some path) (Some h0) p =
    Ok ((0, Some (ShmHandle sfd sizeof_layout r)), Proc (p_st p) e (p_mem p) log).
Proof.
  intros [Ho Hm Hf [Hr Hmf] Hmem Hmagic].
  unfold linbox_shm_attach, linbox_shm_open_map. rewrite !M_bind_eq.
  rewrite call_eq; cbv zeta; rewrite Ho. rewrite !decide_False by lia.
  rewrite M_bind_eq. unfold mret at 1, M_ret at 1. rewrite (decide_False (P := 0 <> 0)) by lia.
  rewrite M_bind_eq, call_eq; cbv zeta; rewrite Hm. rewrite (decide_False (P := r = MAP_FAILED)) by assumption.
  rewrite M_bind_eq. unfold mret, M_ret. rewrite (decide_False (P := 0 <> 0)) by lia.
  rewrite M_bind_eq. cbn [layout]. rewrite (load_eq r _ l) by exact Hmem.
  rewrite decide_False by (intros Hx; apply Hx, Hmagic). eexists _, _. reflexivity.
Qed.

Lemma init_connected_eq `{!QuietMemory} (p : proc shim) cfd flags sfd r l the_pid :
  clock_untrapped p -> initialized (lb (p_st p)) = false ->
  listening (sock_of (g_environ (p_st p))) cfd flags ->
  region_at (shm_of (g_environ (p_st p))) sfd r (p_mem p) l ->
  (forall log, ret (os_answer log XGetpid) = the_pid) ->
  exists q, linbox_init_state p = Ok (tt, q) /\ p_mem q = p_mem p /\
    g_virtual_fds (p_st q) = g_virtual_fds (p_st p) /\ g_rand_seeded (p_st q) = g_rand_seeded (p_st p) /\
    g_environ (p_st q) = g_environ (p_st p) /\ initialized (lb (p_st q)) = true /\ controller_connected (lb (p_st q)) = true /\
    controller_fd (lb (p_st q)) = cfd /\ shm (lb (p_st q)) = ShmHandle sfd sizeof_layout r /\
    shared_seed (lb (p_st q)) = prng_seed l /\
    effective_seed (lb (p_st q)) = linbox_prng_derive_process_seed (prng_seed l) (u32 the_pid) /\
    prng (lb (p_st q)) = seeded (linbox_prng_derive_process_seed (prng_seed l) (u32 the_pid)).
Proof.
  intros Hclk Hi Hlis Hreg Hpid. unfold linbox_init_state, linbox_raw_syscall2. rewrite M_bind_eq, state_get_eq, Hi.
  unfold clock_untrapped in Hclk. rewrite M_bind_eq, Hclk. unfold call_kernel.
  set (a := os_answer (p_log p) _). set (e1 := p_errno p). set (log1 := p_log p ++ _).
  assert (Hset : exists s1, (if decide (ret a = 0)
      then update (set_real_start_mono (Timespec (nth 0 (data a) 0) (nth 1 (data a) 0)))
      else mret tt) (Proc (p_st p) e1 (p_mem p) log1) = Ok (tt, Proc s1 e1 (p_mem p) log1) /\
      g_environ s1 = g_environ (p_st p) /\ g_virtual_fds s1 = g_virtual_fds (p_st p) /\
      g_rand_seeded s1 = g_rand_seeded (p_st p)).
  { destruct (decide (ret a = 0)); eexists; repeat split; reflexivity. }
  destruct Hset as (s1 & Hset & Henv & Hvfds & Hrand). rewrite M_bind_eq, Hset.
  rewrite M_bind_eq. cbn [get_st p_st]. rewrite Henv. fold (sock_of (g_environ (p_st p))) (shm_of (g_environ (p_st p))).
  cbv zeta. rewrite M_bind_eq.
  match goal with |- context [linbox_connect_controller _ ?q] =>
    destruct (connect_eq _ cfd flags q Hlis) as (e2 & log2 & ->) end. cbn [p_st p_errno p_mem p_log].
  rewrite M_bind_eq, update_Proc. rewrite M_bind_eq. rewrite decide_True by (destruct Hlis; lia).
  rewrite M_bind_eq, state_get_eq, M_bind_eq; cbn [p_st p_errno p_mem p_log].
  match goal with |- context [linbox_shm_attach (Some ?pa) (Some ?h0) ?q] =>
    destruct (shim_attach_eq pa sfd r h0 q l Hreg) as (e3 & log3 & ->) end. cbn [p_st p_errno p_mem p_log].
  rewrite M_bind_eq, update_Proc. unfold mret at 1, M_ret at 1.
  rewrite (bool_decide_eq_true_2 (0 = 0)) by reflexivity.
  rewrite M_bind_eq, update_Proc, M_bind_eq, state_get_eq, M_bind_eq; cbn [p_st p_errno p_mem p_log].
  destruct Hreg as [_ _ _ [Hr _] Hmem _].
  rewrite decide_True by (split; [reflexivity|exact Hr]).
  rewrite M_bind_eq. rewrite (load_eq _ _ l) by exact Hmem. cbn [p_st p_errno p_mem p_log]. unfold mret at 1, M_ret at 1.
  rewrite M_bind_eq, update_Proc, M_bind_eq, effective_seed_for_pid_eq. cbv zeta. rewrite Hpid. cbn [p_st p_errno p_mem p_log].
  rewrite M_bind_eq, update_Proc, M_bind_eq, update_Proc, update_Proc.
  eexists. split; [reflexivity|]. split; [reflexivity|]. split; [exact Hvfds|]. split; [exact Hrand|].
  split; [exact Henv|]. repeat (split; [reflexivity|]). reflexivity.
Qed.
End Init.


(** ** What the connection holds open *)
Definition state_fds (st : linbox_state) : list Z :=
  (if decide (0 <= controller_fd st) then [controller_fd st] else []) ++
  (if decide (0 <= fd (shm st)) then [fd (shm st)] else []).
Definition state_maps (st : linbox_state) : list Z :=
  if decide (0 <= fd (shm st)) then [layout (shm st)] else [].

(** Beside [fds] and [maps], exactly what the state names is open; a connected
    state names both descriptors. *)
Definition shim_owns (p : proc shim) (fds maps : list Z) : Prop :=
  let st := lb (p_st p) in
  owns (p_log p) (state_fds st ++ fds) (state_maps st ++ maps) /\
  (0 <= fd (shm st) -> layout (shm st) <> MAP_FAILED /\ layout (shm st) <> NULL) /\
  (controller_connected st = true -> 0 <= controller_fd st /\ 0 <= fd (shm st)).

Section Ownership.
Context {os : OS} {raw : RawSyscall}.
Context (Hmmap : forall log fd len, ret (os_answer log (XMmap fd len)) <> NULL).
(** The start-up clock reading opens nothing and leaves the connection alone. *)
Context (Hraw : forall (p q : proc shim) a,
  raw_syscall SYS_clock_gettime [CLOCK_MONOTONIC; OBJECT] p = Ok (a, q) ->
  p_st q = p_st p /\ (forall s, resources p q s s)).

Lemma update_inv f (p q : proc shim) u : update f p = Ok (u, q) ->
  q = Proc (on_lb f (p_st p)) (p_errno p) (p_mem p) (p_log p).
Proof. intros [= _ <-]. reflexivity. Qed.

(** After [linbox_shm_attach]: attached to a region, or still without one. *)
Definition attach_outcome (attached : bool) (cfd : Z) (p : proc shim) (fds maps : list Z) : Prop :=
  let h := shm (lb (p_st p)) in
  controller_fd (lb (p_st p)) = cfd /\
  if attached then
    0 <= cfd /\ opened h /\ owns (p_log p) (fd h :: cfd :: fds) (layout h :: maps)
  else fd h < 0 /\ owns (p_log p) (if decide (0 <= cfd) then cfd :: fds else fds) maps.

Lemma attach_step_owns cfd path fds maps (p q : proc shim) att :
  (if decide (cfd >= 0) then
     st ← linbox_state_get ;
     '(rc, h) ← linbox_shm_attach (Some path) (Some (shm st)) ;
     update (set_shm (default (shm st) h)) ;;
     mret (bool_decide (rc = 0))
   else mret false) p = Ok (att, q) ->
  controller_fd (lb (p_st p)) = cfd -> fd (shm (lb (p_st p))) < 0 ->
  owns (p_log p) (if decide (0 <= cfd) then cfd :: fds else fds) maps ->
  attach_outcome att cfd q fds maps.
Proof.
  intros H Hcf Hsf Ho. unfold attach_outcome. destruct (decide (cfd >= 0)) as [Hc|Hc]; [|inv_M; auto].
  rewrite decide_True in Ho |- * by lia.
  apply M_bind_Ok in H as (st & p1 & H1 & H). injection H1 as <- <-.
  apply M_bind_Ok in H as ([rc h] & p2 & H2 & H). pose proof (keeps_attach _ _ _ _ _ H2) as Es.
  apply M_bind_Ok in H as (u & p3 & H3 & H). apply update_inv in H3. inv_M.
  apply (attach_resources _ _ _ _ _ _ (controller_fd (lb (p_st p)) :: fds) maps) in H2; [|exact Hmmap].
  cbn. rewrite Es. split; [reflexivity|].
  destruct H2 as [(-> & Hr & Hout)|(-> & h' & l & -> & Hh & Hr & _)].
  - split; [|exact (owns_resources _ _ _ _ _ _ Ho Hr)]. destruct Hout as [->|[-> _]]; cbn; [exact Hsf|lia].
  - split; [lia|]. split; [exact Hh|]. exact (owns_resources _ _ _ _ _ _ Ho Hr).
Qed.

(** Settling: a socket without a region is given up. *)
Lemma settle_owns att cfd fds maps (p q : proc shim) u :
  (if (att : bool) then update (set_controller_connected true)
   else
     (if decide (cfd >= 0)
      then _ ← call (XClose cfd) ; update (set_controller_fd (-1))
      else mret tt) ;;
     update (set_controller_connected false)) p = Ok (u, q) ->
  attach_outcome att cfd p fds maps -> shim_owns q fds maps.
Proof.
  intros H [Hc Hatt]. destruct att.
  - destruct Hatt as (Hc0 & Hop & Ho). apply update_inv in H. subst q.
    destruct (opened_addr _ Hmmap Hop) as (Hf & Hm1 & Hm2).
    unfold shim_owns, state_fds, state_maps. cbn. rewrite Hc. rewrite !decide_True by lia.
    split; [|auto]. cbn. rewrite perm_swap. exact Ho.
  - destruct Hatt as [Hs Ho]. apply M_bind_Ok in H as (u1 & p1 & H1 & H). apply update_inv in H. subst q.
    assert (Hcl : owns (p_log p1) fds maps /\ controller_fd (lb (p_st p1)) < 0 /\ fd (shm (lb (p_st p1))) < 0).
    { destruct (decide (cfd >= 0)) as [Hp|Hp]; [|rewrite decide_False in Ho by lia; inv_M; split; [exact Ho|lia]].
      rewrite decide_True in Ho by lia. apply M_bind_Ok in H1 as (c & p2 & H2 & H1).
      assert (E2 : p_st p2 = p_st p) by (injection H2 as _ <-; reflexivity).
      apply owns_call with (fds := cfd :: fds) (maps := maps) in H2 as (a & _ & Ho2); [|exact Ho].
      apply update_inv in H1. subst p1. cbn in Ho2 |- *. rewrite decide_True in Ho2 by reflexivity.
      rewrite E2. split; [exact Ho2|lia]. }
    destruct Hcl as (Ho1 & Hc1 & Hs1). unfold shim_owns, state_fds, state_maps. cbn.
    rewrite !decide_False by lia. split; [exact Ho1|]. split; [lia|discriminate].
Qed.

(** Seeding opens and closes nothing. *)
Lemma seeding_owns fds maps (p q : proc shim) u :
  (st ← linbox_state_get ;
   shared ← (if decide (controller_connected st = true /\ layout (shm st) <> NULL)
             then l ← load (layout (shm st)) ; mret (prng_seed l)
             else mret 0) ;
   update (set_shared_seed shared) ;;
   seed ← linbox_effective_seed_for_pid shared ;
   update (set_effective_seed seed) ;;
   update (fun r => set_prng (default (prng r) (linbox_prng_seed (Some (prng r)) seed)) r) ;;
   update (set_initialized true)) p = Ok (u, q) ->
  shim_owns p fds maps -> shim_owns q fds maps.
Proof.
  intros H Hown. apply M_bind_Ok in H as (st & p9 & H9 & H). injection H9 as <- <-.
  apply M_bind_Ok in H as (sh & p10 & H10 & H).
  assert (E10 : p_st p10 = p_st p /\ (forall s, resources p p10 s s)).
  { destruct (decide (_ /\ _)); [|inv_M; split; [reflexivity|apply resources_refl]].
    apply M_bind_Ok in H10 as (l & p11 & H11 & H10). inv_M.
    split; [exact (keeps_load _ _ _ _ H11)|apply (neutral_load _ _ _ _ H11)]. }
  destruct E10 as [Es10 Hr10]. apply M_bind_Ok in H as (u11 & p11 & H11 & H). apply update_inv in H11.
  apply M_bind_Ok in H as (seed & p12 & H12 & H).
  assert (E12 : p_st p12 = p_st p11 /\ (forall s, resources p11 p12 s s)).
  { apply M_bind_Ok in H12 as (x & p13 & H13 & H12). inv_M. split; [injection H13 as _ <-; reflexivity|].
    intros s. destruct s as [f m]. apply call_inv in H13 as (ax & H13 & _). exact (callA_resources _ _ _ _ (f, m) H13). }
  destruct E12 as [Es12 Hr12]. apply M_bind_Ok in H as (u13 & p13 & H13 & H). apply update_inv in H13.
  apply M_bind_Ok in H as (u14 & p14 & H14 & H). apply update_inv in H14. apply update_inv in H. subst.
  destruct Hown as (Ho & Hl & Hc). unfold shim_owns. cbn in Es12 |- *. rewrite Es12. cbn. rewrite Es10.
  split; [|split; assumption]. unfold state_fds, state_maps in *. cbn in *.
  refine (owns_resources _ _ _ _ _ _ _ (Hr12 (_, _))). cbn. exact (owns_resources _ _ _ _ _ _ Ho (Hr10 (_, _))).
Qed.

Lemma init_owns (p q : proc shim) u fds maps :
  linbox_init_state p = Ok (u, q) -> initialized (lb (p_st p)) = false ->
  controller_fd (lb (p_st p)) < 0 -> fd (shm (lb (p_st p))) < 0 ->
  owns (p_log p) fds maps -> shim_owns q fds maps.
Proof.
  intros H Hi Hcf Hsf Ho. unfold linbox_init_state, linbox_raw_syscall2 in H.
  apply M_bind_Ok in H as (st & p1 & H1 & H). injection H1 as <- <-. rewrite Hi in H.
  apply M_bind_Ok in H as (a & p2 & H2 & H). destruct (Hraw _ _ _ H2) as [Es2 Hr2].
  apply (owns_resources _ _ _ _ _ _ Ho) in Hr2. clear H2 Ho.
  apply M_bind_Ok in H as (u3 & p3 & H3 & H).
  assert (E3 : p_log p3 = p_log p2 /\ shm (lb (p_st p3)) = shm (lb (p_st p2)))
    by (destruct (decide (ret a = 0)); injection H3 as _ <-; auto).
  destruct E3 as [El3 Eh3]. rewrite <- El3 in Hr2. clear H3 El3.
  apply M_bind_Ok in H as (s & p4 & H4 & H). injection H4 as <- <-. cbv zeta in H.
  apply M_bind_Ok in H as (cfd & p5 & H5 & H).
  destruct (connect_owns _ _ _ _ _ _ H5 Hr2) as (Es5 & _ & Ho5).
  apply M_bind_Ok in H as (u6 & p6 & H6 & H). apply update_inv in H6.
  apply M_bind_Ok in H as (att & p7 & H7 & H). apply M_bind_Ok in H as (u8 & p8 & H8 & H).
  apply (seeding_owns _ _ _ _ _ H), (settle_owns _ _ _ _ _ _ _ H8), (attach_step_owns _ _ _ _ _ _ _ H7); subst p6; cbn.
  - reflexivity.
  - rewrite Es5, Eh3, Es2. exact Hsf.
  - destruct Ho5 as [[Hc Ho5]|[Hc Ho5]]; [rewrite decide_False by lia|rewrite decide_True by lia]; exact Ho5.
Qed.

(** C31: re-initialising after a fork never leaks and never doubles: whatever
    the kernel answers, the descriptors and mapping the shim inherited are
    closed in the child, and what it holds open afterwards is exactly what its
    state names: the new socket and region when connected, nothing when not. *)
Theorem reinit_no_leak (p q : proc shim) (u : unit) (fds maps : list Z)
    (Hrun : linbox_reinit_state p = Ok (u, q)) (Hown : shim_owns p fds maps) :
  shim_owns q fds maps.
Proof.
  unfold linbox_reinit_state in Hrun. destruct Hown as (Ho & Haddr & _).
  apply M_bind_Ok in Hrun as (st & p1 & H1 & H). injection H1 as <- <-.
  apply M_bind_Ok in H as (u2 & p2 & H2 & H).
  assert (E2 : owns (p_log p2) ((if decide (0 <= fd (shm (lb (p_st p)))) then [fd (shm (lb (p_st p)))] else []) ++ fds)
      (state_maps (lb (p_st p)) ++ maps) /\ controller_fd (lb (p_st p2)) < 0 /\
      shm (lb (p_st p2)) = shm (lb (p_st p))).
  { unfold state_fds in Ho. destruct (decide (controller_fd (lb (p_st p)) >= 0)) as [Hc|Hc].
    - rewrite (decide_True (P := 0 <= controller_fd _)) in Ho by lia.
      apply M_bind_Ok in H2 as (c & p3 & H3 & H2). pose proof (owns_call _ _ _ _ _ _ H3 Ho) as (a3 & _ & Ho3).
      assert (E3 : p_st p3 = p_st p) by (injection H3 as _ <-; reflexivity).
      apply update_inv in H2. subst p2. cbn in Ho3 |- *. rewrite decide_True in Ho3 by reflexivity.
      rewrite E3. split; [exact Ho3|]. split; [lia|reflexivity].
    - rewrite (decide_False (P := 0 <= controller_fd _)) in Ho by lia. inv_M.
      split; [exact Ho|]. split; [lia|reflexivity]. }
  destruct E2 as (Ho2 & Hc2 & Eh2).
  apply M_bind_Ok in H as (u3 & p3 & H3 & H). apply update_inv in H3.
  apply M_bind_Ok in H as (u4 & p4 & H4 & H). apply update_inv in H4.
  apply M_bind_Ok in H as (u5 & p5 & H5 & H). apply update_inv in H5.
  apply M_bind_Ok in H as (u6 & p6 & H6 & H). apply update_inv in H6.
  assert (E6 : p_log p6 = p_log p2 /\ controller_fd (lb (p_st p6)) = controller_fd (lb (p_st p2)) /\
    initialized (lb (p_st p6)) = false) by (subst; auto).
  clear H3 H4 H5 H6. destruct E6 as (El6 & Ec6 & Ei6). rewrite <- El6 in Ho2. 
  apply M_bind_Ok in H as (u7 & p7 & H7 & H).
  assert (E7 : owns (p_log p7) fds maps /\ controller_fd (lb (p_st p7)) < 0 /\ initialized (lb (p_st p7)) = false).
  { unfold state_maps in Ho2. destruct (decide (fd (shm (lb (p_st p))) >= 0)) as [Hf|Hf].
    - rewrite !decide_True in Ho2 by lia. destruct (Haddr ltac:(lia)) as [Hmf Hn].
      apply M_bind_Ok in H7 as (h & p8 & H8 & H7). pose proof (keeps_detach _ _ _ _ H8) as Es8.
      apply (detach_resources _ _ _ _ fds maps) in H8 as [_ Hr8]; [|lia|exact Hmf|exact Hn].
      apply update_inv in H7. subst p7. cbn. rewrite Es8.
      split; [exact (owns_resources _ _ _ _ _ _ Ho2 Hr8)|]. split; [lia|exact Ei6].
    - rewrite !decide_False in Ho2 by lia. inv_M. split; [exact Ho2|]. split; [lia|exact Ei6]. }
  destruct E7 as (Ho7 & Hc7 & Ei7).
  apply M_bind_Ok in H as (u8 & p8 & H8 & H). apply update_inv in H8. subst p8.
  apply (init_owns _ _ _ fds maps H); [exact Ei7|exact Hc7|cbn; lia|exact Ho7].
Qed.
End Ownership.
