(* ===== verification/Time.v ===== *)
(** * The time functions

    Models src/shim/time.c: the clocks of libc, answered from the shared region
    while the controller is connected and by the real clock otherwise.  A value
    stored through a pointer argument is returned beside the result. *)
From S2P Require Import Prelude ShmLayout Os Shm Shim.

Definition CLOCK_PROCESS_CPUTIME_ID : Z := 2.
Definition CLOCK_THREAD_CPUTIME_ID : Z := 3.
Definition CLOCK_MONOTONIC_RAW : Z := 4.
Definition CLOCK_REALTIME_COARSE : Z := 5.
Definition CLOCK_MONOTONIC_COARSE : Z := 6.
Definition CLOCK_BOOTTIME : Z := 7.
Definition virtual_clocks : list Z :=
  [CLOCK_REALTIME; CLOCK_REALTIME_COARSE; CLOCK_MONOTONIC; CLOCK_MONOTONIC_COARSE;
   CLOCK_MONOTONIC_RAW; CLOCK_BOOTTIME; CLOCK_PROCESS_CPUTIME_ID; CLOCK_THREAD_CPUTIME_ID].
Definition CLOCKS_PER_SEC : Z := 1000000.
Definition SC_CLK_TCK : Z := 2.
Definition TIME_UTC : Z := 1.

Section Time.
Context {os : OS} {raw : RawSyscall}.

(** The timespec a successful call stored. *)
Definition stored_timespec (rc : Z) (a : answer) : option timespec :=
  if decide (rc = 0) then Some (Timespec (nth 0 (data a) 0) (nth 1 (data a) 0)) else None.

Definition linbox_fallback_now : MS (Z * option timespec) :=
  s ← get_st ;
  if decide (real_ptr s "clock_gettime" <> NULL) then
    a ← call_real "clock_gettime" (XReal "clock_gettime" [CLOCK_REALTIME] None) ;
    mret (ret a, stored_timespec (ret a) a)
  else
    a ← linbox_raw_syscall2 SYS_clock_gettime CLOCK_REALTIME OBJECT ;
    rc ← linbox_syscall_result (ret a) ;
    mret (rc, stored_timespec rc a).

(** [fuel] bounds the retries of the sequence lock. *)
Definition linbox_virtual_now (fuel : nat) : MS (Z * option timespec) :=
  linbox_init_state ;;
  st ← linbox_state_get ;
  if decide (controller_connected st = true /\ layout (shm st) <> NULL) then
    '(rc, ts) ← linbox_shm_read_time fuel (layout (shm st)) (Some (Timespec 0 0)) ;
    if decide (rc = 0) then mret (0, ts)
    else update (set_controller_connected false) ;; linbox_fallback_now
  else linbox_fallback_now.

Definition linbox_virtual_clock_gettime (fuel : nat) (clk_id tp : Z) : MS (Z * option timespec) :=
  if decide (tp = NULL) then set_errno EINVAL ;; mret (-1, None)
  else if decide (clk_id ∈ virtual_clocks) then linbox_virtual_now fuel
  else set_errno EINVAL ;; mret (-1, None).

Definition linbox_virtual_clock_getres (clk_id res : Z) : MS (Z * option timespec) :=
  if decide (res = NULL) then set_errno EINVAL ;; mret (-1, None)
  else
    linbox_init_state ;;
    st ← linbox_state_get ;
    mret (0, Some (resolution st)).

Definition linbox_real_clock_gettime_available : MS Z :=
  ok ← LINBOX_RESOLVE_NEXT "clock_gettime" ;
  if (ok : bool) then
    s ← get_st ; mret (if decide (real_ptr s "clock_gettime" <> NULL) then 1 else 0)
  else mret (-1).

Definition clock_gettime (fuel : nat) (clk_id tp : Z) : MS (Z * option timespec) :=
  ok ← LINBOX_RESOLVE_NEXT "clock_gettime" ;
  if (ok : bool) then linbox_virtual_clock_gettime fuel clk_id tp else mret (-1, None).

(** The [struct timeval] as seconds and microseconds.  The local [ts] is filled
    whenever [linbox_virtual_now] returns 0. *)
Definition linbox_virtual_gettimeofday (fuel : nat) (tv tz : Z) : MS (Z * option (Z * Z)) :=
  if decide (tv = NULL) then set_errno EINVAL ;; mret (-1, None)
  else
    '(rc, ts) ← linbox_virtual_now fuel ;
    if decide (rc <> 0) then mret (-1, None)
    else match ts with
         | None => undef
         | Some ts => mret (0, Some (tv_sec ts, Z.quot (tv_nsec ts) 1000))
         end.

Definition linbox_virtual_time (fuel : nat) (tloc : Z) : MS (Z * option Z) :=
  '(rc, ts) ← linbox_virtual_now fuel ;
  if decide (rc <> 0) then mret (-1, None)
  else match ts with
       | None => undef
       | Some ts => mret (tv_sec ts, if decide (tloc <> NULL) then Some (tv_sec ts) else None)
       end.

Definition gettimeofday := linbox_virtual_gettimeofday.
Definition time := linbox_virtual_time.
Definition clock_getres := linbox_virtual_clock_getres.

Definition clock (fuel : nat) : MS Z :=
  '(rc, ts) ← linbox_virtual_now fuel ;
  if decide (rc <> 0) then mret (-1)
  else match ts with
       | None => undef
       | Some ts =>
           a ← lift (ckd64 (tv_sec ts * 1000000)) ;
           usec ← lift (ckd64 (a + Z.quot (tv_nsec ts) 1000)) ;
           b ← lift (ckd64 (usec * CLOCKS_PER_SEC)) ;
           mret (Z.quot b 1000000)
       end.

(** The [struct tms] as its four fields. *)
Definition times (fuel : nat) (buf : Z) : MS (Z * option (list Z)) :=
  '(rc, ts) ← linbox_virtual_now fuel ;
  if decide (rc <> 0) then mret (-1, None)
  else
    hz ← call (XSysconf SC_CLK_TCK) ;
    if decide (hz <= 0) then set_errno EINVAL ;; mret (-1, None)
    else match ts with
         | None => undef
         | Some ts =>
             a ← lift (ckd64 (tv_sec ts * hz)) ;
             b ← lift (ckd64 (tv_nsec ts * hz)) ;
             ticks ← lift (ckd64 (a + Z.quot b 1000000000)) ;
             mret (ticks, if decide (buf <> NULL) then Some [ticks; 0; 0; 0] else None)
         end.

Definition timespec_get (fuel : nat) (ts base : Z) : MS (Z * option timespec) :=
  if decide (ts = NULL \/ base <> TIME_UTC) then mret (0, None)
  else
    '(rc, out) ← linbox_virtual_now fuel ;
    if decide (rc <> 0) then mret (0, None) else mret (base, out).
End Time.
