(* ===== verification/TimeFacts.v ===== *)
(** * What the time functions report

    Theorems about Time.v: one time behind every clock while the controller
    serves it, the arithmetic of each conversion, and the fallbacks. *)
From S2P Require Import Prelude ShmLayout Os Shm TimeManager Shim ShimFacts Time.

(** The shim is connected to a region that publishes [ts] and is not being
    written. *)
Definition serving (p : proc shim) (ts : timespec) : Prop :=
  let st := lb (p_st p) in
  initialized st = true /\ controller_connected st = true /\ layout (shm st) <> NULL /\
  exists l, p_mem p !! layout (shm st) = Some l /\ virtual_time l = ts /\ time_seq l mod 2 = 0.

(** A [time_t] after 1970 with its nanoseconds in range. *)
Definition normal (ts : timespec) : Prop := 0 <= tv_sec ts < 2 ^ 62 /\ 0 <= tv_nsec ts < 1000000000.

Section Serving.
Context {os : OS} {Hquiet : QuietMemory} {raw : RawSyscall}.

Lemma virtual_now_serving fuel ts (p : proc shim) : serving p ts ->
  exists log, linbox_virtual_now (S fuel) p =
    Ok ((0, Some ts), Proc (p_st p) (p_errno p) (p_mem p) log).
Proof.
  intros (Hi & Hc & Hn & l & Hl & Ht & He). unfold linbox_virtual_now.
  rewrite M_bind_eq, init_state_done by exact Hi. rewrite M_bind_eq, state_get_eq.
  rewrite decide_True by auto. rewrite M_bind_eq. unfold linbox_shm_read_time.
  rewrite decide_False by exact Hn. rewrite M_bind_eq.
  destruct (read_time_even fuel _ p l Hl He) as (log & ->). unfold mret at 1, M_ret at 1.
  rewrite decide_True by reflexivity. rewrite Ht. eexists. reflexivity.
Qed.

(** C11: every clock shows the same time: while the controller serves [ts], each
    of the eight clocks, [gettimeofday], [time] and [timespec_get] report it,
    cut to the unit of the call, leave the process state alone, and agree
    whatever the order of the calls; an unknown clock or a null pointer is
    [EINVAL]. *)
Theorem all_clocks_agree (fuel : nat) (ts : timespec) (p : proc shim) (clk tp tz tloc : Z)
    (Hserve : serving p ts) (Hptr : tp <> NULL) :
  let fuel := S fuel in
  (clk ∈ virtual_clocks -> exists log, linbox_virtual_clock_gettime fuel clk tp p =
     Ok ((0, Some ts), Proc (p_st p) (p_errno p) (p_mem p) log)) /\
  (clk ∉ virtual_clocks -> linbox_virtual_clock_gettime fuel clk tp p =
     Ok ((-1, None), Proc (p_st p) EINVAL (p_mem p) (p_log p))) /\
  (exists log, gettimeofday fuel tp tz p =
     Ok ((0, Some (tv_sec ts, Z.quot (tv_nsec ts) 1000)), Proc (p_st p) (p_errno p) (p_mem p) log)) /\
  (exists log, time fuel tloc p =
     Ok ((tv_sec ts, if decide (tloc = NULL) then None else Some (tv_sec ts)),
         Proc (p_st p) (p_errno p) (p_mem p) log)) /\
  (exists log, timespec_get fuel tp TIME_UTC p =
     Ok ((TIME_UTC, Some ts), Proc (p_st p) (p_errno p) (p_mem p) log)) /\
  linbox_virtual_clock_gettime fuel clk NULL p = Ok ((-1, None), Proc (p_st p) EINVAL (p_mem p) (p_log p)).
Proof.
  cbv zeta. destruct (virtual_now_serving fuel ts p Hserve) as (log & Hnow).
  unfold linbox_virtual_clock_gettime, gettimeofday, time, timespec_get,
    linbox_virtual_gettimeofday, linbox_virtual_time.
  rewrite !(decide_False (P := tp = NULL)) by exact Hptr.
  rewrite (decide_False (P := tp = NULL \/ _)) by (intros [H|H]; [contradiction|apply H; reflexivity]).
  rewrite (decide_True (P := NULL = NULL)) by reflexivity. rewrite !M_bind_eq, !Hnow.
  split; [intros H; rewrite decide_True by exact H; eauto|].
  split; [intros H; rewrite decide_False by exact H; reflexivity|].
  split; [exists log; reflexivity|]. split; [|split; [exists log; reflexivity|reflexivity]].
  exists log. rewrite decide_False by (intros H; apply H; reflexivity). unfold mret, M_ret.
  repeat case_goal; reflexivity.
Qed.

(** [clock] multiplies microseconds by [CLOCKS_PER_SEC] before dividing
    again: it returns the microseconds exactly while their product with 10^6
    fits [int64_t], about 106 days of virtual time, and overflows from there on;
    so at the default epoch of 2025, and at any later time, it is undefined
    behaviour. *)
Lemma clock_microseconds (fuel : nat) (ts : timespec) (p : proc shim)
    (Hserve : serving p ts) (Hts : normal ts) :
  let usec := tv_sec ts * 1000000 + tv_nsec ts / 1000 in
  (usec * 1000000 < 2 ^ 63 -> exists q, clock (S fuel) p = Ok (usec, q)) /\
  (2 ^ 63 <= usec * 1000000 -> clock (S fuel) p = Undef) /\
  (LINBOX_FAKE_EPOCH_SEC <= tv_sec ts -> clock (S fuel) p = Undef).
Proof.
  cbv zeta. destruct (virtual_now_serving fuel ts p Hserve) as (log & Hnow).
  destruct ts as [s n]. destruct Hts as [Hs Hn]. cbn [tv_sec tv_nsec] in *.
  assert (Hq : Z.quot n 1000 = n / 1000) by (apply Z.quot_div_nonneg; lia).
  assert (Hn' : 0 <= n / 1000 < 1000000) by (Z.div_mod_to_equations; lia).
  unfold clock. rewrite M_bind_eq, Hnow. rewrite decide_False by lia. cbn [tv_sec tv_nsec]. rewrite Hq.
  set (u := s * 1000000 + n / 1000) in *.
  assert (Hbig : 2 ^ 63 <= u * 1000000 ->
    (a ← lift (ckd64 (s * 1000000)); usec ← lift (ckd64 (a + n / 1000));
     b ← lift (ckd64 (usec * CLOCKS_PER_SEC)); mret (Z.quot b 1000000))
    (Proc (p_st p) (p_errno p) (p_mem p) log) = Undef (A := Z * proc shim)).
  { intros Hu. rewrite M_bind_eq. unfold lift at 1.
    destruct (decide (in_s 64 (s * 1000000))) as [Ha|Ha]; [rewrite ckd64_Ok by exact Ha|rewrite ckd64_Undef by exact Ha; reflexivity].
    rewrite M_bind_eq. unfold lift at 1. fold u.
    destruct (decide (in_s 64 u)) as [Hb|Hb]; [rewrite ckd64_Ok by exact Hb|rewrite ckd64_Undef by exact Hb; reflexivity].
    rewrite M_bind_eq. unfold lift at 1. rewrite ckd64_Undef; [reflexivity|].
    unfold in_s, CLOCKS_PER_SEC. lia. }
  split; [|split; [exact Hbig|intros He; apply Hbig; unfold LINBOX_FAKE_EPOCH_SEC in He; lia]].
  intros Hu. rewrite M_bind_eq. unfold lift at 1. rewrite ckd64_Ok by (unfold in_s; lia).
  rewrite M_bind_eq. unfold lift at 1. fold u. rewrite ckd64_Ok by (unfold in_s; lia).
  rewrite M_bind_eq. unfold lift at 1. unfold CLOCKS_PER_SEC. rewrite ckd64_Ok by (unfold in_s; lia).
  rewrite Z.quot_mul by lia. eexists. reflexivity.
Qed.

(** [times] is exact: it returns the floor of the virtual time in clock
    ticks, although it scales seconds and nanoseconds apart, stores the same
    count as user time and zero elsewhere, and rejects a tick rate that is not
    positive. *)
Lemma times_ticks (fuel : nat) (ts : timespec) (p : proc shim) (buf hz : Z)
    (Hserve : serving p ts) (Hts : normal ts)
    (Hhz : forall log, ret (os_answer log (XSysconf SC_CLK_TCK)) = hz)
    (Hfit : tv_sec ts * hz + hz < 2 ^ 63) (Hnfit : 1000000000 * hz < 2 ^ 63) :
  let ticks := total_ns ts * hz / 1000000000 in
  exists q, times (S fuel) buf p =
    if decide (0 < hz)
    then Ok ((ticks, if decide (buf = NULL) then None else Some [ticks; 0; 0; 0]), q)
    else Ok ((-1, None), q).
Proof.
  cbv zeta. destruct (virtual_now_serving fuel ts p Hserve) as (log & Hnow).
  destruct ts as [s n]. destruct Hts as [Hs Hn]. unfold total_ns. cbn [tv_sec tv_nsec] in *.
  unfold times. rewrite M_bind_eq, Hnow. rewrite decide_False by lia.
  rewrite M_bind_eq, call_eq. cbv zeta. rewrite Hhz.
  destruct (decide (0 < hz)) as [Hp|Hp].
  - rewrite (decide_False (P := hz <= 0)) by lia. cbn [tv_sec tv_nsec].
    assert (Hnh : 0 <= n * hz < 1000000000 * hz) by nia.
    assert (Hd : 0 <= n * hz / 1000000000 <= hz).
    { split; [apply Z.div_pos; lia|]. apply Z.div_le_upper_bound; lia. }
    rewrite M_bind_eq. unfold lift at 1. rewrite ckd64_Ok by (unfold in_s; nia).
    rewrite M_bind_eq. unfold lift at 1. rewrite ckd64_Ok by (unfold in_s; lia).
    rewrite Z.quot_div_nonneg by lia.
    rewrite M_bind_eq. unfold lift at 1. rewrite ckd64_Ok by (unfold in_s; nia).
    replace ((s * 1000000000 + n) * hz) with (n * hz + s * hz * 1000000000) by ring.
    rewrite Z.div_add by lia. rewrite (Z.add_comm (n * hz / 1000000000)).
    eexists. unfold mret, M_ret. repeat case_goal; reflexivity.
  - rewrite (decide_True (P := hz <= 0)) by lia. eexists. reflexivity.
Qed.

(** C37: the arithmetic of the process clocks. [times] is exact: it returns the
    floor of the virtual time in clock ticks, although it scales seconds and
    nanoseconds apart, stores the same count as user time and zero elsewhere,
    and rejects a tick rate that is not positive. [clock] multiplies
    microseconds by [CLOCKS_PER_SEC] before dividing again: it returns the
    microseconds exactly while their product with 10^6 fits [int64_t], about 106
    days of virtual time, and overflows from there on; so at the default epoch
    of 2025, and at any later time, it is undefined behaviour. For [times] the
    products of the seconds, and of 10^9, with the tick rate must fit [int64_t],
    which they do at any time of this century and any rate up to 10^9. *)
Theorem clock_value (fuel : nat) (ts : timespec) (p : proc shim)
    (Hserve : serving p ts) (Hts : normal ts) :
  let usec := tv_sec ts * 1000000 + tv_nsec ts / 1000 in
  (usec * 1000000 < 2 ^ 63 -> exists q, clock (S fuel) p = Ok (usec, q)) /\
  (2 ^ 63 <= usec * 1000000 -> clock (S fuel) p = Undef) /\
  (LINBOX_FAKE_EPOCH_SEC <= tv_sec ts -> clock (S fuel) p = Undef) /\
  forall buf hz, (forall log, ret (os_answer log (XSysconf SC_CLK_TCK)) = hz) ->
    tv_sec ts * hz + hz < 2 ^ 63 -> 1000000000 * hz < 2 ^ 63 ->
    let ticks := total_ns ts * hz / 1000000000 in
    exists q, times (S fuel) buf p =
      if decide (0 < hz)
      then Ok ((ticks, if decide (buf = NULL) then None else Some [ticks; 0; 0; 0]), q)
      else Ok ((-1, None), q).
Proof.
  cbv zeta. pose proof (clock_microseconds fuel ts p Hserve Hts) as (H1 & H2 & H3).
  split; [exact H1|]. split; [exact H2|]. split; [exact H3|]. intros buf hz Hhz Hfit Hnfit.
  exact (times_ticks fuel ts p buf hz Hserve Hts Hhz Hfit Hnfit).
Qed.

(** A controller has died inside a write: the client believes it is connected
    and the counter of its region is odd. *)
Definition orphaned (p : proc shim) : Prop :=
  let st := lb (p_st p) in
  initialized st = true /\ controller_connected st = true /\ layout (shm st) <> NULL /\
  exists l, p_mem p !! layout (shm st) = Some l /\ time_seq l mod 2 = 1.

Lemma virtual_now_orphaned fuel (p : proc shim) : orphaned p -> linbox_virtual_now fuel p = OutOfFuel.
Proof.
  intros (Hi & Hc & Hn & l & Hl & Hodd). unfold linbox_virtual_now. rewrite M_bind_eq, init_state_done by exact Hi.
  rewrite M_bind_eq, state_get_eq, decide_True by auto. rewrite M_bind_eq.
  rewrite (odd_never_readable l Hodd p _ _ fuel Hn Hl). reflexivity.
Qed.

(** The resolution of a symbol goes through unless one is under way already. *)
Lemma resolve_next_eq symbol (p : proc shim) :
  real_ptr (p_st p) symbol <> NULL \/ resolving (lb (p_st p)) = false ->
  exists q, LINBOX_RESOLVE_NEXT symbol p = Ok (true, q) /\ p_mem q = p_mem p /\
    exists r, lb (p_st q) = set_resolving r (lb (p_st p)).
Proof.
  intros H. unfold LINBOX_RESOLVE_NEXT. rewrite M_bind_eq. cbn [get_st].
  destruct (decide (real_ptr (p_st p) symbol <> NULL)) as [|Hn].
  - exists p. split; [reflexivity|]. split; [reflexivity|]. exists (resolving (lb (p_st p))).
    destruct (lb (p_st p)); reflexivity.
  - destruct H as [H|H]; [contradiction|]. rewrite H. eexists. split; [reflexivity|]. split; [reflexivity|].
    eexists. reflexivity.
Qed.

(** C38: a controller that dies inside a write takes every client with it: while
    a client believes it is connected, the counter is odd and nobody writes the
    region, none of the functions that report the time ever returns: not
    [clock_gettime] on any of the eight clocks, directly or through its symbol,
    nor [gettimeofday], [time], [clock], [times] and [timespec_get]; nothing
    ever makes them fall back to the real clock. [clock_getres], which does not
    read the time, still returns. *)
Theorem crashed_writer_hangs_clients (p : proc shim) (Hp : orphaned p) :
  forall (fuel : nat) (clk tp tz tloc buf : Z),
    linbox_virtual_now fuel p = OutOfFuel /\
    time fuel tloc p = OutOfFuel /\ clock fuel p = OutOfFuel /\ times fuel buf p = OutOfFuel /\
    (tp <> NULL ->
     gettimeofday fuel tp tz p = OutOfFuel /\ timespec_get fuel tp TIME_UTC p = OutOfFuel /\
     clock_getres clk tp p = Ok ((0, Some (resolution (lb (p_st p)))), p) /\
     (clk ∈ virtual_clocks -> linbox_virtual_clock_gettime fuel clk tp p = OutOfFuel /\
        (real_ptr (p_st p) "clock_gettime" <> NULL \/ resolving (lb (p_st p)) = false ->
         clock_gettime fuel clk tp p = OutOfFuel))).
Proof.
  intros fuel clk tp tz tloc buf. pose proof (virtual_now_orphaned fuel p Hp) as H.
  unfold time, linbox_virtual_time, clock, times. rewrite !M_bind_eq, H.
  repeat (split; [reflexivity|]). intros Htp.
  unfold gettimeofday, linbox_virtual_gettimeofday, timespec_get, clock_getres, linbox_virtual_clock_getres.
  rewrite !(decide_False (P := tp = NULL)) by exact Htp.
  rewrite (decide_False (P := tp = NULL \/ _)) by (intros [E|E]; [contradiction|apply E; reflexivity]).
  rewrite !M_bind_eq, H, init_state_done by apply Hp. repeat (split; [reflexivity|]). intros Hclk.
  assert (Hv : forall q, orphaned q -> linbox_virtual_clock_gettime fuel clk tp q = OutOfFuel).
  { intros q Hq. unfold linbox_virtual_clock_gettime. rewrite decide_False, decide_True by assumption.
    exact (virtual_now_orphaned fuel q Hq). }
  split; [exact (Hv p Hp)|]. intros Hres. unfold clock_gettime. rewrite M_bind_eq.
  destruct (resolve_next_eq "clock_gettime" p Hres) as (q & -> & Hm & r & Hlb). apply Hv.
  unfold orphaned. rewrite Hlb, Hm. exact Hp.
Qed.

(** Without a controller the real clock answers: when the shim is not connected
    and libc's [clock_gettime] has been resolved, each virtual clock returns its
    result and value unchanged. *)
Theorem disconnected_uses_real_clock (fuel : nat) (p : proc shim) (clk tp : Z)
    (Hi : initialized (lb (p_st p)) = true) (Hc : controller_connected (lb (p_st p)) = false)
    (Hreal : real_ptr (p_st p) "clock_gettime" <> NULL) (Hptr : tp <> NULL)
    (Hclk : clk ∈ virtual_clocks) :
  let x := XReal "clock_gettime" [CLOCK_REALTIME] None in
  let a := os_answer (p_log p) x in
  clock_gettime fuel clk tp p =
  Ok ((ret a, stored_timespec (ret a) a),
      Proc (p_st p) (if decide (ret a < 0) then err a else p_errno p) (p_mem p) (p_log p ++ [(x, a)])).
Proof.
  cbv zeta. unfold clock_gettime. rewrite M_bind_eq. unfold LINBOX_RESOLVE_NEXT. rewrite M_bind_eq.
  cbn [get_st]. rewrite decide_True by exact Hreal. unfold mret at 1, M_ret at 1.
  unfold linbox_virtual_clock_gettime. rewrite decide_False by exact Hptr. rewrite decide_True by exact Hclk.
  unfold linbox_virtual_now. rewrite M_bind_eq, init_state_done by exact Hi.
  rewrite M_bind_eq, state_get_eq. rewrite decide_False by (intros [H _]; congruence).
  unfold linbox_fallback_now. rewrite M_bind_eq. cbn [get_st]. rewrite decide_True by exact Hreal.
  rewrite M_bind_eq. unfold call_real. rewrite M_bind_eq. cbn [get_st].
  rewrite decide_False by exact Hreal. reflexivity.
Qed.
End Serving.
