(* ===== verification/TimeOrder.v ===== *)
(** * Virtual time across processes

    Composes Seqlock.v and Time.v: any number of processes read the clock through
    their own mapping of the region, each in its own operating system, while the
    controller runs.  The writer's run orders them: a process's log is at some
    index of the run before each of its accesses.  Between requests the
    controller only ticks, so the run is one of [tick_step]s. *)
From S2P Require Import Prelude ShmLayout Os Shm Seqlock TimeManager Shim ShimFacts Time.

(** A writer that starts a write only of a time that may follow the current one. *)
Definition writer_step (may_follow : timespec -> timespec -> Prop) (w w' : wstate) : Prop :=
  wstep w w' /\
  forall seq ts, w_pc w = WIdle -> w_pc w' = WLoaded seq ts -> may_follow (w_cur w) ts.

(** A controller that only ticks writes the current time plus what has elapsed. *)
Definition ticked (cur ts : timespec) : Prop := exists d, 0 <= d /\ ns_add cur d = Ok ts.
Abbreviation tick_step := (writer_step ticked).

(** The time a write is about to publish is not before the published one. *)
Definition pending_later (w : wstate) : Prop :=
  match w_pc w with
  | WIdle => True
  | WLoaded _ ts | WOdd _ ts | WSec _ ts | WNsec _ ts => total_ns (w_cur w) <= total_ns ts
  end.

Lemma ns_add_later ts d out : 0 <= d -> ns_add ts d = Ok out -> total_ns ts <= total_ns out.
Proof.
  intros Hd H. apply ns_add_Ok_iff in H as (_ & _ & _ & ->). rewrite of_ns_total. lia.
Qed.

Lemma tick_step_later w w' : tick_step w w' -> pending_later w ->
  pending_later w' /\ total_ns (w_cur w) <= total_ns (w_cur w').
Proof.
  intros [Hs Ht] Hp. destruct Hs; unfold pending_later in *; cbn in *; try (split; [assumption|lia]).
  - destruct (Ht _ _ eq_refl eq_refl) as (d & Hd & H). split; [exact (ns_add_later _ _ _ Hd H)|lia].
  - split; [exact I|exact Hp].
Qed.

Lemma tick_steps_later w w' : rtc tick_step w w' -> pending_later w ->
  pending_later w' /\ total_ns (w_cur w) <= total_ns (w_cur w').
Proof.
  intros H. induction H as [|w1 w2 w3 H1 _ IH]; intros Hp; [split; [exact Hp|lia]|].
  apply tick_step_later in H1 as [Hp2 H12]; [|exact Hp]. destruct (IH Hp2). split; [assumption|lia].
Qed.

(** The times of a ticking run never decrease. *)
Lemma run_nondecreasing (W : nat -> wstate) : w_pc (W 0%nat) = WIdle ->
  (forall k, rtc tick_step (W k) (W (S k))) ->
  forall i j, (i <= j)%nat -> total_ns (w_cur (W i)) <= total_ns (w_cur (W j)).
Proof.
  intros H0 Ht. assert (Hp : forall k, pending_later (W k)).
  { induction k as [|k IH]; [unfold pending_later; rewrite H0; exact I|apply (tick_steps_later _ _ (Ht k) IH)]. }
  intros i j Hij. induction Hij as [|j _ IH]; [lia|].
  destruct (tick_steps_later _ _ (Ht j) (Hp j)). lia.
Qed.

(** A shim that is connected to a region the writer's run [W] writes. *)
Record reads_run (os : OS) (s0 : Z) (W : nat -> wstate) (clock : list event -> nat) (p : proc shim) : Prop := {
  run_initialized : initialized (lb (p_st p)) = true;
  run_connected : controller_connected (lb (p_st p)) = true;
  run_mapped : layout (shm (lb (p_st p))) <> NULL;
  run_follows : follows os (layout (shm (lb (p_st p)))) s0 W clock }.

Section Reads.
Context {os : OS} {raw : RawSyscall} {s0 : Z} {W : nat -> wstate} {clock : list event -> nat}.

(** A read of the clock reports a time current at some moment of the call. *)
Lemma virtual_now_run fuel (p q : proc shim) rc out : reads_run os s0 W clock p ->
  w_n (W (clock (p_log q))) - w_n (W (clock (p_log p))) < 2 ^ 31 ->
  linbox_virtual_now fuel p = Ok ((rc, out), q) ->
  rc = 0 /\ exists k, (clock (p_log p) <= k <= clock (p_log q))%nat /\ out = Some (w_cur (W k)).
Proof.
  intros [Hi Hc Hn HW] Hfew H. unfold linbox_virtual_now in H.
  rewrite M_bind_eq, init_state_done in H by exact Hi. rewrite M_bind_eq, state_get_eq in H.
  rewrite decide_True in H by auto. apply M_bind_Ok in H as ([rc1 ts] & p1 & H1 & H).
  unfold linbox_shm_read_time in H1. rewrite decide_False in H1 by assumption.
  apply M_bind_Ok in H1 as (t & p2 & H1 & H2). inv_ret. rewrite decide_True in H by reflexivity. inv_ret.
  split; [reflexivity|].
  destruct (read_loop_linearizable HW _ _ _ _ H1) as (i & j & Hi1 & Hj & Hv).
  exists i. split; [lia|]. f_equal. apply Hv.
  pose proof (W_n_mono HW (clock (p_log p)) i ltac:(lia)).
  pose proof (W_n_mono HW j (clock (p_log q)) ltac:(lia)). lia.
Qed.

Lemma clock_gettime_run fuel clk tp (p q : proc shim) rc out : reads_run os s0 W clock p ->
  clk ∈ virtual_clocks -> tp <> NULL ->
  w_n (W (clock (p_log q))) - w_n (W (clock (p_log p))) < 2 ^ 31 ->
  linbox_virtual_clock_gettime fuel clk tp p = Ok ((rc, out), q) ->
  rc = 0 /\ exists k, (clock (p_log p) <= k <= clock (p_log q))%nat /\ out = Some (w_cur (W k)).
Proof.
  intros Hr Hclk Htp Hfew H. unfold linbox_virtual_clock_gettime in H.
  rewrite decide_False, decide_True in H by assumption.
  exact (virtual_now_run _ _ _ _ _ Hr Hfew H).
Qed.
End Reads.

(** C2: virtual time follows real-time order across processes. Two processes,
    each with its own system and mapping of the region, read any of the eight
    clocks while the controller only ticks; if the first call has returned when
    the second begins, both succeed and the second reports a time not before the
    first's. Each time lies between the published times at the beginning and at
    the end of its own call. As for a single read, fewer than 2^31 writes may
    complete during either call. *)
Theorem time_order_across_processes (os1 os2 : OS) (raw1 raw2 : RawSyscall) (s0 : Z) (W : nat -> wstate)
    (clock1 clock2 : list event -> nat) (fuel1 fuel2 : nat) (clk1 clk2 tp1 tp2 : Z)
    (p1 q1 p2 q2 : proc shim) (rc1 rc2 : Z) (out1 out2 : option timespec)
    (Hticks : forall k, rtc tick_step (W k) (W (S k)))
    (Hr1 : reads_run os1 s0 W clock1 p1) (Hr2 : reads_run os2 s0 W clock2 p2)
    (Hclk1 : clk1 ∈ virtual_clocks) (Hclk2 : clk2 ∈ virtual_clocks) (Htp1 : tp1 <> NULL) (Htp2 : tp2 <> NULL)
    (Hfew1 : w_n (W (clock1 (p_log q1))) - w_n (W (clock1 (p_log p1))) < 2 ^ 31)
    (Hfew2 : w_n (W (clock2 (p_log q2))) - w_n (W (clock2 (p_log p2))) < 2 ^ 31)
    (Hcall1 : linbox_virtual_clock_gettime (os := os1) (raw := raw1) fuel1 clk1 tp1 p1 = Ok ((rc1, out1), q1))
    (Hcall2 : linbox_virtual_clock_gettime (os := os2) (raw := raw2) fuel2 clk2 tp2 p2 = Ok ((rc2, out2), q2))
    (Horder : (clock1 (p_log q1) <= clock2 (p_log p2))%nat) :
  let published (clock : list event -> nat) (p : proc shim) := total_ns (w_cur (W (clock (p_log p)))) in
  exists ts1 ts2, rc1 = 0 /\ out1 = Some ts1 /\ rc2 = 0 /\ out2 = Some ts2 /\
    total_ns ts1 <= total_ns ts2 /\
    published clock1 p1 <= total_ns ts1 <= published clock1 q1 /\
    published clock2 p2 <= total_ns ts2 <= published clock2 q2.
Proof.
  cbv zeta.
  destruct (clock_gettime_run _ _ _ _ _ _ _ Hr1 Hclk1 Htp1 Hfew1 Hcall1) as (-> & k1 & Hk1 & ->).
  destruct (clock_gettime_run _ _ _ _ _ _ _ Hr2 Hclk2 Htp2 Hfew2 Hcall2) as (-> & k2 & Hk2 & ->).
  destruct (follows_init _ _ _ _ _ (run_follows _ _ _ _ _ Hr1)) as [t0 H0].
  assert (Hmono := run_nondecreasing W ltac:(rewrite H0; reflexivity) Hticks).
  exists (w_cur (W k1)), (w_cur (W k2)). repeat (split; [reflexivity|]).
  repeat split; apply Hmono; lia.
Qed.
