(* ===== verification/MemoryModel.v ===== *)
(** * The sequence lock on real memory

    Seqlock.v interleaves the accesses of writer and readers.  This file asks when
    that is sound.  On x86-64, the one architecture the program supports, a thread
    has a store buffer: its stores reach memory later, in order, and its own loads
    see them before; the machine [tso] is the writer's code on it, and what the
    memory shows is a run of the writer again.  The memory orders the source asks
    for are weaker than that: [reorders] are the reorderings of accesses they
    allow a compiler or another architecture. *)
From S2P Require Import Prelude ShmLayout Os Shm Seqlock TimeManager TimeOrder.

(** ** The writer behind a store buffer *)

(** The time cell in memory, and the stores to it. *)
Record cell := Cell { c_seq : Z; c_sec : Z; c_nsec : Z }.
Inductive cell_store := StSeq (v : Z) | StSec (v : Z) | StNsec (v : Z).

Definition commit (st : cell_store) (c : cell) : cell :=
  match st with
  | StSeq v => Cell v (c_sec c) (c_nsec c)
  | StSec v => Cell (c_seq c) v (c_nsec c)
  | StNsec v => Cell (c_seq c) (c_sec c) v
  end.

(** What the thread's own load of the counter gives: its latest store, if that is
    still in the buffer, and otherwise what memory holds. *)
Definition forwarded (buf : list cell_store) (c : cell) : Z :=
  foldl (fun v st => match st with StSeq v => v | _ => v end) (c_seq c) buf.

Definition view_cell (w : wstate) : cell := Cell (w_seq w) (w_sec w) (w_nsec w).

(** The next store of [linbox_shm_write_time]. *)
Definition issue (w : wstate) : option (cell_store * wstate) :=
  let 'WState s sec nsec pc n cur := w in
  match pc with
  | WIdle => None
  | WLoaded s0 ts => Some (StSeq (u32 (s0 + 1)), WState (u32 (s0 + 1)) sec nsec (WOdd s0 ts) n cur)
  | WOdd s0 ts => Some (StSec (tv_sec ts), WState s (tv_sec ts) nsec (WSec s0 ts) n cur)
  | WSec s0 ts => Some (StNsec (tv_nsec ts), WState s sec (tv_nsec ts) (WNsec s0 ts) n cur)
  | WNsec s0 ts => Some (StSeq (u32 (s0 + 2)), WState (u32 (s0 + 2)) sec nsec WIdle (n + 1) ts)
  end.

(** The machine: memory, and the buffer, oldest store first.  [t_view] is where the
    thread is, with the values it has stored; it, the labels of the buffer, and
    [t_seen], the label of what has reached memory, are ghosts but for the program
    counter. *)
Record tso := Tso { t_cell : cell; t_buf : list (cell_store * wstate); t_view : wstate; t_seen : wstate }.

Inductive tso_step (may_follow : timespec -> timespec -> Prop) : tso -> tso -> Prop :=
  | tso_load c buf s sec nsec n cur m ts : may_follow cur ts ->
      tso_step may_follow
        (Tso c buf (WState s sec nsec WIdle n cur) m)
        (Tso c buf (WState s sec nsec (WLoaded (forwarded buf.*1 c) ts) n cur) m)
  | tso_store c buf v m st v' : issue v = Some (st, v') ->
      tso_step may_follow (Tso c buf v m) (Tso c (buf ++ [(st, v')]) v' m)
  | tso_drain c st w buf v m :
      tso_step may_follow (Tso c ((st, w) :: buf) v m) (Tso (commit st c) buf v w).

Definition tso_init (s0 : Z) (ts : timespec) : tso :=
  Tso (view_cell (w_init s0 ts)) [] (w_init s0 ts) (w_init s0 ts).

Section Tso.
Context {may_follow : timespec -> timespec -> Prop}.
Abbreviation steps := (rtc (writer_step may_follow)).

(** The labels of the buffer lead from what memory shows to where the thread is. *)
Fixpoint chain (m : wstate) (buf : list (cell_store * wstate)) (v : wstate) : Prop :=
  match buf with
  | [] => steps m v /\ view_cell m = view_cell v
  | (st, w) :: buf => steps m w /\ view_cell w = commit st (view_cell m) /\ chain w buf v
  end.

Definition tso_inv (t : tso) : Prop :=
  t_cell t = view_cell (t_seen t) /\ chain (t_seen t) (t_buf t) (t_view t).

Lemma chain_forwarded buf v : forall m, chain m buf v -> forwarded buf.*1 (view_cell m) = w_seq v.
Proof.
  induction buf as [|[st w] buf IH]; intros m; cbn [chain].
  - intros [_ H]. injection H as H _ _. exact H.
  - intros (_ & Hw & H). rewrite <- (IH _ H), Hw. unfold forwarded. cbn. destruct st; reflexivity.
Qed.

(** The thread takes a step that stores nothing. *)
Lemma chain_load buf v v' : writer_step may_follow v v' -> view_cell v = view_cell v' ->
  forall m, chain m buf v -> chain m buf v'.
Proof.
  intros Hv Hc. induction buf as [|[st w] buf IH]; intros m; cbn [chain].
  - intros [H1 H2]. split; [exact (rtc_r _ _ _ H1 Hv)|congruence].
  - intros (H1 & H2 & H3). auto.
Qed.

(** The thread takes a step that stores [st]. *)
Lemma chain_store buf v v' st : writer_step may_follow v v' -> view_cell v' = commit st (view_cell v) ->
  forall m, chain m buf v -> chain m (buf ++ [(st, v')]) v'.
Proof.
  intros Hv Hc. induction buf as [|[st0 w] buf IH]; intros m; cbn [chain app].
  - intros [H1 H2]. split; [exact (rtc_r _ _ _ H1 Hv)|]. rewrite H2. split; [exact Hc|]. split; reflexivity.
  - intros (H1 & H2 & H3). auto.
Qed.

Lemma issue_step v st v' : issue v = Some (st, v') -> writer_step may_follow v v' /\ view_cell v' = commit st (view_cell v).
Proof.
  destruct v as [s sec nsec pc n cur]. unfold issue.
  destruct pc; try discriminate; intros [= <- <-]; (split; [split; [constructor|discriminate]|reflexivity]).
Qed.

Lemma tso_step_inv t t' : tso_step may_follow t t' -> tso_inv t -> tso_inv t' /\ steps (t_seen t) (t_seen t').
Proof.
  intros [c buf s sec nsec n cur m ts Hts|c buf v m st v' Hi|c st w buf v m]; unfold tso_inv; cbn [t_cell t_buf t_view t_seen].
  - intros [-> H]. pose proof (chain_forwarded _ _ _ H) as ->. cbn [w_seq]. split; [split; [reflexivity|]|reflexivity].
    refine (chain_load _ _ _ _ _ _ H); [|reflexivity]. split; [constructor|]. intros seq ts' _ [= <- <-]. exact Hts.
  - intros [-> H]. apply issue_step in Hi as [Hv Hc]. split; [split; [reflexivity|]|reflexivity].
    exact (chain_store _ _ _ _ Hv Hc _ H).
  - cbn [chain]. intros [-> (H1 & H2 & H3)]. split; [split; [congruence|exact H3]|exact H1].
Qed.

Lemma tso_steps_inv t t' : rtc (tso_step may_follow) t t' -> tso_inv t -> tso_inv t' /\ steps (t_seen t) (t_seen t').
Proof.
  induction 1 as [|t1 t2 t3 H1 _ IH]; intros Hi; [split; [exact Hi|reflexivity]|].
  apply tso_step_inv in H1 as [Hi2 H12]; [|exact Hi]. destruct (IH Hi2) as [Hi3 H23]. split; [exact Hi3|].
  etrans; eassumption.
Qed.

Lemma tso_init_inv s0 ts : tso_inv (tso_init s0 ts).
Proof. split; [reflexivity|]. split; reflexivity. Qed.
End Tso.

(** ** Readers of a machine with store buffers *)

(** The system of a reader whose memory is that of a run [T] of the machine.  A
    reader stores nothing into the cell, and x86-64 keeps loads in order, so its
    own code needs no buffer. *)
Record shows (os : OS) (r s0 : Z) (T : nat -> tso) (clock : list event -> nat) : Prop := {
  shows_seq : in_u 32 s0 /\ s0 mod 2 = 0;
  shows_init : exists ts, T 0%nat = tso_init s0 ts;
  shows_mono : forall log e, (clock log <= clock (log ++ [e]))%nat;
  shows_mem : forall log m, exists l,
    os_interfere log m !! r = Some l /\ Cell (time_seq l) (tv_sec (virtual_time l)) (tv_nsec (virtual_time l)) =
    t_cell (T (clock log)) }.

Section Runs.
Context {may_follow : timespec -> timespec -> Prop} {os : OS} {r s0 : Z} {T : nat -> tso} {clock : list event -> nat}.
Hypothesis HT : shows os r s0 T clock.
Hypothesis Hrun : forall k, rtc (tso_step may_follow) (T k) (T (S k)).

Lemma run_inv k : tso_inv (may_follow := may_follow) (T k).
Proof.
  induction k as [|k IH].
  - destruct (shows_init _ _ _ _ _ HT) as [ts ->]. apply tso_init_inv.
  - exact (proj1 (tso_steps_inv _ _ (Hrun k) IH)).
Qed.

Lemma run_seen k : rtc (writer_step may_follow) (t_seen (T k)) (t_seen (T (S k))).
Proof. exact (proj2 (tso_steps_inv _ _ (Hrun k) (run_inv k))). Qed.

(** Memory follows a run of the writer. *)
Lemma tso_follows : follows os r s0 (fun k => t_seen (T k)) clock.
Proof.
  split.
  - apply (shows_seq _ _ _ _ _ HT).
  - destruct (shows_init _ _ _ _ _ HT) as [ts ->]. exists ts. reflexivity.
  - intros k. apply (rtc_subrel (writer_step may_follow)); [intros x y [H _]; exact H|apply run_seen].
  - apply (shows_mono _ _ _ _ _ HT).
  - intros log m. destruct (shows_mem _ _ _ _ _ HT log m) as (l & Hl & Hc). exists l. split; [exact Hl|].
    rewrite (proj1 (run_inv (clock log))) in Hc. unfold view_cell in Hc. injection Hc as H1 H2 H3.
    split; [exact H1|]. destruct (virtual_time l). cbn in *. congruence.
Qed.
End Runs.

(** C3: the lock is sound on x86-64. The writer's code runs behind a store
    buffer: its stores reach memory any time later, in order, and its own loads
    of the counter see the buffer first. However the buffer drains between the
    accesses of a read, what memory shows is a run of the writer: a read that
    returns during which fewer than [2^31] writes reach memory gives a time that
    was completely in memory at some moment of the read; and while the
    controller only ticks, that time lies between those in memory when the read
    began and when it ended. *)
Theorem tso_reads_linearizable {S : Type} (os : OS) (r s0 : Z) (T : nat -> tso) (clock : list event -> nat)
    (may_follow : timespec -> timespec -> Prop) (fuel : nat) (p q : proc S) (t0 : timespec) (rc : Z) (out : option timespec)
    (HT : shows os r s0 T clock) (Hrun : forall k, rtc (tso_step may_follow) (T k) (T (Datatypes.S k))) (Hr : r <> NULL)
    (Hfew : w_n (t_seen (T (clock (p_log q)))) - w_n (t_seen (T (clock (p_log p)))) < 2 ^ 31)
    (Hret : linbox_shm_read_time fuel r (Some t0) p = Ok ((rc, out), q)) :
  let in_memory k := w_cur (t_seen (T k)) in
  exists k ts, rc = 0 /\ out = Some ts /\ (clock (p_log p) <= k <= clock (p_log q))%nat /\ ts = in_memory k /\
    ((forall cur ts, may_follow cur ts -> ticked cur ts) ->
     total_ns (in_memory (clock (p_log p))) <= total_ns ts <= total_ns (in_memory (clock (p_log q)))).
Proof.
  cbv zeta. pose proof (tso_follows HT Hrun) as HW.
  unfold linbox_shm_read_time in Hret. rewrite decide_False in Hret by assumption.
  apply M_bind_Ok in Hret as (ts & p1 & H1 & Hret). inv_ret.
  destruct (read_loop_linearizable HW _ _ _ _ H1) as (i & j & Hi & Hj & Hv).
  pose proof (W_n_mono HW (clock (p_log p)) i ltac:(lia)) as Hn1. cbv beta in Hn1.
  pose proof (W_n_mono HW j (clock (p_log q)) ltac:(lia)) as Hn2. cbv beta in Hn2.
  specialize (Hv ltac:(lia)). exists i, ts. split; [reflexivity|]. split; [reflexivity|]. split; [lia|]. split; [exact Hv|].
  intros Hticks. destruct (shows_init _ _ _ _ _ HT) as [t1 H0].
  assert (Hmono := run_nondecreasing (fun k => t_seen (T k)) ltac:(cbv beta; rewrite H0; reflexivity)
    (fun k => rtc_subrel (writer_step may_follow) tick_step _ _
       (fun x y H => conj (proj1 H) (fun seq ts Hx Hy => Hticks _ _ (proj2 H seq ts Hx Hy))) (run_seen HT Hrun k))).
  cbv beta in Hmono. rewrite Hv. split; apply Hmono; lia.
Qed.

(** ** The accesses and the memory orders the source asks for *)

(** Accesses of data carry no order. *)
Inductive order := Plain | Relaxed | Acquire | Release.
Inductive loc := LSeq | LSec | LNsec.

(** Where the reader keeps what it loads. *)
Inductive reg := RSeq1 | RSec | RNsec | RSeq2.

Inductive access :=
  | Ld (r : reg) (l : loc) (o : order)
  | St (l : loc) (v : Z) (o : order).

#[export] Instance order_eq_dec : EqDecision order.
Proof. solve_decision. Defined.
#[export] Instance loc_eq_dec : EqDecision loc.
Proof. solve_decision. Defined.

Definition access_loc (a : access) : loc := match a with Ld _ l _ | St l _ _ => l end.
Definition access_order (a : access) : order := match a with Ld _ _ o | St _ _ o => o end.

(** The stores of [linbox_shm_write_time], having loaded [seq]. *)
Definition write_time_accesses (seq : Z) (ts : timespec) : list access :=
  [ St LSeq (u32 (seq + 1)) Release;
    St LSec (tv_sec ts) Plain; St LNsec (tv_nsec ts) Plain;
    St LSeq (u32 (seq + 2)) Release ].

(** One round of the loop of [linbox_shm_read_time] that finds an even counter. *)
Definition read_time_accesses : list access :=
  [ Ld RSeq1 LSeq Acquire;
    Ld RSec LSec Plain; Ld RNsec LNsec Plain;
    Ld RSeq2 LSeq Acquire ].

(** What it loaded, and its verdict. *)
Record regs := Regs { g_seq1 : Z; g_sec : Z; g_nsec : Z; g_seq2 : Z }.

Definition accepts (g : regs) : option timespec :=
  if decide (Z.land (g_seq1 g) 1 <> 0) then None
  else if decide (g_seq1 g = g_seq2 g /\ ~ Z.land (g_seq2 g) 1 <> 0) then Some (Timespec (g_sec g) (g_nsec g))
  else None.

(** ** Executions *)

Definition peek (l : loc) (c : cell) : Z :=
  match l with LSeq => c_seq c | LSec => c_sec c | LNsec => c_nsec c end.

Definition set_reg (r : reg) (v : Z) (g : regs) : regs :=
  let 'Regs a b c d := g in
  match r with
  | RSeq1 => Regs v b c d | RSec => Regs a v c d | RNsec => Regs a b v d | RSeq2 => Regs a b c v
  end.

Definition cell_store_of (l : loc) (v : Z) : cell_store :=
  match l with LSeq => StSeq v | LSec => StSec v | LNsec => StNsec v end.

Definition access_step (cg : cell * regs) (a : access) : cell * regs :=
  let '(c, g) := cg in
  match a with
  | Ld r l _ => (c, set_reg r (peek l c) g)
  | St l v _ => (commit (cell_store_of l v) c, g)
  end.

Definition no_regs : regs := Regs 0 0 0 0.
Definition execute (l : list access) (c : cell) : cell * regs := foldl access_step (c, no_regs) l.

(** The interleavings of two threads. *)
Inductive interleaves : list access -> list access -> list access -> Prop :=
  | il_nil : interleaves [] [] []
  | il_left a l1 l2 l : interleaves l1 l2 l -> interleaves (a :: l1) l2 (a :: l)
  | il_right a l1 l2 l : interleaves l1 l2 l -> interleaves l1 (a :: l2) (a :: l).

(** The stores listed are those the machine issues. *)
Fixpoint issues (fuel : nat) (w : wstate) : list cell_store :=
  match fuel with
  | O => []
  | S fuel => match issue w with None => [] | Some (st, w') => st :: issues fuel w' end
  end.

Definition store_of (a : access) : option cell_store :=
  match a with Ld _ _ _ => None | St l v _ => Some (cell_store_of l v) end.

Lemma issues_accesses fuel s sec nsec seq ts n cur :
  issues (4 + fuel) (WState s sec nsec (WLoaded seq ts) n cur) = omap store_of (write_time_accesses seq ts).
Proof. destruct fuel; reflexivity. Qed.

(** ** Reorderings *)

(** The orders of C keep these pairs of one thread in program order: the accesses
    of one location, anything after an acquire, anything before a release.  An
    acquire after a release is kept as well, which C does not ask for. *)
Definition must_precede_c (a b : access) : bool :=
  bool_decide (access_loc a = access_loc b) || bool_decide (access_order a = Acquire) ||
  bool_decide (access_order b = Release) ||
  (bool_decide (access_order a = Release) && bool_decide (access_order b = Acquire)).

(** x86-64 keeps every pair but a load after a store to another location. *)
Definition must_precede_x86 (a b : access) : bool :=
  match a, b with
  | St l _ _, Ld _ l' _ => bool_decide (l = l')
  | _, _ => true
  end.

(** Adjacent accesses that need not stay in order are exchanged. *)
Inductive swap (must_precede : access -> access -> bool) : list access -> list access -> Prop :=
  | swap_intro l1 a b l2 : must_precede a b = false ->
      swap must_precede (l1 ++ a :: b :: l2) (l1 ++ b :: a :: l2).

Abbreviation reorders must_precede := (rtc (swap must_precede)).

(** A write and a round of a reader, each reordered, interleaved from memory
    [c]: the reader accepts [out]. *)
Definition may_read (must_precede : access -> access -> bool) (seq : Z) (ts : timespec) (c : cell) (out : timespec) : Prop :=
  exists w r l, reorders must_precede (write_time_accesses seq ts) w /\
    reorders must_precede read_time_accesses r /\ interleaves w r l /\ accepts (execute l c).2 = Some out.

(** ** The verdicts *)

Lemma land_1_mod z : Z.land z 1 = z mod 2.
Proof. exact (Z.land_ones z 1 ltac:(lia)). Qed.

Lemma accepts_Some g out : accepts g = Some out ->
  g_seq1 g mod 2 = 0 /\ g_seq1 g = g_seq2 g /\ out = Timespec (g_sec g) (g_nsec g).
Proof.
  unfold accepts. rewrite !land_1_mod. destruct (decide _) as [|He]; [discriminate|].
  destruct (decide _) as [[Hs _]|]; [|discriminate]. intros [= <-].
  split; [destruct (decide (g_seq1 g mod 2 = 0)); tauto|auto].
Qed.

Lemma accepts_intro s sec nsec : s mod 2 = 0 -> accepts (Regs s sec nsec s) = Some (Timespec sec nsec).
Proof.
  intros H. unfold accepts. cbn [g_seq1 g_seq2 g_sec g_nsec]. rewrite land_1_mod, H.
  rewrite decide_False, decide_True by (try split; lia). reflexivity.
Qed.

(** A thread of stores only, or of loads only, is not reordered. *)
Definition is_load (a : access) : bool := match a with Ld _ _ _ => true | St _ _ _ => false end.

Lemma no_swap b l l' : Forall (fun a => is_load a = b) l -> reorders must_precede_x86 l l' -> l' = l.
Proof.
  intros Hl H. destruct H as [l|l1 l2 l3 H _]; [reflexivity|]. exfalso. destruct H as [k1 x y k2 H].
  rewrite Forall_app, !Forall_cons in Hl. destruct Hl as (_ & Hx & Hy & _).
  destruct x, y; cbn in *; congruence.
Qed.

(** The interleavings of two threads, listed. *)
Fixpoint merges (l1 : list access) : list access -> list (list access) :=
  match l1 with
  | [] => fun l2 => [l2]
  | a :: l1' => fix go l2 :=
      match l2 with
      | [] => [a :: l1']
      | b :: l2' => map (cons a) (merges l1' (b :: l2')) ++ map (cons b) (go l2')
      end
  end.

Lemma interleaves_merges l1 l2 l : interleaves l1 l2 l -> In l (merges l1 l2).
Proof.
  induction 1 as [|a l1 l2 l H IH|b l1 l2 l H IH]; [left; reflexivity|destruct l2 as [|b l2]|destruct l1 as [|a l1]].
  - assert (Hl : l = l1); [|rewrite Hl; left; reflexivity].
    clear -H. remember [] as l2 eqn:E. induction H; subst; [reflexivity|f_equal; auto|discriminate].
  - cbn. apply in_or_app. left. apply in_map. exact IH.
  - cbn in *. destruct IH as [->|[]]. left. reflexivity.
  - cbn. apply in_or_app. right. apply in_map. exact IH.
Qed.

Lemma merges_safe seq ts sec nsec out : in_u 32 seq -> seq mod 2 = 0 ->
  Forall (fun l => accepts (execute l (Cell seq sec nsec)).2 = Some out -> out = Timespec sec nsec \/ out = ts)
    (merges (write_time_accesses seq ts) read_time_accesses).
Proof.
  intros Hs He. set (odd := u32 (seq + 1)). set (even := u32 (seq + 2)).
  assert (Ho : odd mod 2 = 1) by (unfold odd; rewrite u32_mod2; Z.div_mod_to_equations; lia).
  assert (Hn : seq <> even).
  { unfold even, wrap, in_u in *. intros H. pose proof (Z.div_mod (seq + 2) (2 ^ 32) ltac:(lia)). lia. }
  unfold write_time_accesses. fold odd even. clearbody odd even. destruct ts as [s n].
  cbn [merges read_time_accesses map app tv_sec tv_nsec].
  repeat apply List.Forall_cons; try apply List.Forall_nil; intros H; apply accepts_Some in H as (H1 & H2 & ->);
    cbn in H1, H2 |- *; first [left; reflexivity | right; reflexivity | exfalso; congruence].
Qed.

(** C36: what the lock owes to the memory. On x86-64, where only a load may pass
    an earlier store, neither thread is reordered, and however a write and a
    round of a reader interleave, the reader accepts only the old or the new
    time. The memory orders the source asks for promise less: they let the first
    store of the data pass the store that makes the counter odd, and the loads
    of the data pass the second load of the counter, and either reordering alone
    gives the reader one word of the old time and one of the new. *)
Theorem memory_orders_verdict (seq : Z) (ts : timespec) (sec nsec : Z) (Hseq : in_u 32 seq) (Heven : seq mod 2 = 0) :
  let c := Cell seq sec nsec in
  (forall out, may_read must_precede_x86 seq ts c out -> out = Timespec sec nsec \/ out = ts) /\
  (exists w l, reorders must_precede_c (write_time_accesses seq ts) w /\
     interleaves w read_time_accesses l /\ accepts (execute l c).2 = Some (Timespec (tv_sec ts) nsec)) /\
  (exists r l, reorders must_precede_c read_time_accesses r /\
     interleaves (write_time_accesses seq ts) r l /\ accepts (execute l c).2 = Some (Timespec sec (tv_nsec ts))).
Proof.
  cbv zeta. split; [|split].
  - intros out (w & r & l & Hw & Hr & Hl & H).
    apply (no_swap false) in Hw as ->; [|repeat constructor].
    apply (no_swap true) in Hr as ->; [|repeat constructor].
    pose proof (merges_safe seq ts sec nsec out Hseq Heven) as Hsafe. rewrite Forall_forall in Hsafe.
    exact (Hsafe l (proj2 (list_elem_of_In _ _) (interleaves_merges _ _ _ Hl)) H).
  - exists [St LSec (tv_sec ts) Plain; St LSeq (u32 (seq + 1)) Release; St LNsec (tv_nsec ts) Plain; St LSeq (u32 (seq + 2)) Release].
    eexists. split; [apply rtc_once, (swap_intro _ []); reflexivity|].
    split; [apply il_left; do 4 apply il_right; do 3 apply il_left; apply il_nil|]. exact (accepts_intro _ _ _ Heven).
  - exists [Ld RSeq1 LSeq Acquire; Ld RSec LSec Plain; Ld RSeq2 LSeq Acquire; Ld RNsec LNsec Plain].
    eexists. split; [apply rtc_once, (swap_intro _ [_; _]); reflexivity|].
    split; [do 3 apply il_right; do 4 apply il_left; apply il_right; apply il_nil|]. exact (accepts_intro _ _ _ Heven).
Qed.
