(* ===== verification/Threads.v ===== *)
(** * Threads of one process

    The shim keeps one generator per process, in [g_linbox_state], and no lock
    guards it.  Each draw of a word, [linbox_prng_next_u64], loads the state,
    computes and stores it back; here any number of threads of one process draw,
    a step per access.  [draw_step true] is the same code with draws kept apart,
    as a lock around them would. *)
From Stdlib Require Import Znumtheory.
From S2P Require Import Prelude Bits Prng PrngPeriod.

(** A thread between its draws, or inside one with the state it loaded, and the
    words it has drawn. *)
Record tstate := TState { t_loaded : option Z; t_words : list Z }.

(** The shared generator and the threads. *)
Record pool := Pool { g_prng : linbox_prng; g_threads : list tstate }.

Definition idle (t : tstate) : Prop := t_loaded t = None.

Inductive draw_step (locked : bool) : pool -> pool -> Prop :=
  | draw_load g ts i ws : ts !! i = Some (TState None ws) -> (locked = true -> Forall idle ts) ->
      draw_step locked (Pool g ts) (Pool g (<[i := TState (Some (state g)) ws]> ts))
  | draw_store g ts i x ws g' w : ts !! i = Some (TState (Some x) ws) ->
      linbox_prng_next_u64 (LinboxPrng x) = (g', w) ->
      draw_step locked (Pool g ts) (Pool g' (<[i := TState None (ws ++ [w])]> ts)).

Abbreviation draws_to locked := (rtc (draw_step locked)).

Definition all_idle (n : nat) (g : linbox_prng) : pool := Pool g (replicate n (TState None [])).

(** All words drawn, thread by thread. *)
Definition drawn (p : pool) : list Z := mjoin (t_words <$> g_threads p).

(** The [k]-th word of the stream from [g], and the state after [k] words. *)
Definition word_at (g : linbox_prng) (k : nat) : Z := (linbox_prng_next_u64 (prng_words k g).2).2.
Definition state_at (g : linbox_prng) (k : nat) : Z := state (prng_words k g).2.

(** ** Counting the words *)

Lemma prng_words_map g n : (prng_words n g).1 = map (word_at g) (seq 0 n).
Proof.
  induction n as [|n IH]; [reflexivity|]. rewrite seq_S, map_app, <- IH, <- Nat.add_1_r, prng_words_app.
  unfold word_at. cbn [Nat.add map]. destruct (prng_words n g) as [ws p]. cbn [prng_words snd fst].
  destruct (linbox_prng_next_u64 p). reflexivity.
Qed.

Lemma drawn_insert g g' ts i t ws l : ts !! i = Some t -> ws = t_words t ++ l ->
  forall o, drawn (Pool g' (<[i := TState o ws]> ts)) ≡ₚ drawn (Pool g ts) ++ l.
Proof.
  intros Hi -> o. unfold drawn. cbn [g_threads]. revert i Hi. induction ts as [|t0 ts IH]; intros [|i] Hi; [discriminate..| |].
  - injection Hi as ->. cbn. solve_Permutation.
  - cbn in *. rewrite (IH i Hi), app_assoc. reflexivity.
Qed.

Lemma drawn_load g g' ts i ws o o' : ts !! i = Some (TState o ws) -> drawn (Pool g' (<[i := TState o' ws]> ts)) ≡ₚ drawn (Pool g ts).
Proof.
  intros Hi. rewrite (drawn_insert g g' ts i _ _ [] Hi), app_nil_r by (symmetry; apply app_nil_r). reflexivity.
Qed.

(** ** Any interleaving: only words of the stream *)

(** The state and what the threads have loaded are states of the stream, not
    further along than the number of words drawn; the words are words of it. *)
Record on_stream (g0 : linbox_prng) (p : pool) : Prop := {
  stream_state : exists k, (k <= length (drawn p))%nat /\ state (g_prng p) = state_at g0 k;
  stream_loaded : forall i x ws, g_threads p !! i = Some (TState (Some x) ws) ->
    exists k, (k <= length (drawn p))%nat /\ x = state_at g0 k;
  stream_words : Forall (fun w => exists k, (k < length (drawn p))%nat /\ w = word_at g0 k) (drawn p) }.

Lemma next_state_at g0 k : linbox_prng_next_u64 (LinboxPrng (state_at g0 k)) = (LinboxPrng (state_at g0 (S k)), word_at g0 k).
Proof.
  unfold state_at, word_at. rewrite prng_words_S. destruct (prng_words k g0).2 as [x].
  reflexivity.
Qed.

Lemma on_stream_step locked g0 p p' : draw_step locked p p' -> on_stream g0 p -> on_stream g0 p'.
Proof.
  intros [g ts i ws Hi _|g ts i x ws g' w Hi Hw] [Hs Hl Hd]; cbn [g_prng g_threads] in *.
  - pose proof (drawn_load g g ts i ws _ (Some (state g)) Hi) as Hp. pose proof (Permutation_length Hp) as Hn.
    split; cbn [g_prng g_threads]; rewrite Hn; [exact Hs| |rewrite Hp; exact Hd].
    intros j x ws' Hj. apply list_lookup_insert_Some in Hj as [(-> & [= <- <-] & _)|[_ Hj]]; eauto.
  - pose proof (drawn_insert g g' ts i _ (ws ++ [w]) [w] Hi eq_refl None) as Hp.
    pose proof (Permutation_length Hp) as Hn. rewrite length_app in Hn. cbn [length] in Hn.
    destruct (Hl _ _ _ Hi) as (k & Hk & ->). rewrite next_state_at in Hw. injection Hw as <- <-.
    split; cbn [g_prng g_threads]; rewrite Hn.
    + exists (S k). cbn [state]. split; [lia|reflexivity].
    + intros j x ws' Hj. apply list_lookup_insert_Some in Hj as [(_ & [=] & _)|[_ Hj]].
      destruct (Hl _ _ _ Hj) as (k' & ? & ->). exists k'. split; [lia|reflexivity].
    + rewrite Hp. apply Forall_app. split; [|constructor; [exists k; split; [lia|reflexivity]|constructor]].
      apply (Forall_impl _ _ _ Hd). intros v (k' & ? & ->). exists k'. split; [lia|reflexivity].
Qed.

Lemma drawn_all_idle n g : drawn (all_idle n g) = [].
Proof. unfold drawn, all_idle. cbn. induction n; [reflexivity|assumption]. Qed.

Lemma on_stream_init n g0 : on_stream g0 (all_idle n g0).
Proof.
  split; [|intros i x ws Hi; apply lookup_replicate in Hi as [[=] _]|rewrite drawn_all_idle; constructor].
  exists 0%nat. split; [lia|reflexivity].
Qed.

Lemma on_stream_runs locked g0 p p' : draws_to locked p p' -> on_stream g0 p -> on_stream g0 p'.
Proof. induction 1; eauto using on_stream_step. Qed.

(** ** Draws kept apart: every word once *)

Record in_order (g0 : linbox_prng) (p : pool) : Prop := {
  order_state : g_prng p = (prng_words (length (drawn p)) g0).2;
  order_loaded : forall i x ws, g_threads p !! i = Some (TState (Some x) ws) ->
    x = state (g_prng p) /\ forall j t, j <> i -> g_threads p !! j = Some t -> idle t;
  order_words : drawn p ≡ₚ (prng_words (length (drawn p)) g0).1 }.

Lemma prng_words_1 g n g' w : linbox_prng_next_u64 (prng_words n g).2 = (g', w) ->
  prng_words (S n) g = ((prng_words n g).1 ++ [w], g').
Proof.
  intros H. rewrite <- Nat.add_1_r, prng_words_app. destruct (prng_words n g) as [ws p]. cbn [snd] in H.
  cbn [prng_words fst]. rewrite H. reflexivity.
Qed.

Lemma in_order_step g0 p p' : draw_step true p p' -> in_order g0 p -> in_order g0 p'.
Proof.
  intros [g ts i ws Hi Hidle|g ts i x ws g' w Hi Hw] [Hs Hl Hd]; cbn [g_prng g_threads] in *.
  - pose proof (drawn_load g g ts i ws _ (Some (state g)) Hi) as Hp. pose proof (Permutation_length Hp) as Hn.
    split; cbn [g_prng g_threads]; rewrite ?Hn; [exact Hs| |rewrite Hp; exact Hd].
    specialize (Hidle eq_refl). rewrite Forall_lookup in Hidle.
    intros j x ws' Hj. apply list_lookup_insert_Some in Hj as [(<- & [= <- <-] & _)|[_ Hj]].
    + split; [reflexivity|]. intros j t Hne Hj. rewrite list_lookup_insert_ne in Hj by congruence. eauto.
    + discriminate (Hidle _ _ Hj).
  - destruct (Hl _ _ _ Hi) as [-> Hothers].
    pose proof (drawn_insert g g' ts i _ (ws ++ [w]) [w] Hi eq_refl None) as Hp.
    pose proof (Permutation_length Hp) as Hn. rewrite length_app, Nat.add_1_r in Hn.
    destruct g as [s]. cbn [state] in Hw. rewrite Hs in Hw. apply prng_words_1 in Hw.
    split; cbn [g_prng g_threads]; rewrite ?Hn, ?Hw; [reflexivity| |rewrite Hp; cbn [fst]; rewrite Hd at 1; reflexivity].
    intros j x ws' Hj. apply list_lookup_insert_Some in Hj as [(_ & [=] & _)|[Hne Hj]].
    discriminate (Hothers j _ (not_eq_sym Hne) Hj).
Qed.

Lemma in_order_runs g0 p p' : draws_to true p p' -> in_order g0 p -> in_order g0 p'.
Proof. induction 1; eauto using in_order_step. Qed.

Lemma in_order_init n g0 : in_order g0 (all_idle n g0).
Proof.
  split; rewrite ?drawn_all_idle; [reflexivity| |reflexivity].
  intros i x ws Hi. apply lookup_replicate in Hi as [[=] _].
Qed.

(** The words of one period differ. *)
Lemma word_at_neq g i j : prng_ok g -> (i < j)%nat -> Z.of_nat (j - i) < prng_period -> word_at g i <> word_at g j.
Proof.
  intros Hg Hij Hn H. apply next_u64_inj in H; [|apply prng_words_ok, Hg..].
  replace j with (i + (j - i))%nat in H by lia. rewrite <- prng_words_add in H. symmetry in H.
  apply prng_returns_iff in H; [|apply prng_words_ok, Hg]. apply Z.divide_pos_le in H; lia.
Qed.

Lemma prng_words_NoDup g n : prng_ok g -> Z.of_nat n <= prng_period -> NoDup (prng_words n g).1.
Proof.
  intros Hg Hn. rewrite prng_words_map. apply NoDup_fmap_2_strong; [|apply NoDup_seq].
  intros i j Hi%elem_of_seq Hj%elem_of_seq H.
  destruct (Nat.lt_trichotomy i j) as [Hl|[|Hl]]; [|assumption|]; exfalso.
  - exact (word_at_neq g i j Hg Hl ltac:(lia) H).
  - exact (word_at_neq g j i Hg Hl ltac:(lia) (eq_sym H)).
Qed.

(** ** A suspended draw rewinds the stream *)

(** A thread draws [n] words while the others do nothing. *)
Lemma draws_alone n i : forall g ts ws, ts !! i = Some (TState None ws) ->
  draws_to false (Pool g ts) (Pool (prng_words n g).2 (<[i := TState None (ws ++ (prng_words n g).1)]> ts)).
Proof.
  induction n as [|n IH]; intros g ts ws Hi; cbn [prng_words].
  - rewrite app_nil_r, list_insert_id by exact Hi. reflexivity.
  - destruct (linbox_prng_next_u64 g) as [g1 w] eqn:E. pose proof (lookup_lt_Some _ _ _ Hi) as Hlt.
    eapply rtc_l; [apply (draw_load _ g ts i ws Hi); discriminate|].
    eapply rtc_l; [apply (draw_store _ _ _ i (state g) ws g1 w); [apply list_lookup_insert_eq, Hlt|destruct g; exact E]|].
    rewrite list_insert_insert_eq. specialize (IH g1 (<[i := TState None (ws ++ [w])]> ts) (ws ++ [w])).
    destruct (prng_words n g1) as [vs g2]. cbn [fst snd] in *. rewrite list_insert_insert_eq, <- app_assoc in IH.
    apply IH, list_lookup_insert_eq, Hlt.
Qed.

(** C14: threads that draw from the process's generator. However their accesses
    interleave, no thread draws anything but words of the process's stream, and
    none beyond as many as have been drawn. If draws do not overlap, the threads
    together draw the first words of the stream, each word once, and no word
    twice within a period. Nothing in the code keeps them apart: a thread
    suspended inside one draw while another draws any number of words rewinds
    the stream when it goes on, so that the other draws the same words again;
    and it draws the first of them itself. *)
Theorem threads_share_stream (g : linbox_prng) (k n : nat) (p : pool) (Hg : prng_ok g) :
  (draws_to false (all_idle k g) p ->
   Forall (fun w => exists j, (j < length (drawn p))%nat /\ w = word_at g j) (drawn p)) /\
  (draws_to true (all_idle k g) p ->
   drawn p ≡ₚ (prng_words (length (drawn p)) g).1 /\
   (Z.of_nat (length (drawn p)) <= prng_period -> NoDup (drawn p))) /\
  (let '(g1, w) := linbox_prng_next_u64 g in
   draws_to false (all_idle 2 g)
     (Pool (prng_words n g1).2
        [TState None [w]; TState None (w :: (prng_words n g1).1 ++ (prng_words n g1).1)])).
Proof.
  split; [|split].
  - intros H. exact (stream_words _ _ (on_stream_runs _ _ _ _ H (on_stream_init _ _))).
  - intros H. pose proof (order_words _ _ (in_order_runs _ _ _ H (in_order_init _ _))) as Ho.
    split; [exact Ho|]. intros Hn. rewrite Ho. exact (prng_words_NoDup g _ Hg Hn).
  - destruct (linbox_prng_next_u64 g) as [g1 w] eqn:E. pose proof (draws_alone (S n) 1 g [TState (Some (state g)) []; TState None []] [] eq_refl) as H1.
    cbn [prng_words] in H1. rewrite E in H1.
    pose proof (draws_alone n 1 g1 [TState None [w]; TState None (w :: (prng_words n g1).1)] _ eq_refl) as H2.
    destruct (prng_words n g1) as [ws g2]. cbn in H1, H2 |- *.
    eapply rtc_l; [apply (draw_load _ g [TState None []; TState None []] 0 []); [reflexivity|discriminate]|]. cbn.
    etrans; [exact H1|]. eapply rtc_l; [|exact H2].
    apply (draw_store _ g2 [TState (Some (state g)) []; _] 0 (state g) []); [reflexivity|destruct g; exact E].
Qed.
