(* ===== verification/Session.v ===== *)
(** * Shim and controller together

    The shim's side of a connection, [exchange], run against the controller's,
    [handle_client_message], over a stream socket: two queues of bytes without
    message boundaries.  Whatever one side writes is appended to the other's
    queue; a read takes everything that has arrived, up to its count, so frames
    that were written one after the other arrive as one piece.  Both sides are
    the code of Shim.v and Controller.v on machines that behave arbitrarily apart
    from the socket.

    The controller takes a turn, one call of its handler, when bytes have arrived
    for it; the client's read waits for turns of the controller until there is
    something to read, the controller has closed the connection or has nothing
    left to serve; in the last case, where a real read would block for ever, the
    model lets it report the end of the file, which the client takes for a
    refusal. *)
From S2P Require Import Prelude Bytes Sbp Prng ShmLayout Os Shm Env TimeManager Controller ControllerFacts Shim ShimFacts Time TimeFacts.

Definition EPIPE : Z := 32.

(** ** The bytes of a log *)
Definition received (fd : Z) (log : list event) : list Z :=
  flat_map (fun e => match e with (XRead f _, a) => if decide (f = fd) then data a else [] | _ => [] end) log.
Definition sent (fd : Z) (log : list event) : list Z :=
  flat_map (fun e => match e with
                     | (XWrite f b, a) => if decide (f = fd) then take (Z.to_nat (ret a)) b else []
                     | _ => [] end) log.

(** A read of at most [n] of the bytes that have arrived. *)
Definition stream_read (n : Z) (arrived : list Z) : answer :=
  let bytes := take (Z.to_nat n) arrived in Answer (Z.of_nat (length bytes)) 0 bytes.

(** ** The controller's end *)

(** The controller's machine during a turn that begins with [log0] and with
    [arrived] unread: later reads get what earlier ones have left; every write is
    taken whole. *)
Definition controller_end (base : OS) (fd : Z) (log0 : list event) (arrived : list Z) : OS :=
  {| os_answer log x :=
       match x with
       | XRead f n =>
           if decide (f = fd)
           then stream_read n (drop (length (received fd (drop (length log0) log))) arrived)
           else @os_answer base log x
       | XWrite f b => if decide (f = fd) then Answer (Z.of_nat (length b)) 0 [] else @os_answer base log x
       | _ => @os_answer base log x
       end;
     os_interfere := @os_interfere base |}.

(** A connection as the controller sees it: its manager and process, the bytes on
    their way to it and to the client, and whether it is open. *)
Record conn := Conn {
  c_tm : option linbox_time_manager; c_ctl : proc controller;
  c_up : list Z; c_down : list Z; c_open : bool }.

(** One call of the handler; a failing handler closes the connection. *)
Definition turn (base : OS) (fd : Z) (c : conn) : conn :=
  match handle_client_message (os := controller_end base fd (p_log (c_ctl c)) (c_up c)) fd (c_tm c) (c_ctl c) with
  | Ok ((rc, tm), q) =>
      let new := drop (length (p_log (c_ctl c))) (p_log q) in
      Conn tm q (drop (length (received fd new)) (c_up c)) (c_down c ++ sent fd new) (bool_decide (rc = 0))
  | _ => Conn (c_tm c) (c_ctl c) (c_up c) (c_down c) false
  end.

(** The client waits; every turn takes at least one byte. *)
Fixpoint wait (fuel : nat) (base : OS) (fd : Z) (c : conn) : conn :=
  match fuel with
  | O => c
  | S fuel' =>
      if decide (c_down c = [] /\ c_up c <> [] /\ c_open c = true)
      then wait fuel' base fd (turn base fd c) else c
  end.
Definition wait_all (base : OS) (fd : Z) (c : conn) : conn := wait (length (c_up c)) base fd c.

(** ** The client's end *)

(** What a call of the client on its descriptor [sfd] does to the connection, the
    controller's descriptor being [cfd]. *)
Definition conn_step (cbase : OS) (sfd cfd : Z) (c : conn) (e : event) : conn :=
  match e with
  | (XWrite f b, a) =>
      if decide (f = sfd)
      then Conn (c_tm c) (c_ctl c) (c_up c ++ take (Z.to_nat (ret a)) b) (c_down c) (c_open c) else c
  | (XRead f _, a) =>
      if decide (f = sfd)
      then let c' := wait_all cbase cfd c in
           Conn (c_tm c') (c_ctl c') (c_up c') (drop (length (data a)) (c_down c')) (c_open c')
      else c
  | _ => c
  end.
Definition conn_after (cbase : OS) (sfd cfd : Z) (c : conn) (new : list event) : conn :=
  foldl (conn_step cbase sfd cfd) c new.

(** The client's machine: when its log was [log0] the connection was [c]. *)
Definition wired (sbase cbase : OS) (sfd cfd : Z) (log0 : list event) (c : conn) : OS :=
  {| os_answer log x :=
       let now := conn_after cbase sfd cfd c (drop (length log0) log) in
       match x with
       | XRead f n =>
           if decide (f = sfd) then stream_read n (c_down (wait_all cbase cfd now)) else @os_answer sbase log x
       | XWrite f b =>
           if decide (f = sfd)
           then if c_open now then Answer (Z.of_nat (length b)) 0 [] else Answer (-1) EPIPE []
           else @os_answer sbase log x
       | _ => @os_answer sbase log x
       end;
     os_interfere := @os_interfere sbase |}.

(** A client that sends one request after the other, each with [exchange], until
    one is refused. *)
Fixpoint requests {os : OS} (fd : Z) (msgs : list sbp_message) : M shim bool :=
  match msgs with
  | [] => mret true
  | msg :: msgs' => ok ← exchange fd msg ; if (ok : bool) then requests fd msgs' else mret false
  end.

(** ** What a request is, and what a list of requests asks for *)

(** A well-formed request, as its sender encodes it. *)
Definition request (msg : sbp_message) : Prop :=
  message_ok msg /\ m_version msg = SBP_VERSION /\ m_type msg <> SBP_MSG_ACK.

(** [ns] gives the clock reading of each write. *)
Inductive requested : list sbp_message -> linbox_shm_layout -> linbox_shm_layout -> Prop :=
  | requested_nil l : requested [] l l
  | requested_cons msg msgs ns l l' :
      requested msgs (message_region msg ns l) l' -> requested (msg :: msgs) l l'.

(** An open connection on which nothing is under way. *)
Definition quiescent (c : conn) (m : linbox_time_manager) : Prop :=
  c_tm c = Some m /\ c_up c = [] /\ c_down c = [] /\ c_open c = true.

Lemma request_accepted msg : request msg -> accepted (message_bytes msg) = Some msg.
Proof.
  intros (Hm & Hv & Ht). unfold accepted. rewrite decode_message_bytes by assumption. apply decide_True. auto.
Qed.

Lemma request_length msg : Z.of_nat (length (message_bytes msg)) <= SBP_MAX_FRAME_SIZE.
Proof.
  unfold message_bytes. rewrite length_frame_bytes. pose proof (payload_bytes_le16 (m_payload msg)).
  unfold SBP_MAX_FRAME_SIZE, SBP_HEADER_SIZE, SBP_MAX_PAYLOAD. lia.
Qed.

Lemma stream_read_all n bytes : Z.of_nat (length bytes) <= n ->
  stream_read n bytes = Answer (Z.of_nat (length bytes)) 0 bytes.
Proof. intros H. unfold stream_read. rewrite take_ge by lia. reflexivity. Qed.

Lemma silent_events fd mid : Forall (fun e => region_access e.1) mid ->
  received fd mid = [] /\ sent fd mid = [].
Proof.
  intros H. induction H as [|[x a] mid Hx _ [IH1 IH2]]; [split; reflexivity|].
  destruct x; try contradiction; cbn; auto.
Qed.

Lemma drop_log {A} (l l' : list A) : drop (length l) (l ++ l') = l'.
Proof. apply drop_app_length. Qed.

(** One turn on one request. *)
Lemma turn_request base fd msg m c l :
  QuietMemory (os := base) -> c_tm c = Some m -> c_up c = message_bytes msg -> c_down c = [] ->
  request msg -> layout (tm_shm m) <> NULL -> p_mem (c_ctl c) !! layout (tm_shm m) = Some l ->
  length (process_slots l) = Z.to_nat LINBOX_PROCESS_SLOT_COUNT ->
  exists ns q, turn base fd c = Conn (Some (message_manager msg m)) q [] (ack_bytes (m_flags msg)) true /\
    p_st q = p_st (c_ctl c) /\
    p_mem q = <[layout (tm_shm m) := message_region msg ns l]> (p_mem (c_ctl c)).
Proof.
  intros Hquiet Htm Hup Hdown Hreq Hr Hl Hlen. set (p := c_ctl c) in *. unfold turn. fold p. rewrite Htm, Hup, Hdown.
  set (os := controller_end base fd (p_log p) (message_bytes msg)).
  assert (Hq : QuietMemory (os := os)) by exact Hquiet.
  assert (Hd : delivers (os := os) (p_log p) fd (message_bytes msg)).
  { split; [|split; [apply message_bytes_is_byte, Hreq|apply request_length]].
    unfold os. cbn [controller_end os_answer]. rewrite decide_True by reflexivity.
    rewrite drop_all. cbn [received flat_map length]. rewrite drop_0. apply stream_read_all, request_length. }
  destruct (handle_request (os := os) m fd _ msg p l Hr Hl Hlen Hd (request_accepted msg Hreq))
    as (rc & tm & q & Hrun & ns & mid & Hlog & HF & Hrc & -> & Hst & Hmem & _).
  rewrite Hrun. exists ns, q. cbv zeta in Hlog, Hrc. rewrite Hlog, <- app_assoc, drop_log.
  assert (Ha : forall log, os_answer (OS := os) log (XWrite fd (ack_bytes (m_flags msg))) = Answer 8 0 [])
    by (intros log; apply decide_True; reflexivity).
  rewrite Ha in *. cbn [ret] in Hrc. rewrite decide_True in Hrc by reflexivity. subst rc.
  destruct (silent_events fd mid HF) as [Hrec Hsent].
  cbn [received sent flat_map app data ret]. rewrite decide_True by reflexivity.
  unfold received, sent in *. rewrite !flat_map_app, Hrec, Hsent.
  cbn [flat_map app data ret]. rewrite decide_True, !app_nil_r by reflexivity. rewrite drop_all.
  split; [|split; assumption]. f_equal.
Qed.

Lemma message_manager_shm msg m : tm_shm (message_manager msg m) = tm_shm m.
Proof. unfold message_manager. destruct (m_payload msg); reflexivity. Qed.

Lemma message_region_length msg ns l :
  length (process_slots (message_region msg ns l)) = length (process_slots l).
Proof.
  rewrite message_region_slots. unfold message_slots.
  destruct (m_payload msg); [reflexivity..|]. apply register_slots_length.
Qed.

Section Client.
Context (sbase cbase : OS) (sfd cfd : Z) (log0 : list event) (c0 : conn).
Context (Hquiet : QuietMemory (os := cbase)).

Local Abbreviation after new := (conn_after cbase sfd cfd c0 new).
#[local] Instance client_os : OS := wired sbase cbase sfd cfd log0 c0.

(** The client's write and read of one exchange, as its machine answers them. *)
Lemma wired_write new bytes : c_open (after new) = true ->
  os_answer (log0 ++ new) (XWrite sfd bytes) = Answer (Z.of_nat (length bytes)) 0 [].
Proof.
  intros Ho. cbn [os_answer client_os wired]. rewrite decide_True by reflexivity. cbv zeta.
  rewrite drop_log, Ho. reflexivity.
Qed.

Lemma after_write new bytes :
  after (new ++ [(XWrite sfd bytes, Answer (Z.of_nat (length bytes)) 0 [])]) =
  Conn (c_tm (after new)) (c_ctl (after new)) (c_up (after new) ++ bytes) (c_down (after new)) (c_open (after new)).
Proof.
  unfold conn_after. rewrite foldl_app. cbn [foldl conn_step ret]. rewrite decide_True by reflexivity.
  rewrite Nat2Z.id, firstn_all. reflexivity.
Qed.

Lemma wired_read new n :
  os_answer (log0 ++ new) (XRead sfd n) = stream_read n (c_down (wait_all cbase cfd (after new))).
Proof.
  cbn [os_answer client_os wired]. rewrite decide_True by reflexivity. cbv zeta. rewrite drop_log. reflexivity.
Qed.

Lemma after_read_all new n a c :
  wait_all cbase cfd (after new) = c -> data a = c_down c ->
  after (new ++ [(XRead sfd n, a)]) = Conn (c_tm c) (c_ctl c) (c_up c) [] (c_open c).
Proof.
  intros Hc Ha. unfold conn_after. rewrite foldl_app. cbn [foldl conn_step]. rewrite decide_True by reflexivity.
  cbv zeta. unfold conn_after in Hc. rewrite Hc, Ha, drop_all. reflexivity.
Qed.

(** A connection with one request on its way: the client's read waits for one
    turn of the controller. *)
Lemma wait_one c bytes tm q : c_up c = bytes -> bytes <> [] -> c_down c = [] -> c_open c = true ->
  turn cbase cfd c = Conn tm q [] (c_down (turn cbase cfd c)) true -> c_down (turn cbase cfd c) <> [] ->
  wait_all cbase cfd c = turn cbase cfd c.
Proof.
  intros Hup Hne Hdown Ho Ht Hd. unfold wait_all. rewrite Hup. destruct bytes as [|b bytes]; [contradiction|].
  cbn [length wait]. rewrite decide_True by (rewrite Hup; auto).
  destruct (length bytes); cbn [wait]; [reflexivity|]. rewrite decide_False; [reflexivity|]. tauto.
Qed.

(** One exchange. *)
Lemma exchange_request msg m l new (p : proc shim) :
  p_log p = log0 ++ new -> quiescent (after new) m -> request msg -> layout (tm_shm m) <> NULL ->
  p_mem (c_ctl (after new)) !! layout (tm_shm m) = Some l ->
  length (process_slots l) = Z.to_nat LINBOX_PROCESS_SLOT_COUNT ->
  exists e new' ns, exchange sfd msg p = Ok (true, Proc (p_st p) e (p_mem p) (log0 ++ new')) /\
    quiescent (after new') (message_manager msg m) /\
    p_st (c_ctl (after new')) = p_st (c_ctl (after new)) /\
    p_mem (c_ctl (after new')) =
      <[layout (tm_shm m) := message_region msg ns l]> (p_mem (c_ctl (after new))).
Proof.
  intros Hlog (Htm & Hup & Hdown & Ho) Hreq Hr Hl Hlen. pose proof Hreq as ((Hty & Hf & Hp) & _).
  set (w := XWrite sfd (message_bytes msg)). set (aw := Answer (Z.of_nat (length (message_bytes msg))) 0 []).
  pose proof (after_write new (message_bytes msg)) as Hw. fold w aw in Hw. rewrite Hup in Hw. cbn [app] in Hw.
  rewrite Htm, Hdown, Ho in Hw. set (c1 := after (new ++ [(w, aw)])) in Hw.
  assert (Hc1 : c_tm c1 = Some m /\ c_ctl c1 = c_ctl (after new) /\ c_up c1 = message_bytes msg /\
    c_down c1 = [] /\ c_open c1 = true) by (rewrite Hw; auto).
  destruct Hc1 as (E1 & E2 & E3 & E4 & E5). rewrite <- E2 in Hl |- *.
  destruct (turn_request cbase cfd msg m c1 l Hquiet E1 E3 E4 Hreq Hr Hl Hlen) as (ns & q & Ht & Hst & Hmem).
  assert (Hwait : wait_all cbase cfd c1 = turn cbase cfd c1).
  { apply (wait_one c1 (message_bytes msg) (Some (message_manager msg m)) q E3); try assumption;
      [discriminate|rewrite Ht; reflexivity|rewrite Ht; discriminate]. }
  rewrite Ht in Hwait. set (ra := Answer 8 0 (message_bytes (ack_message (m_flags msg)))).
  assert (Hrd : os_answer (log0 ++ (new ++ [(w, aw)])) (XRead sfd SBP_MAX_FRAME_SIZE) = ra).
  { rewrite wired_read. fold c1. rewrite Hwait. apply stream_read_all. discriminate. }
  destruct (exchange_step (os := client_os) sfd msg (m_flags msg) p (proj1 Hreq) Hf) as (e & Hx).
  { rewrite Hlog, wired_write by exact Ho. reflexivity. }
  { rewrite Hlog, wired_write by exact Ho. rewrite <- app_assoc. exact Hrd. }
  rewrite Hlog, wired_write in Hx by exact Ho. rewrite <- !app_assoc in Hx.
  exists e, (new ++ [(w, aw)] ++ [(XRead sfd SBP_MAX_FRAME_SIZE, ra)]), ns. split; [exact Hx|].
  rewrite (app_assoc new). rewrite (after_read_all _ _ ra _ Hwait eq_refl). cbn [c_ctl c_tm c_up c_down c_open].
  split; [repeat split; reflexivity|]. auto.
Qed.

(** Any number of them. *)
Lemma requests_served msgs : forall m l new (p : proc shim),
  p_log p = log0 ++ new -> quiescent (after new) m -> Forall request msgs -> layout (tm_shm m) <> NULL ->
  p_mem (c_ctl (after new)) !! layout (tm_shm m) = Some l ->
  length (process_slots l) = Z.to_nat LINBOX_PROCESS_SLOT_COUNT ->
  exists e new' l', requests sfd msgs p = Ok (true, Proc (p_st p) e (p_mem p) (log0 ++ new')) /\
    quiescent (after new') (foldl (fun m msg => message_manager msg m) m msgs) /\
    p_st (c_ctl (after new')) = p_st (c_ctl (after new)) /\ requested msgs l l' /\
    p_mem (c_ctl (after new')) = <[layout (tm_shm m) := l']> (p_mem (c_ctl (after new))).
Proof.
  induction msgs as [|msg msgs IH]; intros m l new p Hlog Hidle Hreq Hr Hl Hlen.
  - exists (p_errno p), new, l. split; [destruct p; cbn in *; subst; reflexivity|]. split; [exact Hidle|].
    split; [reflexivity|]. split; [constructor|]. rewrite insert_id by exact Hl. reflexivity.
  - inversion Hreq as [|? ? Hmsg Hmsgs]; subst.
    destruct (exchange_request msg m l new p Hlog Hidle Hmsg Hr Hl Hlen) as (e & new1 & ns & Hx & Hidle1 & Hst1 & Hmem1).
    destruct (IH (message_manager msg m) (message_region msg ns l) new1
      (Proc (p_st p) e (p_mem p) (log0 ++ new1))) as (e' & new' & l' & Hxs & Hidle' & Hst' & Hreqd & Hmem').
    + reflexivity.
    + exact Hidle1.
    + exact Hmsgs.
    + rewrite message_manager_shm. exact Hr.
    + rewrite message_manager_shm, Hmem1. apply lookup_insert_eq.
    + rewrite message_region_length. exact Hlen.
    + exists e', new', l'. cbn [requests foldl]. rewrite M_bind_eq, Hx.
      split; [exact Hxs|]. split; [exact Hidle'|]. split; [congruence|].
      split; [econstructor; exact Hreqd|]. rewrite Hmem', Hmem1, message_manager_shm. apply insert_insert_eq.
Qed.
End Client.

(** The clock a list of requests asks for. *)
Definition requested_clock (msgs : list sbp_message) (v : vclock) : vclock :=
  foldl (fun v msg => message_clock msg v) v msgs.

Lemma requested_represents msgs l l' : requested msgs l l' -> forall m v, represents m l v ->
  represents (foldl (fun m msg => message_manager msg m) m msgs) l' (requested_clock msgs v).
Proof.
  intros H. induction H as [|msg msgs ns l l' _ IH]; intros m v Hv; [exact Hv|].
  cbn [foldl requested_clock]. apply IH, message_region_represents, Hv.
Qed.

(** C21: the two ends of a connection agree. Whatever well-formed requests a
    client sends, one after the other over one stream connection, the
    controller's code understands the bytes the client's code wrote, and the
    client's code takes what it reads back, all that has arrived, for success
    every time; afterwards no byte is left over in either direction. In the
    controller nothing has changed but the region and the manager, and the
    region is the old one changed by exactly the effects of the requests, in
    their order; a process attached to it reads the clock the requests ask for.
    *)
Theorem request_takes_effect (sbase cbase : OS) (sfd cfd : Z) (msgs : list sbp_message)
    (m : linbox_time_manager) (c : conn) (l : linbox_shm_layout) (v : vclock) (p : proc shim)
    (Hquiet : QuietMemory (os := cbase)) (Hidle : quiescent c m)
    (Hl : p_mem (c_ctl c) !! layout (tm_shm m) = Some l)
    (Hv : represents m l v) (Hlen : length (process_slots l) = Z.to_nat LINBOX_PROCESS_SLOT_COUNT)
    (Hreq : Forall request msgs) :
  exists q new m' l',
    requests (os := wired sbase cbase sfd cfd (p_log p) c) sfd msgs p = Ok (true, q) /\
    p_st q = p_st p /\ p_mem q = p_mem p /\ p_log q = p_log p ++ new /\
    let c' := conn_after cbase sfd cfd c new in
    quiescent c' m' /\ tm_shm m' = tm_shm m /\ p_st (c_ctl c') = p_st (c_ctl c) /\
    p_mem (c_ctl c') = <[layout (tm_shm m) := l']> (p_mem (c_ctl c)) /\
    requested msgs l l' /\ represents m' l' (requested_clock msgs v) /\
    forall (os : OS) (raw : RawSyscall) (fuel : nat) (r : proc shim), QuietMemory ->
      initialized (lb (p_st r)) = true -> controller_connected (lb (p_st r)) = true ->
      layout (shm (lb (p_st r))) <> NULL -> p_mem r !! layout (shm (lb (p_st r))) = Some l' ->
      exists log, linbox_virtual_now (S fuel) r =
        Ok ((0, Some (v_now (requested_clock msgs v))), Proc (p_st r) (p_errno r) (p_mem r) log).
Proof.
  destruct (requests_served sbase cbase sfd cfd (p_log p) c Hquiet msgs m l [] p)
    as (e & new & l' & Hx & Hidle' & Hst & Hreqd & Hmem);
    [symmetry; apply app_nil_r|exact Hidle|exact Hreq|apply Hv|exact Hl|exact Hlen|].
  pose proof (requested_represents msgs l l' Hreqd m v Hv) as Hrep.
  eexists _, new, _, l'. split; [exact Hx|]. do 3 (split; [reflexivity|]). cbv zeta.
  split; [exact Hidle'|]. split.
  { clear. revert m. induction msgs as [|msg msgs IH]; intros m; [reflexivity|].
    cbn [foldl]. rewrite IH. apply message_manager_shm. }
  split; [exact Hst|]. split; [exact Hmem|]. split; [exact Hreqd|]. split; [exact Hrep|].
  intros os2 raw fuel r Hq Hi Hc Hn Hr. apply virtual_now_serving. split; [exact Hi|].
  split; [exact Hc|]. split; [exact Hn|]. exists l'. destruct Hrep as (_ & _ & _ & Ht & _ & _ & He). auto.
Qed.
