(* ===== verification/Random.v ===== *)
(** * The random functions and the virtual random devices

    Models src/shim/random.c.  Bytes stored at a buffer are returned beside the
    result. *)
From S2P Require Import Prelude Bytes Prng ShmLayout Os Shm Shim.

Definition RAND_MAX : Z := 2147483647.

Section Random.
Context {os : OS} {raw : RawSyscall}.

Definition linbox_is_random_path (path : option string) : bool :=
  match path with
  | None => false
  | Some p => bool_decide (p = "/dev/urandom" \/ p = "/dev/random")
  end.

(** The [for] loops over [g_virtual_fds], from index [i] on. *)
Fixpoint find_free (i : nat) (fds : list linbox_virtual_fd) : option nat :=
  match fds with
  | [] => None
  | v :: fds' => if decide (vfd_used v = 0) then Some i else find_free (i + 1) fds'
  end.

Fixpoint find_fd (i : nat) (fd : Z) (fds : list linbox_virtual_fd) : option nat :=
  match fds with
  | [] => None
  | v :: fds' => if decide (vfd_used v <> 0 /\ vfd_fd v = fd) then Some i else find_fd (i + 1) fd fds'
  end.

Definition linbox_allocate_virtual_fd : MS Z :=
  s ← get_st ;
  match find_free 0 (g_virtual_fds s) with
  | Some i =>
      let fd := i32 (LINBOX_VIRTUAL_FD_BASE + Z.of_nat i) in
      modify_st (set_virtual_fds (<[i := VirtualFd fd 1]> (g_virtual_fds s))) ;;
      mret fd
  | None => set_errno EMFILE ;; mret (-1)
  end.

Definition linbox_is_virtual_fd (fd : Z) : MS bool :=
  s ← get_st ;
  mret (bool_decide (find_fd 0 fd (g_virtual_fds s) <> None)).

Definition linbox_release_virtual_fd (fd : Z) : MS unit :=
  s ← get_st ;
  match find_fd 0 fd (g_virtual_fds s) with
  | Some i => modify_st (set_virtual_fds (<[i := VirtualFd (-1) 0]> (g_virtual_fds s)))
  | None => mret tt
  end.

Definition srand (seed : Z) : MS unit :=
  linbox_random_reseed seed ;; modify_st (set_rand_seeded 1).
Definition srandom (seed : Z) : MS unit :=
  linbox_random_reseed seed ;; modify_st (set_rand_seeded 1).

Definition linbox_seed_rand_once : MS unit :=
  s ← get_st ;
  if decide (g_rand_seeded s = 0) then
    seed ← linbox_prng_seed_value ;
    srand (u32 seed) ;;
    seed ← linbox_prng_seed_value ;
    srandom (u32 seed) ;;
    modify_st (set_rand_seeded 1)
  else mret tt.

Definition linbox_virtual_getrandom (buf buflen flags : Z) : MS (Z * list Z) :=
  linbox_random_fill buf buflen.
Definition getrandom := linbox_virtual_getrandom.

Definition getentropy (buf buflen : Z) : MS (Z * list Z) :=
  if decide (buflen > 256) then set_errno EIO ;; mret (-1, [])
  else
    '(n, bytes) ← linbox_random_fill buf buflen ;
    mret (if decide (n >= 0) then 0 else -1, bytes).

Definition arc4random : MS Z := linbox_random_u32.
Definition arc4random_buf (buf nbytes : Z) : MS (list Z) :=
  '(_, bytes) ← linbox_random_fill buf nbytes ; mret bytes.
Definition arc4random_uniform (fuel : nat) (upper_bound : Z) : MS Z :=
  linbox_random_uniform fuel upper_bound.

Definition rand : MS Z :=
  linbox_seed_rand_once ;;
  v ← linbox_random_u32 ;
  mret (Z.land v RAND_MAX).

Definition random : MS Z :=
  linbox_seed_rand_once ;;
  v ← linbox_random_u32 ;
  mret (Z.land v 0x7FFFFFFF).

(** [rand_r]: the result and the new value of the caller's seed. *)
Definition rand_r (seedp : option Z) : MS (Z * option Z) :=
  match seedp with
  | None => set_errno EINVAL ;; mret (-1, None)
  | Some seed =>
      match linbox_prng_seed (Some (LinboxPrng 0)) seed with
      | None => undef
      | Some g =>
          let '(_, next) := linbox_prng_next_u32 g in
          mret (Z.land next RAND_MAX, Some next)
      end
  end.

(** [open] has a variadic mode, which is not read: 0 is passed on. *)
Definition open_ (path : option string) (flags : Z) : MS Z :=
  if linbox_is_random_path path then linbox_allocate_virtual_fd
  else
    ok ← LINBOX_RESOLVE_NEXT "open" ;
    if (ok : bool)
    then a ← call_real "open" (XReal "open" [flags; 0] path) ; mret (ret a)
    else mret (-1).

Definition openat (dirfd : Z) (path : option string) (flags : Z) : MS Z :=
  if linbox_is_random_path path then linbox_allocate_virtual_fd
  else
    ok ← LINBOX_RESOLVE_NEXT "openat" ;
    if (ok : bool)
    then a ← call_real "openat" (XReal "openat" [dirfd; flags; 0] path) ; mret (ret a)
    else mret (-1).

Definition read (fd buf count : Z) : MS (Z * list Z) :=
  virtual ← linbox_is_virtual_fd fd ;
  if (virtual : bool) then linbox_random_fill buf count
  else
    ok ← LINBOX_RESOLVE_NEXT "read" ;
    if (ok : bool)
    then a ← call_real "read" (XRead fd count) ; mret (ret a, data a)
    else mret (-1, []).

Definition close (fd : Z) : MS Z :=
  virtual ← linbox_is_virtual_fd fd ;
  if (virtual : bool) then linbox_release_virtual_fd fd ;; mret 0
  else
    ok ← LINBOX_RESOLVE_NEXT "close" ;
    if (ok : bool) then a ← call_real "close" (XClose fd) ; mret (ret a)
    else mret (-1).
End Random.
