(* ===== verification/RandomFacts.v ===== *)
(** * The random functions and devices

    Theorems about Random.v: the table of virtual descriptors, and the sequences
    [rand] returns. *)
From S2P Require Import Prelude Bytes Bits Prng ShmLayout Os Shm Shim ShimFacts Random.

(** ** Virtual descriptors *)

(** Entry [i] in use stands for descriptor 1000000 + [i]. *)
Definition table_valid (fds : list linbox_virtual_fd) : Prop :=
  length fds = LINBOX_VIRTUAL_FD_COUNT /\
  forall i v, fds !! i = Some v -> vfd_used v <> 0 -> vfd_fd v = LINBOX_VIRTUAL_FD_BASE + Z.of_nat i.

Definition is_virtual (fd : Z) (fds : list linbox_virtual_fd) : Prop :=
  exists i v, fds !! i = Some v /\ vfd_used v <> 0 /\ vfd_fd v = fd.

Definition all_used (fds : list linbox_virtual_fd) : Prop := Forall (fun v => vfd_used v <> 0) fds.

Lemma find_free_spec fds : forall i,
  match find_free i fds with
  | Some k => exists j v, k = (i + j)%nat /\ fds !! j = Some v /\ vfd_used v = 0
  | None => all_used fds
  end.
Proof.
  induction fds as [|v fds IH]; intros i; cbn [find_free]; [constructor|].
  destruct (decide (vfd_used v = 0)) as [H|H].
  - exists 0%nat, v. auto with lia.
  - specialize (IH (i + 1)%nat). destruct (find_free (i + 1) fds).
    + destruct IH as (j & w & -> & Hj & Hw). exists (S j), w. split; [lia|]. auto.
    + constructor; assumption.
Qed.

Lemma find_fd_spec fd fds : forall i,
  match find_fd i fd fds with
  | Some k => exists j v, k = (i + j)%nat /\ fds !! j = Some v /\ vfd_used v <> 0 /\ vfd_fd v = fd
  | None => ~ is_virtual fd fds
  end.
Proof.
  induction fds as [|v fds IH]; intros i; cbn [find_fd].
  - intros (j & v & Hj & _). discriminate.
  - destruct (decide (vfd_used v <> 0 /\ vfd_fd v = fd)) as [[H1 H2]|H].
    + exists 0%nat, v. auto with lia.
    + specialize (IH (i + 1)%nat). destruct (find_fd (i + 1) fd fds).
      * destruct IH as (j & w & -> & Hj & Hw). exists (S j), w. split; [lia|]. auto.
      * intros ([|j] & w & Hj & Hw); [injection Hj as <-; tauto|]. apply IH. exists j, w. auto.
Qed.

Lemma table_index fds i j v w : table_valid fds -> fds !! i = Some v -> fds !! j = Some w ->
  vfd_used v <> 0 -> vfd_used w <> 0 -> vfd_fd v = vfd_fd w -> i = j.
Proof. intros [_ Ht] Hi Hj Hv Hw He. pose proof (Ht _ _ Hi Hv). pose proof (Ht _ _ Hj Hw). lia. Qed.

Section Devices.
Context {os : OS} {raw : RawSyscall}.

Lemma open_device (path : string) (flags : Z) (p : proc shim)
    (Hpath : path = "/dev/urandom" \/ path = "/dev/random") (Ht : table_valid (g_virtual_fds (p_st p))) :
  (all_used (g_virtual_fds (p_st p)) /\
     open_ (Some path) flags p = Ok (-1, Proc (p_st p) EMFILE (p_mem p) (p_log p))) \/
  (exists fd q, open_ (Some path) flags p = Ok (fd, q) /\
     ~ is_virtual fd (g_virtual_fds (p_st p)) /\
     LINBOX_VIRTUAL_FD_BASE <= fd < LINBOX_VIRTUAL_FD_BASE + 16 /\
     table_valid (g_virtual_fds (p_st q)) /\
     q = Proc (set_virtual_fds (g_virtual_fds (p_st q)) (p_st p)) (p_errno p) (p_mem p) (p_log p) /\
     forall x, is_virtual x (g_virtual_fds (p_st q)) <-> x = fd \/ is_virtual x (g_virtual_fds (p_st p))).
Proof.
  unfold open_, linbox_is_random_path. rewrite bool_decide_eq_true_2 by exact Hpath.
  unfold linbox_allocate_virtual_fd. rewrite M_bind_eq. cbn [get_st].
  set (fds := g_virtual_fds (p_st p)) in *. pose proof (find_free_spec fds 0) as Hf.
  destruct (find_free 0 fds) as [k|]; [right|left; split; [exact Hf|reflexivity]].
  destruct Hf as (j & v & -> & Hj & Hv). cbn [Nat.add]. cbv zeta.
  destruct Ht as [Hlen Ht]. pose proof (lookup_lt_Some _ _ _ Hj) as Hlt. rewrite Hlen in Hlt.
  unfold LINBOX_VIRTUAL_FD_COUNT in *. unfold LINBOX_VIRTUAL_FD_BASE in *.
  rewrite sext_small by (unfold in_s; lia).
  exists (1000000 + Z.of_nat j). eexists. split; [reflexivity|]. cbn [p_st p_log g_virtual_fds set_virtual_fds].
  split; [intros (i & w & Hi & Hu & Hfd); pose proof (Ht _ _ Hi Hu); assert (i = j) as -> by lia; congruence|].
  split; [lia|]. split; [split; [rewrite length_insert; exact Hlen|]|split; [reflexivity|]].
  - intros i w. rewrite list_lookup_insert. case_decide as Hd; [intros [= <-] _; destruct Hd as [-> _]; reflexivity|apply Ht].
  - intros x. split.
    + intros (i & w & Hi & Hu & Hfd). rewrite list_lookup_insert in Hi. case_decide as Hd.
      * injection Hi as <-. left. symmetry. exact Hfd.
      * right. exists i, w. auto.
    + intros [->|(i & w & Hi & Hu & Hfd)].
      * exists j, (VirtualFd (1000000 + Z.of_nat j) 1). split; [apply list_lookup_insert_eq; lia|]. split; [discriminate|reflexivity].
      * exists i, w. split; [|auto]. rewrite list_lookup_insert_ne; [exact Hi|]. intros ->. congruence.
Qed.

(** Opening a random device: either all sixteen virtual descriptors are in use,
    and [open] fails with [EMFILE], changing nothing; or it returns a descriptor
    that was not in use, in the virtual range, marks exactly that one in use,
    and touches nothing else; the table stays sound. *)
Theorem open_random_device (path : string) (flags : Z) (p : proc shim)
    (Hpath : path = "/dev/urandom" \/ path = "/dev/random") (Ht : table_valid (g_virtual_fds (p_st p))) :
  (all_used (g_virtual_fds (p_st p)) /\
     open_ (Some path) flags p = Ok (-1, Proc (p_st p) EMFILE (p_mem p) (p_log p))) \/
  (exists fd q, open_ (Some path) flags p = Ok (fd, q) /\
     ~ is_virtual fd (g_virtual_fds (p_st p)) /\
     LINBOX_VIRTUAL_FD_BASE <= fd < LINBOX_VIRTUAL_FD_BASE + 16 /\
     table_valid (g_virtual_fds (p_st q)) /\
     q = Proc (set_virtual_fds (g_virtual_fds (p_st q)) (p_st p)) (p_errno p) (p_mem p) (p_log p) /\
     forall x, is_virtual x (g_virtual_fds (p_st q)) <-> x = fd \/ is_virtual x (g_virtual_fds (p_st p))).
Proof. exact (open_device path flags p Hpath Ht). Qed.

Lemma close_virtual (fd : Z) (p : proc shim) : table_valid (g_virtual_fds (p_st p)) ->
  is_virtual fd (g_virtual_fds (p_st p)) -> exists q, close fd p = Ok (0, q) /\
     table_valid (g_virtual_fds (p_st q)) /\
     q = Proc (set_virtual_fds (g_virtual_fds (p_st q)) (p_st p)) (p_errno p) (p_mem p) (p_log p) /\
     forall x, is_virtual x (g_virtual_fds (p_st q)) <-> x <> fd /\ is_virtual x (g_virtual_fds (p_st p)).
Proof.
  intros Ht Hvirt. unfold close, linbox_is_virtual_fd. rewrite !M_bind_eq. cbn [get_st].
  set (fds := g_virtual_fds (p_st p)) in *. pose proof (find_fd_spec fd fds 0) as Hf.
  destruct (find_fd 0 fd fds) as [k|] eqn:Efd; [|contradiction].
  destruct Hf as (j & v & -> & Hj & Hv & Hfd). cbn [Nat.add] in *.
  rewrite bool_decide_eq_true_2 by discriminate. unfold mret at 1, M_ret at 1.
  rewrite M_bind_eq. unfold linbox_release_virtual_fd. rewrite M_bind_eq. cbn [get_st]. fold fds. rewrite Efd.
  eexists. split; [reflexivity|]. cbn [p_st p_log g_virtual_fds set_virtual_fds].
  pose proof Ht as [Hlen Htab]. split; [split; [rewrite length_insert; exact Hlen|]|split; [reflexivity|]].
  - intros i w. rewrite list_lookup_insert. case_decide as Hd; [intros [= <-] Hu; cbn in Hu; lia|apply Htab].
  - intros x. split.
    + intros (i & w & Hi & Hu & Hx). rewrite list_lookup_insert in Hi. case_decide as Hd; [injection Hi as <-; cbn in Hu; lia|].
      split; [|exists i, w; auto]. intros ->. apply Hd.
      split; [|exact (lookup_lt_Some _ _ _ Hj)]. apply (table_index fds j i v w Ht Hj Hi); congruence.
    + intros [Hne (i & w & Hi & Hu & Hx)]. exists i, w. split; [|auto].
      rewrite list_lookup_insert_ne; [exact Hi|]. intros ->. congruence.
Qed.

(** Closing: a virtual descriptor is released, and only that one, without any
    call to libc; any other descriptor is passed to libc's [close], whose result
    is returned. *)
Theorem close_descriptor (fd : Z) (p : proc shim) (Ht : table_valid (g_virtual_fds (p_st p)))
    (Hr : real_ptr (p_st p) "close" <> NULL) :
  (is_virtual fd (g_virtual_fds (p_st p)) /\ exists q, close fd p = Ok (0, q) /\
     table_valid (g_virtual_fds (p_st q)) /\
     q = Proc (set_virtual_fds (g_virtual_fds (p_st q)) (p_st p)) (p_errno p) (p_mem p) (p_log p) /\
     forall x, is_virtual x (g_virtual_fds (p_st q)) <-> x <> fd /\ is_virtual x (g_virtual_fds (p_st p))) \/
  (~ is_virtual fd (g_virtual_fds (p_st p)) /\ exists q,
     let a := os_answer (p_log p) (XClose fd) in
     close fd p = Ok (ret a, q) /\ p_st q = p_st p /\ p_log q = p_log p ++ [(XClose fd, a)]).
Proof.
  pose proof (find_fd_spec fd (g_virtual_fds (p_st p)) 0) as Hf.
  destruct (find_fd 0 fd (g_virtual_fds (p_st p))) as [k|] eqn:Efd; [left|right; split; [exact Hf|]].
  - destruct Hf as (j & v & _ & Hj & Hv). assert (is_virtual fd (g_virtual_fds (p_st p))) by (exists j, v; auto).
    split; [assumption|]. apply close_virtual; assumption.
  - unfold close, linbox_is_virtual_fd. rewrite !M_bind_eq. cbn [get_st]. rewrite Efd.
    rewrite bool_decide_eq_false_2 by (intros H; apply H; reflexivity). unfold mret at 1, M_ret at 1.
    unfold LINBOX_RESOLVE_NEXT, call_real. rewrite !M_bind_eq. cbn [get_st]. rewrite decide_True by exact Hr.
    unfold mret at 1, M_ret at 1. rewrite !M_bind_eq. cbn [get_st]. rewrite decide_False by exact Hr.
    eexists. cbv zeta. split; [reflexivity|]. auto.
Qed.

(** Reading a virtual descriptor draws from the shim's generator. *)
Lemma read_virtual fd buf len (p : proc shim) : is_virtual fd (g_virtual_fds (p_st p)) ->
  read fd buf len p = linbox_random_fill buf len p.
Proof.
  intros Hv. unfold read, linbox_is_virtual_fd. rewrite !M_bind_eq. cbn [get_st].
  pose proof (find_fd_spec fd (g_virtual_fds (p_st p)) 0) as Hfd.
  destruct (find_fd 0 fd (g_virtual_fds (p_st p))); [|contradiction].
  rewrite bool_decide_eq_true_2 by discriminate. reflexivity.
Qed.
(** Reading any other descriptor is libc's [read], and nothing else. *)
Theorem read_descriptor fd buf count (p : proc shim) : ~ is_virtual fd (g_virtual_fds (p_st p)) ->
  real_ptr (p_st p) "read" <> NULL ->
  read fd buf count p = (a ← callA (XRead fd count) ; mret (ret a, data a)) p.
Proof.
  intros Hv Hr. unfold read, linbox_is_virtual_fd. rewrite M_bind_eq, M_bind_eq. cbn [get_st].
  pose proof (find_fd_spec fd (g_virtual_fds (p_st p)) 0) as Hfd.
  destruct (find_fd 0 fd (g_virtual_fds (p_st p))) as [k|].
  { destruct Hfd as (j & v & _ & Hj). exfalso. apply Hv. exists j, v. exact Hj. }
  rewrite bool_decide_eq_false_2 by (intros H; apply H; reflexivity). unfold mret at 1, M_ret at 1.
  unfold LINBOX_RESOLVE_NEXT, call_real. rewrite !M_bind_eq. cbn [get_st]. rewrite decide_True by exact Hr.
  unfold mret at 1, M_ret at 1. rewrite !M_bind_eq. cbn [get_st]. rewrite decide_False by exact Hr. reflexivity.
Qed.
End Devices.

(** ** One stream for all random functions *)
Inductive draw : Type :=
  | DRand
  | DRandom
  | DArc4random
  | DArc4randomBuf (buf len : Z)
  | DGetrandom (buf len flags : Z)
  | DGetentropy (buf len : Z)
  | DRead (fd buf len : Z).

(** The value returned and the bytes stored. *)
Abbreviation drawn := (Z * list Z)%type.

Section Draws.
Context {os : OS} {raw : RawSyscall}.

Definition run_draw (d : draw) : MS drawn :=
  match d with
  | DRand => v ← rand ; mret (v, [])
  | DRandom => v ← random ; mret (v, [])
  | DArc4random => v ← arc4random ; mret (v, [])
  | DArc4randomBuf buf len => bytes ← arc4random_buf buf len ; mret (0, bytes)
  | DGetrandom buf len flags => getrandom buf len flags
  | DGetentropy buf len => getentropy buf len
  | DRead fd buf len => read fd buf len
  end.

Fixpoint run_draws (ds : list draw) : MS (list drawn) :=
  match ds with
  | [] => mret []
  | d :: ds' => r ← run_draw d ; rs ← run_draws ds' ; mret (r :: rs)
  end.
End Draws.

(** What a draw returns, and the words it takes from the generator. *)
Definition draw_words (d : draw) : nat :=
  match d with
  | DRand | DRandom | DArc4random => 1
  | DArc4randomBuf _ len | DGetrandom _ len _ | DRead _ _ len => words_for (Z.to_nat len)
  | DGetentropy _ len => if decide (len > 256) then 0 else words_for (Z.to_nat len)
  end.

Definition draw_result (d : draw) (g : linbox_prng) : drawn :=
  let word := u32 (linbox_prng_next_u64 g).2 in
  match d with
  | DRand | DRandom => (word mod 2 ^ 31, [])
  | DArc4random => (word, [])
  | DArc4randomBuf _ len => (0, prng_bytes (Z.to_nat len) g)
  | DGetrandom _ len _ | DRead _ _ len => (len, prng_bytes (Z.to_nat len) g)
  | DGetentropy _ len =>
      if decide (len > 256) then (-1, []) else (0, prng_bytes (Z.to_nat len) g)
  end.

Fixpoint draw_results (ds : list draw) (g : linbox_prng) : list drawn :=
  match ds with
  | [] => []
  | d :: ds' => draw_result d g :: draw_results ds' (prng_words (draw_words d) g).2
  end.

(** The generator after them. *)
Definition draws_state (ds : list draw) (g : linbox_prng) : linbox_prng :=
  foldl (fun g d => (prng_words (draw_words d) g).2) g ds.

(** Buffers exist, and reads are from an open random device. *)
Definition draw_ok (fds : list linbox_virtual_fd) (d : draw) : Prop :=
  match d with
  | DRand | DRandom | DArc4random => True
  | DArc4randomBuf buf len | DGetrandom buf len _ | DGetentropy buf len =>
      buf <> NULL /\ 0 <= len < 2 ^ 63
  | DRead fd buf len => is_virtual fd fds /\ buf <> NULL /\ 0 <= len < 2 ^ 63
  end.

Lemma stream_u32 g : le_val (prng_bytes 4 g) = u32 (linbox_prng_next_u64 g).2.
Proof.
  unfold prng_bytes. change (words_for 4) with 1%nat. cbn [prng_words]. destruct (linbox_prng_next_u64 g) as [g' w].
  cbn [fst snd fmap list_fmap mjoin list_join app]. rewrite app_nil_r, (take_le_bytes 4 4), le_val_bytes_mod. reflexivity.
Qed.

Lemma land_RAND_MAX v : Z.land v RAND_MAX = v mod 2 ^ 31.
Proof. apply (Z.land_ones v 31). lia. Qed.

Section SharedStream.
Context {os : OS} {Hquiet : QuietMemory} {raw : RawSyscall}.

(** A process that has been initialised: its descriptors and its generator. *)
Record drawing (p : proc shim) (fds : list linbox_virtual_fd) (g : linbox_prng) : Prop := {
  st_initialized : initialized (lb (p_st p)) = true;
  st_attached : attached (p_st p) (p_mem p);
  st_fds : g_virtual_fds (p_st p) = fds;
  st_prng : prng (lb (p_st p)) = g;
  st_ok : prng_ok g }.

(** One whose [rand] is seeded besides. *)
Record streaming (p : proc shim) (fds : list linbox_virtual_fd) (g : linbox_prng) : Prop := {
  st_drawing : drawing p fds g;
  st_rand : g_rand_seeded (p_st p) <> 0 }.

Lemma drawing_fill p fds g buf len : drawing p fds g -> buf <> NULL -> 0 <= len < 2 ^ 63 ->
  exists q, linbox_random_fill buf len p = Ok ((len, prng_bytes (Z.to_nat len) g), q) /\
    drawing q fds (prng_words (words_for (Z.to_nat len)) g).2 /\
    p_mem q = p_mem p /\ controller_connected (lb (p_st q)) = controller_connected (lb (p_st p)) /\
    shm (lb (p_st q)) = shm (lb (p_st p)) /\ resolving (lb (p_st q)) = resolving (lb (p_st p)) /\
    g_rand_seeded (p_st q) = g_rand_seeded (p_st p).
Proof.
  intros [Hi Ha Hf Hg Hok] Hbuf Hlen.
  destruct (fill_stream_eq buf len p Hi Ha) as (q & Hq & Hk); [rewrite Hg; apply Hok|exact Hbuf|exact Hlen|].
  destruct Hk as (Kg & Km & Ki & Kc & Ks & Kres & _ & Kf & Kr). rewrite Hg in Hq, Kg. exists q. split; [exact Hq|].
  split; [|auto]. constructor; try congruence; [|apply prng_words_ok, Hok].
  unfold attached. rewrite Kc, Ks, Km. exact Ha.
Qed.

Lemma drawing_u32 p fds g : drawing p fds g ->
  exists q, linbox_random_u32 p = Ok (u32 (linbox_prng_next_u64 g).2, q) /\
    drawing q fds (prng_words 1 g).2 /\ g_rand_seeded (p_st q) = g_rand_seeded (p_st p).
Proof.
  intros Hp. destruct (drawing_fill p fds g OBJECT 4 Hp) as (q & Hq & Hd & _ & _ & _ & _ & Hr); [discriminate|lia|].
  exists q. split; [|auto]. unfold linbox_random_u32. rewrite M_bind_eq, Hq.
  change (Z.to_nat 4) with 4%nat. rewrite stream_u32. reflexivity.
Qed.

Lemma drawing_uniform p fds g g' fuel ub v : drawing p fds g -> prng_ok g' ->
  linbox_prng_uniform fuel g ub = Ok (g', v) ->
  exists q, linbox_random_uniform fuel ub p = Ok (v, q) /\ drawing q fds g'.
Proof.
  intros [Hi Ha Hf Hg Hok] Hok' Hu. unfold linbox_random_uniform.
  destruct (reseed_if_needed_eq p Hi Ha) as (s' & e & log & Hr & Hsame); [rewrite Hg; apply Hok|].
  destruct (same_but_seeds_fields _ _ Hsame) as (Hp & Hi' & Hc' & _ & Hshm).
  destruct Hsame as (_ & _ & Hv & _). rewrite M_bind_eq, Hr, M_bind_eq, state_get_eq. cbn [p_st].
  rewrite Hp, Hg, M_bind_eq. unfold lift. rewrite Hu, M_bind_eq, update_eq. eexists. split; [reflexivity|].
  constructor; cbn [p_st p_mem on_lb lb set_prng prng initialized g_virtual_fds]; try congruence.
  unfold attached in *. cbn [p_st on_lb lb set_prng controller_connected shm]. rewrite Hc', Hshm. exact Ha.
Qed.

(** Opening and closing virtual devices leaves the stream alone. *)
Lemma drawing_set_fds (p : proc shim) fds fds' g e log : drawing p fds g ->
  drawing (Proc (set_virtual_fds fds' (p_st p)) e (p_mem p) log) fds' g.
Proof. intros []. constructor; try assumption. reflexivity. Qed.

Lemma streaming_fill p fds g buf len : streaming p fds g -> buf <> NULL -> 0 <= len < 2 ^ 63 ->
  exists q, linbox_random_fill buf len p = Ok ((len, prng_bytes (Z.to_nat len) g), q) /\
    streaming q fds (prng_words (words_for (Z.to_nat len)) g).2.
Proof.
  intros [Hd Hr] Hbuf Hlen. destruct (drawing_fill p fds g buf len Hd Hbuf Hlen) as (q & Hq & Hdq & _ & _ & _ & _ & Kr).
  exists q. split; [exact Hq|]. split; [exact Hdq|congruence].
Qed.

Lemma streaming_u32 p fds g : streaming p fds g ->
  exists q, linbox_random_u32 p = Ok (u32 (linbox_prng_next_u64 g).2, q) /\
    streaming q fds (prng_words 1 g).2.
Proof.
  intros [Hd Hr]. destruct (drawing_u32 p fds g Hd) as (q & Hq & Hdq & Kr).
  exists q. split; [exact Hq|]. split; [exact Hdq|congruence].
Qed.

Lemma seed_rand_once_done p fds g : streaming p fds g -> linbox_seed_rand_once p = Ok (tt, p).
Proof.
  intros Hp. unfold linbox_seed_rand_once. rewrite M_bind_eq. cbn [get_st].
  rewrite decide_False by apply (st_rand _ _ _ Hp). reflexivity.
Qed.

Lemma draw_eq d p fds g : streaming p fds g -> draw_ok fds d ->
  exists q, run_draw d p = Ok (draw_result d g, q) /\ streaming q fds (prng_words (draw_words d) g).2.
Proof.
  intros Hp Hd. destruct d as [| | |buf len|buf len flags|buf len|fd buf len]; cbn [run_draw draw_result draw_words].
  - destruct (streaming_u32 p fds g Hp) as (q & Hq & Hs). exists q. split; [|exact Hs].
    unfold rand. rewrite !M_bind_eq, (seed_rand_once_done p fds g Hp), M_bind_eq, Hq, land_RAND_MAX. reflexivity.
  - destruct (streaming_u32 p fds g Hp) as (q & Hq & Hs). exists q. split; [|exact Hs].
    unfold random. rewrite !M_bind_eq, (seed_rand_once_done p fds g Hp), M_bind_eq, Hq, (land_RAND_MAX _). reflexivity.
  - destruct (streaming_u32 p fds g Hp) as (q & Hq & Hs). exists q. split; [|exact Hs].
    unfold arc4random. rewrite M_bind_eq, Hq. reflexivity.
  - destruct Hd. destruct (streaming_fill p fds g buf len) as (q & Hq & Hs); try assumption. exists q. split; [|exact Hs].
    unfold arc4random_buf. rewrite !M_bind_eq, Hq. reflexivity.
  - destruct Hd. destruct (streaming_fill p fds g buf len) as (q & Hq & Hs); try assumption. eauto.
  - unfold getentropy. destruct (decide (len > 256)).
    + eexists. split; [reflexivity|]. destruct Hp as [[] ?]. split; [constructor|]; assumption.
    + destruct Hd. destruct (streaming_fill p fds g buf len) as (q & Hq & Hs); try assumption. exists q. split; [|exact Hs].
      rewrite M_bind_eq, Hq, decide_True by lia. reflexivity.
  - destruct Hd as (Hv & Hb & Hl). destruct (streaming_fill p fds g buf len) as (q & Hq & Hs); try assumption.
    exists q. split; [|exact Hs]. rewrite <- Hq. apply read_virtual.
    rewrite (st_fds _ _ _ (st_drawing _ _ _ Hp)). exact Hv.
Qed.

Lemma draws_run ds : forall p fds g, streaming p fds g -> Forall (draw_ok fds) ds ->
  exists q, run_draws ds p = Ok (draw_results ds g, q) /\ streaming q fds (draws_state ds g).
Proof.
  induction ds as [|d ds IH]; intros p fds g Hp Hd; [exists p; split; [reflexivity|exact Hp]|].
  apply Forall_cons in Hd as [Hd Hds]. destruct (draw_eq d p fds g Hp Hd) as (q & Hq & Hs).
  destruct (IH q fds _ Hs Hds) as (q' & Hq' & Hs'). exists q'. split; [|exact Hs'].
  cbn [run_draws draw_results]. rewrite M_bind_eq, Hq, M_bind_eq, Hq'. reflexivity.
Qed.

Lemma draws_eq ds p fds g : streaming p fds g -> Forall (draw_ok fds) ds ->
  exists q, run_draws ds p = Ok (draw_results ds g, q).
Proof. intros Hp Hd. destruct (draws_run ds p fds g Hp Hd) as (q & Hq & _). eauto. Qed.

Lemma srand_streaming seed p : initialized (lb (p_st p)) = true -> attached (p_st p) (p_mem p) ->
  exists q, srand seed p = Ok (tt, q) /\ streaming q (g_virtual_fds (p_st p)) (seeded seed) /\
    shm (lb (p_st q)) = shm (lb (p_st p)) /\ effective_seed (lb (p_st q)) = seed /\
    shared_seed (lb (p_st q)) = shared_seed (lb (p_st p)) /\ p_mem q = p_mem p.
Proof.
  intros Hi Ha. unfold srand, linbox_random_reseed. rewrite !M_bind_eq, update_eq, update_eq.
  eexists. split; [reflexivity|]. cbn [p_st p_mem on_lb lb set_rand_seeded set_prng set_effective_seed prng].
  rewrite seeded_eq. split; [|cbn; auto]. split; [|discriminate]. constructor; [exact Hi|exact Ha|reflexivity|reflexivity|apply seeded_ok].
Qed.

(** All random functions draw from one stream, in the order of the calls:
    after [srand (seed)], any sequence of [rand], [random], [arc4random],
    [arc4random_buf], [getrandom], [getentropy] and reads of the virtual random
    devices returns what cutting the generator's stream from that seed gives,
    each call taking whole words; a refused [getentropy] takes none. *)
Lemma srand_then_draws (seed : Z) (ds : list draw) (p : proc shim)
    (Hi : initialized (lb (p_st p)) = true) (Ha : attached (p_st p) (p_mem p))
    (Hd : Forall (draw_ok (g_virtual_fds (p_st p))) ds) :
  exists q, (srand seed ;; run_draws ds) p = Ok (draw_results ds (seeded seed), q).
Proof.
  destruct (srand_streaming seed p Hi Ha) as (q & Hq & Hs & _). rewrite M_bind_eq, Hq.
  exact (draws_eq ds q _ _ Hs Hd).
Qed.

(** The shared seed has not changed since the shim last looked. *)
Definition seed_unchanged (p : proc shim) : Prop :=
  forall l, controller_connected (lb (p_st p)) = true ->
    p_mem p !! layout (shm (lb (p_st p))) = Some l -> prng_seed l = shared_seed (lb (p_st p)).

Lemma seed_value_unchanged p : initialized (lb (p_st p)) = true -> attached (p_st p) (p_mem p) -> seed_unchanged p ->
  exists log, linbox_prng_seed_value p =
    Ok (effective_seed (lb (p_st p)), Proc (p_st p) (p_errno p) (p_mem p) log).
Proof.
  intros Hi Ha Hu. unfold linbox_prng_seed_value. rewrite M_bind_eq, init_state_done by exact Hi.
  rewrite M_bind_eq, state_get_eq, M_bind_eq. destruct (decide (_ /\ _)) as [[Hc Hn]|_].
  - destruct (Ha Hc Hn) as [l Hl]. rewrite M_bind_eq, (load_eq _ _ l Hl). cbv zeta.
    rewrite decide_False by (intros H; apply H, Hu; assumption). eexists. reflexivity.
  - destruct p. eexists. reflexivity.
Qed.

(** The seeding the first [rand] or [random] does: the generator restarts from
    the low 32 bits of the process's seed. *)
Lemma seed_rand_once_fresh (p : proc shim) :
  initialized (lb (p_st p)) = true -> attached (p_st p) (p_mem p) -> seed_unchanged p ->
  g_rand_seeded (p_st p) = 0 ->
  exists q, linbox_seed_rand_once p = Ok (tt, q) /\
    streaming q (g_virtual_fds (p_st p)) (seeded (u32 (effective_seed (lb (p_st p))))).
Proof.
  intros Hi Ha Hu Hr. set (seed := effective_seed (lb (p_st p))).
  destruct (seed_value_unchanged p Hi Ha Hu) as (log & Hv). set (p1 := Proc _ _ _ log) in Hv.
  destruct (srand_streaming (u32 seed) p1 Hi Ha) as (p2 & H2 & S2 & Sh2 & E2 & Ss2 & M2).
  destruct (seed_value_unchanged p2) as (log3 & H3); [apply S2|apply S2| |].
  { intros l Hc Hl. rewrite Sh2, M2 in Hl. rewrite Ss2. apply Hu; [|exact Hl].
    revert Hc. injection H2 as <-. exact id. }
  rewrite E2 in H3. set (p3 := Proc _ _ _ log3) in H3.
  destruct (srand_streaming (u32 (u32 seed)) p3) as (p4 & H4 & S4 & _);
    [apply S2|apply S2|]. change (srandom (u32 (u32 seed)) p3 = Ok (tt, p4)) in H4.
  rewrite (wrap_small 32 (u32 seed)) in H4, S4 by (apply wrap_range; lia).
  replace (g_virtual_fds (p_st p3)) with (g_virtual_fds (p_st p)) in S4 by (symmetry; apply S2).
  exists (Proc (set_rand_seeded 1 (p_st p4)) (p_errno p4) (p_mem p4) (p_log p4)). split.
  - unfold linbox_seed_rand_once. rewrite M_bind_eq. cbn [get_st].
    rewrite decide_True by exact Hr. rewrite M_bind_eq, Hv, M_bind_eq. fold seed. rewrite H2, M_bind_eq, H3, M_bind_eq.
    rewrite (wrap_small 32 (u32 seed)) by (apply wrap_range; lia). rewrite H4. reflexivity.
  - destruct S4 as [[] ?]. split; [constructor; assumption|discriminate].
Qed.

(** The draws that seed [rand] before they draw. *)
Definition seeds_rand (d : draw) : bool := match d with DRand | DRandom => true | _ => false end.

(** Once [linbox_seed_rand_once] has run, it does nothing more. *)
Lemma seeding_draw d p q fds g : seeds_rand d = true ->
  linbox_seed_rand_once p = Ok (tt, q) -> streaming q fds g -> run_draw d p = run_draw d q.
Proof.
  intros Hd Hp Hq. pose proof (seed_rand_once_done q fds g Hq) as Hdone.
  destruct d; try discriminate; cbn [run_draw]; unfold rand, random; rewrite !M_bind_eq, Hp, Hdone; reflexivity.
Qed.

(** The first [rand] restarts the stream: when [rand] has not been seeded,
    the first call of [rand] reseeds the generator all random functions share
    with the low 32 bits of the process's 64-bit seed, so bytes drawn before it
    are drawn again, and processes whose seeds agree in those bits have one
    stream. *)
Lemma first_rand_restarts_stream (ds : list draw) (p : proc shim)
    (Hi : initialized (lb (p_st p)) = true) (Ha : attached (p_st p) (p_mem p))
    (Hu : seed_unchanged p) (Hr : g_rand_seeded (p_st p) = 0)
    (Hd : Forall (draw_ok (g_virtual_fds (p_st p))) ds) :
  exists q, run_draws (DRand :: ds) p =
    Ok (draw_results (DRand :: ds) (seeded (u32 (effective_seed (lb (p_st p))))), q).
Proof.
  destruct (seed_rand_once_fresh p Hi Ha Hu Hr) as (p5 & H5 & S5).
  destruct (draws_eq (DRand :: ds) p5 _ _ S5) as (q & Hq); [constructor; [exact I|exact Hd]|].
  exists q. rewrite <- Hq. cbn [run_draws]. rewrite !M_bind_eq. rewrite (seeding_draw DRand p p5 _ _ eq_refl H5 S5).
  reflexivity.
Qed.

(** C13: a process has one random stream, which [srand] and the first [rand]
    start. After [srand (seed)], any sequence of [rand], [random], [arc4random],
    [arc4random_buf], [getrandom], [getentropy] and reads of the virtual random
    devices returns what cutting the generator's stream from that seed gives, in
    the order of the calls, each call taking whole words; a refused [getentropy]
    takes none. When [rand] has not been seeded, its first call restarts the
    stream for all of them from the low 32 bits of the process's 64-bit seed, so
    bytes drawn before it are drawn again. *)
Theorem one_random_stream (seed : Z) (ds : list draw) (p : proc shim)
    (Hi : initialized (lb (p_st p)) = true) (Ha : attached (p_st p) (p_mem p))
    (Hd : Forall (draw_ok (g_virtual_fds (p_st p))) ds) :
  (exists q, (srand seed ;; run_draws ds) p = Ok (draw_results ds (seeded seed), q)) /\
  (seed_unchanged p -> g_rand_seeded (p_st p) = 0 ->
   exists q, run_draws (DRand :: ds) p =
     Ok (draw_results (DRand :: ds) (seeded (u32 (effective_seed (lb (p_st p))))), q)).
Proof.
  split; [exact (srand_then_draws seed ds p Hi Ha Hd)|].
  intros Hu Hr. exact (first_rand_restarts_stream ds p Hi Ha Hu Hr Hd).
Qed.

(** ** From the first draw on

    A process that has been initialised and has not used [rand] yet, while the
    controller leaves the published seed as it was. *)
Record unseeded (p : proc shim) (fds : list linbox_virtual_fd) (seed : Z) (g : linbox_prng) : Prop := {
  un_drawing : drawing p fds g;
  un_seed : effective_seed (lb (p_st p)) = seed;
  un_same : seed_unchanged p;
  un_rand : g_rand_seeded (p_st p) = 0 }.

Lemma unseeded_fill p fds seed g buf len : unseeded p fds seed g -> buf <> NULL -> 0 <= len < 2 ^ 63 ->
  exists q, linbox_random_fill buf len p = Ok ((len, prng_bytes (Z.to_nat len) g), q) /\
    unseeded q fds seed (prng_words (words_for (Z.to_nat len)) g).2.
Proof.
  intros [[Hi Ha Hf Hg Hok] Hs Hu Hr] Hbuf Hlen.
  destruct (seed_value_unchanged p Hi Ha Hu) as (log & Hv).
  assert (Hre : reseed_if_needed p = Ok (tt, Proc (p_st p) (p_errno p) (p_mem p) log)).
  { unfold reseed_if_needed. rewrite M_bind_eq, init_state_done by exact Hi. rewrite M_bind_eq, Hv.
    rewrite M_bind_eq, state_get_eq. cbn [p_st]. rewrite decide_False; [reflexivity|].
    rewrite Hg. intros [H|H]; [apply Hok, H|apply H; reflexivity]. }
  unfold linbox_random_fill. rewrite M_bind_eq, Hre. rewrite decide_False by (intros [? _]; contradiction).
  rewrite M_bind_eq, state_get_eq. cbn [p_st]. rewrite Hg, M_bind_eq. unfold lift at 1.
  rewrite prng_fill_eq by (rewrite length_replicate; lia).
  rewrite M_bind_eq, update_Proc. rewrite sext_small by (unfold in_s; lia).
  rewrite splice_all by (rewrite length_replicate, length_prng_bytes; lia). eexists. split; [reflexivity|].
  split; [constructor; try assumption; [reflexivity|apply prng_words_ok, Hok]|assumption..].
Qed.

Lemma unseeded_u32 p fds seed g : unseeded p fds seed g ->
  exists q, linbox_random_u32 p = Ok (u32 (linbox_prng_next_u64 g).2, q) /\
    unseeded q fds seed (prng_words 1 g).2.
Proof.
  intros Hp. destruct (unseeded_fill p fds seed g OBJECT 4 Hp) as (q & Hq & Hd); [discriminate|lia|].
  exists q. split; [|exact Hd]. unfold linbox_random_u32. rewrite M_bind_eq, Hq.
  change (Z.to_nat 4) with 4%nat. rewrite stream_u32. reflexivity.
Qed.

Lemma unseeded_draw d p fds seed g : unseeded p fds seed g -> draw_ok fds d -> seeds_rand d = false ->
  exists q, run_draw d p = Ok (draw_result d g, q) /\ unseeded q fds seed (prng_words (draw_words d) g).2.
Proof.
  intros Hp Hd Hn. destruct d as [| | |buf len|buf len flags|buf len|fd buf len]; try discriminate;
    cbn [run_draw draw_result draw_words].
  - destruct (unseeded_u32 p fds seed g Hp) as (q & Hq & Hs). exists q. split; [|exact Hs].
    unfold arc4random. rewrite M_bind_eq, Hq. reflexivity.
  - destruct Hd. destruct (unseeded_fill p fds seed g buf len) as (q & Hq & Hs); try assumption. exists q. split; [|exact Hs].
    unfold arc4random_buf. rewrite !M_bind_eq, Hq. reflexivity.
  - destruct Hd. destruct (unseeded_fill p fds seed g buf len) as (q & Hq & Hs); try assumption. eauto.
  - unfold getentropy. destruct (decide (len > 256)).
    + eexists. split; [reflexivity|]. destruct Hp as [[] ? ? ?]. split; [constructor|..]; assumption.
    + destruct Hd. destruct (unseeded_fill p fds seed g buf len) as (q & Hq & Hs); try assumption. exists q. split; [|exact Hs].
      rewrite M_bind_eq, Hq, decide_True by lia. reflexivity.
  - destruct Hd as (Hv & Hb & Hl). destruct (unseeded_fill p fds seed g buf len) as (q & Hq & Hs); try assumption.
    exists q. split; [|exact Hs]. rewrite <- Hq. apply read_virtual.
    rewrite (st_fds _ _ _ (un_drawing _ _ _ _ Hp)). exact Hv.
Qed.

(** What the draws of a process that starts with the seed [seed] and the
    generator [g] return, and the generator they leave: up to the first [rand] or
    [random] they cut the stream of [g]; from there on that of the generator
    seeded with the low 32 bits of [seed]. *)
Fixpoint process_draws (ds : list draw) (seed : Z) (g : linbox_prng) : list drawn * linbox_prng :=
  match ds with
  | [] => ([], g)
  | d :: ds' =>
      if seeds_rand d
      then let g' := seeded (u32 seed) in (draw_results ds g', draws_state ds g')
      else
        let '(rs, g') := process_draws ds' seed (prng_words (draw_words d) g).2 in
        (draw_result d g :: rs, g')
  end.

Lemma unseeded_draws ds : forall p fds seed g, unseeded p fds seed g -> Forall (draw_ok fds) ds ->
  exists q, run_draws ds p = Ok ((process_draws ds seed g).1, q) /\
    drawing q fds (process_draws ds seed g).2.
Proof.
  induction ds as [|d ds IH]; intros p fds seed g Hp Hd; [exists p; split; [reflexivity|apply Hp]|].
  cbn [process_draws]. destruct (seeds_rand d) eqn:Esr.
  - destruct Hp as [[Hi Ha Hf Hg Hok] <- Hu Hr].
    destruct (seed_rand_once_fresh p Hi Ha Hu Hr) as (p5 & H5 & S5). rewrite Hf in S5.
    destruct (draws_run (d :: ds) p5 _ _ S5 Hd) as (q & Hq & Sq). exists q. cbn [fst snd].
    split; [|apply Sq]. rewrite <- Hq. cbn [run_draws]. rewrite !M_bind_eq.
    rewrite (seeding_draw d p p5 _ _ Esr H5 S5). reflexivity.
  - apply Forall_cons in Hd as [Hd Hds]. destruct (unseeded_draw d p fds seed g Hp Hd Esr) as (q & Hq & Hs).
    destruct (IH q fds seed _ Hs Hds) as (q' & Hq' & Hs'). exists q'.
    destruct (process_draws ds seed _) as [rs g'] eqn:E. cbn [fst snd] in *.
    split; [|exact Hs']. cbn [run_draws]. rewrite M_bind_eq, Hq, M_bind_eq, Hq'. reflexivity.
Qed.
End SharedStream.
