(* ===== verification/Sigsys.v ===== *)
(** * Trapped system calls

    Models src/shim/seccomp.c (the filter), src/shim/sigsys.c (the SIGSYS
    handler), src/shim/syscall-raw.c and src/shim/syscall-wrap.c (direct system
    calls) and the constructor of src/shim/linbox.c.

    The filter is classic BPF; [bpf_run] is its documented semantics.  The kernel
    is the class [SeccompKernel]: a system call made with the [syscall]
    instruction meets the filters installed so far, which the log records, and a
    trapped one runs the handler, whose own direct system calls meet the filters
    again. *)
From S2P Require Import Prelude Prng ShmLayout Os Shm Shim Time Random.

(** ** The filter *)
Record sock_filter := SockFilter { bpf_code : Z; bpf_jt : Z; bpf_jf : Z; bpf_k : Z }.

#[export] Instance sock_filter_eq_dec : EqDecision sock_filter.
Proof. solve_decision. Defined.

Definition BPF_LD : Z := 0x00.
Definition BPF_W : Z := 0x00.
Definition BPF_ABS : Z := 0x20.
Definition BPF_JMP : Z := 0x05.
Definition BPF_JEQ : Z := 0x10.
Definition BPF_K : Z := 0x00.
Definition BPF_RET : Z := 0x06.
Definition SECCOMP_RET_TRAP : Z := 0x00030000.
Definition SECCOMP_RET_ERRNO : Z := 0x00050000.
Definition SECCOMP_RET_ALLOW : Z := 0x7fff0000.
Definition SECCOMP_RET_DATA : Z := 0x0000ffff.
Definition LINBOX_ALLOW : Z := SECCOMP_RET_ALLOW.
Definition LINBOX_TRAP : Z := SECCOMP_RET_TRAP.
Definition LINBOX_ERRNO (x : Z) : Z := Z.lor SECCOMP_RET_ERRNO (Z.land x SECCOMP_RET_DATA).

Definition BPF_STMT (code k : Z) : sock_filter := SockFilter code 0 0 k.
Definition BPF_JUMP (code k jt jf : Z) : sock_filter := SockFilter code jt jf k.
Definition SC_VERDICT (nr v : Z) : list sock_filter :=
  [BPF_JUMP (Z.lor (Z.lor BPF_JMP BPF_JEQ) BPF_K) nr 0 1; BPF_STMT (Z.lor BPF_RET BPF_K) v].
Definition SC_TRAP (nr : Z) : list sock_filter := SC_VERDICT nr LINBOX_TRAP.
Definition SC_ERRNO (nr e : Z) : list sock_filter := SC_VERDICT nr (LINBOX_ERRNO e).

Definition SYS_gettimeofday : Z := 96.
Definition SYS_time : Z := 201.
Definition SYS_getrandom : Z := 318.
Definition SYS_io_uring_setup : Z := 425.
Definition SYS_io_uring_enter : Z := 426.
Definition SYS_io_uring_register : Z := 427.
Definition offsetof_seccomp_nr : Z := 0.

Definition filter : list sock_filter :=
  [BPF_STMT (Z.lor (Z.lor BPF_LD BPF_W) BPF_ABS) (u32 offsetof_seccomp_nr)] ++
  SC_TRAP SYS_clock_gettime ++
  SC_TRAP SYS_gettimeofday ++
  SC_TRAP SYS_time ++
  SC_TRAP SYS_getrandom ++
  SC_ERRNO SYS_io_uring_setup ENOSYS ++
  SC_ERRNO SYS_io_uring_enter ENOSYS ++
  SC_ERRNO SYS_io_uring_register ENOSYS ++
  [BPF_STMT (Z.lor BPF_RET BPF_K) LINBOX_ALLOW].

(** Classic BPF, for the instructions the filter uses: [acc] is the accumulator
    and [word off] the 32-bit word of [struct seccomp_data] at an offset. *)
Fixpoint bpf_run (fuel : nat) (prog : list sock_filter) (word : Z -> Z) (pc : nat) (acc : Z)
  : option Z :=
  match fuel with
  | O => None
  | S fuel' =>
      match prog !! pc with
      | None => None
      | Some i =>
          if decide (bpf_code i = Z.lor (Z.lor BPF_LD BPF_W) BPF_ABS)
          then bpf_run fuel' prog word (pc + 1) (word (bpf_k i))
          else if decide (bpf_code i = Z.lor (Z.lor BPF_JMP BPF_JEQ) BPF_K)
          then bpf_run fuel' prog word
                 (pc + 1 + Z.to_nat (if decide (acc = bpf_k i) then bpf_jt i else bpf_jf i)) acc
          else if decide (bpf_code i = Z.lor BPF_RET BPF_K) then Some (bpf_k i)
          else None
      end
  end.

(** The verdict of a program on a system call: its number is the word at offset
    0, the rest of [struct seccomp_data] is [rest]. *)
Definition bpf_verdict (prog : list sock_filter) (nr : Z) (rest : Z -> Z) : option Z :=
  bpf_run (length prog) prog (fun off => if decide (off = 0) then u32 nr else rest off) 0 0.

Definition PR_SET_NO_NEW_PRIVS : Z := 38.
Definition PR_SET_SECCOMP : Z := 22.
Definition SECCOMP_MODE_FILTER : Z := 2.
Definition SIGSYS : Z := 31.
Definition SYS_SECCOMP : Z := 1.

(** The program is passed by pointer; the event holds its words. *)
Definition filter_words (prog : list sock_filter) : list Z :=
  concat ((fun i => [bpf_code i; bpf_jt i; bpf_jf i; bpf_k i]) <$> prog).

Fixpoint words_filter (ws : list Z) : list sock_filter :=
  match ws with c :: jt :: jf :: k :: ws' => SockFilter c jt jf k :: words_filter ws' | _ => [] end.

Section Install.
Context {os : OS}.

Definition linbox_install_seccomp : MS Z :=
  rc ← call (XPrctl [PR_SET_NO_NEW_PRIVS; 1; 0; 0; 0]) ;
  if decide (rc <> 0) then mret (-1)
  else
    rc ← call (XPrctl (PR_SET_SECCOMP :: SECCOMP_MODE_FILTER :: filter_words filter)) ;
    if decide (rc <> 0) then mret (-1)
    else update (set_seccomp_installed true) ;; mret 0.

Definition linbox_install_sigsys_handler : MS Z :=
  rc ← call (XSigaction SIGSYS) ;
  if decide (rc <> 0) then mret (-1)
  else update (set_sigsys_installed true) ;; mret 0.
End Install.

(** ** What the kernel does with a direct system call *)

(** The filters a log has installed; they survive fork and exec. *)
Definition filters (log : list event) : list (list sock_filter) :=
  omap (fun e => match e with
                 | (XPrctl (op :: mode :: ws), a) =>
                     if decide (op = PR_SET_SECCOMP /\ mode = SECCOMP_MODE_FILTER /\ ret a = 0)
                     then Some (words_filter ws) else None
                 | _ => None
                 end) log.

(** The smallest verdict wins; without filters all is allowed. *)
Definition kernel_verdict (log : list event) (nr : Z) : Z :=
  foldr (fun prog v => Z.min (default 0 (bpf_verdict prog nr (fun _ => 0))) v)
    SECCOMP_RET_ALLOW (filters log).

(** Whether a SIGSYS handler is set; an exec resets it.  An exec function that
    succeeds does not return: the run goes on as the new program, and its answer
    is 0. *)
Definition exec_symbols : list string := ["execve"; "execvpe"; "execvp"].
Definition handled_step (b : bool) (e : event) : bool :=
  match e with
  | (XSigaction sig, a) => if decide (sig = SIGSYS /\ ret a = 0) then true else b
  | (XRealExec fn _ _ _, a) => if decide (fn ∈ exec_symbols /\ ret a = 0) then false else b
  | _ => b
  end.
Definition handled (log : list event) : bool := foldl handled_step false log.

(** ** The handler *)
Record siginfo := SigInfo { si_code : Z; si_syscall : Z }.
Record gregs := Gregs { rdi : Z; rsi : Z; rdx : Z; r10 : Z; r8 : Z; r9 : Z; rax : Z }.

Section Handler.
Context {os : OS} {raw : RawSyscall}.

Definition words_of_timespec (o : option timespec) : list Z :=
  match o with Some ts => [tv_sec ts; tv_nsec ts] | None => [] end.

(** The result, and the words stored through the pointer arguments. *)
Definition linbox_dispatch_syscall (fuel : nat) (nr a1 a2 a3 a4 a5 a6 : Z) : MS (Z * list Z) :=
  if decide (nr = SYS_clock_gettime) then
    '(rc, ts) ← linbox_virtual_clock_gettime fuel (i32 a1) a2 ;
    mret (rc, words_of_timespec ts)
  else if decide (nr = SYS_gettimeofday) then
    '(rc, tv) ← linbox_virtual_gettimeofday fuel a1 a2 ;
    mret (rc, match tv with Some (s, us) => [s; us] | None => [] end)
  else if decide (nr = SYS_time) then
    '(rc, t) ← linbox_virtual_time fuel a1 ;
    mret (rc, match t with Some s => [s] | None => [] end)
  else if decide (nr = SYS_getrandom) then
    linbox_virtual_getrandom a1 (u64 a2) (u32 a3)
  else
    a ← linbox_raw_syscall6 nr a1 a2 a3 a4 a5 a6 ;
    mret (ret a, data a).

(** The saved registers after the handler, and the words stored. *)
Definition linbox_sigsys_handler (fuel : nat) (info : option siginfo) (context : option gregs)
  : MS (option gregs * list Z) :=
  match info, context with
  | Some info, Some g =>
      if decide (si_code info <> SYS_SECCOMP) then mret (context, [])
      else
        '(rc, words) ← linbox_dispatch_syscall fuel (si_syscall info)
                         (rdi g) (rsi g) (rdx g) (r10 g) (r8 g) (r9 g) ;
        e ← get_errno ;
        let rc := if decide (rc < 0 /\ rc >= -4095) then - e else rc in
        mret (Some (Gregs (rdi g) (rsi g) (rdx g) (r10 g) (r8 g) (r9 g) rc), words)
  | _, _ => mret (context, [])
  end.

(** The [syscall] function of libc, interposed. *)
Definition syscall (fuel : nat) (number a1 a2 a3 a4 a5 a6 : Z) : MS (Z * list Z) :=
  if decide (number = SYS_clock_gettime) then
    '(rc, ts) ← linbox_virtual_clock_gettime fuel (i32 a1) a2 ;
    mret (rc, words_of_timespec ts)
  else if decide (number = SYS_gettimeofday) then
    '(rc, tv) ← linbox_virtual_gettimeofday fuel a1 a2 ;
    mret (rc, match tv with Some (s, us) => [s; us] | None => [] end)
  else if decide (number = SYS_time) then
    '(rc, t) ← linbox_virtual_time fuel a1 ;
    mret (rc, match t with Some s => [s] | None => [] end)
  else if decide (number = SYS_getrandom) then
    linbox_virtual_getrandom a1 (u64 a2) (u32 a3)
  else
    ok ← LINBOX_RESOLVE_NEXT "syscall" ;
    if (ok : bool) then
      a ← call_real "syscall" (XReal "syscall" [number; a1; a2; a3; a4; a5; a6] None) ;
      mret (ret a, data a)
    else mret (-1, []).
End Handler.

(** ** The constructor *)
Section Constructor.
Context {os : OS} {raw : RawSyscall}.

Definition linbox_ctor : MS unit :=
  linbox_init_state ;;
  enabled ← linbox_seccomp_enabled ;
  (if (enabled : bool) then
     rc ← linbox_install_sigsys_handler ;
     if decide (rc <> 0) then
       _ ← call (XStderr "linbox: failed to install SIGSYS handler") ; mret tt
     else
       rc ← linbox_install_seccomp ;
       if decide (rc <> 0) then
         _ ← call (XStderr "linbox: failed to install seccomp filter") ; mret tt
       else mret tt
   else mret tt) ;;
  _ ← call XGetpid ;
  _ ← call (XStderr "linbox: shim loaded") ;
  st ← linbox_state_get ;
  if controller_connected st then mret tt
  else _ ← call (XStderr "linbox: controller unavailable, fallback to real time") ; mret tt.
End Constructor.

(** ** The kernel

    [kernel rfuel depth] is what the [syscall] instruction does in a process with
    the shim loaded: [rfuel] bounds the retries of the sequence lock, [depth] the
    nesting of trapped calls.  The kernel is not part of the program; this is what
    seccomp(2) documents: an allowed call is carried out; a refused one returns
    the filter's error number; a trapped one raises SIGSYS, which runs the handler
    (installed with SA_NODEFER, so also from within itself) on the caller's
    registers and returns what it left in [rax], or kills a process that has set
    no handler.  Beyond [depth] the model gives up. *)
Section Kernel.
Context {os : OS}.

Definition handle_trap (kernel : RawSyscall) (rfuel : nat) (nr : Z) (args : list Z) : MS answer :=
  let g := Gregs (nth 0 args 0) (nth 1 args 0) (nth 2 args 0) (nth 3 args 0)
             (nth 4 args 0) (nth 5 args 0) nr in
  '(g', words) ← linbox_sigsys_handler (raw := kernel) rfuel (Some (SigInfo SYS_SECCOMP nr)) (Some g) ;
  mret (Answer (rax (default g g')) 0 words).

Class SeccompKernel (kernel : nat -> nat -> RawSyscall) : Prop := {
  kernel_allow : forall rfuel depth nr args p,
    kernel_verdict (p_log p) nr = SECCOMP_RET_ALLOW ->
    kernel rfuel depth nr args p = call_kernel (XRawSyscall nr args) p;
  kernel_refuse : forall rfuel depth nr args p e,
    kernel_verdict (p_log p) nr = LINBOX_ERRNO e -> 0 <= e < 4096 ->
    kernel rfuel depth nr args p = Ok (Answer (- e) 0 [], p);
  kernel_trap : forall rfuel depth nr args p,
    kernel_verdict (p_log p) nr = SECCOMP_RET_TRAP -> handled (p_log p) = true ->
    kernel rfuel (S depth) nr args p = handle_trap (kernel rfuel depth) rfuel nr args p;
  kernel_trap_bound : forall rfuel nr args p,
    kernel_verdict (p_log p) nr = SECCOMP_RET_TRAP -> handled (p_log p) = true ->
    kernel rfuel O nr args p = OutOfFuel;
  kernel_kill : forall rfuel depth nr args p,
    kernel_verdict (p_log p) nr = SECCOMP_RET_TRAP -> handled (p_log p) = false ->
    kernel rfuel depth nr args p = Undef
}.

(** A kernel that does this. *)
Fixpoint kernel_syscall (rfuel depth : nat) (nr : Z) (args : list Z) : MS answer :=
  log ← get_log ;
  let v := kernel_verdict log nr in
  if decide (v = SECCOMP_RET_ALLOW) then call_kernel (XRawSyscall nr args)
  else if decide (v = SECCOMP_RET_TRAP) then
    if handled log then
      match depth with
      | O => out_of_fuel
      | S depth' => handle_trap (kernel_syscall rfuel depth') rfuel nr args
      end
    else undef
  else mret (Answer (- Z.land v SECCOMP_RET_DATA) 0 []).

(** A verdict that carries an error number is none of the others. *)
Lemma errno_verdict e : 0 <= e < 4096 ->
  Z.land (LINBOX_ERRNO e) SECCOMP_RET_DATA = e /\
  LINBOX_ERRNO e <> SECCOMP_RET_ALLOW /\ LINBOX_ERRNO e <> SECCOMP_RET_TRAP.
Proof.
  intros He. split.
  - unfold LINBOX_ERRNO. rewrite Z.land_lor_distr_l, <- Z.land_assoc, Z.land_diag.
    change (Z.land SECCOMP_RET_ERRNO SECCOMP_RET_DATA) with 0. rewrite Z.lor_0_l.
    change SECCOMP_RET_DATA with (Z.ones 16). rewrite Z.land_ones by lia. apply Z.mod_small. lia.
  - assert (Hs : Z.shiftr (LINBOX_ERRNO e) 16 = 5).
    { unfold LINBOX_ERRNO. change SECCOMP_RET_DATA with (Z.ones 16).
      rewrite Z.land_ones, Z.mod_small by lia. rewrite Z.shiftr_lor.
      rewrite (Z.shiftr_div_pow2 e), (Z.div_small e) by lia. reflexivity. }
    split; intros H; rewrite H in Hs; discriminate Hs.
Qed.

#[export] Instance kernel_syscall_seccomp : SeccompKernel kernel_syscall.
Proof.
  split.
  - intros rfuel depth nr args p Hv. destruct depth; cbn [kernel_syscall]; rewrite M_bind_eq;
      cbn [get_log]; rewrite Hv; reflexivity.
  - intros rfuel depth nr args p e Hv He.
    destruct (errno_verdict e He) as (Hd & Ha & Ht). destruct depth; cbn [kernel_syscall]; rewrite M_bind_eq; cbn [get_log];
      rewrite Hv, (decide_False (P := _ = SECCOMP_RET_ALLOW)), (decide_False (P := _ = SECCOMP_RET_TRAP)), Hd
        by assumption; reflexivity.
  - intros rfuel depth nr args p Hv Hh. cbn [kernel_syscall]. rewrite M_bind_eq. cbn [get_log].
    rewrite Hv, Hh. reflexivity.
  - intros rfuel nr args p Hv Hh. cbn [kernel_syscall]. rewrite M_bind_eq. cbn [get_log].
    rewrite Hv, Hh. reflexivity.
  - intros rfuel depth nr args p Hv Hh. destruct depth; cbn [kernel_syscall]; rewrite M_bind_eq;
      cbn [get_log]; rewrite Hv, Hh; reflexivity.
Qed.
End Kernel.
