(* ===== verification/SigsysFacts.v ===== *)
(** * What happens to direct system calls

    Theorems about Sigsys.v: the verdicts of the filter, the answers of the
    handler, and where trapping meets the shim's own direct system calls. *)
From S2P Require Import Prelude Bytes Prng ShmLayout Os Shm Env TimeManager Shim ShimFacts Time TimeFacts Random RandomFacts Sigsys.

(** ** The filter *)
Definition trapped_calls : list Z := [SYS_clock_gettime; SYS_gettimeofday; SYS_time; SYS_getrandom].
Definition refused_calls : list Z := [SYS_io_uring_setup; SYS_io_uring_enter; SYS_io_uring_register].

Definition verdict_of (nr : Z) : Z :=
  if decide (nr ∈ trapped_calls) then SECCOMP_RET_TRAP
  else if decide (nr ∈ refused_calls) then LINBOX_ERRNO ENOSYS
  else SECCOMP_RET_ALLOW.

Lemma bpf_test fuel prog word pc acc nr v :
  prog !! pc = Some (BPF_JUMP (Z.lor (Z.lor BPF_JMP BPF_JEQ) BPF_K) nr 0 1) ->
  prog !! (pc + 1)%nat = Some (BPF_STMT (Z.lor BPF_RET BPF_K) v) ->
  bpf_run (S (S fuel)) prog word pc acc =
  if decide (acc = nr) then Some v else bpf_run (S fuel) prog word (pc + 2) acc.
Proof.
  intros H1 H2. cbn [bpf_run]. rewrite H1. cbn [bpf_code bpf_k bpf_jt bpf_jf BPF_JUMP].
  rewrite decide_False by discriminate. rewrite decide_True by reflexivity.
  destruct (decide (acc = nr)).
  - replace (pc + 1 + Z.to_nat 0)%nat with (pc + 1)%nat by lia. rewrite H2. reflexivity.
  - replace (pc + 1 + Z.to_nat 1)%nat with (pc + 2)%nat by lia. reflexivity.
Qed.

Lemma bpf_run_more prog word v : forall fuel fuel' pc acc,
  bpf_run fuel prog word pc acc = Some v -> (fuel <= fuel')%nat ->
  bpf_run fuel' prog word pc acc = Some v.
Proof.
  induction fuel as [|fuel IH]; intros [|fuel'] pc acc H Hle; try discriminate; [lia|].
  cbn [bpf_run] in *. destruct (prog !! pc) as [i|]; [|discriminate].
  repeat (destruct (decide _); [first [apply IH; [exact H|lia] | exact H]|]). exact H.
Qed.

Lemma filter_run x word : word 0 = x ->
  bpf_run 16 filter word 0 0 = Some (verdict_of x).
Proof.
  intros Hx. change (bpf_run 16 filter word 0 0) with (bpf_run 15 filter word 1 (word 0)). rewrite Hx.
  do 7 (erewrite bpf_test by reflexivity).
  change (bpf_run 8 filter word (1 + 2 + 2 + 2 + 2 + 2 + 2 + 2) x) with (Some LINBOX_ALLOW).
  unfold verdict_of, trapped_calls, refused_calls, LINBOX_TRAP, LINBOX_ALLOW.
  repeat (destruct (decide (x = _)) as [->|]; [reflexivity|]).
  rewrite !decide_False; [reflexivity|..]; rewrite !elem_of_cons, elem_of_nil; tauto.
Qed.


(** C25: the filter traps exactly [clock_gettime], [gettimeofday], [time] and
    [getrandom], refuses exactly the three io_uring calls with [ENOSYS] and lets
    every other system call through; on every input it reaches a verdict (it
    never runs off its end), and looks at nothing but the 32-bit number. *)
Theorem filter_verdict (nr : Z) (rest : Z -> Z) :
  bpf_verdict filter nr rest = Some (verdict_of (u32 nr)).
Proof. unfold bpf_verdict. change (length filter) with 16%nat. apply filter_run. reflexivity. Qed.

(** ** The filters a log holds *)
Lemma words_filter_words prog : words_filter (filter_words prog) = prog.
Proof.
  induction prog as [|[c jt jf k] prog IH]; [reflexivity|].
  change (filter_words (SockFilter c jt jf k :: prog)) with (c :: jt :: jf :: k :: filter_words prog).
  cbn [words_filter]. rewrite IH. reflexivity.
Qed.

(** The process runs under the shim's filter and no other. *)
Definition sandboxed (log : list event) : Prop :=
  filters log <> [] /\ Forall (fun f => f = filter) (filters log).

Lemma sandboxed_verdict log nr : sandboxed log -> kernel_verdict log nr = verdict_of (u32 nr).
Proof.
  intros [Hne HF]. unfold kernel_verdict. induction HF as [|f fs -> HF IH]; [contradiction|]. cbn [foldr].
  assert (Hv : default 0 (bpf_verdict filter nr (fun _ => 0)) = verdict_of (u32 nr)).
  { unfold bpf_verdict. change (length filter) with 16%nat. rewrite (filter_run (u32 nr)) by reflexivity. reflexivity. }
  rewrite Hv. destruct fs as [|f fs]; [|rewrite IH by discriminate; apply Z.min_id].
  cbn [foldr]. apply Z.min_l. unfold verdict_of. repeat case_goal; vm_compute; discriminate.
Qed.

Lemma filters_app log1 log2 : filters (log1 ++ log2) = filters log1 ++ filters log2.
Proof. apply omap_app. Qed.

(** An event that neither installs a filter nor touches the handler. *)
Definition ordinary (e : event) : Prop := filters [e] = [] /\ forall b, handled_step b e = b.

Lemma sandboxed_ordinary log e : ordinary e -> sandboxed log -> sandboxed (log ++ [e]).
Proof. intros [Hf _] H. unfold sandboxed. rewrite filters_app, Hf, app_nil_r. exact H. Qed.

Lemma handled_ordinary log e : ordinary e -> handled (log ++ [e]) = handled log.
Proof. intros [_ Hb]. unfold handled. rewrite foldl_app. apply Hb. Qed.

Lemma trapped_verdict log nr : sandboxed log -> u32 nr ∈ trapped_calls ->
  kernel_verdict log nr = SECCOMP_RET_TRAP.
Proof. intros Hs Hn. rewrite sandboxed_verdict by exact Hs. unfold verdict_of. apply decide_True, Hn. Qed.

(** Without filters every direct system call is carried out. *)
Lemma unfiltered_verdict log nr : filters log = [] -> kernel_verdict log nr = SECCOMP_RET_ALLOW.
Proof. intros H. unfold kernel_verdict. rewrite H. reflexivity. Qed.

Lemma unfiltered_clock {os : OS} {kernel : nat -> nat -> RawSyscall} {Hkernel : SeccompKernel kernel}
    rfuel depth (p : proc shim) :
  filters (p_log p) = [] -> clock_untrapped (raw := kernel rfuel depth) p.
Proof. intros H. apply kernel_allow, unfiltered_verdict, H. Qed.

Section Trapped.
Context {os : OS}.

(** Under the filter, with a handler: a trapped call is the handler's. *)
Context {kernel : nat -> nat -> RawSyscall} {Hkernel : SeccompKernel kernel}.

Lemma kernel_trapped rfuel depth nr args (p : proc shim) :
  sandboxed (p_log p) -> handled (p_log p) = true -> u32 nr ∈ trapped_calls ->
  kernel rfuel (S depth) nr args p = handle_trap (kernel rfuel depth) rfuel nr args p.
Proof. intros Hs Hh Hn. apply kernel_trap; [apply trapped_verdict; assumption|exact Hh]. Qed.

Lemma kernel_trapped_0 rfuel nr args (p : proc shim) :
  sandboxed (p_log p) -> handled (p_log p) = true -> u32 nr ∈ trapped_calls ->
  kernel rfuel O nr args p = OutOfFuel.
Proof. intros Hs Hh Hn. apply kernel_trap_bound; [apply trapped_verdict; assumption|exact Hh]. Qed.

(** Under the filter every other system call passes through unchanged, with its
    own result and without a trace in [errno]; the io_uring calls return
    [-ENOSYS] without reaching the kernel's implementation. *)
Theorem other_calls_pass_through (rfuel depth : nat) (nr : Z) (args : list Z) (p : proc shim)
    (Hs : sandboxed (p_log p)) (Ht : u32 nr ∉ trapped_calls) :
  kernel rfuel depth nr args p =
  if decide (u32 nr ∈ refused_calls) then Ok (Answer (- ENOSYS) 0 [], p)
  else call_kernel (XRawSyscall nr args) p.
Proof.
  pose proof (sandboxed_verdict (p_log p) nr Hs) as Hv. unfold verdict_of in Hv.
  rewrite (decide_False (P := u32 nr ∈ trapped_calls)) in Hv by exact Ht.
  destruct (decide (u32 nr ∈ refused_calls)).
  - apply kernel_refuse; [exact Hv|unfold ENOSYS; lia].
  - apply kernel_allow, Hv.
Qed.

(** Installing: when both calls of [prctl] succeed the kernel runs exactly
    [filter] from then on, and the state says so; when one fails, -1 is
    returned, no filter is added, and the state is as before. *)
Theorem install_seccomp_spec (p : proc shim) :
  exists rc q, linbox_install_seccomp p = Ok (rc, q) /\ p_mem q = p_mem p /\
  ((rc = 0 /\ filters (p_log q) = filters (p_log p) ++ [filter] /\
    seccomp_installed (lb (p_st q)) = true) \/
   (rc = -1 /\ filters (p_log q) = filters (p_log p) /\ p_st q = p_st p)).
Proof.
  unfold linbox_install_seccomp. rewrite M_bind_eq, call_eq. cbv beta iota zeta.
  set (a1 := os_answer (p_log p) _). set (log1 := p_log p ++ [(_, a1)]).
  assert (Hf1 : filters log1 = filters (p_log p)) by (unfold log1; rewrite filters_app; apply app_nil_r).
  match goal with |- context [@decide (ret a1 <> 0) ?i] => destruct (@decide (ret a1 <> 0) i) as [H1|H1] end.
  { eexists _, _. split; [reflexivity|]. split; [reflexivity|]. right. split; [reflexivity|]. split; [exact Hf1|reflexivity]. }
  cbn [p_log p_st p_mem p_errno]. rewrite M_bind_eq, call_eq. cbv beta iota zeta. cbn [p_log p_st p_mem p_errno].
  set (a2 := os_answer log1 _). rewrite <- Hf1.
  assert (Hf2 : filters (log1 ++ [(XPrctl (PR_SET_SECCOMP :: SECCOMP_MODE_FILTER :: filter_words filter), a2)]) =
    filters log1 ++ (if decide (ret a2 = 0) then [filter] else [])).
  { rewrite filters_app. f_equal. cbn [filters omap list_omap].
    destruct (decide (ret a2 = 0)) as [H2|H2].
    - rewrite decide_True by auto. rewrite words_filter_words. reflexivity.
    - rewrite decide_False by tauto. reflexivity. }
  match goal with |- context [@decide (ret a2 <> 0) ?i] => destruct (@decide (ret a2 <> 0) i) as [H2|H2] end.
  - eexists _, _. split; [reflexivity|]. split; [reflexivity|]. right. split; [reflexivity|].
    split; [|reflexivity]. cbn [p_log]. rewrite Hf2. rewrite decide_False by exact H2. apply app_nil_r.
  - rewrite M_bind_eq, update_eq. eexists _, _. split; [reflexivity|]. split; [reflexivity|]. left.
    split; [reflexivity|]. split; [|reflexivity]. cbn [p_log]. rewrite Hf2. rewrite decide_True by lia. reflexivity.
Qed.

(** A trapped call that succeeds returns what the handler's dispatch returns. *)
Lemma trapped_result rfuel depth nr args (p q : proc shim) rc words :
  sandboxed (p_log p) -> handled (p_log p) = true -> u32 nr ∈ trapped_calls -> 0 <= rc ->
  linbox_dispatch_syscall (raw := kernel rfuel depth) rfuel nr (nth 0 args 0) (nth 1 args 0)
    (nth 2 args 0) (nth 3 args 0) (nth 4 args 0) (nth 5 args 0) p = Ok ((rc, words), q) ->
  kernel rfuel (S depth) nr args p = Ok (Answer rc 0 words, q).
Proof.
  intros Hs Hh Hn Hrc Hd. rewrite kernel_trapped by assumption.
  unfold handle_trap, linbox_sigsys_handler. cbv zeta. cbn [si_code si_syscall rdi rsi rdx r10 r8 r9].
  rewrite (decide_False (P := SYS_SECCOMP <> SYS_SECCOMP)) by (intros H; apply H; reflexivity).
  rewrite !M_bind_eq, Hd, M_bind_eq. cbn [get_errno]. rewrite decide_False by lia. reflexivity.
Qed.

(** The time behind the trapped calls, while the controller serves [ts]. *)
Lemma trapped_clock_gettime rfuel depth ts (p : proc shim) clk tp : QuietMemory -> serving p ts ->
  sandboxed (p_log p) -> handled (p_log p) = true -> i32 clk ∈ virtual_clocks -> tp <> NULL ->
  exists log, kernel (S rfuel) (S depth) SYS_clock_gettime [clk; tp] p =
    Ok (Answer 0 0 [tv_sec ts; tv_nsec ts], Proc (p_st p) (p_errno p) (p_mem p) log).
Proof.
  intros Hq Hserve Hs Hh Hclk Htp.
  destruct (virtual_now_serving (raw := kernel (S rfuel) depth) rfuel ts p Hserve) as (log & Hnow).
  exists log. apply trapped_result; [exact Hs|exact Hh|vm_compute; set_solver|lia|]. cbn [nth].
  unfold linbox_dispatch_syscall. rewrite (decide_True (P := SYS_clock_gettime = SYS_clock_gettime)) by reflexivity.
  rewrite M_bind_eq. unfold linbox_virtual_clock_gettime. rewrite decide_False by exact Htp.
  rewrite decide_True by exact Hclk. rewrite Hnow. reflexivity.
Qed.

Lemma trapped_gettimeofday rfuel depth ts (p : proc shim) tp tz : QuietMemory -> serving p ts ->
  sandboxed (p_log p) -> handled (p_log p) = true -> tp <> NULL ->
  exists log, kernel (S rfuel) (S depth) SYS_gettimeofday [tp; tz] p =
    Ok (Answer 0 0 [tv_sec ts; Z.quot (tv_nsec ts) 1000], Proc (p_st p) (p_errno p) (p_mem p) log).
Proof.
  intros Hq Hserve Hs Hh Htp.
  destruct (virtual_now_serving (raw := kernel (S rfuel) depth) rfuel ts p Hserve) as (log & Hnow).
  exists log. apply trapped_result; [exact Hs|exact Hh|vm_compute; set_solver|lia|]. cbn [nth].
  unfold linbox_dispatch_syscall. rewrite (decide_False (P := SYS_gettimeofday = SYS_clock_gettime)) by discriminate.
  rewrite (decide_True (P := SYS_gettimeofday = SYS_gettimeofday)) by reflexivity.
  rewrite M_bind_eq. unfold linbox_virtual_gettimeofday. rewrite decide_False by exact Htp.
  rewrite M_bind_eq, Hnow. reflexivity.
Qed.

Lemma trapped_time rfuel depth ts (p : proc shim) args : QuietMemory -> serving p ts -> normal ts ->
  sandboxed (p_log p) -> handled (p_log p) = true ->
  exists log, kernel (S rfuel) (S depth) SYS_time args p =
    Ok (Answer (tv_sec ts) 0 (if decide (nth 0 args 0 = NULL) then [] else [tv_sec ts]),
        Proc (p_st p) (p_errno p) (p_mem p) log).
Proof.
  intros Hq Hserve [Hsec _] Hs Hh.
  destruct (virtual_now_serving (raw := kernel (S rfuel) depth) rfuel ts p Hserve) as (log & Hnow).
  exists log. apply trapped_result; [exact Hs|exact Hh|vm_compute; set_solver|lia|].
  unfold linbox_dispatch_syscall. rewrite !decide_False by discriminate.
  rewrite (decide_True (P := SYS_time = SYS_time)) by reflexivity.
  rewrite M_bind_eq. unfold linbox_virtual_time. rewrite M_bind_eq, Hnow.
  rewrite decide_False by (intros H; apply H; reflexivity). unfold mret, M_ret.
  destruct (decide (nth 0 args 0 = NULL)); repeat case_goal; reflexivity.
Qed.

(** The trapped [getrandom] draws from the shim's stream. *)
Lemma trapped_getrandom rfuel depth (p : proc shim) fds g buf len flags : QuietMemory -> drawing p fds g ->
  sandboxed (p_log p) -> handled (p_log p) = true -> buf <> NULL -> 0 <= len < 2 ^ 63 ->
  exists q, kernel rfuel (S depth) SYS_getrandom [buf; len; flags] p =
      Ok (Answer len 0 (prng_bytes (Z.to_nat len) g), q) /\
    linbox_random_fill (raw := kernel rfuel depth) buf len p = Ok ((len, prng_bytes (Z.to_nat len) g), q).
Proof.
  intros Hq Hd Hs Hh Hbuf Hlen.
  destruct (drawing_fill (raw := kernel rfuel depth) p fds g buf len Hd Hbuf Hlen) as (q & Hfill & _).
  exists q. split; [|exact Hfill]. apply trapped_result; [exact Hs|exact Hh|vm_compute; set_solver|lia|]. cbn [nth].
  unfold linbox_dispatch_syscall. rewrite !decide_False by discriminate.
  rewrite (decide_True (P := SYS_getrandom = SYS_getrandom)) by reflexivity.
  unfold linbox_virtual_getrandom. rewrite (wrap_small 64 len) by (unfold in_u; lia). exact Hfill.
Qed.

End Trapped.
