(* ===== verification/Startup.v ===== *)
(** * A process from its start

    The constructor of the shim, and everything the process then draws: what
    fixes the random numbers of a program run under the controller.  The
    constructor may install the filter and the handler or not. *)
From S2P Require Import Prelude Bytes Bits Prng ShmLayout Os Total Shm Env Shim ShimFacts Random RandomFacts Sigsys SigsysFacts.

(** Only the two marks of the constructor have changed. *)
Definition marked (p q : proc shim) : Prop :=
  p_mem q = p_mem p /\ g_virtual_fds (p_st q) = g_virtual_fds (p_st p) /\
  g_rand_seeded (p_st q) = g_rand_seeded (p_st p) /\
  exists a b, lb (p_st q) = set_seccomp_installed a (set_sigsys_installed b (lb (p_st p))).

#[export] Instance marked_stable p : Stable (marked p).
Proof. intros q e log H. exact H. Qed.

Lemma marked_refl p : marked p p.
Proof.
  split; [reflexivity|]. split; [reflexivity|]. split; [reflexivity|].
  exists (seccomp_installed (lb (p_st p))), (sigsys_installed (lb (p_st p))). destruct (lb (p_st p)); reflexivity.
Qed.

Section Startup.
Context {os : OS} {Hquiet : QuietMemory}.

Lemma unseeded_marked (p q : proc shim) fds seed g :
  unseeded p fds seed g -> marked p q -> unseeded q fds seed g.
Proof.
  intros [[Hi Ha Hf Hg Hok] Hs Hu Hr] (Hm & Hv & Hrand & a & b & Hlb).
  split; [constructor|..]; unfold attached, seed_unchanged in *; rewrite ?Hlb, ?Hm; cbn; congruence || assumption.
Qed.

Lemma ends_mark p f : (forall a b, exists a' b', f (set_seccomp_installed a (set_sigsys_installed b (lb (p_st p)))) =
    set_seccomp_installed a' (set_sigsys_installed b' (lb (p_st p)))) -> ends (marked p) (update f).
Proof.
  intros Hf. apply total_modify_st. intros q (Hm & Hv & Hr & a & b & Hlb). cbn [p_st p_mem].
  split; [exact Hm|]. split; [exact Hv|]. split; [exact Hr|]. destruct (Hf a b) as (a' & b' & E).
  exists a', b'. rewrite <- E, <- Hlb. reflexivity.
Qed.

(** The constructor after the initialisation: it goes through, whatever the
    kernel answers to its two installations. *)
Lemma ctor_marks {raw : RawSyscall} (p : proc shim) :
  initialized (lb (p_st p)) = true -> exists q, linbox_ctor p = Ok (tt, q) /\ marked p q.
Proof.
  intros Hi. assert (Hmark : ends (marked p) (update (set_seccomp_installed true)) /\
    ends (marked p) (update (set_sigsys_installed true))).
  { split; apply ends_mark; intros a b; [exists true, b|exists a, true]; reflexivity. }
  destruct Hmark as [Hm1 Hm2]. unfold linbox_ctor. rewrite M_bind_eq, init_state_done by exact Hi.
  match goal with |- context [?m p] => cut (ends (marked p) m) end.
  { intros H. destruct (H p (marked_refl p)) as ([] & q & Hq & Hm). exists q. auto. }
  unfold linbox_seccomp_enabled, linbox_install_sigsys_handler, linbox_install_seccomp, linbox_state_get.
  ends_tac.
Qed.

(** The process the constructor leaves with a controller listening: connected,
    seeded from the published seed and its own identifier. *)
Lemma ctor_unseeded {kernel : nat -> nat -> RawSyscall} {Hkernel : SeccompKernel kernel}
    (rfuel depth : nat) (p : proc shim) cfd flags sfd r l the_pid :
  filters (p_log p) = [] -> initialized (lb (p_st p)) = false ->
  listening (sock_of (g_environ (p_st p))) cfd flags ->
  region_at (shm_of (g_environ (p_st p))) sfd r (p_mem p) l ->
  (forall log, ret (os_answer log XGetpid) = the_pid) -> g_rand_seeded (p_st p) = 0 ->
  let seed := linbox_prng_derive_process_seed (prng_seed l) (u32 the_pid) in
  exists q, linbox_ctor (raw := kernel rfuel depth) p = Ok (tt, q) /\
    unseeded q (g_virtual_fds (p_st p)) seed (seeded seed).
Proof.
  intros Hlog Hi Hlis Hreg Hpid Hrand. cbv zeta.
  destruct (init_connected_eq (raw := kernel rfuel depth) p cfd flags sfd r l the_pid
    (unfiltered_clock rfuel depth p Hlog) Hi Hlis Hreg Hpid)
    as (q1 & Hq1 & Hm & Hv & Hrd & _ & Hi1 & Hc & _ & Hshm & Hss & Heff & Hprng).
  destruct (ctor_marks (raw := kernel rfuel depth) q1 Hi1) as (q & Hq & Hmarked). exists q. split.
  - rewrite <- Hq. unfold linbox_ctor. rewrite !M_bind_eq, Hq1, init_state_done by exact Hi1. reflexivity.
  - refine (unseeded_marked q1 q _ _ _ _ Hmarked). split; [constructor|exact Heff| |congruence].
    + exact Hi1.
    + intros _ _. rewrite Hshm, Hm. exists l. apply Hreg.
    + exact Hv.
    + exact Hprng.
    + apply seeded_ok.
    + intros l' _ Hl'. rewrite Hshm, Hm in Hl'. cbn [layout] in Hl'. destruct Hreg as [_ _ _ _ Hl _]. congruence.
Qed.

(** C8: the random stream is reproducible. A process that starts with a
    controller listening, and with no filter inherited from another program,
    goes through its constructor, whether that installs the filter or not, and
    from its first draw on everything it draws, by any sequence of [rand],
    [random], [arc4random], [arc4random_buf], [getrandom], [getentropy] and
    reads of open random devices, and the generator it is left with, are
    functions of the published seed and its own process identifier and of
    nothing else: not the time, the descriptors, the environment or anything the
    generator held before. The draws cut one after the other the stream of the
    generator seeded with the process's seed; at the first [rand] or [random]
    they go over, for good, to the stream seeded with its low 32 bits. *)
Theorem init_stream_reproducible {kernel : nat -> nat -> RawSyscall} {Hkernel : SeccompKernel kernel}
    (rfuel depth : nat) (p : proc shim) (cfd flags sfd r : Z) (l : linbox_shm_layout) (the_pid : Z)
    (ds : list draw) (Hlog : filters (p_log p) = []) (Hi : initialized (lb (p_st p)) = false)
    (Hlis : listening (sock_of (g_environ (p_st p))) cfd flags)
    (Hreg : region_at (shm_of (g_environ (p_st p))) sfd r (p_mem p) l)
    (Hpid : forall log, ret (os_answer log XGetpid) = the_pid)
    (Hrand : g_rand_seeded (p_st p) = 0) (Hds : Forall (draw_ok (g_virtual_fds (p_st p))) ds) :
  let seed := linbox_prng_derive_process_seed (prng_seed l) (u32 the_pid) in
  exists q, (linbox_ctor (raw := kernel rfuel depth) ;; run_draws (raw := kernel rfuel depth) ds) p =
      Ok ((process_draws ds seed (seeded seed)).1, q) /\
    prng (lb (p_st q)) = (process_draws ds seed (seeded seed)).2.
Proof.
  cbv zeta. destruct (ctor_unseeded rfuel depth p cfd flags sfd r l the_pid Hlog Hi Hlis Hreg Hpid Hrand)
    as (q & Hq & Hu).
  destruct (unseeded_draws (raw := kernel rfuel depth) ds q _ _ _ Hu Hds) as (q' & Hq' & Hd).
  exists q'. rewrite M_bind_eq, Hq. split; [exact Hq'|apply Hd].
Qed.
End Startup.
