(* ===== verification/Process.v ===== *)
(** * Processes: fork, clone, exec and spawn

    Models src/shim/process.c.  An [envp] is [NULL] or a list of strings; an
    array built by the shim remembers the addresses malloc gave it, so that
    freeing is visible.  Strings and arrays of the caller have no address of
    their own.  An exec call that returns has failed. *)
From S2P Require Import Prelude Bytes Sbp ShmLayout Os Shm Env Shim.

Definition CLONE_VM : Z := 0x100.
Definition SYS_clone3 : Z := 435.
Definition sizeof_pointer : Z := 8.
Definition sizeof_clone_start : Z := 24.

Record linbox_env_binding := EnvBinding { b_name : string; b_value : option string }.

(** What [linbox_inject_runtime_env] returns: [NULL], the caller's own array, or
    a new array, with the caller's strings first and then strings of its own. *)
Inductive env_array :=
  | EnvNull
  | EnvOriginal (envp : list string)
  | EnvMerged (array : Z) (original : list string) (added : list (Z * string)).

Definition env_strings (e : env_array) : option (list string) :=
  match e with
  | EnvNull => None
  | EnvOriginal l => Some l
  | EnvMerged _ l added => Some (l ++ added.*2)
  end.

Definition env_of (envp : option (list string)) : env_array :=
  match envp with None => EnvNull | Some l => EnvOriginal l end.

(** [needed], before the empty values are skipped. *)
Definition runtime_names : list string :=
  ["LD_PRELOAD"; "LINBOX_SOCK"; "LINBOX_SHM"; "LINBOX_DISABLE_SECCOMP"].
Definition needed_bindings (environ : list string) : list linbox_env_binding :=
  (fun n => EnvBinding n (getenv environ n)) <$> runtime_names.

(** [strncmp (envp[j], name, name_len) == 0 && envp[j][name_len] == '='] for
    some [j]. *)
Definition has_binding (envp : list string) (name : string) : bool :=
  existsb (fun e => String.prefix (name +:+ "=") e) envp.

Section Process.
Context {os : OS}.

(** The first loop. *)
Fixpoint count_missing (needed : list linbox_env_binding) (envp : list string) : Z :=
  match needed with
  | [] => 0
  | b :: needed' =>
      match b_value b with
      | None | Some EmptyString => count_missing needed' envp
      | Some _ =>
          if has_binding envp (b_name b) then count_missing needed' envp
          else 1 + count_missing needed' envp
      end
  end.

Fixpoint free_all (ptrs : list Z) : MS unit :=
  match ptrs with [] => mret tt | x :: ptrs' => _ ← call (XFree x) ; free_all ptrs' end.

(** The second loop: [None] when a [malloc] failed, everything freed. *)
Fixpoint add_missing (needed : list linbox_env_binding) (envp : list string) (array : Z)
    (added : list (Z * string)) : MS (option (list (Z * string))) :=
  match needed with
  | [] => mret (Some added)
  | b :: needed' =>
      match b_value b with
      | None | Some EmptyString => add_missing needed' envp array added
      | Some value =>
          if has_binding envp (b_name b) then add_missing needed' envp array added
          else
            let entry_len := Z.of_nat (String.length (b_name b)) + Z.of_nat (String.length value) + 2 in
            ptr ← call (XMalloc entry_len) ;
            if decide (ptr = NULL) then
              free_all added.*1 ;;
              _ ← call (XFree array) ;
              mret None
            else
              add_missing needed' envp array (added ++ [(ptr, b_name b +:+ "=" +:+ value)])
      end
  end.

Definition linbox_inject_runtime_env (envp : option (list string)) : MS env_array :=
  s ← get_st ;
  let needed := needed_bindings (g_environ s) in
  let original := default [] envp in
  let count := Z.of_nat (length original) in
  let missing := count_missing needed original in
  if decide (missing = 0) then mret (env_of envp)
  else
    merged ← call (XMalloc ((count + missing + 1) * sizeof_pointer)) ;
    if decide (merged = NULL) then mret EnvNull
    else
      added ← add_missing needed original merged [] ;
      match added with
      | None => mret EnvNull
      | Some added => mret (EnvMerged merged original added)
      end.

Definition linbox_free_injected_env (envp : env_array) : MS unit :=
  match envp with
  | EnvMerged array _ added => free_all added.*1 ;; _ ← call (XFree array) ; mret tt
  | _ => mret tt
  end.

Definition linbox_send_register_process (the_pid : Z) : MS Z :=
  st ← linbox_state_get ;
  if decide (controller_connected st = false \/ controller_fd st < 0) then mret (-1)
  else
    ok ← exchange (controller_fd st)
           (SbpMessage SBP_MSG_REGISTER_PROCESS SBP_VERSION 0 (PRegisterProcess (u32 the_pid) 0)) ;
    mret (if (ok : bool) then 0 else -1).

(** The common shape of [execve], [execvpe], [posix_spawn] and [posix_spawnp]:
    resolve, inject, call, free.  [on_null] is what is returned when there is no
    merged environment. *)
Definition with_runtime_env (symbol path : string) (argv : list string)
    (envp : option (list string)) (on_null : MS Z) : MS Z :=
  ok ← LINBOX_RESOLVE_NEXT symbol ;
  if (ok : bool) then
    merged ← linbox_inject_runtime_env envp ;
    match merged with
    | EnvNull => on_null
    | _ =>
        a ← call_real symbol (XRealExec symbol path argv (env_strings merged)) ;
        linbox_free_injected_env merged ;;
        mret (ret a)
    end
  else mret (-1).

Definition fail_enomem : MS Z := set_errno ENOMEM ;; mret (-1).

Definition execve (path : string) (argv : list string) (envp : option (list string)) : MS Z :=
  with_runtime_env "execve" path argv envp fail_enomem.
Definition execvpe (file : string) (argv : list string) (envp : option (list string)) : MS Z :=
  with_runtime_env "execvpe" file argv envp fail_enomem.
Definition posix_spawn (path : string) (argv : list string) (envp : option (list string)) : MS Z :=
  with_runtime_env "posix_spawn" path argv envp (mret ENOMEM).
Definition posix_spawnp (file : string) (argv : list string) (envp : option (list string)) : MS Z :=
  with_runtime_env "posix_spawnp" file argv envp (mret ENOMEM).

(** libc's own [execvp] passes [environ]. *)
Definition execvp (file : string) (argv : list string) : MS Z :=
  ok ← LINBOX_RESOLVE_NEXT "execvp" ;
  if (ok : bool) then
    s ← get_st ;
    a ← call_real "execvp" (XRealExec "execvp" file argv (Some (g_environ s))) ;
    mret (ret a)
  else mret (-1).

Definition execv (path : string) (argv : list string) : MS Z :=
  s ← get_st ; execve path argv (Some (g_environ s)).

(** The variadic ones: [args] are the arguments from [arg0] up to the null
    pointer. *)
Definition with_argv (args : list string) (k : list string -> MS Z) : MS Z :=
  let argc := Z.of_nat (length args) in
  argv ← call (XMalloc ((argc + 1) * sizeof_pointer)) ;
  if decide (argv = NULL) then fail_enomem
  else
    rc ← k args ;
    _ ← call (XFree argv) ;
    mret rc.

Definition execl (path : string) (args : list string) : MS Z :=
  with_argv args (fun argv => s ← get_st ; execve path argv (Some (g_environ s))).
Definition execle (path : string) (args : list string) (envp : option (list string)) : MS Z :=
  with_argv args (fun argv => execve path argv envp).
Definition execlp (file : string) (args : list string) : MS Z :=
  with_argv args (fun argv => execvp file argv).

Section Children.
Context {raw : RawSyscall}.

Definition linbox_after_fork_in_child : MS unit :=
  linbox_reinit_state ;;
  the_pid ← call XGetpid ;
  _ ← linbox_send_register_process the_pid ;
  mret tt.

(** The run goes on in whichever process the answer of the real call is for. *)
Definition fork : MS Z :=
  ok ← LINBOX_RESOLVE_NEXT "fork" ;
  if (ok : bool) then
    a ← call_real "fork" (XReal "fork" [] None) ;
    (if decide (ret a = 0) then linbox_after_fork_in_child else mret tt) ;;
    mret (ret a)
  else mret (-1).

Definition vfork : MS Z := fork.

(** What [malloc] allocated for the child. *)
Record linbox_clone_start := CloneStart { cs_fn : Z; cs_arg : Z; cs_is_process : Z }.

(** The child's side; [run_fn] is the program's function. *)
Definition linbox_clone_entry (run_fn : Z -> Z -> MS Z) (start : linbox_clone_start) : MS Z :=
  (if decide (cs_is_process start <> 0) then linbox_after_fork_in_child else mret tt) ;;
  run_fn (cs_fn start) (cs_arg start).

Definition clone_start (fn flags arg : Z) : linbox_clone_start :=
  CloneStart fn arg (if decide (Z.land flags CLONE_VM = 0) then 1 else 0).

(** The parent's side. *)
Definition clone (fn stack flags arg ptid tls ctid : Z) : MS Z :=
  start ← call (XMalloc sizeof_clone_start) ;
  if decide (start = NULL) then fail_enomem
  else
    let c := clone_start fn flags arg in
    ok ← LINBOX_RESOLVE_NEXT "clone" ;
    if (ok : bool) then
      a ← call_real "clone" (XReal "clone"
            [stack; flags; start; cs_fn c; cs_arg c; cs_is_process c; ptid; tls; ctid] None) ;
      (if decide (ret a <> 0) then _ ← call (XFree start) ; mret tt else mret tt) ;;
      mret (ret a)
    else mret (-1).

(** [cl_args] is [NULL] or the [flags] of the structure. *)
Definition clone3 (cl_args : option Z) (size : Z) : MS Z :=
  a ← linbox_raw_syscall2 SYS_clone3 (if cl_args is Some _ then OBJECT else NULL) size ;
  let rc := i32 (ret a) in
  (match cl_args with
   | Some cl_flags =>
       if decide (rc = 0 /\ Z.land cl_flags CLONE_VM = 0) then linbox_after_fork_in_child else mret tt
   | None => mret tt
   end) ;;
  linbox_syscall_result rc.
End Children.
End Process.
