(* ===== verification/ProcessFacts.v ===== *)
(** * What the process functions pass on, and what they free

    Theorems about Process.v: the environment a child receives, the heap, and the
    calls that do not inject. *)
From S2P Require Import Prelude Bits Prng Sbp ShmLayout Os Shm Env Shim ShimFacts Sigsys SigsysFacts Process.
From Stdlib Require Import Ascii.

(** ** Strings *)
Fixpoint no_equals (s : string) : Prop :=
  match s with
  | EmptyString => True
  | String c s' => c <> "="%char /\ no_equals s'
  end.

Lemma substring_all s k : (String.length s <= k)%nat -> String.substring 0 k s = s.
Proof.
  revert k. induction s as [|c s IH]; intros [|k] H; cbn in *; try reflexivity; [lia|].
  rewrite IH by lia. reflexivity.
Qed.

Lemma substring_app a b k : (String.length b <= k)%nat ->
  String.substring (String.length a) k (a +:+ b) = b.
Proof. intros H. induction a as [|c a IH]; [apply substring_all, H|exact IH]. Qed.

Lemma string_length_app a b : String.length (a +:+ b) = (String.length a + String.length b)%nat.
Proof. induction a as [|c a IH]; [reflexivity|]. exact (f_equal S IH). Qed.

Lemma prefix_app a b : String.prefix a (a +:+ b) = true.
Proof.
  induction a as [|c a IH]; [destruct b; reflexivity|].
  change (String c a +:+ b) with (String c (a +:+ b)). cbn. destruct (ascii_dec c c); [exact IH|contradiction].
Qed.

(** A binding binds its own name and no other. *)
Lemma prefix_binding a b v : no_equals a -> no_equals b ->
  String.prefix (a +:+ "=") (b +:+ "=" +:+ v) = true <-> a = b.
Proof.
  revert b. induction a as [|c a IH]; intros [|d b] Ha Hb.
  - split; [auto|]. intros _. exact (prefix_app "=" v).
  - split; [|discriminate]. destruct Hb as [Hd _].
    change (String.prefix (String "=" "") (String d (b +:+ "=" +:+ v)) = true -> EmptyString = String d b).
    cbn [String.prefix]. destruct (ascii_dec "=" d); [congruence|intros Hx; discriminate Hx].
  - split; [|discriminate]. destruct Ha as [Hc _].
    change (String.prefix (String c (a +:+ "=")) (String "=" v) = true -> String c a = EmptyString). cbn [String.prefix]. destruct (ascii_dec c "="); [congruence|intros Hx; discriminate Hx].
  - destruct Ha as [Hc Ha], Hb as [Hd Hb]. specialize (IH b Ha Hb).
    change (String.prefix (String c (a +:+ "=")) (String d (b +:+ "=" +:+ v)) = true <-> String c a = String d b).
    cbn [String.prefix].
    destruct (ascii_dec c d) as [->|Hcd]; [|split; [discriminate|intros [= ? ?]; contradiction]].
    rewrite IH. split; [intros ->; reflexivity|intros [= ->]; reflexivity].
Qed.

Definition binding (name value : string) : string := name +:+ "=" +:+ value.

Lemma getenv_binding name value : getenv [binding name value] name = Some value.
Proof.
  unfold binding. cbn [getenv].
  assert (E : name +:+ "=" +:+ value = (name +:+ "=") +:+ value) by (clear; induction name as [|c name IH]; [reflexivity|exact (f_equal (String c) IH)]).
  rewrite E, prefix_app. f_equal. replace (String.length name + 1)%nat with (String.length (name +:+ "="))
    by (rewrite string_length_app; reflexivity).
  apply substring_app. rewrite string_length_app. lia.
Qed.

Lemma getenv_app l1 l2 name :
  getenv (l1 ++ l2) name = match getenv l1 name with Some v => Some v | None => getenv l2 name end.
Proof.
  induction l1 as [|e l1 IH]; [reflexivity|]. cbn [getenv app].
  destruct (String.prefix (name +:+ "=") e); [reflexivity|exact IH].
Qed.

Lemma getenv_other name n v : no_equals name -> no_equals n -> name <> n -> getenv [binding n v] name = None.
Proof.
  intros H1 H2 Hne. cbn [getenv]. destruct (String.prefix (name +:+ "=") (binding n v)) eqn:E; [|reflexivity].
  apply prefix_binding in E; [contradiction|assumption..].
Qed.

(** ** The injected environment *)

(** What [envp] should get for [name]: if it does not bind the name itself, the
    value the calling process has for it, unless that is empty. *)
Definition value_to_add (environ envp : list string) (name : string) : option (string * string) :=
  match getenv envp name, getenv environ name with
  | Some _, _ | None, None | None, Some EmptyString => None
  | None, Some v => Some (name, v)
  end.

Lemma has_binding_eq envp name :
  has_binding envp name = match getenv envp name with Some _ => true | None => false end.
Proof.
  unfold has_binding. induction envp as [|e envp IH]; [reflexivity|]. cbn [existsb getenv].
  destruct (String.prefix (name +:+ "=") e); [reflexivity|exact IH].
Qed.

(** The bindings to add, in the order of [names]. *)
Definition added_bindings (environ envp : list string) (names : list string) : list string :=
  (fun nv => binding nv.1 nv.2) <$> omap (value_to_add environ envp) names.

Definition injected (environ envp : list string) : list string :=
  envp ++ added_bindings environ envp runtime_names.

Lemma runtime_names_no_equals : Forall no_equals runtime_names.
Proof. repeat constructor; intros Hc; discriminate Hc. Qed.

Lemma value_to_add_name environ envp n n' v : value_to_add environ envp n = Some (n', v) -> n' = n.
Proof.
  unfold value_to_add. destruct (getenv envp n); [discriminate|].
  destruct (getenv environ n) as [[|c w]|]; [discriminate| |discriminate]. intros [= -> _]. reflexivity.
Qed.

Lemma getenv_added environ envp names name : no_equals name -> Forall no_equals names ->
  getenv (added_bindings environ envp names) name =
  if decide (name ∈ names) then snd <$> value_to_add environ envp name else None.
Proof.
  intros Hn HF. unfold added_bindings. induction HF as [|n names Hh HF IH]; [reflexivity|].
  cbn [omap list_omap]. destruct (decide (n = name)) as [->|Hne].
  - rewrite (decide_True (P := name ∈ name :: names)) by left.
    destruct (value_to_add environ envp name) as [[n' v]|] eqn:E.
    + apply value_to_add_name in E as ->. rewrite fmap_cons.
      change (binding (name, v).1 (name, v).2 :: ?l) with ([binding name v] ++ l).
      rewrite getenv_app, getenv_binding. reflexivity.
    + cbn in IH |- *. rewrite IH. destruct (decide _); reflexivity.
  - assert (Hd : (if decide (name ∈ n :: names) then snd <$> value_to_add environ envp name else None) =
                 (if decide (name ∈ names) then snd <$> value_to_add environ envp name else None)).
    { destruct (decide (name ∈ names)) as [H|H].
      - rewrite decide_True by (right; exact H). reflexivity.
      - rewrite decide_False; [reflexivity|]. intros [?|?]%elem_of_cons; congruence. }
    rewrite Hd, <- IH. destruct (value_to_add environ envp n) as [[n' v]|] eqn:E; [|reflexivity].
    apply value_to_add_name in E as ->. rewrite fmap_cons.
    change (binding (n, v).1 (n, v).2 :: ?l) with ([binding n v] ++ l).
    rewrite getenv_app, getenv_other by assumption || auto. reflexivity.
Qed.

(** ** What injection computes *)
Section Inject.
Context {os : OS}.

(** An allocator that never fails. *)
Definition malloc_works : Prop := forall log n, ret (os_answer log (XMalloc n)) <> NULL.

Lemma count_missing_nonneg needed envp : 0 <= count_missing needed envp.
Proof.
  induction needed as [|[n v] needed IH]; cbn; [lia|].
  destruct v as [[|c w]|]; [exact IH| |exact IH]. destruct (has_binding envp n); [exact IH|lia].
Qed.

Lemma count_missing_added environ envp names :
  count_missing ((fun n => EnvBinding n (getenv environ n)) <$> names) envp =
  Z.of_nat (length (added_bindings environ envp names)).
Proof.
  unfold added_bindings. rewrite length_fmap. induction names as [|n names IH]; [reflexivity|].
  rewrite fmap_cons. cbn [count_missing b_value b_name omap list_omap]. unfold value_to_add at 1.
  rewrite has_binding_eq. destruct (getenv envp n); [destruct (getenv environ n) as [[|c w]|]; exact IH|].
  destruct (getenv environ n) as [[|c w]|]; [exact IH| |exact IH]. cbn [length]. rewrite IH. cbn. lia.
Qed.

Lemma add_missing_eq environ envp array names : malloc_works -> forall added (p : proc shim),
  exists new q, add_missing ((fun n => EnvBinding n (getenv environ n)) <$> names) envp array added p =
    Ok (Some (added ++ new), q) /\ new.*2 = added_bindings environ envp names /\ p_st q = p_st p.
Proof.
  intros Hm. induction names as [|n names IH]; intros added p.
  - exists [], p. rewrite app_nil_r. auto.
  - rewrite fmap_cons. cbn [add_missing b_value b_name]. unfold added_bindings. cbn [omap list_omap].
    unfold value_to_add at 1. rewrite has_binding_eq.
    destruct (getenv envp n); [destruct (getenv environ n) as [[|c w]|]; apply IH|].
    destruct (getenv environ n) as [[|c w]|] eqn:E; [apply IH| |apply IH].
    cbv zeta. rewrite M_bind_eq, call_eq. cbv beta iota zeta.
    set (a := os_answer (p_log p) (XMalloc _)). rewrite (decide_False (P := ret a = NULL)) by apply Hm.
    match goal with |- context [add_missing _ _ _ ?ad ?q0] => destruct (IH ad q0) as (new & q & Hq & Hn & Hs) end.
    eexists ((ret a, n +:+ "=" +:+ String c w) :: new), q. rewrite Hq.
    split; [rewrite <- app_assoc; reflexivity|]. split; [|exact Hs].
    rewrite !fmap_cons, Hn. reflexivity.
Qed.

(** What is passed on: the caller's own array, at no cost, when there is nothing
    to add; else a new array of the caller's entries and the added ones. *)
Lemma inject_exact envp (p : proc shim) : malloc_works ->
  let own := default [] envp in
  let added := added_bindings (g_environ (p_st p)) own runtime_names in
  exists arr q, linbox_inject_runtime_env envp p = Ok (arr, q) /\ p_st q = p_st p /\
    (added = [] -> arr = env_of envp /\ q = p) /\
    (added <> [] -> exists array blocks, arr = EnvMerged array own blocks /\ blocks.*2 = added).
Proof.
  intros Hm. cbv zeta. unfold linbox_inject_runtime_env. rewrite M_bind_eq. cbn [get_st]. cbv zeta.
  unfold needed_bindings. set (own := default [] envp). set (environ := g_environ (p_st p)).
  pose proof (count_missing_added environ own runtime_names) as Hc. rewrite Hc.
  set (new := added_bindings environ own runtime_names).
  destruct (decide (Z.of_nat (length new) = 0)) as [H0|H0].
  - exists (env_of envp), p. repeat (split; [reflexivity|]). split; [auto|].
    intros H. contradiction H. destruct new; [reflexivity|cbn in H0; lia].
  - rewrite M_bind_eq, call_eq. cbv beta iota zeta. set (a := os_answer (p_log p) (XMalloc _)).
    rewrite (decide_False (P := ret a = NULL)) by apply Hm. rewrite M_bind_eq.
    match goal with |- context [add_missing _ own (ret a) [] ?q0] =>
      destruct (add_missing_eq environ own (ret a) runtime_names Hm [] q0) as (ad & q & -> & Had & Hs) end.
    eexists _, _. split; [reflexivity|]. split; [exact Hs|].
    split; [intros H; rewrite H in H0; cbn in H0; lia|]. intros _. exists (ret a), ad. auto.
Qed.

Lemma inject_eq envp (p : proc shim) : malloc_works ->
  exists arr q, linbox_inject_runtime_env (Some envp) p = Ok (arr, q) /\
    env_strings arr = Some (injected (g_environ (p_st p)) envp) /\ p_st q = p_st p.
Proof.
  intros Hm. destruct (inject_exact (Some envp) p Hm) as (arr & q & Hq & Hs & Hnone & Hsome).
  cbn [default from_option id] in Hnone, Hsome. unfold injected. exists arr, q. split; [exact Hq|]. split; [|exact Hs].
  set (added := added_bindings _ envp _) in *. destruct (decide (added = [])) as [E|E].
  - destruct (Hnone E) as [-> _]. rewrite E, app_nil_r. reflexivity.
  - destruct (Hsome E) as (array & blocks & -> & Hb). cbn. rewrite Hb. reflexivity.
Qed.

(** What a variable of the environment passed on is. *)
Lemma getenv_injected environ envp name :
  (name ∈ runtime_names ->
     getenv (injected environ envp) name =
     match getenv envp name with
     | Some v => Some v
     | None => match getenv environ name with Some EmptyString => None | o => o end
     end) /\
  (no_equals name -> name ∉ runtime_names -> getenv (injected environ envp) name = getenv envp name).
Proof.
  unfold injected. pose proof runtime_names_no_equals as HF. rewrite getenv_app. split; intros Hn.
  - rewrite getenv_added by (try exact HF; rewrite Forall_forall in HF; apply HF, Hn).
    rewrite decide_True by exact Hn. unfold value_to_add. destruct (getenv envp name); [reflexivity|].
    destruct (getenv environ name) as [[|c w]|]; reflexivity.
  - intros Hnin. rewrite getenv_added by assumption. rewrite decide_False by exact Hnin.
    destruct (getenv envp name); reflexivity.
Qed.

(** C15: children stay in the sandbox. Given memory, the environment passed on
    is, string by string, the caller's (none for a null array) followed by one
    entry [name=value] for each of LD_PRELOAD, LINBOX_SOCK, LINBOX_SHM and
    LINBOX_DISABLE_SECCOMP, in this order, that the caller's array does not bind
    and to which the calling process's own environment gives a value that is not
    empty, and nothing else. When there is none to add the caller's own array is
    passed, and nothing is allocated; else a new one. So the child sees for each
    of the four names what the caller's array says, else what the calling
    process's environment does if not empty; and every other variable as the
    caller set it. *)
Theorem inject_runtime_env_spec (envp : option (list string)) (p : proc shim) (Hm : malloc_works) :
  let own := default [] envp in
  let added := added_bindings (g_environ (p_st p)) own runtime_names in
  exists arr q, linbox_inject_runtime_env envp p = Ok (arr, q) /\ p_st q = p_st p /\
    (added = [] -> arr = env_of envp /\ q = p) /\
    (added <> [] -> env_strings arr = Some (own ++ added) /\
       exists array blocks, arr = EnvMerged array own blocks /\ blocks.*2 = added) /\
    forall name,
      (name ∈ runtime_names ->
         getenv (own ++ added) name =
         match getenv own name with
         | Some v => Some v
         | None => match getenv (g_environ (p_st p)) name with Some EmptyString => None | o => o end
         end) /\
      (no_equals name -> name ∉ runtime_names -> getenv (own ++ added) name = getenv own name).
Proof.
  cbv zeta. destruct (inject_exact envp p Hm) as (arr & q & Hq & Hs & Hnone & Hsome).
  exists arr, q. split; [exact Hq|]. split; [exact Hs|]. split; [exact Hnone|]. split.
  - intros H. destruct (Hsome H) as (array & blocks & -> & Hb). split; [cbn; rewrite Hb; reflexivity|]. eauto.
  - intros name. exact (getenv_injected (g_environ (p_st p)) (default [] envp) name).
Qed.
End Inject.


(** ** The heap

    The blocks a log leaves allocated, in any order. *)
Definition heap_step (live : list Z) (e : event) : list Z :=
  match e with
  | (XMalloc _, a) => if decide (ret a = NULL) then live else ret a :: live
  | (XFree ptr, _) => delete_one ptr live
  | _ => live
  end.
Definition live_blocks (log : list event) : list Z := foldl heap_step [] log.

#[export] Instance heap_step_Permutation : Proper ((≡ₚ) ==> (=) ==> (≡ₚ)) heap_step.
Proof.
  intros l1 l2 H [x a] _ <-. destruct x; cbn; try destruct (decide _); rewrite ?H; reflexivity.
Qed.

Section Heap.
Context {os : OS}.

Lemma heap_call x (p q : proc shim) r live :
  call x p = Ok (r, q) -> live_blocks (p_log p) ≡ₚ live ->
  exists a, r = ret a /\ live_blocks (p_log q) ≡ₚ heap_step live (x, a).
Proof.
  intros [= <- <-] H. eexists. split; [reflexivity|]. unfold live_blocks. cbn [p_log]. rewrite foldl_app. cbn [foldl].
  rewrite H. reflexivity.
Qed.

(** Code that neither allocates nor frees. *)
Definition heap_free {A} (m : MS A) : Prop :=
  forall p a q, m p = Ok (a, q) -> live_blocks (p_log q) = live_blocks (p_log p).

Lemma heap_free_bind {A B} (m : MS A) (f : A -> MS B) :
  heap_free m -> (forall a, heap_free (f a)) -> heap_free (a ← m; f a).
Proof.
  intros Hm Hf p b q H. apply M_bind_Ok in H as (a & p' & H1 & H2). rewrite (Hf _ _ _ _ H2). exact (Hm _ _ _ H1).
Qed.

Lemma heap_free_silent {A} (m : MS A) : (forall p a q, m p = Ok (a, q) -> p_log q = p_log p) -> heap_free m.
Proof. intros H p a q Hr. rewrite (H _ _ _ Hr). reflexivity. Qed.

Lemma heap_free_ret {A} (a : A) : heap_free (mret a).
Proof. apply heap_free_silent. intros p b q [= _ <-]. reflexivity. Qed.

Lemma heap_free_callA x : (forall a live, heap_step live (x, a) = live) -> heap_free (callA x).
Proof.
  intros Hx p a q [= <- <-]. cbn [p_log]. unfold live_blocks. rewrite foldl_app. cbn [foldl]. apply Hx.
Qed.

Lemma heap_free_resolve symbol : heap_free (LINBOX_RESOLVE_NEXT symbol).
Proof.
  unfold LINBOX_RESOLVE_NEXT. apply heap_free_bind; [apply heap_free_silent; intros p a q [= _ <-]; reflexivity|].
  intros s. destruct (decide _); [apply heap_free_silent; intros p a q [= _ <-]; reflexivity|].
  destruct (resolving (lb s)); [apply heap_free_silent; intros p a q H; inv_M; injection Hm as _ <-; reflexivity|].
  apply heap_free_bind; [apply heap_free_silent; intros p a q [= _ <-]; reflexivity|]. intros _.
  apply heap_free_bind; [apply heap_free_bind; [apply heap_free_callA; reflexivity|intros; apply heap_free_silent; intros p a0 q [= _ <-]; reflexivity]|].
  intros ptr. apply heap_free_silent. intros p a q H. inv_M. injection Hm as _ <-. injection Hm0 as _ <-. reflexivity.
Qed.

Lemma heap_free_call_real symbol x : (forall a live, heap_step live (x, a) = live) -> heap_free (call_real symbol x).
Proof.
  intros Hx. unfold call_real. apply heap_free_bind; [apply heap_free_silent; intros p a q [= _ <-]; reflexivity|].
  intros s. destruct (decide _); [intros p a q [=]|apply heap_free_callA, Hx].
Qed.

Lemma free_all_heap ptrs : forall live (p q : proc shim) u,
  free_all ptrs p = Ok (u, q) -> live_blocks (p_log p) ≡ₚ ptrs ++ live -> live_blocks (p_log q) ≡ₚ live.
Proof.
  induction ptrs as [|x ptrs IH]; intros live p q u H Hl; cbn [free_all] in H; [inv_M; exact Hl|].
  apply M_bind_Ok in H as (r & p1 & H1 & H). destruct (heap_call _ _ _ _ _ H1 Hl) as (a & _ & Hl1).
  cbn in Hl1. rewrite decide_True in Hl1 by reflexivity. exact (IH _ _ _ _ H Hl1).
Qed.

Lemma free_call_heap x live (p q : proc shim) r :
  call (XFree x) p = Ok (r, q) -> live_blocks (p_log p) ≡ₚ x :: live -> live_blocks (p_log q) ≡ₚ live.
Proof.
  intros H Hl. destruct (heap_call _ _ _ _ _ H Hl) as (a & _ & Hl1). cbn in Hl1.
  rewrite decide_True in Hl1 by reflexivity. exact Hl1.
Qed.

Lemma add_missing_heap envp array live needed : forall added (p q : proc shim) r,
  add_missing needed envp array added p = Ok (r, q) ->
  live_blocks (p_log p) ≡ₚ added.*1 ++ array :: live ->
  live_blocks (p_log q) ≡ₚ match r with Some added' => added'.*1 ++ array :: live | None => live end.
Proof.
  induction needed as [|b needed IH]; intros added p q r H Hl; cbn [add_missing] in H; [inv_M; exact Hl|].
  destruct (b_value b) as [[|c w]|]; [exact (IH _ _ _ _ H Hl)| |exact (IH _ _ _ _ H Hl)].
  destruct (has_binding envp (b_name b)); [exact (IH _ _ _ _ H Hl)|]. cbv zeta in H.
  apply M_bind_Ok in H as (ptr & p1 & H1 & H). destruct (heap_call _ _ _ _ _ H1 Hl) as (a & -> & Hl1). clear H1.
  cbn in Hl1. destruct (decide (ret a = NULL)) as [Hn|Hn].
  - apply M_bind_Ok in H as (u & p2 & H2 & H). pose proof (free_all_heap _ _ _ _ _ H2 Hl1) as Hl2.
    apply M_bind_Ok in H as (u3 & p3 & H3 & H). pose proof (free_call_heap _ _ _ _ _ H3 Hl2) as Hl3. inv_M. exact Hl3.
  - apply (IH _ _ _ _ H). rewrite fmap_app, <- app_assoc. cbn. rewrite Hl1. apply Permutation_middle.
Qed.

(** The blocks an injected environment owns. *)
Definition env_blocks (e : env_array) : list Z :=
  match e with EnvMerged array _ added => added.*1 ++ [array] | _ => [] end.

Lemma inject_heap envp live (p q : proc shim) arr :
  linbox_inject_runtime_env envp p = Ok (arr, q) -> live_blocks (p_log p) ≡ₚ live ->
  live_blocks (p_log q) ≡ₚ env_blocks arr ++ live.
Proof.
  unfold linbox_inject_runtime_env. intros H Hl. apply M_bind_Ok in H as (s & p0 & H0 & H). injection H0 as <- <-.
  cbv zeta in H. destruct (decide _); [inv_M; destruct envp; exact Hl|].
  apply M_bind_Ok in H as (m & p1 & H1 & H). destruct (heap_call _ _ _ _ _ H1 Hl) as (a & -> & Hl1). clear H1.
  cbn in Hl1. destruct (decide (ret a = NULL)); [inv_M; exact Hl1|].
  apply M_bind_Ok in H as (ad & p2 & H2 & H). apply (add_missing_heap _ _ _ _ _ _ _ _ H2) in Hl1.
  destruct ad as [ad|]; inv_M; cbn; [rewrite <- app_assoc; exact Hl1|exact Hl1].
Qed.

Lemma free_injected_heap e live (p q : proc shim) u :
  linbox_free_injected_env e p = Ok (u, q) -> live_blocks (p_log p) ≡ₚ env_blocks e ++ live ->
  live_blocks (p_log q) ≡ₚ live.
Proof.
  intros H Hl. destruct e as [|l|array l added]; cbn [linbox_free_injected_env] in H; [inv_M; exact Hl..|].
  apply M_bind_Ok in H as (u1 & p1 & H1 & H). cbn in Hl. rewrite <- app_assoc in Hl.
  pose proof (free_all_heap _ _ _ _ _ H1 Hl) as Hl1.
  apply M_bind_Ok in H as (u2 & p2 & H2 & H). inv_M. exact (free_call_heap _ _ _ _ _ H2 Hl1).
Qed.

Lemma heap_free_enomem : heap_free fail_enomem.
Proof. apply heap_free_silent. intros p a q H. unfold fail_enomem in H. inv_M. injection Hm as _ <-. reflexivity. Qed.

Lemma with_runtime_env_heap symbol path argv envp on_null live (p q : proc shim) rc :
  heap_free on_null -> with_runtime_env symbol path argv envp on_null p = Ok (rc, q) ->
  live_blocks (p_log p) ≡ₚ live -> live_blocks (p_log q) ≡ₚ live.
Proof.
  intros Hnull H Hl. unfold with_runtime_env in H. apply M_bind_Ok in H as (ok & p1 & H1 & H).
  rewrite <- (heap_free_resolve _ _ _ _ H1) in Hl. destruct ok; [|inv_M; exact Hl].
  apply M_bind_Ok in H as (merged & p2 & H2 & H). pose proof (inject_heap _ _ _ _ _ H2 Hl) as Hl2.
  assert (Hrest : (a ← call_real symbol (XRealExec symbol path argv (env_strings merged)) ;
      linbox_free_injected_env merged ;; mret (ret a)) p2 = Ok (rc, q) -> live_blocks (p_log q) ≡ₚ live).
  { intros H'. apply M_bind_Ok in H' as (a & p3 & H3 & H'). 
    rewrite <- (heap_free_call_real symbol (XRealExec symbol path argv (env_strings merged)) ltac:(reflexivity) _ _ _ H3) in Hl2.
    apply M_bind_Ok in H' as (u & p4 & H4 & H'). inv_M. exact (free_injected_heap _ _ _ _ _ H4 Hl2). }
  destruct merged; [|exact (Hrest H)..]. rewrite (Hnull _ _ _ H). exact Hl2.
Qed.

Lemma execve_heap path argv envp live (p q : proc shim) rc :
  execve path argv envp p = Ok (rc, q) -> live_blocks (p_log p) ≡ₚ live -> live_blocks (p_log q) ≡ₚ live.
Proof. apply with_runtime_env_heap, heap_free_enomem. Qed.

Lemma with_argv_heap args k live (p q : proc shim) rc :
  (forall argv live p q rc, k argv p = Ok (rc, q) -> live_blocks (p_log p) ≡ₚ live -> live_blocks (p_log q) ≡ₚ live) ->
  with_argv args k p = Ok (rc, q) -> live_blocks (p_log p) ≡ₚ live -> live_blocks (p_log q) ≡ₚ live.
Proof.
  intros Hk H Hl. unfold with_argv in H. cbv zeta in H. apply M_bind_Ok in H as (av & p1 & H1 & H).
  destruct (heap_call _ _ _ _ _ H1 Hl) as (a & -> & Hl1). clear H1. cbn in Hl1.
  destruct (decide (ret a = NULL)); [rewrite (heap_free_enomem _ _ _ H); exact Hl1|].
  apply M_bind_Ok in H as (r & p2 & H2 & H). pose proof (Hk _ _ _ _ _ H2 Hl1) as Hl2.
  apply M_bind_Ok in H as (u & p3 & H3 & H). inv_M. exact (free_call_heap _ _ _ _ _ H3 Hl2).
Qed.

(** C33: a call of the exec or spawn family that returns leaks no memory:
    whatever malloc and libc answer, every block allocated for the merged
    environment and the argument array has been freed, on each error path too.
    *)
Theorem exec_family_no_leak (path : string) (args : list string) (envp : option (list string))
    (p q : proc shim) (rc : Z) (live : list Z) (Hl : live_blocks (p_log p) ≡ₚ live)
    (Hrun : execve path args envp p = Ok (rc, q) \/ execvpe path args envp p = Ok (rc, q) \/
            posix_spawn path args envp p = Ok (rc, q) \/ posix_spawnp path args envp p = Ok (rc, q) \/
            execv path args p = Ok (rc, q) \/ execvp path args p = Ok (rc, q) \/
            execl path args p = Ok (rc, q) \/ execle path args envp p = Ok (rc, q) \/
            execlp path args p = Ok (rc, q)) :
  live_blocks (p_log q) ≡ₚ live.
Proof.
  assert (Henv : forall argv live (p q : proc shim) rc,
    (s ← get_st ; execve path argv (Some (g_environ s))) p = Ok (rc, q) ->
    live_blocks (p_log p) ≡ₚ live -> live_blocks (p_log q) ≡ₚ live).
  { intros argv live0 p0 q0 rc0 H. apply M_bind_Ok in H as (s & p1 & H1 & H). injection H1 as <- <-.
    apply (execve_heap _ _ _ _ _ _ _ H). }
  assert (Hvp : forall argv live (p q : proc shim) rc, execvp path argv p = Ok (rc, q) ->
    live_blocks (p_log p) ≡ₚ live -> live_blocks (p_log q) ≡ₚ live).
  { intros argv live0 p0 q0 rc0 H Hl0. unfold execvp in H. apply M_bind_Ok in H as (ok & p1 & H1 & H).
    rewrite <- (heap_free_resolve _ _ _ _ H1) in Hl0. destruct ok; [|inv_M; exact Hl0].
    apply M_bind_Ok in H as (s & p2 & H2 & H). injection H2 as <- <-.
    apply M_bind_Ok in H as (a & p3 & H3 & H). inv_M.
    rewrite (heap_free_call_real "execvp" (XRealExec "execvp" path argv _) ltac:(reflexivity) _ _ _ H3). exact Hl0. }
  destruct Hrun as [H|[H|[H|[H|[H|[H|[H|[H|H]]]]]]]].
  - exact (execve_heap _ _ _ _ _ _ _ H Hl).
  - exact (with_runtime_env_heap _ _ _ _ _ _ _ _ _ heap_free_enomem H Hl).
  - exact (with_runtime_env_heap _ _ _ _ (mret ENOMEM) _ _ _ _ (heap_free_ret _) H Hl).
  - exact (with_runtime_env_heap _ _ _ _ (mret ENOMEM) _ _ _ _ (heap_free_ret _) H Hl).
  - exact (Henv _ _ _ _ _ H Hl).
  - exact (Hvp _ _ _ _ _ H Hl).
  - exact (with_argv_heap _ _ _ _ _ _ Henv H Hl).
  - exact (with_argv_heap _ _ _ _ _ _ (fun argv live p q rc => execve_heap path argv envp live p q rc) H Hl).
  - exact (with_argv_heap _ _ _ _ _ _ Hvp H Hl).
Qed.
End Heap.


(** ** What is executed *)
Section Exec.
Context {os : OS}.

Lemma resolved symbol (p : proc shim) : real_ptr (p_st p) symbol <> NULL -> LINBOX_RESOLVE_NEXT symbol p = Ok (true, p).
Proof. intros H. unfold LINBOX_RESOLVE_NEXT. rewrite M_bind_eq. cbn [get_st]. rewrite decide_True by exact H. reflexivity. Qed.

Lemma call_real_eq symbol x (p : proc shim) : real_ptr (p_st p) symbol <> NULL -> call_real symbol x p = callA x p.
Proof. intros H. unfold call_real. rewrite M_bind_eq. cbn [get_st]. rewrite decide_False by exact H. reflexivity. Qed.

Lemma free_all_total ptrs : forall (p : proc shim), exists e new,
  free_all ptrs p = Ok (tt, Proc (p_st p) e (p_mem p) (p_log p ++ new)).
Proof.
  induction ptrs as [|x ptrs IH]; intros p; cbn [free_all].
  - exists (p_errno p), []. rewrite app_nil_r. destruct p. reflexivity.
  - rewrite M_bind_eq, call_eq. cbv beta iota zeta.
    match goal with |- context [free_all ptrs ?q] => destruct (IH q) as (e & new & ->) end.
    eexists e, _. cbn [p_st p_mem p_log]. rewrite <- app_assoc. reflexivity.
Qed.

Lemma free_injected_total arr (p : proc shim) : exists e new,
  linbox_free_injected_env arr p = Ok (tt, Proc (p_st p) e (p_mem p) (p_log p ++ new)).
Proof.
  destruct arr as [|l|array l added]; cbn [linbox_free_injected_env];
    try (exists (p_errno p), []; rewrite app_nil_r; destruct p; reflexivity).
  rewrite M_bind_eq. destruct (free_all_total added.*1 p) as (e & new & ->).
  rewrite M_bind_eq, call_eq. cbv beta iota zeta. cbn [p_st p_mem p_log]. rewrite <- app_assoc.
  eexists _, _. reflexivity.
Qed.

Lemma add_missing_mem needed envp array : forall added (p q : proc shim) r,
  add_missing needed envp array added p = Ok (r, q) -> p_mem q = p_mem p.
Proof.
  induction needed as [|b needed IH]; intros added p q r H; cbn [add_missing] in H; [inv_M; reflexivity|].
  destruct (b_value b) as [[|c w]|]; [exact (IH _ _ _ _ H)| |exact (IH _ _ _ _ H)].
  destruct (has_binding envp (b_name b)); [exact (IH _ _ _ _ H)|]. cbv zeta in H.
  apply M_bind_Ok in H as (ptr & p1 & H1 & H). injection H1 as _ <-.
  destruct (decide (ptr = NULL)); [|exact (IH _ _ _ _ H)].
  apply M_bind_Ok in H as (u & p2 & H2 & H). match type of H2 with free_all _ ?q0 = _ =>
    destruct (free_all_total added.*1 q0) as (e0 & new & E) end.
  rewrite E in H2. injection H2 as <- <-.
  apply M_bind_Ok in H as (u3 & p3 & H3 & H). injection H3 as _ <-. inv_M. reflexivity.
Qed.

Lemma inject_mem envp (p q : proc shim) arr :
  linbox_inject_runtime_env envp p = Ok (arr, q) -> p_mem q = p_mem p.
Proof.
  unfold linbox_inject_runtime_env. intros H. apply M_bind_Ok in H as (s & p0 & H0 & H). injection H0 as <- <-.
  cbv zeta in H. destruct (decide _); [inv_M; reflexivity|].
  apply M_bind_Ok in H as (m & p1 & H1 & H). injection H1 as _ <-.
  destruct (decide (m = NULL)); [inv_M; reflexivity|].
  apply M_bind_Ok in H as (ad & p2 & H2 & H). apply add_missing_mem in H2. destruct ad; inv_M; exact H2.
Qed.

(** [execve] hands libc the path and arguments it was given and the injected
    environment, and returns what libc returned. *)
Theorem execve_passes_injected (path : string) (argv envp : list string) (p : proc shim)
    (Hm : malloc_works) (Hr : real_ptr (p_st p) "execve" <> NULL) :
  exists log a log' e st, execve path argv (Some envp) p = Ok (ret a, Proc st e (p_mem p) log') /\
    a = os_answer log (XRealExec "execve" path argv (Some (injected (g_environ (p_st p)) envp))) /\
    (XRealExec "execve" path argv (Some (injected (g_environ (p_st p)) envp)), a) ∈ log'.
Proof.
  unfold execve, with_runtime_env. rewrite M_bind_eq, resolved by exact Hr. rewrite M_bind_eq.
  destruct (inject_eq envp p Hm) as (arr & q & Hq & Hstr & Hs). rewrite Hq.
  assert (Hmem : p_mem q = p_mem p) by exact (inject_mem _ _ _ _ Hq).
  assert (Hrest : exists log a log' e st,
    (a ← call_real "execve" (XRealExec "execve" path argv (env_strings arr)) ;
     linbox_free_injected_env arr ;; mret (ret a)) q = Ok (ret a, Proc st e (p_mem p) log') /\
    a = os_answer log (XRealExec "execve" path argv (Some (injected (g_environ (p_st p)) envp))) /\
    (XRealExec "execve" path argv (Some (injected (g_environ (p_st p)) envp)), a) ∈ log').
  { rewrite M_bind_eq, call_real_eq by (rewrite Hs; exact Hr). rewrite Hstr. unfold callA. cbv beta iota zeta.
    set (x := XRealExec _ _ _ _). set (a := os_answer (p_log q) x). rewrite M_bind_eq.
    match goal with |- context [linbox_free_injected_env arr ?q1] =>
      destruct (free_injected_total arr q1) as (e & new & Hf) end. rewrite Hf. cbn [p_st p_mem p_log].
    exists (p_log q), a, ((p_log q ++ [(x, a)]) ++ new), e, (p_st q). rewrite Hmem. split; [reflexivity|].
    split; [reflexivity|]. rewrite elem_of_app, elem_of_app. left. right. left. }
  destruct arr; [discriminate|exact Hrest..].
Qed.
End Exec.


(** A null environment is mistaken for a failed allocation: when the calling
    process has none of the runtime variables set, [execve] and [posix_spawn]
    with a null [envp], which Linux takes for an empty environment, report
    [ENOMEM] and execute nothing. *)
Theorem null_envp_refused {os : OS} (path : string) (argv : list string) (p : proc shim)
    (Hunset : forall name, name ∈ runtime_names -> getenv (g_environ (p_st p)) name = None)
    (He : real_ptr (p_st p) "execve" <> NULL) (Hs : real_ptr (p_st p) "posix_spawn" <> NULL) :
  execve path argv None p = Ok (-1, Proc (p_st p) ENOMEM (p_mem p) (p_log p)) /\
  posix_spawn path argv None p = Ok (ENOMEM, p).
Proof.
  assert (Hinj : linbox_inject_runtime_env None p = Ok (EnvNull, p)).
  { unfold linbox_inject_runtime_env. rewrite M_bind_eq. cbn [get_st]. cbv zeta. unfold needed_bindings.
    rewrite count_missing_added. unfold added_bindings.
    replace (omap _ runtime_names) with (@nil (string * string)); [reflexivity|].
    symmetry. unfold runtime_names. cbn [omap list_omap]. unfold value_to_add.
    cbn [default from_option getenv]. rewrite !Hunset by (unfold runtime_names; set_solver). reflexivity. }
  unfold execve, posix_spawn, with_runtime_env.
  split; rewrite M_bind_eq, resolved by assumption; rewrite M_bind_eq, Hinj; reflexivity.
Qed.

(** ** The forked child *)
Section Child.
Context {os : OS} {raw : RawSyscall}.

Lemma detach_total h (p : proc shim) : exists h' e log,
  linbox_shm_detach (Some h) p = Ok (h', Proc (p_st p) e (p_mem p) log) /\ filters log = filters (p_log p).
Proof.
  unfold linbox_shm_detach. rewrite M_bind_eq.
  assert (Hcall : forall (P : Prop) (d : Decision P) x (q : proc shim), (forall args, x <> XPrctl args) -> exists e log,
    (if decide P then _ ← call x ; mret tt else mret tt) q = Ok (tt, Proc (p_st q) e (p_mem q) log) /\
    filters log = filters (p_log q)).
  { intros P d x q Hx. destruct (decide P); [|destruct q; eexists _, _; split; reflexivity].
    eexists _, _. split; [reflexivity|]. rewrite filters_app. destruct x; try apply app_nil_r.
    exfalso. eapply Hx. reflexivity. }
  destruct (Hcall (layout h <> NULL /\ layout h <> MAP_FAILED) _ (XMunmap (layout h) (size h)) p)
    as (e1 & log1 & -> & F1); [discriminate|]. rewrite M_bind_eq.
  destruct (Hcall (fd h >= 0) _ (XClose (fd h)) (Proc (p_st p) e1 (p_mem p) log1))
    as (e2 & log2 & -> & F2); [discriminate|].
  eexists _, _, _. split; [reflexivity|]. cbn [p_log] in F2. congruence.
Qed.

(** Up to the new initialisation, re-initialising only forgets. *)
Lemma reinit_forgets (p : proc shim) : exists p',
  linbox_reinit_state p = linbox_init_state p' /\ initialized (lb (p_st p')) = false /\
  g_environ (p_st p') = g_environ (p_st p) /\ p_mem p' = p_mem p /\ filters (p_log p') = filters (p_log p).
Proof.
  unfold linbox_reinit_state. rewrite M_bind_eq, state_get_eq, M_bind_eq. set (st := lb (p_st p)).
  assert (Hclose : exists s1 e1 log1, (if decide (controller_fd st >= 0)
      then _ ← call (XClose (controller_fd st)) ; update (set_controller_fd (-1)) else mret tt) p =
      Ok (tt, Proc s1 e1 (p_mem p) log1) /\ g_environ s1 = g_environ (p_st p) /\ filters log1 = filters (p_log p)).
  { destruct (decide _).
    - eexists _, _, _. split; [reflexivity|]. split; [reflexivity|]. cbn [p_log]. rewrite filters_app. apply app_nil_r.
    - exists (p_st p), (p_errno p), (p_log p). destruct p. auto. }
  destruct Hclose as (s1 & e1 & log1 & -> & Henv & Hf1). do 4 (rewrite M_bind_eq, update_Proc). rewrite M_bind_eq.
  destruct (decide (fd (shm st) >= 0)).
  - rewrite M_bind_eq. match goal with |- context [linbox_shm_detach (Some (shm st)) ?q] =>
      destruct (detach_total (shm st) q) as (h' & e2 & log2 & -> & Hf2) end. cbn [p_st p_mem p_log] in *.
    rewrite update_Proc, M_bind_eq, update_Proc. eexists. split; [reflexivity|].
    cbn [p_st p_mem p_log]. split; [reflexivity|]. split; [exact Henv|]. split; [reflexivity|congruence].
  - unfold mret at 1, M_ret at 1. rewrite M_bind_eq, update_Proc. eexists. split; [reflexivity|]. cbn. auto.
Qed.

Lemma send_register_total the_pid (p : proc shim) rc q :
  linbox_send_register_process the_pid p = Ok (rc, q) -> p_st q = p_st p /\ p_mem q = p_mem p.
Proof.
  unfold linbox_send_register_process. intros H. apply M_bind_Ok in H as (st & p1 & H1 & H). injection H1 as <- <-.
  destruct (decide _); [inv_M; auto|]. apply M_bind_Ok in H as (ok & p2 & H2 & H).
  apply exchange_keeps in H2. inv_M. exact H2.
Qed.

Definition register_message (the_pid : Z) : sbp_message :=
  SbpMessage SBP_MSG_REGISTER_PROCESS SBP_VERSION 0 (PRegisterProcess (u32 the_pid) 0).

Lemma register_message_ok the_pid : message_ok (register_message the_pid).
Proof.
  split; [split; [discriminate|reflexivity]|]. split; [split; [discriminate|reflexivity]|].
  split; [reflexivity|]. split; [apply wrap_range; lia|split; [discriminate|reflexivity]].
Qed.

End Child.

(** C19: a forked child of a process without the filter (started with
    LINBOX_DISABLE_SECCOMP) gets a stream of its own: with a controller
    listening, the child of [fork] ends up connected, registered under its own
    identifier, and with a generator seeded from the published seed and its own
    identifier; nothing of the parent's generator remains, and the child's seed
    differs from the one of any process with another identifier. Under the
    filter the child never gets that far: no_child_survives_filter in
    Trapping.v. *)
Theorem forked_child_own_stream {os : OS} {Hquiet : QuietMemory} {kernel : nat -> nat -> RawSyscall}
    {Hkernel : SeccompKernel kernel} (rfuel depth : nat) (p : proc shim) (cfd flags flags' sfd r : Z)
    (l : linbox_shm_layout) (the_pid : Z)
    (Hlog : filters (p_log p) = [])
    (Hlis : listening (sock_of (g_environ (p_st p))) cfd flags)
    (Hreg : region_at (shm_of (g_environ (p_st p))) sfd r (p_mem p) l)
    (Hack : acknowledges cfd (register_message the_pid) flags')
    (Hpid : forall log, ret (os_answer log XGetpid) = the_pid)
    (Hfork : real_ptr (p_st p) "fork" <> NULL)
    (Hchild : ret (os_answer (p_log p) (XReal "fork" [] None)) = 0) :
  exists q, fork (raw := kernel rfuel depth) p = Ok (0, q) /\ p_mem q = p_mem p /\
    let st := lb (p_st q) in
    controller_connected st = true /\ controller_fd st = cfd /\
    effective_seed st = linbox_prng_derive_process_seed (prng_seed l) (u32 the_pid) /\
    prng st = seeded (effective_seed st) /\
    (exists a, (XWrite cfd (message_bytes (register_message the_pid)), a) ∈ p_log q) /\
    forall other, in_u 64 (prng_seed l) -> in_u 32 other -> other <> u32 the_pid ->
      effective_seed st <> linbox_prng_derive_process_seed (prng_seed l) other.
Proof.
  unfold fork. rewrite M_bind_eq, resolved by exact Hfork. rewrite M_bind_eq, call_real_eq by exact Hfork.
  unfold callA. set (x := XReal "fork" [] None) in *. cbv beta iota zeta.
  rewrite M_bind_eq, Hchild. rewrite decide_True by reflexivity. unfold linbox_after_fork_in_child.
  match goal with |- context [mbind _ linbox_reinit_state ?q0] =>
    destruct (reinit_forgets (raw := kernel rfuel depth) q0) as (p1 & Hre & Hi & Henv & Hmem & Hfil) end. rewrite M_bind_eq, Hre.
  cbn [p_st p_mem p_log] in Henv, Hmem, Hfil. rewrite <- Henv in Hlis, Hreg. rewrite <- Hmem in Hreg.
  assert (Hclk : clock_untrapped (raw := kernel rfuel depth) p1).
  { apply unfiltered_clock. rewrite Hfil, filters_app, Hlog. reflexivity. }
  destruct (init_connected_eq p1 cfd flags sfd r l the_pid Hclk Hi Hlis Hreg Hpid)
    as (q & Hq & Hmq & _ & _ & _ & _ & Hc & Hcf & _ & _ & Heff & Hprng).
  rewrite Hq, M_bind_eq, call_eq. cbv beta iota zeta. rewrite Hpid, M_bind_eq.
  unfold linbox_send_register_process. rewrite M_bind_eq, state_get_eq. cbn [p_st].
  rewrite decide_False by (rewrite Hc, Hcf; destruct Hlis; intros [?|?]; [discriminate|lia]).
  rewrite M_bind_eq, Hcf. fold (register_message the_pid).
  match goal with |- context [exchange cfd (register_message the_pid) ?q0] =>
    destruct (exchange_acked cfd _ flags' q0 (register_message_ok the_pid) Hack) as (e & log & -> & Hsent) end.
  eexists. split; [reflexivity|]. cbn [p_st p_mem p_log]. split; [congruence|]. cbv zeta.
  split; [exact Hc|]. split; [exact Hcf|]. split; [exact Heff|]. split; [rewrite Heff; exact Hprng|].
  split; [exact Hsent|]. intros other Hs Ho Hne. rewrite Heff. intros H. apply Hne. symmetry.
  refine (proj1 (derive_process_seed_inj (prng_seed l) (prng_seed l) (u32 the_pid) other Hs Hs _ Ho) H).
  apply wrap_range. lia.
Qed.
