(* ===== verification/CloneRecord.v ===== *)
(** * The start record of clone

    [clone] of src/shim/process.c passes the child its function, its argument and
    whether it is a process in a record on the heap, and frees the record when the
    kernel has returned to the parent; the child reads it in [linbox_clone_entry].
    Parent and child run at once.  A step here is one access of either to the
    record, in the memory they share ([CLONE_VM]) or each in its own copy; with
    [CLONE_VFORK] the kernel holds the parent back until the child has executed a
    program or exited. *)
From S2P Require Import Prelude ShmLayout Os Shim Process.

Definition CLONE_VFORK : Z := 0x4000.

(** Where the child is: it has read nothing, whether it is a process, also its
    function; it has called the function; it is gone; it has read freed memory. *)
Inductive child_pc :=
  | ChEntry
  | ChFlag (is_process : Z)
  | ChFn (is_process fn : Z)
  | ChCalled (is_process fn arg : Z)
  | ChGone (is_process fn arg : Z)
  | ChFault.

(** The record as the child sees it, [None] when freed; whether the parent has
    freed it and so returns from [clone]; the child. *)
Record clone_state := CloneState {
  cl_record : option linbox_clone_start; cl_returned : bool; cl_child : child_pc }.

Definition read_field (s : clone_state) (next : linbox_clone_start -> child_pc) : clone_state :=
  CloneState (cl_record s) (cl_returned s) (match cl_record s with Some c => next c | None => ChFault end).

Definition gone (pc : child_pc) : Prop := match pc with ChGone _ _ _ => True | _ => False end.

Inductive clone_step (flags : Z) : clone_state -> clone_state -> Prop :=
  | child_flag s : cl_child s = ChEntry ->
      clone_step flags s (read_field s (fun c => ChFlag (cs_is_process c)))
  | child_fn s b : cl_child s = ChFlag b ->
      clone_step flags s (read_field s (fun c => ChFn b (cs_fn c)))
  | child_arg s b f : cl_child s = ChFn b f ->
      clone_step flags s (read_field s (fun c => ChCalled b f (cs_arg c)))
  | child_ends r p b f a :
      clone_step flags (CloneState r p (ChCalled b f a)) (CloneState r p (ChGone b f a))
  | parent_free r ch : (Z.land flags CLONE_VFORK <> 0 -> gone ch) ->
      clone_step flags (CloneState r false ch)
        (CloneState (if decide (Z.land flags CLONE_VM = 0) then r else None) true ch).

(** The kernel has made the child. *)
Definition cloned (fn flags arg : Z) : clone_state :=
  CloneState (Some (clone_start fn flags arg)) false ChEntry.

Section Record.
Context {fn flags arg : Z}.
Abbreviation start := (clone_start fn flags arg).

(** What the child has read is what the caller passed; the record is there while
    the child may still read it. *)
Definition record_inv (s : clone_state) : Prop :=
  (cl_record s = Some start \/ (cl_record s = None /\ gone (cl_child s))) /\
  match cl_child s with
  | ChEntry => True
  | ChFlag b => b = cs_is_process start
  | ChFn b f => b = cs_is_process start /\ f = fn
  | ChCalled b f a | ChGone b f a => b = cs_is_process start /\ f = fn /\ a = arg
  | ChFault => False
  end.

Definition kept_apart : Prop := Z.land flags CLONE_VM = 0 \/ Z.land flags CLONE_VFORK <> 0.

Lemma record_inv_step s s' : kept_apart -> clone_step flags s s' -> record_inv s -> record_inv s'.
Proof.
  intros Hk [s1 Hc|s1 b Hc|s1 b f Hc|r p b f a|r ch Hv] [Hr Hi]; unfold record_inv, read_field in *; cbn in *.
  1-3: rewrite Hc in *; destruct Hr as [->|[_ []]]; cbn; naive_solver.
  - destruct Hr as [->|[_ []]]. auto.
  - split; [|exact Hi]. destruct (decide _) as [Hz|Hz]; [exact Hr|]. right. split; [reflexivity|].
    apply Hv. destruct Hk; [contradiction|assumption].
Qed.

Lemma record_inv_runs s s' : kept_apart -> rtc (clone_step flags) s s' -> record_inv s -> record_inv s'.
Proof. intros Hk. induction 1; eauto using record_inv_step. Qed.

Lemma cloned_inv : record_inv (cloned fn flags arg).
Proof. split; [left; reflexivity|exact I]. Qed.

(** Whoever has steps left can take them. *)
Lemma clone_completes s : record_inv s ->
  exists r, rtc (clone_step flags) s (CloneState r true (ChGone (cs_is_process start) fn arg)).
Proof.
  assert (Hend : forall r p, exists r', rtc (clone_step flags) (CloneState r p (ChGone (cs_is_process start) fn arg))
      (CloneState r' true (ChGone (cs_is_process start) fn arg))).
  { intros r []; [exists r; reflexivity|]. eexists. apply rtc_once, parent_free. intros _. exact I. }
  assert (Hcalled : forall r p, exists r', rtc (clone_step flags) (CloneState r p (ChCalled (cs_is_process start) fn arg))
      (CloneState r' true (ChGone (cs_is_process start) fn arg))).
  { intros r p. destruct (Hend r p) as [r' H]. exists r'. eapply rtc_l; [apply child_ends|exact H]. }
  destruct s as [r p ch]. intros [Hr Hi]. cbn in *. destruct (Hcalled (Some start) p) as [r' H].
  destruct ch as [|b|b f|b f a|b f a|]; [| | | | |destruct Hi].
  1-3: destruct Hr as [->|[_ []]]; exists r'; destruct_and?; subst.
  - do 3 (eapply rtc_l; [constructor; reflexivity|]). exact H.
  - do 2 (eapply rtc_l; [constructor; reflexivity|]). exact H.
  - eapply rtc_l; [constructor; reflexivity|]. exact H.
  - destruct_and! Hi. subst. apply Hcalled.
  - destruct_and! Hi. subst. apply Hend.
Qed.
End Record.

(** C32: the record of [clone] outlives its reader exactly when parent and child
    do not share memory or the kernel holds the parent back. Then the child
    never reads freed memory, calls the function the caller passed with the
    argument the caller passed, takes itself for a process exactly without
    [CLONE_VM], and both can always run to their end. Otherwise, as for a thread
    made by [clone], the parent may free the record before the child has read
    anything from it. *)
Theorem clone_record_verdict (fn flags arg : Z) :
  let runs_to := rtc (clone_step flags) (cloned fn flags arg) in
  (Z.land flags CLONE_VM = 0 \/ Z.land flags CLONE_VFORK <> 0 -> forall s, runs_to s ->
     cl_child s <> ChFault /\
     (forall b f a, cl_child s = ChCalled b f a -> f = fn /\ a = arg /\ (b <> 0 <-> Z.land flags CLONE_VM = 0)) /\
     exists r b, rtc (clone_step flags) s (CloneState r true (ChGone b fn arg))) /\
  (Z.land flags CLONE_VM <> 0 -> Z.land flags CLONE_VFORK = 0 ->
     runs_to (CloneState None true ChFault)).
Proof.
  cbv zeta. split.
  - intros Hk s Hs. pose proof (record_inv_runs _ _ Hk Hs cloned_inv) as Hi.
    destruct (clone_completes s Hi) as [r Hr]. destruct Hi as [_ Hi].
    split; [intros E; rewrite E in Hi; destruct Hi|]. split; [|eauto].
    intros b f a E. rewrite E in Hi. destruct Hi as (-> & -> & ->). split; [reflexivity|]. split; [reflexivity|].
    unfold clone_start. cbn. destruct (decide _); split; intros; try assumption; try discriminate; contradiction.
  - intros Hvm Hv. eapply rtc_l; [apply parent_free; intros H; contradiction|].
    rewrite decide_False by exact Hvm. eapply rtc_l; [apply child_flag; reflexivity|]. reflexivity.
Qed.
