(* ===== verification/Trapping.v ===== *)
(** * Where trapping meets the shim's own direct system calls

    [linbox_init_state] and the fallback clock of the shim both make a direct
    [clock_gettime], which the shim's own filter traps into the shim itself.
    Theorems about what then becomes of fork, exec and the fallback. *)
From S2P Require Import Prelude Bytes Prng ShmLayout Os Shm Env TimeManager Shim ShimFacts Time TimeFacts Random Sigsys SigsysFacts Process ProcessFacts.

(** Under the shim's filter with the shim's handler. *)
Definition trapping (log : list event) : Prop := sandboxed log /\ handled log = true.

Lemma trapping_ordinary log e : ordinary e -> trapping log -> trapping (log ++ [e]).
Proof. intros He [Hs Hh]. split; [apply sandboxed_ordinary; assumption|]. rewrite handled_ordinary; assumption. Qed.

(** Calls that change nothing of this. *)
Lemma ordinary_call x a : (forall args, x <> XPrctl args) -> (forall s, x <> XSigaction s) ->
  (forall f pa av ev, x <> XRealExec f pa av ev) -> ordinary (x, a).
Proof. intros H1 H2 H3. split; [|intros b]; destruct x; try reflexivity; exfalso;
    first [exact (H1 _ eq_refl)|exact (H2 _ eq_refl)|exact (H3 _ _ _ _ eq_refl)].
Qed.

(** ** Code that stays under the filter *)
Definition tame_code {A} (m : MS A) : Prop :=
  forall p a q, m p = Ok (a, q) -> trapping (p_log p) -> trapping (p_log q).

Section Tame.
Context {os : OS}.

Lemma tame_quiet {A} (m : MS A) : (forall p a q, m p = Ok (a, q) -> p_log q = p_log p) -> tame_code m.
Proof. intros Hm p a q H Ht. rewrite (Hm _ _ _ H). exact Ht. Qed.
Lemma tame_ret {A} (a : A) : tame_code (mret a).
Proof. apply tame_quiet. intros p b q [= _ <-]. reflexivity. Qed.
Lemma tame_bind {A B} (m : MS A) (f : A -> MS B) :
  tame_code m -> (forall a, tame_code (f a)) -> tame_code (a ← m; f a).
Proof.
  intros Hm Hf p b q H Ht. apply M_bind_Ok in H as (a & p' & H1 & H2).
  exact (Hf _ _ _ _ H2 (Hm _ _ _ H1 Ht)).
Qed.
Lemma tame_get_st : tame_code get_st.
Proof. apply tame_quiet. intros p a q [= _ <-]. reflexivity. Qed.
Lemma tame_get_errno : tame_code get_errno.
Proof. apply tame_quiet. intros p a q [= _ <-]. reflexivity. Qed.
Lemma tame_set_errno e : tame_code (set_errno e).
Proof. apply tame_quiet. intros p a q [= _ <-]. reflexivity. Qed.
Lemma tame_modify_st f : tame_code (modify_st f).
Proof. apply tame_quiet. intros p a q [= _ <-]. reflexivity. Qed.
Lemma tame_undef {A} : tame_code (undef (A := A)).
Proof. intros p a q [=]. Qed.
Lemma tame_out_of_fuel {A} : tame_code (out_of_fuel (A := A)).
Proof. intros p a q [=]. Qed.
Lemma tame_lift {A} (r : res A) : tame_code (lift r).
Proof. apply tame_quiet. intros p a q. unfold lift. destruct r; [|discriminate..]. intros [= _ <-]. reflexivity. Qed.
Lemma tame_load r : tame_code (load r).
Proof.
  intros p a q H Ht. unfold load in H. destruct (_ !! r); [|discriminate]. injection H as _ <-.
  apply trapping_ordinary; [apply ordinary_call; discriminate|exact Ht].
Qed.
Lemma tame_callA x : (forall a, ordinary (x, a)) -> tame_code (callA x).
Proof. intros Hx p a q [= _ <-] Ht. apply trapping_ordinary; [apply Hx|exact Ht]. Qed.
Lemma tame_call_kernel x : (forall a, ordinary (x, a)) -> tame_code (call_kernel x).
Proof. intros Hx p a q [= _ <-] Ht. apply trapping_ordinary; [apply Hx|exact Ht]. Qed.
Lemma tame_call x : (forall a, ordinary (x, a)) -> tame_code (call x).
Proof. intros Hx. apply tame_bind; [apply tame_callA, Hx|intros; apply tame_ret]. Qed.
End Tame.

Create HintDb tame.
#[export] Hint Resolve tame_ret tame_get_st tame_get_errno tame_set_errno tame_modify_st tame_undef
  tame_out_of_fuel tame_lift tame_load : tame.

Ltac tame_code_tac :=
  repeat first
    [ progress (intros; cbv zeta)
    | solve [auto with tame nocore]
    | apply tame_call; intros ?; apply ordinary_call; discriminate
    | apply tame_callA; intros ?; apply ordinary_call; discriminate
    | apply tame_bind
    | match goal with |- tame_code (match ?x with _ => _ end) => destruct x end ].

Section TameShim.
Context {os : OS}.

Lemma tame_state_get : tame_code linbox_state_get.
Proof. unfold linbox_state_get. tame_code_tac. Qed.
Lemma tame_update f : tame_code (update f).
Proof. apply tame_modify_st. Qed.
Hint Resolve tame_state_get tame_update : tame.
Lemma tame_resolve symbol : tame_code (LINBOX_RESOLVE_NEXT symbol).
Proof. unfold LINBOX_RESOLVE_NEXT. tame_code_tac. Qed.
Lemma tame_read_time_loop fuel r : tame_code (read_time_loop fuel r).
Proof. induction fuel as [|fuel IH]; cbn [read_time_loop]; tame_code_tac. Qed.
Hint Resolve tame_read_time_loop : tame.
Lemma tame_read_time fuel r out : tame_code (linbox_shm_read_time fuel r out).
Proof. unfold linbox_shm_read_time. tame_code_tac. Qed.
Lemma tame_detach h : tame_code (linbox_shm_detach h).
Proof. unfold linbox_shm_detach. tame_code_tac. Qed.
Hint Resolve tame_detach : tame.
Lemma tame_attach path out : tame_code (linbox_shm_attach path out).
Proof. unfold linbox_shm_attach, linbox_shm_open_map. tame_code_tac. Qed.
Lemma tame_exchange fd msg : tame_code (exchange fd msg).
Proof. unfold exchange. tame_code_tac. Qed.
Hint Resolve tame_exchange : tame.
Lemma tame_connect path : tame_code (linbox_connect_controller path).
Proof. unfold linbox_connect_controller. tame_code_tac. Qed.
Lemma tame_effective_seed seed : tame_code (linbox_effective_seed_for_pid seed).
Proof. unfold linbox_effective_seed_for_pid. tame_code_tac. Qed.
Lemma tame_syscall_result rc : tame_code (linbox_syscall_result rc).
Proof. unfold linbox_syscall_result. tame_code_tac. Qed.
End TameShim.

#[export] Hint Resolve tame_state_get tame_update tame_resolve tame_read_time tame_detach tame_attach
  tame_connect tame_effective_seed tame_syscall_result : tame.

(** The shim's functions, where direct system calls are tame. *)
Section TameCalls.
Context {os : OS} {raw : RawSyscall} (Hraw : forall nr args, tame_code (raw_syscall nr args)).
Hint Resolve Hraw : tame.

Lemma tame_init_state : tame_code linbox_init_state.
Proof. unfold linbox_init_state, linbox_raw_syscall2. tame_code_tac. Qed.
Hint Resolve tame_init_state : tame.
Lemma tame_fallback : tame_code linbox_fallback_now.
Proof. unfold linbox_fallback_now, linbox_raw_syscall2, call_real. tame_code_tac. Qed.
Hint Resolve tame_fallback : tame.
Lemma tame_virtual_now fuel : tame_code (linbox_virtual_now fuel).
Proof. unfold linbox_virtual_now. tame_code_tac. Qed.
Hint Resolve tame_virtual_now : tame.
Lemma tame_random_fill buf len : tame_code (linbox_random_fill buf len).
Proof.
  unfold linbox_random_fill, reseed_if_needed, linbox_random_reseed, linbox_prng_seed_value. tame_code_tac.
Qed.
Hint Resolve tame_random_fill : tame.
Lemma tame_dispatch fuel nr a1 a2 a3 a4 a5 a6 : tame_code (linbox_dispatch_syscall fuel nr a1 a2 a3 a4 a5 a6).
Proof.
  unfold linbox_dispatch_syscall, linbox_virtual_clock_gettime, linbox_virtual_gettimeofday,
    linbox_virtual_time, linbox_virtual_getrandom, linbox_raw_syscall6. tame_code_tac.
Qed.
Hint Resolve tame_dispatch : tame.
Lemma tame_handler fuel info context : tame_code (linbox_sigsys_handler fuel info context).
Proof. unfold linbox_sigsys_handler. tame_code_tac. Qed.
Lemma tame_syscall fuel nr a1 a2 a3 a4 a5 a6 : tame_code (syscall fuel nr a1 a2 a3 a4 a5 a6).
Proof.
  unfold syscall, linbox_virtual_clock_gettime, linbox_virtual_gettimeofday,
    linbox_virtual_time, linbox_virtual_getrandom, call_real. tame_code_tac.
Qed.
End TameCalls.

Section Recursion.
Context {os : OS} {kernel : nat -> nat -> RawSyscall} {Hkernel : SeccompKernel kernel}.

(** Direct system calls are tame, at whatever depth of nesting. *)
Lemma tame_kernel rfuel depth : forall nr args, tame_code (kernel rfuel depth nr args).
Proof.
  induction depth as [|depth IH]; intros nr args p a q H Ht; pose proof Ht as [Hs Hh];
    (destruct (decide (u32 nr ∈ trapped_calls)) as [Hn|Hn];
     [|rewrite other_calls_pass_through in H by assumption; case_in H;
       [injection H as <- <-; exact Ht
       |revert H Ht; apply tame_call_kernel; intros b; apply ordinary_call; discriminate]]).
  - rewrite kernel_trapped_0 in H by assumption. discriminate H.
  - rewrite kernel_trapped in H by assumption. revert H Ht. unfold handle_trap. cbv zeta.
    apply tame_bind; [apply (tame_handler (raw := kernel rfuel depth)), IH|tame_code_tac].
Qed.

Lemma clock_trapped : u32 SYS_clock_gettime ∈ trapped_calls.
Proof. vm_compute. left. Qed.

(** One level of nesting: the handler's answer to a trapped [clock_gettime]. *)
Lemma trapped_clock_diverges rfuel depth clk (p : proc shim) :
  trapping (p_log p) -> i32 clk ∈ virtual_clocks ->
  (forall d, depth = S d ->
     linbox_virtual_now (raw := kernel rfuel d) rfuel p = OutOfFuel) ->
  kernel rfuel depth SYS_clock_gettime [clk; OBJECT] p = OutOfFuel.
Proof.
  intros [Hs Hh] Hclk Hd. destruct depth as [|d]; [apply kernel_trapped_0; auto using clock_trapped|].
  rewrite kernel_trapped by auto using clock_trapped. unfold handle_trap. cbv zeta. rewrite M_bind_eq.
  unfold linbox_sigsys_handler. cbn [si_code si_syscall rdi rsi rdx r10 r8 r9 nth].
  rewrite (decide_False (P := SYS_SECCOMP <> SYS_SECCOMP)) by (intros H; apply H; reflexivity).
  rewrite M_bind_eq. unfold linbox_dispatch_syscall.
  rewrite (decide_True (P := SYS_clock_gettime = SYS_clock_gettime)) by reflexivity.
  rewrite M_bind_eq. unfold linbox_virtual_clock_gettime. rewrite decide_False by discriminate.
  rewrite decide_True by exact Hclk. rewrite (Hd d eq_refl). reflexivity.
Qed.

Lemma init_diverges rfuel : forall depth (p : proc shim),
  trapping (p_log p) -> initialized (lb (p_st p)) = false ->
  linbox_init_state (raw := kernel rfuel depth) p = OutOfFuel.
Proof.
  induction depth as [|depth IH]; intros p Ht Hi; unfold linbox_init_state at 1;
    rewrite M_bind_eq, state_get_eq, Hi, M_bind_eq; unfold linbox_raw_syscall2, raw_syscall;
    (rewrite trapped_clock_diverges; [reflexivity|exact Ht|vm_compute; set_solver|]); [discriminate|].
  intros d [= <-]. unfold linbox_virtual_now. rewrite M_bind_eq, IH by assumption. reflexivity.
Qed.

Lemma fallback_diverges rfuel : forall depth (p : proc shim),
  trapping (p_log p) -> initialized (lb (p_st p)) = true ->
  controller_connected (lb (p_st p)) = false -> real_ptr (p_st p) "clock_gettime" = NULL ->
  linbox_virtual_now (raw := kernel rfuel depth) rfuel p = OutOfFuel.
Proof.
  induction depth as [|depth IH]; intros p Ht Hi Hc Hr; unfold linbox_virtual_now at 1;
    rewrite M_bind_eq, init_state_done, M_bind_eq, state_get_eq by exact Hi;
    rewrite decide_False by (intros [H _]; congruence);
    unfold linbox_fallback_now; rewrite M_bind_eq; cbn [get_st];
    rewrite decide_False by (intros H; apply H, Hr); rewrite M_bind_eq; unfold linbox_raw_syscall2, raw_syscall;
    (rewrite trapped_clock_diverges; [reflexivity|exact Ht|vm_compute; set_solver|]); [discriminate|].
  intros d [= <-]. apply IH; assumption.
Qed.

Lemma reinit_diverges rfuel depth (p : proc shim) : trapping (p_log p) ->
  linbox_reinit_state (raw := kernel rfuel depth) p = OutOfFuel.
Proof.
  intros Ht. unfold linbox_reinit_state. rewrite M_bind_eq, state_get_eq, M_bind_eq.
  set (st := lb (p_st p)).
  assert (Hclose : exists p1, (if decide (controller_fd st >= 0)
      then _ ← call (XClose (controller_fd st)) ; update (set_controller_fd (-1)) else mret tt) p = Ok (tt, p1) /\
      trapping (p_log p1)).
  { destruct (decide _); [|exists p; auto]. eexists. split; [reflexivity|].
    apply trapping_ordinary; [apply ordinary_call; discriminate|exact Ht]. }
  destruct Hclose as (p1 & -> & Ht1). rewrite !M_bind_eq, !update_eq.
  do 3 (rewrite M_bind_eq, update_eq). rewrite M_bind_eq. cbn [p_log p_st p_errno p_mem].
  destruct p1 as [s1 e1 m1 log1]. cbn [p_log p_st p_errno p_mem] in *.
  destruct (decide (fd (shm st) >= 0)).
  - rewrite M_bind_eq. match goal with |- context [linbox_shm_detach (Some (shm st)) ?q] =>
      destruct (detach_total (shm st) q) as (h' & e2 & log2 & Hd & _); pose proof (tame_detach _ _ _ _ Hd Ht1) as Htq;
      rewrite Hd end.
    rewrite update_eq, M_bind_eq, update_eq. apply init_diverges; [exact Htq|reflexivity].
  - unfold mret at 1, M_ret at 1. rewrite M_bind_eq, update_eq. apply init_diverges; [exact Ht1|reflexivity].
Qed.

Lemma fork_diverges (rfuel depth : nat) (p : proc shim)
    (Ht : trapping (p_log p)) (Hr : real_ptr (p_st p) "fork" <> NULL) :
  let a := os_answer (p_log p) (XReal "fork" [] None) in
  (ret a = 0 -> fork (raw := kernel rfuel depth) p = OutOfFuel) /\
  (ret a <> 0 -> exists q, fork (raw := kernel rfuel depth) p = Ok (ret a, q) /\ p_st q = p_st p).
Proof.
  cbv zeta. set (a := os_answer _ _).
  set (p1 := Proc (p_st p) (if decide (ret a < 0) then err a else p_errno p) (p_mem p)
               (p_log p ++ [(XReal "fork" [] None, a)])).
  assert (E : fork (raw := kernel rfuel depth) p =
    ((if decide (ret a = 0) then linbox_after_fork_in_child (raw := kernel rfuel depth) else mret tt) ;;
     mret (ret a)) p1).
  { unfold fork, LINBOX_RESOLVE_NEXT, call_real. rewrite !M_bind_eq. cbn [get_st].
    rewrite decide_True by exact Hr. unfold mret at 1, M_ret at 1.
    rewrite !M_bind_eq. cbn [get_st]. rewrite decide_False by exact Hr. reflexivity. }
  rewrite E, M_bind_eq. split; intros H0.
  - rewrite decide_True by exact H0. unfold linbox_after_fork_in_child. rewrite M_bind_eq, reinit_diverges; [reflexivity|].
    apply trapping_ordinary; [apply ordinary_call; discriminate|exact Ht].
  - rewrite decide_False by exact H0. eexists. split; reflexivity.
Qed.

Lemma exec_dies (rfuel depth : nat) (environ : list string) (e : Z) (m : memory)
    (log : list event) (fn path : string) (argv : list string) (envp : option (list string)) (a : answer)
    (Hs : sandboxed log) (Hfn : fn ∈ exec_symbols) (Hexec : ret a = 0) :
  linbox_ctor (raw := kernel rfuel depth) (Proc (loaded_shim environ) e m (log ++ [(XRealExec fn path argv envp, a)])) = Undef.
Proof.
  unfold linbox_ctor. cbv zeta. rewrite M_bind_eq. unfold linbox_init_state at 1.
  rewrite M_bind_eq, state_get_eq. cbn [lb p_st loaded_shim initialized g_linbox_state]. rewrite M_bind_eq.
  unfold linbox_raw_syscall2, raw_syscall. set (log' := log ++ _).
  assert (Hs' : sandboxed log') by (unfold sandboxed, log'; rewrite filters_app; cbn; rewrite app_nil_r; exact Hs).
  assert (Hh : handled log' = false).
  { unfold handled, log'. rewrite foldl_app. cbn. rewrite decide_True by auto. reflexivity. }
  rewrite kernel_kill; [reflexivity|apply trapped_verdict; [exact Hs'|exact clock_trapped]|exact Hh].
Qed.

(** C39: no child survives the filter. In a process whose shim has installed its
    filter and handler, a forked child re-initialises, its first direct
    [clock_gettime] is trapped, the handler initialises again, and so on: the
    child never returns from [fork], at whatever depth of nesting, while the
    parent gets its identifier. A program it executes inherits the filter but
    not the handler, so the constructor of the freshly loaded shim dies of
    SIGSYS at its first direct [clock_gettime]. *)
Theorem no_child_survives_filter (rfuel depth : nat) (p : proc shim)
    (Ht : trapping (p_log p)) (Hr : real_ptr (p_st p) "fork" <> NULL) :
  let fork := fork (raw := kernel rfuel depth) in
  let a := os_answer (p_log p) (XReal "fork" [] None) in
  (ret a = 0 -> fork p = OutOfFuel) /\
  (ret a <> 0 -> exists q, fork p = Ok (ret a, q) /\ p_st q = p_st p) /\
  forall environ fn path argv envp b, fn ∈ exec_symbols -> ret b = 0 ->
    let log := p_log p ++ [(XRealExec fn path argv envp, b)] in
    linbox_ctor (raw := kernel rfuel depth) (Proc (loaded_shim environ) (p_errno p) (p_mem p) log) = Undef.
Proof.
  cbv zeta. destruct (fork_diverges rfuel depth p Ht Hr) as [Hc Hp]. split; [exact Hc|]. split; [exact Hp|].
  intros environ fn path argv envp b Hfn Hb. apply exec_dies; [apply Ht|exact Hfn|exact Hb].
Qed.

(** Nobody listens; the kernel accepts the handler and the filter. *)
Record no_controller : Prop := {
  no_socket : forall log, ret (os_answer log XSocket) < 0;
  prctl_works : forall log args, ret (os_answer log (XPrctl args)) = 0;
  sigaction_works : forall log s, ret (os_answer log (XSigaction s)) = 0 }.

Lemma init_disconnected (raw : RawSyscall) (s : shim) e m log a0 log0 :
  no_controller -> initialized (lb s) = false ->
  raw_syscall SYS_clock_gettime [CLOCK_MONOTONIC; OBJECT] (Proc s e m log) = Ok (a0, Proc s e m log0) ->
  exists s' e' a1 a2, linbox_init_state (Proc s e m log) =
    Ok (tt, Proc s' e' m ((log0 ++ [(XSocket, a1)]) ++ [(XGetpid, a2)])) /\
    initialized (lb s') = true /\ controller_connected (lb s') = false /\ g_real s' = g_real s /\
    g_environ s' = g_environ s.
Proof.
  intros Hno Hi Hraw. unfold linbox_init_state, linbox_raw_syscall2. rewrite M_bind_eq, state_get_eq. cbn [p_st]. rewrite Hi.
  rewrite M_bind_eq, Hraw.
  assert (Hset : exists s1, (if decide (ret a0 = 0)
      then update (set_real_start_mono (Timespec (nth 0 (data a0) 0) (nth 1 (data a0) 0)))
      else mret tt) (Proc s e m log0) = Ok (tt, Proc s1 e m log0) /\
      g_real s1 = g_real s /\ g_environ s1 = g_environ s).
  { destruct (decide (ret a0 = 0)); eexists; split; [reflexivity|auto|reflexivity|auto]. }
  destruct Hset as (s1 & Hset & Hg & He). rewrite M_bind_eq, Hset. rewrite M_bind_eq. cbn [get_st p_st].
  cbv zeta. rewrite M_bind_eq. unfold linbox_connect_controller. rewrite M_bind_eq, call_eq.
  cbv beta iota zeta. cbn [p_st p_errno p_mem p_log]. set (a1 := os_answer log0 XSocket).
  pose proof (no_socket Hno log0) as Hneg. fold a1 in Hneg.
  rewrite (decide_True (P := ret a1 < 0)) by exact Hneg. rewrite (decide_True (P := ret a1 < 0)) by exact Hneg.
  unfold mret at 1, M_ret at 1. rewrite M_bind_eq, update_Proc, M_bind_eq.
  rewrite (decide_False (P := -1 >= 0)) by lia. unfold mret at 1, M_ret at 1. rewrite M_bind_eq, M_bind_eq.
  rewrite (decide_False (P := -1 >= 0)) by lia. unfold mret at 1, M_ret at 1. rewrite update_Proc.
  rewrite M_bind_eq, state_get_eq, M_bind_eq. cbn [p_st].
  rewrite decide_False by (intros [H _]; discriminate H). unfold mret at 1, M_ret at 1.
  rewrite M_bind_eq, update_Proc, M_bind_eq, effective_seed_for_pid_eq. cbv beta iota zeta.
  cbn [p_st p_errno p_mem p_log]. rewrite M_bind_eq, update_Proc, M_bind_eq, update_Proc, update_Proc.
  eexists _, _, _, _. split; [reflexivity|]. split; [reflexivity|]. split; [reflexivity|]. split; [exact Hg|exact He].
Qed.

(** The two installations: the shim ends up under its own filter with its own
    handler. *)
Lemma installed_trapping (p : proc shim) : no_controller -> filters (p_log p) = [] ->
  exists q1 q2, linbox_install_sigsys_handler p = Ok (0, q1) /\ linbox_install_seccomp q1 = Ok (0, q2) /\
    trapping (p_log q2) /\ initialized (lb (p_st q2)) = initialized (lb (p_st p)) /\
    controller_connected (lb (p_st q2)) = controller_connected (lb (p_st p)) /\
    g_real (p_st q2) = g_real (p_st p).
Proof.
  intros Hno Hnil. unfold linbox_install_sigsys_handler. rewrite M_bind_eq, call_eq. cbv beta iota zeta.
  set (a3 := os_answer (p_log p) _). assert (H3 : ret a3 = 0) by apply (sigaction_works Hno).
  rewrite !(decide_False (P := ret a3 <> 0)) by lia.
  rewrite M_bind_eq, update_Proc. eexists _, _. split; [reflexivity|].
  unfold linbox_install_seccomp. rewrite M_bind_eq, call_eq. cbv beta iota zeta.
  cbn [p_st p_errno p_mem p_log]. set (log3 := p_log p ++ _). set (a4 := os_answer log3 _).
  assert (H4 : ret a4 = 0) by apply (prctl_works Hno). rewrite !(decide_False (P := ret a4 <> 0)) by lia.
  rewrite M_bind_eq, call_eq. cbv beta iota zeta.
  cbn [p_st p_errno p_mem p_log]. set (log4 := log3 ++ _). set (a5 := os_answer log4 _).
  assert (H5 : ret a5 = 0) by apply (prctl_works Hno). rewrite !(decide_False (P := ret a5 <> 0)) by lia.
  rewrite M_bind_eq, update_Proc. split; [reflexivity|]. split; [|auto]. cbn [p_log].
  unfold trapping, sandboxed, handled, log4, log3. rewrite !filters_app, !foldl_app, Hnil.
  cbn [filters omap list_omap foldl handled_step app]. rewrite words_filter_words.
  rewrite (decide_False (P := PR_SET_NO_NEW_PRIVS = _ /\ _)) by (intros [H _]; discriminate H).
  rewrite (decide_True (P := PR_SET_SECCOMP = _ /\ _)) by auto.
  rewrite (decide_True (P := SIGSYS = _ /\ _)) by auto.
  split; [|reflexivity]. split; [discriminate|]. repeat constructor.
Qed.

(** C40: without a controller the real clock is out of reach: a program that
    starts with nobody listening and seccomp enabled gets a constructor that
    succeeds, and then its first call of [time] or [gettimeofday], if it has not
    called [clock_gettime] before, never returns: the fallback's direct system
    call is trapped into the handler, which falls back again. *)
Theorem fallback_under_filter_diverges (rfuel depth : nat) (environ : list string) (m : memory)
    (Hno : no_controller) (Henv : getenv environ "LINBOX_DISABLE_SECCOMP" = None) :
  exists q, linbox_ctor (raw := kernel rfuel depth) (Proc (loaded_shim environ) 0 m []) = Ok (tt, q) /\
  forall rfuel' depth' tloc tv tz, tv <> NULL ->
    time (raw := kernel rfuel' depth') rfuel' tloc q = OutOfFuel /\
    gettimeofday (raw := kernel rfuel' depth') rfuel' tv tz q = OutOfFuel.
Proof.
  unfold linbox_ctor. cbv zeta. rewrite M_bind_eq.
  set (a0 := os_answer [] (XRawSyscall SYS_clock_gettime [CLOCK_MONOTONIC; OBJECT])).
  assert (Hraw : (kernel rfuel depth : RawSyscall) SYS_clock_gettime [CLOCK_MONOTONIC; OBJECT]
      (Proc (loaded_shim environ) 0 m []) =
    Ok (a0, Proc (loaded_shim environ) 0 m [(XRawSyscall SYS_clock_gettime [CLOCK_MONOTONIC; OBJECT], a0)]))
    by exact (kernel_allow rfuel depth _ _ (Proc (loaded_shim environ) 0 m []) eq_refl).
  destruct (init_disconnected (kernel rfuel depth) (loaded_shim environ) 0 m [] a0 _ Hno eq_refl Hraw)
    as (s1 & e1 & a1 & a2 & -> & Hi & Hc & Hg & He).
  set (log1 := (_ ++ [(XSocket, a1)]) ++ [(XGetpid, a2)]).
  rewrite M_bind_eq. unfold linbox_seccomp_enabled. rewrite M_bind_eq. cbn [get_st p_st].
  rewrite He. cbn [g_environ loaded_shim]. rewrite Henv. unfold mret at 1, M_ret at 1. rewrite M_bind_eq.
  rewrite M_bind_eq. match goal with |- context [linbox_install_sigsys_handler ?p0] =>
    destruct (installed_trapping p0 Hno eq_refl) as (q1 & q2 & Hh & Hf & Ht & Hi2 & Hc2 & Hg2) end.
  cbn [p_st] in Hi2, Hc2, Hg2. rewrite Hh, (decide_False (P := 0 <> 0)) by lia.
  rewrite M_bind_eq, Hf, (decide_False (P := 0 <> 0)) by lia. unfold mret at 1, M_ret at 1.
  rewrite M_bind_eq, call_eq. cbv beta iota zeta. rewrite M_bind_eq, call_eq. cbv beta iota zeta.
  rewrite M_bind_eq, state_get_eq. cbn [p_st p_errno p_mem p_log]. rewrite Hc2, Hc.
  rewrite M_bind_eq, call_eq. cbv beta iota zeta. eexists. split; [reflexivity|].
  intros rfuel' depth' tloc tv tz Htv.
  match goal with |- context [time rfuel' tloc ?q] =>
    assert (Hnow : linbox_virtual_now (raw := kernel rfuel' depth') rfuel' q = OutOfFuel) end.
  { apply fallback_diverges; cbn [p_log p_st].
    - do 3 (apply trapping_ordinary; [apply ordinary_call; discriminate|]). exact Ht.
    - congruence.
    - congruence.
    - unfold real_ptr. rewrite Hg2, Hg. reflexivity. }
  unfold time, linbox_virtual_time, gettimeofday, linbox_virtual_gettimeofday.
  rewrite (decide_False (P := tv = NULL)) by exact Htv. rewrite !M_bind_eq, Hnow. auto.
Qed.
End Recursion.
