(* ===== verification/Spawning.v ===== *)
(** * Programs that start a controller

    Models src/shim/process.preload.c and src/shim/linbox.preload.c: programs run
    with the shim preloaded that start a controller of their own, fork, read the
    clock and the random device on both sides, and compare.  [fork], [execl],
    [read], [close], [clock_gettime] and [getrandom] are the shim's; the rest is
    libc.  A run goes on in one process, the one the answer of [fork] is for, and
    its result is that process's exit status. *)
From stdpp Require Import pretty.
From S2P Require Import Prelude Bytes ShmLayout Os Shm Env TimeManager Controller Shim Time Random Sigsys Process.

(** [snprintf (buf, 128, ...)] of a process identifier between two strings. *)
Definition format_pid (before : string) (pid : Z) (after : string) : string :=
  String.substring 0 127 (before +:+ pretty pid +:+ after).

Section Spawning.
Context {os : OS} {raw : RawSyscall}.

(** libc's [setenv], which can fail for want of memory, and [unsetenv]. *)
Definition libc_setenv (name value : string) : MS Z :=
  rc ← call (XReal "setenv" [] (Some (name +:+ "=" +:+ value))) ;
  (if decide (rc = 0) then s ← get_st ; modify_st (set_environ (setenv (g_environ s) name value)) else mret tt) ;;
  mret rc.
Definition libc_unsetenv (name : string) : MS unit :=
  s ← get_st ; modify_st (set_environ (unsetenv (g_environ s) name)).

Definition usleep (usec : Z) : MS Z := call (XReal "usleep" [usec] None).

(** The beginning of both programs: the child's identifier, and the name of the
    region. *)
Definition start_controller (word : string) : MS (Z * string) :=
  pid ← call XGetpid ;
  let sock := format_pid ("/tmp/linbox-" +:+ word +:+ "-") (i32 pid) ".sock" in
  pid ← call XGetpid ;
  let shm := format_pid ("/linbox-" +:+ word +:+ "-") (i32 pid) "" in
  _ ← libc_setenv "LINBOX_SOCK" sock ;
  _ ← libc_setenv "LINBOX_SHM" shm ;
  ctrl ← fork ;
  mret (ctrl, shm).

(** The child's side. *)
Definition become_controller : MS Z :=
  _ ← execl "./linbox-controller" ["linbox-controller"] ; mret 127.

(** [kill (ctrl, SIGTERM); waitpid (ctrl, NULL, 0); return status;] *)
Definition stop_controller (ctrl status : Z) : MS Z :=
  _ ← call (XKill ctrl SIGTERM) ;
  _ ← call (XReal "waitpid" [ctrl; NULL; 0] None) ;
  mret status.

(** ** process.preload.c *)

(** The [while] of [read_all], whose every turn but the last adds a byte. *)
Fixpoint read_all_loop (fuel : nat) (fd : Z) (buf : list Z) (offset len : nat) : MS (Z * list Z) :=
  if decide (offset < len)%nat then
    match fuel with
    | O => out_of_fuel
    | S fuel' =>
        '(n, bytes) ← read fd OBJECT (Z.of_nat (len - offset)) ;
        let buf := splice buf offset bytes in
        if decide (n <= 0) then mret (-1, buf)
        else read_all_loop fuel' fd buf (offset + Z.to_nat n) len
    end
  else mret (0, buf).

Definition read_all (fd : Z) (buf : list Z) : MS (Z * list Z) :=
  read_all_loop (length buf) fd buf 0 (length buf).

Definition WIFEXITED (status : Z) : bool := bool_decide (Z.land status 0x7f = 0).
Definition WEXITSTATUS (status : Z) : Z := Z.shiftr (Z.land status 0xff00) 8.

Definition wait_ok (pid : Z) : MS Z :=
  a ← callA (XReal "waitpid" [pid; OBJECT; 0] None) ;
  if decide (ret a < 0) then mret (-1)
  else
    let status := nth 0 (data a) 0 in
    if decide (WIFEXITED status = false \/ WEXITSTATUS status <> 0) then mret (-1) else mret 0.

(** The [for] of [slot_has_pid], with [k] slots left from [i] on. *)
Fixpoint slot_has_pid_loop (k : nat) (layout : Z) (i : nat) (the_pid : Z) : MS bool :=
  match k with
  | O => mret false
  | S k' =>
      l ← load layout ;
      match process_slots l !! i with
      | None => undef
      | Some s => if decide (pid s = u32 the_pid) then mret true else slot_has_pid_loop k' layout (i + 1) the_pid
      end
  end.
Definition slot_has_pid (layout the_pid : Z) : MS bool :=
  slot_has_pid_loop (Z.to_nat LINBOX_PROCESS_SLOT_COUNT) layout 0 the_pid.

(** [child_report], with four bytes of padding at its end. *)
Record report := Report { random_word : Z; report_sec : Z; report_pid : Z }.
Definition report_bytes (r : report) : list Z :=
  le_bytes 8 (random_word r) ++ le_bytes 8 (u64 (report_sec r)) ++ le_bytes 4 (u32 (report_pid r)) ++ replicate 4 0.
Definition bytes_report (l : list Z) : report :=
  Report (le_val (take 8 l)) (i64 (le_val (take 8 (drop 8 l)))) (i32 (le_val (take 4 (drop 16 l)))).
Definition sizeof_report : Z := 24.

(** The forked child: [r] and [w] are the ends of the pipe. *)
Definition process_preload_child (fuel : nat) (r w : Z) : MS Z :=
  _ ← close r ;
  '(rc, ts) ← clock_gettime fuel CLOCK_REALTIME OBJECT ;
  if decide (rc <> 0) then mret 1
  else
    '(n, word) ← getrandom OBJECT 8 0 ;
    if decide (n <> 8) then mret 2
    else
      pid ← call XGetpid ;
      n ← call (XWrite w (report_bytes (Report (le_val word) (tv_sec (default (Timespec 0 0) ts)) (i32 pid)))) ;
      if decide (n <> sizeof_report) then mret 3
      else _ ← close w ; _ ← usleep 150000 ; mret 0.

(** The parent's side after the second fork. *)
Definition process_preload_parent (fuel : nat) (ctrl child r w : Z) (handle : linbox_shm_handle) : MS Z :=
  _ ← close w ;
  '(rc, ts) ← clock_gettime fuel CLOCK_REALTIME OBJECT ;
  if decide (rc <> 0) then stop_controller ctrl 14
  else
    '(n, word) ← getrandom OBJECT 8 0 ;
    if decide (n <> 8) then stop_controller ctrl 15
    else
      '(rc, buf) ← read_all r (replicate (Z.to_nat sizeof_report) 0) ;
      if decide (rc <> 0) then stop_controller ctrl 16
      else
        _ ← close r ;
        _ ← usleep 50000 ;
        let child_report := bytes_report buf in
        if decide (tv_sec (default (Timespec 0 0) ts) < LINBOX_FAKE_EPOCH_SEC \/
                   report_sec child_report < LINBOX_FAKE_EPOCH_SEC)
        then stop_controller ctrl 18
        else if decide (le_val word = random_word child_report) then stop_controller ctrl 19
        else
          has ← slot_has_pid (layout handle) (report_pid child_report) ;
          if (has : bool) then
            rc ← wait_ok child ;
            if decide (rc <> 0) then stop_controller ctrl 17
            else
              _ ← linbox_shm_detach (Some handle) ;
              stop_controller ctrl 0
          else stop_controller ctrl 20.

Definition process_preload_main (fuel : nat) : MS Z :=
  '(ctrl, shm) ← start_controller "process" ;
  if decide (ctrl < 0) then mret 10
  else if decide (ctrl = 0) then become_controller
  else
    _ ← usleep 200000 ;
    '(rc, handle) ← linbox_shm_attach (Some shm) (Some (ShmHandle (-1) 0 NULL)) ;
    if decide (rc <> 0) then stop_controller ctrl 11
    else
      match handle with
      | None => undef
      | Some handle =>
          a ← callA (XReal "pipe" [OBJECT] None) ;
          if decide (ret a <> 0) then stop_controller ctrl 12
          else
            let r := nth 0 (data a) 0 in
            let w := nth 1 (data a) 0 in
            child ← fork ;
            if decide (child < 0) then stop_controller ctrl 13
            else if decide (child = 0) then process_preload_child fuel r w
            else process_preload_parent fuel ctrl child r w handle
      end.

(** ** linbox.preload.c *)
Definition string_bytes (s : string) : list Z :=
  (fun c => Z.of_N (Ascii.N_of_ascii c)) <$> String.list_ascii_of_string s.

(** libc's [strncmp] of two null-terminated strings of bytes. *)
Fixpoint strncmp (a b : list Z) (n : nat) : Z :=
  match n with
  | O => 0
  | S n' =>
      let x := hd 0 a in
      let y := hd 0 b in
      if decide (x <> y) then x - y else if decide (x = 0) then 0 else strncmp (tl a) (tl b) n'
  end.

(** [popen] runs a shell with the current [environ]; a [FILE *] is an address. *)
Definition run_and_read (cmd : string) (buf : list Z) (n : Z) : MS (Z * list Z) :=
  s ← get_st ;
  fp ← call (XRealExec "popen" "/bin/sh" ["sh"; "-c"; cmd] (Some (g_environ s))) ;
  if decide (fp = NULL) then mret (-1, buf)
  else
    a ← callA (XReal "fgets" [n; fp] None) ;
    if decide (ret a = NULL) then _ ← call (XReal "pclose" [fp] None) ; mret (-1, buf)
    else
      status ← call (XReal "pclose" [fp] None) ;
      mret (if decide (status = 0) then 0 else -1, splice buf 0 (data a)).

Definition date_command : string := "LC_ALL=C TZ=UTC date '+%a %b %e %T %Z %Y'".
Definition epoch_date : list Z := string_bytes "Wed Jan  1 00:00:00 UTC 2025".

Definition linbox_preload_main : MS Z :=
  '(ctrl, _) ← start_controller "preload" ;
  if decide (ctrl < 0) then mret 10
  else if decide (ctrl = 0) then become_controller
  else
    _ ← usleep 150000 ;
    '(rc, with_preload) ← run_and_read date_command (replicate 128 0) 128 ;
    if decide (rc <> 0) then stop_controller ctrl 1
    else if decide (strncmp with_preload epoch_date 28 <> 0) then stop_controller ctrl 2
    else
      libc_unsetenv "LD_PRELOAD" ;;
      '(rc, without_preload) ← run_and_read date_command (replicate 128 0) 128 ;
      if decide (rc <> 0) then stop_controller ctrl 3
      else
        _ ← stop_controller ctrl 0 ;
        mret (if decide (strncmp without_preload epoch_date 28 = 0) then 4 else 0).
End Spawning.
