(* ===== verification/SpawningFacts.v ===== *)
(** * What the programs that start a controller leave behind

    A logic for the events of a run, and the theorems about Spawning.v: however a
    run goes, the controller it started is told to stop and waited for; what
    linbox.preload.c compares; and which clock the parent of process.preload.c
    reads. *)
From stdpp Require Import pretty.
From S2P Require Import Prelude Bytes Prng ShmLayout Os Shm Env TimeManager Controller Shim ShimFacts Time TimeFacts Random Sigsys Process ProcessFacts Spawning.

(** ** The events of a run *)
Definition traces {S A} (T : list event -> A -> Prop) (m : M S A) : Prop :=
  forall p a q, m p = Ok (a, q) -> exists new, p_log q = p_log p ++ new /\ T new a.

(** An event that neither forks nor signals. *)
Definition benign (e : event) : Prop :=
  match e.1 with XKill _ _ => False | XReal fn _ _ => fn <> "fork" | _ => True end.

Definition benign_code {S A} (m : M S A) : Prop := traces (fun new _ => Forall benign new) m.

Section Rules.
Context {S : Type} {os : OS}.

Lemma traces_bind {A B} (T : list event -> A -> Prop) (U : A -> list event -> B -> Prop)
    (V : list event -> B -> Prop) (m : M S A) (f : A -> M S B) :
  traces T m -> (forall a, traces (U a) (f a)) ->
  (forall n1 n2 a b, T n1 a -> U a n2 b -> V (n1 ++ n2) b) -> traces V (a ← m; f a).
Proof.
  intros Hm Hf HV p b q H. apply M_bind_Ok in H as (a & p' & H1 & H2).
  destruct (Hm _ _ _ H1) as (n1 & E1 & T1). destruct (Hf _ _ _ _ H2) as (n2 & E2 & T2).
  exists (n1 ++ n2). rewrite E2, E1, app_assoc. split; [reflexivity|]. exact (HV _ _ _ _ T1 T2).
Qed.

Lemma benign_bind {A B} (m : M S A) (f : A -> M S B) :
  benign_code m -> (forall a, benign_code (f a)) -> benign_code (a ← m; f a).
Proof. intros Hm Hf. apply (traces_bind _ _ _ _ _ Hm Hf). intros n1 n2 _ _. apply Forall_app_2. Qed.

Lemma benign_silent {A} (m : M S A) : (forall p a q, m p = Ok (a, q) -> p_log q = p_log p) -> benign_code m.
Proof. intros Hm p a q H. exists []. rewrite app_nil_r. split; [exact (Hm _ _ _ H)|constructor]. Qed.

Lemma benign_ret {A} (a : A) : benign_code (S := S) (mret a).
Proof. apply benign_silent. intros p b q [= _ <-]. reflexivity. Qed.
Lemma benign_get_st : benign_code (S := S) get_st.
Proof. apply benign_silent. intros p b q [= _ <-]. reflexivity. Qed.
Lemma benign_get_errno : benign_code (S := S) get_errno.
Proof. apply benign_silent. intros p b q [= _ <-]. reflexivity. Qed.
Lemma benign_get_log : benign_code (S := S) get_log.
Proof. apply benign_silent. intros p b q [= _ <-]. reflexivity. Qed.
Lemma benign_set_errno e : benign_code (S := S) (set_errno e).
Proof. apply benign_silent. intros p b q [= _ <-]. reflexivity. Qed.
Lemma benign_modify_st f : benign_code (S := S) (modify_st f).
Proof. apply benign_silent. intros p b q [= _ <-]. reflexivity. Qed.
Lemma benign_undef {A} : benign_code (S := S) (undef (A := A)).
Proof. intros p a q [=]. Qed.
Lemma benign_out_of_fuel {A} : benign_code (S := S) (out_of_fuel (A := A)).
Proof. intros p a q [=]. Qed.
Lemma benign_lift {A} (r : res A) : benign_code (S := S) (lift r).
Proof. apply benign_silent. intros p a q. unfold lift. destruct r; [|discriminate..]. intros [= _ <-]. reflexivity. Qed.
Lemma benign_load r : benign_code (S := S) (load r).
Proof.
  intros p a q H. unfold load in H. destruct (_ !! r); [|discriminate]. injection H as _ <-.
  exists [mem_event r]. split; [reflexivity|]. repeat constructor.
Qed.
Lemma benign_store r f : benign_code (S := S) (store r f).
Proof.
  intros p a q H. unfold store in H. destruct (_ !! r); [|discriminate]. injection H as _ <-.
  exists [mem_event r]. split; [reflexivity|]. repeat constructor.
Qed.
Lemma benign_callA x : (forall a, benign (x, a)) -> benign_code (S := S) (callA x).
Proof. intros Hx p a q [= _ <-]. eexists [_]. split; [reflexivity|]. constructor; [apply Hx|constructor]. Qed.
Lemma benign_call_kernel x : (forall a, benign (x, a)) -> benign_code (S := S) (call_kernel x).
Proof. intros Hx p a q [= _ <-]. eexists [_]. split; [reflexivity|]. constructor; [apply Hx|constructor]. Qed.
Lemma benign_call x : (forall a, benign (x, a)) -> benign_code (S := S) (call x).
Proof. intros Hx. apply benign_bind; [apply benign_callA, Hx|intros; apply benign_ret]. Qed.
End Rules.

Create HintDb benign.
#[export] Hint Resolve benign_ret benign_get_st benign_get_errno benign_get_log benign_set_errno benign_modify_st
  benign_undef benign_out_of_fuel benign_lift benign_load benign_store : benign.

Ltac benign_tac :=
  repeat first
    [ progress (intros; cbv zeta)
    | solve [auto with benign nocore]
    | apply benign_call; intros ?; first [exact Logic.I|discriminate]
    | apply benign_callA; intros ?; first [exact Logic.I|discriminate]
    | apply benign_call_kernel; intros ?; first [exact Logic.I|discriminate]
    | apply benign_bind
    | match goal with |- benign_code (match ?x with _ => _ end) => destruct x end ].

(** ** The shared region and the shim *)
Section Benign.
Context {os : OS}.

Section Region.
Context {S : Type}.
Lemma benign_now_ns : benign_code (S := S) now_ns.
Proof. unfold now_ns. benign_tac. Qed.
Hint Resolve benign_now_ns : benign.
Lemma benign_init_layout r : benign_code (S := S) (linbox_shm_init_layout r).
Proof. unfold linbox_shm_init_layout. benign_tac. Qed.
Lemma benign_detach o : benign_code (S := S) (linbox_shm_detach o).
Proof. unfold linbox_shm_detach. benign_tac. Qed.
Hint Resolve benign_init_layout : benign.
Lemma benign_open_map path oflags mode init out : benign_code (S := S) (linbox_shm_open_map path oflags mode init out).
Proof. unfold linbox_shm_open_map. benign_tac. Qed.
Hint Resolve benign_open_map benign_detach : benign.
Lemma benign_attach path out : benign_code (S := S) (linbox_shm_attach path out).
Proof. unfold linbox_shm_attach. benign_tac. Qed.
Lemma benign_read_time_loop fuel r : benign_code (S := S) (read_time_loop fuel r).
Proof. induction fuel; cbn [read_time_loop]; benign_tac. Qed.
Hint Resolve benign_read_time_loop : benign.
Lemma benign_read_time fuel r out : benign_code (S := S) (linbox_shm_read_time fuel r out).
Proof. unfold linbox_shm_read_time. benign_tac. Qed.
End Region.
Hint Resolve benign_detach benign_attach benign_read_time : benign.

Lemma benign_resolve sym : benign_code (LINBOX_RESOLVE_NEXT sym).
Proof. unfold LINBOX_RESOLVE_NEXT, update. benign_tac. Qed.
Lemma benign_call_real sym x : (forall a, benign (x, a)) -> benign_code (call_real sym x).
Proof. intros Hx. unfold call_real. benign_tac. apply benign_callA, Hx. Qed.
Lemma benign_syscall_result rc : benign_code (linbox_syscall_result rc).
Proof. unfold linbox_syscall_result. benign_tac. Qed.
Lemma benign_state_get : benign_code linbox_state_get.
Proof. unfold linbox_state_get. benign_tac. Qed.
Lemma benign_update f : benign_code (update f).
Proof. apply benign_modify_st. Qed.
Hint Resolve benign_resolve benign_syscall_result benign_state_get benign_update : benign.
Lemma benign_effective seed : benign_code (linbox_effective_seed_for_pid seed).
Proof. unfold linbox_effective_seed_for_pid. benign_tac. Qed.
Lemma benign_exchange fd msg : benign_code (exchange fd msg).
Proof. unfold exchange. benign_tac. Qed.
Hint Resolve benign_effective benign_exchange : benign.
Lemma benign_connect path : benign_code (linbox_connect_controller path).
Proof. unfold linbox_connect_controller. benign_tac. Qed.
Hint Resolve benign_connect : benign.

(** A call through a resolved pointer that is not a fork. *)
Ltac benign_real := benign_tac; apply benign_call_real; intros ?; first [exact Logic.I|discriminate].

Section WithRaw.
Context {raw : RawSyscall}.

(** The system call instruction; discharged for the kernel below. *)
Class BenignRaw : Prop := benign_raw : forall nr args, benign_code (raw_syscall nr args).
Context {Hraw : BenignRaw}.

Lemma benign_raw2 nr a b : benign_code (linbox_raw_syscall2 nr a b).
Proof. apply benign_raw. Qed.
Lemma benign_raw6 nr a b c d e f : benign_code (linbox_raw_syscall6 nr a b c d e f).
Proof. apply benign_raw. Qed.
Hint Resolve benign_raw2 benign_raw6 : benign.
Lemma benign_init : benign_code linbox_init_state.
Proof. unfold linbox_init_state. benign_tac. Qed.
Hint Resolve benign_init : benign.
Lemma benign_reinit : benign_code linbox_reinit_state.
Proof. unfold linbox_reinit_state. benign_tac. Qed.
Lemma benign_seed_value : benign_code linbox_prng_seed_value.
Proof. unfold linbox_prng_seed_value. benign_tac. Qed.
Hint Resolve benign_reinit benign_seed_value : benign.
Lemma benign_fill buf len : benign_code (linbox_random_fill buf len).
Proof. unfold linbox_random_fill, reseed_if_needed, linbox_random_reseed. benign_tac. Qed.
Hint Resolve benign_fill : benign.
Lemma benign_fallback : benign_code linbox_fallback_now.
Proof. unfold linbox_fallback_now. benign_real. Qed.
Hint Resolve benign_fallback : benign.
Lemma benign_virtual_now fuel : benign_code (linbox_virtual_now fuel).
Proof. unfold linbox_virtual_now. benign_tac. Qed.
Hint Resolve benign_virtual_now : benign.
Lemma benign_clock_gettime fuel clk tp : benign_code (clock_gettime fuel clk tp).
Proof. unfold clock_gettime, linbox_virtual_clock_gettime. benign_tac. Qed.
Lemma benign_read fd buf count : benign_code (read fd buf count).
Proof. unfold read, linbox_is_virtual_fd. benign_real. Qed.
Lemma benign_close fd : benign_code (close fd).
Proof. unfold close, linbox_is_virtual_fd, linbox_release_virtual_fd. benign_real. Qed.
Hint Resolve benign_clock_gettime benign_read benign_close : benign.

Lemma benign_dispatch fuel nr a1 a2 a3 a4 a5 a6 : benign_code (linbox_dispatch_syscall fuel nr a1 a2 a3 a4 a5 a6).
Proof.
  unfold linbox_dispatch_syscall, linbox_virtual_clock_gettime, linbox_virtual_gettimeofday, linbox_virtual_time,
    linbox_virtual_getrandom. benign_tac.
Qed.
Hint Resolve benign_dispatch : benign.
Lemma benign_handler fuel info context : benign_code (linbox_sigsys_handler fuel info context).
Proof. unfold linbox_sigsys_handler. benign_tac. Qed.
End WithRaw.

(** The kernel's side of a system call, under whatever filter. *)
Lemma benign_trap (k : RawSyscall) rfuel nr args : BenignRaw (raw := k) -> benign_code (handle_trap k rfuel nr args).
Proof. intros Hk. unfold handle_trap. cbv zeta. apply benign_bind; [apply (benign_handler (Hraw := Hk))|benign_tac]. Qed.

Lemma benign_kernel rfuel depth : BenignRaw (raw := kernel_syscall rfuel depth).
Proof.
  induction depth as [|depth IH]; intros nr args; unfold raw_syscall; cbn [kernel_syscall].
  - benign_tac.
  - apply benign_bind; [apply benign_get_log|]. intros log. cbv zeta. repeat case_goal; [benign_tac| |benign_tac].
    destruct (handled log); [apply benign_trap, IH|apply benign_undef].
Qed.
End Benign.
#[export] Hint Resolve benign_resolve benign_syscall_result benign_state_get benign_update benign_detach benign_attach
  benign_exchange benign_init benign_reinit benign_fill benign_clock_gettime benign_read benign_close : benign.

(** ** Forking *)

(** The answers of the forks of a run, and the signals it sent. *)
Definition forks (new : list event) : list Z :=
  omap (fun e => match e with (XReal fn _ _, a) => if decide (fn = "fork") then Some (ret a) else None | _ => None end) new.
Definition kills (new : list event) : list (Z * Z) :=
  omap (fun e => match e.1 with XKill pid sig => Some (pid, sig) | _ => None end) new.

Lemma benign_forks new : Forall benign new -> forks new = [] /\ kills new = [].
Proof.
  induction 1 as [|[x a] new He _ [IH1 IH2]]; [auto|]. unfold forks, kills in *. cbn. rewrite IH1, IH2.
  destruct x; cbn in He; try contradiction; try (split; reflexivity). rewrite decide_False by exact He. auto.
Qed.

Lemma forks_app n1 n2 : forks (n1 ++ n2) = forks n1 ++ forks n2.
Proof. apply omap_app. Qed.
Lemma kills_app n1 n2 : kills (n1 ++ n2) = kills n1 ++ kills n2.
Proof. apply omap_app. Qed.

(** The events of a run that forks at most once and signals nobody: its forks'
    answers are [l]. *)
Definition forking (l : list Z) (new : list event) : Prop := forks new = l /\ kills new = [].

(** [r] is an answer of the machine to a fork. *)
Definition fork_answer {os : OS} (r : Z) : Prop := exists log, r = ret (os_answer log (XReal "fork" [] None)).

(** The same for a run that returns the answer [r] of its one fork, or -1. *)
Definition forked_once {os : OS} (new : list event) (r : Z) : Prop :=
  (r = -1 /\ forking [] new) \/ (forking [r] new /\ fork_answer r).

Lemma forking_benign new : Forall benign new -> forking [] new.
Proof. intros H. exact (benign_forks new H). Qed.
Lemma forking_app l1 l2 n1 n2 : forking l1 n1 -> forking l2 n2 -> forking (l1 ++ l2) (n1 ++ n2).
Proof. intros [<- H1] [<- H2]. split; [apply forks_app|]. rewrite kills_app, H1, H2. reflexivity. Qed.

Section Programs.
Context {os : OS} {raw : RawSyscall} {Hraw : BenignRaw}.

(** A run of [fork]: it failed before forking, or it forked once. *)
Lemma traces_fork : traces forked_once fork.
Proof.
  intros p r q H. unfold fork in H. apply M_bind_Ok in H as (ok & p1 & H1 & H).
  destruct (benign_resolve _ _ _ _ H1) as (n1 & E1 & B1). apply forking_benign in B1. destruct ok.
  - apply M_bind_Ok in H as (a & p2 & H2 & H). unfold call_real in H2. rewrite M_bind_eq in H2. cbn [get_st] in H2.
    destruct (decide _); [discriminate|]. injection H2 as <- <-.
    apply M_bind_Ok in H as (u & p3 & H3 & H). injection H as <- <-.
    assert (Hb : benign_code (if decide (ret (os_answer (p_log p1) (XReal "fork" [] None)) = 0)
      then linbox_after_fork_in_child else mret tt)).
    { unfold linbox_after_fork_in_child, linbox_send_register_process. benign_tac. }
    destruct (Hb _ _ _ H3) as (n3 & E3 & B3). apply forking_benign in B3. cbn [p_log] in E3.
    exists (n1 ++ [(XReal "fork" [] None, os_answer (p_log p1) (XReal "fork" [] None))] ++ n3).
    rewrite E3, E1, !app_assoc. split; [reflexivity|]. right. split; [|eexists; reflexivity]. rewrite <- app_assoc.
    apply (forking_app [] [_]); [exact B1|]. apply (forking_app [_] []); [split; reflexivity|exact B3].
  - injection H as <- <-. exists n1. split; [exact E1|left; auto].
Qed.

(** The events of code that ends by stopping the controller. *)
Definition stopped (ctrl : Z) (l : list Z) (new : list event) : Prop :=
  exists before a1 a2, forking l before /\
    new = before ++ [(XKill ctrl SIGTERM, a1); (XReal "waitpid" [ctrl; NULL; 0] None, a2)].

Lemma traces_stop ctrl status : traces (fun new r => stopped ctrl [] new /\ r = status) (stop_controller ctrl status).
Proof.
  intros p r q H. unfold stop_controller in H. rewrite !M_bind_eq, call_eq in H. cbv zeta in H.
  injection H as <- <-. cbn [p_log]. rewrite <- app_assoc. eexists. split; [reflexivity|]. split; [|reflexivity].
  eexists [], _, _. split; [split; reflexivity|reflexivity].
Qed.

Lemma stopped_before ctrl l1 l2 n1 n2 : forking l1 n1 -> stopped ctrl l2 n2 -> stopped ctrl (l1 ++ l2) (n1 ++ n2).
Proof.
  intros H1 (before & a1 & a2 & Hb & ->). exists (n1 ++ before), a1, a2. split; [apply forking_app; assumption|].
  apply app_assoc.
Qed.

(** The statuses code may end with, having stopped the controller. *)
Definition stops {A} (ctrl : Z) (P : A -> Prop) (m : MS A) : Prop := traces (fun new r => stopped ctrl [] new /\ P r) m.

Lemma stops_bind {A B} ctrl (P : B -> Prop) (m : MS A) (f : A -> MS B) :
  benign_code m -> (forall a, stops ctrl P (f a)) -> stops ctrl P (a ← m; f a).
Proof.
  intros Hm Hf. apply (traces_bind _ _ _ _ _ Hm Hf). intros n1 n2 _ b B1 [Hs Hb]. split; [|exact Hb].
  exact (stopped_before ctrl [] [] n1 n2 (forking_benign _ B1) Hs).
Qed.

Lemma stops_controller ctrl (P : Z -> Prop) status : P status -> stops ctrl P (stop_controller ctrl status).
Proof.
  intros HP p r q H. destruct (traces_stop ctrl status p r q H) as (new & E & Hs & ->). exists new. auto.
Qed.
End Programs.

(** Membership in a list of numbers. *)
Ltac listed := apply (bool_decide_unpack _); exact Logic.I.

(** Through the code to the [stop_controller] at its end. *)
Ltac stops_tac :=
  repeat first
    [ progress (intros; cbv zeta)
    | match goal with
      | |- stops _ _ (stop_controller _ _) => apply stops_controller; listed
      | |- stops _ _ (_ ← stop_controller _ _ ; _) => fail 1
      | |- stops _ _ (mbind _ _) => apply stops_bind; [solve [benign_tac]|]
      | |- stops _ _ (match ?x with _ => _ end) => destruct x
      end ].

Section Verdicts.
Context {os : OS} {raw : RawSyscall} {Hraw : BenignRaw}.

Lemma benign_read_all_loop fuel fd len : forall buf offset, benign_code (read_all_loop fuel fd buf offset len).
Proof. induction fuel as [|fuel IH]; intros buf offset; cbn [read_all_loop]; benign_tac. Qed.
Lemma benign_read_all fd buf : benign_code (read_all fd buf).
Proof. apply benign_read_all_loop. Qed.
Lemma benign_slot_loop k layout the_pid : forall i, benign_code (slot_has_pid_loop k layout i the_pid).
Proof. induction k as [|k IH]; intros i; cbn [slot_has_pid_loop]; benign_tac. Qed.
Lemma benign_slot_has_pid layout the_pid : benign_code (slot_has_pid layout the_pid).
Proof. apply benign_slot_loop. Qed.
Lemma benign_wait_ok pid : benign_code (wait_ok pid).
Proof. unfold wait_ok. benign_tac. Qed.
Lemma benign_setenv name value : benign_code (libc_setenv name value).
Proof. unfold libc_setenv. benign_tac. Qed.
Lemma benign_unsetenv name : benign_code (libc_unsetenv name).
Proof. unfold libc_unsetenv. benign_tac. Qed.
Lemma benign_usleep n : benign_code (usleep n).
Proof. unfold usleep. benign_tac. Qed.
Lemma benign_getrandom buf len flags : benign_code (getrandom buf len flags).
Proof. apply benign_fill. Qed.
Lemma benign_run_and_read cmd buf n : benign_code (run_and_read cmd buf n).
Proof. unfold run_and_read. benign_tac. Qed.
Lemma benign_free_all ptrs : benign_code (free_all ptrs).
Proof. induction ptrs as [|x ptrs IH]; cbn [free_all]; benign_tac. Qed.
Hint Resolve benign_read_all benign_slot_has_pid benign_wait_ok benign_setenv benign_unsetenv benign_usleep
  benign_getrandom benign_run_and_read benign_free_all : benign.
Lemma benign_add_missing needed envp array : forall added, benign_code (add_missing needed envp array added).
Proof.
  induction needed as [|[name value] needed IH]; intros added; cbn [add_missing b_name b_value]; benign_tac.
Qed.
Hint Resolve benign_add_missing : benign.
Lemma benign_execve path argv envp : benign_code (execve path argv envp).
Proof.
  unfold execve, with_runtime_env, linbox_inject_runtime_env, linbox_free_injected_env, fail_enomem. benign_tac.
  all: apply benign_call_real; intros; exact Logic.I.
Qed.
Hint Resolve benign_execve : benign.
Lemma benign_become : benign_code become_controller.
Proof. unfold become_controller, execl, with_argv, fail_enomem. benign_tac. Qed.

Definition is_status (l : list Z) (r : Z) : Prop := r ∈ l.

Lemma parent_stops fuel ctrl child r w handle :
  stops ctrl (is_status [0; 14; 15; 16; 17; 18; 19; 20]) (process_preload_parent fuel ctrl child r w handle).
Proof. unfold process_preload_parent, is_status. stops_tac. Qed.

(** The child's side ends with a status of its own. *)
Lemma child_ends fuel r w : traces (fun new status => Forall benign new /\ status ∈ [0; 1; 2; 3]) (process_preload_child fuel r w).
Proof.
  assert (Hb : benign_code (process_preload_child fuel r w)) by (unfold process_preload_child; benign_tac).
  intros p status q H. destruct (Hb _ _ _ H) as (new & E & B). exists new. split; [exact E|]. split; [exact B|].
  unfold process_preload_child in H. apply M_bind_Ok in H as (? & ? & _ & H).
  apply M_bind_Ok in H as ([rc ts] & ? & _ & H). case_in H; [injection H as <- _; listed|].
  apply M_bind_Ok in H as ([len word] & ? & _ & H). case_in H; [injection H as <- _; listed|].
  apply M_bind_Ok in H as (pid & ? & _ & H). apply M_bind_Ok in H as (k & ? & _ & H).
  case_in H; [injection H as <- _; listed|].
  do 2 (apply M_bind_Ok in H as (? & ? & _ & H)). injection H as <- _. listed.
Qed.

Lemma become_ends : traces (fun new status => Forall benign new /\ status = 127) become_controller.
Proof.
  intros p status q H. destruct (benign_become _ _ _ H) as (new & E & B). exists new. split; [exact E|].
  split; [exact B|]. apply M_bind_Ok in H as (? & ? & _ & H). injection H as <- _. reflexivity.
Qed.

Lemma forked_bind {A} (m : MS A) (f : A -> MS (Z * string)) : benign_code m ->
  (forall a, traces (fun new r => forked_once new r.1) (f a)) -> traces (fun new r => forked_once new r.1) (a ← m; f a).
Proof.
  intros Hm Hf. apply (traces_bind _ _ _ _ _ Hm Hf). intros n1 n2 _ r B [[Hr F]|[F Hr]]; apply forking_benign in B.
  - left. split; [exact Hr|exact (forking_app [] [] _ _ B F)].
  - right. split; [exact (forking_app [] [_] _ _ B F)|exact Hr].
Qed.

Lemma start_traces word : traces (fun new r => forked_once new r.1) (start_controller word).
Proof.
  unfold start_controller. cbv zeta. do 4 (apply forked_bind; [benign_tac|]; intros ?).
  intros p r q H. apply M_bind_Ok in H as (ctrl & p1 & H1 & H). injection H as <- <-. exact (traces_fork _ _ _ H1).
Qed.

(** How the run of a program ends after it forked its controller: it stopped the
    controller, with at most one further fork, or it is the forked child. *)
Definition parent_ends (ctrl : Z) (statuses child_statuses : list Z) (new : list event) (status : Z) : Prop :=
  (exists rest, stopped ctrl rest new /\
     (rest = [] \/ exists child, child <> 0 /\ fork_answer child /\ rest = [child]) /\ status ∈ statuses) \/
  (forking [0] new /\ fork_answer 0 /\ status ∈ child_statuses).

Lemma parent_ends_prefix ctrl ss cs n1 n2 status : Forall benign n1 -> parent_ends ctrl ss cs n2 status ->
  parent_ends ctrl ss cs (n1 ++ n2) status.
Proof.
  intros B1 [(rest & Hs & Hr & Hst)|(Hf & Ha & Hst)]; [left|right].
  - exists rest. split; [|auto]. exact (stopped_before ctrl [] rest n1 n2 (forking_benign _ B1) Hs).
  - split; [|auto]. exact (forking_app [] [0] n1 n2 (forking_benign _ B1) Hf).
Qed.

Lemma parent_ends_bind {A} ctrl ss cs (m : MS A) (f : A -> MS Z) : benign_code m ->
  (forall a, traces (parent_ends ctrl ss cs) (f a)) -> traces (parent_ends ctrl ss cs) (a ← m; f a).
Proof. intros Hm Hf. apply (traces_bind _ _ _ _ _ Hm Hf). intros n1 n2 _ b. apply parent_ends_prefix. Qed.

Lemma parent_ends_stops ctrl ss cs (m : MS Z) : stops ctrl (is_status ss) m -> traces (parent_ends ctrl ss cs) m.
Proof.
  intros Hm p r q H. destruct (Hm _ _ _ H) as (new & E & Hs & Hr). exists new. split; [exact E|]. left.
  exists []. auto.
Qed.

Lemma is_status_weaken ctrl l1 l2 (m : MS Z) : Forall (fun x => x ∈ l2) l1 -> stops ctrl (is_status l1) m -> stops ctrl (is_status l2) m.
Proof.
  intros Hl Hm p r q H. destruct (Hm _ _ _ H) as (new & E & Hs & Hr). exists new. split; [exact E|].
  split; [exact Hs|]. exact (proj1 (Forall_forall _ _) Hl _ Hr).
Qed.

Definition process_statuses : list Z := [0; 11; 12; 13; 14; 15; 16; 17; 18; 19; 20].

(** The second fork of process.preload.c. *)
Lemma second_fork_ends fuel ctrl r w handle : traces (parent_ends ctrl process_statuses [0; 1; 2; 3])
  (child ← fork ;
   if decide (child < 0) then stop_controller ctrl 13
   else if decide (child = 0) then process_preload_child fuel r w
   else process_preload_parent fuel ctrl child r w handle).
Proof.
  apply (traces_bind forked_once
    (fun child new status =>
       if decide (child = 0) then Forall benign new /\ status ∈ [0; 1; 2; 3]
       else stopped ctrl [] new /\ status ∈ process_statuses)); [exact traces_fork| |].
  - intros child. cbv beta. destruct (decide (child = 0)) as [->|H0].
    + rewrite decide_False by lia. apply child_ends.
    + destruct (decide (child < 0)) as [Hn|Hn].
      * apply stops_controller. listed.
      * apply (is_status_weaken ctrl [0; 14; 15; 16; 17; 18; 19; 20] process_statuses); [|apply parent_stops].
        listed.
  - intros n1 n2 child status [[-> F1]|[F1 Ha]] H.
    + rewrite decide_False in H by lia. destruct H as [Hs Hst]. left. exists [].
      split; [exact (stopped_before ctrl [] [] n1 n2 F1 Hs)|auto].
    + destruct (decide (child = 0)) as [->|H0].
      * destruct H as [B Hst]. right. split; [|auto]. exact (forking_app [0] [] n1 n2 F1 (forking_benign _ B)).
      * destruct H as [Hs Hst]. left. exists [child].
        split; [exact (stopped_before ctrl [child] [] n1 n2 F1 Hs)|]. split; [right; exists child; auto|exact Hst].
Qed.

(** After the first fork, in the parent. *)
Definition process_rest (fuel : nat) (ctrl : Z) (shm : string) : MS Z :=
  _ ← usleep 200000 ;
  '(rc, handle) ← linbox_shm_attach (Some shm) (Some (ShmHandle (-1) 0 NULL)) ;
  if decide (rc <> 0) then stop_controller ctrl 11
  else
    match handle with
    | None => undef
    | Some handle =>
        a ← callA (XReal "pipe" [OBJECT] None) ;
        if decide (ret a <> 0) then stop_controller ctrl 12
        else
          child ← fork ;
          if decide (child < 0) then stop_controller ctrl 13
          else if decide (child = 0) then process_preload_child fuel (nth 0 (data a) 0) (nth 1 (data a) 0)
          else process_preload_parent fuel ctrl child (nth 0 (data a) 0) (nth 1 (data a) 0) handle
    end.

Lemma process_rest_ends fuel ctrl shm : traces (parent_ends ctrl process_statuses [0; 1; 2; 3]) (process_rest fuel ctrl shm).
Proof.
  assert (Hs : forall n, n ∈ process_statuses ->
    traces (parent_ends ctrl process_statuses [0; 1; 2; 3]) (stop_controller ctrl n))
    by (intros n Hn; apply parent_ends_stops, stops_controller, Hn).
  unfold process_rest. apply parent_ends_bind; [benign_tac|]. intros _. apply parent_ends_bind; [benign_tac|]. intros [rc handle].
  destruct (decide _); [apply Hs; listed|].
  destruct handle as [handle|]; [|intros p a q [=]]. apply parent_ends_bind; [benign_tac|]. intros a.
  destruct (decide _); [apply Hs; listed|]. apply second_fork_ends.
Qed.

Definition linbox_rest (ctrl : Z) : MS Z :=
  _ ← usleep 150000 ;
  '(rc, with_preload) ← run_and_read date_command (replicate 128 0) 128 ;
  if decide (rc <> 0) then stop_controller ctrl 1
  else if decide (strncmp with_preload epoch_date 28 <> 0) then stop_controller ctrl 2
  else
    libc_unsetenv "LD_PRELOAD" ;;
    '(rc, without_preload) ← run_and_read date_command (replicate 128 0) 128 ;
    if decide (rc <> 0) then stop_controller ctrl 3
    else
      _ ← stop_controller ctrl 0 ;
      mret (if decide (strncmp without_preload epoch_date 28 = 0) then 4 else 0).

Lemma linbox_rest_ends ctrl : traces (parent_ends ctrl [0; 1; 2; 3; 4] []) (linbox_rest ctrl).
Proof.
  apply parent_ends_stops. unfold linbox_rest, is_status. stops_tac.
  intros p r q H. apply M_bind_Ok in H as (u & p1 & H1 & H). apply M_ret_Ok in H as [-> ->].
  destruct (traces_stop ctrl 0 _ _ _ H1) as (new & E & Hs & _). exists new. split; [exact E|]. split; [exact Hs|].
  case_decide; listed.
Qed.

(** How the whole run of a program ends, by the answers to the forks it made. *)
Definition program_ends (statuses child_statuses : list Z) (new : list event) (status : Z) : Prop :=
  Forall fork_answer (forks new) /\
  match forks new with
  | [] => status = 10 /\ kills new = []
  | ctrl :: rest =>
      if decide (ctrl < 0) then status = 10 /\ rest = [] /\ kills new = []
      else if decide (ctrl = 0) then status = 127 /\ rest = [] /\ kills new = []
      else if decide (rest = [0]) then status ∈ child_statuses /\ kills new = []
      else status ∈ statuses /\ (length rest <= 1)%nat /\ kills new = [(ctrl, SIGTERM)] /\
           exists before a1 a2,
             new = before ++ [(XKill ctrl SIGTERM, a1); (XReal "waitpid" [ctrl; NULL; 0] None, a2)]
  end.

Lemma program_ends_from word ss cs (rest : Z -> string -> MS Z) :
  (forall ctrl shm, traces (parent_ends ctrl ss cs) (rest ctrl shm)) ->
  traces (program_ends ss cs)
    ('(ctrl, shm) ← start_controller word ;
     if decide (ctrl < 0) then mret 10 else if decide (ctrl = 0) then become_controller else rest ctrl shm).
Proof.
  intros Hrest p status q H. apply M_bind_Ok in H as ([ctrl shm] & p1 & H1 & H).
  destruct (start_traces _ _ _ _ H1) as (n1 & E1 & F1). cbn [fst] in F1. unfold program_ends.
  destruct (decide (ctrl < 0)) as [Hn|Hn].
  { injection H as <- <-. exists n1. split; [exact E1|].
    destruct F1 as [[_ [-> ->]]|[[-> ->] Ha]]; [auto|]. rewrite decide_True by exact Hn. auto. }
  destruct F1 as [[-> _]|[F1 Ha]]; [lia|]. destruct (decide (ctrl = 0)) as [->|H0].
  { destruct (become_ends _ _ _ H) as (n2 & E2 & B2 & ->). exists (n1 ++ n2). rewrite E2, E1, app_assoc.
    split; [reflexivity|]. destruct (forking_app [0] [] _ _ F1 (forking_benign _ B2)) as [-> ->]. cbn [app].
    rewrite decide_False, decide_True by lia. auto. }
  destruct (Hrest _ _ _ _ _ H) as (n2 & E2 & F2). exists (n1 ++ n2). rewrite E2, E1, app_assoc. split; [reflexivity|].
  destruct F2 as [(rest' & Hs & Hr & Hst)|(F2 & Ha0 & Hst)].
  - destruct (stopped_before ctrl [ctrl] rest' n1 n2 F1 Hs) as (before & a1 & a2 & [Hf Hk] & ->).
    rewrite forks_app, kills_app, Hf, Hk. cbn [forks kills omap list_omap fst app]. rewrite app_nil_r.
    split; [constructor; [exact Ha|destruct Hr as [->|(c & _ & Hc & ->)]; auto]|].
    rewrite !decide_False by (assumption || (destruct Hr as [->|(c & Hc & _ & ->)]; congruence)).
    split; [exact Hst|]. split; [destruct Hr as [->|(c & _ & _ & ->)]; cbn; lia|]. split; [reflexivity|]. eauto.
  - destruct (forking_app [ctrl] [0] _ _ F1 F2) as [-> ->]. cbn [app]. split; [auto|].
    rewrite !decide_False, decide_True by (assumption || reflexivity). auto.
Qed.
End Verdicts.

(** The two programs. *)
Lemma process_main_ends {os : OS} {raw : RawSyscall} {Hraw : BenignRaw} (fuel : nat) :
  traces (program_ends process_statuses [0; 1; 2; 3]) (process_preload_main fuel).
Proof. exact (program_ends_from "process" _ _ (process_rest fuel) (process_rest_ends fuel)). Qed.

Lemma linbox_main_ends {os : OS} {raw : RawSyscall} {Hraw : BenignRaw} :
  traces (program_ends [0; 1; 2; 3; 4] []) linbox_preload_main.
Proof. exact (program_ends_from "preload" _ _ (fun ctrl _ => linbox_rest ctrl) (fun ctrl _ => linbox_rest_ends ctrl)). Qed.

(** ** Which clock the parent reads *)

(** A shim that started without a controller. *)
Definition detached (s : shim) : Prop := initialized (lb s) = true /\ controller_connected (lb s) = false.

Section Detached.
Context {os : OS} {raw : RawSyscall}.

Lemma resolve_detached sym (p q : proc shim) ok : LINBOX_RESOLVE_NEXT sym p = Ok (ok, q) ->
  detached (p_st p) -> detached (p_st q).
Proof.
  intros H Hd. unfold LINBOX_RESOLVE_NEXT in H. rewrite M_bind_eq in H. cbn [get_st] in H.
  case_in H; [injection H as _ <-; exact Hd|]. destruct (resolving _).
  - rewrite M_bind_eq in H. injection H as _ <-. exact Hd.
  - rewrite !M_bind_eq in H. cbn in H. injection H as _ <-. exact Hd.
Qed.

Lemma setenv_detached name value (p q : proc shim) rc : libc_setenv name value p = Ok (rc, q) ->
  detached (p_st p) -> detached (p_st q).
Proof.
  intros H Hd. unfold libc_setenv in H. apply M_bind_Ok in H as (r & p1 & [= <- <-] & H).
  apply M_bind_Ok in H as (u & p2 & H2 & H). injection H as _ <-.
  destruct (decide (ret _ = 0)); [rewrite M_bind_eq in H2|]; injection H2 as _ <-; exact Hd.
Qed.

Lemma fork_parent_detached (p q : proc shim) r : fork p = Ok (r, q) -> r <> 0 ->
  detached (p_st p) -> detached (p_st q).
Proof.
  intros H Hr Hd. unfold fork in H. apply M_bind_Ok in H as (ok & p1 & H1 & H).
  apply resolve_detached in H1; [|exact Hd]. destruct ok; [|injection H as _ <-; exact H1].
  apply M_bind_Ok in H as (a & p2 & H2 & H). unfold call_real in H2. rewrite M_bind_eq in H2. cbn [get_st] in H2.
  destruct (decide _); [discriminate|]. injection H2 as <- <-. apply M_bind_Ok in H as (u & p3 & H3 & H).
  injection H as <- <-. rewrite decide_False in H3 by assumption. injection H3 as _ <-. exact H1.
Qed.

Lemma start_detached word (p q : proc shim) ctrl shm : start_controller word p = Ok ((ctrl, shm), q) -> ctrl <> 0 ->
  detached (p_st p) -> detached (p_st q).
Proof.
  intros H Hc Hd. unfold start_controller in H. cbv zeta in H.
  do 2 (apply M_bind_Ok in H as (? & ? & [= <- <-] & H)).
  do 2 (apply M_bind_Ok in H as (? & ? & ?%setenv_detached & H); [|assumption]).
  apply M_bind_Ok in H as (r & ? & Hf & H). injection H as <- _ <-.
  apply (fork_parent_detached _ _ _ Hf Hc). assumption.
Qed.
End Detached.

(** The environment is read once: a program whose shim found no controller when
    it was loaded, and which then names one in its environment and starts it, goes
    on reading the real clock of the host.  So the parent of process.preload.c
    compares the host's date, not the virtual time, with the default epoch. *)
Theorem late_controller_ignored {os : OS} {raw : RawSyscall} (word shm : string) (fuel : nat) (ctrl clk tp : Z)
    (p q : proc shim) (Hd : detached (p_st p)) (Hstart : start_controller word p = Ok ((ctrl, shm), q))
    (Hparent : ctrl <> 0) (Hreal : real_ptr (p_st q) "clock_gettime" <> NULL) (Htp : tp <> NULL)
    (Hclk : clk ∈ virtual_clocks) :
  let x := XReal "clock_gettime" [CLOCK_REALTIME] None in
  let a := os_answer (p_log q) x in
  exists q', clock_gettime fuel clk tp q = Ok ((ret a, stored_timespec (ret a) a), q') /\
    p_log q' = p_log q ++ [(x, a)] /\ detached (p_st q').
Proof.
  cbv zeta. pose proof (start_detached _ _ _ _ _ Hstart Hparent Hd) as [Hi Hc].
  eexists. rewrite (disconnected_uses_real_clock fuel q clk tp Hi Hc Hreal Htp Hclk).
  split; [reflexivity|]. split; [reflexivity|split; assumption].
Qed.

(** The fuel of [read_all] is enough: where its reads return, so does it. *)
Lemma read_all_completes {os : OS} {raw : RawSyscall} (fd : Z) :
  (forall n (p : proc shim), read fd OBJECT n p <> OutOfFuel) ->
  forall buf (p : proc shim), read_all fd buf p <> OutOfFuel.
Proof.
  intros Hread. assert (H : forall fuel buf offset len (p : proc shim), (len - offset <= fuel)%nat ->
    read_all_loop fuel fd buf offset len p <> OutOfFuel).
  { induction fuel as [|fuel IH]; intros buf offset len p Hf; cbn [read_all_loop]; destruct (decide _);
      try lia; try discriminate.
    rewrite M_bind_eq. pose proof (Hread (Z.of_nat (len - offset)) p) as Hr.
    destruct (read _ _ _ p) as [[[n bytes] q]| |]; [|contradiction|discriminate]. cbv zeta.
    destruct (decide (n <= 0)); [discriminate|]. apply IH. lia. }
  intros buf p. apply H. lia.
Qed.
