(* ===== verification/Stopping.v ===== *)
(** * The programs that start a controller do stop it

    Total correctness of the parent's run of process.preload.c and
    linbox.preload.c: it reaches its end, and with SpawningFacts.v it has stopped
    its controller by then. *)
From stdpp Require Import pretty.
From S2P Require Import Prelude Bytes Prng ShmLayout Os Total Shm Mapping Env TimeManager Controller Shim ShimFacts Time TimeFacts Random Sigsys Process ProcessFacts Spawning SpawningFacts.

(** The host the parent runs on: nobody unmaps the region, the dynamic linker
    finds the symbols of libc, and of the two processes after a fork the run
    follows the parent. *)
Record parent_host {os : OS} : Prop := {
  ph_mem : forall log m, mapped m -> mapped (os_interfere log m);
  ph_dlsym : forall log symbol, ret (os_answer log (XDlsym symbol)) <> NULL;
  ph_fork : forall log, ret (os_answer log (XReal "fork" [] None)) <> 0 }.

Section Parent.
Context {os : OS} {raw : RawSyscall} (Hhost : parent_host).

(** The shim found no controller when the program was loaded. *)
Definition parent (p : proc shim) : Prop := detached (p_st p) /\ mapped (p_mem p).

#[local] Instance parent_stable : Stable parent.
Proof. intros p e log H. exact H. Qed.
#[local] Instance parent_undisturbed : Undisturbed parent.
Proof. intros p log [Hd Hm]. split; [exact Hd|]. apply (ph_mem Hhost), Hm. Qed.
#[local] Instance parent_holding : Holding parent.
Proof. split; [exact _..|intros p [_ H]; exact H|]. intros p m [Hd _] Hm. split; [exact Hd|exact Hm]. Qed.

(** Changes of the state that leave the connection alone. *)
Lemma parent_modify f : (forall s, detached s -> detached (f s)) -> ends parent (modify_st f).
Proof. intros Hf. apply total_modify_st. intros p [Hd Hm]. split; [apply Hf, Hd|exact Hm]. Qed.

Lemma parent_update f : (forall st, initialized (f st) = initialized st /\
    controller_connected (f st) = controller_connected st) -> ends parent (update f).
Proof.
  intros Hf. apply parent_modify. intros s [Hi Hc]. destruct (Hf (lb s)) as [E1 E2].
  split; cbn [on_lb lb]; congruence.
Qed.

Lemma parent_resolve symbol : total parent (LINBOX_RESOLVE_NEXT symbol)
  (fun ok q => parent q /\ (ok = true -> real_ptr (p_st q) symbol <> NULL)).
Proof.
  intros p Hp. unfold LINBOX_RESOLVE_NEXT. rewrite M_bind_eq. cbn [get_st].
  destruct (decide (real_ptr (p_st p) symbol <> NULL)) as [Hr|Hr]; [eexists _, _; split; [reflexivity|auto]|].
  destruct (resolving (lb (p_st p))).
  - eexists _, _. split; [reflexivity|]. split; [exact Hp|discriminate].
  - eexists _, _. split; [reflexivity|]. split; [exact Hp|]. intros _.
    unfold real_ptr, set_real, on_lb. cbn [p_st g_real lb]. rewrite lookup_insert_eq. apply (ph_dlsym Hhost).
Qed.

(** A function that resolves its symbol and calls it. *)
Lemma parent_real {A} symbol x (f : answer -> MS A) (g : MS A) (Q : A -> proc shim -> Prop) :
  (forall a, answers_to x a -> total parent (f a) Q) -> total parent g Q ->
  total parent (ok ← LINBOX_RESOLVE_NEXT symbol ; if (ok : bool) then a ← call_real symbol x ; f a else g) Q.
Proof.
  intros Hf Hg. eapply total_bind; [apply parent_resolve|]. intros [|] p [Hp Hr]; [|exact (Hg p Hp)].
  rewrite M_bind_eq, call_real_eq by exact (Hr eq_refl). unfold callA. cbv zeta.
  apply Hf; [eexists; reflexivity|exact Hp].
Qed.

Lemma parent_init : ends parent linbox_init_state.
Proof. intros p Hp. eexists _, _. split; [apply init_state_done, Hp|exact Hp]. Qed.

Lemma parent_state_get : total parent linbox_state_get (fun st q => parent q /\ st = lb (p_st q)).
Proof. intros p Hp. exists (lb (p_st p)), p. auto. Qed.

Lemma parent_seed_value : ends parent linbox_prng_seed_value.
Proof.
  unfold linbox_prng_seed_value. apply ends_bind; [apply parent_init|]. intros _.
  eapply total_bind; [apply parent_state_get|]. intros st.
  apply (total_conseq _ (fun p => controller_connected st <> true /\ parent p) _ (fun _ => parent)).
  - intros p [[[Hi Hc] Hm] ->]. split; [congruence|split; [split; assumption|exact Hm]].
  - auto.
  - apply total_pure. intros Hc. rewrite decide_False by tauto. unfold linbox_state_get.
    apply ends_bind; [apply ends_ret|]. ends_tac.
Qed.

Lemma parent_reseed_if_needed : ends parent reseed_if_needed.
Proof.
  unfold reseed_if_needed, linbox_random_reseed, linbox_state_get. apply ends_bind; [apply parent_init|]. intros _.
  apply ends_bind; [apply parent_seed_value|]. intros seed. apply ends_bind; [ends_tac|]. intros st.
  destruct (decide _); [|apply ends_ret]. apply ends_bind; [|intros _]; apply parent_update; intros st'; split; reflexivity.
Qed.

Lemma parent_fill buf len : buf <> NULL -> 0 <= len < 2 ^ 63 -> ends parent (linbox_random_fill buf len).
Proof.
  intros Hbuf Hlen. unfold linbox_random_fill, linbox_state_get. apply ends_bind; [apply parent_reseed_if_needed|].
  intros _. rewrite decide_False by (intros [? _]; contradiction). apply ends_bind; [ends_tac|]. intros st.
  apply (total_bind _ (fun _ => parent)).
  - eapply total_lift; [apply prng_fill_eq; rewrite length_replicate; lia|]. auto.
  - intros [g bytes]. apply ends_bind; [apply parent_update; intros st'; split; reflexivity|]. intros _. apply ends_ret.
Qed.

Lemma parent_read fd count : 0 <= count < 2 ^ 63 -> ends parent (read fd OBJECT count).
Proof.
  intros Hc. unfold read, linbox_is_virtual_fd. apply ends_bind; [ends_tac|]. intros virtual.
  destruct virtual; [apply parent_fill; [discriminate|exact Hc]|]. apply parent_real; intros; apply ends_ret.
Qed.

Lemma parent_close fd : ends parent (close fd).
Proof.
  unfold close, linbox_is_virtual_fd, linbox_release_virtual_fd. apply ends_bind; [ends_tac|]. intros virtual.
  destruct virtual; [|apply parent_real; intros; apply ends_ret]. apply ends_bind; [|intros; apply ends_ret].
  apply ends_bind; [apply ends_get_st|]. intros s. destruct (find_fd _ _ _); [|apply ends_ret].
  apply parent_modify. intros s' H. exact H.
Qed.

(** The parent reads the host's clock. *)
Lemma parent_clock fuel : ends parent (clock_gettime fuel CLOCK_REALTIME OBJECT).
Proof.
  unfold clock_gettime. eapply total_bind; [apply parent_resolve|].
  intros [|] p [Hp Hr]; [|eexists _, _; split; [reflexivity|exact Hp]]. specialize (Hr eq_refl).
  unfold linbox_virtual_clock_gettime. rewrite decide_False by discriminate. rewrite decide_True by listed.
  pose proof Hp as [[Hi Hc] _]. unfold linbox_virtual_now. rewrite M_bind_eq, init_state_done by exact Hi.
  rewrite M_bind_eq, state_get_eq, decide_False by (intros [H _]; congruence).
  unfold linbox_fallback_now. rewrite M_bind_eq. cbn [get_st]. rewrite decide_True by exact Hr.
  rewrite M_bind_eq, call_real_eq by exact Hr. eexists _, _. split; [reflexivity|exact Hp].
Qed.

Lemma parent_fork : total parent fork (fun r q => r <> 0 /\ parent q).
Proof.
  unfold fork. apply parent_real.
  - intros a [log ->]. rewrite decide_False by apply (ph_fork Hhost).
    apply (total_bind _ (fun _ => parent)); [apply ends_ret|]. intros _. apply total_ret. intros p Hp.
    split; [apply (ph_fork Hhost)|exact Hp].
  - apply total_ret. intros p Hp. split; [lia|exact Hp].
Qed.

Lemma parent_start word : total parent (start_controller word) (fun r q => r.1 <> 0 /\ parent q).
Proof.
  assert (Hset : forall name value, ends parent (libc_setenv name value)).
  { intros name value. unfold libc_setenv. apply ends_bind; [ends_tac|]. intros rc. apply ends_bind; [|ends_tac].
    destruct (decide _); [|apply ends_ret]. apply ends_bind; [ends_tac|]. intros s. apply parent_modify.
    intros s' H. exact H. }
  unfold start_controller. do 4 (apply total_bind_ends; [apply Hset || ends_tac|]; intros ?).
  eapply total_bind; [apply parent_fork|]. intros ctrl. apply total_ret. auto.
Qed.

Lemma parent_stop ctrl status : ends parent (stop_controller ctrl status).
Proof. unfold stop_controller. ends_tac. Qed.
Hint Resolve parent_stop parent_close parent_clock : ends.

(** [read_all]: each turn but the last reads at least a byte. *)
Lemma parent_read_all_loop fd len : (Z.of_nat len < 2 ^ 63) -> forall fuel buf offset, (len - offset <= fuel)%nat ->
  ends parent (read_all_loop fuel fd buf offset len).
Proof.
  intros Hlen. induction fuel as [|fuel IH]; intros buf offset Hf; cbn [read_all_loop];
    destruct (decide (offset < len)%nat); try apply ends_ret; [lia|].
  apply ends_bind; [apply parent_read; lia|]. intros [n bytes]. cbv zeta.
  destruct (decide (n <= 0)); [apply ends_ret|]. apply IH. lia.
Qed.

(** A region that is attached: the loop over its table stays inside. *)
Lemma parent_slot_loop r the_pid : in_mapping r ->
  forall k i, (i + k = Z.to_nat LINBOX_PROCESS_SLOT_COUNT)%nat -> ends parent (slot_has_pid_loop k r i the_pid).
Proof.
  intros Hr. induction k as [|k IH]; intros i Hik; cbn [slot_has_pid_loop]; [apply ends_ret|].
  eapply total_bind; [apply region_load; [exact _|exact Hr]|]. intros l. cbv beta. apply total_pure. unfold full_table. intros Hl.
  destruct (lookup_lt_is_Some_2 (process_slots l) i) as [s ->]; [lia|].
  destruct (decide _); [apply ends_ret|]. apply IH. lia.
Qed.

Lemma parent_side fuel ctrl child r w handle : in_mapping (layout handle) ->
  ends parent (process_preload_parent fuel ctrl child r w handle).
Proof.
  intros Hmap. assert (Hrand : ends parent (getrandom OBJECT 8 0)) by (apply parent_fill; [discriminate|lia]).
  assert (Hread : ends parent (read_all r (replicate (Z.to_nat sizeof_report) 0))).
  { apply parent_read_all_loop; rewrite length_replicate; [reflexivity|lia]. }
  assert (Hslot : forall the_pid, ends parent (slot_has_pid (layout handle) the_pid)).
  { intros the_pid. apply parent_slot_loop; [exact Hmap|reflexivity]. }
  unfold process_preload_parent, usleep, wait_ok. ends_tac; apply Hslot.
Qed.

(** Both programs, after their first fork. *)
Lemma process_rest_total fuel ctrl shm : ends parent (process_rest fuel ctrl shm).
Proof.
  unfold process_rest, usleep. apply ends_bind; [ends_tac|]. intros _.
  eapply total_bind; [apply region_attach, _|]. intros [rc handle]. cbv beta. cbn [fst snd]. apply total_pure. intros [_ Hh].
  destruct (decide _); [ends_tac|]. destruct (Hh ltac:(cbn; lia)) as (h & Eh & Hmap). cbn [snd] in Eh. subst handle.
  apply ends_bind; [ends_tac|]. intros a. destruct (decide _); [ends_tac|].
  eapply total_bind; [apply parent_fork|]. intros child. cbv beta. apply total_pure. intros Hc.
  destruct (decide (child < 0)); [ends_tac|]. rewrite decide_False by exact Hc. apply parent_side, Hmap.
Qed.

Lemma linbox_rest_total ctrl : ends parent (linbox_rest ctrl).
Proof.
  assert (Hunset : forall name, ends parent (libc_unsetenv name)).
  { intros name. unfold libc_unsetenv. apply ends_bind; [ends_tac|]. intros s. apply parent_modify. intros s' H. exact H. }
  unfold linbox_rest, usleep, run_and_read. ends_tac; apply Hunset.
Qed.

Lemma program_total word (rest : Z -> string -> MS Z) : (forall ctrl shm, ends parent (rest ctrl shm)) ->
  ends parent ('(ctrl, shm) ← start_controller word ;
     if decide (ctrl < 0) then mret 10 else if decide (ctrl = 0) then become_controller else rest ctrl shm).
Proof.
  intros Hrest. eapply total_bind; [apply parent_start|]. intros [ctrl shm]. cbv beta. cbn [fst].
  apply total_pure. intros Hc. destruct (decide (ctrl < 0)); [apply ends_ret|].
  rewrite decide_False by exact Hc. apply Hrest.
Qed.

(** How the parent's run ends: without a controller, which could not be forked,
    or with one signal, to the controller it started, and waiting for it. *)
Definition controller_stopped (statuses : list Z) (new : list event) (status : Z) : Prop :=
  match forks new with
  | [] => status = 10 /\ kills new = []
  | ctrl :: _ =>
      if decide (ctrl < 0) then status = 10 /\ kills new = []
      else status ∈ statuses /\ kills new = [(ctrl, SIGTERM)] /\
           exists before a1 a2,
             new = before ++ [(XKill ctrl SIGTERM, a1); (XReal "waitpid" [ctrl; NULL; 0] None, a2)]
  end.

Lemma program_ends_parent ss cs new status : program_ends ss cs new status -> controller_stopped ss new status.
Proof.
  intros [HF H]. assert (Hn : forall r, r ∈ forks new -> r <> 0).
  { intros r Hr. rewrite Forall_forall in HF. destruct (HF r Hr) as [log ->]. apply (ph_fork Hhost). }
  unfold controller_stopped. destruct (forks new) as [|ctrl rest] eqn:E; [exact H|].
  destruct (decide (ctrl < 0)); [tauto|]. rewrite decide_False in H by (apply Hn; left).
  destruct (decide (rest = [0])) as [->|]; [|tauto]. exfalso. apply (Hn 0); [right; left|reflexivity].
Qed.
End Parent.

(** C24: a program that started a controller stops it. A run of
    process.preload.c or linbox.preload.c that comes to its end, whatever libc,
    the kernel, the shim's filter and the controller do, is one of four, told
    apart by its forks: no controller was started, and the status is 10; it is
    the controller's process, whose exec failed, and the status is 127; it is
    the forked client, which signals nobody; or it sent exactly one signal,
    SIGTERM to the controller, and its last act was to wait for it. And the
    parent's run does come to its end: if its shim found no controller when it
    was loaded, libc's symbols resolve and the region it attaches stays mapped,
    it returns, and so, unless the controller could not be forked, it has
    stopped it. (Each call of the model answers at once: that the pipe's other
    end writes or closes, that the controller dies of SIGTERM and that nobody
    kills the program itself is assumed.) *)
Theorem preload_tests_stop_controller {os : OS} (rfuel depth fuel : nat) (p : proc shim) :
  let kernel := kernel_syscall rfuel depth in
  (forall q status, process_preload_main (raw := kernel) fuel p = Ok (status, q) ->
   exists new, p_log q = p_log p ++ new /\ program_ends process_statuses [0; 1; 2; 3] new status) /\
  (forall q status, linbox_preload_main (raw := kernel) p = Ok (status, q) ->
   exists new, p_log q = p_log p ++ new /\ program_ends [0; 1; 2; 3; 4] [] new status) /\
  (parent_host -> detached (p_st p) -> mapped (p_mem p) ->
   (exists status q new, process_preload_main (raw := kernel) fuel p = Ok (status, q) /\
      p_log q = p_log p ++ new /\ controller_stopped process_statuses new status) /\
   exists status q new, linbox_preload_main (raw := kernel) p = Ok (status, q) /\
      p_log q = p_log p ++ new /\ controller_stopped [0; 1; 2; 3; 4] new status).
Proof.
  cbv zeta. pose proof (benign_kernel rfuel depth) as Hraw.
  pose proof (process_main_ends (Hraw := Hraw) fuel) as H1. pose proof (linbox_main_ends (Hraw := Hraw)) as H2.
  split; [intros q status; apply H1|]. split; [intros q status; apply H2|]. intros Hhost Hd Hm. split.
  - destruct (program_total (raw := kernel_syscall rfuel depth) Hhost "process"
      (process_rest (raw := kernel_syscall rfuel depth) fuel) (process_rest_total Hhost fuel) p (conj Hd Hm)) as (status & q & E & _).
    destruct (H1 _ _ _ E) as (new & El & Hp). exists status, q, new. split; [exact E|]. split; [exact El|].
    exact (program_ends_parent Hhost _ _ _ _ Hp).
  - destruct (program_total (raw := kernel_syscall rfuel depth) Hhost "preload" 
      (fun ctrl _ => linbox_rest ctrl)
      (fun ctrl _ => linbox_rest_total ctrl) p (conj Hd Hm)) as (status & q & E & _).
    destruct (H2 _ _ _ E) as (new & El & Hp). exists status, q, new. split; [exact E|]. split; [exact El|].
    exact (program_ends_parent Hhost _ _ _ _ Hp).
Qed.
