(* ===== verification/ShimTyping.v ===== *)
(** * Every value of the shim keeps its C type

    The typing logic of Typing.v applied to the shim: an invariant of its whole
    state, and a rule for each function of Shim.v, Time.v and Random.v.  Beyond
    the widths, the invariant says that the table of virtual descriptors is well
    formed and that an initialised shim's generator is never in its absorbing
    state 0. *)
From S2P Require Import Prelude Bytes Bits Sbp Prng ShmLayout Os Shm Env TimeManager Controller Typing Shim Time Random RandomFacts.

(** ** The state *)
Record lb_typed (r : linbox_state) : Prop := {
  lb_fd_typed : in_s 32 (controller_fd r);
  lb_base_typed : timespec_typed (fake_base r);
  lb_start_typed : timespec_typed (real_start_mono r);
  lb_resolution_typed : timespec_typed (resolution r);
  lb_shared_typed : in_u 64 (shared_seed r);
  lb_effective_typed : in_u 64 (effective_seed r);
  lb_state_typed : in_u 64 (state (prng r));
  lb_started : initialized r = true -> state (prng r) <> 0;
  lb_shm_typed : handle_typed (shm r) }.

Definition vfd_typed (v : linbox_virtual_fd) : Prop := in_s 32 (vfd_fd v) /\ in_s 32 (vfd_used v).

Record shim_typed (s : shim) : Prop := {
  shim_lb_typed : lb_typed (lb s);
  shim_fds_typed : Forall vfd_typed (g_virtual_fds s);
  shim_table_valid : table_valid (g_virtual_fds s);
  shim_rand_typed : in_s 32 (g_rand_seeded s) }.

(** What is stored through a pointer, as words. *)
Definition words_ok (a : answer) : Prop := Forall (in_s 64) (data a).

Lemma loaded_typed environ : shim_typed (loaded_shim environ).
Proof.
  split; cbn -[replicate].
  - split; cbn; try width; try (split; width).
  - apply Forall_replicate. split; width.
  - split; [reflexivity|]. intros i v Hv Hu. apply lookup_replicate in Hv as [-> _]. contradiction.
  - width.
Qed.

Lemma bytes_are_words l : Forall is_byte l -> Forall (in_s 64) l.
Proof. intros H. apply (Forall_impl _ _ _ H). intros x. unfold is_byte, in_s. lia. Qed.

(** ** The generator *)
Lemma prng_words_typed n g : in_u 64 (state g) -> in_u 64 (state (prng_words n g).2).
Proof.
  intros Hg. destruct (decide (state g = 0)) as [H0|H0]; [|exact (proj1 (prng_words_ok n g (conj Hg H0)))].
  destruct g as [x]. cbn in H0. subst x. induction n as [|n IH]; [exact Hg|]. rewrite prng_words_S_l. exact IH.
Qed.

Lemma prng_bytes_is_byte len g : Forall is_byte (prng_bytes len g).
Proof.
  unfold prng_bytes. apply Forall_take. destruct (prng_words _ g) as [ws g']. cbn [fst].
  induction ws as [|w ws IH]; [constructor|]. rewrite fmap_cons. apply Forall_app_2; [apply le_bytes_is_byte|exact IH].
Qed.

(** A draw keeps the word in range, and away from zero. *)
Definition keeps_word (g g' : linbox_prng) : Prop :=
  (in_u 64 (state g) -> in_u 64 (state g')) /\ (prng_ok g -> prng_ok g').

Lemma fill_keeps g len g' bytes : linbox_prng_fill g (replicate len 0) len = Ok (g', bytes) ->
  keeps_word g g' /\ Forall is_byte bytes /\ length bytes = len.
Proof.
  rewrite prng_fill_eq by (rewrite length_replicate; lia). intros [= <- <-].
  split; [split; [apply prng_words_typed|apply prng_words_ok]|].
  rewrite splice_all by (rewrite length_prng_bytes, length_replicate; reflexivity).
  split; [apply prng_bytes_is_byte|apply length_prng_bytes].
Qed.

Lemma uniform_keeps fuel g ub g' v : in_u 32 ub -> linbox_prng_uniform fuel g ub = Ok (g', v) ->
  keeps_word g g' /\ in_u 32 v.
Proof.
  intros Hub. unfold linbox_prng_uniform. case_decide as H0.
  { intros [= <- <-]. split; [split; auto|width]. }
  cbv zeta. generalize (u32 (- ub) mod ub). intros t. revert g.
  induction fuel as [|fuel IH]; intros g; cbn [uniform_loop]; [discriminate|].
  pose proof (next_u32_fst g) as E. pose proof (next_u32_in_u g) as Hv.
  destruct (linbox_prng_next_u32 g) as [g1 r]. cbn [fst snd] in E, Hv.
  assert (Hk : keeps_word g g1).
  { subst g1. split; [intros Hg; exact (prng_words_typed 1 g Hg)|apply next_u64_ok]. }
  case_decide.
  - intros [= <- <-]. split; [exact Hk|]. pose proof (Z.mod_pos_bound r ub). unfold in_u in *. lia.
  - intros H1. destruct (IH g1 H1) as [[K1 K2] Hr]. destruct Hk as [H1' H2']. split; [split; auto|exact Hr].
Qed.

(** ** Rules for the state *)
Section Rules.
Context {os : OS} {Hos : TypedOS}.
Abbreviation tys := (typed shim_typed).

Lemma on_lb_typed f s : (forall r, lb_typed r -> lb_typed (f r)) -> shim_typed s -> shim_typed (on_lb f s).
Proof. intros Hf []. split; try assumption. apply Hf. assumption. Qed.

Lemma typed_update f : (forall r, lb_typed r -> lb_typed (f r)) -> tys anything (update f).
Proof. intros Hf. apply typed_modify_st. intros s. apply on_lb_typed, Hf. Qed.

Lemma typed_state_get : tys lb_typed linbox_state_get.
Proof. eapply typed_bind; [apply typed_get_st|]. intros s Hs. apply typed_ret. apply Hs. Qed.

(** Two updates that keep the invariant only together. *)
Lemma typed_update_pair {A} (T : A -> Prop) f g (k : MS A) : (forall r, lb_typed r -> lb_typed (g (f r))) ->
  tys T k -> tys T (update f ;; update g ;; k).
Proof.
  intros Hfg Hk p a q H Hm Hs. rewrite M_bind_eq in H. unfold update, modify_st in H. rewrite M_bind_eq in H.
  refine (Hk _ _ _ H Hm _). destruct Hs. cbn. split; try assumption. cbn. apply Hfg. assumption.
Qed.

(** A draw from the generator. *)
Lemma typed_draw {A B} (T : A -> Prop) (U : B -> Prop) (r : linbox_prng -> res (linbox_prng * A)) (h : A -> B) :
  (forall g g' x, r g = Ok (g', x) -> keeps_word g g' /\ T x) -> (forall x, T x -> U (h x)) ->
  tys U (st ← linbox_state_get ; '(g, x) ← lift (r (prng st)) ; update (set_prng g) ;; mret (h x)).
Proof.
  intros Hr HU p b q H Hm Hs. unfold linbox_state_get in H. rewrite !M_bind_eq in H. cbn [get_st] in H.
  unfold mret at 1, M_ret at 1 in H. rewrite M_bind_eq in H. unfold lift in H.
  destruct (r _) as [[g' x]| |] eqn:E; [|discriminate..]. injection H as <- <-. cbn.
  destruct (Hr _ _ _ E) as [[K1 K2] HT]. split; [exact Hm|]. split; [|apply HU, HT].
  destruct Hs as [Hl Hf Ht Hrd]. split; try assumption. destruct Hl. split; cbn; try assumption; auto.
  intros Hi. apply (K2 (conj lb_state_typed0 (lb_started0 Hi))).
Qed.

(** ** Setters *)
Lemma set_resolving_typed x r : lb_typed r -> lb_typed (set_resolving x r).
Proof. intros []. split; assumption. Qed.
Lemma set_controller_connected_typed x r : lb_typed r -> lb_typed (set_controller_connected x r).
Proof. intros []. split; assumption. Qed.
Lemma set_sigsys_installed_typed x r : lb_typed r -> lb_typed (set_sigsys_installed x r).
Proof. intros []. split; assumption. Qed.
Lemma set_seccomp_installed_typed x r : lb_typed r -> lb_typed (set_seccomp_installed x r).
Proof. intros []. split; assumption. Qed.
Lemma set_controller_fd_typed x r : in_s 32 x -> lb_typed r -> lb_typed (set_controller_fd x r).
Proof. intros Hx []. split; assumption. Qed.
Lemma set_real_start_typed x r : timespec_typed x -> lb_typed r -> lb_typed (set_real_start_mono x r).
Proof. intros Hx []. split; assumption. Qed.
Lemma set_shared_seed_typed x r : in_u 64 x -> lb_typed r -> lb_typed (set_shared_seed x r).
Proof. intros Hx []. split; assumption. Qed.
Lemma set_effective_seed_typed x r : in_u 64 x -> lb_typed r -> lb_typed (set_effective_seed x r).
Proof. intros Hx []. split; assumption. Qed.
Lemma set_shm_typed x r : handle_typed x -> lb_typed r -> lb_typed (set_shm x r).
Proof. intros Hx []. split; assumption. Qed.
Lemma set_prng_typed x r : prng_ok x -> lb_typed r -> lb_typed (set_prng x r).
Proof. intros [Hx Hn] []. split; try assumption. intros _. exact Hn. Qed.
Lemma reseed_typed seed r : lb_typed r ->
  lb_typed (set_prng (default (prng r) (linbox_prng_seed (Some (prng r)) seed)) r).
Proof. rewrite seeded_eq. apply set_prng_typed, seeded_ok. Qed.
Lemma seeded_start_typed seed r : lb_typed r ->
  lb_typed (set_initialized true (set_prng (default (prng r) (linbox_prng_seed (Some (prng r)) seed)) r)).
Proof.
  intros Hr. rewrite seeded_eq. destruct (seeded_ok seed) as [Hu Hn]. destruct Hr. split; try assumption.
  intros _. exact Hn.
Qed.
Lemma unstarted_typed r : lb_typed r -> lb_typed (set_prng (LinboxPrng 0) (set_initialized false r)).
Proof. intros []. split; try assumption; [cbn; width|intros [=]]. Qed.

Lemma set_real_typed sym x s : shim_typed s -> shim_typed (set_real sym x s).
Proof. intros []. split; assumption. Qed.
Lemma set_rand_seeded_typed x s : in_s 32 x -> shim_typed s -> shim_typed (set_rand_seeded x s).
Proof. intros Hx []. split; assumption. Qed.
End Rules.
#[export] Hint Resolve typed_update typed_state_get set_resolving_typed set_controller_connected_typed
  set_sigsys_installed_typed set_seccomp_installed_typed set_controller_fd_typed set_real_start_typed
  set_shared_seed_typed set_effective_seed_typed set_shm_typed reseed_typed : typed.

(** ** Shim.v *)
Section Shim.
Context {os : OS} {Hos : TypedOS}.
Abbreviation tys := (typed shim_typed).

Lemma typed_resolve sym : tys anything (LINBOX_RESOLVE_NEXT sym).
Proof.
  unfold LINBOX_RESOLVE_NEXT. eapply typed_bind; [apply typed_get_st|]. intros s _.
  apply typed_if; intros _; [apply typed_ret; exact Logic.I|]. destruct (resolving (lb s)).
  { eapply typed_bind; [apply typed_set_errno|]. intros _ _. apply typed_ret. exact Logic.I. }
  eapply typed_bind; [apply typed_update, set_resolving_typed|]. intros _ _.
  eapply typed_bind; [apply typed_call|]. intros ptr _.
  eapply typed_bind; [apply typed_modify_st, set_real_typed|]. intros _ _.
  eapply typed_bind; [apply typed_update, set_resolving_typed|]. intros _ _. apply typed_ret. exact Logic.I.
Qed.

Lemma typed_call_real sym x : tys (answer_typed x) (call_real sym x).
Proof.
  unfold call_real. eapply typed_bind; [apply typed_get_st|]. intros s _.
  apply typed_if; intros _; [apply typed_undef|apply typed_callA].
Qed.

Lemma typed_syscall_result rc : tys (in_s 32) (linbox_syscall_result rc).
Proof.
  unfold linbox_syscall_result. apply typed_if; intros _.
  - eapply typed_bind; [apply typed_set_errno|]. intros _ _. apply typed_ret. width.
  - apply typed_ret, sext_range. lia.
Qed.

Lemma typed_effective_seed seed : tys (in_u 64) (linbox_effective_seed_for_pid seed).
Proof.
  unfold linbox_effective_seed_for_pid. eapply typed_bind; [apply typed_call|]. intros pid _.
  apply typed_ret, splitmix64_in_u.
Qed.

Lemma typed_exchange fd msg : tys anything (exchange fd msg).
Proof.
  unfold exchange. eapply typed_bind; [apply typed_lift with (T := anything); intros; exact Logic.I|].
  intros [[rc frame] n] _. apply typed_if; intros _; [apply typed_ret; exact Logic.I|].
  destruct frame as [frame|]; [|apply typed_undef]. destruct n as [n|]; [|apply typed_undef].
  eapply typed_bind; [apply typed_call|]. intros k _. apply typed_if; intros _; [apply typed_ret; exact Logic.I|].
  eapply typed_bind; [apply typed_callA|]. intros a _. cbv zeta. apply typed_if; intros _; [apply typed_ret; exact Logic.I|].
  eapply typed_bind; [apply typed_lift with (T := anything); intros; exact Logic.I|]. intros [rc' ack] _.
  typed_code; auto.
Qed.

Hint Resolve typed_exchange : typed.

Lemma typed_connect path : tys (in_s 32) (linbox_connect_controller path).
Proof.
  unfold linbox_connect_controller. eapply typed_bind; [apply typed_call|]. intros fd (a & -> & _ & Ha).
  typed_code; try width; try exact Ha.
Qed.
End Shim.
#[export] Hint Resolve typed_resolve typed_call_real typed_syscall_result typed_effective_seed typed_exchange
  typed_connect : typed.

Section Init.
Context {os : OS} {Hos : TypedOS} {raw : RawSyscall}.
Abbreviation tys := (typed shim_typed).

(** The system call instruction keeps types too: discharged for the kernel
    below. *)
Class TypedRaw : Prop := typed_raw : forall nr args, tys words_ok (raw_syscall nr args).
Context {Hraw : TypedRaw}.

(** The seed [linbox_init_state] reads from the region. *)
Lemma typed_load_seed r : tys (in_u 64) (l ← load r ; mret (prng_seed l)).
Proof. eapply typed_bind; [apply typed_load|]. intros l Hl. apply typed_ret, Hl. Qed.

(** Connecting, and attaching when that worked. *)
Lemma typed_attach_region fd path : tys anything
  (if decide (fd >= 0) then
     st ← linbox_state_get ;
     '(rc, h) ← linbox_shm_attach (Some path) (Some (shm st)) ;
     update (set_shm (default (shm st) h)) ;;
     mret (bool_decide (rc = 0))
   else mret false).
Proof.
  apply typed_if; intros _; [|apply typed_ret; exact Logic.I].
  eapply typed_bind; [apply typed_state_get|]. intros st Hst.
  eapply typed_bind; [apply typed_attach; apply Hst|]. intros [rc h] Hh. cbn [snd] in Hh.
  eapply typed_bind; [apply typed_update; intros r; apply set_shm_typed|].
  { destruct h as [h|]; [exact Hh|apply Hst]. }
  intros _ _. apply typed_ret. exact Logic.I.
Qed.

Lemma typed_init : tys anything linbox_init_state.
Proof.
  unfold linbox_init_state. eapply typed_bind; [apply typed_state_get|]. intros st _.
  destruct (initialized st); [apply typed_ret; exact Logic.I|].
  eapply typed_bind; [apply typed_raw|]. intros a Ha.
  eapply typed_bind with (T := anything).
  { apply typed_if; intros _; [|apply typed_ret; exact Logic.I].
    apply typed_update. intros r. apply set_real_start_typed, words_typed, Ha. }
  intros _ _. eapply typed_bind; [apply typed_get_st|]. intros s _. cbv zeta.
  eapply typed_bind; [apply typed_connect|]. intros fd Hfd.
  eapply typed_bind; [apply typed_update; intros r; apply set_controller_fd_typed, Hfd|]. intros _ _.
  eapply typed_bind; [apply typed_attach_region|]. intros attached _.
  eapply typed_bind with (T := anything).
  { destruct attached; [apply typed_update, set_controller_connected_typed|].
    eapply typed_bind with (T := anything); [|intros _ _; apply typed_update, set_controller_connected_typed].
    apply typed_if; intros _; [|apply typed_ret; exact Logic.I].
    eapply typed_bind; [apply typed_call|]. intros _ _. apply typed_update. intros r. apply set_controller_fd_typed. width. }
  intros _ _. eapply typed_bind; [apply typed_state_get|]. intros st' _.
  eapply typed_bind; [apply typed_if; intros _; [apply typed_load_seed|apply typed_ret; width]|]. intros shared Hs.
  eapply typed_bind; [apply typed_update; intros r; apply set_shared_seed_typed, Hs|]. intros _ _.
  eapply typed_bind; [apply typed_effective_seed|]. intros seed Hseed.
  eapply typed_bind; [apply typed_update; intros r; apply set_effective_seed_typed, Hseed|]. intros _ _.
  intros p b q H Hm Hst. injection H as <- <-. cbn. split; [exact Hm|]. split; [|exact Logic.I].
  destruct Hst as [Hl Hf Ht Hr]. split; try assumption. apply (seeded_start_typed seed (lb (p_st p))), Hl.
Qed.
Hint Resolve typed_init : typed.

Lemma typed_reinit : tys anything linbox_reinit_state.
Proof.
  unfold linbox_reinit_state. eapply typed_bind; [apply typed_state_get|]. intros st Hst.
  assert (Hm1 : in_s 32 (-1)) by width. assert (H0 : in_u 64 0) by width.
  eapply typed_bind with (T := anything).
  { apply typed_if; intros _; [|apply typed_ret; exact Logic.I].
    eapply typed_bind; [apply typed_call|]. intros _ _. apply typed_update. intros r. apply set_controller_fd_typed, Hm1. }
  intros _ _. eapply typed_bind; [apply typed_update, set_controller_connected_typed|]. intros _ _.
  apply typed_update_pair; [apply unstarted_typed|].
  eapply typed_bind; [apply typed_update; intros r; apply set_effective_seed_typed, H0|]. intros _ _.
  eapply typed_bind with (T := anything).
  { apply typed_if; intros _; [|apply typed_ret; exact Logic.I].
    eapply typed_bind; [apply typed_detach|]. intros h Hh. apply typed_update. intros r. apply set_shm_typed.
    destruct h as [h|]; [exact Hh|apply Hst]. }
  intros _ _. eapply typed_bind; [apply typed_update; intros r; apply set_shm_typed, Hm1|]. intros _ _. apply typed_init.
Qed.

Lemma typed_seed_value : tys (in_u 64) linbox_prng_seed_value.
Proof.
  unfold linbox_prng_seed_value. eapply typed_bind; [apply typed_init|]. intros _ _.
  eapply typed_bind; [apply typed_state_get|]. intros st _.
  eapply typed_bind with (T := anything).
  { apply typed_if; intros _; [|apply typed_ret; exact Logic.I].
    eapply typed_bind; [apply typed_load|]. intros l Hl. cbv zeta. apply typed_if; intros _; [|apply typed_ret; exact Logic.I].
    eapply typed_bind; [apply typed_update; intros r; apply set_shared_seed_typed, Hl|]. intros _ _.
    eapply typed_bind; [apply typed_effective_seed|]. intros seed Hs.
    apply typed_update. intros r. apply set_effective_seed_typed, Hs. }
  intros _ _. eapply typed_bind; [apply typed_state_get|]. intros st' Hst'. apply typed_ret, Hst'.
Qed.

Lemma typed_reseed seed : in_u 64 seed -> tys anything (linbox_random_reseed seed).
Proof.
  intros Hs. unfold linbox_random_reseed. eapply typed_bind.
  - apply typed_update. intros r. apply set_effective_seed_typed, Hs.
  - intros _ _. apply typed_update, reseed_typed.
Qed.

Lemma typed_reseed_if_needed : tys anything reseed_if_needed.
Proof.
  unfold reseed_if_needed. eapply typed_bind; [apply typed_init|]. intros _ _.
  eapply typed_bind; [apply typed_seed_value|]. intros seed Hs.
  eapply typed_bind; [apply typed_state_get|]. intros st _.
  apply typed_if; intros _; [apply typed_reseed, Hs|apply typed_ret; exact Logic.I].
Qed.

(** The result is a [ssize_t], and every byte stored is a byte. *)
Definition fill_typed (len : Z) (r : Z * list Z) : Prop :=
  in_s 64 r.1 /\ Forall is_byte r.2 /\ length r.2 = Z.to_nat len.

Lemma typed_fill buf len : tys (fill_typed len) (linbox_random_fill buf len).
Proof.
  unfold linbox_random_fill. eapply typed_bind; [apply typed_reseed_if_needed|]. intros _ _.
  apply typed_if; intros _; [apply typed_undef|].
  apply (typed_draw (fun bs => Forall is_byte bs /\ length bs = Z.to_nat len) (fill_typed len)
    (fun g => linbox_prng_fill g (replicate (Z.to_nat len) 0) (Z.to_nat len)) (fun bytes => (i64 len, bytes))).
  - intros g g' bytes. apply fill_keeps.
  - intros bytes [HF Hl]. split; [apply sext_range; lia|auto].
Qed.

Lemma typed_u32 : tys (in_u 32) linbox_random_u32.
Proof.
  unfold linbox_random_u32. eapply typed_bind; [apply typed_fill|]. intros [n bytes] (_ & HF & Hl). cbn [snd] in HF, Hl.
  apply typed_ret. pose proof (le_val_range bytes HF) as Hr. rewrite Hl in Hr. exact Hr.
Qed.

Lemma typed_uniform fuel ub : in_u 32 ub -> tys (in_u 32) (linbox_random_uniform fuel ub).
Proof.
  intros Hub. unfold linbox_random_uniform. eapply typed_bind; [apply typed_reseed_if_needed|]. intros _ _.
  apply (typed_draw (in_u 32) (in_u 32) (fun g => linbox_prng_uniform fuel g ub) id); [|auto].
  intros g g' v. apply uniform_keeps, Hub.
Qed.

Lemma typed_seccomp_enabled : tys anything linbox_seccomp_enabled.
Proof. unfold linbox_seccomp_enabled. typed_code; auto. Qed.
End Init.
#[export] Hint Resolve typed_init typed_reinit typed_seed_value typed_reseed typed_reseed_if_needed typed_fill
  typed_u32 typed_uniform typed_seccomp_enabled : typed.

(** ** Time.v *)
Definition stored_typed (o : option timespec) : Prop :=
  match o with Some ts => timespec_typed ts | None => True end.
Definition clock_typed (r : Z * option timespec) : Prop := in_s 64 r.1 /\ stored_typed r.2.

Lemma stored_timespec_typed rc (a : answer) : words_ok a -> stored_typed (stored_timespec rc a).
Proof. intros Ha. unfold stored_timespec. case_decide; [apply words_typed, Ha|exact I]. Qed.

Lemma int_is_word x : in_s 32 x -> in_s 64 x.
Proof. unfold in_s. lia. Qed.

Section Time.
Context {os : OS} {Hos : TypedOS} {raw : RawSyscall} {Hraw : TypedRaw}.
Abbreviation tys := (typed shim_typed).

Lemma typed_read_time_loop fuel r : tys timespec_typed (read_time_loop fuel r).
Proof.
  induction fuel as [|fuel IH]; cbn [read_time_loop]; [apply typed_out_of_fuel|].
  eapply typed_bind; [apply typed_load|]. intros l1 _. cbv zeta. apply typed_if; intros _.
  { eapply typed_bind; [apply typed_call|]. intros _ _. exact IH. }
  eapply typed_bind; [apply typed_load|]. intros ls Hs. eapply typed_bind; [apply typed_load|]. intros ln Hn.
  eapply typed_bind; [apply typed_load|]. intros l2 _. apply typed_if; intros _; [|exact IH].
  apply typed_ret. split; [apply Hs|apply Hn].
Qed.

Lemma typed_read_time fuel r t0 : timespec_typed t0 -> tys clock_typed (linbox_shm_read_time fuel r (Some t0)).
Proof.
  intros Ht. unfold linbox_shm_read_time. apply typed_if; intros _.
  - eapply typed_bind; [apply typed_set_errno|]. intros _ _. apply typed_ret. split; [width|exact Ht].
  - eapply typed_bind; [apply typed_read_time_loop|]. intros ts Hts. apply typed_ret. split; [width|exact Hts].
Qed.

Lemma typed_fallback : tys clock_typed linbox_fallback_now.
Proof.
  unfold linbox_fallback_now. eapply typed_bind; [apply typed_get_st|]. intros s _. apply typed_if; intros _.
  - eapply typed_bind; [apply typed_call_real|]. intros a [Ha Hw]. apply typed_ret.
    split; [exact Ha|apply stored_timespec_typed, Hw].
  - eapply typed_bind; [apply typed_raw|]. intros a Hw. eapply typed_bind; [apply typed_syscall_result|]. intros rc Hrc.
    apply typed_ret. split; [apply int_is_word, Hrc|apply stored_timespec_typed, Hw].
Qed.

Lemma typed_virtual_now fuel : tys clock_typed (linbox_virtual_now fuel).
Proof.
  unfold linbox_virtual_now. eapply typed_bind; [apply typed_init|]. intros _ _.
  eapply typed_bind; [apply typed_state_get|]. intros st _. apply typed_if; intros _; [|apply typed_fallback].
  eapply typed_bind; [apply typed_read_time; split; width|]. intros [rc ts] [_ Hts].
  apply typed_if; intros _; [apply typed_ret; split; [width|exact Hts]|].
  eapply typed_bind; [apply typed_update, set_controller_connected_typed|]. intros _ _. apply typed_fallback.
Qed.
Hint Resolve typed_virtual_now : typed.

(** A refused call. *)
Lemma typed_einval {A} (T : A -> Prop) (x : A) : T x -> tys T (set_errno EINVAL ;; mret x).
Proof. intros Hx. eapply typed_bind; [apply typed_set_errno|]. intros _ _. apply typed_ret, Hx. Qed.

Lemma refused_typed : clock_typed (-1, None).
Proof. split; [width|exact I]. Qed.
Hint Resolve refused_typed : core.

Lemma typed_virtual_clock fuel clk tp : tys clock_typed (linbox_virtual_clock_gettime fuel clk tp).
Proof.
  unfold linbox_virtual_clock_gettime. apply typed_if; intros _; [apply typed_einval; auto|].
  apply typed_if; intros _; [apply typed_virtual_now|apply typed_einval; auto].
Qed.

Lemma typed_clock_gettime fuel clk tp : tys clock_typed (clock_gettime fuel clk tp).
Proof.
  unfold clock_gettime. eapply typed_bind; [apply typed_resolve|]. intros [] _; [apply typed_virtual_clock|].
  apply typed_ret. auto.
Qed.

Lemma typed_clock_getres clk res : tys clock_typed (clock_getres clk res).
Proof.
  unfold clock_getres, linbox_virtual_clock_getres. apply typed_if; intros _; [apply typed_einval; auto|].
  eapply typed_bind; [apply typed_init|]. intros _ _. eapply typed_bind; [apply typed_state_get|]. intros st Hst.
  apply typed_ret. split; [width|]. apply Hst.
Qed.

Definition pair_typed (r : Z * option (Z * Z)) : Prop :=
  in_s 64 r.1 /\ match r.2 with Some (x, y) => in_s 64 x /\ in_s 64 y | None => True end.

Lemma quot_typed x k : 0 < k -> in_s 64 x -> in_s 64 (Z.quot x k).
Proof.
  unfold in_s. intros Hk Hx. destruct (Z.le_gt_cases 0 x).
  - rewrite Z.quot_div_nonneg by lia. pose proof (Z.div_le_upper_bound x k x Hk ltac:(nia)).
    pose proof (Z.div_pos x k ltac:(lia) Hk). lia.
  - replace x with (- (- x)) by lia. rewrite Z.quot_opp_l by lia. rewrite Z.quot_div_nonneg by lia.
    pose proof (Z.div_le_upper_bound (- x) k (- x) Hk ltac:(nia)).
    pose proof (Z.div_pos (- x) k ltac:(lia) Hk). lia.
Qed.

Lemma typed_gettimeofday fuel tv tz : tys pair_typed (gettimeofday fuel tv tz).
Proof.
  unfold gettimeofday, linbox_virtual_gettimeofday. apply typed_if; intros _; [apply typed_einval; split; [width|exact I]|].
  eapply typed_bind; [apply typed_virtual_now|]. intros [rc [ts|]] [_ Hts].
  all: apply typed_if; intros _; [apply typed_ret; split; [width|exact I]|].
  - apply typed_ret. split; [width|]. split; [apply Hts|apply quot_typed; [lia|apply Hts]].
  - apply typed_undef.
Qed.

Definition word_typed (r : Z * option Z) : Prop :=
  in_s 64 r.1 /\ match r.2 with Some x => in_s 64 x | None => True end.

Lemma typed_time fuel tloc : tys word_typed (time fuel tloc).
Proof.
  unfold time, linbox_virtual_time. eapply typed_bind; [apply typed_virtual_now|]. intros [rc [ts|]] [_ Hts].
  all: apply typed_if; intros _; [apply typed_ret; split; [width|exact I]|].
  - apply typed_ret. split; [apply Hts|]. cbn. case_decide; [apply Hts|exact I].
  - apply typed_undef.
Qed.

Lemma typed_ckd64 x : tys (in_s 64) (lift (ckd64 x)).
Proof. apply typed_lift. intros a H. apply ckd64_inv in H as [-> H]. exact H. Qed.

Lemma typed_clock fuel : tys (in_s 64) (clock fuel).
Proof.
  unfold clock. eapply typed_bind; [apply typed_virtual_now|]. intros [rc [ts|]] _.
  all: apply typed_if; intros _; [apply typed_ret; width|].
  - do 3 (eapply typed_bind; [apply typed_ckd64|]; intros ? ?). apply typed_ret, quot_typed; [lia|assumption].
  - apply typed_undef.
Qed.

Definition words_typed_result (r : Z * option (list Z)) : Prop :=
  in_s 64 r.1 /\ Forall (in_s 64) (default [] r.2).

Lemma typed_times fuel buf : tys words_typed_result (times fuel buf).
Proof.
  assert (Hr : words_typed_result (-1, None)) by (split; [width|constructor]).
  unfold times. eapply typed_bind; [apply typed_virtual_now|]. intros [rc ts] _.
  apply typed_if; intros _; [apply typed_ret, Hr|]. eapply typed_bind; [apply typed_call|]. intros hz _.
  apply typed_if; intros _; [apply typed_einval, Hr|]. destruct ts as [ts|]; [|apply typed_undef].
  do 2 (eapply typed_bind; [apply typed_ckd64|]; intros ? _).
  eapply typed_bind; [apply typed_ckd64|]. intros ticks Ht. apply typed_ret. split; [exact Ht|]. cbn.
  assert (H0 : in_s 64 0) by width. case_decide; cbn; auto.
Qed.

Lemma typed_timespec_get fuel ts base : in_s 64 base -> tys clock_typed (timespec_get fuel ts base).
Proof.
  intros Hb. unfold timespec_get. apply typed_if; intros _; [apply typed_ret; split; [width|exact I]|].
  eapply typed_bind; [apply typed_virtual_now|]. intros [rc out] [_ Hout].
  apply typed_if; intros _; apply typed_ret; split; [width|exact I|exact Hb|exact Hout].
Qed.
End Time.
#[export] Hint Resolve typed_virtual_clock typed_clock_gettime typed_clock_getres typed_gettimeofday typed_time
  typed_clock typed_times : typed.

(** ** Random.v *)
Section Random.
Context {os : OS} {Hos : TypedOS} {raw : RawSyscall} {Hraw : TypedRaw}.
Abbreviation tys := (typed shim_typed).

(** Writing one entry of the table of virtual descriptors. *)
Lemma set_fds_typed i v s : vfd_typed v ->
  ((i < length (g_virtual_fds s))%nat -> vfd_used v <> 0 -> vfd_fd v = LINBOX_VIRTUAL_FD_BASE + Z.of_nat i) ->
  shim_typed s -> shim_typed (set_virtual_fds (<[i := v]> (g_virtual_fds s)) s).
Proof.
  intros Hv Hi [H1 H2 [H3 H4] H5]. split; try assumption; [apply Forall_insert; assumption|].
  split; [cbn; rewrite length_insert; exact H3|]. cbn. intros j w Hj Hu.
  apply list_lookup_insert_Some in Hj as [(<- & <- & Hlt)|[_ Hj]]; [exact (Hi Hlt Hu)|exact (H4 j w Hj Hu)].
Qed.

(** The table written is the one just read. *)
Lemma typed_table {A} (T : A -> Prop) (k : shim -> MS A) :
  (forall s p a q, s = p_st p -> k s p = Ok (a, q) -> memory_typed (p_mem p) -> shim_typed s ->
     memory_typed (p_mem q) /\ shim_typed (p_st q) /\ T a) ->
  tys T (s ← get_st ; k s).
Proof. intros Hk p a q H Hm Hs. exact (Hk (p_st p) p a q eq_refl H Hm Hs). Qed.

Lemma find_free_lt fds : forall i j, find_free i fds = Some j -> (j < i + length fds)%nat.
Proof.
  induction fds as [|v fds IH]; intros i j; cbn [find_free length]; [discriminate|].
  case_decide; [intros [= <-]; lia|intros H1%IH; lia].
Qed.

Lemma typed_allocate : tys (in_s 32) linbox_allocate_virtual_fd.
Proof.
  unfold linbox_allocate_virtual_fd. apply typed_table. intros s p a q -> H Hm Hs.
  destruct (find_free _ _) as [i|] eqn:E.
  - apply find_free_lt in E. rewrite (proj1 (shim_table_valid _ Hs)) in E. unfold LINBOX_VIRTUAL_FD_COUNT in E.
    injection H as <- <-. split; [exact Hm|]. cbn [p_st].
    assert (Hfd : in_s 32 (i32 (LINBOX_VIRTUAL_FD_BASE + Z.of_nat i))) by (apply sext_range; lia).
    split; [|exact Hfd]. apply set_fds_typed; [split; [exact Hfd|cbn; width]| |exact Hs].
    intros _ _. cbn [vfd_fd]. apply sext_small; [lia|]. unfold in_s, LINBOX_VIRTUAL_FD_BASE. lia.
  - injection H as <- <-. split; [exact Hm|]. split; [exact Hs|width].
Qed.

Lemma typed_is_virtual fd : tys anything (linbox_is_virtual_fd fd).
Proof. unfold linbox_is_virtual_fd. typed_code; auto. Qed.

Lemma typed_release fd : tys anything (linbox_release_virtual_fd fd).
Proof.
  unfold linbox_release_virtual_fd. apply typed_table. intros s p a q -> H Hm Hs.
  destruct (find_fd _ _ _) as [i|]; injection H as <- <-; (split; [exact Hm|split; [|exact Logic.I]]); [|exact Hs].
  apply set_fds_typed; [split; cbn; width|cbn; intros _ []; reflexivity|exact Hs].
Qed.
Hint Resolve typed_allocate typed_is_virtual typed_release : typed.

Lemma typed_srand seed : in_u 32 seed -> tys anything (srand seed).
Proof.
  intros Hs. unfold srand. eapply typed_bind; [apply typed_reseed; unfold in_u in *; lia|]. intros _ _.
  apply typed_modify_st. intros s. apply set_rand_seeded_typed. width.
Qed.

Lemma typed_srandom seed : in_u 32 seed -> tys anything (srandom seed).
Proof. exact (typed_srand seed). Qed.

Lemma typed_seed_once : tys anything linbox_seed_rand_once.
Proof.
  unfold linbox_seed_rand_once. eapply typed_bind; [apply typed_get_st|]. intros s _.
  apply typed_if; intros _; [|apply typed_ret; exact Logic.I].
  do 2 (eapply typed_bind; [apply typed_seed_value|]; intros ? _;
        eapply typed_bind; [first [apply typed_srand|apply typed_srandom]; apply wrap_range; lia|]; intros _ _).
  apply typed_modify_st. intros s'. apply set_rand_seeded_typed. width.
Qed.
Hint Resolve typed_seed_once : typed.

Lemma typed_getrandom buf len flags : tys (fill_typed len) (getrandom buf len flags).
Proof. apply typed_fill. Qed.

Lemma bytes_result n l : in_s 64 n -> Forall is_byte l -> in_s 64 n /\ Forall (in_s 64) l.
Proof. auto using bytes_are_words. Qed.

Definition bytes_typed (r : Z * list Z) : Prop := in_s 64 r.1 /\ Forall (in_s 64) r.2.

Lemma typed_getentropy buf len : tys bytes_typed (getentropy buf len).
Proof.
  unfold getentropy. apply typed_if; intros _.
  { eapply typed_bind; [apply typed_set_errno|]. intros _ _. apply typed_ret. split; [width|constructor]. }
  eapply typed_bind; [apply typed_fill|]. intros [n bytes] (_ & HF & _). apply typed_ret.
  apply bytes_result; [|exact HF]. case_decide; width.
Qed.

(** A number of 31 bits. *)
Lemma land_31_typed v : in_s 32 (Z.land v 2147483647).
Proof.
  change 2147483647 with (Z.ones 31). rewrite Z.land_ones by lia. pose proof (Z.mod_pos_bound v (2 ^ 31) ltac:(lia)).
  unfold in_s. lia.
Qed.

Lemma typed_rand : tys (in_s 32) rand.
Proof.
  unfold rand. eapply typed_bind; [apply typed_seed_once|]. intros _ _.
  eapply typed_bind; [apply typed_u32|]. intros v _. apply typed_ret, land_31_typed.
Qed.

Lemma typed_random : tys (in_s 32) random.
Proof.
  unfold random. eapply typed_bind; [apply typed_seed_once|]. intros _ _.
  eapply typed_bind; [apply typed_u32|]. intros v _. apply typed_ret, land_31_typed.
Qed.

(** The new seed is an [unsigned int]. *)
Lemma typed_rand_r seed : tys (fun r => in_s 32 r.1 /\ in_u 32 (default 0 r.2)) (rand_r (Some seed)).
Proof.
  unfold rand_r. rewrite seeded_eq. pose proof (next_u32_in_u (seeded seed)) as H.
  destruct (linbox_prng_next_u32 (seeded seed)) as [g next]. apply typed_ret. split; [apply land_31_typed|exact H].
Qed.

Lemma typed_open_file path flags : tys (in_s 64) (open_ path flags).
Proof.
  unfold open_. destruct (linbox_is_random_path path).
  { apply typed_weaken with (T := in_s 32); [apply typed_allocate|apply int_is_word]. }
  eapply typed_bind; [apply typed_resolve|]. intros [] _; [|apply typed_ret; width].
  eapply typed_bind; [apply typed_call_real|]. intros a [Ha _]. apply typed_ret, Ha.
Qed.

Lemma typed_openat dirfd path flags : tys (in_s 64) (openat dirfd path flags).
Proof.
  unfold openat. destruct (linbox_is_random_path path).
  { apply typed_weaken with (T := in_s 32); [apply typed_allocate|apply int_is_word]. }
  eapply typed_bind; [apply typed_resolve|]. intros [] _; [|apply typed_ret; width].
  eapply typed_bind; [apply typed_call_real|]. intros a [Ha _]. apply typed_ret, Ha.
Qed.

Lemma typed_read fd buf count : tys bytes_typed (read fd buf count).
Proof.
  unfold read. eapply typed_bind; [apply typed_is_virtual|]. intros [] _.
  { eapply typed_weaken; [apply typed_fill|]. intros [n l] (Hn & HF & _). apply bytes_result; assumption. }
  eapply typed_bind; [apply typed_resolve|]. intros [] _; [|apply typed_ret; split; [width|constructor]].
  eapply typed_bind; [apply typed_call_real|]. intros a (Ha & _ & _ & HF). apply typed_ret.
  apply bytes_result; assumption.
Qed.

Lemma typed_close_fd fd : tys (in_s 64) (close fd).
Proof.
  unfold close. eapply typed_bind; [apply typed_is_virtual|]. intros [] _.
  { eapply typed_bind; [apply typed_release|]. intros _ _. apply typed_ret. width. }
  eapply typed_bind; [apply typed_resolve|]. intros [] _; [|apply typed_ret; width].
  eapply typed_bind; [apply typed_call_real|]. intros a [Ha _]. apply typed_ret, Ha.
Qed.
End Random.
