(* ===== verification/Interposed.v ===== *)
(** * Every call of an interposed function keeps the shim's invariant

    The rules of ShimTyping.v for Sigsys.v and Process.v, and for the program as a
    whole: an [api] value is one call of an interposed function by the program,
    and any sequence of them, after the constructor, keeps the invariant. *)
From S2P Require Import Prelude Bytes Bits Sbp Prng ShmLayout Os Shm Env TimeManager Controller Typing Shim Time Random RandomFacts Sigsys Process ShimTyping.

(** ** Sigsys.v *)
Section Sigsys.
Context {os : OS} {Hos : TypedOS}.
Abbreviation tys := (typed shim_typed).

Lemma words_of_timespec_typed o : stored_typed o -> Forall (in_s 64) (words_of_timespec o).
Proof. destruct o as [ts|]; cbn; [intros []; auto|constructor]. Qed.

Section Handler.
Context {raw : RawSyscall} {Hraw : TypedRaw}.

(** What a time function stored, as words. *)
Lemma typed_clock_words (m : MS (Z * option timespec)) : tys clock_typed m ->
  tys bytes_typed ('(rc, ts) ← m ; mret (rc, words_of_timespec ts)).
Proof.
  intros Hm. eapply typed_bind; [exact Hm|]. intros [rc ts] [Hrc Hts].
  apply typed_ret. split; [exact Hrc|apply words_of_timespec_typed, Hts].
Qed.

Lemma typed_pair_words (m : MS (Z * option (Z * Z))) : tys pair_typed m ->
  tys bytes_typed ('(rc, tv) ← m ; mret (rc, match tv with Some (s, us) => [s; us] | None => [] end)).
Proof.
  intros Hm. eapply typed_bind; [exact Hm|]. intros [rc [[x y]|]] [Hrc Htv]; apply typed_ret; (split; [exact Hrc|]).
  - destruct Htv. cbn. auto.
  - constructor.
Qed.

Lemma typed_word_words (m : MS (Z * option Z)) : tys word_typed m ->
  tys bytes_typed ('(rc, t) ← m ; mret (rc, match t with Some s => [s] | None => [] end)).
Proof.
  intros Hm. eapply typed_bind; [exact Hm|]. intros [rc [x|]] [Hrc Ht]; apply typed_ret; (split; [exact Hrc|]).
  - cbn. auto.
  - constructor.
Qed.

Lemma typed_fill_words buf len : tys bytes_typed (linbox_random_fill buf len).
Proof.
  eapply typed_weaken; [apply typed_fill|]. intros [n l] (Hn & HF & _). apply bytes_result; assumption.
Qed.

Lemma typed_dispatch fuel nr a1 a2 a3 a4 a5 a6 :
  tys (fun r => Forall (in_s 64) r.2) (linbox_dispatch_syscall fuel nr a1 a2 a3 a4 a5 a6).
Proof.
  unfold linbox_dispatch_syscall.
  do 4 (apply typed_if; intros _;
    [apply typed_weaken with (T := bytes_typed);
     [first [apply typed_clock_words, typed_virtual_clock|apply typed_pair_words, typed_gettimeofday
            |apply typed_word_words, typed_time|apply typed_fill_words]|intros r [_ H]; exact H]|]).
  eapply typed_bind; [apply typed_raw|]. intros a Ha. apply typed_ret, Ha.
Qed.

Lemma typed_handler fuel info context :
  tys (fun r => Forall (in_s 64) r.2) (linbox_sigsys_handler fuel info context).
Proof.
  unfold linbox_sigsys_handler. destruct info as [info|]; [|apply typed_ret; constructor].
  destruct context as [g|]; [|apply typed_ret; constructor]. apply typed_if; intros _; [apply typed_ret; constructor|].
  eapply typed_bind; [apply typed_dispatch|]. intros [rc words] Hw.
  eapply typed_bind; [apply typed_get_errno|]. intros e _. apply typed_ret, Hw.
Qed.

Lemma typed_syscall fuel number a1 a2 a3 a4 a5 a6 : tys bytes_typed (syscall fuel number a1 a2 a3 a4 a5 a6).
Proof.
  unfold syscall.
  do 4 (apply typed_if; intros _;
    [first [apply typed_clock_words, typed_virtual_clock|apply typed_pair_words, typed_gettimeofday
           |apply typed_word_words, typed_time|apply typed_fill_words]|]).
  eapply typed_bind; [apply typed_resolve|]. intros [] _; [|apply typed_ret; split; [width|constructor]].
  eapply typed_bind; [apply typed_call_real|]. intros a [Ha Hw]. apply typed_ret. split; assumption.
Qed.

Lemma typed_install_sigsys : tys anything linbox_install_sigsys_handler.
Proof. unfold linbox_install_sigsys_handler. typed_code; auto. Qed.
Lemma typed_install_seccomp : tys anything linbox_install_seccomp.
Proof. unfold linbox_install_seccomp. typed_code; auto. Qed.
Hint Resolve typed_install_sigsys typed_install_seccomp : typed.

Lemma typed_ctor : tys anything linbox_ctor.
Proof.
  unfold linbox_ctor. eapply typed_bind; [apply typed_init|]. intros _ _.
  eapply typed_bind; [apply typed_seccomp_enabled|]. intros enabled _.
  eapply typed_bind with (T := anything); [destruct enabled; typed_code; auto|]. intros _ _.
  do 2 (eapply typed_bind; [apply typed_call|]; intros _ _).
  eapply typed_bind; [apply typed_state_get|]. intros st _. typed_code; auto.
Qed.
End Handler.

(** The kernel, whatever the nesting of trapped calls. *)
Lemma typed_kernel rfuel depth : TypedRaw (raw := kernel_syscall rfuel depth).
Proof.
  induction depth as [|depth IH]; intros nr args; unfold raw_syscall; cbn [kernel_syscall].
  all: eapply typed_bind with (T := anything);
    [intros p log q H Hm Hs; injection H as <- <-; split; [exact Hm|split; [exact Hs|exact Logic.I]]|]; intros log _; cbv zeta.
  all: apply typed_if; intros _;
    [intros p b q H Hm Hs; injection H as <- <-; split; [exact Hm|]; split; [exact Hs|];
     apply (typed_answer (p_log p) (XRawSyscall nr args))|].
  all: apply typed_if; intros _; [|apply typed_ret; constructor].
  all: destruct (handled log); [|apply typed_undef].
  - apply typed_out_of_fuel.
  - unfold handle_trap. cbv zeta. eapply typed_bind; [apply (typed_handler (Hraw := IH))|]. intros [g words] Hw.
    apply typed_ret, Hw.
Qed.
End Sigsys.

(** ** Process.v *)
Section Process.
Context {os : OS} {Hos : TypedOS} {raw : RawSyscall} {Hraw : TypedRaw}.
Abbreviation tys := (typed shim_typed).

Lemma typed_free_all ptrs : tys anything (free_all ptrs).
Proof.
  induction ptrs as [|x ptrs IH]; cbn [free_all]; [apply typed_ret; exact Logic.I|].
  eapply typed_bind; [apply typed_call|]. intros _ _. exact IH.
Qed.
Hint Resolve typed_free_all : typed.

Lemma typed_add_missing needed envp array : forall added, tys anything (add_missing needed envp array added).
Proof.
  induction needed as [|[name value] needed IH]; intros added; cbn [add_missing b_name b_value]; [apply typed_ret; exact Logic.I|].
  destruct value as [[|c v]|]; [apply IH| |apply IH]. destruct (has_binding _ _); [apply IH|]. cbv zeta.
  eapply typed_bind; [apply typed_call|]. intros ptr _. apply typed_if; intros _; [|apply IH].
  eapply typed_bind; [apply typed_free_all|]. intros _ _. eapply typed_bind; [apply typed_call|]. intros _ _.
  apply typed_ret. exact Logic.I.
Qed.
Hint Resolve typed_add_missing : typed.

Lemma typed_inject envp : tys anything (linbox_inject_runtime_env envp).
Proof.
  unfold linbox_inject_runtime_env. eapply typed_bind; [apply typed_get_st|]. intros s _. cbv zeta.
  apply typed_if; intros _; [apply typed_ret; exact Logic.I|].
  eapply typed_bind; [apply typed_call|]. intros merged _. apply typed_if; intros _; [apply typed_ret; exact Logic.I|].
  eapply typed_bind; [apply typed_add_missing|]. intros [added|] _; apply typed_ret; exact Logic.I.
Qed.

Lemma typed_free_injected e : tys anything (linbox_free_injected_env e).
Proof. unfold linbox_free_injected_env. destruct e; typed_code; auto. Qed.
Hint Resolve typed_inject typed_free_injected : typed.

Lemma typed_call_exec sym (x : ext) : tys (fun a => in_s 64 (ret a)) (call_real sym x).
Proof. eapply typed_weaken; [apply typed_call_real|]. intros a [H _]. exact H. Qed.

Lemma typed_with_env sym path argv envp (on_null : MS Z) : tys (in_s 64) on_null ->
  tys (in_s 64) (with_runtime_env sym path argv envp on_null).
Proof.
  intros Hn. unfold with_runtime_env. eapply typed_bind; [apply typed_resolve|]. intros [] _; [|apply typed_ret; width].
  eapply typed_bind; [apply typed_inject|]. intros merged _. destruct merged; [exact Hn| |].
  all: eapply typed_bind; [apply typed_call_exec|]; intros a Ha;
    eapply typed_bind; [apply typed_free_injected|]; intros _ _; apply typed_ret, Ha.
Qed.

Lemma typed_enomem : tys (in_s 64) fail_enomem.
Proof. unfold fail_enomem. eapply typed_bind; [apply typed_set_errno|]. intros _ _. apply typed_ret. width. Qed.

Lemma typed_execve path argv envp : tys (in_s 64) (execve path argv envp).
Proof. apply typed_with_env, typed_enomem. Qed.
Lemma typed_execvpe file argv envp : tys (in_s 64) (execvpe file argv envp).
Proof. apply typed_with_env, typed_enomem. Qed.
Lemma typed_posix_spawn path argv envp : tys (in_s 64) (posix_spawn path argv envp).
Proof. apply typed_with_env, typed_ret. width. Qed.
Lemma typed_posix_spawnp file argv envp : tys (in_s 64) (posix_spawnp file argv envp).
Proof. apply typed_with_env, typed_ret. width. Qed.

Lemma typed_execvp file argv : tys (in_s 64) (execvp file argv).
Proof.
  unfold execvp. eapply typed_bind; [apply typed_resolve|]. intros [] _; [|apply typed_ret; width].
  eapply typed_bind; [apply typed_get_st|]. intros s _. eapply typed_bind; [apply typed_call_exec|]. intros a Ha.
  apply typed_ret, Ha.
Qed.

Lemma typed_execv path argv : tys (in_s 64) (execv path argv).
Proof. unfold execv. eapply typed_bind; [apply typed_get_st|]. intros s _. apply typed_execve. Qed.

Lemma typed_with_argv args k : (forall argv, tys (in_s 64) (k argv)) -> tys (in_s 64) (with_argv args k).
Proof.
  intros Hk. unfold with_argv. cbv zeta. eapply typed_bind; [apply typed_call|]. intros argv _.
  apply typed_if; intros _; [apply typed_enomem|]. eapply typed_bind; [apply Hk|]. intros rc Hrc.
  eapply typed_bind; [apply typed_call|]. intros _ _. apply typed_ret, Hrc.
Qed.

Lemma typed_execl path args : tys (in_s 64) (execl path args).
Proof. apply typed_with_argv. intros argv. eapply typed_bind; [apply typed_get_st|]. intros s _. apply typed_execve. Qed.
Lemma typed_execle path args envp : tys (in_s 64) (execle path args envp).
Proof. apply typed_with_argv. intros argv. apply typed_execve. Qed.
Lemma typed_execlp file args : tys (in_s 64) (execlp file args).
Proof. apply typed_with_argv. intros argv. apply typed_execvp. Qed.

Lemma typed_send_register the_pid : tys (in_s 32) (linbox_send_register_process the_pid).
Proof.
  unfold linbox_send_register_process. eapply typed_bind; [apply typed_state_get|]. intros st _.
  apply typed_if; intros _; [apply typed_ret; width|].
  eapply typed_bind; [apply typed_exchange|]. intros [] _; apply typed_ret; width.
Qed.

Lemma typed_after_fork : tys anything linbox_after_fork_in_child.
Proof.
  unfold linbox_after_fork_in_child. eapply typed_bind; [apply typed_reinit|]. intros _ _.
  eapply typed_bind; [apply typed_call|]. intros pid _. eapply typed_bind; [apply typed_send_register|]. intros _ _.
  apply typed_ret. exact Logic.I.
Qed.
Hint Resolve typed_after_fork : typed.

Lemma typed_fork : tys (in_s 64) fork.
Proof.
  unfold fork. eapply typed_bind; [apply typed_resolve|]. intros [] _; [|apply typed_ret; width].
  eapply typed_bind; [apply typed_call_exec|]. intros a Ha.
  eapply typed_bind with (T := anything); [typed_code; auto|]. intros _ _. apply typed_ret, Ha.
Qed.

Lemma typed_clone fn stack flags arg ptid tls ctid : tys (in_s 64) (clone fn stack flags arg ptid tls ctid).
Proof.
  unfold clone. eapply typed_bind; [apply typed_call|]. intros start _. apply typed_if; intros _; [apply typed_enomem|].
  cbv zeta. eapply typed_bind; [apply typed_resolve|]. intros [] _; [|apply typed_ret; width].
  eapply typed_bind; [apply typed_call_exec|]. intros a Ha.
  eapply typed_bind with (T := anything); [typed_code; auto|]. intros _ _. apply typed_ret, Ha.
Qed.

Lemma typed_clone3 cl_args size : tys (in_s 64) (clone3 cl_args size).
Proof.
  unfold clone3. eapply typed_bind; [apply typed_raw|]. intros a _. cbv zeta.
  eapply typed_bind with (T := anything); [destruct cl_args; typed_code; auto|]. intros _ _.
  apply typed_weaken with (T := in_s 32); [apply typed_syscall_result|apply int_is_word].
Qed.
End Process.

(** ** The interposed functions, as one call of a program *)
Inductive api :=
  | ApiClockGettime (clk tp : Z)
  | ApiClockGetres (clk res : Z)
  | ApiGettimeofday (tv tz : Z)
  | ApiTime (tloc : Z)
  | ApiClock
  | ApiTimes (buf : Z)
  | ApiTimespecGet (ts base : Z)
  | ApiGetrandom (buf buflen flags : Z)
  | ApiGetentropy (buf buflen : Z)
  | ApiArc4random
  | ApiArc4randomBuf (buf nbytes : Z)
  | ApiArc4randomUniform (upper_bound : Z)
  | ApiRand
  | ApiSrand (seed : Z)
  | ApiRandom
  | ApiSrandom (seed : Z)
  | ApiRandR (seed : Z)
  | ApiOpen (path : option string) (flags : Z)
  | ApiOpenat (dirfd : Z) (path : option string) (flags : Z)
  | ApiRead (fd buf count : Z)
  | ApiClose (fd : Z)
  | ApiSyscall (number a1 a2 a3 a4 a5 a6 : Z)
  | ApiFork
  | ApiVfork
  | ApiClone (fn stack flags arg ptid tls ctid : Z)
  | ApiClone3 (cl_args : option Z) (size : Z)
  | ApiExecve (path : string) (argv : list string) (envp : option (list string))
  | ApiExecvpe (file : string) (argv : list string) (envp : option (list string))
  | ApiExecv (path : string) (argv : list string)
  | ApiExecvp (file : string) (argv : list string)
  | ApiExecl (path : string) (args : list string)
  | ApiExecle (path : string) (args : list string) (envp : option (list string))
  | ApiExeclp (file : string) (args : list string)
  | ApiPosixSpawn (path : string) (argv : list string) (envp : option (list string))
  | ApiPosixSpawnp (file : string) (argv : list string) (envp : option (list string)).

(** The unsigned arguments are of their type. *)
Definition api_args_typed (a : api) : Prop :=
  match a with
  | ApiTimespecGet _ base => in_s 32 base
  | ApiArc4randomUniform ub => in_u 32 ub
  | ApiSrand seed | ApiSrandom seed => in_u 32 seed
  | _ => True
  end.

Section Api.
Context {os : OS} {raw : RawSyscall}.

Definition result_only (m : MS Z) : MS (Z * list Z) := r ← m ; mret (r, []).

(** The result of a call and the words it stored. *)
Definition run_api (fuel : nat) (a : api) : MS (Z * list Z) :=
  match a with
  | ApiClockGettime clk tp => '(rc, ts) ← clock_gettime fuel clk tp ; mret (rc, words_of_timespec ts)
  | ApiClockGetres clk res => '(rc, ts) ← clock_getres clk res ; mret (rc, words_of_timespec ts)
  | ApiGettimeofday tv tz =>
      '(rc, t) ← gettimeofday fuel tv tz ; mret (rc, match t with Some (s, us) => [s; us] | None => [] end)
  | ApiTime tloc => '(rc, t) ← time fuel tloc ; mret (rc, match t with Some s => [s] | None => [] end)
  | ApiClock => result_only (clock fuel)
  | ApiTimes buf => '(rc, l) ← times fuel buf ; mret (rc, default [] l)
  | ApiTimespecGet ts base => '(rc, out) ← timespec_get fuel ts base ; mret (rc, words_of_timespec out)
  | ApiGetrandom buf len flags => getrandom buf len flags
  | ApiGetentropy buf len => getentropy buf len
  | ApiArc4random => result_only arc4random
  | ApiArc4randomBuf buf n => bytes ← arc4random_buf buf n ; mret (0, bytes)
  | ApiArc4randomUniform ub => result_only (arc4random_uniform fuel ub)
  | ApiRand => result_only rand
  | ApiSrand seed => srand seed ;; mret (0, [])
  | ApiRandom => result_only random
  | ApiSrandom seed => srandom seed ;; mret (0, [])
  | ApiRandR seed => '(r, s) ← rand_r (Some seed) ; mret (r, [default 0 s])
  | ApiOpen path flags => result_only (open_ path flags)
  | ApiOpenat dirfd path flags => result_only (openat dirfd path flags)
  | ApiRead fd buf count => read fd buf count
  | ApiClose fd => result_only (close fd)
  | ApiSyscall n a1 a2 a3 a4 a5 a6 => syscall fuel n a1 a2 a3 a4 a5 a6
  | ApiFork => result_only fork
  | ApiVfork => result_only vfork
  | ApiClone fn stack flags arg ptid tls ctid => result_only (clone fn stack flags arg ptid tls ctid)
  | ApiClone3 cl_args size => result_only (clone3 cl_args size)
  | ApiExecve path argv envp => result_only (execve path argv envp)
  | ApiExecvpe file argv envp => result_only (execvpe file argv envp)
  | ApiExecv path argv => result_only (execv path argv)
  | ApiExecvp file argv => result_only (execvp file argv)
  | ApiExecl path args => result_only (execl path args)
  | ApiExecle path args envp => result_only (execle path args envp)
  | ApiExeclp file args => result_only (execlp file args)
  | ApiPosixSpawn path argv envp => result_only (posix_spawn path argv envp)
  | ApiPosixSpawnp file argv envp => result_only (posix_spawnp file argv envp)
  end.

Fixpoint run_calls (fuel : nat) (calls : list api) : MS (list (Z * list Z)) :=
  match calls with
  | [] => mret []
  | a :: calls => r ← run_api fuel a ; rs ← run_calls fuel calls ; mret (r :: rs)
  end.

Context {Hos : TypedOS} {Hraw : TypedRaw}.
Abbreviation tys := (typed shim_typed).

Lemma typed_result_only (T : Z -> Prop) m : tys T m -> (forall r, T r -> in_s 64 r) -> tys bytes_typed (result_only m).
Proof.
  intros Hm HT. eapply typed_bind; [exact Hm|]. intros r Hr. apply typed_ret. split; [apply HT, Hr|constructor].
Qed.

Lemma typed_unit_only (m : MS unit) : tys anything m -> tys bytes_typed (m ;; mret (0, [])).
Proof. intros Hm. eapply typed_bind; [exact Hm|]. intros _ _. apply typed_ret. split; [width|constructor]. Qed.

Lemma uint_is_word x : in_u 32 x -> in_s 64 x.
Proof. unfold in_u, in_s. lia. Qed.
Hint Resolve int_is_word uint_is_word : core.

(** The random functions, and the descriptors. *)
Lemma typed_run_random fuel a : api_args_typed a ->
  match a with
  | ApiGetrandom _ _ _ | ApiGetentropy _ _ | ApiArc4random | ApiArc4randomBuf _ _ | ApiArc4randomUniform _
  | ApiRand | ApiSrand _ | ApiRandom | ApiSrandom _ | ApiRandR _ | ApiOpen _ _ | ApiOpenat _ _ _ | ApiRead _ _ _
  | ApiClose _ => True
  | _ => False
  end -> tys bytes_typed (run_api fuel a).
Proof.
  intros Ha Hk. destruct a; try contradiction; cbn [run_api api_args_typed] in *.
  - apply typed_fill_words.
  - apply typed_getentropy.
  - apply typed_result_only with (T := in_u 32); [apply typed_u32|auto].
  - eapply typed_bind with (T := Forall (in_s 64)).
    + unfold arc4random_buf. eapply typed_bind; [apply typed_fill_words|]. intros [n l] [_ Hl]. apply typed_ret, Hl.
    + intros l Hl. apply typed_ret. split; [width|exact Hl].
  - apply typed_result_only with (T := in_u 32); [apply typed_uniform, Ha|auto].
  - apply typed_result_only with (T := in_s 32); [apply typed_rand|auto].
  - apply typed_unit_only, typed_srand, Ha.
  - apply typed_result_only with (T := in_s 32); [apply typed_random|auto].
  - apply typed_unit_only, typed_srandom, Ha.
  - eapply typed_bind; [apply typed_rand_r|]. intros [r s] [Hr Hs]. cbn [fst snd] in *. apply typed_ret. split; cbn; auto.
  - apply typed_result_only with (T := in_s 64); [apply typed_open_file|auto].
  - apply typed_result_only with (T := in_s 64); [apply typed_openat|auto].
  - apply typed_read.
  - apply typed_result_only with (T := in_s 64); [apply typed_close_fd|auto].
Qed.

Lemma typed_run_api fuel a : api_args_typed a -> tys bytes_typed (run_api fuel a).
Proof.
  intros Ha. destruct a; try (apply typed_run_random; [exact Ha|exact Logic.I]); cbn [run_api api_args_typed] in *.
  - apply typed_clock_words, typed_clock_gettime.
  - apply typed_clock_words, typed_clock_getres.
  - apply typed_pair_words, typed_gettimeofday.
  - apply typed_word_words, typed_time.
  - apply typed_result_only with (T := in_s 64); [apply typed_clock|auto].
  - eapply typed_bind; [apply typed_times|]. intros [rc l] H. apply typed_ret, H.
  - apply typed_clock_words, typed_timespec_get. auto.
  - apply typed_syscall.
  - apply typed_result_only with (T := in_s 64); [apply typed_fork|auto].
  - apply typed_result_only with (T := in_s 64); [apply typed_fork|auto].
  - apply typed_result_only with (T := in_s 64); [apply typed_clone|auto].
  - apply typed_result_only with (T := in_s 64); [apply typed_clone3|auto].
  - apply typed_result_only with (T := in_s 64); [apply typed_execve|auto].
  - apply typed_result_only with (T := in_s 64); [apply typed_execvpe|auto].
  - apply typed_result_only with (T := in_s 64); [apply typed_execv|auto].
  - apply typed_result_only with (T := in_s 64); [apply typed_execvp|auto].
  - apply typed_result_only with (T := in_s 64); [apply typed_execl|auto].
  - apply typed_result_only with (T := in_s 64); [apply typed_execle|auto].
  - apply typed_result_only with (T := in_s 64); [apply typed_execlp|auto].
  - apply typed_result_only with (T := in_s 64); [apply typed_posix_spawn|auto].
  - apply typed_result_only with (T := in_s 64); [apply typed_posix_spawnp|auto].
Qed.

Lemma typed_run_calls fuel calls : Forall api_args_typed calls -> tys (Forall bytes_typed) (run_calls fuel calls).
Proof.
  induction 1 as [|a calls Ha _ IH]; cbn [run_calls]; [apply typed_ret; constructor|].
  eapply typed_bind; [apply typed_run_api, Ha|]. intros r Hr. eapply typed_bind; [exact IH|]. intros rs Hrs.
  apply typed_ret. constructor; assumption.
Qed.
End Api.

(** C9: the shim's state invariant. In any environment that answers with values
    of the declared types, a process that loads the shim, runs its constructor
    and then makes any calls of the interposed functions in any order, under the
    filter and at any nesting of trapped calls, keeps every field of the shim
    and of the shared region within its C type, its table of virtual descriptors
    well formed (an entry in use holds the base plus its index), and the
    generator of an initialised shim away from its absorbing state 0; every call
    returns and stores words of 64 bits. *)
Theorem shim_types (os : OS) (environ : list string) (rfuel depth fuel : nat) (calls : list api)
    (p q : proc shim) (results : list (Z * list Z)) (Hos : TypedOS) (Hp : p_st p = loaded_shim environ)
    (Hmem : memory_typed (p_mem p)) (Hargs : Forall api_args_typed calls)
    (Hrun : (linbox_ctor (raw := kernel_syscall rfuel depth) ;;
             run_calls (raw := kernel_syscall rfuel depth) fuel calls) p = Ok (results, q)) :
  memory_typed (p_mem q) /\ shim_typed (p_st q) /\ Forall bytes_typed results.
Proof.
  pose proof (typed_kernel rfuel depth) as Hraw.
  assert (Htyped : typed shim_typed (Forall bytes_typed)
    (linbox_ctor (raw := kernel_syscall rfuel depth) ;; run_calls (raw := kernel_syscall rfuel depth) fuel calls)).
  { eapply typed_bind; [apply typed_ctor|]. intros _ _. apply typed_run_calls, Hargs. }
  apply (Htyped _ _ _ Hrun Hmem). rewrite Hp. apply loaded_typed.
Qed.
