(* ===== verification/Clients.v ===== *)
(** * Programs that run under the shim

    Models the two client programs of the repository that call the interposed
    functions directly: src/shim/random.preload.c, which prints what each random
    function gives, and src/shim/seccomp-helper.c, which makes direct and libc
    system calls and checks what it gets.  Their theorems compose the whole shim:
    the filter, the handler, the clock, the stream and the virtual devices.

    What a program prints on its standard output is returned beside its exit
    status. *)
From stdpp Require Import pretty.
From S2P Require Import Prelude Bytes Bits Prng PrngPeriod ShmLayout Os Shm TimeManager Shim ShimFacts Time TimeFacts Random RandomFacts Sigsys SigsysFacts Process ProcessFacts Trapping.

Definition O_RDONLY : Z := 0.
Definition SIGUSR1 : Z := 10.
Definition SYS_write : Z := 1.
Definition STDOUT_FILENO : Z := 1.

(** ** random.preload.c *)
Definition newline : string := String (Ascii.ascii_of_nat 10) EmptyString.

Definition hex_digit (d : Z) : string := String.substring (Z.to_nat d) 1 "0123456789abcdef".

Fixpoint print_bytes (buf : list Z) : string :=
  match buf with
  | [] => ""
  | b :: buf' => hex_digit (b / 16) +:+ hex_digit (b mod 16) +:+ print_bytes buf'
  end.

Definition print_hex (buf : list Z) : string := print_bytes buf +:+ newline.

Definition print_numbers (arc uni r1 r2 rr seed : Z) : string :=
  "arc=" +:+ pretty arc +:+ " uni=" +:+ pretty uni +:+ " rand=" +:+ pretty r1 +:+ "," +:+ pretty r2 +:+
  " rand_r=" +:+ pretty rr +:+ " seed=" +:+ pretty seed +:+ newline.

(** A buffer of sixteen zeros after a call that stored [bytes] at its front. *)
Definition stored (bytes : list Z) : list Z := bytes ++ drop (length bytes) (replicate 16 0).

Section RandomPreload.
Context {os : OS} {raw : RawSyscall}.

(** [main]; [fuel] bounds the rejections of [arc4random_uniform]. *)
Definition random_preload_main (fuel : nat) : MS (Z * list string) :=
  '(n, a) ← getrandom OBJECT 16 0 ;
  if decide (n <> 16) then mret (1, [])
  else
    '(rc, b) ← getentropy OBJECT 16 ;
    if decide (rc <> 0) then mret (2, [])
    else
      fd ← open_ (Some "/dev/urandom") O_RDONLY ;
      if decide (fd < 0) then mret (3, [])
      else
        '(n, c) ← read fd OBJECT 16 ;
        if decide (n <> 16) then mret (4, [])
        else
          rc ← close fd ;
          if decide (rc <> 0) then mret (5, [])
          else
            arc ← arc4random ;
            uni ← arc4random_uniform fuel 100 ;
            srand 42 ;;
            r1 ← rand ;
            r2 ← rand ;
            '(rr, rr_seed) ← rand_r (Some 77) ;
            match rr_seed with
            | None => undef
            | Some rr_seed =>
                mret (0, [print_hex (stored a); print_hex (stored b); print_hex (stored c);
                          print_numbers arc uni r1 r2 rr rr_seed])
            end.
End RandomPreload.

(** ** seccomp-helper.c *)
Section SeccompHelper.
Context {os : OS} {raw : RawSyscall}.

(** The new value of [g_usr1_count]. *)
Definition usr1_handler (signo g_usr1_count : Z) : Z :=
  if decide (signo = SIGUSR1) then g_usr1_count + 1 else g_usr1_count.

Definition inline_syscall2 (nr a1 a2 : Z) : MS answer := raw_syscall nr [a1; a2].
Definition inline_syscall3 (nr a1 a2 a3 : Z) : MS answer := raw_syscall nr [a1; a2; a3].

Definition expect_eq_u64 (label : string) (got want : Z) : MS Z :=
  if decide (got <> want) then _ ← call (XStderr label) ; mret (-1) else mret 0.

Definition complain (msg : string) (status : Z) : MS Z := _ ← call (XStderr msg) ; mret status.

(** [raise], whose handler runs before it returns: the result and the count. *)
Definition raise_usr1 (g_usr1_count : Z) : MS (Z * Z) :=
  rc ← call (XReal "raise" [SIGUSR1] None) ;
  mret (rc, if decide (rc = 0) then usr1_handler SIGUSR1 g_usr1_count else g_usr1_count).

(** The [for] loop at the end, with [k] iterations left. *)
Fixpoint stress_loop (k : nat) : MS Z :=
  match k with
  | O => mret 0
  | S k' =>
      a ← inline_syscall2 SYS_clock_gettime CLOCK_REALTIME OBJECT ;
      if decide (ret a <> 0 \/ nth 0 (data a) 0 <> 1735689600)
      then complain "stress clock_gettime failed" 15
      else stress_loop k'
  end.

(** Arguments [syscall] is not given are read as 0.  The last part of [main]: the
    calls the filter lets pass or refuses, and the stress loop. *)
Definition seccomp_helper_pass_through (fuel : nat) : MS Z :=
  '(rc, _) ← syscall fuel SYS_write STDOUT_FILENO OBJECT 21 0 0 0 ;
  if decide (rc <> 21) then complain "write passthrough failed" 10
  else
    '(rc, count) ← raise_usr1 0 ;
    if decide (rc <> 0 \/ count <> 1) then complain "SIGUSR1 handler broken" 11
    else
      set_errno 0 ;;
      '(rc, _) ← syscall fuel SYS_io_uring_setup 1 NULL 0 0 0 0 ;
      e ← get_errno ;
      if decide (rc <> -1 \/ e <> ENOSYS)
      then complain "io_uring_setup expected ENOSYS" 14
      else stress_loop (Z.to_nat 10000).

Definition seccomp_helper_main (fuel : nat) : MS Z :=
  rc ← call (XSigaction SIGUSR1) ;
  if decide (rc <> 0) then complain "sigaction" 1
  else
    a ← inline_syscall2 SYS_clock_gettime CLOCK_REALTIME OBJECT ;
    if decide (ret a <> 0) then complain "inline clock_gettime failed" 2
    else
      e ← expect_eq_u64 "clock_gettime sec" (u64 (nth 0 (data a) 0)) 1735689600 ;
      if decide (e <> 0) then mret 3
      else
        '(rc, tv) ← syscall fuel SYS_gettimeofday OBJECT NULL 0 0 0 0 ;
        if decide (rc <> 0) then complain "syscall(gettimeofday) failed" 4
        else
          e ← expect_eq_u64 "gettimeofday sec" (u64 (nth 0 tv 0)) 1735689600 ;
          if decide (e <> 0) then mret 5
          else
            a ← inline_syscall2 SYS_time OBJECT 0 ;
            if decide (ret a <> 1735689600 \/ nth 0 (data a) 0 <> 1735689600)
            then complain "time failed" 6
            else
              a ← inline_syscall3 SYS_getrandom OBJECT 16 0 ;
              if decide (ret a <> 16) then complain "inline getrandom failed" 7
              else
                '(rc, b) ← syscall fuel SYS_getrandom OBJECT 16 0 0 0 0 ;
                if decide (rc <> 16) then complain "syscall(getrandom) failed" 8
                else if decide (stored (data a) = stored b)
                then complain "expected independent deterministic draws, got identical buffers" 9
                else seccomp_helper_pass_through fuel.
End SeccompHelper.

(** ** What random.preload.c prints *)
Section RandomPreloadRuns.
Context {os : OS} {Hquiet : QuietMemory} {raw : RawSyscall}.

Lemma stored_full g : stored (prng_bytes 16 g) = prng_bytes 16 g.
Proof. unfold stored. rewrite length_prng_bytes. apply app_nil_r. Qed.

Lemma not_all_used fds : ~ all_used fds -> table_valid fds -> forall path flags (p : proc shim),
  path = "/dev/urandom" \/ path = "/dev/random" -> g_virtual_fds (p_st p) = fds ->
  exists fd fds', open_ (Some path) flags p =
      Ok (fd, Proc (set_virtual_fds fds' (p_st p)) (p_errno p) (p_mem p) (p_log p)) /\
    0 <= fd /\ table_valid fds' /\ is_virtual fd fds' /\
    forall x, is_virtual x fds' /\ x <> fd <-> is_virtual x fds.
Proof.
  intros Hfree Ht path flags p Hpath <-. destruct (open_device path flags p Hpath Ht) as [[Hall _]|H]; [contradiction|].
  destruct H as (fd & q & Hq & Hnew & Hrange & Ht' & Eq & Hx). exists fd, (g_virtual_fds (p_st q)).
  rewrite Hq, <- Eq. split; [reflexivity|]. unfold LINBOX_VIRTUAL_FD_BASE in Hrange. split; [lia|].
  split; [exact Ht'|]. split; [apply Hx; auto|]. intros x. rewrite Hx. split; [tauto|].
  intros H. split; [auto|]. intros ->. contradiction.
Qed.

(** The last four numbers are the same for every process. *)
Lemma fixed_numbers (p : proc shim) : initialized (lb (p_st p)) = true -> attached (p_st p) (p_mem p) ->
  exists p1 p2 q, srand 42 p = Ok (tt, p1) /\ rand p1 = Ok (1157011362, p2) /\ rand p2 = Ok (1265135363, q) /\
    rand_r (Some 77) q = Ok ((1415108196, Some 1415108196), q) /\
    g_virtual_fds (p_st q) = g_virtual_fds (p_st p).
Proof.
  intros Hi Ha. destruct (srand_streaming 42 p Hi Ha) as (p1 & H1 & S1 & _).
  destruct (draw_eq DRand p1 _ _ S1 I) as (p2 & H2 & S2). destruct (draw_eq DRand p2 _ _ S2 I) as (q & Hq & Sq).
  apply (st_drawing _ _ _), st_fds in Sq.
  assert (Hr : forall r a b, run_draw DRand a = Ok (r, b) -> rand a = Ok (r.1, b)).
  { intros r a b H. apply M_bind_Ok in H as (v & b' & Hv & [= <- <-]). exact Hv. }
  apply Hr in H2, Hq. exists p1, p2, q. split; [exact H1|]. rewrite H2, Hq. split; [|split; [|split]].
  - f_equal.
  - f_equal.
  - unfold rand_r. vm_compute (linbox_prng_seed _ 77). reflexivity.
  - exact Sq.
Qed.

(** The whole run, where the bounded draw is [uni]. *)
Lemma random_preload_run fuel (p : proc shim) fds g g' uni : drawing p fds g -> prng_ok g' ->
  table_valid fds -> ~ all_used fds ->
  linbox_prng_uniform fuel (prng_words 7 g).2 100 = Ok (g', uni) ->
  exists q, random_preload_main fuel p =
    Ok ((0, [print_hex (prng_bytes 16 g); print_hex (prng_bytes 16 (prng_words 2 g).2);
             print_hex (prng_bytes 16 (prng_words 4 g).2);
             print_numbers (u32 (linbox_prng_next_u64 (prng_words 6 g).2).2) uni
               1157011362 1265135363 1415108196 1415108196]), q) /\
    forall x, is_virtual x (g_virtual_fds (p_st q)) <-> is_virtual x fds.
Proof.
  intros Hd Hok' Ht Hfree Huni. unfold random_preload_main, getrandom, linbox_virtual_getrandom.
  destruct (drawing_fill p fds g OBJECT 16 Hd) as (p1 & H1 & D1 & _); [discriminate|lia|].
  change (Z.to_nat 16) with 16%nat in *. change (words_for 16) with 2%nat in *.
  rewrite M_bind_eq, H1, (decide_False (P := 16 <> 16)) by lia.
  destruct (drawing_fill p1 fds _ OBJECT 16 D1) as (p2 & H2 & D2 & _); [discriminate|lia|].
  change (Z.to_nat 16) with 16%nat in *. change (words_for 16) with 2%nat in *. rewrite prng_words_add in D2.
  unfold getentropy. rewrite M_bind_eq, (decide_False (P := 16 > 256)), M_bind_eq, H2 by lia.
  rewrite (decide_True (P := 16 >= 0)) by lia. unfold mret at 1, M_ret at 1. rewrite (decide_False (P := 0 <> 0)) by lia.
  destruct (not_all_used fds Hfree Ht "/dev/urandom" O_RDONLY p2) as (fd & fds' & Ho & Hfd & Ht' & Hv & Hx);
    [auto|apply D2|]. rewrite M_bind_eq, Ho, (decide_False (P := fd < 0)) by lia.
  set (p3 := Proc _ _ _ _). assert (D3 : drawing p3 fds' (prng_words 4 g).2) by exact (drawing_set_fds _ _ _ _ _ _ D2).
  destruct (drawing_fill p3 fds' _ OBJECT 16 D3) as (p4 & H4 & D4 & _); [discriminate|lia|].
  change (Z.to_nat 16) with 16%nat in *. change (words_for 16) with 2%nat in *. rewrite prng_words_add in D4.
  rewrite M_bind_eq, read_virtual, H4, (decide_False (P := 16 <> 16)) by (exact Hv || lia).
  destruct (close_virtual fd p4) as (p5 & H5 & _ & E5 & Hx5); [rewrite (st_fds _ _ _ D4); assumption..|].
  rewrite M_bind_eq, H5, (decide_False (P := 0 <> 0)) by lia.
  assert (D5 : drawing p5 (g_virtual_fds (p_st p5)) (prng_words 6 g).2) by (rewrite E5 at 1; exact (drawing_set_fds _ _ _ _ _ _ D4)).
  rewrite (st_fds _ _ _ D4) in Hx5. set (fds5 := g_virtual_fds (p_st p5)) in *.
  destruct (drawing_u32 p5 fds5 _ D5) as (p6 & H6 & D6 & _). rewrite prng_words_add in D6.
  unfold arc4random. rewrite M_bind_eq, H6.
  destruct (drawing_uniform p6 fds5 _ g' fuel 100 uni D6 Hok' Huni) as (p7 & H7 & D7).
  unfold arc4random_uniform. rewrite M_bind_eq, H7.
  destruct (fixed_numbers p7) as (p8 & p9 & q & H8 & H9 & Hq & Hr & Hfds); [apply D7|apply D7|].
  rewrite M_bind_eq, H8, M_bind_eq, H9, M_bind_eq, Hq, M_bind_eq, Hr, !stored_full. exists q.
  split; [reflexivity|]. intros x. rewrite Hfds, (st_fds _ _ _ D7), Hx5, <- Hx. tauto.
Qed.
End RandomPreloadRuns.

(** C23: the random functions are repeatable from end to end: what
    random.preload.c prints is determined by the state of the generator it
    starts with, whatever the environment: three runs of sixteen bytes of one
    stream, one word after them, one unbiased draw below 100, and then four
    numbers that are the same for every process; it always succeeds, and leaves
    the virtual descriptors as they were. *)
Theorem random_preload_repeatable (g : linbox_prng) (Hg : prng_ok g) :
  exists uni, 0 <= uni < 100 /\
  forall (os : OS) (raw : RawSyscall) (fuel : nat) (p : proc shim) (fds : list linbox_virtual_fd),
  QuietMemory -> prng_period <= Z.of_nat fuel -> drawing p fds g -> table_valid fds -> ~ all_used fds ->
  exists q, random_preload_main fuel p =
    Ok ((0, [print_hex (prng_bytes 16 g); print_hex (prng_bytes 16 (prng_words 2 g).2);
             print_hex (prng_bytes 16 (prng_words 4 g).2);
             print_numbers (u32 (linbox_prng_next_u64 (prng_words 6 g).2).2) uni
               1157011362 1265135363 1415108196 1415108196]), q) /\
    forall x, is_virtual x (g_virtual_fds (p_st q)) <-> is_virtual x fds.
Proof.
  pose proof (prng_words_ok 7 g Hg) as Hg7.
  destruct (uniform_terminates (prng_words 7 g).2 100 Hg7) as ([g' uni] & Hu); [unfold in_u; lia|].
  exists uni. assert (Hok : 0 <= uni < 100 /\ prng_ok g').
  { destruct (uniform_first_accepted (Z.to_nat prng_period) _ g' 100 uni Hg7) as (H1 & H2 & _);
      [lia|apply Hu; rewrite Z2Nat.id by (unfold prng_period; lia); lia|auto]. }
  split; [apply Hok|]. intros os raw fuel p fds Hquiet Hfuel Hd Ht Hfree.
  exact (random_preload_run fuel p fds g g' uni Hd (proj2 Hok) Ht Hfree (Hu fuel Hfuel)).
Qed.

(** ** What seccomp-helper.c sees *)

(** The kernel and libc around it: signals work, [syscall] can be resolved,
    makes the system call, and reports what the filter refuses as libc does. *)
Record plain_libc {os : OS} : Prop := {
  libc_sigaction : forall log, ret (os_answer log (XSigaction SIGUSR1)) = 0;
  libc_raise : forall log, ret (os_answer log (XReal "raise" [SIGUSR1] None)) = 0;
  libc_dlsym : forall log, ret (os_answer log (XDlsym "syscall")) <> NULL;
  libc_write : forall log, kernel_verdict log SYS_write = SECCOMP_RET_ALLOW ->
    ret (os_answer log (XReal "syscall" [SYS_write; STDOUT_FILENO; OBJECT; 21; 0; 0; 0] None)) = 21;
  libc_refused : forall log nr args e, kernel_verdict log nr = LINBOX_ERRNO e -> 0 < e < 4096 ->
    ret (os_answer log (XReal "syscall" (nr :: args) None)) = -1 /\
    err (os_answer log (XReal "syscall" (nr :: args) None)) = e }.

(** The process between two of its calls: the time and the stream it will see. *)
Record sheltered (ts : timespec) (fds : list linbox_virtual_fd) (g : linbox_prng) (p : proc shim) : Prop := {
  sh_serving : serving p ts;
  sh_drawing : drawing p fds g;
  sh_trapping : trapping (p_log p);
  sh_resolving : resolving (lb (p_st p)) = false }.

Section HelperRuns.
Context {os : OS} {Hquiet : QuietMemory} {kernel : nat -> nat -> RawSyscall} {Hkernel : SeccompKernel kernel}.
Context (ts : timespec) (fds : list linbox_virtual_fd) (Hts : normal ts).

Lemma sheltered_log g (p : proc shim) e log : sheltered ts fds g p -> trapping log ->
  sheltered ts fds g (Proc (p_st p) e (p_mem p) log).
Proof. intros [Hs Hd _ Hr] Ht. split; [exact Hs|destruct Hd; constructor; assumption|exact Ht|exact Hr]. Qed.

Lemma sheltered_call g (p : proc shim) x : (forall a, ordinary (x, a)) -> sheltered ts fds g p ->
  exists q, call x p = Ok (ret (os_answer (p_log p) x), q) /\ sheltered ts fds g q /\ p_st q = p_st p.
Proof.
  intros Hx Hp. eexists. split; [reflexivity|]. split; [|reflexivity]. apply sheltered_log; [exact Hp|].
  apply trapping_ordinary; [apply Hx|apply Hp].
Qed.

Lemma sheltered_clock g rfuel depth (p : proc shim) : sheltered ts fds g p ->
  exists q, kernel (S rfuel) (S depth) SYS_clock_gettime [CLOCK_REALTIME; OBJECT] p =
    Ok (Answer 0 0 [tv_sec ts; tv_nsec ts], q) /\ sheltered ts fds g q.
Proof.
  intros Hp. destruct (sh_trapping _ _ _ _ Hp) as [Hs Hh].
  destruct (trapped_clock_gettime rfuel depth ts p CLOCK_REALTIME OBJECT Hquiet (sh_serving _ _ _ _ Hp) Hs Hh) as (log & H);
    [vm_compute; left|discriminate|]. eexists. split; [exact H|].
  apply sheltered_log; [exact Hp|]. exact (tame_kernel _ _ _ _ _ _ _ H (conj Hs Hh)).
Qed.

Lemma sheltered_time g rfuel depth (p : proc shim) : sheltered ts fds g p ->
  exists q, kernel (S rfuel) (S depth) SYS_time [OBJECT; 0] p =
    Ok (Answer (tv_sec ts) 0 [tv_sec ts], q) /\ sheltered ts fds g q.
Proof.
  intros Hp. destruct (sh_trapping _ _ _ _ Hp) as [Hs Hh].
  destruct (trapped_time rfuel depth ts p [OBJECT; 0] Hquiet (sh_serving _ _ _ _ Hp) Hts Hs Hh) as (log & H).
  eexists. split; [exact H|]. apply sheltered_log; [exact Hp|]. exact (tame_kernel _ _ _ _ _ _ _ H (conj Hs Hh)).
Qed.

Lemma sheltered_fill (raw : RawSyscall) g (p : proc shim) len :
  (forall nr args, tame_code (raw_syscall nr args)) -> 0 <= len < 2 ^ 63 -> sheltered ts fds g p ->
  exists q, linbox_random_fill OBJECT len p = Ok ((len, prng_bytes (Z.to_nat len) g), q) /\
    sheltered ts fds (prng_words (words_for (Z.to_nat len)) g).2 q.
Proof.
  intros Hraw Hlen [Hs Hd Ht Hr].
  destruct (drawing_fill p fds g OBJECT len Hd) as (q & H & Hdq & Hm & Hc & Hshm & Hres & _); [discriminate|exact Hlen|].
  exists q. split; [exact H|]. split; [|exact Hdq|exact (tame_random_fill Hraw _ _ _ _ _ H Ht)|congruence].
  unfold serving in *. rewrite Hc, Hshm, Hm. split; [apply Hdq|]. apply Hs.
Qed.

Lemma sheltered_getrandom g rfuel depth (p : proc shim) : sheltered ts fds g p ->
  exists q, kernel rfuel (S depth) SYS_getrandom [OBJECT; 16; 0] p = Ok (Answer 16 0 (prng_bytes 16 g), q) /\
    sheltered ts fds (prng_words 2 g).2 q.
Proof.
  intros Hp. destruct (sh_trapping _ _ _ _ Hp) as [Hs Hh].
  destruct (sheltered_fill (kernel rfuel depth) g p 16 (tame_kernel rfuel depth)) as (q & Hf & Hq); [lia|exact Hp|].
  destruct (trapped_getrandom rfuel depth p fds g OBJECT 16 0 Hquiet (sh_drawing _ _ _ _ Hp) Hs Hh) as (q' & Hk & Hf');
    [discriminate|lia|]. rewrite Hf in Hf'. injection Hf' as <-. exists q. split; [exact Hk|exact Hq].
Qed.

(** The same through the [syscall] function. *)
Section Libc.
Context (rfuel depth : nat).

Lemma sheltered_syscall_getrandom fuel g (p : proc shim) : sheltered ts fds g p ->
  exists q, syscall (raw := kernel rfuel depth) fuel SYS_getrandom OBJECT 16 0 0 0 0 p = Ok ((16, prng_bytes 16 g), q) /\
    sheltered ts fds (prng_words 2 g).2 q.
Proof.
  intros Hp. destruct (sheltered_fill (kernel rfuel depth) g p 16 (tame_kernel rfuel depth)) as (q & Hf & Hq); [lia|exact Hp|].
  exists q. split; [|exact Hq]. unfold syscall. rewrite !decide_False by discriminate.
  rewrite (decide_True (P := SYS_getrandom = SYS_getrandom)) by reflexivity. exact Hf.
Qed.

Lemma sheltered_syscall_gettimeofday fuel g (p : proc shim) : sheltered ts fds g p ->
  exists q, syscall (raw := kernel rfuel depth) (S fuel) SYS_gettimeofday OBJECT NULL 0 0 0 0 p =
    Ok ((0, [tv_sec ts; Z.quot (tv_nsec ts) 1000]), q) /\ sheltered ts fds g q.
Proof.
  intros Hp. destruct (virtual_now_serving (raw := kernel rfuel depth) fuel ts p (sh_serving _ _ _ _ Hp)) as (log & Hnow).
  eexists. split.
  - unfold syscall. rewrite (decide_False (P := SYS_gettimeofday = SYS_clock_gettime)) by discriminate.
    rewrite (decide_True (P := SYS_gettimeofday = SYS_gettimeofday)) by reflexivity.
    rewrite M_bind_eq. unfold linbox_virtual_gettimeofday. rewrite decide_False by discriminate.
    rewrite M_bind_eq, Hnow. reflexivity.
  - apply sheltered_log; [exact Hp|]. exact (tame_virtual_now (tame_kernel rfuel depth) _ _ _ _ Hnow (sh_trapping _ _ _ _ Hp)).
Qed.

Context (Hlibc : plain_libc).

Lemma sheltered_resolve g (p : proc shim) : sheltered ts fds g p ->
  exists q, LINBOX_RESOLVE_NEXT "syscall" p = Ok (true, q) /\ sheltered ts fds g q /\
    real_ptr (p_st q) "syscall" <> NULL.
Proof.
  intros Hp. unfold LINBOX_RESOLVE_NEXT. rewrite M_bind_eq. cbn [get_st].
  destruct (decide (real_ptr (p_st p) "syscall" <> NULL)) as [Hr|_]; [exists p; auto|].
  destruct Hp as [Hs [Hi Ha Hf Hg Hok] Ht Hr]. rewrite Hr, M_bind_eq, update_eq, M_bind_eq, call_eq.
  cbv beta iota zeta. eexists. split; [reflexivity|]. cbn [p_st p_errno p_mem p_log]. split.
  - split; [exact Hs|constructor; assumption| |reflexivity].
    apply trapping_ordinary; [apply ordinary_call; discriminate|exact Ht].
  - unfold real_ptr. cbn [g_real on_lb set_real]. rewrite lookup_insert_eq. apply (libc_dlsym Hlibc).
Qed.

(** A call the wrapper passes on to libc. *)
Lemma sheltered_syscall_real fuel g nr a1 a2 a3 a4 a5 a6 (p : proc shim) : nr ∉ trapped_calls -> sheltered ts fds g p ->
  exists log q, trapping log /\ let a := os_answer log (XReal "syscall" [nr; a1; a2; a3; a4; a5; a6] None) in
    syscall (raw := kernel rfuel depth) fuel nr a1 a2 a3 a4 a5 a6 p = Ok ((ret a, data a), q) /\ sheltered ts fds g q /\
    (ret a < 0 -> p_errno q = err a).
Proof.
  intros Hnr Hp. destruct (sheltered_resolve g p Hp) as (p1 & H1 & S1 & R1).
  exists (p_log p1). eexists. split; [apply S1|]. cbv zeta. split; [|split].
  - unfold syscall. rewrite !decide_False by (intros ->; apply Hnr; vm_compute; set_solver).
    rewrite M_bind_eq, H1, M_bind_eq. unfold call_real. rewrite M_bind_eq. cbn [get_st].
    rewrite decide_False by exact R1. reflexivity.
  - apply sheltered_log; [exact S1|]. apply trapping_ordinary; [apply ordinary_call; discriminate|apply S1].
  - intros Hneg. cbn [p_errno]. apply decide_True, Hneg.
Qed.

Lemma sheltered_stress g (p : proc shim) k rf dp : sheltered ts fds g p -> tv_sec ts = 1735689600 ->
  exists q, stress_loop (raw := kernel (S rf) (S dp)) k p = Ok (0, q).
Proof.
  intros Hp Hsec. revert p Hp. induction k as [|k IH]; intros p Hp; cbn [stress_loop]; [eexists; reflexivity|].
  destruct (sheltered_clock g rf dp p Hp) as (q & Hq & Sq). unfold inline_syscall2, raw_syscall.
  rewrite M_bind_eq, Hq. cbn [ret data nth]. rewrite decide_False by lia. apply IH, Sq.
Qed.
End Libc.
Lemma sheltered_sigaction g (p : proc shim) : sheltered ts fds g p ->
  exists q, call (XSigaction SIGUSR1) p = Ok (ret (os_answer (p_log p) (XSigaction SIGUSR1)), q) /\
    sheltered ts fds g q.
Proof.
  intros Hp. destruct (sheltered_call g p (XSigaction SIGUSR1)) as (q & H & Sq & _); [|exact Hp|eauto].
  intros a. split; [reflexivity|]. intros b. apply decide_False. intros [H _]. discriminate H.
Qed.

Lemma independent_draws g : prng_ok g -> prng_bytes 16 g <> prng_bytes 16 (prng_words 2 g).2.
Proof.
  intros Hg H. apply (draws_distinct 1 2 g Hg) in H. apply Z.divide_pos_le in H; [|lia].
  unfold prng_period in H. lia.
Qed.

(** What the filter lets pass, the signal, what it refuses, and the loop. *)
Lemma helper_passes rf dp fuel g (p : proc shim) : plain_libc -> sheltered ts fds g p -> tv_sec ts = 1735689600 ->
  exists q, seccomp_helper_pass_through (raw := kernel (S rf) (S dp)) fuel p = Ok (0, q).
Proof.
  intros Hlibc Hp Hsec. unfold seccomp_helper_pass_through.
  destruct (sheltered_syscall_real (S rf) (S dp) Hlibc fuel g SYS_write STDOUT_FILENO OBJECT 21 0 0 0 p)
    as (l1 & p1 & T1 & H1 & S1 & _); [apply (bool_decide_unpack _); exact I|exact Hp|].
  rewrite M_bind_eq, H1, (libc_write Hlibc) by (rewrite sandboxed_verdict by apply T1; reflexivity).
  rewrite (decide_False (P := 21 <> 21)) by lia. unfold raise_usr1. rewrite !M_bind_eq.
  destruct (sheltered_call g p1 (XReal "raise" [SIGUSR1] None)) as (p2 & H2 & S2 & _);
    [intros a; apply ordinary_call; discriminate|exact S1|]. rewrite H2, (libc_raise Hlibc).
  unfold mret at 1, M_ret at 1. rewrite (decide_True (P := 0 = 0)) by reflexivity.
  change (usr1_handler SIGUSR1 0) with 1. rewrite (decide_False (P := 0 <> 0 \/ 1 <> 1)) by lia.
  unfold set_errno. rewrite M_bind_eq. set (p3 := Proc _ 0 _ _).
  assert (S3 : sheltered ts fds g p3) by (apply sheltered_log; apply S2).
  destruct (sheltered_syscall_real (S rf) (S dp) Hlibc fuel g SYS_io_uring_setup 1 NULL 0 0 0 0 p3)
    as (l4 & p4 & T4 & H4 & S4 & E4); [apply (bool_decide_unpack _); exact I|exact S3|].
  destruct (libc_refused Hlibc l4 SYS_io_uring_setup [1; NULL; 0; 0; 0; 0] ENOSYS) as [Hret Herr];
    [rewrite sandboxed_verdict by apply T4; reflexivity|unfold ENOSYS; lia|].
  rewrite M_bind_eq, H4, M_bind_eq. cbn [get_errno]. rewrite Hret in E4 |- *.
  rewrite E4, Herr, decide_False by lia. exact (sheltered_stress g p4 _ rf dp S4 Hsec).
Qed.

(** The helper up to the end of its checks, when the second is the epoch's. *)
Lemma helper_checks rf dp fuel g (p : proc shim) : plain_libc -> prng_ok g -> tv_sec ts = 1735689600 ->
  sheltered ts fds g p ->
  exists q, seccomp_helper_main (raw := kernel (S rf) (S dp)) (S fuel) p = Ok (0, q).
Proof.
  intros Hlibc Hg Hsec Hp. unfold seccomp_helper_main, inline_syscall2, inline_syscall3, raw_syscall, expect_eq_u64.
  rewrite M_bind_eq. destruct (sheltered_sigaction g p Hp) as (p1 & -> & S1).
  rewrite (libc_sigaction Hlibc), (decide_False (P := 0 <> 0)) by lia.
  destruct (sheltered_clock g rf dp p1 S1) as (p2 & H2 & S2). rewrite M_bind_eq, H2. cbn [ret data nth].
  rewrite (decide_False (P := 0 <> 0)) by lia. rewrite Hsec. change (u64 1735689600) with 1735689600.
  rewrite (decide_False (P := 1735689600 <> 1735689600)) by lia. rewrite M_bind_eq.
  unfold mret at 1, M_ret at 1. rewrite (decide_False (P := 0 <> 0)) by lia.
  destruct (sheltered_syscall_gettimeofday (S rf) (S dp) fuel g p2 S2) as (p3 & H3 & S3).
  rewrite M_bind_eq, H3, (decide_False (P := 0 <> 0)) by lia. cbn [nth]. rewrite Hsec.
  change (u64 1735689600) with 1735689600. rewrite (decide_False (P := 1735689600 <> 1735689600)) by lia.
  rewrite M_bind_eq. unfold mret at 1, M_ret at 1. rewrite (decide_False (P := 0 <> 0)) by lia.
  destruct (sheltered_time g rf dp p3 S3) as (p4 & H4 & S4). rewrite M_bind_eq, H4. cbn [ret data nth].
  rewrite (decide_False (P := _ \/ _)) by lia.
  destruct (sheltered_getrandom g (S rf) dp p4 S4) as (p5 & H5 & S5). rewrite M_bind_eq, H5. cbn [ret data].
  rewrite (decide_False (P := 16 <> 16)) by lia.
  destruct (sheltered_syscall_getrandom (S rf) (S dp) (S fuel) _ p5 S5) as (p6 & H6 & S6).
  rewrite M_bind_eq, H6, (decide_False (P := 16 <> 16)), !stored_full by lia.
  rewrite decide_False by exact (independent_draws g Hg).
  exact (helper_passes rf dp fuel _ p6 Hlibc S6 Hsec).
Qed.
End HelperRuns.

(** C22: a sandboxed program runs to its end, and sees one virtual time and one
    stream by every route: under the shim's filter and handler, with the
    controller serving [ts], seccomp-helper.c reads the same second by the
    [syscall] instruction and by libc's [syscall], draws sixteen bytes each way
    and never the same, has its write, its signal and its refused io_uring call
    treated as they should be, and passes all of its ten thousand further direct
    calls: it exits with 0 if [ts] is within the first second of the default
    epoch; in any other second it exits with 3, because it takes the virtual
    time to stand still. *)
Theorem seccomp_helper_verdict (os : OS) (kernel : nat -> nat -> RawSyscall) (rfuel depth fuel : nat)
    (ts : timespec) (fds : list linbox_virtual_fd) (g : linbox_prng) (p : proc shim)
    (Hquiet : QuietMemory) (Hkernel : SeccompKernel kernel) (Hlibc : plain_libc)
    (Hts : normal ts) (Hp : sheltered ts fds g p) :
  exists q, seccomp_helper_main (raw := kernel (S rfuel) (S depth)) (S fuel) p =
    Ok (if decide (tv_sec ts = LINBOX_FAKE_EPOCH_SEC) then 0 else 3, q).
Proof.
  unfold LINBOX_FAKE_EPOCH_SEC. case_decide as Hsec.
  - apply (helper_checks ts fds Hts rfuel depth fuel g p Hlibc (st_ok _ _ _ (sh_drawing _ _ _ _ Hp)) Hsec Hp).
  - unfold seccomp_helper_main, inline_syscall2, raw_syscall, expect_eq_u64. rewrite M_bind_eq.
    destruct (sheltered_sigaction ts fds g p Hp) as (p1 & -> & S1).
    rewrite (libc_sigaction Hlibc), (decide_False (P := 0 <> 0)) by lia.
    destruct (sheltered_clock ts fds g rfuel depth p1 S1) as (p2 & H2 & S2). rewrite M_bind_eq, H2. cbn [ret data nth].
    rewrite (decide_False (P := 0 <> 0)) by lia. destruct Hts as [Hr _].
    rewrite (wrap_small 64 (tv_sec ts)), (decide_True (P := tv_sec ts <> 1735689600)) by (unfold in_u; lia).
    rewrite !M_bind_eq, call_eq. cbv beta iota zeta. unfold mret at 1, M_ret at 1.
    rewrite (decide_True (P := -1 <> 0)) by lia. eexists. reflexivity.
Qed.
