(* ===== verification/UnitTests.v ===== *)
(** * The repository's unit tests, on the model

    sbp.test.c, prng.test.c, shm.test.c and linbox.test.c of src/, as programs
    over the model's definitions: what the developers expect of their functions
    holds of their translations.  The test of concurrent reads, which there runs
    10000 writes against four readers, is proved for every interleaving. *)
From S2P Require Import Prelude Sbp Prng ShmLayout Os Shm Seqlock TimeManager TimeOrder Shim Time Random Sigsys.

(** A test stops at its first failing assertion. *)
#[local] Notation "'cr_assert' P ';;;' k" := (if decide P then k else mret false)
  (at level 100, P at level 99, right associativity).

(** ** sbp.test.c *)

(** The test's uninitialised buffer. *)
Definition sbp_buf : list Z := replicate (Z.to_nat SBP_MAX_FRAME_SIZE) 170.

(** Serialize, check the status, deserialize, check the status; [expect] is what
    the test compares. *)
Definition roundtrip (msg : sbp_message) (expect : sbp_message -> res bool) : res bool :=
  '(rc, buf, n) ← sbp_serialize_message (Some msg) (Some sbp_buf) SBP_MAX_FRAME_SIZE (Some 0) ;
  cr_assert rc = SBP_OK ;;;
  '(rc, out) ← sbp_deserialize_message buf (default 0 n) (Some (SbpMessage 0 0 0 PZero)) ;
  cr_assert rc = SBP_OK ;;;
  match out with Some out => expect out | None => Undef end.

Definition roundtrip_hello : res bool :=
  roundtrip (SbpMessage SBP_MSG_HELLO SBP_VERSION 0 PZero) (fun out =>
    cr_assert m_type out = SBP_MSG_HELLO ;;; mret true).

Definition roundtrip_ack : res bool :=
  roundtrip (SbpMessage SBP_MSG_ACK SBP_VERSION 7 PZero) (fun out =>
    cr_assert m_type out = SBP_MSG_ACK ;;; cr_assert m_flags out = 7 ;;; mret true).

Definition roundtrip_set_time : res bool :=
  roundtrip (SbpMessage SBP_MSG_SET_TIME SBP_VERSION 0 (PSetTime 1735689600 123456789)) (fun out =>
    cr_assert m_type out = SBP_MSG_SET_TIME ;;;
    '(sec, nsec) ← payload_set_time (m_payload out) ;
    cr_assert sec = 1735689600 ;;; cr_assert nsec = 123456789 ;;; mret true).

Definition roundtrip_set_seed : res bool :=
  roundtrip (SbpMessage SBP_MSG_SET_SEED SBP_VERSION 0 (PSetSeed 0x12345678ABCDEF01)) (fun out =>
    cr_assert m_type out = SBP_MSG_SET_SEED ;;;
    seed ← payload_set_seed (m_payload out) ;
    cr_assert seed = 0x12345678ABCDEF01 ;;; mret true).

Definition roundtrip_register_process : res bool :=
  roundtrip (SbpMessage SBP_MSG_REGISTER_PROCESS SBP_VERSION 0 (PRegisterProcess 4242 5)) (fun out =>
    cr_assert m_type out = SBP_MSG_REGISTER_PROCESS ;;;
    '(pid, slot) ← payload_register_process (m_payload out) ;
    cr_assert pid = 4242 ;;; cr_assert slot = 5 ;;; mret true).

Definition boundary_zero_length_payload : res bool :=
  '(rc, frame, out_len) ← sbp_encode_frame SBP_VERSION SBP_MSG_HELLO 0 None 0
    (Some (replicate 8 170)) SBP_HEADER_SIZE (Some 0) ;
  cr_assert rc = SBP_OK ;;; cr_assert out_len = Some SBP_HEADER_SIZE ;;;
  '(rc, h, _) ← sbp_decode_frame frame (default 0 out_len) (Some (SbpHeader 1 1 1 1)) (Some None) ;
  cr_assert rc = SBP_OK ;;; cr_assert h_payload_len <$> h = Some 0 ;;; mret true.

Definition boundary_max_payload_frame : res bool :=
  let payload := replicate (Z.to_nat SBP_MAX_PAYLOAD) 0xA5 in
  '(rc, frame, out_len) ← sbp_encode_frame SBP_VERSION 200 0x55AA (Some payload) SBP_MAX_PAYLOAD
    (Some (replicate (Z.to_nat SBP_MAX_FRAME_SIZE) 0)) SBP_MAX_FRAME_SIZE (Some 0) ;
  cr_assert rc = SBP_OK ;;; cr_assert out_len = Some SBP_MAX_FRAME_SIZE ;;;
  '(rc, h, out_payload) ← sbp_decode_frame frame (default 0 out_len) (Some (SbpHeader 0 0 0 0)) (Some None) ;
  cr_assert rc = SBP_OK ;;; cr_assert h_payload_len <$> h = Some SBP_MAX_PAYLOAD ;;;
  match frame, out_payload with
  | Some frame, Some (Some off) =>
      cr_assert take (Z.to_nat SBP_MAX_PAYLOAD) (drop off frame) = payload ;;; mret true
  | _, _ => Undef
  end.

Definition invalid_message_type_graceful_error : res bool :=
  '(rc, _) ← sbp_deserialize_message (Some [SBP_VERSION; 0xFF; 0; 0; 0; 0; 0; 0]) SBP_HEADER_SIZE
    (Some (SbpMessage 0 0 0 PZero)) ;
  cr_assert rc = SBP_ERR_INVALID_TYPE ;;; mret true.

(** ** prng.test.c *)

(** Seed a zeroed generator and fill 32 bytes. *)
Definition seed_and_fill (seed : Z) : res (list Z) :=
  match linbox_prng_seed (Some (LinboxPrng 0)) seed with
  | Some p => '(_, out) ← linbox_prng_fill p (replicate 32 170) 32 ; mret out
  | None => Undef
  end.

Definition same_seed_same_bytes : res bool :=
  out_a ← seed_and_fill 1234 ; out_b ← seed_and_fill 1234 ;
  cr_assert out_a = out_b ;;; mret true.

Definition different_seed_different_bytes : res bool :=
  out_a ← seed_and_fill 111 ; out_b ← seed_and_fill 222 ;
  cr_assert out_a <> out_b ;;; mret true.

Fixpoint uniform_test_loop (n : nat) (p : linbox_prng) : res bool :=
  match n with
  | O => mret true
  | S n =>
      '(p, v) ← linbox_prng_uniform 64 p 100 ;
      cr_assert v < 100 ;;; uniform_test_loop n p
  end.

Definition uniform_within_range : res bool :=
  match linbox_prng_seed (Some (LinboxPrng 0)) 777 with
  | Some p => uniform_test_loop 1000 p
  | None => Undef
  end.

Definition derive_process_seed_changes_with_pid : res bool :=
  let parent := linbox_prng_derive_process_seed 555 100 in
  let child := linbox_prng_derive_process_seed 555 101 in
  let same := linbox_prng_derive_process_seed 555 100 in
  cr_assert parent = same ;;; cr_assert parent <> child ;;; mret true.

(** The tests of the two pure components pass. *)
Theorem pure_unit_tests_pass :
  Forall (eq (Ok true))
    [ roundtrip_hello; roundtrip_ack; roundtrip_set_time; roundtrip_set_seed; roundtrip_register_process;
      boundary_zero_length_payload; boundary_max_payload_frame; invalid_message_type_graceful_error;
      same_seed_same_bytes; different_seed_different_bytes; uniform_within_range;
      derive_process_seed_changes_with_pid ].
Proof. repeat (apply List.Forall_cons; [vm_compute; reflexivity|]). apply List.Forall_nil. Qed.

(** ** shm.test.c *)

Section Shm.
Context {S : Type} {os : OS}.

(** The loop of [reader_thread], stopped after [rounds] rounds; it returns the
    number of failures. *)
Fixpoint reader_thread (rounds fuel : nat) (layout failures : Z) : M S Z :=
  match rounds with
  | O => mret failures
  | Datatypes.S rounds =>
      '(rc, out) ← linbox_shm_read_time fuel layout (Some (Timespec 0 0)) ;
      if decide (rc <> 0) then reader_thread rounds fuel layout (failures + 1)
      else match out with
      | None => undef
      | Some ts =>
          let failures := if decide (tv_nsec ts < 0 \/ tv_nsec ts >= 1000000000) then failures + 1 else failures in
          let failures := if decide (Z.rem (tv_sec ts) 1000000000 <> tv_nsec ts) then failures + 1 else failures in
          reader_thread rounds fuel layout failures
      end
  end.

(** The [i]-th time the test writes; the region is created with the 0-th. *)
Definition test_time (ts : timespec) : Prop :=
  exists i, 0 <= i < 10000 /\ ts = Timespec i (Z.rem i 1000000000).

Lemma test_time_passes ts : test_time ts ->
  ~ (tv_nsec ts < 0 \/ tv_nsec ts >= 1000000000) /\ Z.rem (tv_sec ts) 1000000000 = tv_nsec ts.
Proof. intros (i & Hi & ->). cbn [tv_sec tv_nsec]. rewrite Z.rem_small by lia. lia. Qed.
End Shm.

(** A writer that writes only times with [P] publishes only times with [P]. *)
Section Published.
Context (P : timespec -> Prop).
Abbreviation wsteps_P := (rtc (writer_step (fun _ ts => P ts))).

Definition published_ok (w : wstate) : Prop :=
  P (w_cur w) /\
  match w_pc w with WIdle => True | WLoaded _ ts | WOdd _ ts | WSec _ ts | WNsec _ ts => P ts end.

Lemma published_step w w' : writer_step (fun _ ts => P ts) w w' -> published_ok w -> published_ok w'.
Proof. intros [[] Ht] [Hc Hp]; unfold published_ok in *; cbn in *; eauto. Qed.

Lemma published_steps w w' : wsteps_P w w' -> published_ok w -> published_ok w'.
Proof. induction 1; eauto using published_step. Qed.

Lemma published_run (W : nat -> wstate) s0 ts0 : W 0%nat = w_init s0 ts0 -> P ts0 ->
  (forall k, wsteps_P (W k) (W (S k))) -> forall k, P (w_cur (W k)).
Proof.
  intros H0 Hp Hs k. assert (H : published_ok (W k)); [|apply H].
  induction k as [|k IH]; [rewrite H0; split; [exact Hp|exact I]|exact (published_steps _ _ (Hs k) IH)].
Qed.
End Published.

(** The test of concurrent reads passes on every run: at most 10000 writes of the
    test's times, interleaved in any way with any number of rounds of a reader,
    leave the count of failures at zero. *)
Theorem concurrent_reads_no_torn_values {S : Type} (os : OS) (r s0 : Z) (W : nat -> wstate)
    (clock : list event -> nat) (HW : follows os r s0 W clock) (Hr : r <> NULL)
    (Hinit : test_time (w_cur (W 0%nat)))
    (Hwrites : forall k, rtc (writer_step (fun _ ts => test_time ts)) (W k) (W (Datatypes.S k)))
    (Hcount : forall k, w_n (W k) <= 10000) :
  forall rounds fuel (p q : proc S) failures,
    reader_thread rounds fuel r 0 p = Ok (failures, q) -> failures = 0.
Proof.
  assert (Hpub : forall k, test_time (w_cur (W k))).
  { destruct (follows_init _ _ _ _ _ HW) as [ts0 H0]. apply (published_run test_time W s0 ts0); [exact H0| |exact Hwrites].
    rewrite H0 in Hinit. exact Hinit. }
  induction rounds as [|rounds IH]; intros fuel p q failures H; [injection H as -> _; reflexivity|]. cbn [reader_thread] in H.
  apply M_bind_Ok in H as ([rc out] & p1 & H1 & H). unfold linbox_shm_read_time in H1.
  rewrite decide_False in H1 by assumption. apply M_bind_Ok in H1 as (ts & p2 & H1 & H2). inv_ret.
  destruct (read_loop_linearizable HW _ _ _ _ H1) as (i & j & Hi & Hj & Hv).
  destruct (W_inv HW i) as [Hn _]. rewrite decide_False in H by tauto.
  destruct (test_time_passes ts) as [Hc1 Hc2].
  { rewrite Hv; [apply Hpub|]. pose proof (Hcount j). lia. }
  rewrite !decide_False in H by tauto. exact (IH _ _ _ _ H).
Qed.

(** ** The host of the remaining tests *)

(** The host of the tests: nobody listens, one file can be mapped, the clock shows
    a time of 2023, and a pipe is open at 10 and 11 with what was written to it. *)
Definition test_host : OS := {|
  os_answer _ x := match x with
    | XClockGettime _ | XRawSyscall _ _ => Answer 0 0 [1700000000; 7]
    | XReal fn args _ =>
        if decide (fn = "clock_gettime") then Answer 0 0 [1700000001; 8]
        else if decide (args = [1; 11; OBJECT; 2; 0; 0; 0]) then Answer 2 0 [] else Answer (-1) 38 []
    | XShmOpen _ _ _ => Answer 4 0 []
    | XMmap _ _ => Answer 4096 0 []
    | XSocket => Answer (-1) 97 []
    | XRead 10 _ => Answer 2 0 [111; 107]
    | XGetpid | XSysconf _ => Answer 100 0 []
    | XDlsym _ => Answer 1 0 []
    | _ => Answer 0 0 []
    end;
  os_interfere _ m := m |}.
Definition test_raw : RawSyscall := fun nr args => call_kernel (os := test_host) (XRawSyscall nr args).

(** The child of [cross_process_seqlock_read_write], with its exit status; it runs
    in the parent's place, and the memory they share is the region. *)
Definition cross_process_child (path : string) (t : timespec) : M unit Z :=
  '(rc, r) ← linbox_shm_attach (os := test_host) (Some path) (Some (ShmHandle (-1) 0 NULL)) ;
  if decide (rc <> 0) then mret 1
  else match r with None => undef | Some r =>
    '(rc, got) ← linbox_shm_read_time (os := test_host) 1 (layout r) (Some (Timespec 0 0)) ;
    if decide (rc <> 0) then mret 2
    else
      linbox_shm_detach (os := test_host) (Some r) ;;
      mret (if decide (tv_sec <$> got <> Some (tv_sec t) \/ tv_nsec <$> got <> Some (tv_nsec t)) then 3 else 0)
  end.

Definition cross_process_seqlock_read_write : M unit bool :=
  let path := "/linbox-shm-test-100"%string in
  let t := Timespec 1735689600 123456789 in
  '(rc, h) ← linbox_shm_create (os := test_host) (Some path) (Some (ShmHandle (-1) 0 NULL)) ;
  cr_assert rc = 0 ;;;
  match h with None => undef | Some h =>
    linbox_shm_write_time (os := test_host) (layout h) (Some t) ;;
    status ← cross_process_child path t ;
    cr_assert status = 0 ;;;
    '(rc, _) ← linbox_shm_destroy (os := test_host) (Some path) (Some h) ;
    cr_assert rc = 0 ;;; mret true
  end.

Theorem cross_process_test_passes :
  exists q, cross_process_seqlock_read_write (Proc tt 0 {[4096 := zero_layout]} []) = Ok (true, q).
Proof. eexists. vm_compute. reflexivity. Qed.

(** ** linbox.test.c *)
Section TimeIntercept.
#[local] Existing Instance test_host.
#[local] Existing Instance test_raw.

Definition set_warned_fallback (x : bool) (r : linbox_state) : linbox_state :=
  LinboxState (initialized r) (resolving r) (controller_connected r) x
    (sigsys_installed r) (seccomp_installed r) (controller_fd r) (fake_base r)
    (real_start_mono r) (resolution r) (shared_seed r) (effective_seed r) (prng r) (shm r).

Definition reset_state : MS unit :=
  update (set_controller_connected false) ;; update (set_warned_fallback false) ;;
  update (set_sigsys_installed false) ;; update (set_seccomp_installed false) ;;
  st ← linbox_state_get ;
  (if decide (fd (shm st) >= 0) then
     h ← linbox_shm_detach (Some (shm st)) ;
     match h with Some h => update (set_shm h) | None => undef end
   else mret tt) ;;
  st ← linbox_state_get ;
  update (set_shm (ShmHandle (-1) (size (shm st)) NULL)).

Definition fallback_without_controller_is_realish_time : MS bool :=
  reset_state ;;
  '(rc, real_now) ← syscall 1 SYS_clock_gettime CLOCK_REALTIME OBJECT 0 0 0 0 ;
  cr_assert rc = 0 ;;;
  '(rc, ts) ← clock_gettime 1 CLOCK_REALTIME OBJECT ;
  cr_assert rc = 0 ;;;
  match ts, real_now with
  | Some ts, real_sec :: _ => cr_assert Z.abs (tv_sec ts - real_sec) <= 5 ;;; mret true
  | _, _ => undef
  end.

(** The two tests that publish a time [fake] themselves and read it by [query]. *)
Definition publish_and_query (name : string) (fake : timespec) (query : MS (Z * list Z)) : MS bool :=
  reset_state ;;
  '(rc, h) ← linbox_shm_create (Some name) (Some (ShmHandle (-1) 0 NULL)) ;
  cr_assert rc = 0 ;;;
  match h with None => undef | Some h =>
    linbox_shm_write_time (layout h) (Some fake) ;;
    st ← linbox_state_get ;
    '(rc, sh) ← linbox_shm_attach (Some name) (Some (shm st)) ;
    (match sh with Some sh => update (set_shm sh) | None => undef end) ;;
    cr_assert rc = 0 ;;;
    update (set_controller_connected true) ;;
    '(rc, ts) ← query ;
    cr_assert rc = 0 ;;; cr_assert ts = [tv_sec fake; tv_nsec fake] ;;;
    st ← linbox_state_get ;
    sh ← linbox_shm_detach (Some (shm st)) ;
    (match sh with Some sh => update (set_shm sh) | None => undef end) ;;
    update (set_controller_connected false) ;;
    '(rc, _) ← linbox_shm_destroy (Some name) (Some h) ;
    cr_assert rc = 0 ;;; mret true
  end.

Definition reads_virtual_time_from_shared_memory : MS bool :=
  publish_and_query "/linbox-shim-test-100" (Timespec (LINBOX_FAKE_EPOCH_SEC + 42) 777)
    ('(rc, ts) ← clock_gettime 1 CLOCK_REALTIME OBJECT ; mret (rc, words_of_timespec ts)).

Definition libc_syscall_wrapper_intercepts_clock_gettime : MS bool :=
  publish_and_query "/linbox-syscall-test-100" (Timespec (LINBOX_FAKE_EPOCH_SEC + 99) 1234)
    (syscall 1 SYS_clock_gettime CLOCK_REALTIME OBJECT 0 0 0 0).

Definition clock_getres_consistent : MS bool :=
  '(rc, baseline) ← clock_getres CLOCK_REALTIME OBJECT ;
  cr_assert rc = 0 ;;;
  '(rc, res) ← clock_getres CLOCK_MONOTONIC OBJECT ;
  cr_assert rc = 0 ;;; cr_assert tv_sec <$> res = tv_sec <$> baseline ;;;
  cr_assert tv_nsec <$> res = tv_nsec <$> baseline ;;; mret true.

Definition clock_and_times_are_available : MS bool :=
  c ← clock 1 ;
  cr_assert c <> -1 ;;;
  '(ticks, _) ← times 1 OBJECT ;
  cr_assert ticks <> -1 ;;; mret true.

Definition timespec_get_time_utc : MS bool :=
  '(base, _) ← timespec_get 1 OBJECT TIME_UTC ;
  cr_assert base = TIME_UTC ;;; mret true.

Definition rtld_next_resolution_available : MS bool :=
  rc ← linbox_real_clock_gettime_available ;
  cr_assert rc = 1 ;;; mret true.

(** Between [pipe], which opens 10 and 11, and the two calls of [close]. *)
Definition libc_syscall_wrapper_passes_through_write : MS bool :=
  '(rc, _) ← syscall 1 1 11 OBJECT 2 0 0 0 ;
  cr_assert rc = 2 ;;;
  '(rc, buf) ← read 10 OBJECT 8 ;
  cr_assert rc = 2 ;;; cr_assert take 2 buf = [111; 107] ;;;
  close 10 ;; close 11 ;; mret true.

(** Each test runs in a process of its own, which has loaded the shim, and as
    cmake/testing.cmake has it, without the filter. *)
Definition run_test (t : MS bool) : res bool :=
  match (linbox_ctor ;; t) (Proc (loaded_shim ["LINBOX_DISABLE_SECCOMP=1"]) 0 {[4096 := zero_layout]} []) with
  | Ok (b, _) => Ok b | OutOfFuel => OutOfFuel | Undef => Undef
  end.

(** The tests of the shim pass but for one, [clock_and_times_are_available]:
    without a controller [clock] computes with the real time and overflows, and
    the test goes through undefined behaviour. *)
Theorem shim_unit_tests_pass :
  Forall (fun t => run_test t = Ok true)
    [ fallback_without_controller_is_realish_time; reads_virtual_time_from_shared_memory;
      clock_getres_consistent; timespec_get_time_utc; rtld_next_resolution_available;
      libc_syscall_wrapper_intercepts_clock_gettime; libc_syscall_wrapper_passes_through_write ] /\
  run_test clock_and_times_are_available = Undef.
Proof.
  split; [|vm_compute; reflexivity].
  repeat (apply List.Forall_cons; [vm_compute; reflexivity|]). apply List.Forall_nil.
Qed.
End TimeIntercept.
