(* ===== verification/Witnesses.v ===== *)
(** * Witnesses

    Every theorem with hypotheses, applied where they hold: concrete messages,
    generators and clocks, and environments that answer each call by a fixed
    function. *)
From S2P Require Import Prelude Bytes Bits Sbp Prng PrngPeriod ShmLayout Os Shm Mapping Seqlock Env TimeManager Controller Typing ControllerFacts ControllerLoop Termination Shutdown Shim ShimFacts Time TimeFacts TimeOrder MemoryModel Threads Session Random RandomFacts Sigsys SigsysFacts Startup Process ProcessFacts CloneRecord Trapping Spawning SpawningFacts Stopping ShimTyping Interposed Clients.

(** A closed decidable fact. *)
Ltac decided := apply (bool_decide_unpack _); vm_compute; exact I.

(** ** Messages *)
Definition set_time_message : sbp_message :=
  SbpMessage SBP_MSG_SET_TIME SBP_VERSION 9 (PSetTime 1700000000 250).
Definition hello_message : sbp_message := SbpMessage SBP_MSG_HELLO SBP_VERSION 0 PZero.
Definition old_message : sbp_message := SbpMessage SBP_MSG_ACK SBP_VERSION 0 PZero.

Lemma serialize_message_bytes_witness :
  sbp_serialize_message (Some set_time_message) (Some (replicate 24 170)) 24 (Some 0) =
    Ok (SBP_OK, Some (splice (replicate 24 170) 0 (message_bytes set_time_message)), Some 20) /\
  sbp_serialize_message (Some set_time_message) (Some (replicate 24 170)) 19 (Some 0) =
    Ok (SBP_ERR_BUFFER_TOO_SMALL, Some (replicate 24 170), Some 0).
Proof.
  split; refine (eq_trans (serialize_message_bytes _ _ _ _ _ _) _);
    solve [decided | vm_compute; discriminate | reflexivity].
Defined.

Lemma deserialize_message_correct_witness :
  sbp_deserialize_message (Some (message_bytes set_time_message)) 20 (Some old_message) =
    Ok (SBP_OK, Some set_time_message) /\
  sbp_deserialize_message (Some (message_bytes set_time_message)) 19 (Some old_message) =
    Ok (SBP_ERR_INVALID_LENGTH, Some old_message).
Proof.
  split.
  - apply (deserialize_message_correct (message_bytes set_time_message) 20 old_message); [decided|decided|].
    split; [decided|split; reflexivity].
  - refine (eq_trans (proj1 (deserialize_message_correct _ 19 _ _ _)) _); solve [decided | reflexivity].
Defined.

(** ** The generator *)
#[export] Instance prng_ok_dec p : Decision (prng_ok p).
Proof. unfold prng_ok. apply _. Defined.

Lemma prng_full_period_witness :
  (prng_words 1000 (seeded 1)).2 = seeded 1 <-> (prng_period | 1000).
Proof. apply (prng_full_period (seeded 1) 1000). decided. Defined.

Lemma prng_uniform_correct_witness : exists p' v,
  (forall fuel, prng_period <= Z.of_nat fuel -> linbox_prng_uniform fuel (seeded 1) 6 = Ok (p', v)) /\
  0 <= v < 6 /\ prng_ok p'.
Proof.
  destruct (prng_uniform_correct (seeded 1) 6) as (p' & v & Hr & _ & Hv); [decided|decided|].
  destruct Hv as [Hv _]. destruct Hv as (Hv & Hp & _); [discriminate|]. exists p', v. auto.
Defined.

Lemma process_streams_distinct_witness :
  (linbox_prng_next_u64 (seeded (linbox_prng_derive_process_seed 7 100))).2 <>
  (linbox_prng_next_u64 (seeded (linbox_prng_derive_process_seed 7 101))).2.
Proof.
  destruct (process_streams_distinct 7 7 100 101) as [_ H]; [decided..| |].
  - left. split; [reflexivity|discriminate].
  - apply H; vm_compute; discriminate.
Defined.

(** ** An environment that answers each call by a fixed function *)
Definition answers (f : ext -> answer) : OS := {| os_answer _ x := f x; os_interfere _ m := m |}.

Lemma answers_quiet f : QuietMemory (os := answers f).
Proof. intros log m. reflexivity. Qed.

(** A machine where every call succeeds: the region opens as descriptor 4 at
    address 4096, sockets are descriptor 3 and deliver [incoming], the process is
    100 and the only one alive, and exec fails. *)
Definition world_answer (incoming : list Z) (x : ext) : answer :=
  match x with
  | XClockGettime _ | XRawSyscall _ _ => Answer 0 0 [5; 7]
  | XShmOpen _ _ _ => Answer 4 0 []
  | XMmap _ _ => Answer 4096 0 []
  | XSocket => Answer 3 0 []
  | XRead _ _ => Answer (Z.of_nat (length incoming)) 0 incoming
  | XWrite _ bytes => Answer (Z.of_nat (length bytes)) 0 []
  | XGetpid | XSysconf _ => Answer 100 0 []
  | XDlsym _ => Answer 1 0 []
  | XMalloc _ => Answer 8192 0 []
  | XKill n _ => if decide (n = 100) then Answer 0 0 [] else Answer (-1) 3 []
  | XRealExec _ _ _ _ => Answer (-1) 2 []
  | _ => Answer 0 0 []
  end.
Definition world (incoming : list Z) : OS := answers (world_answer incoming).
Definition ack : list Z := message_bytes (ack_message 0).

Lemma world_quiet incoming : QuietMemory (os := world incoming).
Proof. apply answers_quiet. Qed.

(** A region that publishes a time and the seed 7. *)
Definition region (ts : timespec) : linbox_shm_layout :=
  set_prng_seed 7 (set_virtual_time ts (initial_layout 0)).
Definition region_memory (ts : timespec) : memory := {[4096 := region ts]}.

Lemma region_lookup ts : region_memory ts !! 4096 = Some (region ts).
Proof. apply lookup_singleton_eq. Qed.

Lemma zero_table_ok : table_ok (replicate (Z.to_nat LINBOX_PROCESS_SLOT_COUNT) zero_slot).
Proof.
  split; [apply length_replicate|]. intros i j s t Hi _ _ Hn. apply lookup_replicate in Hi as [-> _].
  exfalso. apply Hn. reflexivity.
Qed.

(** ** The sequence lock *)
Definition first_time : timespec := Timespec 100 999999999.
Definition second_time : timespec := Timespec 200 1.

(** A writer that completes one write after four accesses of the reader. *)
Definition one_write (k : nat) : wstate :=
  match k with O => w_init 0 first_time | S _ => WState 2 200 1 WIdle 1 second_time end.
Definition write_at_4 (log : list event) : nat := if decide (length log < 4)%nat then 0 else 1.

Lemma one_write_follows : follows (following_os 4096 one_write write_at_4) 4096 0 one_write write_at_4.
Proof.
  apply following_follows; [decided|reflexivity|exists first_time; reflexivity| |].
  - intros [|k]; [|reflexivity]. unfold one_write, w_init.
    eapply rtc_l; [apply (w_load _ _ _ _ _ second_time)|]. eapply rtc_l; [apply w_odd|].
    eapply rtc_l; [apply w_write_sec|]. eapply rtc_l; [apply w_write_nsec|]. apply rtc_once. apply w_even.
  - intros log e. unfold write_at_4. rewrite length_app. cbn. repeat case_decide; lia.
Qed.

Lemma one_write_read : exists q,
  linbox_shm_read_time (os := following_os 4096 one_write write_at_4) 2 4096 (Some (Timespec 0 0))
    (Proc tt 0 ∅ []) = Ok ((0, Some first_time), q) /\ length (p_log q) = 4%nat.
Proof.
  assert (H0 : forall log, (length log < 4)%nat -> one_write (write_at_4 log) = w_init 0 first_time)
    by (intros log Hl; unfold write_at_4; rewrite decide_True by lia; reflexivity).
  eexists. split.
  - unfold linbox_shm_read_time. rewrite decide_False by discriminate. cbn [read_time_loop].
    rewrite !M_bind_eq, load_following, H0 by (cbn; lia). cbv zeta.
    rewrite decide_False by (intros H; apply H; reflexivity).
    do 3 rewrite M_bind_eq, load_following, H0 by (cbn; lia).
    rewrite decide_True by (split; reflexivity). reflexivity.
  - reflexivity.
Qed.

(** The writer completes its write as the read ends. *)
Lemma read_time_no_torn_value_witness : exists q k, (0 <= k <= 1)%nat /\
  linbox_shm_read_time (os := following_os 4096 one_write write_at_4) 2 4096 (Some (Timespec 0 0))
    (Proc tt 0 ∅ []) = Ok ((0, Some (w_cur (one_write k))), q).
Proof.
  destruct one_write_read as (q & E & Hlen).
  assert (Hq : write_at_4 (p_log q) = 1%nat) by (unfold write_at_4; rewrite Hlen; reflexivity).
  destruct (read_time_no_torn_value _ 4096 0 one_write write_at_4 2 (Proc tt 0 ∅ []) q _ _ _ one_write_follows
    ltac:(discriminate) ltac:(rewrite Hq; reflexivity) E) as (_ & k & Hk & Ho).
  rewrite Hq in Hk. exists q, k. split; [exact Hk|]. rewrite <- Ho. exact E.
Defined.

Definition manager : linbox_time_manager :=
  TimeManager (ShmHandle 4 sizeof_layout 4096) first_time 7.

Lemma write_time_refines_writer_witness : exists w l p',
  w_cur w = second_time /\ w_pc w = WIdle /\ p_mem p' !! 4096 = Some l /\ cell_is l w /\
  linbox_shm_write_time (os := world []) 4096 (Some second_time) (Proc tt 0 (region_memory first_time) []) =
  (ns ← now_ns (os := world []); store (os := world []) 4096 (set_heartbeat_ns ns)) p'.
Proof.
  destruct (write_time_refines_writer (os := world []) (Hquiet := world_quiet []) 4096 second_time
    first_time 0 (Proc tt 0 (region_memory first_time) []) (region first_time) ltac:(discriminate)
    (region_lookup _)) as (w1 & w2 & w3 & w4 & w5 & l2 & l3 & l4 & l5 & p1 & p2 & p3 & p4 & p5 & H).
  exists w5, l5, p5. decompose [and] H. auto 10.
Defined.

(** ** The time manager *)
Definition tick_set_seed : list tm_op := [Tick 1500000001; SetSeed 9; SetTime second_time; Tick (-2)].

Lemma region_represents : represents manager (region first_time) (VClock first_time 7).
Proof. repeat split; try discriminate; reflexivity. Qed.

Lemma time_manager_refines_clock_witness : exists m' q q',
  run_ops (os := world []) (Some manager) tick_set_seed (Proc tt 0 (region_memory first_time) []) = Ok (Some m', q) /\
  linbox_shm_read_time (os := world []) 1 (layout (tm_shm m')) (Some (Timespec 0 0)) q =
    Ok ((0, Some (Timespec 199 999999999)), q').
Proof.
  destruct (time_manager_refines_clock (os := world []) (Hquiet := world_quiet []) manager tick_set_seed
    (Proc tt 0 (region_memory first_time) []) (region first_time) (VClock first_time 7)
    (Timespec 0 0) 0 (region_lookup _) region_represents)
    as (m' & l' & q & Hr & _ & _ & _ & _ & q' & Hq). exists m', q, q'. auto.
Defined.

Lemma ns_add_exact_witness : ns_add (Timespec 10 5) (-6) = Ok (Timespec 9 999999999).
Proof. apply (ns_add_exact (Timespec 10 5) (-6) (Timespec 9 999999999)). decided. Defined.

Lemma world_grants path oflags : grants (os := world []) path oflags 4 4096.
Proof. split; try reflexivity; [lia|split; discriminate]. Qed.

Definition blank_manager : linbox_time_manager := TimeManager (ShmHandle (-1) 0 NULL) (Timespec 0 0) 0.

(** The name exists: creating it fails, opening it does not. *)
Definition used_name : OS := answers (fun x =>
  match x with
  | XShmOpen _ oflags _ => if decide (oflags = create_flags) then Answer (-1) EEXIST [] else Answer 4 0 []
  | _ => world_answer [] x
  end).

(** Left by a controller that died between its two stores of the counter. *)
Definition crashed_region : linbox_shm_layout := set_time_seq 3 (region first_time).
Definition crashed_memory : memory := {[4096 := crashed_region]}.


(** ** The controller *)
Definition controller_proc (l : linbox_shm_layout) : proc controller :=
  Proc (ControllerState 0) 0 {[4096 := l]} [].

(** Processes 100 and 200 are registered. *)
Definition two_processes : linbox_shm_layout :=
  set_process_slots (ProcessSlot 100 0 0 (replicate 16 0) :: ProcessSlot 200 0 0 (replicate 16 0) ::
    replicate 62 zero_slot) (region first_time).

Lemma two_processes_ok : table_ok (process_slots two_processes).
Proof.
  split; [reflexivity|]. intros i j s t Hi Hj He Hn. cbn [two_processes process_slots set_process_slots] in Hi, Hj.
  assert (Hz : forall k u, replicate 62 zero_slot !! k = Some u -> pid u = 0)
    by (intros k u Hk; apply lookup_replicate in Hk as [-> _]; reflexivity).
  destruct i as [|[|i]], j as [|[|j]]; cbn [lookup list_lookup] in Hi, Hj; try reflexivity;
    try (injection Hi as <-); try (injection Hj as <-); cbn [pid] in *; try discriminate;
    (try (apply Hz in Hi)); (try (apply Hz in Hj)); congruence.
Qed.

Lemma register_process_spec_witness : exists q,
  register_process (os := world []) (Some manager) 300 (controller_proc two_processes) = Ok (tt, q) /\
  registered 300 (register_slots 300 0 (process_slots two_processes)).
Proof.
  destruct (register_process_spec (os := world []) (Hquiet := world_quiet []) manager 300
    (controller_proc two_processes) two_processes ltac:(discriminate) (lookup_singleton_eq _ _)
    two_processes_ok ltac:(discriminate)) as (q & Hq & _ & _ & Hr & _).
  exists q. split; [exact Hq|]. apply Hr. right. exists zero_slot. split; [|reflexivity].
  right. right. left.
Defined.

Lemma world_kill : kill_says (os := world []) (fun n => bool_decide (n = 100)).
Proof.
  intros log n. cbn. destruct (decide (n = 100)) as [->|H]; [left; reflexivity|].
  rewrite bool_decide_eq_false_2 by exact H. split; [reflexivity|discriminate].
Qed.

Lemma reap_dead_processes_spec_witness : exists q,
  reap_dead_processes (os := world []) (Some manager) (controller_proc two_processes) = Ok (tt, q) /\
  let slots' := reap_slots (fun x => bool_decide (i32 x = 100)) (process_slots two_processes) in
  registered 100 slots' /\ ~ registered 200 slots'.
Proof.
  destruct (reap_dead_processes_spec (os := world []) (Hquiet := world_quiet []) manager
    (fun n => bool_decide (n = 100)) (controller_proc two_processes) two_processes world_kill
    ltac:(discriminate) (lookup_singleton_eq _ _) two_processes_ok) as (q & Hq & _ & _ & Hr).
  exists q. split; [exact Hq|]. split; rewrite Hr by discriminate.
  - split; [|reflexivity]. eexists. split; [left|reflexivity].
  - intros [_ H]. discriminate H.
Defined.

Lemma handle_client_message_spec_witness : exists tm l' q,
  handle_client_message (os := world (message_bytes set_time_message)) 7 (Some manager)
    (controller_proc two_processes) = Ok ((0, Some tm), q) /\
  p_mem q !! 4096 = Some l' /\ represents tm l' (VClock (Timespec 1700000000 250) 7) /\
  process_slots l' = process_slots two_processes.
Proof.
  destruct (handle_client_message_spec (os := world (message_bytes set_time_message))
    (Hquiet := world_quiet _) manager 7 (message_bytes set_time_message)
    (controller_proc two_processes) two_processes)
    as [(rc & tm & q & H & ns & mid & _ & _ & -> & -> & _ & Hmem & _) Hrep].
  - discriminate.
  - apply lookup_singleton_eq.
  - reflexivity.
  - split; [reflexivity|]. split; [decided|]. vm_compute. discriminate.
  - exists (message_manager set_time_message manager), (message_region set_time_message ns two_processes), q.
    split; [exact H|]. split; [rewrite Hmem; apply lookup_insert_eq|].
    split; [exact (Hrep ns _ region_represents)|reflexivity].
Defined.

(** The second of four clients hangs up: three are closed. *)
Lemma hangup_cascade_witness : exists fds' q new,
  client_loop (os := world []) 4 [0; 0; 16; 0; 0] 0 [10; 11; 12; 13] 4 (Some manager)
    (controller_proc two_processes) = Ok ((fds', 1%nat, Some manager), q) /\
  p_log q = new /\ closes new ≡ₚ [11; 12; 13].
Proof.
  destruct (hangup_cascade (os := world []) [0; 0; 16; 0; 0] 1 4 [10; 11; 12; 13] (Some manager)
    (controller_proc two_processes)) as (fds' & q & new & H & _ & _ & Hlog & Hc).
  - intros j Hj. assert (j = 0%nat) as -> by lia. split; [intros H; apply H; reflexivity|reflexivity].
  - discriminate.
  - cbn. lia.
  - exists fds', q, new. auto.
Defined.

(** A signal is waiting. *)
Definition signalled : OS := answers (fun x =>
  match x with XStop => Answer 15 0 [] | _ => world_answer [] x end).

Lemma main_no_leak_witness :
  match main (os := signalled) [] 1 (controller_proc two_processes) with
  | Ok (rc, q) => rc = 0 /\ live_fds (p_log q) = [] /\ live_maps (p_log q) = []
  | _ => False
  end.
Proof.
  assert (Hrc : match main (os := signalled) [] 1 (controller_proc two_processes) with
    Ok (rc, _) => rc | _ => -1 end = 0) by (vm_compute; reflexivity).
  destruct (main (os := signalled) [] 1 (controller_proc two_processes)) as [[rc q]| |] eqn:E;
    [|discriminate Hrc..].
  split; [exact Hrc|].
  apply (main_no_leak (os := signalled) ltac:(intros log fd len; discriminate) [] 1
    (controller_proc two_processes) q rc E). split; reflexivity.
Defined.

(** A busy one: a client connects and sends a SET_TIME whenever it is asked, the
    clock advances with every event, and a signal arrives at the 200th event. *)
Definition busy : OS := {|
  os_answer log x :=
    match x with
    | XStop => Answer (if decide (200 <= length log)%nat then SIGTERM else 0) 0 []
    | XPoll fds _ => Answer 1 0 (replicate 65 POLLIN)
    | XClockGettime _ => Answer 0 0 [Z.of_nat (Nat.min (length log) 1000); 7]
    | _ => world_answer (message_bytes set_time_message) x
    end;
  os_interfere _ m := m |}.

Lemma busy_is_sane : sane_host (os := busy).
Proof.
  split.
  - intros log m H. exact H.
  - intros log. cbn. lia.
  - intros log fd. right. split; [reflexivity|]. split; decided.
  - intros log fd bytes msg s n (Hd & _) Hacc Hp. injection Hd as _ <-.
    assert (E : accepted (message_bytes set_time_message) = Some set_time_message) by (vm_compute; reflexivity).
    cbn [os_answer busy world_answer data] in Hacc. rewrite E in Hacc. injection Hacc as <-. injection Hp as <- <-.
    unfold sane_time. cbn. lia.
Qed.


(** An idle machine whose clock advances a millisecond with every call, up to a
    second. *)
Definition mono_ms (k : nat) : Z := Z.of_nat (Nat.min k 1000) * 1000000.
Definition idle : OS := {|
  os_answer log x :=
    match x with
    | XClockGettime _ => let ts := of_ns (mono_ms (length log)) in Answer 0 0 [tv_sec ts; tv_nsec ts]
    | _ => Answer 0 0 []
    end;
  os_interfere _ m := m |}.

Lemma idle_is_idle : idle_world (os := idle) mono_ms (fun _ => true).
Proof.
  split; try reflexivity.
  - intros log fds. split; [reflexivity|constructor].
  - intros i j H. unfold mono_ms. lia.
  - intros log n. left. reflexivity.
Qed.

Definition idle_state : loop_state :=
  LoopState (replicate 64 0) 0 (of_ns 0) (Some (TimeManager (ShmHandle 4 sizeof_layout 4096) (of_ns 5) 7)).

Lemma idle_loop_tracks_clock_witness : exists st' q k,
  (forall fuel, main_loop (os := idle) (3 + fuel) 9 idle_state (controller_proc (region (of_ns 5))) =
    main_loop (os := idle) fuel 9 st' q) /\ tracks 5 (mono_ms k) 4096 st' q /\ (3 <= k)%nat.
Proof.
  destruct (idle_loop_tracks_clock (os := idle) (Hquiet := ltac:(intros log m; reflexivity)) idle_is_idle
    9 5 0 4096 3 idle_state (controller_proc (region (of_ns 5)))) as (st' & q & k & H & Ht & Hk & _ & _).
  - split; [reflexivity|]. split; [reflexivity|]. eexists _, _, (VClock (of_ns 5) 7).
    split; [reflexivity|]. split; [reflexivity|]. split; [apply lookup_singleton_eq|].
    split; [repeat split; (discriminate || reflexivity)|]. split; [reflexivity|exact zero_table_ok].
  - decided.
  - lia.
  - intros n. unfold mono_ms. lia.
  - lia.
  - exists st', q, k. split; [exact H|]. split; [exact Ht|exact Hk].
Defined.

(** ** The shim *)

(** No filter: a direct system call reaches the kernel. *)
Definition acked : OS := world ack.
Definition direct : RawSyscall := fun nr args => call_kernel (os := acked) (XRawSyscall nr args).

Definition fresh_proc : proc shim := Proc (loaded_shim []) 0 (region_memory first_time) [].

Definition acked_kernel : nat -> nat -> RawSyscall := kernel_syscall (os := acked).

Lemma acked_acknowledges msg : acknowledges (os := acked) 3 msg 0.
Proof. split; [reflexivity|reflexivity|decided]. Qed.

Lemma acked_listening path : listening (os := acked) path 3 0.
Proof. split; [reflexivity|lia|reflexivity|apply acked_acknowledges]. Qed.

Lemma acked_region path ts : region_at (os := acked) path 4 4096 (region_memory ts) (region ts).
Proof. split; try reflexivity; [lia|split; discriminate]. Qed.

(** The constructor installs the filter; then some draws. *)
Definition startup_draws : list draw :=
  [DArc4random; DGetrandom OBJECT 10 0; DRand; DGetentropy OBJECT 16; DGetentropy OBJECT 300; DRandom].

Lemma startup_draws_ok fds : Forall (draw_ok fds) startup_draws.
Proof. repeat constructor; discriminate. Qed.

Lemma init_stream_reproducible_witness : exists q,
  let seed := linbox_prng_derive_process_seed 7 100 in
  (linbox_ctor (os := acked) (raw := acked_kernel 1 1) ;;
   run_draws (os := acked) (raw := acked_kernel 1 1) startup_draws) fresh_proc =
  Ok ((process_draws startup_draws seed (seeded seed)).1, q).
Proof.
  destruct (init_stream_reproducible (os := acked) (Hquiet := world_quiet _) (kernel := acked_kernel)
    1 1 fresh_proc 3 0 4 4096 (region first_time) 100 startup_draws eq_refl eq_refl (acked_listening _)
    (acked_region _ _) (fun _ => eq_refl) eq_refl (startup_draws_ok _)) as (q & Hq & _).
  exists q. exact Hq.
Defined.

(** A connected process, with one virtual descriptor open. *)
Definition connected_state : linbox_state :=
  LinboxState true false true false false false 3 (Timespec LINBOX_FAKE_EPOCH_SEC 0) (Timespec 5 7)
    (Timespec 0 1000) 7 11 (seeded 11) (ShmHandle 4 sizeof_layout 4096).
Definition resolved_symbols : gmap string Z :=
  <["fork" := 1]> (<["execve" := 1]> (<["posix_spawn" := 1]> ∅)).
Definition connected_proc (ts : timespec) (log : list event) : proc shim :=
  Proc (Shim connected_state resolved_symbols
          (VirtualFd 1000000 1 :: replicate 15 (VirtualFd 0 0)) 0 ["LD_PRELOAD=/lib/liblinbox.so"])
    0 (region_memory ts) log.

Lemma connected_attached ts log : attached (p_st (connected_proc ts log)) (p_mem (connected_proc ts log)).
Proof. intros _ _. exists (region ts). apply region_lookup. Qed.

Definition draws : list draw := [DRand; DGetrandom OBJECT 10 0; DRead 1000000 OBJECT 3; DGetentropy OBJECT 300; DRandom].

Lemma draws_ok : Forall (draw_ok (VirtualFd 1000000 1 :: replicate 15 (VirtualFd 0 0))) draws.
Proof.
  repeat constructor; try discriminate. exists 0%nat, (VirtualFd 1000000 1). split; [reflexivity|].
  split; [discriminate|reflexivity].
Qed.

Lemma one_random_stream_witness :
  (exists q, (srand 42 ;; run_draws (os := acked) (raw := direct) draws) (connected_proc first_time []) =
     Ok (draw_results draws (seeded 42), q)) /\
  (exists q, run_draws (os := acked) (raw := direct) (DRand :: draws) (connected_proc first_time []) =
     Ok (draw_results (DRand :: draws) (seeded 11), q)).
Proof.
  destruct (one_random_stream (os := acked) (Hquiet := world_quiet _) (raw := direct) 42 draws
    (connected_proc first_time []) eq_refl (connected_attached _ _) draws_ok) as [H1 H2].
  split; [exact H1|]. apply H2; [|reflexivity].
  intros l _ Hl. cbn [connected_proc p_mem p_st lb connected_state shm layout] in Hl.
  rewrite region_lookup in Hl. injection Hl as <-. reflexivity.
Defined.

Lemma open_random_device_witness : exists fd q,
  open_ (os := acked) (Some "/dev/urandom") 0 (connected_proc first_time []) = Ok (fd, q) /\
  ~ is_virtual fd (g_virtual_fds (p_st (connected_proc first_time []))).
Proof.
  destruct (open_random_device (os := acked) "/dev/urandom" 0 (connected_proc first_time []))
    as [[Hall _]|(fd & q & H & Hv & _)].
  - left. reflexivity.
  - split; [reflexivity|]. intros [|i] v Hi Hu; cbn in Hi; [injection Hi as <-; reflexivity|].
    apply (lookup_replicate 15 (VirtualFd 0 0)) in Hi as [-> _]. contradiction.
  - exfalso. apply Forall_cons in Hall as [_ Hall]. apply Forall_cons in Hall as [H _]. apply H. reflexivity.
  - exists fd, q. split; [exact H|exact Hv].
Defined.

(** The process holds socket 3 and region 4, mapped at 4096. *)
Definition opening_log : list event :=
  [(XSocket, Answer 3 0 []); (XShmOpen "/linbox-shm" O_RDWR 0x180, Answer 4 0 []);
   (XMmap 4 sizeof_layout, Answer 4096 0 [])].

Lemma opening_owns ts : shim_owns (connected_proc ts opening_log) [] [].
Proof.
  split; [split; [apply perm_swap|reflexivity]|]. split; intros _; [split; discriminate|].
  split; vm_compute; discriminate.
Qed.

Lemma direct_opens_nothing (p q : proc shim) a :
  raw_syscall (RawSyscall := direct) SYS_clock_gettime [CLOCK_MONOTONIC; OBJECT] p = Ok (a, q) ->
  p_st q = p_st p /\ forall s, resources p q s s.
Proof.
  intros H. injection H as _ <-. split; [reflexivity|]. intros [fds maps].
  apply (resources_event _ _ (XRawSyscall SYS_clock_gettime [CLOCK_MONOTONIC; OBJECT], Answer 0 0 [5; 7]) (fds, maps)).
  reflexivity.
Qed.

Lemma reinit_no_leak_witness :
  match linbox_reinit_state (os := acked) (raw := direct) (connected_proc first_time opening_log) with
  | Ok (_, q) => controller_connected (lb (p_st q)) = true /\ shim_owns q [] []
  | _ => False
  end.
Proof.
  assert (Hc : match linbox_reinit_state (os := acked) (raw := direct) (connected_proc first_time opening_log) with
    Ok (_, q) => controller_connected (lb (p_st q)) | _ => false end = true) by (vm_compute; reflexivity).
  destruct (linbox_reinit_state (os := acked) (raw := direct) (connected_proc first_time opening_log))
    as [[u q]| |] eqn:E; [|discriminate Hc..].
  split; [exact Hc|].
  exact (reinit_no_leak (os := acked) (raw := direct) ltac:(intros log fd len; discriminate)
    direct_opens_nothing _ q u [] [] E (opening_owns _)).
Defined.

(** ** The clocks *)
Lemma connected_serving ts log : serving (connected_proc ts log) ts.
Proof.
  split; [reflexivity|]. split; [reflexivity|]. split; [discriminate|]. exists (region ts).
  split; [apply region_lookup|]. split; reflexivity.
Qed.

Lemma all_clocks_agree_witness : exists log,
  linbox_virtual_clock_gettime (os := acked) (raw := direct) 1 CLOCK_BOOTTIME OBJECT (connected_proc first_time []) =
  Ok ((0, Some first_time), Proc (p_st (connected_proc first_time [])) 0 (region_memory first_time) log).
Proof.
  destruct (all_clocks_agree (os := acked) (Hquiet := world_quiet _) (raw := direct) 0 first_time
    (connected_proc first_time []) CLOCK_BOOTTIME OBJECT NULL NULL (connected_serving _ _) ltac:(discriminate))
    as (H & _). apply H. decided.
Defined.

Definition day_100 : timespec := Timespec 8640000 1500.
Definition default_epoch : timespec := Timespec LINBOX_FAKE_EPOCH_SEC 0.

Lemma clock_value_witness :
  (exists q, clock (os := acked) (raw := direct) 1 (connected_proc day_100 []) = Ok (8640000000001, q)) /\
  clock (os := acked) (raw := direct) 1 (connected_proc default_epoch []) = Undef /\
  exists q, times (os := acked) (raw := direct) 1 OBJECT (connected_proc first_time []) =
    Ok ((10099, Some [10099; 0; 0; 0]), q).
Proof.
  split; [|split].
  - destruct (clock_value (os := acked) (Hquiet := world_quiet _) (raw := direct) 0 day_100
      (connected_proc day_100 []) (connected_serving _ _) ltac:(decided)) as (H & _). apply H. decided.
  - apply (clock_value (os := acked) (Hquiet := world_quiet _) (raw := direct) 0 default_epoch
      (connected_proc default_epoch []) (connected_serving _ _) ltac:(decided)). decided.
  - destruct (clock_value (os := acked) (Hquiet := world_quiet _) (raw := direct) 0 first_time
      (connected_proc first_time []) (connected_serving _ _) ltac:(decided)) as (_ & _ & _ & H).
    exact (H OBJECT 100 (fun _ => eq_refl) ltac:(decided) ltac:(decided)).
Defined.

(** The write of [one_write] is a tick; one reader comes before it, the other
    after. *)
Definition before_write (log : list event) : nat := 0.
Definition after_write (log : list event) : nat := 1.
Definition reader (clock : list event -> nat) : OS := following_os 4096 one_write clock.

Lemma one_write_ticks k : rtc tick_step (one_write k) (one_write (S k)).
Proof.
  destruct k as [|k]; [|reflexivity]. unfold one_write, w_init.
  eapply rtc_l; [split; [apply (w_load _ _ _ _ _ second_time)|]|].
  { intros seq ts _ H. injection H as _ <-. exists 99000000002. split; [lia|reflexivity]. }
  eapply rtc_l; [split; [apply w_odd|discriminate]|]. eapply rtc_l; [split; [apply w_write_sec|discriminate]|].
  eapply rtc_l; [split; [apply w_write_nsec|discriminate]|]. apply rtc_once. split; [apply w_even|discriminate].
Qed.

Lemma reader_run k : reads_run (reader (fun _ => k)) 0 one_write (fun _ => k) (connected_proc first_time []).
Proof.
  split; [reflexivity|reflexivity|discriminate|]. apply following_follows; [decided|reflexivity|exists first_time; reflexivity| |lia].
  intros j. pose proof (one_write_ticks j) as H. induction H as [|w1 w2 w3 [H1 _] _ IH]; [reflexivity|].
  exact (rtc_l _ _ _ _ H1 IH).
Qed.

Definition early_read := linbox_virtual_clock_gettime (os := reader before_write) (raw := direct) 1
  CLOCK_MONOTONIC OBJECT (connected_proc first_time []).
Definition late_read := linbox_virtual_clock_gettime (os := reader after_write) (raw := direct) 1
  CLOCK_REALTIME OBJECT (connected_proc first_time []).

Lemma time_order_across_processes_witness :
  match early_read, late_read with
  | Ok ((_, Some ts1), _), Ok ((_, Some ts2), _) => total_ns ts1 <= total_ns ts2 /\ total_ns ts1 <= total_ns first_time
  | _, _ => False
  end.
Proof.
  assert (Hok : match early_read, late_read with Ok _, Ok _ => 0 | _, _ => 1 end = 0) by (vm_compute; reflexivity).
  destruct early_read as [[[rc1 out1] q1]| |] eqn:E1; [|discriminate Hok..].
  destruct late_read as [[[rc2 out2] q2]| |] eqn:E2; [|discriminate Hok..].
  destruct (time_order_across_processes (reader before_write) (reader after_write) direct direct 0 one_write
    before_write after_write 1 1 CLOCK_MONOTONIC CLOCK_REALTIME OBJECT OBJECT _ _ _ _ _ _ _ _ one_write_ticks
    (reader_run 0) (reader_run 1) ltac:(decided) ltac:(decided) ltac:(discriminate) ltac:(discriminate)
    ltac:(reflexivity) ltac:(reflexivity) E1 E2 ltac:(unfold before_write, after_write; lia))
    as (ts1 & ts2 & _ & -> & _ & -> & Hle & H1 & _).
  split; [exact Hle|apply H1].
Defined.

(** The same write behind a store buffer: the controller has finished it before
    the reader begins, but it reaches memory only after the read. *)
Definition written_state (pc : wpc) : wstate :=
  match pc with
  | WIdle => WState 2 200 1 WIdle 1 second_time
  | WNsec _ _ => WState 1 200 1 pc 0 first_time
  | WSec _ _ => WState 1 200 (tv_nsec first_time) pc 0 first_time
  | _ => WState 1 (tv_sec first_time) (tv_nsec first_time) pc 0 first_time
  end.
Definition buffered_stores : list (cell_store * wstate) :=
  [(StSeq 1, written_state (WOdd 0 second_time)); (StSec 200, written_state (WSec 0 second_time));
   (StNsec 1, written_state (WNsec 0 second_time)); (StSeq 2, written_state WIdle)].
Definition buffered_write (k : nat) : tso :=
  match k with
  | O => tso_init 0 first_time
  | S O => Tso (view_cell (w_init 0 first_time)) buffered_stores (written_state WIdle) (w_init 0 first_time)
  | _ => Tso (view_cell (written_state WIdle)) [] (written_state WIdle) (written_state WIdle)
  end.
Definition drain_at_4 (log : list event) : nat := S (write_at_4 log).
Definition buffered_reader : OS := following_os 4096 (fun k => t_seen (buffered_write k)) drain_at_4.

Lemma buffered_write_runs k : rtc (tso_step ticked) (buffered_write k) (buffered_write (S k)).
Proof.
  destruct k as [|[|k]]; [| |reflexivity].
  - eapply rtc_l; [apply (tso_load _ _ [] _ _ _ _ _ _ second_time)|].
    { exists 99000000002. split; [lia|reflexivity]. }
    do 3 (eapply rtc_l; [eapply tso_store; reflexivity|]).
    apply rtc_once, (tso_store _ _ (take 3 buffered_stores) _ _ (StSeq 2) (written_state WIdle)).
    reflexivity.
  - do 4 (eapply rtc_l; [apply tso_drain|]). reflexivity.
Qed.

Lemma buffered_reader_shows : shows buffered_reader 4096 0 buffered_write drain_at_4.
Proof.
  split; [decided|exists first_time; reflexivity| |].
  - intros log e. unfold drain_at_4, write_at_4. rewrite length_app. cbn. repeat case_decide; lia.
  - intros log m. exists (cell_of (t_seen (buffered_write (drain_at_4 log)))). split; [apply lookup_insert_eq|].
    destruct (drain_at_4 log) as [|[|k]]; reflexivity.
Qed.

Lemma buffered_read : exists q,
  linbox_shm_read_time (os := buffered_reader) 2 4096 (Some (Timespec 0 0)) (Proc tt 0 ∅ []) =
  Ok ((0, Some first_time), q) /\ length (p_log q) = 4%nat.
Proof.
  assert (H0 : forall log, (length log < 4)%nat -> t_seen (buffered_write (drain_at_4 log)) = w_init 0 first_time)
    by (intros log Hl; unfold drain_at_4, write_at_4; rewrite decide_True by lia; reflexivity).
  eexists. split.
  - unfold linbox_shm_read_time. rewrite decide_False by discriminate. cbn [read_time_loop]. unfold buffered_reader.
    rewrite !M_bind_eq, load_following, H0 by (cbn; lia). cbv zeta.
    rewrite decide_False by (intros H; apply H; reflexivity).
    do 3 rewrite M_bind_eq, load_following, H0 by (cbn; lia).
    rewrite decide_True by (split; reflexivity). reflexivity.
  - reflexivity.
Qed.

Lemma tso_reads_linearizable_witness : exists q ts,
  linbox_shm_read_time (os := buffered_reader) 2 4096 (Some (Timespec 0 0)) (Proc tt 0 ∅ []) = Ok ((0, Some ts), q) /\
  total_ns first_time <= total_ns ts <= total_ns second_time.
Proof.
  destruct buffered_read as (q & E & Hlen).
  assert (Hq : drain_at_4 (p_log q) = 2%nat) by (unfold drain_at_4, write_at_4; rewrite Hlen; reflexivity).
  destruct (tso_reads_linearizable buffered_reader 4096 0 buffered_write drain_at_4 ticked 2 (Proc tt 0 ∅ []) q _ _ _
    buffered_reader_shows buffered_write_runs ltac:(discriminate) ltac:(rewrite Hq; reflexivity) E)
    as (k & ts & _ & Ho & _ & _ & Hb).
  rewrite Ho in E. exists q, ts. split; [exact E|].
  specialize (Hb (fun cur ts H => H)). rewrite Hq in Hb. exact Hb.
Defined.

(** Two threads, three words drawn twice. *)
Lemma threads_share_stream_witness :
  let '(g1, w) := linbox_prng_next_u64 (seeded 11) in
  draws_to false (all_idle 2 (seeded 11))
    (Pool (prng_words 3 g1).2
       [TState None [w]; TState None (w :: (prng_words 3 g1).1 ++ (prng_words 3 g1).1)]).
Proof.
  exact (proj2 (proj2 (threads_share_stream (seeded 11) 2 3 (all_idle 2 (seeded 11)) ltac:(decided)))).
Defined.

Lemma memory_orders_verdict_witness : exists w l,
  reorders must_precede_c (write_time_accesses 2 second_time) w /\ interleaves w read_time_accesses l /\
  accepts (execute l (Cell 2 100 5)).2 = Some (Timespec 200 5).
Proof.
  exact (proj1 (proj2 (memory_orders_verdict 2 second_time 100 5 ltac:(decided) eq_refl))).
Defined.

(** ** Types *)

(** A machine as before whose answers have their types for every call, and where
    a client has sent a message. *)
Definition typed_answer_of (incoming : list Z) (x : ext) : answer :=
  match x with
  | XRead _ n => let d := take (Z.to_nat n) incoming in Answer (Z.of_nat (length d)) 0 d
  | XWrite _ bytes => Answer (Z.min (Z.of_nat (length bytes)) 4096) 0 []
  | XPoll _ _ => Answer 1 0 [0; 1]
  | _ => world_answer [] x
  end.
Definition typed_world (incoming : list Z) : OS := answers (typed_answer_of incoming).

Lemma typed_world_typed incoming : Forall is_byte incoming -> (length incoming <= 4096)%nat ->
  TypedOS (os := typed_world incoming).
Proof.
  intros HF Hl. split; [intros log m Hm; exact Hm|]. intros log x. unfold answer_typed.
  destruct x; cbn [os_answer typed_world answers typed_answer_of world_answer ret data];
    try (split; [unfold in_s; lia|first [exact I|repeat constructor; unfold in_s; lia|unfold in_s; lia]]).
  - rewrite length_take. split; [unfold in_s; lia|]. split; [lia|]. split; [lia|apply Forall_take, HF].
  - case_decide; (split; [cbn; unfold in_s; lia|exact I]).
Qed.

Lemma two_processes_typed : layout_typed two_processes.
Proof.
  assert (Hs : forall n, in_u 32 n -> slot_typed (ProcessSlot n 0 0 (replicate 16 0)))
    by (intros n Hn; split; [exact Hn|decided|decided|split; decided]).
  split; try decided; try (split; decided).
  split; [reflexivity|]. constructor; [apply Hs; decided|]. constructor; [apply Hs; decided|].
  apply Forall_replicate, zero_slot_typed.
Qed.

(** One client, which sends SET_TIME. *)
Definition one_client : loop_state := LoopState (7 :: replicate 63 0) 1 (Timespec 5 0) (Some manager).
Definition set_time_world : OS := typed_world (message_bytes set_time_message).

Lemma controller_types_witness :
  match main_iteration (os := set_time_world) 9 one_client (controller_proc two_processes) with
  | Ok (Some st, q) => loop_typed st /\ memory_typed (p_mem q)
  | _ => False
  end.
Proof.
  assert (Hok : match main_iteration (os := set_time_world) 9 one_client (controller_proc two_processes) with
    | Ok (Some _, _) => 0 | _ => 1 end = 0) by (vm_compute; reflexivity).
  destruct (main_iteration (os := set_time_world) _ _ _) as [[[st|] q]| |] eqn:E; [|discriminate Hok..].
  destruct (controller_types (os := set_time_world)
    (Hos := typed_world_typed (message_bytes set_time_message) ltac:(decided) ltac:(vm_compute; lia)) [] 0 9 one_client (controller_proc two_processes))
    as [H _].
  - intros r l Hl. cbn [controller_proc p_mem] in Hl. apply lookup_singleton_Some in Hl as [_ <-]. exact two_processes_typed.
  - decided.
  - split; try decided; split; decided.
  - apply H in E as (Hm & _ & Hst). auto.
Defined.

(** A program that reads the clock directly and through libc, draws from a
    device, and reseeds, under the filter its shim installs. *)
Definition some_calls : list api :=
  [ApiSyscall SYS_clock_gettime 0 OBJECT 0 0 0 0; ApiTime OBJECT; ApiOpen (Some "/dev/urandom") 0;
   ApiRead 1000000 OBJECT 12; ApiSrand 42; ApiRand; ApiArc4randomUniform 6; ApiClose 1000000;
   ApiExecve "/bin/true" ["true"] None; ApiTimes OBJECT].
Definition acking_world : OS := typed_world ack.
Definition loaded_proc : proc shim :=
  Proc (loaded_shim ["LD_PRELOAD=/lib/liblinbox.so"]) 0 {[4096 := two_processes]} [].
Definition some_run := (linbox_ctor (os := acking_world) (raw := kernel_syscall (os := acking_world) 2 2) ;;
  run_calls (os := acking_world) (raw := kernel_syscall (os := acking_world) 2 2) 20 some_calls)
  loaded_proc.

Lemma shim_types_witness :
  match some_run with
  | Ok (results, q) => length results = 10%nat /\ shim_typed (p_st q) /\ memory_typed (p_mem q)
  | _ => False
  end.
Proof.
  assert (Hok : match some_run with Ok (results, _) => length results | _ => 0%nat end = 10%nat) by (vm_compute; reflexivity).
  destruct some_run as [[results q]| |] eqn:E; [|discriminate Hok..].
  assert (Hm : memory_typed {[4096 := two_processes]})
    by (intros r l Hl; apply lookup_singleton_Some in Hl as [_ <-]; exact two_processes_typed).
  destruct (shim_types acking_world ["LD_PRELOAD=/lib/liblinbox.so"] 2 2 20 some_calls loaded_proc q results
    (typed_world_typed ack ltac:(decided) ltac:(vm_compute; lia)) eq_refl Hm) as (H1 & H2 & _).
  - repeat constructor; decided.
  - exact E.
  - auto.
Defined.

(** ** Programs that start a controller *)

(** A host in October 2025 where everything works: a shell under the shim prints
    the epoch, without it the host's date; the forked client reports process 100. *)
Definition host_answer (x : ext) : answer :=
  match x with
  | XReal fn args _ =>
      if decide (fn = "fork") then Answer 7 0 []
      else if decide (fn = "pipe") then Answer 0 0 [10; 11]
      else if decide (fn = "waitpid") then Answer (nth 0 args 0) 0 [0]
      else if decide (fn = "clock_gettime") then Answer 0 0 [1760000000; 5]
      else if decide (fn = "fgets") then
        Answer OBJECT 0 (string_bytes (if decide (nth 1 args 0 = 1) then "Wed Jan  1 00:00:00 UTC 2025" else "Thu Oct  9 08:53:20 UTC 2025"))
      else Answer 0 0 []
  | XRealExec _ _ _ envp => Answer (if getenv (default [] envp) "LD_PRELOAD" is Some _ then 1 else 2) 0 []
  | XRead _ _ => Answer 24 0 (report_bytes (Report 12345 1735689601 100))
  | _ => world_answer [] x
  end.
Definition host : OS := answers host_answer.

Definition detached_proc : proc shim :=
  Proc (Shim (set_controller_connected false connected_state) ∅ (replicate 16 (VirtualFd 0 0)) 0
          ["LD_PRELOAD=/lib/liblinbox.so"]) 0 {[4096 := two_processes]} [].
Definition process_preload_run :=
  process_preload_main (os := host) (raw := kernel_syscall (os := host) 1 1) 1 detached_proc.
Definition linbox_preload_run :=
  linbox_preload_main (os := host) (raw := kernel_syscall (os := host) 1 1) detached_proc.

Lemma host_is_parent_host : parent_host (os := host).
Proof. split; [intros log m H; exact H|intros log symbol; discriminate|intros log; discriminate]. Qed.

Lemma host_mapped : mapped (os := host) {[4096 := two_processes]}.
Proof. intros log fd len r _. exists two_processes. split; [apply lookup_singleton_eq|reflexivity]. Qed.

Lemma preload_tests_stop_controller_witness :
  (exists status q new, process_preload_run = Ok (status, q) /\
     p_log q = new /\ controller_stopped process_statuses new status) /\
  (exists status q new, linbox_preload_run = Ok (status, q) /\
     p_log q = new /\ controller_stopped [0; 1; 2; 3; 4] new status).
Proof.
  destruct (preload_tests_stop_controller (os := host) 1 1 1 detached_proc) as (_ & _ & H).
  exact (H host_is_parent_host (conj eq_refl eq_refl) host_mapped).
Defined.

Definition crashed_proc : proc shim :=
  Proc (p_st (connected_proc first_time [])) 0 crashed_memory [].

Lemma crashed_proc_orphaned : orphaned crashed_proc.
Proof. split; [reflexivity|]. split; [reflexivity|]. split; [discriminate|]. exists crashed_region. split; reflexivity. Qed.

Lemma crashed_writer_hangs_clients_witness :
  linbox_virtual_now (os := acked) (raw := direct) 1000 crashed_proc = OutOfFuel /\
  times (os := acked) (raw := direct) 1000 NULL crashed_proc = OutOfFuel /\
  clock_gettime (os := acked) (raw := direct) 1000 CLOCK_REALTIME OBJECT crashed_proc = OutOfFuel.
Proof.
  destruct (crashed_writer_hangs_clients (os := acked) (Hquiet := world_quiet _) (raw := direct)
    crashed_proc crashed_proc_orphaned 1000 CLOCK_REALTIME OBJECT NULL NULL NULL)
    as (H1 & _ & _ & H2 & H). split; [exact H1|]. split; [exact H2|].
  apply H; [discriminate|decided|right; reflexivity].
Defined.

(** ** Trapped system calls *)
Definition filter_log : list event :=
  [(XSigaction SIGSYS, Answer 0 0 []);
   (XPrctl (PR_SET_SECCOMP :: SECCOMP_MODE_FILTER :: filter_words filter), Answer 0 0 [])].

Lemma filter_log_trapping : trapping filter_log.
Proof. split; [|reflexivity]. split; [discriminate|]. constructor; [reflexivity|constructor]. Qed.


Lemma no_child_survives_filter_witness :
  fork (os := acked) (raw := kernel_syscall (os := acked) 1 50) (connected_proc first_time filter_log) = OutOfFuel.
Proof.
  apply (no_child_survives_filter (os := acked) (kernel := kernel_syscall (os := acked)) 1 50 (connected_proc first_time filter_log) filter_log_trapping);
    [discriminate|reflexivity].
Defined.

(** Nobody listens. *)
Definition alone : OS := answers (fun x => match x with XSocket => Answer (-1) 97 [] | _ => world_answer [] x end).

Lemma fallback_under_filter_diverges_witness : exists q,
  linbox_ctor (os := alone) (raw := kernel_syscall (os := alone) 1 1) (Proc (loaded_shim []) 0 ∅ []) = Ok (tt, q) /\
  time (os := alone) (raw := kernel_syscall (os := alone) 5 50) 5 NULL q = OutOfFuel.
Proof.
  destruct (fallback_under_filter_diverges (os := alone) (kernel := kernel_syscall (os := alone)) 1 1 [] ∅) as (q & Hq & H).
  - split; [intros log; reflexivity|reflexivity|reflexivity].
  - reflexivity.
  - exists q. split; [exact Hq|]. apply (H 5%nat 50%nat NULL OBJECT NULL). discriminate.
Defined.

(** ** Processes *)
Lemma acked_malloc : malloc_works (os := acked).
Proof. intros log n. discriminate. Qed.

(** SIGCHLD alone, and the flags of a thread. *)
Lemma clone_record_verdict_witness :
  (exists r b, rtc (clone_step 17) (cloned 5 17 6) (CloneState r true (ChGone b 5 6))) /\
  rtc (clone_step 0xd0f00) (cloned 5 0xd0f00 6) (CloneState None true ChFault).
Proof.
  split.
  - destruct (proj1 (clone_record_verdict 5 17 6) (or_introl eq_refl) (cloned 5 17 6) (rtc_refl _ _)) as (_ & _ & H).
    exact H.
  - apply (clone_record_verdict 5 0xd0f00 6); [discriminate|reflexivity].
Defined.

Lemma inject_runtime_env_spec_witness : exists arr q,
  linbox_inject_runtime_env (os := acked) (Some ["PATH=/bin"]) (connected_proc first_time []) = Ok (arr, q) /\
  env_strings arr = Some ["PATH=/bin"; "LD_PRELOAD=/lib/liblinbox.so"].
Proof.
  destruct (inject_runtime_env_spec (os := acked) (Some ["PATH=/bin"]) (connected_proc first_time []) acked_malloc)
    as (arr & q & H & _ & _ & Hsome & _). exists arr, q. split; [exact H|].
  apply Hsome. discriminate.
Defined.

Lemma exec_family_no_leak_witness :
  match execle (os := acked) "/bin/sh" ["sh"; "-c"] (Some ["PATH=/bin"]) (connected_proc first_time []) with
  | Ok (rc, q) => rc = -1 /\ live_blocks (p_log q) ≡ₚ []
  | _ => False
  end.
Proof.
  assert (Hrc : match execle (os := acked) "/bin/sh" ["sh"; "-c"] (Some ["PATH=/bin"]) (connected_proc first_time []) with
    Ok (rc, _) => rc | _ => 0 end = -1) by (vm_compute; reflexivity).
  destruct (execle (os := acked) "/bin/sh" ["sh"; "-c"] (Some ["PATH=/bin"]) (connected_proc first_time []))
    as [[rc q]| |] eqn:E; [|discriminate Hrc..].
  split; [exact Hrc|].
  apply (exec_family_no_leak (os := acked) "/bin/sh" ["sh"; "-c"] (Some ["PATH=/bin"])
    (connected_proc first_time []) q rc [] ltac:(reflexivity)). do 7 right. left. exact E.
Defined.

Lemma forked_child_own_stream_witness : exists q,
  fork (os := acked) (raw := acked_kernel 1 1) (connected_proc first_time []) = Ok (0, q) /\
  prng (lb (p_st q)) = seeded (linbox_prng_derive_process_seed 7 100).
Proof.
  destruct (forked_child_own_stream (os := acked) (kernel := acked_kernel) (Hquiet := world_quiet _) 1 1
    (connected_proc first_time []) 3 0 0 4 4096 (region first_time) 100 eq_refl
    (acked_listening _) (acked_region _ _) (acked_acknowledges _) (fun _ => eq_refl)
    ltac:(discriminate) eq_refl) as (q & H & _ & _ & _ & He & Hp & _).
  exists q. split; [exact H|]. rewrite Hp, He. reflexivity.
Defined.

(** A shim's HELLO and SET_TIME reach the controller over one connection, and
    another shim attached to the region reads the new time. *)
Definition fresh_conn : conn := Conn (Some manager) (controller_proc two_processes) [] [] true.

Lemma request_takes_effect_witness : exists q new l' log,
  requests (os := wired (world []) (world []) 3 7 [] fresh_conn) 3 [hello; set_time_message] fresh_proc = Ok (true, q) /\
  p_log q = new /\ p_mem (c_ctl (conn_after (world []) 3 7 fresh_conn new)) !! 4096 = Some l' /\
  linbox_virtual_now (os := acked) (raw := direct) 1 (Proc (p_st (connected_proc first_time [])) 0 {[4096 := l']} []) =
    Ok ((0, Some (Timespec 1700000000 250)),
        Proc (p_st (connected_proc first_time [])) 0 {[4096 := l']} log).
Proof.
  destruct (request_takes_effect (world []) (world []) 3 7 [hello; set_time_message] manager fresh_conn
    two_processes (VClock first_time 7) fresh_proc)
    as (q & new & m' & l' & Hx & _ & _ & Hlog & _ & _ & _ & Hmem & _ & _ & Hnow).
  - apply world_quiet.
  - repeat split.
  - apply lookup_singleton_eq.
  - exact region_represents.
  - reflexivity.
  - constructor; [split; [decided|split; [reflexivity|discriminate]]|].
    constructor; [split; [decided|split; [reflexivity|discriminate]]|constructor].
  - destruct (Hnow acked direct 0%nat (Proc (p_st (connected_proc first_time [])) 0 {[4096 := l']} []))
      as (log & H); [apply world_quiet|reflexivity|reflexivity|discriminate|apply lookup_singleton_eq|].
    exists q, new, l', log. split; [exact Hx|]. split; [exact Hlog|]. split; [|exact H].
    rewrite Hmem. apply lookup_insert_eq.
Defined.

(** ** Client programs *)
Lemma connected_drawing ts log :
  drawing (connected_proc ts log) (VirtualFd 1000000 1 :: replicate 15 (VirtualFd 0 0)) (prng connected_state).
Proof. constructor; [reflexivity|apply connected_attached|reflexivity|reflexivity|decided]. Qed.

Lemma one_open_valid : table_valid (VirtualFd 1000000 1 :: replicate 15 (VirtualFd 0 0)).
Proof.
  split; [reflexivity|]. intros [|i] v Hi Hv; [injection Hi as <-; reflexivity|].
  apply lookup_replicate in Hi as [-> _]. exfalso. apply Hv. reflexivity.
Qed.

Lemma random_preload_repeatable_witness : exists uni, 0 <= uni < 100 /\
  forall fuel, prng_period <= Z.of_nat fuel -> exists first rest q,
  random_preload_main (os := acked) (raw := direct) fuel (connected_proc first_time []) = Ok ((0, first :: rest), q) /\
  first = print_hex (prng_bytes 16 (prng connected_state)).
Proof.
  destruct (random_preload_repeatable (prng connected_state)) as (uni & Hu & H); [decided|].
  exists uni. split; [exact Hu|]. intros fuel Hf.
  destruct (H acked direct fuel (connected_proc first_time []) _ (world_quiet _) Hf (connected_drawing _ _) one_open_valid)
    as (q & Hq & _); [intros Hall; apply Forall_cons in Hall as [_ Hall]; inversion Hall; contradiction|].
  eexists _, _, q. split; [exact Hq|reflexivity].
Defined.

(** A libc whose [syscall] meets the filters. *)
Definition filtered_answer (log : list event) (x : ext) : answer :=
  match x with
  | XReal "syscall" (nr :: _) _ =>
      let v := kernel_verdict log nr in
      if decide (v = SECCOMP_RET_ALLOW) then Answer 21 0 [] else Answer (-1) (Z.land v SECCOMP_RET_DATA) []
  | _ => world_answer [] x
  end.
Definition filtered : OS := {| os_answer := filtered_answer; os_interfere _ m := m |}.

Lemma filtered_libc : plain_libc (os := filtered).
Proof.
  split; try (intros; reflexivity); [discriminate| |].
  - intros log Hv. cbn [os_answer filtered filtered_answer]. rewrite Hv. reflexivity.
  - intros log nr args e Hv He. cbn [os_answer filtered filtered_answer].
    destruct (errno_verdict e ltac:(lia)) as (Hd & Ha & _). rewrite Hv, decide_False, Hd by exact Ha. auto.
Qed.

Lemma filtered_sheltered ts :
  sheltered ts (VirtualFd 1000000 1 :: replicate 15 (VirtualFd 0 0)) (prng connected_state) (connected_proc ts filter_log).
Proof. split; [apply connected_serving|apply connected_drawing|apply filter_log_trapping|reflexivity]. Qed.

Lemma seccomp_helper_verdict_witness :
  let main := seccomp_helper_main (os := filtered) (raw := kernel_syscall (os := filtered) 1 1) 1 in
  (exists q, main (connected_proc default_epoch filter_log) = Ok (0, q)) /\
  (exists q, main (connected_proc first_time filter_log) = Ok (3, q)).
Proof.
  cbv zeta. split.
  - exact (seccomp_helper_verdict filtered (kernel_syscall (os := filtered)) 0 0 0 default_epoch _ _ _
      (fun _ _ => eq_refl) (kernel_syscall_seccomp (os := filtered)) filtered_libc ltac:(decided) (filtered_sheltered default_epoch)).
  - exact (seccomp_helper_verdict filtered (kernel_syscall (os := filtered)) 0 0 0 first_time _ _ _
      (fun _ _ => eq_refl) (kernel_syscall_seccomp (os := filtered)) filtered_libc ltac:(decided) (filtered_sheltered first_time)).
Defined.
